(* ===== verification/_CoqProject ===== *)
-Q . S2P
Prelude.v
Mem.v
LibStr.v
State.v
Pic.v
Console.v
Rtc.v
Keyboard.v
Irq.v
Terminal.v
Paging.v
Filesystem.v
Syscall.v
Process.v
Idt.v
Pit.v
Boot.v
User.v
System.v
Programs.v
Shell.v
SelfTest.v
Counter.v
Grep.v
Pingpong.v
Session.v
Blink.v
Fish.v
Demo.v
Witness.v
SystemWitness.v
ProgramWitness.v
