(* ===== verification/Prelude.v ===== *)
(** * LumettaOS, verified

    A development over the kernel in src/student-distrib/, the user library and programs
    in src/syscalls/ and the fish animation in src/fish/.  The kernel is a single-processor teaching system: it
    boots from a multiboot loader, keeps a read-only file system image in memory, runs
    up to six programs one above the other (a program runs until it halts, its parent
    waits), and offers eight working system calls.

    ** The parts and where they are

    State.v holds the state of the whole machine, [kst]: the memory, the history of port
    accesses, the interrupt flag and stack pointer, and a record per driver.  Each file
    below models one C file; definitions have the names of the C functions.

    - Prelude.v: machine integers, C loops, partial lists; this header.
    - Mem.v: the interface [Store] of a [char*] (byte load and store, and the location an
      address denotes) with its laws, and its two instances: the virtual address space
      and an array object.  [region], [apart] and [only_changes] are the vocabulary of
      frame conditions.
    - LibStr.v: lib.c, strings and memory.  Console.v: lib.c, the screen and printf.
    - State.v: the state, the outcome type [res] of kernel code, its monad [K], and the
      interfaces [Device] (what a port read returns), [Interrupts] (what an interrupt
      does) and [Symbols] (addresses the linker chooses).
    - Pic.v: i8259.c.  Rtc.v: rtc.c.  Keyboard.v: keyboard.c.  Irq.v: the interrupt
      wrappers of handler_wrapper.S, an instance of [Interrupts].  Terminal.v: terminal.c.
    - Paging.v: paging.c and [map_program] of syscall.c, with the page walk of the
      processor as the specification.
    - Filesystem.v: filesystem.c and [get_pcb].  Syscall.v: syscall.c and the dispatcher.
      Process.v: the theorems on execute, halt, getargs and vidmap.
    - Idt.v: idt.c.  Pit.v: pit.c.  Boot.v: [entry] of kernel.c.
    - User.v: the traps and routines a program is linked with (ece391syscall.S,
      ece391support.c), and what each call does for a process in user mode.
      Programs.v: cat, ls, hello, testprint.  Shell.v: the shell.  SelfTest.v: the tests
      of the system calls (ece391syserr.c).  Counter.v: counter.  Grep.v: grep.
      Pingpong.v: pingpong.  Session.v: the shell with the programs it runs.
    - Blink.v: blink.S of src/fish, the list of blinking characters a clock tick redraws,
      over an abstract byte store, with the allocator of fish.c as its parameter.
      Fish.v: fish.c, the program over that library and the system calls.
    - System.v: the kernel under any processes.  [kernel_ok p s] is the invariant of the
      whole state while process [p] runs; [step] is what can happen then: a store the
      processor allows, an interrupt, a system call that returns, starts a program or
      ends one.
    - Demo.v: a concrete machine (an image with two entries, a keyboard, symbols).
      Witness.v, SystemWitness.v, ProgramWitness.v: every theorem with hypotheses applied
      to it.

    ** How the parts interact

    A system call enters through [User.int80], which is the gate and the [iret] around
    [Syscall.syscall_wrapper]; that calls the handler, which calls the operation of the
    descriptor's table ([op_read], [op_write]), which is a driver's.  A driver that waits
    ([terminal_read], [rtc_read]) takes interrupts from the queue [k_irqs], the sequence
    of interrupts to come, until its flag is set: the theorems hold for every sequence,
    so for every interleaving of keyboard and clock.  [execute] ends in the outcome
    [EnterUser] (the [iret] into the program), [halt] in [Resume] on the stack its
    [execute] saved.

    ** What the theorems show

    - The system as a whole: from the boot loader to the first instruction of the shell
      ([Boot.boot_starts_shell]); from keys typed at the prompt, through the interrupt
      handler, the line editor, the shell, execute, the file system, cat and halt, back to
      the prompt, for any number of lines ([Session.cat_session]); unknown commands,
      missing files and missing arguments ([Shell.shell_reports_unknown],
      [Programs.cat_reports]); ls and hello ([Programs.ls_lists_directory],
      [Programs.hello_greets]).
    - The system under arbitrary programs: every state reachable from power-on is well
      formed ([System.power_on_ok]); each system call, with any number and any arguments
      [System.args_ok] admits, ends in one of the ways a call can end and keeps the
      invariant ([System.system_calls_safe]); execute is a call: whatever the processes
      above do, their parent goes on where it was, with its memory and descriptors
      ([System.execute_is_a_call]).  What [args_ok] excludes are the calls that are not
      safe, because the kernel does not check pointers; [User.write_overwrites_kernel]
      proves one of them, a text with tabs, to be an attack.
    - Programs: grep prints exactly the matching lines of the texts of a directory
      ([Grep.grep_searches]); the counter ends for every answer ([Counter.counter_ends]);
      pingpong shows one frame per tick of the clock and waits when the ticks stop
      ([Pingpong.pingpong_waits]); the fish animation shows on the screen what a list of
      blinking characters does under four hundred ticks and ends ([Fish.fish_shows]),
      its requests, on pointers through an array, refining the list
      ([Blink.ioctl_refines]); the kernel passes its own system call tests ([SelfTest.syserr_passes]).
    - Exceptions and the screen for programs: [Idt.exceptions_report],
      [Process.vidmap_spec].
    - Processes: execute starts the right program in the right state, halt returns to
      it or restarts the first shell, failing commands change nothing, arguments.
    - Memory: the address map the model uses is what the processor computes from the
      tables the kernel builds; no program reaches another's memory or the kernel's.
    - Drivers: the keyboard handler refines a line editor with its echo; the terminal
      and the printers refine a linear screen; the virtual clock ticks at the rate set;
      the interrupt controllers' masks.
    - Files: whole-file reads across blocks, lookups, directory listings, descriptors.
    - Library: each routine against its specification, conversions round-trip, the word
      copies equal byte copies, the user's routines agree with the kernel's.

    Specifications with a life of their own: [Console.scr] and [spec_putc] (the screen),
    [Keyboard.ed_step] and [spec_key] (the line editor and its echo), [Paging] (the page
    walk), [Filesystem.file_slice] (the bytes of a file), [LibStr.cstr], [filled],
    [eq_upto] (strings), [Process.started], [User.running], [User.ustep] (processes).
    [Programs.Stream] is the interface the copying loop of cat is proved against; the
    kernel's files discharge it.  [Grep.grep_out] is grep on texts as lists of lines;
    [SelfTest.passes] composes tests; [System.TablessKeyboard] is what the invariant needs
    of the keyboard, since echoing a tab can move the cursor off the screen.

    ** Bounds

    Loops that scan for a terminator are cut off by a bound and give [NoFuel] beyond it;
    the theorems prove results, so no bound is met in them: 32 digits for itoa, 64 for its
    buffers, 4096 characters for strlen, formats, the shell's comparison and runs of
    spaces, 128 for strcpy of arguments.  [sys_execute] and [sys_halt] call each other;
    a trap allows depth 2, which a first shell that halts uses up.  The loops of
    programs take fuel as an argument and the theorems say how much is enough (one more
    than the bytes of the file, the entries of the directory, the lines typed; for
    pingpong, which never ends, a round for each 152 ticks).  The
    loops of grep over its buffer are cut off at 1030, which its 1025 bytes do not reach.

    ** Limits of the model

    Interrupts are taken at the loops that wait for them, not between any two
    instructions.  Control blocks and kernel stacks are state of their own, not bytes of
    memory, so a stack overflow into a control block is not expressed.  Page faults of
    user code are not taken; user code runs in C steps, not instructions, and a program
    file is its bytes: that a file holds the code of cat is a hypothesis
    ([Session.runs_as], for the function [code] that says what the bytes of a page do).

    ** Not modelled

    scheduling.c (comments only); tests.c and debug.h (switched off); boot.S and the
    tables of x86_desc.S (assembly run before C, or data); saving and restoring of
    registers in handler_wrapper.S; sigtest (it installs signal handlers, which the
    kernel does not have: [User.no_signals]); ece391emulate.c, which replaces the system
    calls by calls of Linux and of ncurses.

    ** Next

    The other programs run from the prompt as cat is ([Session.program_returns] is about
    any program whose run is a [User.ustep]). *)

From stdpp Require Import base list numbers gmap.
From Stdlib Require Import ZArith Lia.

#[global] Open Scope Z_scope.

(** ** Machine integers

    A value of a C integer type is the [Z] it denotes; [u8], [u16], [u32] are the
    conversions to the unsigned types of [types.h], [i8] and [i32] those to the
    signed types (two's complement, as the target compiler converts). *)

Definition u8 (x : Z) : Z := x mod 256.
Definition u16 (x : Z) : Z := x mod 65536.
Definition u32 (x : Z) : Z := x mod 4294967296.
Definition i8 (x : Z) : Z := (x + 128) mod 256 - 128.
Definition i32 (x : Z) : Z := (x + 2147483648) mod 4294967296 - 2147483648.

(** ** Loops

    [for_up n i body s] runs [body i], [body (i+1)], ... [n] times;
    [for_loop lo hi body] is [for (i = lo; i < hi; i++) body].
    [while fuel c b s] is [while (c) b] cut off after [fuel] iterations: [None]
    says that the bound was reached with the condition still true. *)

Fixpoint for_up {A} (n : nat) (i : Z) (body : Z -> A -> A) (s : A) : A :=
  match n with
  | O => s
  | S n' => for_up n' (i + 1) body (body i s)
  end.

Definition for_loop {A} (lo hi : Z) (body : Z -> A -> A) (s : A) : A :=
  for_up (Z.to_nat (hi - lo)) lo body s.

Fixpoint while {A} (fuel : nat) (c : A -> bool) (b : A -> A) (s : A) : option A :=
  if c s then match fuel with O => None | S f => while f c b (b s) end else Some s.

(** ** Tactics *)

Create HintDb words.
Create HintDb store.
Create Rewrite HintDb words.
Create Rewrite HintDb store.
Create HintDb frame.

(** Splits every [if] whose condition is a boolean comparison on [Z] and turns the
    condition into a proposition. *)
Ltac split_if :=
  match goal with
  | |- context [if ?b then _ else _] => destruct b eqn:?
  | H : context [if ?b then _ else _] |- _ => destruct b eqn:?
  end.

Ltac unwrap := unfold u8, u16, u32, i8, i32 in *.

(** Linear arithmetic with [/] and [mod] by constants. *)
Ltac modlia := Z.div_mod_to_equations; lia.

(** ** Integer lemmas *)

Section Words.

Lemma u8_range x : 0 <= u8 x < 256.
Proof. unfold u8. modlia. Qed.

Lemma u16_range x : 0 <= u16 x < 65536.
Proof. unfold u16. modlia. Qed.

Lemma u32_range x : 0 <= u32 x < 4294967296.
Proof. unfold u32. modlia. Qed.

Lemma i32_range x : -2147483648 <= i32 x < 2147483648.
Proof. unfold i32. modlia. Qed.

Lemma u8_small x : 0 <= x < 256 -> u8 x = x.
Proof. apply Z.mod_small. Qed.

Lemma u16_small x : 0 <= x < 65536 -> u16 x = x.
Proof. apply Z.mod_small. Qed.

Lemma u32_small x : 0 <= x < 4294967296 -> u32 x = x.
Proof. apply Z.mod_small. Qed.

Lemma i32_small x : -2147483648 <= x < 2147483648 -> i32 x = x.
Proof. unfold i32. intros. rewrite Z.mod_small; lia. Qed.

Lemma u8_u8 x : u8 (u8 x) = u8 x.
Proof. apply u8_small, u8_range. Qed.

Lemma u32_u32 x : u32 (u32 x) = u32 x.
Proof. apply u32_small, u32_range. Qed.

Lemma i32_u32 x : i32 (u32 x) = i32 x.
Proof. unfold i32, u32. by rewrite Zplus_mod_idemp_l. Qed.

Lemma u32_i32 x : u32 (i32 x) = u32 x.
Proof. unfold i32, u32. rewrite Zminus_mod_idemp_l. f_equal. lia. Qed.

Lemma u32_add_l x y : u32 (u32 x + y) = u32 (x + y).
Proof. unfold u32. apply Zplus_mod_idemp_l. Qed.

Lemma u32_add_r x y : u32 (x + u32 y) = u32 (x + y).
Proof. unfold u32. apply Zplus_mod_idemp_r. Qed.

(** Signed and unsigned characters agree on equality: a comparison of [char]s can
    be read on the bytes. *)
Lemma i8_inj x y : 0 <= x < 256 -> 0 <= y < 256 -> i8 x = i8 y -> x = y.
Proof. unfold i8. modlia. Qed.

(** A predicate that evaluates to true on 0, 1, ..., n-1 holds there. *)
Lemma forallb_below (p : Z -> bool) n :
  forallb (fun i => p (Z.of_nat i)) (seq 0 n) = true ->
  forall x, 0 <= x < Z.of_nat n -> p x = true.
Proof.
  intros T x Hx. rewrite forallb_forall in T. specialize (T (Z.to_nat x)).
  rewrite Z2Nat.id in T by lia. apply T, in_seq. lia.
Qed.

End Words.

#[export] Hint Resolve u8_range u16_range u32_range i32_range : words.
#[export] Hint Rewrite u8_u8 u32_u32 i32_u32 u32_i32 u32_add_l u32_add_r : words.

(** ** Loop rules *)

Section Loops.
Context {A : Type}.
Implicit Types s : A.

Lemma for_up_inv (P : Z -> A -> Prop) n i body s :
  P i s ->
  (forall j t, i <= j < i + Z.of_nat n -> P j t -> P (j + 1) (body j t)) ->
  P (i + Z.of_nat n) (for_up n i body s).
Proof.
  revert i s. induction n as [|n IH]; intros i s H0 Hs; simpl.
  - by rewrite Z.add_0_r.
  - replace (i + Z.of_nat (S n)) with (i + 1 + Z.of_nat n) by lia.
    apply IH; [apply Hs; [lia|done]|intros j t Hj; apply Hs; lia].
Qed.

(** Invariant rule for a counted loop. *)
Lemma for_loop_inv (P : Z -> A -> Prop) lo hi body s :
  lo <= hi -> P lo s ->
  (forall j t, lo <= j < hi -> P j t -> P (j + 1) (body j t)) ->
  P hi (for_loop lo hi body s).
Proof.
  intros Hle H0 Hs. unfold for_loop.
  replace hi with (lo + Z.of_nat (Z.to_nat (hi - lo))) at 1 by lia.
  apply for_up_inv; [done|]. intros j t Hj. apply Hs. lia.
Qed.

Lemma for_loop_nil lo hi body s : hi <= lo -> for_loop lo hi body s = s.
Proof. intros. unfold for_loop. by replace (Z.to_nat (hi - lo)) with O by lia. Qed.

(** The last iteration of a counted loop. *)
Lemma for_loop_last lo hi body s :
  lo <= hi -> for_loop lo (hi + 1) body s = body hi (for_loop lo hi body s).
Proof.
  intros Hle. unfold for_loop. replace (Z.to_nat (hi + 1 - lo)) with (S (Z.to_nat (hi - lo))) by lia.
  replace hi with (lo + Z.of_nat (Z.to_nat (hi - lo))) at 2 by lia.
  generalize (Z.to_nat (hi - lo)) as n. clear hi Hle. intros n. revert lo s.
  induction n as [|n IH]; intros lo s; simpl; [by rewrite Z.add_0_r|].
  simpl in IH. rewrite IH. f_equal. lia.
Qed.

(** What every iteration preserves, the loop preserves. *)
Lemma for_loop_pres (P : A -> Prop) lo hi body s :
  P s -> (forall j t, lo <= j < hi -> P t -> P (body j t)) -> P (for_loop lo hi body s).
Proof.
  intros H0 Hs. destruct (Z.le_gt_cases lo hi).
  - by apply (for_loop_inv (fun _ => P)).
  - by rewrite for_loop_nil by lia.
Qed.

(** A loop that only updates one component of the state is a loop on that component. *)
Lemma for_loop_lens {B} (get : A -> B) (put : B -> A -> A) (f : Z -> B -> B) lo hi s :
  (forall t, put (get t) t = t) -> (forall b t, get (put b t) = b) ->
  (forall b b' t, put b (put b' t) = put b t) ->
  for_loop lo hi (fun i t => put (f i (get t)) t) s = put (for_loop lo hi f (get s)) s.
Proof.
  intros H1 H2 H3. unfold for_loop. generalize (Z.to_nat (hi - lo)) as n. intros n. revert lo s.
  induction n as [|n IH]; intros lo s; simpl; [by rewrite H1|]. by rewrite IH, H2, H3.
Qed.

(** Invariant rule for [while]: what the result satisfies. *)
Lemma while_inv (P : A -> Prop) c b fuel s s' :
  P s -> (forall t, P t -> c t = true -> P (b t)) ->
  while fuel c b s = Some s' -> P s' /\ c s' = false.
Proof.
  intros H0 Hs. revert s H0. induction fuel as [|f IH]; intros s H0; simpl;
    destruct (c s) eqn:E; intros Hw; simplify_eq; eauto.
Qed.

(** Termination rule: an invariant and a measure that every iteration decreases
    make any fuel at least the measure enough. *)
Lemma while_terminates (P : A -> Prop) (m : A -> Z) c b fuel s :
  P s -> (forall t, P t -> c t = true -> P (b t) /\ 0 <= m (b t) < m t) ->
  m s <= Z.of_nat fuel -> exists s', while fuel c b s = Some s'.
Proof.
  intros H0 Hs. revert s H0. induction fuel as [|f IH]; intros s H0 Hm; simpl;
    destruct (c s) eqn:E; eauto; destruct (Hs s H0 E) as [? ?].
  - lia.
  - apply IH; [done|lia].
Qed.

(** More fuel does not change a result. *)
Lemma while_mono c b fuel fuel' s s' :
  (fuel <= fuel')%nat -> while fuel c b s = Some s' -> while fuel' c b s = Some s'.
Proof.
  revert fuel' s. induction fuel as [|f IH]; intros [|f'] s Hle; simpl;
    destruct (c s); try done; try lia.
  apply IH. lia.
Qed.

End Loops.

(** ** Lists as arrays indexed by [Z] *)

Definition zget {A} (d : A) (l : list A) (i : Z) : A :=
  if i <? 0 then d else default d (l !! Z.to_nat i).

Definition zset {A} (l : list A) (i : Z) (v : A) : list A :=
  if i <? 0 then l else <[Z.to_nat i := v]> l.

Section ZLists.
Context {A : Type}.
Implicit Types (l : list A) (d v : A).

Lemma zset_length l i v : length (zset l i v) = length l.
Proof. unfold zset. split_if; [done|apply length_insert]. Qed.

Lemma zget_zset d l i j v :
  0 <= i < Z.of_nat (length l) ->
  zget d (zset l i v) j = if decide (i = j) then v else zget d l j.
Proof.
  intros Hi. unfold zget, zset. rewrite (proj2 (Z.ltb_ge i 0)) by lia.
  destruct (j <? 0) eqn:E; case_decide; try lia; [done| |].
  - subst. by rewrite list_lookup_insert_eq by lia.
  - rewrite list_lookup_insert_ne by lia. done.
Qed.

Lemma zget_zset_ne d l i j v : i <> j -> zget d (zset l i v) j = zget d l j.
Proof.
  intros. unfold zget, zset. repeat split_if; try done.
  rewrite list_lookup_insert_ne by lia. done.
Qed.

Lemma zget_zset_eq d l i v :
  0 <= i < Z.of_nat (length l) -> zget d (zset l i v) i = v.
Proof. intros. rewrite zget_zset by done. by rewrite decide_True. Qed.

Lemma zget_out d l i : (i < 0 \/ Z.of_nat (length l) <= i) -> zget d l i = d.
Proof.
  intros. unfold zget. split_if; [done|].
  rewrite lookup_ge_None_2 by lia. done.
Qed.

Lemma zset_out l i v : (i < 0 \/ Z.of_nat (length l) <= i) -> zset l i v = l.
Proof. intros. unfold zset. split_if; [done|]. apply list_insert_ge. lia. Qed.

Lemma zget_Forall (P : A -> Prop) d l i : P d -> Forall P l -> P (zget d l i).
Proof.
  intros Hd Hl. unfold zget. split_if; [done|].
  destruct (l !! Z.to_nat i) eqn:E; simpl; [|done].
  by eapply Forall_lookup_1 in Hl.
Qed.

(** Two arrays of one length that agree at every index are equal. *)
Lemma zlist_ext d l1 l2 :
  length l1 = length l2 ->
  (forall i, 0 <= i < Z.of_nat (length l1) -> zget d l1 i = zget d l2 i) -> l1 = l2.
Proof.
  intros Hlen H. apply list_eq. intros n.
  destruct (decide (n < length l1)%nat) as [Hn|Hn].
  - specialize (H (Z.of_nat n) ltac:(lia)). unfold zget in H.
    rewrite (proj2 (Z.ltb_ge _ _)), Nat2Z.id in H by lia.
    destruct (lookup_lt_is_Some_2 l1 n) as [x Hx]; [lia|].
    destruct (lookup_lt_is_Some_2 l2 n) as [y Hy]; [lia|].
    rewrite Hx, Hy in *. simpl in H. by subst.
  - rewrite !lookup_ge_None_2 by lia. done.
Qed.

End ZLists.

#[export] Hint Rewrite @zset_length : store.

(** Loops are reasoned about by their rules, not by unfolding. *)
#[global] Opaque for_loop.
