(* ===== verification/Mem.v ===== *)
(** * Memory: what a C pointer points into

    [Store] is the interface between the code that dereferences a [char*] and the
    object the pointer points into: byte load, byte store, and the location
    ([cell]) an address denotes.  Two instances discharge its laws: [vmem], the
    32-bit virtual address space over physical memory (two virtual addresses may
    denote one physical byte), and [list Z], an array object such as a local
    buffer, indexed from 0.

    The translation [tr] of [vmem] is the one the page tables of [paging.c] set up
    (proved in Paging.v): the 4 MiB window at 128 MiB goes to the frame of the
    running program, the window at 132 MiB shares the page table of the first
    4 MiB, every other mapped address is its own physical address. *)

From stdpp Require Import base list numbers gmap.
From Stdlib Require Import ZArith Lia.
From S2P Require Import Prelude.

(** ** The interface *)

Class Store (S : Type) : Type := {
  ldb : S -> Z -> Z;
  stb : S -> Z -> Z -> S;
  cell : S -> Z -> Z;
  mapped : S -> Z -> Prop
}.

Class StoreLaws (S : Type) `{Store S} : Prop := {
  ldb_range : forall (s : S) a, 0 <= ldb s a < 256;
  ldb_stb_same : forall (s : S) a b v,
    mapped s a -> cell s a = cell s b -> ldb (stb s a v) b = u8 v;
  ldb_stb_other : forall (s : S) a b v,
    cell s a <> cell s b -> ldb (stb s a v) b = ldb s b;
  cell_stb : forall (s : S) a v b, cell (stb s a v) b = cell s b;
  mapped_stb : forall (s : S) a v b, mapped (stb s a v) b <-> mapped s b
}.

#[export] Hint Resolve ldb_range : words.
#[export] Hint Rewrite @cell_stb @mapped_stb : store.

(** ** The 32-bit address space *)

Definition MB4 : Z := 0x00400000.
Definition MB128 : Z := 0x08000000.
Definition MB132 : Z := 0x08400000.
Definition MB136 : Z := 0x08800000.

Record vmem := mkVmem {
  phys : gmap Z Z;      (* physical memory, a byte per address *)
  paging_on : bool;     (* the PG bit of cr0 *)
  upage : Z             (* physical base of the 128 MiB window, as the TLB has it *)
}.

Definition tr (m : vmem) (a : Z) : Z :=
  let a := u32 a in
  if paging_on m then
    if (MB128 <=? a) && (a <? MB132) then upage m + (a - MB128)
    else if (MB132 <=? a) && (a <? MB136) then a - MB132
    else a
  else a.

Definition vmem_ldb (m : vmem) (a : Z) : Z := u8 (default 0 (phys m !! tr m a)).

Definition vmem_stb (m : vmem) (a v : Z) : vmem :=
  mkVmem (<[tr m a := u8 v]> (phys m)) (paging_on m) (upage m).

#[export] Instance vmem_store : Store vmem := {
  ldb := vmem_ldb;
  stb := vmem_stb;
  cell := tr;
  mapped := fun _ _ => True
}.

#[export] Instance vmem_laws : StoreLaws vmem.
Proof.
  split; simpl.
  - intros. unfold vmem_ldb. apply u8_range.
  - intros m a b v _ E. unfold vmem_ldb, vmem_stb, tr in *. simpl in *.
    rewrite <- E, lookup_insert_eq. simpl. apply u8_u8.
  - intros m a b v E. unfold vmem_ldb, vmem_stb, tr in *. simpl in *.
    by rewrite lookup_insert_ne.
  - done.
  - done.
Qed.

(** ** Array objects *)

#[export] Instance arr_store : Store (list Z) := {
  ldb := fun l i => u8 (zget 0 l i);
  stb := fun l i v => zset l i (u8 v);
  cell := fun _ i => i;
  mapped := fun l i => 0 <= i < Z.of_nat (length l)
}.

#[export] Instance arr_laws : StoreLaws (list Z).
Proof.
  split; simpl.
  - intros. apply u8_range.
  - intros l a b v Hi <-. rewrite zget_zset_eq by done. apply u8_u8.
  - intros l a b v Hne. by rewrite zget_zset_ne.
  - done.
  - intros. by rewrite zset_length.
Qed.

#[global] Arguments ldb {S _} : simpl never.
#[global] Arguments stb {S _} : simpl never.
#[global] Arguments cell {S _} : simpl never.

(** ** Little-endian words *)

Section Words32.
Context {S : Type} `{Store S}.

Definition ld32 (s : S) (a : Z) : Z :=
  ldb s a + 256 * ldb s (a + 1) + 65536 * ldb s (a + 2) + 16777216 * ldb s (a + 3).

Definition st32 (s : S) (a v : Z) : S :=
  stb (stb (stb (stb s a v) (a + 1) (Z.shiftr v 8)) (a + 2) (Z.shiftr v 16))
      (a + 3) (Z.shiftr v 24).

(** [n] bytes from address [a]. *)
Definition bytes_at (s : S) (a : Z) (n : nat) : list Z :=
  map (fun i => ldb s (a + Z.of_nat i)) (seq 0 n).

(** The range [a, a+n) and the range [b, b+k) denote no common location. *)
Definition apart (s : S) (a n b k : Z) : Prop :=
  forall i j, 0 <= i < n -> 0 <= j < k -> cell s (a + i) <> cell s (b + j).

(** The addresses of [a, a+n) are mapped and denote pairwise distinct locations. *)
Definition region (s : S) (a n : Z) : Prop :=
  (forall i, 0 <= i < n -> mapped s (a + i)) /\
  (forall i j, 0 <= i < n -> 0 <= j < n -> cell s (a + i) = cell s (a + j) -> i = j).

(** [s'] has the addresses of [s] and differs from it only at locations of [a, a+n). *)
Definition only_changes (s s' : S) (a n : Z) : Prop :=
  (forall b, cell s' b = cell s b) /\ (forall b, mapped s' b <-> mapped s b) /\
  forall b, (forall i, 0 <= i < n -> cell s (a + i) <> cell s b) -> ldb s' b = ldb s b.

End Words32.

Section Words32Facts.
Context {S : Type} `{StoreLaws S}.
Implicit Types s : S.

Lemma ld32_range s a : 0 <= ld32 s a < 4294967296.
Proof.
  unfold ld32. pose proof (ldb_range s a). pose proof (ldb_range s (a + 1)).
  pose proof (ldb_range s (a + 2)). pose proof (ldb_range s (a + 3)). lia.
Qed.

(** A store to [a] is read back at [a]. *)
Lemma ldb_stb_eq s a v : mapped s a -> ldb (stb s a v) a = u8 v.
Proof. intros. by apply ldb_stb_same. Qed.

Lemma ld32_ext s s' a :
  (forall i, 0 <= i < 4 -> ldb s' (a + i) = ldb s (a + i)) -> ld32 s' a = ld32 s a.
Proof.
  intros E. unfold ld32.
  pose proof (E 0 ltac:(lia)) as E0. rewrite Z.add_0_r in E0.
  by rewrite E0, !E by lia.
Qed.

Lemma le32_split v :
  u8 v + 256 * u8 (Z.shiftr v 8) + 65536 * u8 (Z.shiftr v 16) +
    16777216 * u8 (Z.shiftr v 24) = u32 v.
Proof.
  unfold u8, u32. rewrite !Z.shiftr_div_pow2 by lia.
  change (2 ^ 8) with 256. change (2 ^ 16) with 65536. change (2 ^ 24) with 16777216.
  modlia.
Qed.

(** A word stored is the word loaded, truncated to 32 bits. *)
Lemma ld32_st32 s a v : region s a 4 -> ld32 (st32 s a v) a = u32 v.
Proof.
  intros [Hm Hi]. unfold ld32, st32.
  assert (D : forall i j, 0 <= i < 4 -> 0 <= j < 4 -> i <> j ->
    cell s (a + i) <> cell s (a + j)) by (intros i j ?? Hij E; apply Hij; eauto).
  assert (M : forall i, 0 <= i < 4 -> mapped s (a + i)) by done.
  pose proof (M 0 ltac:(lia)) as M0. rewrite Z.add_0_r in M0.
  assert (D0 : forall j, 0 < j < 4 -> cell s (a + j) <> cell s a).
  { intros j Hj. specialize (D j 0). rewrite Z.add_0_r in D. apply D; lia. }
  rewrite <- le32_split.
  rewrite !(ldb_stb_other _ _ a) by (rewrite ?cell_stb; apply D0; lia).
  rewrite !(ldb_stb_other _ (a + 3)), !(ldb_stb_other _ (a + 2) (a + 1))
    by (rewrite ?cell_stb; apply D; lia).
  rewrite !ldb_stb_eq by (rewrite ?mapped_stb; auto with lia). done.
Qed.

Lemma bytes_at_length s a n : length (bytes_at s a n) = n.
Proof. unfold bytes_at. by rewrite length_map, length_seq. Qed.

Lemma bytes_at_get s a n i :
  0 <= i < Z.of_nat n -> zget 0 (bytes_at s a n) i = ldb s (a + i).
Proof.
  intros. unfold bytes_at, zget. rewrite (proj2 (Z.ltb_ge i 0)) by lia.
  rewrite list_lookup_fmap, lookup_seq_lt by lia. simpl. f_equal. lia.
Qed.

Lemma only_changes_refl s a n : only_changes s s a n.
Proof. done. Qed.

Lemma only_changes_trans s1 s2 s3 a n :
  only_changes s1 s2 a n -> only_changes s2 s3 a n -> only_changes s1 s3 a n.
Proof.
  intros (C1 & M1 & L1) (C2 & M2 & L2). split_and!.
  - intros b. by rewrite C2.
  - intros b. by rewrite M2.
  - intros b Hb. rewrite L2, L1; [done|done|]. intros i Hi. rewrite !C1. by apply Hb.
Qed.

Lemma only_changes_stb s a n i v :
  0 <= i < n -> only_changes s (stb s (a + i) v) a n.
Proof.
  intros Hi. split_and!; intros b.
  - by rewrite cell_stb.
  - by rewrite mapped_stb.
  - intros Hb. apply ldb_stb_other. by apply Hb.
Qed.

Lemma only_changes_st32 s a v : only_changes s (st32 s a v) a 4.
Proof.
  unfold st32. assert (H0' : only_changes s (stb s a v) a 4).
  { rewrite <- (Z.add_0_r a) at 1. apply only_changes_stb. lia. }
  eapply only_changes_trans; [|apply only_changes_stb; lia].
  eapply only_changes_trans; [|apply only_changes_stb; lia].
  eapply only_changes_trans; [exact H0'|apply only_changes_stb; lia].
Qed.

(** A wider range may change more. *)
Lemma only_changes_weaken s s' a n a' n' :
  a' <= a -> a + n <= a' + n' -> only_changes s s' a n -> only_changes s s' a' n'.
Proof.
  intros ?? (C & M & L). split_and!; [done|done|].
  intros b Hb. apply L. intros i Hi.
  replace (a + i) with (a' + (a - a' + i)) by lia. apply Hb. lia.
Qed.

Lemma only_changes_ldb s s' a n b k j :
  only_changes s s' a n -> apart s a n b k -> 0 <= j < k -> ldb s' (b + j) = ldb s (b + j).
Proof. intros (_ & _ & L) Ha Hj. apply L. intros i Hi. by apply Ha. Qed.

Lemma region_stb s a n b v : region s a n -> region (stb s b v) a n.
Proof.
  intros [Hm Hi]. split.
  - intros i ?. rewrite mapped_stb. auto.
  - intros i j ??. rewrite !cell_stb. auto.
Qed.

Lemma region_ext s s' a n b k : only_changes s s' b k -> region s a n -> region s' a n.
Proof.
  intros (C & M & _) [Hm Hi]. split.
  - intros i ?. rewrite M. auto.
  - intros i j ??. rewrite !C. auto.
Qed.

Lemma region_ne s a n i j :
  region s a n -> 0 <= i < n -> 0 <= j < n -> i <> j -> cell s (a + i) <> cell s (a + j).
Proof. intros [_ Hi] ?? Hne E. apply Hne. by apply Hi. Qed.

Lemma region_sub s a n a' n' :
  a <= a' -> a' + n' <= a + n -> region s a n -> region s a' n'.
Proof.
  intros ?? [Hm Hi]. split.
  - intros i ?. replace (a' + i) with (a + (a' - a + i)) by lia. apply Hm. lia.
  - intros i j ??. replace (a' + i) with (a + (a' - a + i)) by lia.
    replace (a' + j) with (a + (a' - a + j)) by lia. intros E. apply Hi in E; lia.
Qed.

Lemma apart_ext s s' a n b k c l :
  only_changes s s' c l -> apart s a n b k -> apart s' a n b k.
Proof. intros (C & _) Ha i j ??. rewrite !C. by apply Ha. Qed.

Lemma apart_sym s a n b k : apart s a n b k -> apart s b k a n.
Proof. intros Ha i j ?? E. by apply (Ha j i). Qed.

Lemma apart_sub s a n b k a' n' b' k' :
  apart s a n b k -> a <= a' -> a' + n' <= a + n -> b <= b' -> b' + k' <= b + k ->
  apart s a' n' b' k'.
Proof.
  intros Ha ???? i j ??.
  replace (a' + i) with (a + (a' - a + i)) by lia.
  replace (b' + j) with (b + (b' - b + j)) by lia. apply Ha; lia.
Qed.

End Words32Facts.

#[export] Hint Resolve only_changes_refl region_stb : store.

(** ** When addresses of the address space are distinct *)

(** Outside the two program windows an address is its own location. *)
Lemma tr_kernel m a : 0 <= a < MB128 -> tr m a = a.
Proof.
  unfold tr, MB128, MB132, MB136. intros. rewrite u32_small by lia.
  repeat split_if; lia.
Qed.

Lemma tr_window m i : paging_on m = true -> 0 <= i < MB4 -> tr m (MB128 + i) = upage m + i.
Proof.
  unfold tr, MB4, MB128, MB132, MB136. intros -> ?. rewrite u32_small by lia.
  repeat split_if; lia.
Qed.

Lemma region_kernel (m : vmem) a n : 0 <= a -> a + n <= MB128 -> region m a n.
Proof.
  intros. split; [done|]. intros i j ??. unfold cell; simpl. rewrite !tr_kernel by lia. lia.
Qed.

Lemma region_window (m : vmem) i n :
  paging_on m = true -> 0 <= i -> i + n <= MB4 -> region m (MB128 + i) n.
Proof.
  intros. split; [done|]. intros j k ??. unfold cell; simpl.
  replace (MB128 + i + j) with (MB128 + (i + j)) by lia.
  replace (MB128 + i + k) with (MB128 + (i + k)) by lia.
  rewrite !tr_window by (done || lia). lia.
Qed.

Lemma apart_kernel (m : vmem) a n b k :
  0 <= a -> a + n <= b -> b + k <= MB128 -> apart m a n b k.
Proof. intros ??? i j ??. unfold cell; simpl. rewrite !tr_kernel by lia. lia. Qed.

(** A program's window does not reach kernel addresses below its frame. *)
Lemma apart_window_kernel (m : vmem) i n b k :
  paging_on m = true -> 0 <= i -> i + n <= MB4 ->
  0 <= b -> b + k <= upage m -> b + k <= MB128 -> apart m (MB128 + i) n b k.
Proof.
  intros ?????? j l ??. unfold cell; simpl. replace (MB128 + i + j) with (MB128 + (i + j)) by lia.
  rewrite tr_window, tr_kernel by (done || lia). lia.
Qed.

(** The window at 132 MiB shows the first 4 MiB. *)
Lemma tr_window2 m i : paging_on m = true -> 0 <= i < MB4 -> tr m (MB132 + i) = i.
Proof.
  unfold tr, MB4, MB128, MB132, MB136. intros -> ?. rewrite u32_small by lia.
  repeat split_if; lia.
Qed.
