(* ===== verification/LibStr.v ===== *)
(** * String and memory routines of lib.c

    [strlen], [strncmp], [strcpy], [strncpy], [strrev], [itoa] and the assembly
    routines [memset], [memset_word], [memset_dword], [memcpy], [memmove], each
    over any [Store].  A [const char*] argument is the function that reads it
    ([Z -> Z], or [S -> Z -> Z] when it is read while the destination object is
    being written), so that a copy may go from one object to another or within
    one. *)

From stdpp Require Import base list numbers gmap.
From Stdlib Require Import ZArith Lia.
From S2P Require Import Prelude Mem.

(** ** Reading routines *)

(** The characters from [p] on, as [p[0]], [p[1]], ... *)
Definition at_ {S} `{Store S} (st : S) (p : Z) : Z -> Z := fun i => ldb st (p + i).

(** [while (s[len] != '\0') len++;] *)
Definition strlen (fuel : nat) (s : Z -> Z) : option Z :=
  while fuel (fun len => negb (s len =? 0)) (fun len => u32 (len + 1)) 0.

(** The loop of [strncmp] with [k = n - i] comparisons left. *)
Fixpoint strncmp_loop (k : nat) (s1 s2 : Z -> Z) (i : Z) : Z :=
  match k with
  | O => 0
  | S k' =>
      if negb (s1 i =? s2 i) || (s1 i =? 0) then i8 (s1 i) - i8 (s2 i)
      else strncmp_loop k' s1 s2 (i + 1)
  end.

Definition strncmp (s1 s2 : Z -> Z) (n : Z) : Z := strncmp_loop (Z.to_nat n) s1 s2 0.

(** ** Copying routines *)

Section Copy.
Context {S : Type} `{Store S}.
Implicit Types st : S.

Definition strcpy (fuel : nat) (dest : Z) (src : S -> Z -> Z) (st : S) : option S :=
  match while fuel (fun '(i, st) => negb (src st i =? 0))
                   (fun '(i, st) => (i + 1, stb st (dest + i) (src st i))) (0, st) with
  | Some (i, st') => Some (stb st' (dest + i) 0)
  | None => None
  end.

(** The two loops of [strncpy], with [k = n - i] characters left. *)
Fixpoint strncpy_copy (k : nat) (dest : Z) (src : S -> Z -> Z) (i : Z) (st : S)
  : nat * Z * S :=
  match k with
  | O => (O, i, st)
  | Datatypes.S k' =>
      if src st i =? 0 then (k, i, st)
      else strncpy_copy k' dest src (i + 1) (stb st (dest + i) (src st i))
  end.

Fixpoint strncpy_pad (k : nat) (dest i : Z) (st : S) : S :=
  match k with
  | O => st
  | Datatypes.S k' => strncpy_pad k' dest (i + 1) (stb st (dest + i) 0)
  end.

Definition strncpy (dest : Z) (src : S -> Z -> Z) (n : Z) (st : S) : S :=
  let '(k, i, st') := strncpy_copy (Z.to_nat n) dest src 0 st in
  strncpy_pad k dest i st'.

Definition swap_bytes (a b : Z) (st : S) : S :=
  let tmp := ldb st b in stb (stb st b (ldb st a)) a tmp.

(** [while (beg < end) { swap; beg++; end--; }] *)
Definition strrev_loop (fuel : nat) (s : Z) (beg end_ : Z) (st : S) : option (Z * Z * S) :=
  while fuel (fun '(b, e, _) => b <? e)
             (fun '(b, e, st) => (b + 1, e - 1, swap_bytes (s + b) (s + e) st)) (beg, end_, st).

Definition strrev (fuel : nat) (s : Z) (st : S) : option S :=
  match strlen fuel (at_ st s) with
  | Some n =>
      match strrev_loop fuel s 0 (i32 n - 1) st with
      | Some (_, _, st') => Some st'
      | None => None
      end
  | None => None
  end.

(** [lookup[] = "0123456789ABCDEFGHIJKLMNOPQRSTUVWXYZ"] *)
Definition lookup_digit (d : Z) : Z := if d <? 10 then 48 + d else 55 + d.

(** The digit loop, lowest place value first; [newbuf] is the write position. *)
Definition itoa_loop (fuel : nat) (value buf radix : Z) (st : S) : option (Z * Z * S) :=
  while fuel (fun '(newval, _, _) => 0 <? newval)
    (fun '(newval, newbuf, st) =>
       (newval / radix, newbuf + 1, stb st newbuf (lookup_digit (newval mod radix))))
    (value, buf, st).

Definition itoa (fuel : nat) (value buf radix : Z) (st : S) : option S :=
  if value =? 0 then Some (stb (stb st buf 48) (buf + 1) 0)
  else match itoa_loop fuel value buf radix st with
       | Some (_, newbuf, st') => strrev fuel buf (stb st' newbuf 0)
       | None => None
       end.

(** ** Assembly routines

    The registers are arguments; [rep stosX] and [rep movsX] are counted loops. *)

(** [.memset_top] to [.memset_aligned]: one byte at a time until [edi] is a multiple
    of 4 or [ecx] is 0.  At most three iterations run. *)
Fixpoint memset_top (fuel : nat) (al edi ecx : Z) (st : S) : Z * Z * S :=
  match fuel with
  | O => (edi, ecx, st)
  | Datatypes.S f =>
      if (ecx =? 0) || (Z.land edi 3 =? 0) then (edi, ecx, st)
      else memset_top f al (u32 (edi + 1)) (u32 (ecx - 1)) (stb st edi al)
  end.

Fixpoint rep_stosb (n : nat) (al edi : Z) (st : S) : S :=
  match n with O => st | Datatypes.S n' => rep_stosb n' al (edi + 1) (stb st edi al) end.

Fixpoint rep_stosw (n : nat) (ax edi : Z) (st : S) : S :=
  match n with
  | O => st
  | Datatypes.S n' =>
      rep_stosw n' ax (edi + 2) (stb (stb st edi ax) (edi + 1) (Z.shiftr ax 8))
  end.

Fixpoint rep_stosl (n : nat) (eax edi : Z) (st : S) : S :=
  match n with O => st | Datatypes.S n' => rep_stosl n' eax (edi + 4) (st32 st edi eax) end.

Definition memset (s c n : Z) (st : S) : S :=
  let c := Z.land c 0xFF in
  let eax := Z.lor (Z.lor (Z.lor (Z.shiftl c 24) (Z.shiftl c 16)) (Z.shiftl c 8)) c in
  let '(edi, ecx, st) := memset_top 3 (u8 eax) (u32 s) (u32 n) st in
  if ecx =? 0 then st
  else
    let edx := Z.land ecx 3 in
    let ecx := Z.shiftr ecx 2 in
    let st := rep_stosl (Z.to_nat ecx) eax edi st in
    rep_stosb (Z.to_nat edx) (u8 eax) (edi + 4 * ecx) st.

Definition memset_word (s c n : Z) (st : S) : S := rep_stosw (Z.to_nat (u32 n)) c s st.
Definition memset_dword (s c n : Z) (st : S) : S := rep_stosl (Z.to_nat (u32 n)) c s st.

Fixpoint memcpy_top (fuel : nat) (src : S -> Z -> Z) (edi esi ecx : Z) (st : S)
  : Z * Z * Z * S :=
  match fuel with
  | O => (edi, esi, ecx, st)
  | Datatypes.S f =>
      if (ecx =? 0) || (Z.land edi 3 =? 0) then (edi, esi, ecx, st)
      else memcpy_top f src (u32 (edi + 1)) (esi + 1) (u32 (ecx - 1)) (stb st edi (src st esi))
  end.

Fixpoint rep_movsb (n : nat) (src : S -> Z -> Z) (edi esi : Z) (st : S) : S :=
  match n with
  | O => st
  | Datatypes.S n' => rep_movsb n' src (edi + 1) (esi + 1) (stb st edi (src st esi))
  end.

(** One [movsl]: the four bytes are read before any is written. *)
Definition movsl (src : S -> Z -> Z) (edi esi : Z) (st : S) : S :=
  stb (stb (stb (stb st edi (src st esi)) (edi + 1) (src st (esi + 1)))
           (edi + 2) (src st (esi + 2))) (edi + 3) (src st (esi + 3)).

Fixpoint rep_movsl (n : nat) (src : S -> Z -> Z) (edi esi : Z) (st : S) : S :=
  match n with
  | O => st
  | Datatypes.S n' => rep_movsl n' src (edi + 4) (esi + 4) (movsl src edi esi st)
  end.

(** [esi] counts from the start of the source, which [src] reads. *)
Definition memcpy (dest : Z) (src : S -> Z -> Z) (n : Z) (st : S) : S :=
  let '(edi, esi, ecx, st) := memcpy_top 3 src (u32 dest) 0 (u32 n) st in
  if ecx =? 0 then st
  else
    let edx := Z.land ecx 3 in
    let ecx := Z.shiftr ecx 2 in
    let st := rep_movsl (Z.to_nat ecx) src edi esi st in
    rep_movsb (Z.to_nat edx) src (edi + 4 * ecx) (esi + 4 * ecx) st.

(** [rep movsb] with the direction flag set. *)
Fixpoint rep_movsb_down (n : nat) (edi esi : Z) (st : S) : S :=
  match n with
  | O => st
  | Datatypes.S n' => rep_movsb_down n' (edi - 1) (esi - 1) (stb st edi (ldb st esi))
  end.

(** [memmove] within one object; the boolean is the direction flag it leaves. *)
Definition memmove (dest src n : Z) (st : S) : S * bool :=
  if src >=? dest then (rep_movsb (Z.to_nat n) (fun st i => ldb st i) dest src st, false)
  else (rep_movsb_down (Z.to_nat n) (dest + n - 1) (src + n - 1) st, true).

End Copy.

(** ** What the routines are for *)

(** [rd] reads the NUL-terminated string [l]. *)
Definition cstr (rd : Z -> Z) (l : list Z) : Prop :=
  Forall (fun c => c <> 0) l /\
  (forall i, 0 <= i < Z.of_nat (length l) -> rd i = zget 0 l i) /\
  rd (Z.of_nat (length l)) = 0.

(** [s1] and [s2] agree up to their end or for [n] characters. *)
Definition eq_upto (n : Z) (s1 s2 : Z -> Z) : Prop :=
  forall i, 0 <= i < n -> (forall j, 0 <= j < i -> s1 j <> 0) -> s1 i = s2 i.

(** [st'] is [st] with the bytes [f lo .. f (hi-1)] written at [base+lo .. base+hi-1]. *)
Definition filled {S} `{Store S} (st st' : S) (base lo hi : Z) (f : Z -> Z) : Prop :=
  only_changes st st' (base + lo) (hi - lo) /\
  forall i, lo <= i < hi -> ldb st' (base + i) = u8 (f i).

(** ** Reading routines *)

Section ReadFacts.

Lemma cstr_get rd l i : cstr rd l -> 0 <= i < Z.of_nat (length l) -> rd i <> 0.
Proof.
  intros (Hz & Hr & _) Hi. rewrite Hr by done. unfold zget.
  rewrite (proj2 (Z.ltb_ge i 0)) by lia.
  destruct (lookup_lt_is_Some_2 l (Z.to_nat i)) as [c Hc]; [lia|].
  rewrite Hc. simpl. by eapply Forall_lookup_1 in Hz.
Qed.

(** [strncmp] reads the first [n] characters only. *)
Lemma strncmp_ext s1 s2 s1' s2' n :
  (forall j, 0 <= j < n -> s1 j = s1' j /\ s2 j = s2' j) -> strncmp s1 s2 n = strncmp s1' s2' n.
Proof.
  intros H. unfold strncmp.
  assert (G : forall k i, 0 <= i -> i + Z.of_nat k <= n \/ k = O ->
    strncmp_loop k s1 s2 i = strncmp_loop k s1' s2' i).
  { induction k as [|k IH]; intros i Hi Hk; cbn [strncmp_loop]; [done|].
    destruct (H i ltac:(lia)) as [-> ->]. rewrite (IH (i + 1)) by lia. done. }
  apply G; lia.
Qed.

Lemma strlen_from rd n fuel k :
  0 <= k <= n -> n < 4294967296 -> n - k <= Z.of_nat fuel ->
  (forall i, 0 <= i < n -> rd i <> 0) -> rd n = 0 ->
  while fuel (fun len => negb (rd len =? 0)) (fun len => u32 (len + 1)) k = Some n.
Proof.
  intros Hk Hn Hf Hz H0. revert k Hk Hf. induction fuel as [|f IH]; intros k Hk Hf; simpl;
    destruct (decide (k = n)) as [->|].
  1,3: by rewrite H0.
  - lia.
  - rewrite (proj2 (Z.eqb_neq (rd k) 0)) by (apply Hz; lia). simpl.
    rewrite u32_small by lia. apply IH; lia.
Qed.

Lemma strlen_cstr rd l fuel :
  cstr rd l -> (length l <= fuel)%nat -> Z.of_nat (length l) < 4294967296 ->
  strlen fuel rd = Some (Z.of_nat (length l)).
Proof.
  intros Hc ??. apply strlen_from; try lia; [|apply Hc].
  intros i Hi. by eapply cstr_get.
Qed.

Lemma strncmp_loop_zero k s1 s2 i :
  (forall j, 0 <= s1 j < 256) -> (forall j, 0 <= s2 j < 256) ->
  strncmp_loop k s1 s2 i = 0 <->
  (forall j, i <= j < i + Z.of_nat k -> (forall l, i <= l < j -> s1 l <> 0) -> s1 j = s2 j).
Proof.
  intros B1 B2. revert i. induction k as [|k IH]; intros i; simpl.
  { split; [intros _ j Hj; lia|done]. }
  destruct (Z.eqb_spec (s1 i) (s2 i)) as [E|E]; simpl.
  - destruct (Z.eqb_spec (s1 i) 0) as [E0|E0].
    + rewrite E, Z.sub_diag. split; [|done]. intros _ j Hj Hl.
      destruct (decide (j = i)) as [->|]; [done|]. exfalso. apply (Hl i); [lia|done].
    + rewrite IH. split; intros Hx j Hj Hl.
      * destruct (decide (j = i)) as [->|]; [done|]. apply Hx; [lia|]. intros l ?. apply Hl. lia.
      * apply Hx; [lia|]. intros l ?. destruct (decide (l = i)) as [->|]; [done|]. apply Hl. lia.
  - split.
    + intros Hd. exfalso. apply E, i8_inj; auto. lia.
    + intros Hx. exfalso. apply E, Hx; lia.
Qed.

(** [strncmp] answers 0 exactly for strings equal up to their end or [n] characters. *)
Lemma strncmp_zero s1 s2 n :
  (forall j, 0 <= s1 j < 256) -> (forall j, 0 <= s2 j < 256) -> 0 <= n ->
  strncmp s1 s2 n = 0 <-> eq_upto n s1 s2.
Proof.
  intros B1 B2 Hn. unfold strncmp, eq_upto. rewrite strncmp_loop_zero by done.
  by rewrite Z2Nat.id, Z.add_0_l by done.
Qed.

(** The sign of a nonzero answer is that of the first characters that differ. *)
Lemma strncmp_first_diff k s1 s2 i d :
  0 <= d < Z.of_nat k ->
  (forall j, 0 <= j < d -> s1 (i + j) = s2 (i + j) /\ s1 (i + j) <> 0) ->
  s1 (i + d) <> s2 (i + d) ->
  strncmp_loop k s1 s2 i = i8 (s1 (i + d)) - i8 (s2 (i + d)).
Proof.
  revert i d. induction k as [|k IH]; intros i d Hd Heq Hne; [lia|]. simpl.
  destruct (decide (d = 0)) as [->|].
  - rewrite Z.add_0_r in *. by rewrite (proj2 (Z.eqb_neq _ _)).
  - destruct (Heq 0) as [E E0]; [lia|]. rewrite Z.add_0_r in E, E0.
    rewrite (proj2 (Z.eqb_eq _ _) E), (proj2 (Z.eqb_neq _ _) E0). simpl.
    rewrite (IH (i + 1) (d - 1)); try lia.
    + by replace (i + 1 + (d - 1)) with (i + d) by lia.
    + intros j Hj. replace (i + 1 + j) with (i + (j + 1)) by lia. apply Heq. lia.
    + by replace (i + 1 + (d - 1)) with (i + d) by lia.
Qed.

End ReadFacts.

(** ** Filling a range *)

Section Filled.
Context {S : Type} `{StoreLaws S}.
Implicit Types st : S.

Lemma filled_nil st base lo f : filled st st base lo lo f.
Proof. split; [apply only_changes_refl|lia]. Qed.

Lemma filled_up st st1 base lo hi hi' f v :
  filled st st1 base lo hi f -> region st (base + lo) (hi' - lo) -> lo <= hi < hi' ->
  u8 v = u8 (f hi) -> filled st (stb st1 (base + hi) v) base lo (hi + 1) f.
Proof.
  intros [Hc Hf] Hr Hi Hv.
  assert (Hne : forall i, lo <= i < hi -> cell st1 (base + hi) <> cell st1 (base + i)).
  { intros i ?. destruct Hc as (C & _). rewrite !C.
    replace (base + hi) with (base + lo + (hi - lo)) by lia.
    replace (base + i) with (base + lo + (i - lo)) by lia.
    apply (region_ne _ _ _ _ _ Hr); lia. }
  split.
  - eapply only_changes_trans; [eapply only_changes_weaken; [..|exact Hc]; lia|].
    replace (base + hi) with (base + lo + (hi - lo)) by lia. apply only_changes_stb. lia.
  - intros i Hi'. destruct (decide (i = hi)) as [->|].
    + rewrite ldb_stb_eq; [done|]. destruct Hc as (_ & M & _). rewrite M.
      replace (base + hi) with (base + lo + (hi - lo)) by lia. apply Hr. lia.
    + rewrite ldb_stb_other; [apply Hf; lia|]. apply Hne. lia.
Qed.

Lemma filled_down st st1 base lo lo' hi f v :
  filled st st1 base lo hi f -> region st (base + lo') (hi - lo') -> lo' < lo <= hi ->
  u8 v = u8 (f (lo - 1)) -> filled st (stb st1 (base + (lo - 1)) v) base (lo - 1) hi f.
Proof.
  intros [Hc Hf] Hr Hi Hv. split.
  - eapply only_changes_trans; [eapply only_changes_weaken; [..|exact Hc]; lia|].
    replace (base + (lo - 1)) with (base + (lo - 1) + 0) at 1 by lia.
    apply only_changes_stb. lia.
  - intros i Hi'. destruct Hc as (C & M & _). destruct (decide (i = lo - 1)) as [->|].
    + rewrite ldb_stb_eq; [done|]. rewrite M.
      replace (base + (lo - 1)) with (base + lo' + (lo - 1 - lo')) by lia. apply Hr. lia.
    + rewrite ldb_stb_other; [apply Hf; lia|]. rewrite !C.
      replace (base + (lo - 1)) with (base + lo' + (lo - 1 - lo')) by lia.
      replace (base + i) with (base + lo' + (i - lo')) by lia.
      apply (region_ne _ _ _ _ _ Hr); lia.
Qed.

(** [rep movsb] from position [k] on: what it reads is [f] as long as only the part
    already written has changed. *)
Lemma rep_movsb_filled n src st st1 base e N k f :
  region st base N -> 0 <= k -> k + Z.of_nat n <= N -> filled st st1 base 0 k f ->
  (forall st' j, k <= j < k + Z.of_nat n -> only_changes st st' base j ->
     u8 (src st' (e + j)) = u8 (f j)) ->
  filled st (rep_movsb n src (base + k) (e + k) st1) base 0 (k + Z.of_nat n) f.
Proof.
  intros Hr. revert k st1. induction n as [|n IH]; intros k st1 Hk Hn Hf Hs; cbn [rep_movsb].
  { by rewrite Z.add_0_r. }
  replace (k + Z.of_nat (Datatypes.S n)) with (k + 1 + Z.of_nat n) by lia.
  replace (base + k + 1) with (base + (k + 1)) by lia.
  replace (e + k + 1) with (e + (k + 1)) by lia.
  apply IH; try lia.
  - apply (filled_up _ _ _ _ _ N); try lia; [done|by rewrite Z.add_0_r, Z.sub_0_r|].
    apply Hs; [lia|]. destruct Hf as [Hf _].
    by rewrite Z.add_0_r, Z.sub_0_r in Hf.
  - intros st' j Hj. apply Hs. lia.
Qed.

(** Bytewise copy of [n] bytes, source undisturbed. *)
Definition src_stable (src : S -> Z -> Z) (st : S) (dest n : Z) (f : Z -> Z) : Prop :=
  forall st' j, 0 <= j < n -> only_changes st st' dest n -> u8 (src st' j) = u8 (f j).

Lemma movsl_filled src st st1 base N k f :
  region st base N -> 0 <= k -> k + 4 <= N -> filled st st1 base 0 k f ->
  src_stable src st base N f ->
  filled st (movsl src (base + k) k st1) base 0 (k + 4) f.
Proof.
  intros Hr Hk Hn Hf Hs. unfold movsl.
  assert (Hr' : region st (base + 0) (N - 0)) by (by rewrite Z.add_0_r, Z.sub_0_r).
  assert (Hc : only_changes st st1 base N).
  { destruct Hf as [Hf _]. eapply only_changes_weaken; [..|exact Hf]; lia. }
  assert (Hv : forall j, 0 <= j < N -> u8 (src st1 j) = u8 (f j)) by (intros; by apply Hs).
  replace (k + 4) with (k + 1 + 1 + 1 + 1) by lia.
  replace (base + k + 3) with (base + (k + 1 + 1 + 1)) by lia.
  replace (base + k + 2) with (base + (k + 1 + 1)) by lia.
  replace (base + k + 1) with (base + (k + 1)) by lia.
  do 4 (eapply filled_up; [|exact Hr'|lia|rewrite <- Hv by lia; f_equal; f_equal; lia]).
  done.
Qed.

Lemma rep_movsl_filled n src st st1 base N k f :
  region st base N -> 0 <= k -> k + 4 * Z.of_nat n <= N -> filled st st1 base 0 k f ->
  src_stable src st base N f ->
  filled st (rep_movsl n src (base + k) k st1) base 0 (k + 4 * Z.of_nat n) f.
Proof.
  intros Hr. revert k st1. induction n as [|n IH]; intros k st1 Hk Hn Hf Hs; cbn [rep_movsl].
  { by rewrite Z.mul_0_r, Z.add_0_r. }
  replace (k + 4 * Z.of_nat (Datatypes.S n)) with (k + 4 + 4 * Z.of_nat n) by lia.
  replace (base + k + 4) with (base + (k + 4)) by lia.
  apply IH; try lia; [|done]. apply (movsl_filled _ _ _ _ N); auto; lia.
Qed.

(** The byte loop that aligns the destination stops done, aligned, or out of its
    iterations after passing unaligned addresses only. *)
Lemma memcpy_top_filled fuel src st st1 base N k f :
  region st base N -> 0 <= k <= N -> 0 <= base -> base + N < 4294967296 ->
  filled st st1 base 0 k f -> src_stable src st base N f ->
  exists k' st2,
    memcpy_top fuel src (base + k) k (N - k) st1 = (base + k', k', N - k', st2) /\
    k <= k' <= N /\ filled st st2 base 0 k' f /\
    (k' = N \/ (base + k') mod 4 = 0 \/
     (k' = k + Z.of_nat fuel /\ forall j, k <= j < k' -> (base + j) mod 4 <> 0)).
Proof.
  intros Hr. revert k st1.
  induction fuel as [|fuel IH]; intros k st1 Hk Hb HN Hf Hs; cbn [memcpy_top].
  { exists k, st1. split_and!; try lia; try done. right; right. split; lia. }
  destruct (Z.eqb_spec (N - k) 0).
  { exists k, st1. split_and!; try lia; done. }
  change 3 with (Z.ones 2). rewrite Z.land_ones by lia. change (2 ^ 2) with 4.
  destruct (Z.eqb_spec ((base + k) mod 4) 0); simpl.
  { exists k, st1. split_and!; try lia; done. }
  rewrite !u32_small by lia.
  replace (base + k + 1) with (base + (k + 1)) by lia.
  replace (N - k - 1) with (N - (k + 1)) by lia.
  destruct (IH (k + 1) (stb st1 (base + k) (src st1 k))) as (k' & st2 & -> & ? & ? & Ho);
    try lia; try done.
  - apply (filled_up _ _ _ _ _ N); try lia; [done|by rewrite Z.add_0_r, Z.sub_0_r|].
    apply Hs; [lia|]. destruct Hf as [Hf _]. eapply only_changes_weaken; [..|exact Hf]; lia.
  - exists k', st2. split_and!; try (done || lia).
    destruct Ho as [?|[?|[-> Hj]]]; [by left|by right; left|]. right; right.
    split; [lia|]. intros j Hj'. destruct (decide (j = k)) as [->|]; [done|]. apply Hj. lia.
Qed.

(** Of any four consecutive addresses one is a multiple of 4: three iterations are
    enough, so the loop of the model is the loop of the code. *)
Lemma three_unaligned base : (forall j, 0 <= j < 3 -> (base + j) mod 4 <> 0) -> (base + 3) mod 4 = 0.
Proof.
  intros Hj. pose proof (Hj 0 ltac:(lia)). pose proof (Hj 1 ltac:(lia)).
  pose proof (Hj 2 ltac:(lia)). modlia.
Qed.

Lemma memcpy_top_exit src st dest n f :
  region st dest n -> 0 <= n -> 0 <= dest -> dest + n < 4294967296 ->
  src_stable src st dest n f ->
  let '(edi, _, ecx, _) := memcpy_top 3 src dest 0 n st in ecx = 0 \/ edi mod 4 = 0.
Proof.
  intros Hr Hn Hd Hw Hs.
  destruct (memcpy_top_filled 3 src st st dest n 0 f) as (k & st2 & E & Hk & _ & Ho);
    try lia; try done; [apply filled_nil|].
  rewrite Z.add_0_r, Z.sub_0_r in E. rewrite E.
  destruct Ho as [?|[?|[-> Hj]]]; [left; lia|by right|]. right. by apply three_unaligned.
Qed.

(** [memcpy] copies [n] bytes, whatever the alignment of the destination, when the
    destination does not overlap what it reads. *)
Lemma memcpy_filled dest src n st f :
  0 <= n -> 0 <= dest -> dest + n < 4294967296 -> region st dest n ->
  src_stable src st dest n f ->
  filled st (memcpy dest src n st) dest 0 n f.
Proof.
  intros Hn Hd Hw Hr Hs. unfold memcpy. rewrite !u32_small by lia.
  destruct (memcpy_top_filled 3 src st st dest n 0 f) as (k & st2 & E & Hk & Hf & Ho);
    try lia; try done; [apply filled_nil|].
  rewrite Z.add_0_r, Z.sub_0_r in E. rewrite E.
  destruct (Z.eqb_spec (n - k) 0) as [En|En].
  { replace k with n in Hf by lia. done. }
  change 3 with (Z.ones 2). rewrite Z.land_ones, Z.shiftr_div_pow2 by lia.
  change (2 ^ 2) with 4. set (q := (n - k) / 4). set (r := (n - k) mod 4).
  assert (Hqr : n - k = 4 * q + r /\ 0 <= r < 4 /\ 0 <= q) by (subst q r; modlia).
  assert (F1 : filled st (rep_movsl (Z.to_nat q) src (dest + k) k st2) dest 0 (k + 4 * q) f).
  { replace (4 * q) with (4 * Z.of_nat (Z.to_nat q)) by lia.
    apply (rep_movsl_filled _ _ _ _ _ n); auto; lia. }
  assert (F2 := rep_movsb_filled (Z.to_nat r) src st _ dest 0 n (k + 4 * q) f Hr
                  ltac:(lia) ltac:(lia) F1).
  replace (k + 4 * q + Z.of_nat (Z.to_nat r)) with n in F2 by lia.
  rewrite Z.add_0_l, Z.add_assoc in F2. apply F2.
  intros st' j Hj Hc. rewrite Z.add_0_l. apply Hs; [lia|].
  eapply only_changes_weaken; [..|exact Hc]; lia.
Qed.

End Filled.

(** ** [memset], [memmove] and the bounded copies *)

Section FillFacts.
Context {S : Type} `{StoreLaws S}.
Implicit Types st : S.

Lemma only_changes_filled st st1 base k f N :
  filled st st1 base 0 k f -> 0 <= k <= N -> only_changes st st1 base N.
Proof. intros [Hf _] ?. eapply only_changes_weaken; [..|exact Hf]; lia. Qed.

Lemma filled_snoc st st1 base N k f v :
  region st base N -> 0 <= k < N -> filled st st1 base 0 k f -> u8 v = u8 (f k) ->
  filled st (stb st1 (base + k) v) base 0 (k + 1) f.
Proof.
  intros Hr Hk Hf Hv. apply (filled_up _ _ _ _ _ N); try done.
  by rewrite Z.add_0_r, Z.sub_0_r.
Qed.

Lemma rep_stosb_filled n al st st1 base N k f :
  region st base N -> 0 <= k -> k + Z.of_nat n <= N -> filled st st1 base 0 k f ->
  (forall j, k <= j < k + Z.of_nat n -> u8 (f j) = u8 al) ->
  filled st (rep_stosb n al (base + k) st1) base 0 (k + Z.of_nat n) f.
Proof.
  intros Hr. revert k st1. induction n as [|n IH]; intros k st1 Hk Hn Hf Hs; cbn [rep_stosb].
  { by rewrite Z.add_0_r. }
  replace (k + Z.of_nat (Datatypes.S n)) with (k + 1 + Z.of_nat n) by lia.
  replace (base + k + 1) with (base + (k + 1)) by lia.
  apply IH; try lia; [|intros; apply Hs; lia].
  eapply filled_snoc; eauto; [lia|]. symmetry. apply Hs. lia.
Qed.

(** The four bytes of [eax] are the byte to fill with. *)
Definition splat (eax c : Z) : Prop :=
  u8 eax = c /\ u8 (Z.shiftr eax 8) = c /\ u8 (Z.shiftr eax 16) = c /\ u8 (Z.shiftr eax 24) = c.

Lemma rep_stosl_filled n eax c st st1 base N k :
  splat eax c -> u8 c = c ->
  region st base N -> 0 <= k -> k + 4 * Z.of_nat n <= N -> filled st st1 base 0 k (fun _ => c) ->
  filled st (rep_stosl n eax (base + k) st1) base 0 (k + 4 * Z.of_nat n) (fun _ => c).
Proof.
  intros (E0 & E1 & E2 & E3) Ec Hr. revert k st1.
  induction n as [|n IH]; intros k st1 Hk Hn Hf; cbn [rep_stosl].
  { by rewrite Z.mul_0_r, Z.add_0_r. }
  replace (k + 4 * Z.of_nat (Datatypes.S n)) with (k + 4 + 4 * Z.of_nat n) by lia.
  replace (base + k + 4) with (base + (k + 4)) by lia.
  apply IH; try lia. unfold st32.
  replace (k + 4) with (k + 1 + 1 + 1 + 1) by lia.
  replace (base + k + 3) with (base + (k + 1 + 1 + 1)) by lia.
  replace (base + k + 2) with (base + (k + 1 + 1)) by lia.
  replace (base + k + 1) with (base + (k + 1)) by lia.
  do 4 (eapply filled_snoc; [exact Hr|lia| |congruence]). done.
Qed.

Lemma splat_memset c :
  splat (Z.lor (Z.lor (Z.lor (Z.shiftl (Z.land c 255) 24) (Z.shiftl (Z.land c 255) 16))
           (Z.shiftl (Z.land c 255) 8)) (Z.land c 255)) (u8 c).
Proof.
  assert (E : Z.land c 255 = u8 c) by (change 255 with (Z.ones 8); by rewrite Z.land_ones by lia).
  rewrite E. pose proof (u8_range c) as Hc. revert Hc. generalize (u8 c). intros b Hb.
  assert (T : forallb (fun n => let b := Z.of_nat n in
    let e := Z.lor (Z.lor (Z.lor (Z.shiftl b 24) (Z.shiftl b 16)) (Z.shiftl b 8)) b in
    forallb (fun k => u8 (Z.shiftr e k) =? b) [0; 8; 16; 24]) (seq 0 256) = true)
    by (vm_compute; reflexivity).
  rewrite forallb_forall in T. specialize (T (Z.to_nat b)).
  rewrite in_seq, Z2Nat.id in T by lia. specialize (T ltac:(lia)).
  cbv zeta in T. cbn [forallb] in T. rewrite Z.shiftr_0_r in T.
  unfold splat. rewrite !andb_true_iff, !Z.eqb_eq in T. tauto.
Qed.

Lemma memset_top_filled fuel al st st1 base N k :
  region st base N -> 0 <= k <= N -> 0 <= base -> base + N < 4294967296 ->
  filled st st1 base 0 k (fun _ => al) ->
  exists k' st2,
    memset_top fuel al (base + k) (N - k) st1 = (base + k', N - k', st2) /\
    k <= k' <= N /\ filled st st2 base 0 k' (fun _ => al) /\
    (k' = N \/ (base + k') mod 4 = 0 \/
     (k' = k + Z.of_nat fuel /\ forall j, k <= j < k' -> (base + j) mod 4 <> 0)).
Proof.
  intros Hr Hk Hb HN Hf.
  assert (E : forall f edi esi ecx st0, memset_top f al edi ecx st0 =
    let '(a, _, b, c) := memcpy_top f (fun _ _ => al) edi esi ecx st0 in (a, b, c)).
  { induction f as [|f IH]; intros; simpl; [done|]. split_if; [done|]. by rewrite <- IH. }
  destruct (memcpy_top_filled fuel (fun _ _ => al) st st1 base N k (fun _ => al))
    as (k' & st2 & E2 & ?); auto; [by intros ????|].
  exists k', st2. by rewrite (E _ _ k), E2.
Qed.

(** [memset] sets the [n] bytes from [s] to the low byte of [c]. *)
Lemma memset_filled s c n st :
  0 <= n -> 0 <= s -> s + n < 4294967296 -> region st s n ->
  filled st (memset s c n st) s 0 n (fun _ => u8 c).
Proof.
  intros Hn Hd Hw Hr. unfold memset. rewrite !u32_small by lia.
  pose proof (splat_memset c) as Hsp.
  set (eax := Z.lor _ _) in *. assert (Ea : u8 eax = u8 c) by apply Hsp. rewrite Ea.
  destruct (memset_top_filled 3 (u8 c) st st s n 0) as (k & st2 & E & Hk & Hf & _);
    try lia; try done; [apply filled_nil|].
  rewrite Z.add_0_r, Z.sub_0_r in E. rewrite E.
  destruct (Z.eqb_spec (n - k) 0) as [En|En].
  { by replace k with n in Hf by lia. }
  change 3 with (Z.ones 2). rewrite Z.land_ones, Z.shiftr_div_pow2 by lia.
  change (2 ^ 2) with 4. set (q := (n - k) / 4). set (r := (n - k) mod 4).
  assert (Hqr : n - k = 4 * q + r /\ 0 <= r < 4 /\ 0 <= q) by (subst q r; modlia).
  assert (F1 := rep_stosl_filled (Z.to_nat q) eax (u8 c) st st2 s n k Hsp (u8_u8 c) Hr
                  ltac:(lia) ltac:(lia) Hf).
  assert (F2 := rep_stosb_filled (Z.to_nat r) (u8 c) st _ s n
    (k + 4 * Z.of_nat (Z.to_nat q)) _ Hr ltac:(lia) ltac:(lia) F1).
  replace (k + 4 * Z.of_nat (Z.to_nat q) + Z.of_nat (Z.to_nat r)) with n in F2 by lia.
  replace (s + k + 4 * q) with (s + (k + 4 * Z.of_nat (Z.to_nat q))) by lia. by apply F2.
Qed.

Lemma rep_movsb_down_filled st N f dest src n st1 :
  region st dest N -> Z.of_nat n <= N -> filled st st1 dest (Z.of_nat n) N f ->
  (forall st' j, 0 <= j < Z.of_nat n -> only_changes st st' (dest + (j + 1)) (N - (j + 1)) ->
     u8 (ldb st' (src + j)) = u8 (f j)) ->
  filled st (rep_movsb_down n (dest + Z.of_nat n - 1) (src + Z.of_nat n - 1) st1) dest 0 N f.
Proof.
  intros Hr. revert st1. induction n as [|n IH]; intros st1 Hn Hf Hs; cbn [rep_movsb_down]; [done|].
  replace (dest + Z.of_nat (Datatypes.S n) - 1) with (dest + (Z.of_nat (Datatypes.S n) - 1)) by lia.
  replace (src + Z.of_nat (Datatypes.S n) - 1) with (src + Z.of_nat n) by lia.
  replace (dest + (Z.of_nat (Datatypes.S n) - 1) - 1) with (dest + Z.of_nat n - 1) by lia.
  apply IH; [lia| |intros; apply Hs; [lia|done]].
  replace (Z.of_nat n) with (Z.of_nat (Datatypes.S n) - 1) at 2 by lia.
  apply (filled_down _ _ _ _ 0); try lia; [done|by rewrite Z.add_0_r, Z.sub_0_r|].
  replace (Z.of_nat (Datatypes.S n) - 1) with (Z.of_nat n) by lia.
  apply Hs; [lia|]. destruct Hf as [Hf _].
  by replace (Z.of_nat n + 1) with (Z.of_nat (Datatypes.S n)) by lia.
Qed.

(** C37: [memmove] stores at [dest] the [n] bytes that were at [src], whichever way the
    two ranges overlap, and changes nothing else of the store; it leaves the direction
    flag set exactly when it copied downwards. *)
Theorem memmove_moves dest src n st :
  0 <= n -> region st (Z.min dest src) (Z.max dest src + n - Z.min dest src) ->
  filled st (fst (memmove dest src n st)) dest 0 n (fun i => ldb st (src + i)) /\
  snd (memmove dest src n st) = (src <? dest).
Proof.
  intros Hn Hr. split; [|unfold memmove; by destruct (Z.geb_spec src dest), (Z.ltb_spec src dest); try lia]. assert (Hrd : region st dest n) by (eapply region_sub; [..|exact Hr]; lia).
  assert (Hne : forall i j, 0 <= i < n -> 0 <= j < n -> dest + i <> src + j ->
    cell st (dest + i) <> cell st (src + j)).
  { intros i j ?? Hij. set (lo := Z.min dest src) in *.
    replace (dest + i) with (lo + (dest + i - lo)) by lia.
    replace (src + j) with (lo + (src + j - lo)) by lia.
    eapply region_ne; [exact Hr|..]; lia. }
  unfold memmove. destruct (Z.geb_spec src dest); simpl.
  - assert (F := rep_movsb_filled (Z.to_nat n) (fun st i => ldb st i) st st dest src n 0
      (fun i => ldb st (src + i)) Hrd ltac:(lia) ltac:(lia) (filled_nil _ _ _ _)).
    rewrite !Z.add_0_r, Z2Nat.id in F by lia. apply F.
    intros st' j Hj (_ & _ & L). f_equal. apply L. intros i Hi. apply Hne; lia.
  - rewrite <- (Z2Nat.id n) at 2 3 by lia. apply rep_movsb_down_filled; try lia; [done| |].
    + rewrite Z2Nat.id by lia. apply filled_nil.
    + intros st' j Hj (_ & _ & L). f_equal. apply L. intros i Hi.
      replace (dest + (j + 1) + i) with (dest + (j + 1 + i)) by lia. apply Hne; lia.
Qed.

Lemma strncpy_pad_stosb k dest i st : strncpy_pad k dest i st = rep_stosb k 0 (dest + i) st.
Proof.
  revert i st. induction k as [|k IH]; intros i st; simpl; [done|].
  rewrite IH. f_equal. lia.
Qed.

Lemma strncpy_copy_filled k dest src st st1 n L i f :
  region st dest n -> 0 <= i <= L -> L <= n -> i + Z.of_nat k = n ->
  filled st st1 dest 0 i f ->
  (forall st' j, 0 <= j < n -> only_changes st st' dest n -> src st' j = f j) ->
  (forall j, i <= j < L -> f j <> 0) -> (L = n \/ f L = 0) ->
  exists st2, strncpy_copy k dest src i st1 = (Z.to_nat (n - L), L, st2) /\
    filled st st2 dest 0 L f.
Proof.
  intros Hr. revert i st1.
  induction k as [|k IH]; intros i st1 Hi HL Hk Hf Hs Hnz Hz; cbn [strncpy_copy].
  { exists st1. replace L with i by lia. split; [repeat f_equal; lia|done]. }
  assert (Hv : src st1 i = f i) by (apply Hs; [lia|]; eapply only_changes_filled; [done|lia]).
  destruct (decide (i = L)) as [->|].
  - destruct Hz as [?|Hz]; [lia|]. rewrite Hv, Hz. simpl. exists st1.
    split; [repeat f_equal; lia|done].
  - rewrite Hv, (proj2 (Z.eqb_neq _ _)) by (apply Hnz; lia).
    apply IH; auto; try lia; [|intros; apply Hnz; lia].
    eapply filled_snoc; eauto. lia.
Qed.

(** [strncpy] writes exactly [n] bytes: the string, cut at [n] or padded with NULs. *)
Lemma strncpy_filled dest src n L st f :
  region st dest n -> 0 <= L <= n ->
  (forall st' j, 0 <= j < n -> only_changes st st' dest n -> src st' j = f j) ->
  (forall j, 0 <= j < L -> f j <> 0) -> (L = n \/ f L = 0) ->
  filled st (strncpy dest src n st) dest 0 n (fun i => if i <? L then f i else 0).
Proof.
  intros Hr HL Hs Hnz Hz. unfold strncpy.
  destruct (strncpy_copy_filled (Z.to_nat n) dest src st st n L 0 f) as (st2 & -> & Hf);
    auto; try lia; [apply filled_nil|].
  rewrite strncpy_pad_stosb.
  assert (F := rep_stosb_filled (Z.to_nat (n - L)) 0 st st2 dest n L
    (fun i => if i <? L then f i else 0) Hr ltac:(lia) ltac:(lia)).
  replace (L + Z.of_nat (Z.to_nat (n - L))) with n in F by lia. apply F.
  - destruct Hf as [Hc Hf]. split; [done|]. intros i Hi.
    rewrite (proj2 (Z.ltb_lt i L)) by lia. by apply Hf.
  - intros j Hj. by rewrite (proj2 (Z.ltb_ge j L)) by lia.
Qed.

Lemma strcpy_loop_filled fuel dest src st st1 L i f :
  region st dest (L + 1) -> 0 <= i <= L -> L - i <= Z.of_nat fuel ->
  filled st st1 dest 0 i f ->
  (forall st' j, 0 <= j <= L -> only_changes st st' dest (L + 1) -> src st' j = f j) ->
  (forall j, 0 <= j < L -> f j <> 0) -> f L = 0 ->
  exists st2, while fuel (fun '(i, st) => negb (src st i =? 0))
      (fun '(i, st) => (i + 1, stb st (dest + i) (src st i))) (i, st1) = Some (L, st2) /\
    filled st st2 dest 0 L f.
Proof.
  intros Hr. revert i st1. induction fuel as [|fuel IH]; intros i st1 Hi Hk Hf Hs Hnz Hz; simpl;
    (assert (Hv : src st1 i = f i)
       by (apply Hs; [lia|]; eapply only_changes_filled; [done|lia]));
    rewrite Hv; (destruct (decide (i = L)) as [->|]; [rewrite Hz; simpl; by exists st1|]).
  - lia.
  - rewrite (proj2 (Z.eqb_neq _ _)) by (apply Hnz; lia). simpl.
    apply IH; auto; try lia. eapply filled_snoc; eauto. lia.
Qed.

(** [strcpy] copies the string and its terminator, nothing else. *)
Lemma strcpy_filled fuel dest src L st f :
  region st dest (L + 1) -> 0 <= L <= Z.of_nat fuel ->
  (forall st' j, 0 <= j <= L -> only_changes st st' dest (L + 1) -> src st' j = f j) ->
  (forall j, 0 <= j < L -> f j <> 0) -> f L = 0 ->
  exists st', strcpy fuel dest src st = Some st' /\ filled st st' dest 0 (L + 1) f.
Proof.
  intros Hr HL Hs Hnz Hz. unfold strcpy.
  destruct (strcpy_loop_filled fuel dest src st st L 0 f) as (st2 & -> & Hf);
    auto; try lia; [apply filled_nil|].
  eexists. split; [done|]. eapply filled_snoc; eauto; [lia|]. by rewrite Hz.
Qed.

End FillFacts.

(** ** [strrev] and [itoa] *)

(** The digits of [v] in base [radix], lowest place value first. *)
Fixpoint digits_of (fuel : nat) (radix v : Z) : list Z :=
  match fuel with
  | O => []
  | S f => if v <=? 0 then [] else v mod radix :: digits_of f radix (v / radix)
  end.

(** The number a digit list denotes, lowest place value first. *)
Fixpoint undigits (radix : Z) (ds : list Z) : Z :=
  match ds with [] => 0 | d :: ds' => d + radix * undigits radix ds' end.

(** The text [itoa] is to produce: highest place value first, "0" for zero. *)
Definition itoa_text (radix v : Z) : list Z :=
  if v =? 0 then [48] else map lookup_digit (rev (digits_of 32 radix v)).

Section Digits.

Lemma digits_of_range fuel radix v :
  2 <= radix -> Forall (fun d => 0 <= d < radix) (digits_of fuel radix v).
Proof.
  intros Hr. revert v. induction fuel as [|f IH]; intros v; simpl; [constructor|].
  split_if; constructor; [|apply IH]. apply Z.mod_pos_bound. lia.
Qed.

(** The digits denote the number, when there are enough of them. *)
Lemma undigits_digits_of fuel radix v :
  2 <= radix -> 0 <= v < radix ^ Z.of_nat fuel -> undigits radix (digits_of fuel radix v) = v.
Proof.
  intros Hr. revert v. induction fuel as [|f IH]; intros v Hv; simpl.
  { change (radix ^ Z.of_nat 0) with 1 in Hv. lia. }
  destruct (Z.leb_spec v 0); [simpl; lia|]. cbn [undigits].
  rewrite IH; [rewrite Z.add_comm; symmetry; apply Z.div_mod; lia|].
  rewrite Nat2Z.inj_succ, Z.pow_succ_r in Hv by lia.
  split; [apply Z.div_pos; lia|apply Z.div_lt_upper_bound; lia].
Qed.

Lemma pow32_bound radix : 2 <= radix -> 4294967296 <= radix ^ 32.
Proof. intros. change 4294967296 with (2 ^ 32). apply Z.pow_le_mono_l. lia. Qed.

Lemma digits_of_length fuel radix v : (length (digits_of fuel radix v) <= fuel)%nat.
Proof. revert v. induction fuel; intros v; simpl; [lia|]. split_if; simpl; [lia|]. specialize (IHfuel (v / radix)). lia. Qed.

(** The highest digit is not zero. *)
Lemma digits_of_last fuel radix v d ds :
  2 <= radix -> 0 <= v < radix ^ Z.of_nat fuel -> digits_of fuel radix v = ds ++ [d] -> d <> 0.
Proof.
  intros Hr. revert v ds. induction fuel as [|f IH]; intros v ds Hv; simpl.
  { intros E. by destruct ds. }
  rewrite Nat2Z.inj_succ, Z.pow_succ_r in Hv by lia.
  assert (Hq : 0 <= v / radix < radix ^ Z.of_nat f).
  { split; [apply Z.div_pos; lia|apply Z.div_lt_upper_bound; lia]. }
  destruct (Z.leb_spec v 0); intros E; [by destruct ds|].
  destruct ds as [|d' ds]; simplify_eq/=; [|by eapply IH].
  intros E0. destruct (Z.leb_spec (v / radix) 0).
  - assert (Hq0 : v / radix = 0) by lia.
    pose proof (Z.div_mod v radix ltac:(lia)) as Hd. rewrite Hq0, E0 in Hd. lia.
  - destruct f; simpl in *; [lia|]. by rewrite (proj2 (Z.leb_gt _ _)) in H1 by lia.
Qed.

Lemma lookup_digit_nz d : 0 <= d < 36 -> lookup_digit d <> 0.
Proof. unfold lookup_digit. split_if; lia. Qed.

Lemma lookup_digit_byte d : 0 <= d < 36 -> u8 (lookup_digit d) = lookup_digit d.
Proof. intros. apply u8_small. unfold lookup_digit. split_if; lia. Qed.

(** Distinct digits print as distinct characters. *)
Lemma lookup_digit_inj d e :
  0 <= d < 36 -> 0 <= e < 36 -> lookup_digit d = lookup_digit e -> d = e.
Proof. unfold lookup_digit. intros. repeat split_if; lia. Qed.

Lemma itoa_text_digit radix v c :
  2 <= radix <= 36 -> c ∈ itoa_text radix v -> exists d, 0 <= d < radix /\ c = lookup_digit d.
Proof.
  intros Hr. unfold itoa_text. split_if.
  - intros Hc%list_elem_of_singleton. subst. exists 0. split; [lia|done].
  - intros Hc%list_elem_of_In. apply in_map_iff in Hc as (d & <- & Hd%in_rev).
    exists d. split; [|done]. pose proof (digits_of_range 32 radix v ltac:(lia)) as HF.
    rewrite List.Forall_forall in HF. by apply HF.
Qed.

End Digits.

Section RevFacts.
Context {S : Type} `{StoreLaws S}.
Implicit Types st : S.

(** What a state of the reversal loop holds: the outer characters are exchanged,
    the inner ones are still in place. *)
Definition rev_state (st st' : S) (s n b : Z) : Prop :=
  only_changes st st' s n /\
  forall i, 0 <= i < n ->
    ldb st' (s + i) = ldb st (s + if (i <? b) || (n - 1 - b <? i) then n - 1 - i else i).

Lemma swap_bytes_state st st1 s n b :
  region st s n -> 0 <= b -> b < n - 1 - b -> rev_state st st1 s n b ->
  rev_state st (swap_bytes (s + b) (s + (n - 1 - b)) st1) s n (b + 1).
Proof.
  intros Hr Hb He [Hc Hv]. set (e := n - 1 - b) in *.
  assert (Hr1 : region st1 s n) by (eapply region_ext; eauto).
  assert (Hm : forall i, 0 <= i < n -> mapped st1 (s + i)) by apply Hr1.
  unfold swap_bytes. split.
  - repeat (eapply only_changes_trans; [|apply only_changes_stb; lia]). done.
  - intros i Hi. destruct (decide (i = b)) as [->|].
    + rewrite ldb_stb_eq by (rewrite mapped_stb; apply Hm; lia).
      rewrite u8_small by apply ldb_range. rewrite Hv by lia.
      f_equal. f_equal. repeat split_if; lia.
    + assert (cell st1 (s + b) <> cell st1 (s + i)) by (eapply region_ne; eauto; lia).
      rewrite ldb_stb_other by (by rewrite !cell_stb).
      destruct (decide (i = e)) as [->|].
      * rewrite ldb_stb_eq by (apply Hm; lia). rewrite u8_small by apply ldb_range.
        rewrite Hv by lia. f_equal. f_equal. repeat split_if; lia.
      * rewrite ldb_stb_other by (eapply region_ne; eauto; lia).
        rewrite Hv by lia. f_equal. f_equal. repeat split_if; lia.
Qed.

Lemma strrev_loop_ok fuel st st1 s n b :
  region st s n -> 0 <= b -> n - b <= Z.of_nat fuel -> b <= n - b ->
  rev_state st st1 s n b ->
  exists b' e' st', strrev_loop fuel s b (n - 1 - b) st1 = Some (b', e', st') /\
    only_changes st st' s n /\
    forall i, 0 <= i < n -> ldb st' (s + i) = ldb st (s + (n - 1 - i)).
Proof.
  intros Hr. unfold strrev_loop. revert b st1.
  induction fuel as [|f IH]; intros b st1 Hb Hf Hbn Hst; cbn [while];
    destruct (Z.ltb_spec b (n - 1 - b)); try lia.
  1,3: exists b, (n - 1 - b), st1; split; [done|]; destruct Hst as [Hc Hv];
    split; [done|]; intros i Hi; rewrite Hv by done; f_equal; repeat split_if; lia.
  replace (n - 1 - b - 1) with (n - 1 - (b + 1)) by lia.
  apply IH; try lia. by apply swap_bytes_state.
Qed.

(** [strrev] reverses the string in place. *)
Lemma strrev_ok fuel s st l :
  cstr (at_ st s) l -> region st s (Z.of_nat (length l)) ->
  (length l <= fuel)%nat -> Z.of_nat (length l) < 2147483648 ->
  exists st', strrev fuel s st = Some st' /\
    only_changes st st' s (Z.of_nat (length l)) /\
    forall i, 0 <= i < Z.of_nat (length l) ->
      ldb st' (s + i) = zget 0 l (Z.of_nat (length l) - 1 - i).
Proof.
  intros Hc Hr Hf Hb. unfold strrev. rewrite (strlen_cstr _ l) by (done || lia).
  set (n := Z.of_nat (length l)) in *. rewrite i32_small by lia.
  destruct (strrev_loop_ok fuel st st s n 0) as (b & e & st' & E & Ho & Hv);
    try lia; [done| |].
  { split; [apply only_changes_refl|]. intros i Hi. f_equal. f_equal. split_if; lia. }
  rewrite Z.sub_0_r in E. rewrite E. exists st'. split_and!; [done|done|].
  intros i Hi. rewrite Hv by done. destruct Hc as (_ & Hc & _).
  rewrite <- Hc by lia. done.
Qed.

Lemma itoa_loop_ok fuel radix buf st st1 v k f N :
  2 <= radix <= 36 -> 0 <= v < radix ^ Z.of_nat fuel ->
  let ds := digits_of fuel radix v in
  region st buf N -> 0 <= k -> k + Z.of_nat (length ds) <= N ->
  filled st st1 buf 0 k f ->
  (forall i, 0 <= i < Z.of_nat (length ds) -> f (k + i) = lookup_digit (zget 0 ds i)) ->
  exists st2, itoa_loop fuel v (buf + k) radix st1 =
      Some (0, buf + (k + Z.of_nat (length ds)), st2) /\
    filled st st2 buf 0 (k + Z.of_nat (length ds)) f.
Proof.
  intros Hr Hv ds Hreg. subst ds. unfold itoa_loop. revert v k st1 Hv.
  induction fuel as [|fu IH]; intros v k st1 Hv Hk HN Hf Hd; cbn [while digits_of] in *.
  { change (radix ^ Z.of_nat 0) with 1 in Hv. assert (v = 0) as -> by lia. simpl.
    rewrite Z.add_0_r. eauto. }
  destruct (Z.ltb_spec 0 v), (Z.leb_spec v 0); try lia.
  2: { assert (v = 0) as -> by lia. simpl. rewrite Z.add_0_r. eauto. }
  rewrite Nat2Z.inj_succ, Z.pow_succ_r in Hv by lia. cbn [length] in *.
  replace (k + Z.of_nat (Datatypes.S _))
    with (k + 1 + Z.of_nat (length (digits_of fu radix (v / radix)))) by lia.
  replace (buf + k + 1) with (buf + (k + 1)) by lia.
  apply IH; try lia.
  - split; [apply Z.div_pos; lia|apply Z.div_lt_upper_bound; lia].
  - eapply filled_snoc; eauto; [lia|]. f_equal.
    rewrite <- (Z.add_0_r k) at 1. by rewrite Hd by lia.
  - intros i Hi. replace (k + 1 + i) with (k + (i + 1)) by lia. rewrite Hd by lia.
    f_equal. unfold zget. repeat split_if; try lia.
    by replace (Z.to_nat (i + 1)) with (Datatypes.S (Z.to_nat i)) by lia.
Qed.

Lemma itoa_text_byte radix v i :
  2 <= radix <= 36 -> 0 <= i < Z.of_nat (length (itoa_text radix v)) ->
  0 < zget 0 (itoa_text radix v) i < 256.
Proof.
  intros Hr Hi. unfold zget. rewrite (proj2 (Z.ltb_ge i 0)) by lia.
  destruct (lookup_lt_is_Some_2 (itoa_text radix v) (Z.to_nat i)) as [c Hc]; [lia|].
  rewrite Hc. apply list_elem_of_lookup_2 in Hc.
  destruct (itoa_text_digit radix v c Hr Hc) as (d & Hd & ->). simpl.
  unfold lookup_digit. split_if; lia.
Qed.

(** A string written by [filled], with its terminator, is that string. *)
Lemma filled_cstr st st' buf l f :
  filled st st' buf 0 (Z.of_nat (length l) + 1) f ->
  (forall i, 0 <= i < Z.of_nat (length l) -> 0 < zget 0 l i < 256) ->
  (forall i, 0 <= i < Z.of_nat (length l) -> f i = zget 0 l i) -> f (Z.of_nat (length l)) = 0 ->
  cstr (at_ st' buf) l.
Proof.
  intros [_ Hf] Hb Hl Hz. split_and!.
  - apply Forall_lookup_2. intros i x Hx. apply lookup_lt_Some in Hx as Hlt.
    specialize (Hb (Z.of_nat i) ltac:(lia)). unfold zget in Hb.
    rewrite (proj2 (Z.ltb_ge _ _)), Nat2Z.id, Hx in Hb by lia. simpl in Hb. lia.
  - intros i Hi. unfold at_. rewrite Hf, Hl by lia. apply u8_small.
    specialize (Hb i Hi). lia.
  - unfold at_. rewrite Hf, Hz by lia. done.
Qed.

(** [strrev] leaves the reversed string, terminator in place. *)
Lemma strrev_cstr fuel s st l :
  cstr (at_ st s) l -> region st s (Z.of_nat (length l) + 1) ->
  (length l <= fuel)%nat -> Z.of_nat (length l) < 2147483648 ->
  exists st', strrev fuel s st = Some st' /\
    only_changes st st' s (Z.of_nat (length l)) /\ cstr (at_ st' s) (rev l).
Proof.
  intros Hc Hr Hf Hb. set (n := Z.of_nat (length l)) in *.
  destruct (strrev_ok fuel s st l) as (st' & E & Ho & Hv); auto;
    [eapply region_sub; [..|exact Hr]; lia|].
  fold n in Ho, Hv. exists st'. split; [done|]. split; [done|].
  split_and!; [by apply Forall_rev, Hc|..]; rewrite length_rev; fold n.
  - intros i Hi. unfold at_. rewrite Hv by done. unfold zget.
    rewrite !(proj2 (Z.ltb_ge _ 0)), (rev_alt l) by lia. fold (reverse l).
    rewrite reverse_lookup by lia. do 2 f_equal. lia.
  - unfold at_. destruct Ho as (_ & _ & L). rewrite L; [apply Hc|].
    intros i Hi. eapply region_ne; [exact Hr|..]; lia.
Qed.

Lemma itoa_zero buf st :
  region st buf 33 ->
  only_changes st (stb (stb st buf 48) (buf + 1) 0) buf 33 /\
  cstr (at_ (stb (stb st buf 48) (buf + 1) 0) buf) [48].
Proof.
  intros Hreg.
  assert (F : filled st (stb (stb st buf 48) (buf + 1) 0) buf 0 (1 + 1)
                (fun i => if i =? 0 then 48 else 0)).
  { eapply filled_snoc; [exact Hreg|lia| |done].
    rewrite <- (Z.add_0_r buf) at 1.
    apply (filled_snoc _ _ _ 33 0); [done|lia|apply filled_nil|done]. }
  split; [eapply only_changes_filled; [exact F|lia]|].
  eapply filled_cstr; [exact F|..|done]; intros i Hi; simpl in Hi;
    replace i with 0 by lia; done.
Qed.

(** The digits in memory before the reversal. *)
Lemma itoa_digits value buf radix st :
  2 <= radix <= 36 -> 0 < value < 4294967296 -> region st buf 33 ->
  let ds := digits_of 32 radix value in
  exists st2, itoa_loop 32 value buf radix st = Some (0, buf + Z.of_nat (length ds), st2) /\
    only_changes st (stb st2 (buf + Z.of_nat (length ds)) 0) buf 33 /\
    cstr (at_ (stb st2 (buf + Z.of_nat (length ds)) 0) buf) (map lookup_digit ds).
Proof.
  intros Hr Hv Hreg ds.
  pose proof (pow32_bound radix ltac:(lia)). pose proof (digits_of_length 32 radix value) as Hlen.
  assert (Hdr : forall i, 0 <= zget 0 ds i < radix).
  { intros i. apply (zget_Forall (fun d => 0 <= d < radix)); [lia|]. apply digits_of_range. lia. }
  fold ds in Hlen. set (n := Z.of_nat (length ds)).
  set (f := fun i => if i <? n then lookup_digit (zget 0 ds i) else 0).
  assert (Hfi : forall i, 0 <= i < n -> f i = lookup_digit (zget 0 ds i)).
  { intros i Hi. unfold f. by rewrite (proj2 (Z.ltb_lt i n)) by lia. }
  assert (Hfn : f n = 0) by (unfold f; by rewrite Z.ltb_irrefl).
  destruct (itoa_loop_ok 32 radix buf st st value 0 f 33) as (st2 & E & Hf);
    fold ds; try lia; try done; [apply filled_nil|].
  fold ds n in E, Hf. rewrite Z.add_0_r, Z.add_0_l in E. rewrite Z.add_0_l in Hf.
  exists st2. split; [done|].
  assert (F : filled st (stb st2 (buf + n) 0) buf 0 (n + 1) f).
  { eapply filled_snoc; [exact Hreg|lia|exact Hf|]. by rewrite Hfn. }
  split; [eapply only_changes_filled; [exact F|lia]|].
  assert (Hget : forall i, 0 <= i < n ->
    zget 0 (map lookup_digit ds) i = lookup_digit (zget 0 ds i)).
  { intros i Hi. unfold zget. rewrite (proj2 (Z.ltb_ge i 0)), list_lookup_fmap by lia.
    destruct (lookup_lt_is_Some_2 ds (Z.to_nat i)) as [c Hc]; [lia|]. by rewrite Hc. }
  eapply filled_cstr; rewrite ?length_map; fold n; [exact F|..]; [| |done];
    intros i Hi; rewrite Hget by done; [|by apply Hfi].
  specialize (Hdr i). unfold lookup_digit. split_if; lia.
Qed.

(** [itoa] with a base between 2 and 36 writes the text of the number and its
    terminator, at most 33 bytes. *)
Lemma itoa_ok value buf radix st :
  2 <= radix <= 36 -> 0 <= value < 4294967296 -> region st buf 33 ->
  exists st', itoa 32 value buf radix st = Some st' /\ only_changes st st' buf 33 /\
    cstr (at_ st' buf) (itoa_text radix value).
Proof.
  intros Hr Hv Hreg. unfold itoa, itoa_text.
  destruct (Z.eqb_spec value 0) as [->|Hnz]; [eexists; split; [done|by apply itoa_zero]|].
  destruct (itoa_digits value buf radix st) as (st2 & -> & Ho & Hc); try lia; [done|].
  set (ds := digits_of 32 radix value) in *. pose proof (digits_of_length 32 radix value) as Hl.
  fold ds in Hl. set (st3 := stb st2 _ 0) in *.
  assert (Hr3 : region st3 buf 33) by (eapply region_ext; eauto).
  destruct (strrev_cstr 32 buf st3 (map lookup_digit ds)) as (st4 & -> & Ho4 & Hc4);
    rewrite ?length_map in *; try lia; [done|eapply region_sub; [..|exact Hr3]; lia|].
  exists st4. split_and!; [done| |by rewrite map_rev].
  eapply only_changes_trans; [exact Ho|]. eapply only_changes_weaken; [..|exact Ho4]; lia.
Qed.

End RevFacts.

(** Whatever the source, [strncpy] stores inside its [n] bytes. *)
Section Bounded.
Context {S : Type} `{StoreLaws S}.
Implicit Types st : S.

Lemma only_changes_snoc st0 st a n i v :
  only_changes st0 st a n -> 0 <= i < n -> only_changes st0 (stb st (a + i) v) a n.
Proof. intros C Hi. eapply only_changes_trans; [exact C|by apply only_changes_stb]. Qed.

Lemma strncpy_changes dest src n st : only_changes st (strncpy dest src n st) dest n.
Proof.
  unfold strncpy.
  assert (Cp : forall k i st1, 0 <= i -> i + Z.of_nat k <= Z.max 0 n -> only_changes st st1 dest n ->
    let '(k', i', st2) := strncpy_copy k dest src i st1 in
    0 <= i' /\ i' + Z.of_nat k' <= Z.max 0 n /\ only_changes st st2 dest n).
  { induction k as [|k IH]; intros i st1 Hi Hk C; cbn [strncpy_copy]; [done|]. split_if; [done|].
    apply IH; [lia|lia|]. apply only_changes_snoc; [done|lia]. }
  assert (Pd : forall k i st1, 0 <= i -> i + Z.of_nat k <= Z.max 0 n -> only_changes st st1 dest n ->
    only_changes st (strncpy_pad k dest i st1) dest n).
  { induction k as [|k IH]; intros i st1 Hi Hk C; cbn [strncpy_pad]; [done|].
    apply IH; [lia|lia|]. apply only_changes_snoc; [done|lia]. }
  specialize (Cp (Z.to_nat n) 0 st ltac:(lia) ltac:(lia) (only_changes_refl _ _ _)).
  destruct (strncpy_copy _ _ _ _ _) as [[k i] st2]. destruct Cp as (? & ? & ?). by apply Pd.
Qed.

End Bounded.

(** ** What byte stores preserve, the routines preserve *)

Section Preserve.
Context {S : Type} `{Store S} (P : S -> Prop) (HP : forall st a v, P st -> P (stb st a v)).
Implicit Types st : S.

Lemma strncpy_copy_pres k dest src i st : P st -> P (strncpy_copy k dest src i st).2.
Proof.
  revert i st. induction k as [|k IH]; intros i st Hs; simpl; [done|]. split_if; [done|]. auto.
Qed.

Lemma strncpy_pad_pres k dest i st : P st -> P (strncpy_pad k dest i st).
Proof. revert i st. induction k as [|k IH]; simpl; auto. Qed.

Lemma strncpy_pres dest src n st : P st -> P (strncpy dest src n st).
Proof.
  intros Hs. unfold strncpy. pose proof (strncpy_copy_pres (Z.to_nat n) dest src 0 st Hs) as Hc.
  destruct (strncpy_copy _ _ _ _ _) as [[k i] st']. by apply strncpy_pad_pres.
Qed.

Lemma memcpy_top_pres fuel src edi esi ecx st : P st -> P (memcpy_top fuel src edi esi ecx st).2.
Proof.
  revert edi esi ecx st. induction fuel as [|f IH]; intros; simpl; [done|]. split_if; [done|]. auto.
Qed.

Lemma rep_movsl_pres n src edi esi st : P st -> P (rep_movsl n src edi esi st).
Proof. revert edi esi st. induction n as [|n IH]; simpl; [done|]. unfold movsl. auto 10. Qed.

Lemma rep_movsb_pres n src edi esi st : P st -> P (rep_movsb n src edi esi st).
Proof. revert edi esi st. induction n as [|n IH]; simpl; auto. Qed.

Lemma memcpy_pres dest src n st : P st -> P (memcpy dest src n st).
Proof.
  intros Hs. unfold memcpy. pose proof (memcpy_top_pres 3 src (u32 dest) 0 (u32 n) st Hs) as Hc.
  destruct (memcpy_top _ _ _ _ _ _) as [[[edi esi] ecx] st']. split_if; [done|].
  by apply rep_movsb_pres, rep_movsl_pres.
Qed.

End Preserve.

(** ** Properties *)

(** The value of a digit character. *)
Definition digit_value (c : Z) : Z := if c <? 58 then c - 48 else c - 55.

Section Properties.
Context {S : Type} `{StoreLaws S}.
Implicit Types st : S.

Lemma digit_value_lookup d : 0 <= d < 36 -> digit_value (lookup_digit d) = d.
Proof. intros. unfold digit_value, lookup_digit. repeat split_if; lia. Qed.

Lemma digit_value_map l : Forall (fun d => 0 <= d < 36) l -> map digit_value (map lookup_digit l) = l.
Proof. induction 1; simpl; [done|]. by rewrite digit_value_lookup by done; f_equal. Qed.

(** C38: [itoa] always ends, writes a NUL-terminated text of at most 33 bytes and nothing
    else, and the text read back in the same base is the number, for every 32-bit
    number and every base from 2 to 36. *)
Theorem itoa_roundtrip value buf radix st :
  2 <= radix <= 36 -> 0 <= value < 4294967296 -> region st buf 33 ->
  exists st' txt, itoa 32 value buf radix st = Some st' /\ only_changes st st' buf 33 /\
    cstr (at_ st' buf) txt /\ (1 <= length txt <= 32)%nat /\
    undigits radix (map digit_value (rev txt)) = value.
Proof.
  intros Hr Hv Hreg. destruct (itoa_ok value buf radix st Hr Hv Hreg) as (st' & E & O & C).
  exists st', (itoa_text radix value). split_and!; try done; unfold itoa_text.
  - destruct (Z.eqb_spec value 0); [simpl; lia|]. rewrite length_map, length_rev.
    destruct (digits_of 32 radix value) as [|d ds] eqn:Ed; [|simpl; lia]. exfalso.
    pose proof (undigits_digits_of 32 radix value ltac:(lia)) as Hu. rewrite Ed in Hu.
    pose proof (pow32_bound radix ltac:(lia)). change (Z.of_nat 32) with 32 in Hu. simpl in Hu. lia.
  - destruct (Z.eqb_spec value 0); [simpl; lia|]. rewrite length_map, length_rev.
    apply digits_of_length.
  - destruct (Z.eqb_spec value 0); [subst; cbn; lia|]. rewrite <- map_rev, rev_involutive.
    rewrite digit_value_map.
    + apply undigits_digits_of; [lia|]. pose proof (pow32_bound radix ltac:(lia)).
      change (Z.of_nat 32) with 32. lia.
    + eapply Forall_impl; [apply (digits_of_range 32 radix value); lia|]. simpl. lia.
Qed.

(** C39: [memset] and [memcpy], which align the destination and then work on whole
    words, do what byte-by-byte loops do: [n] bytes at the destination have the new
    values and nothing else of the store changes, for every length and every alignment
    of both pointers. *)
Theorem mem_routines dest n c src f st :
  0 <= n -> 0 <= dest -> dest + n < 4294967296 -> region st dest n -> src_stable src st dest n f ->
  filled st (memset dest c n st) dest 0 n (fun _ => c) /\
  filled st (memcpy dest src n st) dest 0 n f.
Proof.
  intros Hn Hd Hw Hr Hs. split; [|by apply memcpy_filled].
  destruct (memset_filled dest c n st Hn Hd Hw Hr) as [F1 F2]. split; [done|].
  intros i Hi. rewrite F2 by done. apply u8_u8.
Qed.

End Properties.

(** [strncmp] answers 0 exactly when the strings agree for [n] characters or up to
    their common end, and otherwise the difference of the first characters that
    differ, as signed characters. *)
Theorem strncmp_answer s1 s2 n :
  (forall j, 0 <= s1 j < 256) -> (forall j, 0 <= s2 j < 256) -> 0 <= n ->
  (strncmp s1 s2 n = 0 <-> eq_upto n s1 s2) /\
  forall d, 0 <= d < n -> (forall j, 0 <= j < d -> s1 j = s2 j /\ s1 j <> 0) -> s1 d <> s2 d ->
    strncmp s1 s2 n = i8 (s1 d) - i8 (s2 d) /\ strncmp s1 s2 n <> 0.
Proof.
  intros B1 B2 Hn. split; [by apply strncmp_zero|]. intros d Hd He Hne.
  assert (E : strncmp s1 s2 n = i8 (s1 d) - i8 (s2 d)).
  { unfold strncmp. rewrite (strncmp_first_diff (Z.to_nat n) s1 s2 0 d); try done. lia. }
  split; [done|]. rewrite E. intros H0. apply Hne, i8_inj; auto. lia.
Qed.
