(* ===== verification/State.v ===== *)
(** * The kernel's state

    One record with every static variable of the kernel's C files, grouped by
    translation unit, together with the part of the machine the code touches:
    memory, the history of port accesses, the interrupt flag, the kernel stack
    pointer and the interrupts still to come.  The operations of the component
    files are functions on this record; those that can block, fault or leave
    the kernel return a [res]. *)

From stdpp Require Import base list numbers gmap.
From Stdlib Require Import ZArith Lia.
From S2P Require Import Prelude Mem.

(** ** Ports

    What [inb] reads is decided by the devices: a function of the port and of all
    earlier port accesses, newest first. *)

Inductive event :=
| Out (port val : Z)
| In (port val : Z).

Class Device : Type := dev_in : list event -> Z -> Z.

(** Addresses the linker chooses. *)
Class Symbols : Type := {
  sym_pageDir : Z;                (* &pageDir, 4096-aligned *)
  sym_table : Z;                  (* &table, 4096-aligned *)
  sym_shell : Z                   (* the literal "shell" of sys_halt *)
}.

(** ** Variables by translation unit *)

(** lib.c *)
Record con := mkCon { screen_x : Z; screen_y : Z }.

(** i8259.c *)
Record pic := mkPic { master_mask : Z; slave_mask : Z }.

(** rtc.c *)
Record rtc := mkRtc {
  rtc_interrupt_occurred : Z;
  rtc_counter : Z;
  rtc_max_count : Z
}.

(** keyboard.c *)
Record kbd := mkKbd {
  keyboard_buffer : list Z;       (* char[128] *)
  keyboard_buffer_index : Z;
  key_status : Z;
  enterpress : Z
}.

(** paging.c, with the control registers [pageEnable] writes *)
Record paging := mkPaging {
  pageDir : list Z;               (* the .val of 1024 union dirEntry *)
  table : list Z;                 (* the .val of 1024 union tblEntry *)
  cr0 : Z; cr3 : Z; cr4 : Z
}.

(** filesystem.h: which operation table a descriptor points to *)
Inductive fops := F_unset | F_terminal | F_rtc | F_dir | F_file.

#[export] Instance fops_eq_dec : EqDecision fops.
Proof. solve_decision. Defined.

Record file_desc := mkFd {
  f_op : fops;
  fd_inode : Z;
  file_position : Z;
  flag : Z
}.

#[export] Instance file_desc_eq_dec : EqDecision file_desc.
Proof. solve_decision. Defined.

Record pcb := mkPcb {
  file_desc_tb : list file_desc;  (* 8 descriptors *)
  args : list Z;                  (* uint8_t[128] *)
  pid : Z;
  parent_pid : Z;
  saved_esp : Z;
  saved_ebp : Z;
  active : Z
}.

(** x86_desc.h: the fields of the TSS the kernel writes *)
Record tss_t := mkTss { ss0 : Z; esp0 : Z; ldt_segment_selector : Z }.

(** An interrupt line that will be raised. *)
Inductive irq := IRQ_keyboard | IRQ_rtc.

Record kst := mkK {
  k_mem : vmem;
  k_io : list event;
  k_if : bool;
  k_esp : Z;
  k_irqs : list irq;
  k_con : con;
  k_pic : pic;
  k_rtc : rtc;
  k_kbd : kbd;
  k_pg : paging;
  k_boot : Z;                     (* filesystem.c: boot *)
  k_pcbs : list pcb;              (* *curr_pcb[0] .. *curr_pcb[5] *)
  k_tss : tss_t
}.

(** ** Updates *)

Definition set_mem (m : vmem) (s : kst) : kst :=
  mkK m (k_io s) (k_if s) (k_esp s) (k_irqs s) (k_con s) (k_pic s) (k_rtc s) (k_kbd s)
      (k_pg s) (k_boot s) (k_pcbs s) (k_tss s).
Definition set_io (l : list event) (s : kst) : kst :=
  mkK (k_mem s) l (k_if s) (k_esp s) (k_irqs s) (k_con s) (k_pic s) (k_rtc s) (k_kbd s)
      (k_pg s) (k_boot s) (k_pcbs s) (k_tss s).
Definition set_if (b : bool) (s : kst) : kst :=
  mkK (k_mem s) (k_io s) b (k_esp s) (k_irqs s) (k_con s) (k_pic s) (k_rtc s) (k_kbd s)
      (k_pg s) (k_boot s) (k_pcbs s) (k_tss s).
Definition set_esp (e : Z) (s : kst) : kst :=
  mkK (k_mem s) (k_io s) (k_if s) e (k_irqs s) (k_con s) (k_pic s) (k_rtc s) (k_kbd s)
      (k_pg s) (k_boot s) (k_pcbs s) (k_tss s).
Definition set_irqs (q : list irq) (s : kst) : kst :=
  mkK (k_mem s) (k_io s) (k_if s) (k_esp s) q (k_con s) (k_pic s) (k_rtc s) (k_kbd s)
      (k_pg s) (k_boot s) (k_pcbs s) (k_tss s).
Definition set_con (c : con) (s : kst) : kst :=
  mkK (k_mem s) (k_io s) (k_if s) (k_esp s) (k_irqs s) c (k_pic s) (k_rtc s) (k_kbd s)
      (k_pg s) (k_boot s) (k_pcbs s) (k_tss s).
Definition set_pic (p : pic) (s : kst) : kst :=
  mkK (k_mem s) (k_io s) (k_if s) (k_esp s) (k_irqs s) (k_con s) p (k_rtc s) (k_kbd s)
      (k_pg s) (k_boot s) (k_pcbs s) (k_tss s).
Definition set_rtc (r : rtc) (s : kst) : kst :=
  mkK (k_mem s) (k_io s) (k_if s) (k_esp s) (k_irqs s) (k_con s) (k_pic s) r (k_kbd s)
      (k_pg s) (k_boot s) (k_pcbs s) (k_tss s).
Definition set_kbd (k : kbd) (s : kst) : kst :=
  mkK (k_mem s) (k_io s) (k_if s) (k_esp s) (k_irqs s) (k_con s) (k_pic s) (k_rtc s) k
      (k_pg s) (k_boot s) (k_pcbs s) (k_tss s).
Definition set_pg (p : paging) (s : kst) : kst :=
  mkK (k_mem s) (k_io s) (k_if s) (k_esp s) (k_irqs s) (k_con s) (k_pic s) (k_rtc s) (k_kbd s)
      p (k_boot s) (k_pcbs s) (k_tss s).
Definition set_boot (b : Z) (s : kst) : kst :=
  mkK (k_mem s) (k_io s) (k_if s) (k_esp s) (k_irqs s) (k_con s) (k_pic s) (k_rtc s) (k_kbd s)
      (k_pg s) b (k_pcbs s) (k_tss s).
Definition set_pcbs (l : list pcb) (s : kst) : kst :=
  mkK (k_mem s) (k_io s) (k_if s) (k_esp s) (k_irqs s) (k_con s) (k_pic s) (k_rtc s) (k_kbd s)
      (k_pg s) (k_boot s) l (k_tss s).
Definition set_tss (t : tss_t) (s : kst) : kst :=
  mkK (k_mem s) (k_io s) (k_if s) (k_esp s) (k_irqs s) (k_con s) (k_pic s) (k_rtc s) (k_kbd s)
      (k_pg s) (k_boot s) (k_pcbs s) t.

(** ** Initial values

    The static initialisers of the C files, all memory zero, paging off. *)

Definition fd0 : file_desc := mkFd F_unset 0 0 0.
Definition pcb0 : pcb := mkPcb (replicate 8 fd0) (replicate 128 0) 0 0 0 0 0.

Definition kst0 : kst :=
  mkK (mkVmem ∅ false 0) [] false 0x800000 [] (mkCon 0 0) (mkPic 0 0) (mkRtc 0 0 512)
      (mkKbd (replicate 128 0) 0 0 0) (mkPaging (replicate 1024 0) (replicate 1024 0) 0 0 0)
      0 (replicate 6 pcb0) (mkTss 0 0 0).

(** ** Outcomes of kernel code *)

Inductive res (A : Type) :=
| Ret (a : A) (s : kst)             (* the function returns *)
| Blocked (s : kst)                 (* a busy-wait loop no interrupt to come ends *)
| NullDeref (s : kst)               (* a NULL pcb is dereferenced *)
| BadJump (s : kst)                 (* a call through an entry a table does not have *)
| NoFuel                            (* a scan was cut off by its bound *)
| EnterUser (eip esp : Z) (s : kst) (* [iret] to user code *)
| Resume (esp ebp eax : Z) (s : kst) (* [jmp execute_ret] on a saved stack *).

Arguments Ret {A}.
Arguments Blocked {A}.
Arguments NullDeref {A}.
Arguments BadJump {A}.
Arguments NoFuel {A}.
Arguments EnterUser {A}.
Arguments Resume {A}.

Definition K (A : Type) : Type := kst -> res A.

Definition kret {A} (a : A) : K A := fun s => Ret a s.

Definition kbind {A B} (c : K A) (k : A -> K B) : K B := fun s =>
  match c s with
  | Ret a s' => k a s'
  | Blocked s' => Blocked s'
  | NullDeref s' => NullDeref s'
  | BadJump s' => BadJump s'
  | NoFuel => NoFuel
  | EnterUser i p s' => EnterUser i p s'
  | Resume e b v s' => Resume e b v s'
  end.

(** A step that only changes the state. *)
Definition kmod (f : kst -> kst) : K unit := fun s => Ret tt (f s).

Declare Scope kernel_scope.
Delimit Scope kernel_scope with kernel.
Notation "x <- c ;; k" := (kbind c (fun x => k))
  (at level 100, c at next level, right associativity) : kernel_scope.
Notation "c ;; k" := (kbind c (fun _ => k))
  (at level 100, right associativity) : kernel_scope.

(** A loop over [lo .. hi - 1] whose body has effects. *)
Fixpoint k_up {A} (k : nat) (i : Z) (f : Z -> A -> K A) (a : A) : K A :=
  match k with
  | O => kret a
  | S k' => (a <- f i a ;; k_up k' (i + 1) f a)%kernel
  end.

Definition k_for {A} (lo hi : Z) (f : Z -> A -> K A) (a : A) : K A := k_up (Z.to_nat (hi - lo)) lo f a.

Create Rewrite HintDb kst.

Section Monad.
Context {A B C : Type}.

Lemma kbind_ret (a : A) (k : A -> K B) s : kbind (kret a) k s = k a s.
Proof. done. Qed.

Lemma kbind_mod f (k : unit -> K B) s : kbind (kmod f) k s = k tt (f s).
Proof. done. Qed.

Lemma kbind_assoc (c : K A) (f : A -> K B) (g : B -> K C) s :
  kbind (kbind c f) g s = kbind c (fun a => kbind (f a) g) s.
Proof. unfold kbind. by destruct (c s). Qed.

(** A sequence returns only when its first part does. *)
Lemma kbind_Ret_inv (c : K A) (k : A -> K B) s b s' :
  kbind c k s = Ret b s' -> exists a s1, c s = Ret a s1 /\ k a s1 = Ret b s'.
Proof. unfold kbind. destruct (c s); try done. eauto. Qed.

End Monad.

(** ** Waiting for interrupts

    What an interrupt does is the business of the handlers; a busy-wait loop only
    needs that some function delivers one. *)

Class Interrupts : Type := deliver : irq -> kst -> kst.

(** [while (!cond);] with interrupts enabled: the interrupts to come are taken in
    order until the condition holds.  With interrupts disabled nothing can change. *)
Fixpoint spin_until `{Interrupts} (cond : kst -> bool) (q : list irq) (s : kst) : res unit :=
  if cond s then Ret tt (set_irqs q s)
  else if k_if s then
    match q with
    | [] => Blocked s
    | i :: q' => spin_until cond q' (deliver i (set_irqs q' s))
    end
  else Blocked s.

Definition busy_wait `{Interrupts} (cond : kst -> bool) : K unit :=
  fun s => spin_until cond (k_irqs s) s.

(** ** Parts of the state a component leaves alone *)

(** The scancodes read from the keyboard's data port so far, newest first. *)
Fixpoint kbd_log (l : list event) : list Z :=
  match l with
  | [] => []
  | In port v :: l' => if port =? 0x60 then v :: kbd_log l' else kbd_log l'
  | Out _ _ :: l' => kbd_log l'
  end.

(** The same translation of addresses. *)
Definition same_map (m m' : vmem) : Prop := paging_on m' = paging_on m /\ upage m' = upage m.

(** [only_io s s']: at most the port history changed, and no scancode was read. *)
Definition only_io (s s' : kst) : Prop :=
  s' = set_io (k_io s') s /\ kbd_log (k_io s') = kbd_log (k_io s).

(** [only_console s s']: at most bytes of memory, the port history and the cursor
    changed, and no scancode was read. *)
Definition only_console (s s' : kst) : Prop :=
  s' = set_con (k_con s') (set_io (k_io s') (set_mem (k_mem s') s)) /\
  kbd_log (k_io s') = kbd_log (k_io s) /\ same_map (k_mem s) (k_mem s').

(** [only_input s s']: the keyboard's variables may have changed as well, and
    scancodes may have been read. *)
Definition only_input (s s' : kst) : Prop :=
  s' = set_kbd (k_kbd s') (set_con (k_con s') (set_io (k_io s') (set_mem (k_mem s') s))) /\
  same_map (k_mem s) (k_mem s').

(** [only_edit s s']: the same without reading a scancode. *)
Definition only_edit (s s' : kst) : Prop :=
  only_input s s' /\ kbd_log (k_io s') = kbd_log (k_io s).

#[export] Instance same_map_equiv : Equivalence same_map.
Proof. unfold same_map. split; red; intros; intuition congruence. Qed.

#[export] Instance only_io_preorder : PreOrder only_io.
Proof.
  split; [by intros []|]. intros s1 s2 s3 [E1 L1] [E2 L2]. split; [|congruence].
  rewrite E2, E1. by destruct s1.
Qed.

#[export] Instance only_console_preorder : PreOrder only_console.
Proof.
  split; [by intros []|]. intros s1 s2 s3 (E1 & L1 & M1) (E2 & L2 & M2).
  split_and!; [|congruence|by etrans]. rewrite E2, E1. by destruct s1.
Qed.

#[export] Instance only_input_preorder : PreOrder only_input.
Proof.
  split; [by intros []|]. intros s1 s2 s3 [E1 M1] [E2 M2].
  split; [|by etrans]. rewrite E2, E1. by destruct s1.
Qed.

#[export] Instance only_edit_preorder : PreOrder only_edit.
Proof.
  split; [intros s; by split|]. intros s1 s2 s3 [E1 L1] [E2 L2]. split; [by etrans|congruence].
Qed.

Section Frames.
Implicit Types s : kst.

Lemma same_map_stb (m : vmem) a v : same_map m (stb m a v).
Proof. done. Qed.

Lemma only_io_console s s' : only_io s s' -> only_console s s'.
Proof. intros [E L]. split_and!; [|done|]; rewrite E; by destruct s. Qed.

Lemma only_console_stb s a v : only_console s (set_mem (stb (k_mem s) a v) s).
Proof. by destruct s. Qed.

Lemma only_console_set_con s c : only_console s (set_con c s).
Proof. by destruct s. Qed.

Lemma only_console_edit s s' : only_console s s' -> only_edit s s'.
Proof. intros (E & L & M). split; [|done]. split; [|done]. rewrite E. by destruct s. Qed.

Lemma only_io_input s s' : s' = set_io (k_io s') s -> only_input s s'.
Proof. intros E. split; rewrite E; by destruct s. Qed.

Lemma only_edit_set_kbd s k : only_edit s (set_kbd k s).
Proof. by destruct s. Qed.

(** The parts of the state an input operation does not touch. *)
Lemma only_input_parts s s' :
  only_input s s' ->
  k_rtc s' = k_rtc s /\ k_pcbs s' = k_pcbs s /\ k_pg s' = k_pg s /\
  k_if s' = k_if s /\ k_irqs s' = k_irqs s /\ k_esp s' = k_esp s /\ k_boot s' = k_boot s /\
  k_tss s' = k_tss s /\ k_pic s' = k_pic s.
Proof. intros [-> _]. done. Qed.

Lemma only_console_kbd s s' : only_console s s' -> k_kbd s' = k_kbd s.
Proof. intros [-> _]. done. Qed.

(** Addresses denote the same locations under the same translation. *)
Lemma same_map_cell m m' a : same_map m m' -> cell m' a = cell m a.
Proof. unfold cell. simpl. unfold tr. intros [-> ->]. done. Qed.

Lemma same_map_region m m' a n : same_map m m' -> region m a n -> region m' a n.
Proof.
  intros M [Hm Hi]. split; [done|]. intros i j ??. rewrite !(same_map_cell m m') by done. auto.
Qed.

Lemma same_map_apart m m' a n b k : same_map m m' -> apart m a n b k -> apart m' a n b k.
Proof. intros M H i j ??. rewrite !(same_map_cell m m') by done. auto. Qed.

End Frames.

#[export] Hint Resolve only_io_console only_console_stb only_console_set_con
  only_console_edit only_edit_set_kbd : frame.
