(* ===== verification/Pic.v ===== *)
(** * Ports and the 8259 interrupt controller (lib.h, i8259.c)

    Port input and output of lib.h as entries of the port history, and the driver
    of the two cascaded 8259 controllers.  [pic_hw] is what the data sheet says a
    controller makes of the bytes written to it (initialisation sequence, mask
    register); a device that answers reads of the mask register by it is a
    [PicDevice], the assumption of the theorems on masks. *)

From stdpp Require Import base list numbers gmap.
From Stdlib Require Import ZArith Lia.
From S2P Require Import Prelude Mem State.

(** ** lib.h *)

Definition inb `{Device} (port : Z) (s : kst) : Z * kst :=
  let v := u8 (dev_in (k_io s) port) in (v, set_io (In port v :: k_io s) s).

Definition outb (data port : Z) (s : kst) : kst :=
  set_io (Out (u16 port) (u8 data) :: k_io s) s.

Definition cli (s : kst) : kst := set_if false s.
Definition sti (s : kst) : kst := set_if true s.

(** ** i8259.h *)

Definition MASTER_8259_PORT : Z := 0x20.
Definition SLAVE_8259_PORT : Z := 0xA0.
Definition ICW1 : Z := 0x11.
Definition ICW2_MASTER : Z := 0x20.
Definition ICW2_SLAVE : Z := 0x28.
Definition ICW3_MASTER : Z := 0x04.
Definition ICW3_SLAVE : Z := 0x02.
Definition ICW4 : Z := 0x01.
Definition EOI : Z := 0x60.

(** ** i8259.c *)

Section Driver.
Context `{D : Device}.

Definition enable_irq (irq_num : Z) (s : kst) : kst :=
  if (irq_num <? 0) || (15 <? irq_num) then s
  else
    let '(port, irq_num) :=
      if irq_num <? 8 then (MASTER_8259_PORT + 1, irq_num)
      else (SLAVE_8259_PORT + 1, irq_num - 8) in
    let '(v, s) := inb port s in
    let data := u8 (Z.land v (Z.lnot (Z.shiftl 1 irq_num))) in
    outb data port s.

Definition disable_irq (irq_num : Z) (s : kst) : kst :=
  if (irq_num <? 0) || (15 <? irq_num) then s
  else
    let '(port, irq_num) :=
      if irq_num <? 8 then (MASTER_8259_PORT + 1, irq_num)
      else (SLAVE_8259_PORT + 1, irq_num - 8) in
    let '(v, s) := inb port s in
    let data := u8 (Z.lor v (Z.shiftl 1 irq_num)) in
    outb data port s.

Definition send_eoi (irq_num : Z) (s : kst) : kst :=
  if (irq_num <? 0) || (15 <? irq_num) then s
  else if irq_num <=? 7 then outb (Z.lor EOI irq_num) MASTER_8259_PORT s
  else outb (Z.lor EOI (irq_num - 8)) SLAVE_8259_PORT (outb (Z.lor EOI 2) MASTER_8259_PORT s).

Definition i8259_init (s : kst) : kst :=
  let s := set_pic (mkPic 0xFF 0xFF) s in
  let s := outb ICW1 MASTER_8259_PORT s in
  let s := outb ICW1 SLAVE_8259_PORT s in
  let s := outb ICW2_MASTER (MASTER_8259_PORT + 1) s in
  let s := outb ICW2_SLAVE (SLAVE_8259_PORT + 1) s in
  let s := outb ICW3_MASTER (MASTER_8259_PORT + 1) s in
  let s := outb ICW3_SLAVE (SLAVE_8259_PORT + 1) s in
  let s := outb ICW4 (MASTER_8259_PORT + 1) s in
  let s := outb ICW4 (SLAVE_8259_PORT + 1) s in
  let s := outb (master_mask (k_pic s)) (MASTER_8259_PORT + 1) s in
  let s := outb (slave_mask (k_pic s)) (SLAVE_8259_PORT + 1) s in
  enable_irq 2 s.

End Driver.

(** ** The controllers, by their data sheet

    [pic_hw cmd log] replays the writes to the controller with command port [cmd]:
    the number of initialisation words it still waits for on its data port, and its
    interrupt mask register. *)

Fixpoint pic_hw (cmd : Z) (log : list event) : Z * Z :=
  match log with
  | [] => (0, 0)
  | In _ _ :: l => pic_hw cmd l
  | Out p v :: l =>
      let '(w, imr) := pic_hw cmd l in
      if p =? cmd then
        if Z.testbit v 4
        then (1 + (if Z.testbit v 1 then 0 else 1) + (if Z.testbit v 0 then 1 else 0), 0)
        else (w, imr)
      else if p =? cmd + 1 then if w =? 0 then (0, v) else (w - 1, imr)
      else (w, imr)
  end.

Class PicDevice `{D : Device} : Prop :=
  reads_imr : forall log cmd, cmd = MASTER_8259_PORT \/ cmd = SLAVE_8259_PORT ->
    dev_in log (cmd + 1) = snd (pic_hw cmd log).

(** A machine whose only devices are the two controllers. *)
Definition pic_only : Device := fun log port =>
  if port =? 0x21 then snd (pic_hw 0x20 log)
  else if port =? 0xA1 then snd (pic_hw 0xA0 log) else 0.

(** The controller waits for no initialisation word. *)
Definition pic_ready (s : kst) : Prop :=
  fst (pic_hw MASTER_8259_PORT (k_io s)) = 0 /\ fst (pic_hw SLAVE_8259_PORT (k_io s)) = 0.

(** Interrupt line [n] (0..15) is masked. *)
Definition masked (s : kst) (n : Z) : bool :=
  if n <? 8 then Z.testbit (snd (pic_hw MASTER_8259_PORT (k_io s))) n
  else Z.testbit (snd (pic_hw SLAVE_8259_PORT (k_io s))) (n - 8).

(** ** Lemmas *)

Section PicFacts.
Context `{D : Device}.
Implicit Types s : kst.

Lemma enable_irq_only_io n s : only_io s (enable_irq n s).
Proof. unfold enable_irq. repeat split_if; by destruct s. Qed.

Lemma send_eoi_only_io n s : only_io s (send_eoi n s).
Proof. unfold send_eoi. repeat split_if; by destruct s. Qed.

Lemma u8_testbit x i : 0 <= i < 8 -> Z.testbit (u8 x) i = Z.testbit x i.
Proof. intros. unfold u8. change 256 with (2 ^ 8). by rewrite Z.mod_pow2_bits_low by lia. Qed.

Lemma clear_bit_spec v n i :
  0 <= n < 8 -> 0 <= i < 8 ->
  Z.testbit (u8 (u8 (Z.land (u8 v) (Z.lnot (Z.shiftl 1 n))))) i =
  Z.testbit v i && negb (i =? n).
Proof.
  intros. rewrite !u8_testbit, Z.land_spec, Z.lnot_spec, u8_testbit by lia.
  rewrite Z.shiftl_spec by lia. destruct (Z.eqb_spec i n) as [->|].
  - by rewrite Z.sub_diag.
  - destruct (Z.ltb_spec i n); [by rewrite (Z.testbit_neg_r 1) by lia|].
    change 1 with (2 ^ 0). by rewrite Z.pow2_bits_false by lia.
Qed.

Lemma set_bit_spec v n i :
  0 <= n < 8 -> 0 <= i < 8 ->
  Z.testbit (u8 (u8 (Z.lor (u8 v) (Z.shiftl 1 n)))) i = Z.testbit v i || (i =? n).
Proof.
  intros. rewrite !u8_testbit, Z.lor_spec, u8_testbit by lia.
  rewrite Z.shiftl_spec by lia. destruct (Z.eqb_spec i n) as [->|].
  - by rewrite Z.sub_diag.
  - f_equal. destruct (Z.ltb_spec i n); [by rewrite (Z.testbit_neg_r 1) by lia|].
    change 1 with (2 ^ 0). by rewrite Z.pow2_bits_false by lia.
Qed.

(** A byte written to the data port of a ready controller is its new mask, and the
    other controller does not see it. *)
Lemma pic_hw_mask cmd cmd' v log :
  cmd <> cmd' -> cmd <> cmd' + 1 -> cmd + 1 <> cmd' -> fst (pic_hw cmd log) = 0 ->
  pic_hw cmd (Out (cmd + 1) v :: log) = (0, v) /\
  pic_hw cmd' (Out (cmd + 1) v :: log) = pic_hw cmd' log.
Proof.
  intros H1 H2 H3 H4. cbn [pic_hw]. destruct (pic_hw cmd log) as [w imr] eqn:E.
  simpl in H4. subst w. destruct (pic_hw cmd' log) as [w' imr'].
  rewrite (proj2 (Z.eqb_neq (cmd + 1) cmd)), Z.eqb_refl by lia.
  rewrite (proj2 (Z.eqb_neq (cmd + 1) cmd')), (proj2 (Z.eqb_neq (cmd + 1) (cmd' + 1))) by lia.
  done.
Qed.

End PicFacts.

(** The controller of line [n], and the line's number on it. *)
Definition chip (n : Z) : Z := if n <? 8 then MASTER_8259_PORT else SLAVE_8259_PORT.
Definition pin (n : Z) : Z := if n <? 8 then n else n - 8.

(** ** Masks *)

Section Masks.
Context `{D : Device} `{PD : !PicDevice}.
Implicit Types s : kst.

Lemma masked_chip s n : masked s n = Z.testbit (snd (pic_hw (chip n) (k_io s))) (pin n).
Proof. unfold masked, chip, pin. by destruct (n <? 8). Qed.

Lemma chip_cases n : chip n = MASTER_8259_PORT \/ chip n = SLAVE_8259_PORT.
Proof. unfold chip. destruct (n <? 8); auto. Qed.

(** Reading the mask of a ready controller, changing it and writing it back. *)
Lemma mask_update n s data :
  pic_ready s ->
  let s' := outb data (chip n + 1) (snd (inb (chip n + 1) s)) in
  pic_ready s' /\
  (forall m, chip m = chip n -> masked s' m = Z.testbit (u8 data) (pin m)) /\
  (forall m, chip m <> chip n -> masked s' m = masked s m).
Proof.
  intros [R1 R2] s'.
  set (o := if decide (chip n = MASTER_8259_PORT) then SLAVE_8259_PORT else MASTER_8259_PORT).
  assert (Ho : chip n <> o /\ chip n <> o + 1 /\ chip n + 1 <> o).
  { unfold o. destruct (chip_cases n) as [-> | ->]; by vm_compute. }
  assert (Hr : fst (pic_hw (chip n) (k_io s)) = 0) by (by destruct (chip_cases n) as [-> | ->]).
  assert (Hor : fst (pic_hw o (k_io s)) = 0) by (unfold o; by case_decide).
  assert (Hport : u16 (chip n + 1) = chip n + 1) by (by destruct (chip_cases n) as [-> | ->]).
  destruct Ho as (H1 & H2 & H3).
  destruct (pic_hw_mask (chip n) o (u8 data)
              (In (chip n + 1) (u8 (dev_in (k_io s) (chip n + 1))) :: k_io s) H1 H2 H3 Hr)
    as [En Eo].
  assert (Es : k_io s' = Out (chip n + 1) (u8 data) ::
      In (chip n + 1) (u8 (dev_in (k_io s) (chip n + 1))) :: k_io s)
    by (subst s'; unfold outb, inb; simpl; by rewrite Hport).
  rewrite <- Es in En, Eo.
  assert (Eo' : pic_hw o (k_io s') = pic_hw o (k_io s)) by exact Eo. clear Eo Es.
  split_and!.
  - assert (F1 : fst (pic_hw (chip n) (k_io s')) = 0) by (by rewrite En).
    assert (F2 : fst (pic_hw o (k_io s')) = 0) by (by rewrite Eo').
    unfold pic_ready. unfold o in F2. case_decide as E; [rewrite E in F1; done|].
    destruct (chip_cases n) as [?|E']; [done|]. by rewrite E' in F1.
  - intros m Hm. by rewrite masked_chip, Hm, En.
  - intros m Hm. assert (chip m = o) as Hmo.
    { unfold o. case_decide; destruct (chip_cases m), (chip_cases n); congruence. }
    by rewrite !masked_chip, Hmo, Eo'.
Qed.

Lemma pin_range n : 0 <= n <= 15 -> 0 <= pin n < 8.
Proof. unfold pin. split_if; lia. Qed.

Lemma pin_eqb m n : 0 <= m -> 0 <= n -> chip m = chip n -> (pin m =? pin n) = (m =? n).
Proof.
  unfold pin, chip, MASTER_8259_PORT, SLAVE_8259_PORT. intros.
  destruct (Z.ltb_spec m 8), (Z.ltb_spec n 8); try lia.
Qed.

Lemma irq_port n : (if n <? 8 then (MASTER_8259_PORT + 1, n) else (SLAVE_8259_PORT + 1, n - 8))
  = (chip n + 1, pin n).
Proof. unfold chip, pin. by destruct (n <? 8). Qed.

(** Enabling a line clears its mask bit and no other. *)
Lemma enable_irq_masks n s :
  0 <= n <= 15 -> pic_ready s ->
  pic_ready (enable_irq n s) /\
  forall m, 0 <= m <= 15 -> masked (enable_irq n s) m = masked s m && negb (m =? n).
Proof.
  intros Hn HR. unfold enable_irq. rewrite irq_port.
  destruct (Z.ltb_spec n 0), (Z.ltb_spec 15 n); try lia. simpl.
  set (data := u8 (Z.land _ _)).
  destruct (mask_update n s data HR) as (HR' & Hs & Ho). split; [done|]. intros m Hm.
  destruct (decide (chip m = chip n)) as [E|E].
  - etrans; [by apply Hs|]. unfold data. rewrite reads_imr by apply chip_cases.
    rewrite clear_bit_spec by (apply pin_range; lia).
    by rewrite masked_chip, E, pin_eqb by lia || done.
  - etrans; [by apply Ho|]. destruct (Z.eqb_spec m n) as [->|]; [done|].
    by rewrite andb_true_r.
Qed.

(** Disabling a line sets its mask bit and no other. *)
Lemma disable_irq_masks n s :
  0 <= n <= 15 -> pic_ready s ->
  pic_ready (disable_irq n s) /\
  forall m, 0 <= m <= 15 -> masked (disable_irq n s) m = masked s m || (m =? n).
Proof.
  intros Hn HR. unfold disable_irq. rewrite irq_port.
  destruct (Z.ltb_spec n 0), (Z.ltb_spec 15 n); try lia. simpl.
  set (data := u8 (Z.lor _ _)).
  destruct (mask_update n s data HR) as (HR' & Hs & Ho). split; [done|]. intros m Hm.
  destruct (decide (chip m = chip n)) as [E|E].
  - etrans; [by apply Hs|]. unfold data. rewrite reads_imr by apply chip_cases.
    rewrite set_bit_spec by (apply pin_range; lia).
    by rewrite masked_chip, E, pin_eqb by lia || done.
  - etrans; [by apply Ho|]. destruct (Z.eqb_spec m n) as [->|]; [done|].
    by rewrite orb_false_r.
Qed.

(** The initialisation words put both controllers in operation whatever they were
    doing before. *)
Lemma init_words_ready log :
  let log' := [Out 0xA1 0xFF; Out 0x21 0xFF; Out 0xA1 ICW4; Out 0x21 ICW4; Out 0xA1 ICW3_SLAVE;
               Out 0x21 ICW3_MASTER; Out 0xA1 ICW2_SLAVE; Out 0x21 ICW2_MASTER;
               Out 0xA0 ICW1; Out 0x20 ICW1] ++ log in
  pic_hw MASTER_8259_PORT log' = (0, 0xFF) /\ pic_hw SLAVE_8259_PORT log' = (0, 0xFF).
Proof.
  simpl. destruct (pic_hw MASTER_8259_PORT log), (pic_hw SLAVE_8259_PORT log).
  vm_compute. done.
Qed.

End Masks.

(** ** Port accesses that do not concern the controllers *)

Definition pic_same (s s' : kst) : Prop := forall cmd,
  cmd = MASTER_8259_PORT \/ cmd = SLAVE_8259_PORT -> pic_hw cmd (k_io s') = pic_hw cmd (k_io s).

#[export] Instance pic_same_preorder : PreOrder pic_same.
Proof. split; [by intros s cmd _|]. intros s1 s2 s3 H1 H2 cmd Hc. by rewrite H2, H1. Qed.

Lemma pic_same_io s s' : k_io s' = k_io s -> pic_same s s'.
Proof. intros E cmd _. by rewrite E. Qed.

(** Port accesses away from both controllers. *)
Definition away (e : event) : bool :=
  match e with In _ _ => true | Out p _ => negb (existsb (Z.eqb p) [0x20; 0x21; 0xA0; 0xA1]) end.

Lemma pic_hw_away l log cmd :
  cmd = MASTER_8259_PORT \/ cmd = SLAVE_8259_PORT -> forallb away l = true ->
  pic_hw cmd (l ++ log) = pic_hw cmd log.
Proof.
  intros Hc. induction l as [|e l IH]; intros Hl; [done|]. cbn [forallb] in Hl.
  apply andb_true_iff in Hl as [He Hl]. rewrite <- IH by done. destruct e as [p v|p v]; [|done].
  cbn [app pic_hw]. destruct (pic_hw cmd (l ++ log)) as [w imr]. unfold away in He. cbn [existsb] in He.
  destruct Hc as [-> | ->]; unfold MASTER_8259_PORT, SLAVE_8259_PORT; cbn [Z.add Pos.add Pos.succ];
    repeat split_if; done || lia.
Qed.

Lemma pic_same_ready s s' : pic_same s s' -> pic_ready s -> pic_ready s'.
Proof. intros E [H1 H2]. split; rewrite E by auto; done. Qed.

Lemma pic_same_masked s s' n : pic_same s s' -> masked s' n = masked s n.
Proof. intros E. rewrite !masked_chip. by rewrite E by apply chip_cases. Qed.

(** ** Properties *)

Section Properties.
Context `{D : Device} `{PD : !PicDevice}.

(** After [i8259_init] both controllers are operating and every line but the
    cascade line 2 is masked, whatever was written to them before. *)
Lemma i8259_init_masks s :
  pic_ready (i8259_init s) /\ forall m, 0 <= m <= 15 -> masked (i8259_init s) m = negb (m =? 2).
Proof.
  unfold i8259_init. cbv zeta.
  match goal with |- pic_ready (enable_irq 2 ?t) /\ _ => set (s1 := t) end.
  destruct (init_words_ready (k_io s)) as [E1 E2].
  assert (HR : pic_ready s1) by (split; [exact (f_equal fst E1)|exact (f_equal fst E2)]).
  destruct (enable_irq_masks 2 s1 ltac:(lia) HR) as [HR' Hm]. split; [done|].
  intros m Hm'. rewrite Hm by done. rewrite masked_chip.
  replace (snd (pic_hw (chip m) (k_io s1))) with 255.
  - change 255 with (Z.ones 8). rewrite Z.ones_spec_low; [done|]. by apply pin_range.
  - unfold chip. destruct (m <? 8); symmetry; [exact (f_equal snd E1)|exact (f_equal snd E2)].
Qed.

(** [disable_irq] after [enable_irq] of one line masks it again and leaves every
    other line as it was. *)
Theorem enable_disable_irq n s :
  0 <= n <= 15 -> pic_ready s ->
  masked (enable_irq n s) n = false /\ masked (disable_irq n (enable_irq n s)) n = true /\
  forall m, 0 <= m <= 15 -> m <> n -> masked (disable_irq n (enable_irq n s)) m = masked s m.
Proof.
  intros Hn HR. destruct (enable_irq_masks n s Hn HR) as [HR1 H1].
  destruct (disable_irq_masks n _ Hn HR1) as [HR2 H2]. split_and!.
  - by rewrite H1, Z.eqb_refl, andb_false_r.
  - by rewrite H2, Z.eqb_refl, orb_true_r.
  - intros m Hm Hne. rewrite H2, H1 by done. rewrite (proj2 (Z.eqb_neq m n)) by done.
    by rewrite andb_true_r, orb_false_r.
Qed.

End Properties.
