(* ===== verification/Console.v ===== *)
(** * The text console (lib.c)

    The cursor variables and the routines that draw into text-mode video memory:
    [clear], [putc], [puts], [printf] used by the boot code and the exception
    handlers, and the terminal routines [scroll_term], [move_cursor], [clear_term],
    [backspace_pressed], [putc_term], [puts_term].  Video memory is the part of
    memory at 0xB8000, two bytes (character, attribute) per position.

    The specification is a linear screen: 2000 positions and the position of the
    cursor.  [putc_term] refines it ([putc_term_view]) for every character that
    does not move the cursor off the screen. *)

From stdpp Require Import base list numbers gmap.
From Stdlib Require Import ZArith Lia.
From S2P Require Import Prelude Mem LibStr State Pic.

Definition VIDEO : Z := 0xB8000.
Definition NUM_COLS : Z := 80.
Definition NUM_ROWS : Z := 25.
Definition ATTRIB : Z := 0x7.

(** ** Video memory *)

(** [video_mem[off] = v] *)
Definition vid_put (off v : Z) (s : kst) : kst :=
  set_mem (stb (k_mem s) (VIDEO + off) v) s.

Definition vid_get (off : Z) (s : kst) : Z := ldb (k_mem s) (VIDEO + off).

Definition set_screen_x (x : Z) (s : kst) : kst := set_con (mkCon x (screen_y (k_con s))) s.
Definition set_screen_y (y : Z) (s : kst) : kst := set_con (mkCon (screen_x (k_con s)) y) s.

(** The offset of the cursor, [(NUM_COLS * screen_y + screen_x) << 1]. *)
Definition cursor_off (s : kst) : Z :=
  Z.shiftl (NUM_COLS * screen_y (k_con s) + screen_x (k_con s)) 1.

Definition clear (s : kst) : kst :=
  for_loop 0 (NUM_ROWS * NUM_COLS)
    (fun i s => vid_put (Z.shiftl i 1 + 1) ATTRIB (vid_put (Z.shiftl i 1) 32 s)) s.

Definition test_interrupts (s : kst) : kst :=
  for_loop 0 (NUM_ROWS * NUM_COLS)
    (fun i s => vid_put (Z.shiftl i 1) (vid_get (Z.shiftl i 1) s + 1) s) s.

(** ** [putc], [puts], [printf] *)

Definition putc (c : Z) (s : kst) : kst :=
  if (c =? 10) || (c =? 13) then set_screen_x 0 (set_screen_y (screen_y (k_con s) + 1) s)
  else
    let s := vid_put (cursor_off s) c s in
    let s := vid_put (cursor_off s + 1) ATTRIB s in
    let s := set_screen_x (screen_x (k_con s) + 1) s in
    let s := set_screen_x (Z.rem (screen_x (k_con s)) NUM_COLS) s in
    set_screen_y (Z.rem (screen_y (k_con s) + Z.quot (screen_x (k_con s)) NUM_COLS) NUM_ROWS) s.

(** [str] reads the string in the current memory. *)
Definition puts (fuel : nat) (str : vmem -> Z -> Z) (s : kst) : option (Z * kst) :=
  while fuel (fun '(index, s) => negb (str (k_mem s) index =? 0))
    (fun '(index, s) => (index + 1, putc (u8 (str (k_mem s) index)) s)) (0, s).

(** A local [conv_buf] printed with [puts]. *)
Definition puts_buf (buf : list Z) (from : Z) (s : kst) : option kst :=
  snd <$> puts 64 (fun _ => at_ buf from) s.

(** The conversion specifiers: ['x'] with and without the alternate form, ['u'], ['d']. *)
Definition printf_x (alternate : bool) (v : Z) (s : kst) : option kst :=
  if alternate then
    match itoa 32 (u32 v) 8 16 (replicate 64 0) with
    | Some conv_buf =>
        match strlen 64 (at_ conv_buf 8) with
        | Some starting_index =>
            let conv_buf := for_loop starting_index 8 (fun i b => stb b i 48) conv_buf in
            puts_buf conv_buf starting_index s
        | None => None
        end
    | None => None
    end
  else
    match itoa 32 (u32 v) 0 16 (replicate 64 0) with
    | Some conv_buf => puts_buf conv_buf 0 s
    | None => None
    end.

Definition printf_u (v : Z) (s : kst) : option kst :=
  match itoa 32 (u32 v) 0 10 (replicate 36 0) with
  | Some conv_buf => puts_buf conv_buf 0 s
  | None => None
  end.

Definition printf_d (v : Z) (s : kst) : option kst :=
  let value := i32 v in
  if value <? 0 then
    match itoa 32 (u32 (- value)) 1 10 (stb (replicate 36 0) 0 45) with
    | Some conv_buf => puts_buf conv_buf 0 s
    | None => None
    end
  else
    match itoa 32 (u32 value) 0 10 (replicate 36 0) with
    | Some conv_buf => puts_buf conv_buf 0 s
    | None => None
    end.

(** From [format_char_switch]: [buf] indexes the format, [esp] the arguments.  The
    result is the position of the last character handled, the next argument and the
    state; the caller's [buf++] follows. *)
Fixpoint format_char_switch (fuel : nat) (format : Z -> Z) (argv : list Z)
    (alternate : bool) (buf : Z) (esp : Z) (s : kst) : option (Z * Z * kst) :=
  let c := format buf in
  let arg := zget 0 argv esp in
  if c =? 37 then Some (buf, esp, putc 37 s)
  else if c =? 35 then
    match fuel with
    | O => None
    | S f => format_char_switch f format argv true (buf + 1) esp s
    end
  else if c =? 120 then (fun s => (buf, esp + 1, s)) <$> printf_x alternate arg s
  else if c =? 117 then (fun s => (buf, esp + 1, s)) <$> printf_u arg s
  else if c =? 100 then (fun s => (buf, esp + 1, s)) <$> printf_d arg s
  else if c =? 99 then Some (buf, esp + 1, putc (u8 arg) s)
  else if c =? 115 then
    (fun r => (buf, esp + 1, snd r)) <$> puts fuel (fun m i => ldb m (arg + i)) s
  else Some (buf, esp, s).

Fixpoint printf_loop (fuel : nat) (format : Z -> Z) (argv : list Z) (buf esp : Z) (s : kst)
  : option (Z * kst) :=
  if format buf =? 0 then Some (buf, s)
  else
    match fuel with
    | O => None
    | S f =>
        if format buf =? 37 then
          match format_char_switch f format argv false (buf + 1) esp s with
          | Some (buf, esp, s) => printf_loop f format argv (buf + 1) esp s
          | None => None
          end
        else printf_loop f format argv (buf + 1) esp (putc (u8 (format buf)) s)
    end.

Definition printf (fuel : nat) (format : Z -> Z) (argv : list Z) (s : kst) : option (Z * kst) :=
  printf_loop fuel format argv 0 0 s.

(** ** Terminal routines *)

Definition scroll_term (s : kst) : kst :=
  let s := for_loop 0 ((NUM_ROWS - 1) * NUM_COLS)
    (fun i s => vid_put (Z.shiftl i 1) (vid_get (Z.shiftl (i + NUM_COLS) 1) s) s) s in
  for_loop ((NUM_ROWS - 1) * NUM_COLS) (NUM_ROWS * NUM_COLS)
    (fun i s => vid_put (Z.shiftl i 1) 32 s) s.

Definition move_cursor (s : kst) : kst :=
  let pos := screen_y (k_con s) * NUM_COLS + screen_x (k_con s) in
  let s := outb 0x0E 0x3D4 s in
  let s := outb (Z.land (Z.shiftr pos 8) 0xFF) 0x3D5 s in
  let s := outb 0x0F 0x3D4 s in
  outb (Z.land pos 0xFF) 0x3D5 s.

Definition clear_term (s : kst) : kst :=
  let s := clear s in
  let s := set_screen_x 0 s in
  let s := set_screen_y 0 s in
  move_cursor s.

Definition backspace_pressed (s : kst) : kst :=
  let s :=
    if screen_x (k_con s) =? 0 then
      if negb (screen_y (k_con s) =? 0)
      then set_screen_y (screen_y (k_con s) - 1) (set_screen_x (NUM_COLS - 1) s)
      else s
    else set_screen_x (screen_x (k_con s) - 1) s in
  let s := vid_put (cursor_off s) 32 s in
  vid_put (cursor_off s + 1) ATTRIB s.

(** The branch of [putc_term] for printable characters. *)
Definition term_put (c : Z) (s : kst) : kst :=
  let s := vid_put (cursor_off s) c s in
  let s := vid_put (cursor_off s + 1) ATTRIB s in
  let s := set_screen_x (screen_x (k_con s) + 1) s in
  let s :=
    if NUM_COLS <=? screen_x (k_con s) then
      if screen_y (k_con s) =? 24 then scroll_term s
      else set_screen_y (screen_y (k_con s) + 1) s
    else s in
  set_screen_x (Z.rem (screen_x (k_con s)) NUM_COLS) s.

(** The end of [putc_term]: scroll when the cursor is below the last row. *)
Definition settle (s : kst) : kst :=
  let s :=
    if NUM_ROWS <=? screen_y (k_con s) then set_screen_y (NUM_ROWS - 1) (scroll_term s) else s in
  move_cursor s.

Definition putc_term (c : Z) (s : kst) : kst :=
  settle
    (if c =? 8 then backspace_pressed s
     else if c =? 9 then set_screen_x (screen_x (k_con s) + 4) s
     else if c =? 13 then set_screen_x 0 s
     else if c =? 10 then set_screen_x 0 (set_screen_y (screen_y (k_con s) + 1) s)
     else if 32 <=? c then term_put c s
     else s).

Definition puts_term (fuel : nat) (p : Z) (s : kst) : option (Z * kst) :=
  while fuel (fun '(p, s) => negb (ldb (k_mem s) p =? 0))
    (fun '(p, s) => (p + 1, putc_term (ldb (k_mem s) p) s)) (p, s).

Definition term_init (s : kst) : kst := clear_term s.

(** ** Specification: a linear screen *)

Record scr := mkScr { pos : Z; cells : Z -> Z }.

(** Screens are compared on the positions that exist. *)
Definition scr_eq (t u : scr) : Prop :=
  pos t = pos u /\ forall i, 0 <= i < 2000 -> cells t i = cells u i.

Definition put_cell (p c : Z) (f : Z -> Z) : Z -> Z := fun i => if i =? p then c else f i.

(** The rows move up by one; the last row is blank. *)
Definition scroll_cells (f : Z -> Z) : Z -> Z := fun i => if i <? 1920 then f (i + 80) else 32.

(** Advance to position [p]; past the last position the screen scrolls. *)
Definition goto (p : Z) (f : Z -> Z) : scr :=
  if p <? 2000 then mkScr p f else mkScr 1920 (scroll_cells f).

(** What writing [c] does; [None] when a tab would leave the row. *)
Definition spec_putc (c : Z) (t : scr) : option scr :=
  let p := pos t in
  if c =? 8 then
    let q := Z.max 0 (p - 1) in Some (mkScr q (put_cell q 32 (cells t)))
  else if c =? 9 then if p mod 80 + 4 <? 80 then Some (mkScr (p + 4) (cells t)) else None
  else if c =? 13 then Some (mkScr (p - p mod 80) (cells t))
  else if c =? 10 then Some (goto (p - p mod 80 + 80) (cells t))
  else if 32 <=? c then Some (goto (p + 1) (put_cell p c (cells t)))
  else Some t.

Fixpoint spec_puts (l : list Z) (t : scr) : option scr :=
  match l with
  | [] => Some t
  | c :: l' => match spec_putc c t with Some t' => spec_puts l' t' | None => None end
  end.

(** The screen a state shows. *)
Definition chr (s : kst) (i : Z) : Z := vid_get (2 * i) s.

Definition view (s : kst) : scr :=
  mkScr (80 * screen_y (k_con s) + screen_x (k_con s)) (chr s).

Definition cursor_ok (s : kst) : Prop :=
  0 <= screen_x (k_con s) < 80 /\ 0 <= screen_y (k_con s) < 25.

(** Only the console and the 4000 bytes of the screen may differ. *)
Definition draws (s s' : kst) : Prop :=
  only_console s s' /\ only_changes (k_mem s) (k_mem s') VIDEO 4000.

#[export] Instance scr_eq_equiv : Equivalence scr_eq.
Proof.
  split.
  - done.
  - intros t u [H1 H2]. split; [done|]. intros. symmetry. auto.
  - intros t u w [H1 H2] [H3 H4]. split; [congruence|]. intros. rewrite H2, H4; auto.
Qed.

#[export] Instance draws_preorder : PreOrder draws.
Proof.
  split.
  - intros s. split; [reflexivity|apply only_changes_refl].
  - intros s1 s2 s3 [H1 H2] [H3 H4]. split; [by etrans|]. eapply only_changes_trans; eauto.
Qed.

(** The specification does not look beyond the screen. *)
Definition on_screen (t : scr) : Prop := 0 <= pos t < 2000.

#[export] Instance on_screen_proper : Proper (scr_eq ==> iff) on_screen.
Proof. intros t u [E _]. unfold on_screen. by rewrite E. Qed.

Lemma goto_proper p f g :
  (forall i, 0 <= i < 2000 -> f i = g i) -> scr_eq (goto p f) (goto p g).
Proof.
  intros E. unfold goto. split_if; split; try done. intros i Hi. simpl.
  unfold scroll_cells. split_if; [|done]. apply E. lia.
Qed.

Lemma spec_putc_proper c t u :
  scr_eq t u -> option_Forall2 scr_eq (spec_putc c t) (spec_putc c u).
Proof.
  intros [Ep Ec]. unfold spec_putc. rewrite Ep.
  assert (Hput : forall p v i, 0 <= i < 2000 ->
    put_cell p v (cells t) i = put_cell p v (cells u) i).
  { intros p v i Hi. unfold put_cell. split_if; [done|]. by apply Ec. }
  repeat split_if; repeat constructor; simpl; auto; apply goto_proper; auto.
Qed.

(** Text shows the same on screens that look the same. *)
Lemma spec_puts_proper l t u t' :
  scr_eq t u -> spec_puts l t = Some t' -> exists u', spec_puts l u = Some u' /\ scr_eq t' u'.
Proof.
  revert t u. induction l as [|c l IH]; intros t u E; cbn [spec_puts].
  - intros [= <-]. by exists u.
  - pose proof (spec_putc_proper c t u E) as H. destruct H as [t1 u1 H|]; [|done]. by apply IH.
Qed.

(** ** Drawing *)

Section Draw.
Implicit Types s : kst.

Lemma vid_cell (m : vmem) off : 0 <= off < 0x100000 -> cell m (VIDEO + off) = VIDEO + off.
Proof. intros. apply tr_kernel. unfold VIDEO, MB128. lia. Qed.

Lemma vid_get_put s off off' v :
  0 <= off < 0x100000 -> 0 <= off' < 0x100000 ->
  vid_get off' (vid_put off v s) = if decide (off = off') then u8 v else vid_get off' s.
Proof.
  intros H1 H2. unfold vid_get, vid_put. simpl. case_decide.
  - subst. by rewrite ldb_stb_eq.
  - rewrite ldb_stb_other; [done|]. rewrite !vid_cell by done. lia.
Qed.

Lemma draws_vid_put s off v : 0 <= off < 4000 -> draws s (vid_put off v s).
Proof. intros. split; [apply only_console_stb|]. by apply only_changes_stb. Qed.

Lemma draws_set_con s c : draws s (set_con c s).
Proof. split; [apply only_console_set_con|apply only_changes_refl]. Qed.

Lemma draws_io s s' : only_io s s' -> draws s s'.
Proof.
  intros H. split; [by apply only_io_console|]. destruct H as [-> _]. apply only_changes_refl.
Qed.

Lemma move_cursor_only_io s : only_io s (move_cursor s).
Proof. by destruct s. Qed.

Lemma chr_put_chr s i j v :
  0 <= i < 2000 -> 0 <= j < 2000 ->
  chr (vid_put (Z.shiftl i 1) v s) j = if decide (i = j) then u8 v else chr s j.
Proof.
  intros. unfold chr. rewrite Z.shiftl_mul_pow2 by lia. change (2 ^ 1) with 2.
  rewrite vid_get_put by lia. repeat case_decide; try done; lia.
Qed.

Lemma chr_put_attr s i j v :
  0 <= i < 2000 -> 0 <= j < 2000 -> chr (vid_put (Z.shiftl i 1 + 1) v s) j = chr s j.
Proof.
  intros. unfold chr. rewrite Z.shiftl_mul_pow2 by lia. change (2 ^ 1) with 2.
  rewrite vid_get_put by lia. by rewrite decide_False by lia.
Qed.

Lemma shiftl1 i : Z.shiftl i 1 = 2 * i.
Proof. rewrite Z.shiftl_mul_pow2 by lia. lia. Qed.

Lemma chr_byte s i : 0 <= chr s i < 256.
Proof. apply (ldb_range (k_mem s)). Qed.

Lemma k_con_vid_put off v s : k_con (vid_put off v s) = k_con s.
Proof. done. Qed.

Lemma chr_set_con s c i : chr (set_con c s) i = chr s i.
Proof. done. Qed.

Lemma chr_set_x s x i : chr (set_screen_x x s) i = chr s i.
Proof. done. Qed.

Lemma chr_set_y s y i : chr (set_screen_y y s) i = chr s i.
Proof. done. Qed.

Lemma chr_move_cursor s i : chr (move_cursor s) i = chr s i.
Proof. done. Qed.

Lemma k_con_move_cursor s : k_con (move_cursor s) = k_con s.
Proof. done. Qed.

(** A loop that writes one character per position: what the screen shows after it,
    when the character written at [j] is [h j] as long as the positions before [j] of
    the loop show [h] and the others are untouched. *)
Lemma for_put_chr lo hi (g : Z -> kst -> Z) (h : Z -> Z) s :
  0 <= lo <= hi -> hi <= 2000 ->
  (forall j t, lo <= j < hi ->
     (forall i, 0 <= i < 2000 -> chr t i = if (lo <=? i) && (i <? j) then h i else chr s i) ->
     u8 (g j t) = h j) ->
  let t := for_loop lo hi (fun i s => vid_put (Z.shiftl i 1) (g i s) s) s in
  (forall i, 0 <= i < 2000 -> chr t i = if (lo <=? i) && (i <? hi) then h i else chr s i) /\
  k_con t = k_con s /\ draws s t.
Proof.
  intros Hlo Hhi Hg.
  apply (for_loop_inv (fun j t => (forall i, 0 <= i < 2000 ->
    chr t i = if (lo <=? i) && (i <? j) then h i else chr s i) /\ k_con t = k_con s /\ draws s t));
    [lia|..].
  - split_and!; [|done|reflexivity]. intros i Hi. split_if; [lia|done].
  - intros j t Hj (Hc & Hk & Hd). split_and!; [|done|].
    + intros i Hi. rewrite chr_put_chr by lia. case_decide.
      * subst. rewrite (proj2 (Z.leb_le _ _)), (proj2 (Z.ltb_lt _ _)) by lia. simpl. auto.
      * rewrite Hc by done. repeat split_if; done || lia.
    + etrans; [done|]. apply draws_vid_put. rewrite shiftl1. lia.
Qed.

(** Scrolling: what every position shows afterwards, and that nothing else moves. *)
Lemma scroll_term_spec s :
  (forall i, 0 <= i < 2000 -> chr (scroll_term s) i = scroll_cells (chr s) i) /\
  k_con (scroll_term s) = k_con s /\ draws s (scroll_term s).
Proof.
  unfold scroll_term. set (s1 := for_loop 0 _ _ s).
  destruct (for_put_chr 0 1920 (fun i s => vid_get (Z.shiftl (i + NUM_COLS) 1) s)
    (fun i => chr s (i + 80)) s) as (C1 & K1 & D1); try lia.
  { intros j t Hj Hc. rewrite shiftl1. fold (chr t (j + NUM_COLS)). change NUM_COLS with 80.
    rewrite Hc by lia. split_if; [lia|]. apply u8_small, chr_byte. }
  fold s1 in C1, K1, D1.
  destruct (for_put_chr 1920 2000 (fun _ _ => 32) (fun _ => 32) s1) as (C2 & K2 & D2);
    try lia; [done|].
  split_and!.
  - intros i Hi. etrans; [by apply C2|]. rewrite C1 by done. unfold scroll_cells.
    repeat split_if; first [lia | reflexivity].
  - exact (eq_trans K2 K1).
  - exact (transitivity D1 D2).
Qed.

End Draw.

(** ** The terminal routines refine the linear screen *)

Section Refine.
Implicit Types s : kst.

(** Character and attribute written at the cursor. *)
Lemma put_here s c :
  cursor_ok s -> 0 <= c < 256 ->
  let s' := vid_put (cursor_off (vid_put (cursor_off s) c s) + 1) ATTRIB
              (vid_put (cursor_off s) c s) in
  (forall i, 0 <= i < 2000 -> chr s' i = put_cell (pos (view s)) c (chr s) i) /\ draws s s'.
Proof.
  intros [Hx Hy] Hc. unfold cursor_off. cbn [k_con vid_put set_mem].
  change NUM_COLS with 80. fold (pos (view s)). set (p := 80 * _ + _).
  assert (Hp : 0 <= p < 2000) by lia. split.
  - intros i Hi. rewrite chr_put_attr, chr_put_chr by lia. unfold put_cell.
    change (pos (view s)) with p. case_decide; split_if; try lia. by apply u8_small.
  - etrans; apply draws_vid_put; rewrite shiftl1; lia.
Qed.

(** The cursor of [backspace_pressed] goes back one position, not before the first. *)
Lemma back_cursor s :
  cursor_ok s ->
  let q := Z.max 0 (pos (view s) - 1) in
  let s1 := if screen_x (k_con s) =? 0 then
              if negb (screen_y (k_con s) =? 0)
              then set_screen_y (screen_y (k_con s) - 1) (set_screen_x (NUM_COLS - 1) s)
              else s
            else set_screen_x (screen_x (k_con s) - 1) s in
  k_con s1 = mkCon (q mod 80) (q / 80) /\ k_mem s1 = k_mem s /\ draws s s1.
Proof.
  intros [Hx Hy]. simpl. destruct (k_con s) as [x y] eqn:E. simpl in *.
  destruct (Z.eqb_spec x 0); [destruct (Z.eqb_spec y 0)|]; simpl; rewrite ?E; simpl.
  - split_and!; [f_equal; modlia|done|reflexivity].
  - change NUM_COLS with 80. split_and!; [f_equal; modlia|done|].
    etrans; apply draws_set_con.
  - split_and!; [f_equal; modlia|done|apply draws_set_con].
Qed.

Lemma backspace_view s :
  cursor_ok s ->
  let q := Z.max 0 (pos (view s) - 1) in
  scr_eq (view (backspace_pressed s)) (mkScr q (put_cell q 32 (chr s))) /\
  cursor_ok (backspace_pressed s) /\ draws s (backspace_pressed s).
Proof.
  intros [Hx Hy] q. unfold backspace_pressed.
  set (s1 := if screen_x (k_con s) =? 0 then _ else _).
  destruct (back_cursor s (conj Hx Hy)) as (K1 & M1 & D1). fold s1 q in K1, M1, D1.
  assert (Hq : 0 <= q < 2000) by (subst q; simpl; lia). clearbody q.
  assert (Ok1 : cursor_ok s1) by (unfold cursor_ok; rewrite K1; simpl; modlia).
  assert (Hp : pos (view s1) = q) by (simpl; rewrite K1; simpl; modlia).
  destruct (put_here s1 32 Ok1 ltac:(lia)) as [Hc Hd]. rewrite Hp in Hc. split_and!.
  - split; [exact Hp|]. intros i Hi. etrans; [by apply Hc|]. simpl.
    unfold put_cell, chr, vid_get. by rewrite M1.
  - done.
  - by etrans.
Qed.

Lemma settle_inside s :
  cursor_ok s -> view (settle s) = view s /\ cursor_ok (settle s) /\ draws s (settle s).
Proof.
  intros [Hx Hy]. unfold settle. change NUM_ROWS with 25.
  rewrite (proj2 (Z.leb_gt _ _)) by lia. split_and!; [done|done|].
  apply draws_io, move_cursor_only_io.
Qed.

Lemma settle_below s :
  screen_x (k_con s) = 0 -> screen_y (k_con s) = 25 ->
  scr_eq (view (settle s)) (mkScr 1920 (scroll_cells (chr s))) /\
  cursor_ok (settle s) /\ draws s (settle s).
Proof.
  intros Hx Hy. unfold settle. rewrite Hy. change (NUM_ROWS <=? 25) with true.
  cbv iota. generalize (scroll_term s), (scroll_term_spec s). intros s' (C & Kc & Dr).
  split_and!.
  - split; [simpl; by rewrite Kc, Hx|]. intros i Hi. cbn [view cells].
    rewrite chr_move_cursor, chr_set_y. by apply C.
  - unfold cursor_ok. change (NUM_ROWS - 1) with 24. simpl. rewrite Kc, Hx. lia.
  - etrans; [exact Dr|]. etrans; [apply draws_set_con|]. apply draws_io, move_cursor_only_io.
Qed.

(** A state of the body of [putc_term] with the cursor on the screen is what the
    whole routine shows. *)
Lemma settle_step s s3 t :
  scr_eq (view s3) t -> cursor_ok s3 -> draws s s3 ->
  scr_eq (view (settle s3)) t /\ cursor_ok (settle s3) /\ draws s (settle s3).
Proof.
  intros E Ok D. destruct (settle_inside s3 Ok) as (Ev & Ok' & D'). rewrite Ev.
  split_and!; [done|done|]. exact (transitivity D D').
Qed.

(** A printable character goes to the cursor's position, which advances. *)
Lemma term_put_step c s :
  cursor_ok s -> 0 <= c < 256 ->
  scr_eq (view (term_put c s)) (goto (pos (view s) + 1) (put_cell (pos (view s)) c (chr s))) /\
  cursor_ok (term_put c s) /\ draws s (term_put c s).
Proof.
  intros Hok Hc. unfold term_put. destruct (put_here s c Hok Hc) as [C1 D1].
  set (s1 := vid_put (cursor_off (vid_put _ _ _) + 1) _ _) in *. destruct Hok as [Hx Hy].
  assert (K1 : k_con s1 = k_con s) by done. clearbody s1. rewrite K1.
  set (s2 := set_screen_x (screen_x (k_con s) + 1) s1).
  assert (D2 : draws s s2) by exact (transitivity D1 (draws_set_con _ _)).
  assert (K2 : k_con s2 = mkCon (screen_x (k_con s) + 1) (screen_y (k_con s)))
    by (by unfold s2, set_screen_x; rewrite K1).
  assert (C2 : forall i, 0 <= i < 2000 -> chr s2 i = put_cell (pos (view s)) c (chr s) i)
    by exact C1.
  assert (Ep : pos (view s) = 80 * screen_y (k_con s) + screen_x (k_con s)) by done.
  set (f := put_cell (pos (view s)) c (chr s)) in *. clearbody s2 f. rewrite Ep.
  rewrite K2. cbn [screen_x screen_y]. change NUM_COLS with 80. unfold goto.
  destruct (Z.leb_spec 80 (screen_x (k_con s) + 1)) as [Hl|Hl];
    [destruct (Z.eqb_spec (screen_y (k_con s)) 24) as [H24|H24]|].
  - generalize (scroll_term s2), (scroll_term_spec s2). intros s' (C & Kc & Dr). rewrite Kc, K2. cbn [screen_x screen_y].
    replace (screen_x (k_con s) + 1) with 80 by lia. rewrite Z.rem_same by lia.
    rewrite (proj2 (Z.ltb_ge _ _)) by lia. split_and!.
    + split; [simpl; rewrite Kc, K2; simpl; lia|]. intros i Hi. cbn [view cells].
      rewrite chr_set_x, C by done. unfold scroll_cells. split_if; [|done]. apply C2. lia.
    + unfold cursor_ok. simpl. rewrite Kc, K2. simpl. lia.
    + exact (transitivity D2 (transitivity Dr (draws_set_con _ _))).
  - rewrite (proj2 (Z.ltb_lt _ _)) by lia. cbn [k_con set_screen_y set_con screen_x screen_y].
    rewrite K2. cbn [screen_x screen_y].
    replace (screen_x (k_con s) + 1) with 80 by lia. rewrite Z.rem_same by lia. split_and!.
    + split; [simpl; lia|exact C2].
    + unfold cursor_ok. simpl. lia.
    + exact (transitivity D2 (transitivity (draws_set_con _ _) (draws_set_con _ _))).
  - rewrite (proj2 (Z.ltb_lt _ _)) by lia. rewrite K2. cbn [screen_x screen_y].
    rewrite Z.rem_small by lia. split_and!.
    + split; [simpl; rewrite K2; simpl; lia|exact C2].
    + unfold cursor_ok. simpl. rewrite K2. simpl. lia.
    + exact (transitivity D2 (draws_set_con _ _)).
Qed.

(** One character: [putc_term] does what the specification says, keeps the cursor on
    the screen and touches nothing but the console and the screen. *)
Lemma putc_term_step c s t :
  cursor_ok s -> 0 <= c < 256 -> spec_putc c (view s) = Some t ->
  scr_eq (view (putc_term c s)) t /\ cursor_ok (putc_term c s) /\ draws s (putc_term c s).
Proof.
  intros Hok Hc. pose proof Hok as [Hx Hy]. unfold spec_putc, putc_term.
  assert (Ep : pos (view s) = 80 * screen_y (k_con s) + screen_x (k_con s)) by done.
  assert (Em : pos (view s) mod 80 = screen_x (k_con s)) by (rewrite Ep; modlia).
  cbv zeta. rewrite Em.
  destruct (Z.eqb_spec c 8); [|destruct (Z.eqb_spec c 9); [|destruct (Z.eqb_spec c 13);
    [|destruct (Z.eqb_spec c 10); [|destruct (Z.leb_spec 32 c)]]]].
  - intros [= <-]. destruct (backspace_view s Hok) as (? & ? & ?). by apply settle_step.
  - destruct (Z.ltb_spec (screen_x (k_con s) + 4) 80); [|done]. intros [= <-].
    apply settle_step; [split; [simpl; lia|done]|split; simpl; lia|apply draws_set_con].
  - intros [= <-]. apply settle_step; [split; [simpl; lia|done]|split; simpl; lia|apply draws_set_con].
  - set (s1 := set_screen_x 0 _). assert (D1 : draws s s1)
      by exact (transitivity (draws_set_con _ _) (draws_set_con _ _)).
    assert (K1 : k_con s1 = mkCon 0 (screen_y (k_con s) + 1)) by done.
    assert (C1 : forall i, chr s1 i = chr s i) by done. clearbody s1.
    intros [= <-]. unfold goto.
    destruct (Z.ltb_spec (80 * screen_y (k_con s) + screen_x (k_con s) - screen_x (k_con s) + 80) 2000).
    + apply settle_step; [split; [simpl; rewrite K1; simpl; lia|intros i _; apply C1]| |done].
      unfold cursor_ok. rewrite K1. simpl. lia.
    + destruct (settle_below s1) as (E & Ok & D); [by rewrite K1|rewrite K1; simpl; lia|].
      split_and!; [|done|exact (transitivity D1 D)].
      rewrite E. split; [done|]. intros i Hi. simpl. unfold scroll_cells. by rewrite C1.
  - intros [= <-]. destruct (term_put_step c s Hok ltac:(lia)) as (? & ? & ?).
    by apply settle_step.
  - intros [= <-]. by apply settle_step.
Qed.

End Refine.

(** ** What [printf] prints *)

Definition puts_list (l : list Z) (s : kst) : kst := fold_left (fun s c => putc c s) l s.
Definition term_list (l : list Z) (s : kst) : kst := fold_left (fun s c => putc_term c s) l s.

(** The text of a conversion specifier [c] with argument [arg]. *)
Definition hex8 (v : Z) : list Z :=
  replicate (8 - length (itoa_text 16 v)) 48 ++ itoa_text 16 v.

Definition conv_text (alt : bool) (c arg : Z) : list Z :=
  if c =? 37 then [37]
  else if c =? 120 then if alt then hex8 (u32 arg) else itoa_text 16 (u32 arg)
  else if c =? 117 then itoa_text 10 (u32 arg)
  else if c =? 100 then
    if i32 arg <? 0 then 45 :: itoa_text 10 (- i32 arg) else itoa_text 10 (i32 arg)
  else if c =? 99 then [u8 arg]
  else [].

Definition takes_arg (c : Z) : bool :=
  (c =? 120) || (c =? 117) || (c =? 100) || (c =? 99) || (c =? 115).

(** The text of a format; [Some alt] is the state after a ['%']. *)
Fixpoint render (st : option bool) (f : list Z) (argv : list Z) (esp : Z) : list Z :=
  match f with
  | [] => []
  | c :: f' =>
      match st with
      | None => if c =? 37 then render (Some false) f' argv esp else c :: render None f' argv esp
      | Some alt =>
          if c =? 35 then render (Some true) f' argv esp
          else conv_text alt c (zget 0 argv esp) ++
               render None f' argv (if takes_arg c then esp + 1 else esp)
      end
  end.

(** Every ['%'] has its conversion character, and none is ['s']. *)
Fixpoint closed (st : option bool) (f : list Z) : bool :=
  match f with
  | [] => match st with None => true | Some _ => false end
  | c :: f' =>
      match st with
      | None => if c =? 37 then closed (Some false) f' else closed None f'
      | Some alt => if c =? 35 then closed (Some true) f' else negb (c =? 115) && closed None f'
      end
  end.

Section Printf.
Implicit Types s : kst.

Lemma puts_list_app l1 l2 s : puts_list (l1 ++ l2) s = puts_list l2 (puts_list l1 s).
Proof. apply fold_left_app. Qed.

Lemma cstr_cons rd c l : cstr rd (c :: l) -> rd 0 = c /\ c <> 0 /\ cstr (fun i => rd (1 + i)) l.
Proof.
  intros (Hz & Hr & H0). apply Forall_cons in Hz as [Hz1 Hz2].
  split_and!; [by rewrite Hr by (simpl; lia)|done|]. split_and!; [done|..].
  - intros i Hi. rewrite Hr by (simpl; lia). unfold zget. repeat split_if; try lia.
    by replace (Z.to_nat (1 + i)) with (S (Z.to_nat i)) by lia.
  - rewrite <- H0. f_equal. simpl. lia.
Qed.

Lemma puts_from rd l fuel k s :
  cstr (fun i => rd (k + i)) l -> (forall i, 0 <= rd i < 256) -> (length l <= fuel)%nat ->
  while fuel (fun '(index, s) => negb (rd index =? 0))
    (fun '(index, s) => (index + 1, putc (u8 (rd index)) s)) (k, s)
  = Some (k + Z.of_nat (length l), puts_list l s).
Proof.
  intros Hc Hb. revert k s fuel Hc. induction l as [|c l IH]; intros k s fuel Hc Hf.
  - destruct Hc as (_ & _ & H0). simpl in H0. rewrite Z.add_0_r in H0.
    destruct fuel; simpl; by rewrite H0, Z.add_0_r.
  - destruct fuel as [|fuel]; simpl in Hf; [lia|]. cbn [while].
    apply cstr_cons in Hc as (E0 & Hn & Hc). rewrite Z.add_0_r in E0.
    rewrite E0, (proj2 (Z.eqb_neq c 0)) by done. cbn [negb].
    rewrite u8_small by (rewrite <- E0; auto). rewrite IH; [do 2 f_equal; simpl; lia| |lia].
    destruct Hc as (? & Hr & H0). split_and!; [done|..].
    + intros i Hi. rewrite <- Hr by done. f_equal. lia.
    + rewrite <- H0. f_equal. lia.
Qed.

Lemma puts_const rd l fuel s :
  cstr rd l -> (forall i, 0 <= rd i < 256) -> (length l <= fuel)%nat ->
  puts fuel (fun _ => rd) s = Some (Z.of_nat (length l), puts_list l s).
Proof. intros Hc Hb Hf. unfold puts. by rewrite (puts_from rd l). Qed.

Lemma puts_buf_cstr buf from l s :
  cstr (at_ buf from) l -> (length l <= 64)%nat -> puts_buf buf from s = Some (puts_list l s).
Proof.
  intros Hc Hl. unfold puts_buf.
  rewrite (puts_const (at_ buf from) l) by (done || (intros; apply (ldb_range buf))). done.
Qed.

Lemma arr_region (buf : list Z) from n :
  0 <= from -> from + n <= Z.of_nat (length buf) -> region buf from n.
Proof.
  intros. split.
  - intros i Hi. unfold mapped; simpl. lia.
  - intros i j ??. unfold cell; simpl. lia.
Qed.

Lemma itoa_text_length radix v : (length (itoa_text radix v) <= 32)%nat.
Proof.
  unfold itoa_text. split_if; [simpl; lia|].
  rewrite length_map, length_rev. apply digits_of_length.
Qed.

(** [itoa] into a local array, then [puts]. *)
Lemma itoa_puts v radix from buf s :
  2 <= radix <= 36 -> 0 <= v < 4294967296 -> 0 <= from ->
  from + 33 <= Z.of_nat (length buf) ->
  exists buf', itoa 32 v from radix buf = Some buf' /\
    cstr (at_ buf' from) (itoa_text radix v) /\ only_changes buf buf' from 33 /\
    puts_buf buf' from s = Some (puts_list (itoa_text radix v) s).
Proof.
  intros Hr Hv Hf Hl.
  destruct (itoa_ok v from radix buf) as (buf' & E & Ho & Hc); [done|done|by apply arr_region|].
  exists buf'. split_and!; try done. apply puts_buf_cstr; [done|].
  pose proof (itoa_text_length radix v). lia.
Qed.

Lemma digits_of_length_pow fuel radix v k :
  2 <= radix -> 0 <= v < radix ^ Z.of_nat k -> (length (digits_of fuel radix v) <= k)%nat.
Proof.
  intros Hr. revert v k. induction fuel as [|f IH]; intros v k Hv; simpl; [lia|].
  destruct (Z.leb_spec v 0); simpl; [lia|]. destruct k as [|k].
  - change (radix ^ Z.of_nat 0) with 1 in Hv. lia.
  - rewrite Nat2Z.inj_succ, Z.pow_succ_r in Hv by lia. apply le_n_S, IH.
    split; [apply Z.div_pos; lia|apply Z.div_lt_upper_bound; lia].
Qed.

Lemma hex_length v : 0 <= v < 4294967296 -> (length (itoa_text 16 v) <= 8)%nat.
Proof.
  intros. unfold itoa_text. split_if; [simpl; lia|].
  rewrite length_map, length_rev. by apply digits_of_length_pow.
Qed.

(** Filling [conv_buf[L..8)] with zeros in front of the digits at [conv_buf[8..]]. *)
Lemma pad_zeros (buf : list Z) l :
  length buf = 64%nat -> (length l <= 8)%nat -> cstr (at_ buf 8) l ->
  let L := Z.of_nat (length l) in
  cstr (at_ (for_loop L 8 (fun i b => stb b i 48) buf) L) (replicate (8 - length l) 48 ++ l).
Proof.
  intros Hb Hl (Hz & Hr & H0) L.
  pose proof (for_loop_inv (fun j (b : list Z) => length b = 64%nat /\
    forall i, ldb b i = if (L <=? i) && (i <? j) then 48 else ldb buf i) L 8
    (fun i b => stb b i 48) buf) as Hinv. cbv beta in Hinv.
  destruct Hinv as [_ Hv]; [lia|split; [done|]; intros i; split_if; [lia|done]| |].
  { intros j b Hj [Hlen Hv]. split; [unfold stb; simpl; by rewrite zset_length|].
    intros i. destruct (decide (i = j)) as [->|].
    - rewrite ldb_stb_eq by (unfold mapped; simpl; lia). split_if; [done|lia].
    - rewrite ldb_stb_other by (unfold cell; simpl; lia). rewrite Hv.
      repeat split_if; done || lia. }
  set (b := for_loop L 8 _ buf) in *. clearbody b.
  assert (Hlen : Z.of_nat (length (replicate (8 - length l) 48 ++ l)) = 8)
    by (rewrite length_app, length_replicate; lia).
  split_and!.
  - apply Forall_app. split; [by apply Forall_replicate|done].
  - intros i Hi. rewrite Hlen in Hi. unfold at_. rewrite Hv.
    unfold zget. rewrite (proj2 (Z.ltb_ge i 0)) by lia. split_if.
    + rewrite lookup_app_l by (rewrite length_replicate; lia).
      rewrite lookup_replicate_2 by lia. done.
    + rewrite lookup_app_r by (rewrite length_replicate; lia). rewrite length_replicate.
      replace (L + i) with (8 + (L + i - 8)) by lia. specialize (Hr (L + i - 8) ltac:(lia)).
      unfold at_ in Hr. rewrite Hr. unfold zget. rewrite (proj2 (Z.ltb_ge _ 0)) by lia.
      do 2 f_equal. lia.
  - rewrite Hlen. unfold at_. rewrite Hv. split_if; [lia|].
    rewrite (Z.add_comm L 8). exact H0.
Qed.

Lemma only_changes_length (b b' : list Z) from n : only_changes b b' from n -> length b' = length b.
Proof.
  intros (_ & M & _). unfold mapped in M; simpl in M.
  destruct (Nat.lt_trichotomy (length b') (length b)) as [?|[?|?]]; [|done|].
  - destruct (M (Z.of_nat (length b'))) as [_ Hx]. lia.
  - destruct (M (Z.of_nat (length b))) as [Hx _]. lia.
Qed.

Lemma printf_x_text alt v s :
  printf_x alt v s = Some (puts_list (conv_text alt 120 v) s).
Proof.
  pose proof (u32_range v) as Hv. unfold printf_x, conv_text. cbv [Z.eqb Pos.eqb]. destruct alt.
  - destruct (itoa_puts (u32 v) 16 8 (replicate 64 0) s) as (b & -> & Hc & Ho & _);
      [lia|done|lia|done|].
    rewrite (strlen_cstr _ _ _ Hc) by (pose proof (hex_length _ Hv); lia).
    apply puts_buf_cstr.
    + apply pad_zeros; [|by apply hex_length|done].
      by rewrite (only_changes_length _ _ _ _ Ho).
    + unfold hex8. rewrite length_app, length_replicate. pose proof (hex_length _ Hv). lia.
  - by destruct (itoa_puts (u32 v) 16 0 (replicate 64 0) s) as (b & -> & _ & _ & ->).
Qed.

Lemma printf_u_text alt v s : printf_u v s = Some (puts_list (conv_text alt 117 v) s).
Proof.
  pose proof (u32_range v). unfold printf_u, conv_text. cbv [Z.eqb Pos.eqb].
  by destruct (itoa_puts (u32 v) 10 0 (replicate 36 0) s) as (b & -> & _ & _ & ->).
Qed.

Lemma printf_d_text alt v s : printf_d v s = Some (puts_list (conv_text alt 100 v) s).
Proof.
  pose proof (i32_range v) as Hv. unfold printf_d, conv_text. cbv [Z.eqb Pos.eqb].
  destruct (Z.ltb_spec (i32 v) 0).
  - rewrite u32_small by lia.
    destruct (itoa_puts (- i32 v) 10 1 (stb (replicate 36 0) 0 45) s) as (b & -> & Hc & Ho & _);
      [lia|lia|lia|done|].
    apply puts_buf_cstr; [|simpl; pose proof (itoa_text_length 10 (- i32 v)); lia].
    assert (H0 : ldb b 0 = 45).
    { destruct Ho as (_ & _ & L). rewrite L; [done|]. intros i Hi. unfold cell; simpl. lia. }
    destruct Hc as (Hz & Hr & He). split_and!; [by constructor|..].
    + intros i Hi. unfold at_ in *. destruct (decide (i = 0)) as [->|]; [done|].
      specialize (Hr (i - 1) ltac:(simpl in Hi; lia)).
      replace (1 + (i - 1)) with (0 + i) in Hr by lia. rewrite Hr.
      unfold zget. repeat split_if; try lia.
      by replace (Z.to_nat i) with (S (Z.to_nat (i - 1))) by lia.
    + unfold at_ in *. rewrite <- He. f_equal. simpl length. lia.
  - rewrite u32_small by lia.
    destruct (itoa_puts (i32 v) 10 0 (replicate 36 0) s) as (b & -> & _ & _ & ->);
      [lia|lia|lia|done|done].
Qed.

(** [format] from position [b] on reads [f] and then the terminator. *)
Definition reads (format : Z -> Z) (b : Z) (f : list Z) : Prop := cstr (fun i => format (b + i)) f.

Lemma reads_cons format b c f :
  reads format b (c :: f) -> format b = c /\ c <> 0 /\ reads format (b + 1) f.
Proof.
  intros H. apply cstr_cons in H as (E & Hn & Hc). rewrite Z.add_0_r in E.
  split_and!; [done|done|]. destruct Hc as (? & Hr & H0). split_and!; [done|..].
  - intros i Hi. rewrite <- Hr by done. f_equal. lia.
  - rewrite <- H0. f_equal. lia.
Qed.

(** A conversion, with its ['#']s, prints its text and stops on its last character. *)
Lemma format_char_switch_ok format argv f fuel alt b esp s :
  reads format b f -> closed (Some alt) f = true -> (length f <= fuel)%nat ->
  exists k esp' txt,
    format_char_switch fuel format argv alt b esp s = Some (b + Z.of_nat k, esp', puts_list txt s) /\
    (k < length f)%nat /\ closed None (drop (S k) f) = true /\
    reads format (b + Z.of_nat k + 1) (drop (S k) f) /\
    render (Some alt) f argv esp = txt ++ render None (drop (S k) f) argv esp'.
Proof.
  revert fuel alt b. induction f as [|c f IH]; intros fuel alt b Hf Hcl Hl; [done|].
  apply reads_cons in Hf as (Hc & Hn & Hf). cbn [closed render] in *. simpl in Hl.
  destruct fuel as [|fuel]; [lia|]. cbn [format_char_switch]. rewrite Hc.
  destruct (Z.eqb_spec c 35) as [->|H35].
  { destruct (IH fuel true (b + 1)) as (k & esp' & txt & E & ? & ? & Hr & Et); auto; [lia|].
    exists (S k), esp', txt. cbv [Z.eqb Pos.eqb]. rewrite E.
    replace (b + 1 + Z.of_nat k) with (b + Z.of_nat (S k)) in * by lia.
    split_and!; try done; simpl; lia. }
  apply andb_true_iff in Hcl as [Hs%negb_true_iff%Z.eqb_neq Hcl].
  exists O, (if takes_arg c then esp + 1 else esp), (conv_text alt c (zget 0 argv esp)).
  rewrite Z.add_0_r. simpl drop. split_and!; try (done || (simpl; lia)).
  rewrite (proj2 (Z.eqb_neq c 115)) by done. unfold takes_arg.
  destruct (Z.eqb_spec c 37) as [->|]; [done|].
  destruct (Z.eqb_spec c 120) as [->|]; [by rewrite printf_x_text|].
  destruct (Z.eqb_spec c 117) as [->|]; [by rewrite (printf_u_text alt)|].
  destruct (Z.eqb_spec c 100) as [->|]; [by rewrite (printf_d_text alt)|].
  destruct (Z.eqb_spec c 99) as [->|]; [done|].
  rewrite (proj2 (Z.eqb_neq c 115)) by done. unfold conv_text.
  by rewrite !(proj2 (Z.eqb_neq c _)).
Qed.

Lemma printf_loop_ok format argv n f fuel b esp s :
  (length f <= n)%nat -> (forall i, 0 <= format i < 256) ->
  reads format b f -> closed None f = true -> (length f <= fuel)%nat ->
  printf_loop fuel format argv b esp s =
    Some (b + Z.of_nat (length f), puts_list (render None f argv esp) s).
Proof.
  intros Hn Hb. revert f fuel b esp s Hn.
  induction n as [|n IH]; intros f fuel b esp s Hn Hf Hcl Hl; destruct f as [|c f]; simpl in Hn;
    try lia.
  1,2: destruct Hf as (_ & _ & H0); cbn in H0; rewrite Z.add_0_r in H0;
    destruct fuel; cbn; by rewrite H0, Z.add_0_r.
  apply reads_cons in Hf as (Hc & Hnz & Hf). simpl in Hl. destruct fuel as [|fuel]; [lia|].
  cbn [printf_loop]. rewrite Hc, (proj2 (Z.eqb_neq c 0)) by done. cbn [closed render] in *.
  destruct (Z.eqb_spec c 37) as [->|H37].
  - destruct (format_char_switch_ok format argv f fuel false (b + 1) esp s)
      as (k & esp' & txt & -> & Hk & Hcl' & Hr & Et); auto; [lia|].
    rewrite (IH (drop (S k) f)) by (rewrite ?length_drop; (done || lia)).
    rewrite length_drop.
    rewrite Et, puts_list_app. do 2 f_equal. simpl. lia.
  - rewrite (IH f) by (done || lia). rewrite u8_small by (rewrite <- Hc; auto).
    do 2 f_equal. simpl. lia.
Qed.

End Printf.

(** ** Properties *)

Section Properties.
Implicit Types s : kst.

(** [clear] leaves every position blank. *)
Lemma clear_blank s :
  (forall i, 0 <= i < 2000 -> chr (clear s) i = 32 /\ vid_get (2 * i + 1) (clear s) = 7) /\
  k_con (clear s) = k_con s /\ draws s (clear s).
Proof.
  unfold clear. change (NUM_ROWS * NUM_COLS) with 2000.
  apply (for_loop_inv (fun j t => (forall i, 0 <= i < j -> chr t i = 32 /\ vid_get (2 * i + 1) t = 7)
    /\ k_con t = k_con s /\ draws s t)); [lia|split_and!; [lia|done|reflexivity]|].
  intros j t Hj (Hc & Hk & Hd). rewrite shiftl1. split_and!; [|done|].
  - intros i Hi. unfold chr. rewrite !vid_get_put by lia.
    repeat case_decide; try lia; try done; apply Hc; lia.
  - etrans; [exact Hd|]. etrans; apply draws_vid_put; lia.
Qed.

(** Writing any text of bytes without tabs that fit no row to the terminal shows
    what the linear screen specification says, position by position, with scrolling,
    keeps the cursor on the screen, and changes no byte of memory outside the screen
    and no other kernel variable. *)
Lemma term_list_refines l s t :
  cursor_ok s -> Forall (fun c => 0 <= c < 256) l -> spec_puts l (view s) = Some t ->
  scr_eq (view (term_list l s)) t /\ cursor_ok (term_list l s) /\ draws s (term_list l s).
Proof.
  intros Hok Hl. cut (forall u, scr_eq (view s) u -> spec_puts l u = Some t ->
    scr_eq (view (term_list l s)) t /\ cursor_ok (term_list l s) /\ draws s (term_list l s)).
  { intros Hx. by apply Hx. }
  revert s Hok. induction Hl as [|c l Hc Hl IH]; intros s Hok u Hu; simpl.
  { intros [= <-]. split_and!; [done|done|reflexivity]. }
  destruct (spec_putc c u) as [u1|] eqn:E1; [|done]. intros Hs.
  pose proof (spec_putc_proper c _ _ Hu) as Hp. rewrite E1 in Hp.
  destruct (spec_putc c (view s)) as [v1|] eqn:E2; inversion Hp as [? ? Hv|]; subst.
  destruct (putc_term_step c s v1 Hok Hc E2) as (Hv1 & Ok1 & D1).
  destruct (IH (putc_term c s) Ok1 u1) as (? & ? & D2); [by rewrite Hv1|done|].
  split_and!; [done|done|exact (transitivity D1 D2)].
Qed.

Lemma clear_term_draws s : draws s (clear_term s).
Proof.
  unfold clear_term. etrans; [apply clear_blank|]. generalize (clear s). intros s1.
  etrans; [apply draws_set_con|]. etrans; [apply draws_set_con|]. apply draws_io, move_cursor_only_io.
Qed.

Lemma clear_term_home s : k_con (clear_term s) = mkCon 0 0.
Proof. reflexivity. Qed.

Lemma clear_term_chr s i : 0 <= i < 2000 -> chr (clear_term s) i = 32.
Proof.
  intros Hi. unfold clear_term. generalize (clear s), (clear_blank s). intros s1 (C & _).
  rewrite chr_move_cursor, chr_set_y, chr_set_x. apply (C i Hi).
Qed.

(** [clear_term] blanks the whole screen and homes the cursor, whatever the screen
    and the cursor were. *)
Theorem clear_term_blank s :
  cursor_ok (clear_term s) /\ pos (view (clear_term s)) = 0 /\
  (forall i, 0 <= i < 2000 -> chr (clear_term s) i = 32) /\ draws s (clear_term s).
Proof.
  split_and!; [done|done| |apply clear_term_draws]. apply clear_term_chr.
Qed.

(** A format given as a string literal. *)
Lemma printf_literal fuel fmt argv s :
  forallb (fun c => (0 <? c) && (c <? 256)) fmt = true -> closed None fmt = true ->
  (length fmt <= fuel)%nat ->
  printf fuel (fun i => zget 0 fmt i) argv s =
    Some (Z.of_nat (length fmt), puts_list (render None fmt argv 0) s).
Proof.
  intros Hb Hc Hl. unfold printf.
  assert (Hf : Forall (fun c => 0 < c < 256) fmt).
  { apply Forall_forall. intros c Hi. rewrite forallb_forall in Hb.
    specialize (Hb c (proj1 (list_elem_of_In _ _) Hi)). lia. }
  rewrite (printf_loop_ok _ _ (length fmt) fmt); try done.
  - intros i. unfold zget. split_if; [lia|].
    destruct (fmt !! Z.to_nat i) eqn:E; simpl; [|lia].
    eapply Forall_lookup_1 in Hf; [|exact E]. simpl in Hf. lia.
  - split_and!.
    + eapply Forall_impl; [exact Hf|]. simpl. lia.
    + intros i Hi. by rewrite Z.add_0_l.
    + rewrite Z.add_0_l. apply zget_out. lia.
Qed.


(** A text without tabs never moves the cursor off the screen, and no byte outside the
    4000 bytes of the screen changes. *)
Lemma term_list_tabless l s :
  cursor_ok s -> Forall (fun c => 0 <= c < 256 /\ c <> 9) l ->
  cursor_ok (term_list l s) /\ draws s (term_list l s).
Proof.
  intros Hok Hl. revert s Hok. induction Hl as [|c l [Hc H9] Hl IH]; intros s Hok; simpl.
  { split; [done|reflexivity]. }
  assert (exists t, spec_putc c (view s) = Some t) as [t Ht].
  { unfold spec_putc. rewrite (proj2 (Z.eqb_neq c 9)) by done. repeat split_if; eauto. }
  destruct (putc_term_step c s t Hok Hc Ht) as (_ & Ok1 & D1).
  destruct (IH _ Ok1) as [Ok2 D2]. split; [done|exact (transitivity D1 D2)].
Qed.

(** *** Tabs

    A tab moves the cursor four columns and never wraps: the column grows without
    bound, and the next printable character is stored where it points. *)

Lemma tabs_move n s :
  screen_y (k_con s) <= 24 ->
  k_con (term_list (replicate n 9) s) = mkCon (screen_x (k_con s) + 4 * Z.of_nat n) (screen_y (k_con s)) /\
  k_mem (term_list (replicate n 9) s) = k_mem s.
Proof.
  revert s. induction n as [|n IH]; intros s Hy.
  { simpl. split; [|done]. rewrite Z.add_0_r. by destruct (k_con s). }
  assert (H9 : k_con (putc_term 9 s) = mkCon (screen_x (k_con s) + 4) (screen_y (k_con s)) /\
    k_mem (putc_term 9 s) = k_mem s).
  { unfold putc_term, settle. cbn [Z.eqb Pos.eqb k_con set_screen_x set_con screen_y].
    change NUM_ROWS with 25. rewrite (proj2 (Z.leb_gt _ _)) by lia. done. }
  destruct H9 as [K9 M9]. change (term_list (replicate (S n) 9) s) with (term_list (replicate n 9) (putc_term 9 s)).
  revert K9 M9. generalize (putc_term 9 s). intros u K9 M9.
  destruct (IH u) as [-> ->]; [rewrite K9; simpl; lia|]. rewrite K9, M9. simpl. split; [f_equal; lia|done].
Qed.

(** A printable character is stored where the cursor points, screen or not. *)
Lemma term_put_far c s :
  let a := VIDEO + 2 * (80 * screen_y (k_con s) + screen_x (k_con s)) in
  0 <= screen_y (k_con s) <= 24 -> VIDEO + 4000 <= a -> a + 1 < MB128 -> 32 <= c < 256 ->
  ldb (k_mem (putc_term c s)) a = c.
Proof.
  intros a Hy Ha Hm Hc. unfold VIDEO, MB128 in Hm, Ha.
  assert (Hl : 80 <= screen_x (k_con s) + 1) by (unfold a, VIDEO in Ha; lia).
  assert (Ea : VIDEO + cursor_off s = a).
  { unfold cursor_off, a, VIDEO. rewrite shiftl1. change NUM_COLS with 80. lia. }
  clearbody a.
  unfold putc_term. rewrite !(proj2 (Z.eqb_neq c _)), (proj2 (Z.leb_le 32 c)) by lia.
  unfold term_put. set (s1 := vid_put (cursor_off s) c s).
  set (s2 := vid_put (cursor_off s1 + 1) ATTRIB s1).
  assert (K2 : k_con s2 = k_con s) by done.
  assert (V2 : ldb (k_mem s2) a = c).
  { unfold s2, vid_put. change (cursor_off s1) with (cursor_off s). rewrite Z.add_assoc, Ea. simpl k_mem.
    rewrite ldb_stb_other by (unfold cell; simpl; rewrite !tr_kernel by (unfold MB128; lia); lia).
    unfold s1, vid_put. rewrite Ea. simpl k_mem. rewrite ldb_stb_eq by done. apply u8_small. lia. }
  clearbody s2. cbn [k_con set_screen_x set_con screen_x screen_y]. rewrite K2.
  change NUM_COLS with 80. rewrite (proj2 (Z.leb_le 80 _)) by exact Hl.
  set (s3 := set_screen_x (screen_x (k_con s) + 1) s2).
  assert (K3 : k_con s3 = mkCon (screen_x (k_con s) + 1) (screen_y (k_con s))) by (unfold s3, set_screen_x; by rewrite K2).
  assert (V3 : ldb (k_mem s3) a = c) by exact V2. clearbody s3.
  assert (D : forall s4, (s4 = scroll_term s3 \/ s4 = set_screen_y (screen_y (k_con s) + 1) s3) ->
    screen_y (k_con s4) <= 24 ->
    ldb (k_mem (settle (set_screen_x (Z.rem (screen_x (k_con s4)) 80) s4))) a = c).
  { intros s4 Hs4 H24. unfold settle. cbn [k_con set_screen_x set_con screen_y]. change NUM_ROWS with 25.
    rewrite (proj2 (Z.leb_gt 25 _)) by lia. change (ldb (k_mem s4) a = c).
    destruct Hs4 as [-> | ->]; [|exact V3]. destruct (scroll_term_spec s3) as (_ & _ & _ & _ & _ & L3).
    rewrite L3; [exact V3|]. intros i Hi. rewrite vid_cell by lia.
    unfold cell; simpl. rewrite tr_kernel by (unfold MB128; lia). unfold VIDEO. lia. }
  destruct (Z.eqb_spec (screen_y (k_con s)) 24) as [E24|E24].
  - apply D; [by left|]. destruct (scroll_term_spec s3) as (_ & -> & _). rewrite K3. simpl. lia.
  - apply D; [by right|]. simpl. lia.
Qed.

(** The text that moves the cursor from row [y] to the address [a]. *)
Definition tab_attack (y a : Z) : list Z :=
  let d := (a - VIDEO) / 2 - 80 * y in
  (13 :: replicate (Z.to_nat (d mod 4)) 32) ++ replicate (Z.to_nat (d / 4)) 9.

(** Up to the tabs the text is harmless. *)
Lemma attack_start k s :
  cursor_ok s -> (k < 4)%nat ->
  exists t, spec_puts (13 :: replicate k 32) (view s) = Some t /\ pos t = 80 * screen_y (k_con s) + Z.of_nat k.
Proof.
  intros [Hx Hy] Hk. cbn [spec_puts].
  assert (Em : pos (view s) mod 80 = screen_x (k_con s)) by (simpl; modlia).
  assert (Ep : pos (view s) - pos (view s) mod 80 = 80 * screen_y (k_con s)) by (rewrite Em; simpl; lia).
  unfold spec_putc at 1. cbn [Z.eqb Pos.eqb]. rewrite Ep.
  assert (G : forall j f q, pos q = f -> f mod 80 = 0 -> 0 <= f < 2000 -> (j < 4)%nat ->
    exists t, spec_puts (replicate j 32) q = Some t /\ pos t = f + Z.of_nat j).
  { clear. intros j. induction j as [|j IH]; intros f q Hq Hf Hr Hj; [exists q; split; [done|lia]|].
    destruct (IH f q Hq Hf Hr ltac:(lia)) as (t & E & P). rewrite replicate_S_end.
    assert (Happ : forall l1 l2 t0, spec_puts (l1 ++ l2) t0 =
      match spec_puts l1 t0 with Some u => spec_puts l2 u | None => None end).
    { clear. intros l1. induction l1 as [|c l1 IH]; intros l2 t0; simpl; [done|]. destruct (spec_putc c t0); auto. }
    rewrite Happ, E. cbn [spec_puts]. unfold spec_putc. cbn [Z.eqb Pos.eqb Z.leb Z.compare Pos.compare Pos.compare_cont].
    eexists. split; [reflexivity|]. unfold goto. rewrite (proj2 (Z.ltb_lt _ _)) by modlia. simpl. lia. }
  apply G; [done|modlia|lia|done].
Qed.

Lemma attack_prefix i y a s :
  cursor_ok s ->
  only_changes (k_mem s) (k_mem (term_list (take i (tab_attack y a)) s)) VIDEO 4000.
Proof.
  intros Hok. unfold tab_attack. set (k := Z.to_nat (_ mod 4)). set (n := Z.to_nat (_ / 4)).
  rewrite take_app. set (l1 := take i (13 :: replicate k 32)).
  assert (H1 : cursor_ok (term_list l1 s) /\ draws s (term_list l1 s)).
  { apply term_list_tabless; [done|]. apply Forall_take. constructor; [lia|]. apply Forall_replicate. lia. }
  destruct H1 as [[_ Hy] [_ D]]. unfold term_list. rewrite fold_left_app. fold (term_list l1 s).
  rewrite take_replicate. fold (term_list (replicate ((i - length (13 :: replicate k 32)) `min` n) 9) (term_list l1 s)).
  destruct (tabs_move ((i - length (13 :: replicate k 32)) `min` n) (term_list l1 s)) as [_ ->]; [lia|exact D].
Qed.

(** Text that reaches any kernel address: the character lands at [a]. *)
Lemma attack_stores s a v :
  cursor_ok s -> VIDEO + 4000 <= a -> a + 1 < MB128 -> a mod 2 = 0 -> 32 <= v < 256 ->
  let l := tab_attack (screen_y (k_con s)) a in
  ldb (k_mem (term_list (l ++ [v]) s)) a = v /\ Z.of_nat (length l) <= 5 + (a - VIDEO) / 8.
Proof.
  intros Hok Ha Hm He Hv. unfold tab_attack. set (d := (a - VIDEO) / 2 - 80 * screen_y (k_con s)).
  pose proof Hok as [Hx Hy]. assert (Hd : 0 <= d) by (unfold d, VIDEO in *; modlia).
  set (k := Z.to_nat (d mod 4)). set (n := Z.to_nat (d / 4)). assert (Hk : (k < 4)%nat) by (unfold k; modlia).
  split.
  - unfold term_list. rewrite !fold_left_app. fold (term_list (13 :: replicate k 32) s).
    destruct (attack_start k s Hok Hk) as (t & E & P).
    destruct (term_list_refines (13 :: replicate k 32) s t Hok) as ([V _] & [Ox Oy] & _); [|done|].
    { constructor; [lia|]. apply Forall_replicate. lia. }
    revert V Ox Oy. generalize (term_list (13 :: replicate k 32) s). intros s1 V Ox Oy.
    rewrite P in V. simpl in V. fold (term_list (replicate n 9) s1).
    destruct (tabs_move n s1) as [K2 _]; [lia|]. revert K2. generalize (term_list (replicate n 9) s1). intros s2 K2.
    simpl fold_left. assert (Ea : a = VIDEO + 2 * (80 * screen_y (k_con s2) + screen_x (k_con s2))).
    { rewrite K2. cbn [screen_x screen_y]. unfold n. rewrite Z2Nat.id by modlia.
      assert (Ek : Z.of_nat k = d mod 4) by (unfold k; rewrite Z2Nat.id; modlia). unfold d, VIDEO in *. modlia. }
    rewrite Ea. apply term_put_far; [rewrite K2; simpl; lia|lia|lia|done].
  - rewrite length_app, length_cons, !length_replicate.
    assert (En : Z.of_nat n = d / 4) by (unfold n; rewrite Z2Nat.id; modlia).
    assert (d / 4 <= (a - VIDEO) / 8); [unfold d; modlia|]. lia.
Qed.

(** At the end of a row [putc] goes back to the first column of the same row: the
    row only advances at a line break. *)
Theorem putc_same_row s c :
  cursor_ok s -> c <> 10 -> c <> 13 ->
  screen_y (k_con (putc c s)) = screen_y (k_con s) /\
  screen_x (k_con (putc c s)) = (screen_x (k_con s) + 1) mod 80.
Proof.
  intros [Hx Hy] H1 H2. unfold putc. rewrite !(proj2 (Z.eqb_neq c _)) by done. simpl.
  change NUM_COLS with 80. change NUM_ROWS with 25.
  rewrite (Z.rem_mod_nonneg (_ + 1)) by lia. set (x := _ mod 80).
  assert (Hx' : 0 <= x < 80) by (apply Z.mod_pos_bound; lia).
  rewrite Z.quot_small, Z.add_0_r, Z.rem_small by lia. done.
Qed.

End Properties.

(** ** What drawing leaves alone, whatever the cursor *)

Section Frames.
Implicit Types s : kst.

Lemma only_console_vid_put s off v : only_console s (vid_put off v s).
Proof. apply only_console_stb. Qed.

Lemma only_console_for lo hi body s :
  (forall i t, only_console t (body i t)) -> only_console s (for_loop lo hi body s).
Proof.
  intros H. apply (for_loop_pres (only_console s)); [reflexivity|].
  intros i t _ Ht. etrans; [exact Ht|apply H].
Qed.

Lemma only_console_scroll s : only_console s (scroll_term s).
Proof.
  unfold scroll_term. etrans; apply only_console_for; intros; apply only_console_vid_put.
Qed.

Lemma only_console_move s : only_console s (move_cursor s).
Proof. apply only_io_console, move_cursor_only_io. Qed.

Lemma only_console_clear s : only_console s (clear s).
Proof.
  unfold clear. apply only_console_for. intros. etrans; apply only_console_vid_put.
Qed.

Lemma only_console_clear_term s : only_console s (clear_term s).
Proof.
  unfold clear_term. etrans; [apply only_console_clear|]. generalize (clear s). intros t.
  etrans; [apply only_console_set_con|]. etrans; [apply only_console_set_con|].
  apply only_console_move.
Qed.

Lemma only_console_backspace s : only_console s (backspace_pressed s).
Proof.
  unfold backspace_pressed. set (s1 := if _ =? 0 then _ else _).
  assert (H : only_console s s1).
  { unfold s1. repeat split_if; try apply only_console_set_con; [|reflexivity].
    etrans; apply only_console_set_con. }
  etrans; [exact H|]. etrans; apply only_console_vid_put.
Qed.

Lemma only_console_settle s : only_console s (settle s).
Proof.
  unfold settle. split_if; [|apply only_console_move].
  etrans; [apply only_console_scroll|]. generalize (scroll_term s). intros t.
  etrans; [apply only_console_set_con|apply only_console_move].
Qed.

Lemma only_console_term_put c s : only_console s (term_put c s).
Proof.
  unfold term_put. set (s2 := vid_put _ ATTRIB _).
  assert (H2 : only_console s s2) by (etrans; apply only_console_vid_put).
  clearbody s2. etrans; [exact H2|]. set (s3 := set_screen_x _ s2).
  assert (H3 : only_console s2 s3) by apply only_console_set_con. clearbody s3.
  etrans; [exact H3|]. set (s4 := if NUM_COLS <=? _ then _ else _).
  assert (H4 : only_console s3 s4).
  { unfold s4. repeat split_if; [apply only_console_scroll|apply only_console_set_con|reflexivity]. }
  clearbody s4. etrans; [exact H4|]. apply only_console_set_con.
Qed.

Lemma only_console_putc_term c s : only_console s (putc_term c s).
Proof.
  unfold putc_term. etrans; [|apply only_console_settle].
  repeat split_if; try apply only_console_set_con; try reflexivity.
  - apply only_console_backspace.
  - etrans; apply only_console_set_con.
  - apply only_console_term_put.
Qed.

End Frames.

#[export] Hint Resolve only_console_vid_put only_console_scroll only_console_move
  only_console_clear only_console_clear_term only_console_backspace only_console_settle
  only_console_putc_term : frame.

#[global] Arguments putc_term : simpl never.
#[global] Arguments clear_term : simpl never.
#[global] Arguments scroll_term : simpl never.
#[global] Arguments backspace_pressed : simpl never.
