(* ===== verification/Rtc.v ===== *)
(** * The real-time clock driver (rtc.c)

    The clock always runs at 1024 Hz; programs see a virtual rate: the handler
    counts interrupts and raises a flag every [rtc_max_count] of them, which
    [rtc_read] waits for.  Compiled with [RTC_VT_EN 1]. *)

From stdpp Require Import base list numbers gmap.
From Stdlib Require Import ZArith Lia.
From S2P Require Import Prelude Mem State Pic.

Definition RTC_PORT : Z := 0x70.
Definition RTC_DATA : Z := 0x71.
Definition RTC_REG_A : Z := 0x8A.
Definition RTC_REG_B : Z := 0x8B.
Definition RTC_REG_C : Z := 0x0C.
Definition RTC_IRQ : Z := 0x08.
Definition RTC_BASE_FREQ : Z := 2.
Definition RTC_MAX_FREQ : Z := 1024.

Definition set_occurred (v : Z) (s : kst) : kst :=
  set_rtc (mkRtc v (rtc_counter (k_rtc s)) (rtc_max_count (k_rtc s))) s.
Definition set_counter (v : Z) (s : kst) : kst :=
  set_rtc (mkRtc (rtc_interrupt_occurred (k_rtc s)) v (rtc_max_count (k_rtc s))) s.
Definition set_max_count (v : Z) (s : kst) : kst :=
  set_rtc (mkRtc (rtc_interrupt_occurred (k_rtc s)) (rtc_counter (k_rtc s)) v) s.

(** The search [for (i = 6; i < 16; i++) if (freq == (32768 >> (i - 1)))] with [k]
    values left: the rate, 0 when there is none. *)
Fixpoint find_rate (k : nat) (i freq : Z) : Z :=
  match k with
  | O => 0
  | S k' => if freq =? Z.shiftr 32768 (i - 1) then i else find_rate k' (i + 1) freq
  end.

Section Driver.
Context `{D : Device}.

Definition rtc_set_rate (freq : Z) (s : kst) : Z * kst :=
  let rate := find_rate 10 6 freq in
  if rate =? 0 then (0, s)
  else
    let rate := Z.land rate 0x0F in
    let s := cli s in
    let s := outb RTC_REG_A RTC_PORT s in
    let '(v, s) := inb RTC_DATA s in
    let prev := i8 v in
    let s := outb RTC_REG_A RTC_PORT s in
    let s := outb (Z.lor (Z.land prev 0xF0) rate) RTC_DATA s in
    (1, sti s).

Definition rtc_init (s : kst) : kst :=
  let s := cli s in
  let s := outb RTC_REG_B RTC_PORT s in
  let '(v, s) := inb RTC_DATA s in
  let prev := i8 v in
  let s := outb RTC_REG_B RTC_PORT s in
  let s := outb (Z.lor prev 0x40) RTC_DATA s in
  let s := set_max_count (RTC_MAX_FREQ / RTC_BASE_FREQ) s in
  let '(_, s) := rtc_set_rate RTC_MAX_FREQ s in
  let s := enable_irq RTC_IRQ s in
  sti s.

Definition rtc_write (fd buf nbytes : Z) (s : kst) : Z * kst :=
  if (buf =? 0) || negb (nbytes =? 4) then (-1, s)
  else
    let freq := ld32 (k_mem s) buf in
    if negb ((2 <=? freq) && (freq <=? 1024) && (Z.land (freq - 1) freq =? 0)) then (-1, s)
    else
      let s := cli s in
      let s := set_max_count (RTC_MAX_FREQ / freq) s in
      let s := set_counter 0 s in
      let s := sti s in
      (nbytes, s).

Definition rtc_open (filename : Z) (s : kst) : Z * kst :=
  if filename =? 0 then (-1, s)
  else (0, set_occurred 0 (set_max_count (RTC_MAX_FREQ / RTC_BASE_FREQ) s)).

Definition rtc_close (fd : Z) (s : kst) : Z * kst :=
  if fd =? 0 then (-1, s) else (0, set_occurred 1 s).

Definition rtc_handler (s : kst) : kst :=
  let s := cli s in
  let s := set_counter (i32 (rtc_counter (k_rtc s) + 1)) s in
  let s :=
    if rtc_max_count (k_rtc s) <=? rtc_counter (k_rtc s)
    then set_counter 0 (set_occurred 1 s) else s in
  let s := outb RTC_REG_C RTC_PORT s in
  let '(_, s) := inb RTC_DATA s in
  let s := send_eoi RTC_IRQ s in
  sti s.

End Driver.

(** Waits for a virtual tick. *)
Definition rtc_read `{Interrupts} (fd buf nbytes : Z) : K Z :=
  (if (buf =? 0)%Z then kret (-1)
   else
     kmod sti ;;
     busy_wait (fun s => negb (rtc_interrupt_occurred (k_rtc s) =? 0)) ;;
     kmod (set_occurred 0) ;;
     kret 0)%kernel.

(** ** Specification *)

(** The rates a program may ask for: the powers of two from 2 to 1024. *)
Definition valid_freq (f : Z) : Prop := exists k, 1 <= k <= 10 /\ f = 2 ^ k.

(** The counter is below the count it is compared with, which divides 1024 Hz. *)
Definition rtc_ok (s : kst) : Prop :=
  0 <= rtc_counter (k_rtc s) < rtc_max_count (k_rtc s) /\
  exists f, valid_freq f /\ rtc_max_count (k_rtc s) = 1024 / f.

Definition freqs : list Z := [2; 4; 8; 16; 32; 64; 128; 256; 512; 1024].

Section RtcFacts.
Context `{D : Device}.
Implicit Types s : kst.

Lemma valid_freq_cases f : valid_freq f <-> f ∈ freqs.
Proof.
  split.
  - intros (k & Hk & ->).
    assert (E : k ∈ [1; 2; 3; 4; 5; 6; 7; 8; 9; 10]) by (rewrite !elem_of_cons; lia).
    clear Hk.
    repeat (apply elem_of_cons in E as [->|E]); [set_solver..|by apply not_elem_of_nil in E].
  - unfold freqs. intros H.
    repeat (apply elem_of_cons in H as [->|H]); [..|by apply not_elem_of_nil in H];
      [exists 1|exists 2|exists 3|exists 4|exists 5|exists 6|exists 7|exists 8|exists 9|exists 10];
      (split; [lia|done]).
Qed.

(** The test of [rtc_write] accepts the valid rates and no others. *)
Lemma freq_test f :
  (2 <=? f) && (f <=? 1024) && (Z.land (f - 1) f =? 0) = true <-> valid_freq f.
Proof.
  rewrite valid_freq_cases. split.
  - intros H. assert (Hr : 2 <= f <= 1024) by lia.
    pose proof (forallb_below (fun f =>
      implb ((2 <=? f) && (f <=? 1024) && (Z.land (f - 1) f =? 0)) (existsb (Z.eqb f) freqs))
      1025 ltac:(vm_compute; reflexivity) f ltac:(lia)) as T. cbv beta in T.
    rewrite H in T. apply existsb_exists in T as (x & Hx & ->%Z.eqb_eq).
    by apply list_elem_of_In.
  - unfold freqs. intros H.
    repeat (apply elem_of_cons in H as [->|H]); [done..|by apply not_elem_of_nil in H].
Qed.

(** The divider search succeeds on the valid rates and no others. *)
Lemma find_rate_ok f : find_rate 10 6 f <> 0 <-> valid_freq f.
Proof.
  rewrite valid_freq_cases. unfold find_rate, freqs. rewrite !elem_of_cons, elem_of_nil.
  repeat match goal with |- context [if f =? ?e then _ else _] =>
    let v := eval vm_compute in e in change (f =? e) with (f =? v); destruct (Z.eqb_spec f v) end;
  subst; simpl; split; intros; try tauto; try lia.
Qed.

Lemma valid_freq_range f : valid_freq f -> 2 <= f <= 1024 /\ 1 <= 1024 / f <= 512.
Proof.
  rewrite valid_freq_cases. unfold freqs. intros H.
  repeat (apply elem_of_cons in H as [->|H]); [done..|by apply not_elem_of_nil in H].
Qed.

Lemma rtc_handler_rtc s :
  rtc_ok s ->
  k_rtc (rtc_handler s) =
    if rtc_max_count (k_rtc s) <=? rtc_counter (k_rtc s) + 1
    then mkRtc 1 0 (rtc_max_count (k_rtc s))
    else mkRtc (rtc_interrupt_occurred (k_rtc s)) (rtc_counter (k_rtc s) + 1)
               (rtc_max_count (k_rtc s)).
Proof.
  intros (Hc & f & Hf%valid_freq_range & Hm). unfold rtc_handler. simpl.
  rewrite i32_small by lia. by destruct (_ <=? _).
Qed.

(** [n] interrupts in a row. *)
Fixpoint rtc_ticks (n : nat) (s : kst) : kst :=
  match n with O => s | S n' => rtc_ticks n' (rtc_handler s) end.

(** [n] interrupts with a reader that clears the flag after each one: how often the
    flag was found set. *)
Fixpoint ticks_seen (n : nat) (s : kst) : Z :=
  match n with
  | O => 0
  | S n' =>
      let s := rtc_handler s in
      if rtc_interrupt_occurred (k_rtc s) =? 0 then ticks_seen n' s
      else 1 + ticks_seen n' (set_occurred 0 s)
  end.

Lemma rtc_handler_ok s : rtc_ok s -> rtc_ok (rtc_handler s).
Proof.
  intros H. pose proof H as (Hc & f & Hf & Hm). unfold rtc_ok.
  rewrite rtc_handler_rtc by done. split; [split_if; simpl; lia|exists f; by split_if].
Qed.

Lemma set_occurred_ok v s : rtc_ok s -> rtc_ok (set_occurred v s).
Proof. done. Qed.

(** The counter after [n] interrupts, and whether the flag is up. *)
Lemma rtc_ticks_rtc n s :
  rtc_ok s ->
  k_rtc (rtc_ticks n s) =
    mkRtc (if rtc_max_count (k_rtc s) <=? rtc_counter (k_rtc s) + Z.of_nat n then 1
           else rtc_interrupt_occurred (k_rtc s))
          ((rtc_counter (k_rtc s) + Z.of_nat n) mod rtc_max_count (k_rtc s))
          (rtc_max_count (k_rtc s)).
Proof.
  revert s. induction n as [|n IH]; intros s H; simpl rtc_ticks.
  - destruct H as [Hc _]. rewrite Z.add_0_r, Z.mod_small by lia.
    rewrite (proj2 (Z.leb_gt _ _)) by lia. by destruct (k_rtc s).
  - rewrite IH by by apply rtc_handler_ok. rewrite rtc_handler_rtc by done.
    destruct H as [Hc _]. set (m := rtc_max_count (k_rtc s)) in *.
    set (c := rtc_counter (k_rtc s)) in *.
    destruct (m <=? c + 1) eqn:E; simpl.
    + replace (c + Z.of_nat (S n)) with (0 + Z.of_nat n + 1 * m) by lia.
      rewrite Z.mod_add by lia. f_equal. pose proof (Nat2Z.is_nonneg n). repeat split_if; simpl; done || lia.
    + replace (c + Z.of_nat (S n)) with (c + 1 + Z.of_nat n) by lia. done.
Qed.

Lemma ticks_seen_S n s :
  ticks_seen (S n) s =
    if rtc_interrupt_occurred (k_rtc (rtc_handler s)) =? 0 then ticks_seen n (rtc_handler s)
    else 1 + ticks_seen n (set_occurred 0 (rtc_handler s)).
Proof. done. Qed.

Lemma ticks_seen_count n s :
  rtc_ok s -> rtc_interrupt_occurred (k_rtc s) = 0 ->
  ticks_seen n s = (rtc_counter (k_rtc s) + Z.of_nat n) / rtc_max_count (k_rtc s).
Proof.
  revert s. induction n as [|n IH]; intros s H H0.
  - destruct H as [Hc _]. simpl ticks_seen. rewrite Z.div_small; lia.
  - rewrite ticks_seen_S. pose proof (rtc_handler_ok s H) as H'. pose proof (rtc_handler_rtc s H) as E.
    destruct H as [Hc _]. destruct (Z.eqb_spec (rtc_interrupt_occurred (k_rtc (rtc_handler s))) 0) as [e|e].
    + rewrite IH by done. revert e. rewrite E. split_if; cbn [rtc_interrupt_occurred rtc_counter rtc_max_count]; intros; [done|].
      by replace (rtc_counter (k_rtc s) + Z.of_nat (S n))
        with (rtc_counter (k_rtc s) + 1 + Z.of_nat n) by lia.
    + rewrite IH by done. revert e.
      cbn [set_occurred set_rtc k_rtc rtc_counter rtc_max_count]. rewrite E. split_if; cbn [rtc_interrupt_occurred rtc_counter rtc_max_count]; intros; [|done].
      replace (rtc_counter (k_rtc s) + Z.of_nat (S n))
        with (0 + Z.of_nat n + 1 * rtc_max_count (k_rtc s)) by lia.
      rewrite Z.div_add by lia. apply Z.add_comm.
Qed.

(** A write to the clock changes the rate exactly when it is four bytes that hold
    a power of two from 2 to 1024: the handler then counts to 1024 divided by the
    rate, from 0, and nothing else of the kernel changes (interrupts are on).  Any
    other write returns -1 and leaves the kernel as it was. *)
Lemma rtc_write_cases fd buf nbytes s :
  (buf <> 0 /\ nbytes = 4 /\ valid_freq (ld32 (k_mem s) buf) /\
   rtc_write fd buf nbytes s =
     (4, set_if true (set_rtc (mkRtc (rtc_interrupt_occurred (k_rtc s)) 0
                                     (1024 / ld32 (k_mem s) buf)) s))) \/
  (~ (buf <> 0 /\ nbytes = 4 /\ valid_freq (ld32 (k_mem s) buf)) /\
   rtc_write fd buf nbytes s = (-1, s)).
Proof.
  unfold rtc_write. destruct (Z.eqb_spec buf 0); [right; simpl; tauto|].
  destruct (Z.eqb_spec nbytes 4); [|right; simpl; tauto]. simpl.
  rewrite <- freq_test. destruct (_ && _ && _); [left|right]; simpl; [|split; [by intros (_ & _ & H)|done]].
  subst. by split_and!.
Qed.

(** C26: a write to the clock either asks for a rate [f] that is a power of two from 2
    to 1024, in four bytes: it returns 4, keeps memory, descriptors and the other
    drivers as they were, and from then on the virtual clock runs at that rate: among
    [k] times 1024 interrupts of the 1024 Hz clock exactly [k * f] raise the flag
    [rtc_read] waits for (the reader clearing it each time).  Or it asks for anything
    else: it returns -1 and the kernel is left as it was. *)
Theorem rtc_write_rate fd buf nbytes s :
  rtc_interrupt_occurred (k_rtc s) = 0 ->
  let f := ld32 (k_mem s) buf in
  let '(r, s') := rtc_write fd buf nbytes s in
  (buf <> 0 /\ nbytes = 4 /\ valid_freq f /\ r = 4 /\
   s' = set_if true (set_rtc (k_rtc s') s) /\
   forall k, ticks_seen (k * 1024) s' = Z.of_nat k * f) \/
  (~ (buf <> 0 /\ nbytes = 4 /\ valid_freq f) /\ r = -1 /\ s' = s).
Proof.
  intros H0 f. destruct (rtc_write_cases fd buf nbytes s) as [(Hb & Hn & Hf & ->)|[Hn ->]];
    [left|by right]. split_and!; try done.
  intros k. rewrite ticks_seen_count; simpl; [|split; simpl|done].
  - rewrite valid_freq_cases in Hf. fold f in Hf |- *. unfold freqs in Hf.
    rewrite Nat2Z.inj_mul. change (Z.of_nat 1024) with 1024.
    clearbody f. clear Hn Hb H0. rename Hf into H.
    repeat (apply elem_of_cons in H as [->|H]); [..|by apply not_elem_of_nil in H];
      match goal with |- _ / ?d = _ => let v := eval vm_compute in d in change d with v end; modlia.
  - apply valid_freq_range in Hf. lia.
  - eauto.
Qed.

Lemma rtc_init_ok s : rtc_ok s -> rtc_ok (rtc_init s).
Proof.
  intros H. pose proof H as (Hc & f & Hf & Hm). pose proof (valid_freq_range f Hf).
  split; unfold rtc_init; simpl; [change (RTC_MAX_FREQ / RTC_BASE_FREQ) with 512; lia|]. exists 2. split; [by exists 1|done].
Qed.

(** Opening the clock and setting its rate keep the counter in range. *)
Lemma rtc_open_ok a s : rtc_ok s -> rtc_ok (snd (rtc_open a s)).
Proof.
  intros H. pose proof H as (Hc & f & Hf & Hm). pose proof (valid_freq_range f Hf).
  unfold rtc_open. split_if; [done|]. split; simpl; [change (RTC_MAX_FREQ / RTC_BASE_FREQ) with 512; lia|].
  exists 2. split; [by exists 1|done].
Qed.

Lemma rtc_write_ok fd buf nbytes s : rtc_ok s -> rtc_ok (snd (rtc_write fd buf nbytes s)).
Proof.
  intros H. destruct (rtc_write_cases fd buf nbytes s) as [(_ & _ & Hw & ->)|[_ ->]]; [|done].
  pose proof (valid_freq_range _ Hw). split; simpl; [lia|eauto].
Qed.

(** Every operation of the driver keeps the counter below the count it is
    compared with, a divisor of 1024, so it cannot overflow. *)
Theorem rtc_ops_ok fd buf nbytes s :
  rtc_ok s ->
  rtc_ok (rtc_handler s) /\ rtc_ok (rtc_init s) /\ rtc_ok (snd (rtc_open buf s)) /\
  rtc_ok (snd (rtc_close fd s)) /\ rtc_ok (snd (rtc_write fd buf nbytes s)).
Proof.
  intros H. split_and!; [by apply rtc_handler_ok|by apply rtc_init_ok|by apply rtc_open_ok|unfold rtc_close; by split_if|by apply rtc_write_ok].
Qed.

End RtcFacts.
