(* ===== verification/Keyboard.v ===== *)
(** * The keyboard driver (keyboard.c)

    The handler reads a scancode (set 1), keeps the state of the modifier keys in
    [key_status], echoes characters with the terminal routines of lib.c and edits
    the line under construction in [keyboard_buffer]; Enter sets [enterpress].

    The specification is a line editor: the modifiers as booleans, the line as a
    list of at most 127 characters, and a step per scancode that may emit a
    finished line.  [keyboard_handler] refines it. *)

From stdpp Require Import base list numbers gmap.
From Stdlib Require Import ZArith Lia.
From S2P Require Import Prelude Mem LibStr State Pic Console.

Definition KEYBOARD_DATA_PORT : Z := 0x60.
Definition KEYBOARD_IRQ : Z := 0x01.
Definition KEYBOARD_BUFFER_SIZE : Z := 128.

(** ** The scancode tables, as character codes; the rest of the 128 entries is 0 *)

Definition keymap : list Z :=
  [0; 27; 49; 50; 51; 52; 53; 54; 55; 56; 57; 48; 45; 61; 8;
   9; 113; 119; 101; 114; 116; 121; 117; 105; 111; 112; 91; 93; 10; 0;
   97; 115; 100; 102; 103; 104; 106; 107; 108; 59; 39; 96; 0; 92; 122;
   120; 99; 118; 98; 110; 109; 44; 46; 47; 0; 42; 0; 32; 0; 0;
   0; 0; 0; 0; 0; 0; 0; 0; 0; 0; 0; 0; 0; 0; 45;
   0; 0; 0; 43; 0; 0; 0; 0; 0; 0; 0; 0; 0; 0; 0] ++ replicate 38 0.

Definition keymap_upper : list Z :=
  [0; 27; 33; 64; 35; 36; 37; 94; 38; 42; 40; 41; 95; 43; 8;
   9; 81; 87; 69; 82; 84; 89; 85; 73; 79; 80; 123; 125; 10; 0;
   65; 83; 68; 70; 71; 72; 74; 75; 76; 58; 34; 126; 0; 124; 90;
   88; 67; 86; 66; 78; 77; 60; 62; 63; 0; 42; 0; 32; 0; 0;
   0; 0; 0; 0; 0; 0; 0; 0; 0; 0; 0; 0; 0; 0; 45;
   0; 0; 0; 43; 0; 0; 0; 0; 0; 0; 0; 0; 0; 0; 0] ++ replicate 38 0.

(** ** Updates of the driver's variables *)

Definition set_key_status (v : Z) (s : kst) : kst :=
  set_kbd (mkKbd (keyboard_buffer (k_kbd s)) (keyboard_buffer_index (k_kbd s)) (u8 v)
                 (enterpress (k_kbd s))) s.
Definition set_kbd_index (v : Z) (s : kst) : kst :=
  set_kbd (mkKbd (keyboard_buffer (k_kbd s)) v (key_status (k_kbd s))
                 (enterpress (k_kbd s))) s.
Definition set_enterpress (v : Z) (s : kst) : kst :=
  set_kbd (mkKbd (keyboard_buffer (k_kbd s)) (keyboard_buffer_index (k_kbd s))
                 (key_status (k_kbd s)) v) s.

(** [keyboard_buffer[keyboard_buffer_index] = c; keyboard_buffer_index++;] *)
Definition push_key (c : Z) (s : kst) : kst :=
  let k := k_kbd s in
  set_kbd (mkKbd (zset (keyboard_buffer k) (keyboard_buffer_index k) c)
                 (keyboard_buffer_index k + 1) (key_status k) (enterpress k)) s.

(** ** The handler *)

Definition handle_standard_key (key_status scancode : Z) : Z :=
  if negb (Z.land key_status 0x02 =? 0) then
    if ((0x10 <=? scancode) && (scancode <=? 0x19)) ||
       ((0x1E <=? scancode) && (scancode <=? 0x26)) ||
       ((0x2C <=? scancode) && (scancode <=? 0x32)) then
      if negb (Z.land key_status 0x01 =? 0)
      then zget 0 keymap scancode else zget 0 keymap_upper scancode
    else
      if negb (Z.land key_status 0x01 =? 0)
      then zget 0 keymap_upper scancode else zget 0 keymap scancode
  else
    if negb (Z.land key_status 0x01 =? 0)
    then zget 0 keymap_upper scancode else zget 0 keymap scancode.

(** The branch for a key released. *)
Definition key_up (scancode : Z) (s : kst) : kst :=
  let ks := key_status (k_kbd s) in
  if (scancode =? 0xAA) || (scancode =? 0xB6) then set_key_status (Z.land ks (Z.lnot 0x01)) s
  else if scancode =? 0x9D then set_key_status (Z.land ks (Z.lnot 0x04)) s
  else if scancode =? 0xB8 then set_key_status (Z.land ks (Z.lnot 0x08)) s
  else s.

(** The body for a character key: echo, edit the buffer, finish the line. *)
Definition key_echo (c : Z) (s : kst) : kst :=
  let k := k_kbd s in
  if (c =? 8) && negb (keyboard_buffer_index k =? 0) then
    let s :=
      if zget 0 (keyboard_buffer k) (keyboard_buffer_index k - 1) =? 9
      then for_loop 0 4 (fun _ s => move_cursor (backspace_pressed s)) s
      else if negb (keyboard_buffer_index k =? 0) then putc_term c s
      else s in
    set_kbd_index (keyboard_buffer_index (k_kbd s) - 1) s
  else if (keyboard_buffer_index k <? KEYBOARD_BUFFER_SIZE - 1) && negb (c =? 8)
  then putc_term c s
  else s.

Definition key_store (c : Z) (s : kst) : kst :=
  if negb (c =? 0) && (keyboard_buffer_index (k_kbd s) <? KEYBOARD_BUFFER_SIZE - 1) && negb (c =? 8)
  then push_key c s else s.

Definition key_enter (c : Z) (s : kst) : kst :=
  if c =? 10 then
    let s :=
      if keyboard_buffer_index (k_kbd s) =? KEYBOARD_BUFFER_SIZE - 1
      then putc_term c (push_key c s) else s in
    set_kbd_index 0 (set_enterpress 1 s)
  else s.

(** The branch for a key pressed. *)
Definition key_down (scancode : Z) (s : kst) : kst :=
  let ks := key_status (k_kbd s) in
  let toggle bit := if negb (Z.land ks bit =? 0) then set_key_status (Z.land ks (Z.lnot bit)) s
                    else set_key_status (Z.lor ks bit) s in
  if (scancode =? 0x2A) || (scancode =? 0x36) then set_key_status (Z.lor ks 0x01) s
  else if scancode =? 0x3A then toggle 0x02
  else if scancode =? 0x1D then set_key_status (Z.lor ks 0x04) s
  else if scancode =? 0x38 then set_key_status (Z.lor ks 0x08) s
  else if scancode =? 0x45 then toggle 0x10
  else if scancode =? 0x46 then toggle 0x20
  else if negb (Z.land ks 0x04 =? 0) && (scancode =? 0x26) then clear_term s
  else
    let c := handle_standard_key ks scancode in
    key_enter c (key_store c (key_echo c s)).

Definition key_event (scancode : Z) (s : kst) : kst :=
  if negb (Z.land scancode 0x80 =? 0) then key_up scancode s else key_down scancode s.

Section Driver.
Context `{D : Device}.

Definition keyboard_init (s : kst) : kst := enable_irq KEYBOARD_IRQ s.

Definition keyboard_handler (s : kst) : kst :=
  let '(scancode, s) := inb KEYBOARD_DATA_PORT s in
  let s := key_event scancode s in
  send_eoi KEYBOARD_IRQ s.

End Driver.

(** ** Specification: a line editor *)

Record mods := mkMods { shift : bool; caps : bool; ctrl : bool; alt : bool; num : bool; scroll : bool }.

Record editor := mkEd { ed_mods : mods; ed_line : list Z }.

(** The letter keys of the US layout. *)
Definition is_letter (scancode : Z) : bool :=
  let c := zget 0 keymap scancode in (97 <=? c) && (c <=? 122).

(** Shift selects the upper map; for a letter caps lock inverts it. *)
Definition spec_char (m : mods) (scancode : Z) : Z :=
  if xorb (shift m) (caps m && is_letter scancode)
  then zget 0 keymap_upper scancode else zget 0 keymap scancode.

Definition spec_mods (scancode : Z) (m : mods) : mods :=
  let '(mkMods sh ca ct al nu sc) := m in
  if (scancode =? 0x2A) || (scancode =? 0x36) then mkMods true ca ct al nu sc
  else if (scancode =? 0xAA) || (scancode =? 0xB6) then mkMods false ca ct al nu sc
  else if scancode =? 0x3A then mkMods sh (negb ca) ct al nu sc
  else if scancode =? 0x1D then mkMods sh ca true al nu sc
  else if scancode =? 0x9D then mkMods sh ca false al nu sc
  else if scancode =? 0x38 then mkMods sh ca ct true nu sc
  else if scancode =? 0xB8 then mkMods sh ca ct false nu sc
  else if scancode =? 0x45 then mkMods sh ca ct al (negb nu) sc
  else if scancode =? 0x46 then mkMods sh ca ct al nu (negb sc)
  else m.

(** The character a scancode types, 0 for none: releases, modifiers and Ctrl-L. *)
Definition spec_typed (scancode : Z) (m : mods) : Z :=
  if (scancode <? 128) && negb (ctrl m && (scancode =? 0x26)) then spec_char m scancode else 0.

(** Editing: the new line and the line finished, if any. *)
Definition edit (c : Z) (line : list Z) : list Z * option (list Z) :=
  if c =? 0 then (line, None)
  else if c =? 8 then (removelast line, None)
  else if c =? 10 then ([], Some (line ++ [10]))
  else if (length line <? 127)%nat then (line ++ [c], None)
  else (line, None).

Definition ed_step (scancode : Z) (e : editor) : editor * option (list Z) :=
  let '(line, out) := edit (spec_typed scancode (ed_mods e)) (ed_line e) in
  (mkEd (spec_mods scancode (ed_mods e)) line, out).

(** ** Refinement *)

Definition mods_of (ks : Z) : mods :=
  mkMods (Z.testbit ks 0) (Z.testbit ks 1) (Z.testbit ks 2) (Z.testbit ks 3)
         (Z.testbit ks 4) (Z.testbit ks 5).

(** The editor the driver's variables represent. *)
Definition ed_of (k : kbd) : editor :=
  mkEd (mods_of (key_status k)) (take (Z.to_nat (keyboard_buffer_index k)) (keyboard_buffer k)).

(** The index stays in the 128-byte buffer with room for a newline, the status byte
    uses six bits, and the line under construction has neither newline nor NUL. *)
Definition kbd_ok (k : kbd) : Prop :=
  0 <= keyboard_buffer_index k < 128 /\ length (keyboard_buffer k) = 128%nat /\
  0 <= key_status k < 64 /\ Forall (fun c => 0 < c < 128 /\ c <> 10) (ed_line (ed_of k)).

(** What holds even after typing ahead: [terminal_read] clears the buffer under a line
    under construction, which then has NULs in it. *)
Definition kbd_wf (k : kbd) : Prop :=
  0 <= keyboard_buffer_index k < 128 /\ length (keyboard_buffer k) = 128%nat /\ 0 <= key_status k < 64.

Lemma kbd_ok_wf k : kbd_ok k -> kbd_wf k.
Proof. by intros (? & ? & ? & _). Qed.

#[export] Instance mods_eq_dec : EqDecision mods.
Proof. solve_decision. Defined.

Section Editing.
Implicit Types s : kst.

(** The effect of typing a character on the driver's variables alone. *)
Definition type_kbd (c : Z) (k : kbd) : kbd :=
  let '(mkKbd b i ks e) := k in
  if c =? 0 then k
  else if c =? 8 then mkKbd b (if i =? 0 then 0 else i - 1) ks e
  else if c =? 10 then
    mkKbd (let b := if i <? 127 then zset b i 10 else b in
           if 126 <=? i then zset b 127 10 else b) 0 ks 1
  else if i <? 127 then mkKbd (zset b i c) (i + 1) ks e
  else k.

Lemma k_kbd_putc c s : k_kbd (putc_term c s) = k_kbd s.
Proof. apply only_console_kbd. auto with frame. Qed.

Lemma k_kbd_echo c s :
  k_kbd (key_echo c s) =
    let k := k_kbd s in
    if (c =? 8) && negb (keyboard_buffer_index k =? 0)
    then mkKbd (keyboard_buffer k) (keyboard_buffer_index k - 1) (key_status k) (enterpress k)
    else k.
Proof.
  unfold key_echo. cbv zeta. split_if.
  - set (s1 := if _ =? 9 then _ else _).
    assert (E : k_kbd s1 = k_kbd s).
    { unfold s1. repeat split_if; try done; apply only_console_kbd; [|auto with frame].
      apply only_console_for. intros. etrans; [apply only_console_backspace|apply only_console_move]. }
    clearbody s1. simpl. by rewrite E.
  - split_if; [apply k_kbd_putc|done].
Qed.

Lemma k_kbd_store c s :
  k_kbd (key_store c s) =
    let '(mkKbd b i ks e) := k_kbd s in
    if negb (c =? 0) && (i <? 127) && negb (c =? 8) then mkKbd (zset b i c) (i + 1) ks e
    else k_kbd s.
Proof.
  unfold key_store, push_key. destruct (k_kbd s) eqn:E. simpl.
  change (KEYBOARD_BUFFER_SIZE - 1) with 127. by split_if.
Qed.

Lemma k_kbd_enter c s :
  k_kbd (key_enter c s) =
    let '(mkKbd b i ks e) := k_kbd s in
    if c =? 10 then mkKbd (if i =? 127 then zset b i c else b) 0 ks 1 else k_kbd s.
Proof.
  unfold key_enter, push_key. change (KEYBOARD_BUFFER_SIZE - 1) with 127.
  destruct (k_kbd s) as [b i ks e] eqn:E. cbv zeta. destruct (c =? 10); [|done].
  cbn [keyboard_buffer_index]. destruct (i =? 127); unfold set_kbd_index, set_enterpress;
    cbn [k_kbd set_kbd]; rewrite ?k_kbd_putc; cbn [k_kbd set_kbd]; by rewrite ?E.
Qed.

Lemma k_kbd_typed c s :
  0 <= keyboard_buffer_index (k_kbd s) < 128 ->
  k_kbd (key_enter c (key_store c (key_echo c s))) = type_kbd c (k_kbd s).
Proof.
  intros Hi. rewrite k_kbd_enter, k_kbd_store, k_kbd_echo.
  destruct (k_kbd s) as [b i ks e]. simpl in *.
  destruct (Z.eqb_spec c 0) as [->|H0]; [done|].
  destruct (Z.eqb_spec c 8) as [->|H8].
  { simpl. destruct (Z.eqb_spec i 0) as [->|]; simpl; [done|]. by rewrite andb_false_r. }
  simpl. destruct (Z.eqb_spec c 10) as [->|H10], (i <? 127) eqn:Ei; simpl; try done.
  - destruct (Z.eqb_spec (i + 1) 127), (126 <=? i) eqn:?; try lia; [|done]. by replace i with 126 by lia.
  - by replace i with 127 by lia.
Qed.

(** The status byte after a scancode, and the character it types. *)
Definition next_status (sc ks : Z) : Z :=
  let toggle bit := if negb (Z.land ks bit =? 0) then u8 (Z.land ks (Z.lnot bit))
                    else u8 (Z.lor ks bit) in
  if negb (Z.land sc 0x80 =? 0) then
    if (sc =? 0xAA) || (sc =? 0xB6) then u8 (Z.land ks (Z.lnot 0x01))
    else if sc =? 0x9D then u8 (Z.land ks (Z.lnot 0x04))
    else if sc =? 0xB8 then u8 (Z.land ks (Z.lnot 0x08))
    else ks
  else if (sc =? 0x2A) || (sc =? 0x36) then u8 (Z.lor ks 0x01)
  else if sc =? 0x3A then toggle 0x02
  else if sc =? 0x1D then u8 (Z.lor ks 0x04)
  else if sc =? 0x38 then u8 (Z.lor ks 0x08)
  else if sc =? 0x45 then toggle 0x10
  else if sc =? 0x46 then toggle 0x20
  else ks.

Definition typed (sc ks : Z) : Z :=
  if negb (Z.land sc 0x80 =? 0) then 0
  else if (sc =? 0x2A) || (sc =? 0x36) || (sc =? 0x3A) || (sc =? 0x1D) || (sc =? 0x38) ||
          (sc =? 0x45) || (sc =? 0x46) then 0
  else if negb (Z.land ks 0x04 =? 0) && (sc =? 0x26) then 0
  else handle_standard_key ks sc.

Lemma type_kbd_0 k : type_kbd 0 k = k.
Proof. by destruct k. Qed.

(** A scancode changes the status byte and types its character; the screen aside,
    that is all. *)
Lemma k_kbd_event sc s :
  0 <= keyboard_buffer_index (k_kbd s) < 128 ->
  k_kbd (key_event sc s) =
    let '(mkKbd b i ks e) := k_kbd s in
    type_kbd (typed sc ks) (mkKbd b i (next_status sc ks) e).
Proof.
  intros Hi. unfold key_event, key_up, key_down, next_status, typed, set_key_status.
  pose proof (k_kbd_typed (handle_standard_key (key_status (k_kbd s)) sc) s Hi) as Ht.
  pose proof (only_console_kbd _ _ (only_console_clear_term s)) as Hc.
  destruct (k_kbd s) as [b i ks e] eqn:E. cbn [key_status keyboard_buffer keyboard_buffer_index enterpress] in *.
  cbv zeta.
  destruct (negb (Z.land sc 128 =? 0)).
  { rewrite type_kbd_0. by repeat case_match. }
  destruct (sc =? 0x2A), (sc =? 0x36), (sc =? 0x3A), (sc =? 0x1D), (sc =? 0x38), (sc =? 0x45),
    (sc =? 0x46); cbn [orb]; rewrite ?type_kbd_0; by repeat case_match; rewrite ?type_kbd_0.
Qed.

(** The table lookups and the bit operations agree with the specification: checked on
    every scancode and every status. *)
Lemma status_spec sc ks :
  0 <= sc < 256 -> 0 <= ks < 64 ->
  mods_of (next_status sc ks) = spec_mods sc (mods_of ks) /\ 0 <= next_status sc ks < 64 /\
  typed sc ks = spec_typed sc (mods_of ks) /\ 0 <= typed sc ks < 128.
Proof.
  intros Hs Hk.
  pose (p := fun sc ks =>
    bool_decide (mods_of (next_status sc ks) = spec_mods sc (mods_of ks)) &&
    (0 <=? next_status sc ks) && (next_status sc ks <? 64) &&
    (typed sc ks =? spec_typed sc (mods_of ks)) && (0 <=? typed sc ks) && (typed sc ks <? 128)).
  pose proof (forallb_below (fun sc => forallb (fun i => p sc (Z.of_nat i)) (seq 0 64))
    256 ltac:(vm_compute; reflexivity) sc ltac:(lia)) as T.
  apply (forallb_below (p sc)) with (x := ks) in T; [|lia]. unfold p in T. clear p.
  rewrite !andb_true_iff, bool_decide_eq_true in T.
  destruct T as [[[[[T1 T2] T3] T4] T5] T6]. split_and!; [done|lia..].
Qed.

Lemma take_zset_snoc (b : list Z) i c :
  0 <= i < Z.of_nat (length b) ->
  take (Z.to_nat (i + 1)) (zset b i c) = take (Z.to_nat i) b ++ [c].
Proof.
  intros Hi. unfold zset. rewrite (proj2 (Z.ltb_ge _ _)) by lia.
  replace (Z.to_nat (i + 1)) with (S (Z.to_nat i)) by lia.
  rewrite (take_S_r _ _ c), take_insert_ge; [done|lia|].
  apply list_lookup_insert_eq. lia.
Qed.

Lemma removelast_take (b : list Z) i :
  0 < i <= Z.of_nat (length b) ->
  removelast (take (Z.to_nat i) b) = take (Z.to_nat (i - 1)) b.
Proof.
  intros Hi. rewrite removelast_firstn_len, length_take, take_take. f_equal. lia.
Qed.

(** Typing a character edits the line as the specification says. *)
Lemma type_kbd_edit c k :
  kbd_ok k -> 0 <= c < 128 ->
  let '(line, out) := edit c (ed_line (ed_of k)) in
  let k' := type_kbd c k in
  kbd_ok k' /\ ed_line (ed_of k') = line /\ key_status k' = key_status k /\
  match out with
  | None => enterpress k' = enterpress k
  | Some l => enterpress k' = 1 /\ keyboard_buffer_index k' = 0 /\
      (length l <= 128)%nat /\ take (length l) (keyboard_buffer k') = l
  end.
Proof.
  destruct k as [b i ks e]. unfold kbd_ok, edit, type_kbd, ed_of. simpl.
  intros (Hi & Hl & Hk & Hn) Hc.
  assert (Lt : length (take (Z.to_nat i) b) = Z.to_nat i) by (rewrite length_take; lia).
  destruct (Z.eqb_spec c 0); [done|]. destruct (Z.eqb_spec c 8); simpl.
  { destruct (Z.eqb_spec i 0) as [->|]; [done|].
    assert (E : removelast (take (Z.to_nat i) b) = take (Z.to_nat (i - 1)) b)
      by (apply removelast_take; lia).
    split_and!; try done; try lia. rewrite <- E, removelast_firstn_len. by apply Forall_take. }
  destruct (Z.eqb_spec c 10) as [->|]; simpl.
  { assert (E : take (Z.to_nat i + 1) (let b := if i <? 127 then zset b i 10 else b in
      if 126 <=? i then zset b 127 10 else b) = take (Z.to_nat i) b ++ [10]).
    { replace (Z.to_nat i + 1)%nat with (Z.to_nat (i + 1)) by lia. cbv zeta.
      destruct (i <? 127) eqn:E1, (126 <=? i) eqn:E2; try lia.
      - replace i with 126 by lia. unfold zset at 1. simpl.
        change (take (Pos.to_nat 127)) with (take (Z.to_nat (126 + 1))).
        rewrite take_insert_ge by lia. apply take_zset_snoc. lia.
      - apply take_zset_snoc. lia.
      - replace i with 127 by lia. apply take_zset_snoc. lia. }
    cbv zeta in E. rewrite length_app, Lt. simpl. split_and!; try done; try lia.
    - repeat split_if; rewrite ?zset_length; done.
  }
  rewrite Lt. destruct (i <? 127) eqn:Ei.
  - rewrite (proj2 (Nat.ltb_lt _ _)) by lia. simpl. rewrite zset_length, take_zset_snoc by lia.
    split_and!; try done; try lia. apply Forall_app. split; [done|].
    repeat constructor; lia.
  - rewrite (proj2 (Nat.ltb_ge _ _)) by lia. done.
Qed.

End Editing.

Section Handler.
Context `{D : Device}.
Implicit Types s : kst.

Lemma only_edit_echo c s : only_edit s (key_echo c s).
Proof.
  unfold key_echo. cbv zeta. destruct ((c =? 8) && _).
  - set (s1 := if zget _ _ _ =? _ then _ else _).
    assert (H : only_console s s1).
    { unfold s1. repeat split_if; auto with frame; try reflexivity. apply only_console_for.
      intros. etrans; [apply only_console_backspace|apply only_console_move]. }
    transitivity s1; auto with frame. apply only_edit_set_kbd.
  - split_if; auto with frame; reflexivity.
Qed.

Lemma only_edit_store c s : only_edit s (key_store c s).
Proof. unfold key_store. split_if; [apply only_edit_set_kbd|reflexivity]. Qed.

Lemma only_edit_enter c s : only_edit s (key_enter c s).
Proof.
  unfold key_enter. destruct (c =? 10); [|reflexivity]. set (s1 := if _ =? _ then _ else _).
  assert (H : only_edit s s1).
  { unfold s1. split_if; [|reflexivity]. transitivity (push_key c s); [apply only_edit_set_kbd|].
    auto with frame. }
  clearbody s1. transitivity s1; [exact H|].
  transitivity (set_enterpress 1 s1); apply only_edit_set_kbd.
Qed.

Lemma only_edit_event sc s : only_edit s (key_event sc s).
Proof.
  unfold key_event, key_up, key_down. cbv zeta.
  assert (T : forall c, only_edit s (key_enter c (key_store c (key_echo c s)))).
  { intros c. etrans; [apply only_edit_echo|]. etrans; [apply only_edit_store|].
    apply only_edit_enter. }
  repeat split_if; auto with frame; try reflexivity; apply only_edit_set_kbd.
Qed.

Lemma key_event_refines sc s :
  kbd_ok (k_kbd s) -> 0 <= sc < 256 ->
  let '(e', out) := ed_step sc (ed_of (k_kbd s)) in
  let k' := k_kbd (key_event sc s) in
  kbd_ok k' /\ ed_of k' = e' /\
  match out with
  | None => enterpress k' = enterpress (k_kbd s)
  | Some l => enterpress k' = 1 /\ keyboard_buffer_index k' = 0 /\
      (length l <= 128)%nat /\ take (length l) (keyboard_buffer k') = l
  end.
Proof.
  intros Hok Hsc. pose proof Hok as (Hi & Hl & Hks & Hn). cbv zeta. rewrite k_kbd_event by done.
  destruct (k_kbd s) as [b i ks e]. simpl in Hi, Hl, Hks, Hn.
  destruct (status_spec sc ks Hsc Hks) as (Em & Hks' & Et & Hr). unfold ed_step.
  pose proof (type_kbd_edit (typed sc ks) (mkKbd b i (next_status sc ks) e)) as T.
  specialize (T ltac:(done) Hr). cbn [ed_of ed_mods ed_line key_status keyboard_buffer keyboard_buffer_index] in *.
  rewrite Et in *. destruct (edit _ _) as [line out]. destruct T as (T1 & T2 & T3 & T4).
  split_and!; [done| |done].
  generalize dependent (type_kbd (spec_typed sc (mods_of ks)) (mkKbd b i (next_status sc ks) e)).
  intros k' T1 T2 T3 T4. unfold ed_of in *. simpl in T2. by rewrite T2, T3, <- Em.
Qed.

Lemma key_event_wf sc s : kbd_wf (k_kbd s) -> 0 <= sc < 256 -> kbd_wf (k_kbd (key_event sc s)).
Proof.
  intros (Hi & Hl & Hk) Hsc. rewrite k_kbd_event by done. destruct (k_kbd s) as [b i ks e]. simpl in Hi, Hl, Hk.
  destruct (status_spec sc ks Hsc Hk) as (_ & Hk' & _). unfold type_kbd, kbd_wf.
  repeat split_if; simpl; repeat split_if; rewrite ?zset_length; lia.
Qed.

Lemma send_eoi_kbd n s : k_kbd (send_eoi n s) = k_kbd s.
Proof. apply only_console_kbd, only_io_console, send_eoi_only_io. Qed.

Lemma keyboard_handler_event s :
  let sc := u8 (dev_in (k_io s) KEYBOARD_DATA_PORT) in
  only_input s (keyboard_handler s) /\
  kbd_log (k_io (keyboard_handler s)) = sc :: kbd_log (k_io s) /\
  (kbd_wf (k_kbd s) -> k_kbd (keyboard_handler s) = k_kbd (key_event sc s)).
Proof.
  intros sc. unfold keyboard_handler, inb. fold sc.
  set (s1 := set_io (In KEYBOARD_DATA_PORT sc :: k_io s) s).
  assert (E : only_edit s1 (send_eoi KEYBOARD_IRQ (key_event sc s1))).
  { etrans; [apply only_edit_event|]. apply only_console_edit, only_io_console, send_eoi_only_io. }
  destruct E as [E L]. split_and!.
  - etrans; [|exact E]. by apply only_io_input.
  - rewrite L. done.
  - intros (Hi & _). rewrite send_eoi_kbd, !k_kbd_event by done. done.
Qed.

End Handler.

(** ** What typing shows

    The screen while a line is edited: characters are echoed as they are accepted,
    Backspace takes back one position (four for a tab), Enter moves to the next row
    (twice when the newline fills the buffer's last but one place), Ctrl-L clears. *)

Definition spec_echo (c : Z) (line : list Z) (t : scr) : option scr :=
  if c =? 8 then
    match line with
    | [] => Some t
    | _ => spec_puts (if zget 0 line (Z.of_nat (length line) - 1) =? 9 then [8; 8; 8; 8] else [8]) t
    end
  else if c =? 10 then spec_puts (if (length line =? 126)%nat then [10; 10] else [10]) t
  else if (length line <? 127)%nat then spec_putc c t
  else Some t.

Definition spec_key (sc : Z) (e : editor) (t : scr) : option scr :=
  if ctrl (ed_mods e) && (sc =? 0x26) then Some (mkScr 0 (fun _ => 32))
  else spec_echo (spec_typed sc (ed_mods e)) (ed_line e) t.

(** Only the screen, the cursor and the keyboard's variables change. *)
Definition echoes (s s' : kst) : Prop :=
  only_input s s' /\ only_changes (k_mem s) (k_mem s') VIDEO 4000.

#[export] Instance echoes_preorder : PreOrder echoes.
Proof.
  split; [by intros s; split; [reflexivity|apply only_changes_refl]|].
  intros s1 s2 s3 [A1 A2] [B1 B2]. split; [by etrans|by eapply only_changes_trans].
Qed.

Lemma draws_echoes s s' : draws s s' -> echoes s s'.
Proof. intros [A B]. split; [by apply only_console_edit|done]. Qed.

Lemma echoes_set_kbd s k : echoes s (set_kbd k s).
Proof. split; [apply only_edit_set_kbd|apply only_changes_refl]. Qed.

#[export] Hint Resolve draws_echoes echoes_set_kbd : frame.

Section Echo.
Implicit Types s : kst.

(** [shows s t s']: in [s'] the screen shows [t] and nothing else but the keyboard's
    variables has changed since [s]. *)
Definition shows (s : kst) (t : scr) (s' : kst) : Prop :=
  scr_eq (view s') t /\ cursor_ok s' /\ echoes s s'.

Lemma shows_refl s : cursor_ok s -> shows s (view s) s.
Proof. intros. by split_and!. Qed.

Lemma shows_kbd s t s' k : shows s t s' -> shows s t (set_kbd k s').
Proof. intros (V & C & E). split_and!; [exact V|exact C|]. etrans; [exact E|apply echoes_set_kbd]. Qed.

Lemma shows_putc s t s' c u :
  shows s t s' -> 0 <= c < 256 -> spec_putc c t = Some u -> shows s u (putc_term c s').
Proof.
  intros (V & C & E) Hc Hs. pose proof (spec_putc_proper c t (view s') (symmetry V)) as P.
  rewrite Hs in P. inversion P as [? u' Eu H1 H2|]; subst.
  destruct (putc_term_step c s' u' C Hc (eq_sym H2)) as (V' & C' & D').
  split_and!; [by rewrite V', Eu|done|]. etrans; [exact E|by apply draws_echoes].
Qed.

(** Backspacing over a tab. *)
Lemma back_step s : cursor_ok s -> move_cursor (backspace_pressed s) = putc_term 8 s.
Proof.
  intros Hc. destruct (backspace_view s Hc) as (_ & [_ Hy] & _). unfold putc_term. cbv [Z.eqb Pos.eqb].
  generalize dependent (backspace_pressed s). intros s' Hy. unfold settle.
  change NUM_ROWS with 25. by rewrite (proj2 (Z.leb_gt _ _)) by lia.
Qed.

Definition spec_back (t : scr) : scr :=
  mkScr (Z.max 0 (pos t - 1)) (put_cell (Z.max 0 (pos t - 1)) 32 (cells t)).

Lemma shows_backs s t s' :
  shows s t s' ->
  shows s (spec_back (spec_back (spec_back (spec_back t))))
    (for_loop 0 4 (fun _ s => move_cursor (backspace_pressed s)) s').
Proof.
  intros H. apply (for_loop_inv (fun i => shows s (Nat.iter (Z.to_nat i) spec_back t)) 0 4); [lia|exact H|].
  intros i s1 Hi Hs. rewrite back_step by apply Hs. replace (Z.to_nat (i + 1)) with (S (Z.to_nat i)) by lia.
  by apply (shows_putc s _ s1 8 _ Hs).
Qed.

(** The line under construction is as long as the index says. *)
Lemma ed_line_length k : kbd_wf k -> Z.of_nat (length (ed_line (ed_of k))) = keyboard_buffer_index k.
Proof. intros (H1 & H2 & _). simpl. rewrite length_take. lia. Qed.

Lemma echo_back s t :
  kbd_wf (k_kbd s) -> cursor_ok s -> spec_echo 8 (ed_line (ed_of (k_kbd s))) (view s) = Some t ->
  shows s t (key_echo 8 s).
Proof.
  intros Hok Hc Hs. pose proof (ed_line_length _ Hok) as El. pose proof Hok as (Hi & Hl & _).
  unfold key_echo, spec_echo in *. change (8 =? 8) with true in *. cbn [andb negb] in *. cbv zeta.
  rewrite andb_false_r. destruct (Z.eqb_spec (keyboard_buffer_index (k_kbd s)) 0) as [E|E]; cbn [negb].
  { destruct (ed_line _); [|simpl in El; lia]. simplify_eq. by apply shows_refl. }
  set (s1 := if _ =? 9 then _ else _). enough (shows s t s1) by (by apply shows_kbd). unfold s1. clear s1.
  assert (Ez : zget 0 (ed_line (ed_of (k_kbd s))) (keyboard_buffer_index (k_kbd s) - 1) =
    zget 0 (keyboard_buffer (k_kbd s)) (keyboard_buffer_index (k_kbd s) - 1)).
  { unfold zget. simpl. rewrite (proj2 (Z.ltb_ge _ _)), lookup_take_lt by lia. done. }
  rewrite El, Ez in Hs. destruct (ed_line _) as [|x line'] eqn:Eline; [simpl in El; lia|]. clear El Eline.
  destruct (zget 0 (keyboard_buffer (k_kbd s)) _ =? 9).
  - injection Hs as <-. exact (shows_backs s (view s) s (shows_refl s Hc)).
  - cbn [spec_puts] in Hs. destruct (spec_putc 8 (view s)) as [u|] eqn:Eu; [|done]. simplify_eq.
    by apply (shows_putc s (view s) s); [apply shows_refl|..].
Qed.

(** Typing any other character. *)
Lemma echo_put c s t :
  kbd_wf (k_kbd s) -> cursor_ok s -> 0 <= c < 128 -> c <> 8 ->
  (if keyboard_buffer_index (k_kbd s) <? 127 then spec_putc c (view s) else Some (view s)) = Some t ->
  shows s t (key_echo c s).
Proof.
  intros Hok Hc Hr H8 Hs. unfold key_echo. rewrite (proj2 (Z.eqb_neq c 8)) by done. cbn [andb negb]. cbv zeta.
  change (KEYBOARD_BUFFER_SIZE - 1) with 127. rewrite andb_true_r. split_if.
  - apply (shows_putc s (view s) s); [by apply shows_refl|lia|done].
  - simplify_eq. by apply shows_refl.
Qed.

Lemma shows_store s t c s' : shows s t s' -> shows s t (key_store c s').
Proof. intros H. unfold key_store. split_if; [by apply shows_kbd|done]. Qed.

Lemma shows_typed c s t :
  kbd_wf (k_kbd s) -> cursor_ok s -> 0 <= c < 128 ->
  spec_echo c (ed_line (ed_of (k_kbd s))) (view s) = Some t ->
  shows s t (key_enter c (key_store c (key_echo c s))).
Proof.
  intros Hok Hc Hr Hs. pose proof (ed_line_length _ Hok) as El. pose proof Hok as (Hi & _).
  destruct (Z.eq_dec c 8) as [->|H8]; [by apply shows_store, echo_back|].
  unfold spec_echo in Hs. rewrite (proj2 (Z.eqb_neq c 8)) in Hs by done.
  set (line := ed_line (ed_of (k_kbd s))) in *.
  unfold key_enter. destruct (Z.eqb_spec c 10) as [->|H10].
  - change (KEYBOARD_BUFFER_SIZE - 1) with 127. rewrite k_kbd_store, k_kbd_echo.
    change ((10 =? 8) && _) with false. cbv zeta iota. destruct (k_kbd s) as [b i ks e] eqn:Ek.
    simpl in El, Hi. cbn [Z.eqb negb andb] in *. rewrite andb_true_r.
    assert (N : exists u, spec_putc 10 (view s) = Some u) by by eexists. destruct N as [u Hu].
    pose proof (echo_put 10 s) as P. rewrite Ek in P. cbn [keyboard_buffer_index] in P.
    destruct (i <? 127) eqn:E127.
    + specialize (P u Hok Hc ltac:(lia) ltac:(lia) Hu). cbn [keyboard_buffer_index].
      apply (shows_store s u 10) in P. destruct (Z.eqb_spec (i + 1) 127) as [E|E].
      * rewrite (proj2 (Nat.eqb_eq _ _)) in Hs by lia. cbn [spec_puts] in Hs. rewrite Hu in Hs.
        destruct (spec_putc 10 u) as [u2|] eqn:Eu2; [|done]. simplify_eq.
        apply shows_kbd, shows_kbd. apply (shows_putc s u); [by apply shows_kbd|lia|done].
      * rewrite (proj2 (Nat.eqb_neq _ _)) in Hs by lia. cbn [spec_puts] in Hs. rewrite Hu in Hs.
        simplify_eq. by apply shows_kbd, shows_kbd.
    + specialize (P (view s) Hok Hc ltac:(lia) ltac:(lia) eq_refl). cbn [keyboard_buffer_index].
      apply (shows_store s (view s) 10) in P.
      rewrite (proj2 (Z.eqb_eq i 127)) by lia. rewrite (proj2 (Nat.eqb_neq _ _)) in Hs by lia.
      cbn [spec_puts] in Hs. rewrite Hu in Hs. simplify_eq.
      apply shows_kbd, shows_kbd. apply (shows_putc s (view s)); [by apply shows_kbd|lia|done].
  - apply shows_store, echo_put; try done. rewrite <- Hs.
    destruct (Z.ltb_spec (keyboard_buffer_index (k_kbd s)) 127), (Nat.ltb_spec (length line) 127); try done; lia.
Qed.

(** A scancode that types nothing shows nothing. *)
Lemma spec_echo_0 line t : spec_echo 0 line t = Some t.
Proof. unfold spec_echo. cbv [Z.eqb]. by destruct (length line <? 127)%nat. Qed.

Lemma key_event_shows sc s t :
  kbd_wf (k_kbd s) -> cursor_ok s -> 0 <= sc < 256 ->
  spec_key sc (ed_of (k_kbd s)) (view s) = Some t -> shows s t (key_event sc s).
Proof.
  intros Hok Hc Hsc Hs. pose proof Hok as (_ & _ & Hks).
  destruct (status_spec sc (key_status (k_kbd s)) Hsc Hks) as (_ & _ & Et & Hr).
  unfold spec_key in Hs. cbn [ed_of ed_mods ctrl mods_of] in Hs. rewrite <- Et in Hs. clear Et.
  assert (Hbit : Z.testbit (key_status (k_kbd s)) 2 = negb (Z.land (key_status (k_kbd s)) 4 =? 0)).
  { clear -Hks. generalize dependent (key_status (k_kbd s)). intros ks Hks.
    pose proof (forallb_below (fun ks => Bool.eqb (Z.testbit ks 2) (negb (Z.land ks 4 =? 0)))
      64 ltac:(vm_compute; reflexivity) ks ltac:(lia)) as T. by apply Bool.eqb_prop. }
  rewrite Hbit in Hs. unfold typed in Hs, Hr. unfold key_event, key_up, key_down.
  set (ks := key_status (k_kbd s)) in *. cbv zeta.
  assert (Q : forall v, spec_echo 0 (ed_line (ed_of (k_kbd s))) (view s) = Some t -> shows s t (set_key_status v s)).
  { intros v H. rewrite spec_echo_0 in H. simplify_eq. by apply shows_kbd, shows_refl. }
  destruct (negb (Z.land sc 128 =? 0)) eqn:E7.
  { destruct (Z.eqb_spec sc 38) as [->|]; [done|]. rewrite andb_false_r in Hs. rewrite spec_echo_0 in Hs. simplify_eq.
    repeat split_if; by repeat (apply shows_kbd || apply shows_refl). }
  destruct ((sc =? 42) || (sc =? 54)) eqn:E1.
  { destruct (Z.eqb_spec sc 38) as [->|]; [done|]. rewrite andb_false_r in Hs. cbn [orb] in Hs. by apply Q. }
  destruct (Z.eqb_spec sc 58) as [->|N1]; [rewrite andb_false_r in Hs; split_if; by apply Q|].
  destruct (Z.eqb_spec sc 29) as [->|N2]; [rewrite andb_false_r in Hs; by apply Q|].
  destruct (Z.eqb_spec sc 56) as [->|N3]; [rewrite andb_false_r in Hs; by apply Q|].
  destruct (Z.eqb_spec sc 69) as [->|N4]; [rewrite andb_false_r in Hs; split_if; by apply Q|].
  destruct (Z.eqb_spec sc 70) as [->|N5]; [rewrite andb_false_r in Hs; split_if; by apply Q|].
  cbn [orb] in Hs, Hr. destruct (negb (Z.land ks 4 =? 0) && (sc =? 38)).
  - simplify_eq. split_and!; [|done|apply draws_echoes, clear_term_draws].
    split; [done|]. intros i Hi. by apply clear_term_chr.
  - by apply shows_typed.
Qed.

End Echo.

Section HandlerEcho.
Context `{D : Device}.
Implicit Types s : kst.

(** Screens that look the same are echoed to the same way. *)
Lemma spec_key_proper sc e t u t' :
  scr_eq t u -> spec_key sc e t = Some t' -> exists u', spec_key sc e u = Some u' /\ scr_eq t' u'.
Proof.
  intros E. unfold spec_key, spec_echo. destruct (_ && _); [intros [= <-]; by eexists|].
  assert (P : forall c, spec_putc c t = Some t' -> exists u', spec_putc c u = Some u' /\ scr_eq t' u').
  { intros c H. destruct (spec_puts_proper [c] t u t' E) as (u' & Hu & E'); [simpl; by rewrite H|].
    exists u'. split; [|done]. simpl in Hu. by destruct (spec_putc c u). }
  split_if; [destruct (ed_line e); [intros [= <-]; by eexists|by apply spec_puts_proper]|].
  split_if; [by apply spec_puts_proper|]. split_if; [apply P|]. intros [= <-]. by eexists.
Qed.

Lemma keyboard_handler_shows s t :
  let sc := u8 (dev_in (k_io s) KEYBOARD_DATA_PORT) in
  kbd_wf (k_kbd s) -> cursor_ok s -> spec_key sc (ed_of (k_kbd s)) (view s) = Some t ->
  shows s t (keyboard_handler s).
Proof.
  intros sc Hok Hc Hs. unfold keyboard_handler, inb. fold sc.
  set (s1 := set_io (In KEYBOARD_DATA_PORT sc :: k_io s) s).
  destruct (key_event_shows sc s1 t Hok Hc (u8_range _) Hs) as (V & C & E).
  generalize dependent (key_event sc s1). intros s2 V C E. split_and!; [exact V|exact C|].
  transitivity s1; [by split; [apply only_io_input|apply only_changes_refl]|].
  etrans; [exact E|]. apply draws_echoes, draws_io, send_eoi_only_io.
Qed.

(** C24: the keyboard interrupt handler refines the line editor: for every scancode the
    device delivers, the modifier keys and the line under construction change as the
    specification says (letters by shift xor caps lock, Backspace, at most 127
    characters); Enter leaves the finished line with its newline at the front of the
    128-byte buffer and raises [enterpress]; the index stays inside the buffer; the
    screen changes as the specification of the echo says; and outside the screen and the
    keyboard's variables nothing changes. *)
Theorem keyboard_handler_refines s :
  kbd_ok (k_kbd s) ->
  let sc := u8 (dev_in (k_io s) KEYBOARD_DATA_PORT) in
  let '(e', out) := ed_step sc (ed_of (k_kbd s)) in
  let k' := k_kbd (keyboard_handler s) in
  only_input s (keyboard_handler s) /\ kbd_ok k' /\ ed_of k' = e' /\
  match out with
  | None => enterpress k' = enterpress (k_kbd s)
  | Some l => enterpress k' = 1 /\ keyboard_buffer_index k' = 0 /\
      (length l <= 128)%nat /\ take (length l) (keyboard_buffer k') = l
  end /\
  forall t, cursor_ok s -> spec_key sc (ed_of (k_kbd s)) (view s) = Some t -> shows s t (keyboard_handler s).
Proof.
  intros Hok sc. destruct (keyboard_handler_event s) as (F & _ & E). specialize (E (kbd_ok_wf _ Hok)). fold sc in E.
  pose proof (key_event_refines sc s Hok (u8_range _)) as R.
  destruct (ed_step sc _) as [e' out]. cbv zeta in *. rewrite E. destruct R as (R1 & R2 & R3).
  split_and!; try done. intros t. by apply keyboard_handler_shows, kbd_ok_wf.
Qed.

End HandlerEcho.

#[global] Arguments key_event : simpl never.
#[global] Arguments keyboard_handler {D} : simpl never.
