(* ===== verification/Irq.v ===== *)
(** * Interrupt delivery (handler_wrapper.S) and waiting for the clock

    The instance of [Interrupts] the kernel has: an interrupt gate clears IF, the
    wrapper saves the registers and flags, calls the C handler and restores them with
    [iret].  Against it, [rtc_read] is shown to return at exactly the tick it should. *)

From stdpp Require Import base list numbers gmap.
From Stdlib Require Import ZArith Lia.
From S2P Require Import Prelude Mem State Pic Console Rtc Keyboard.

Definition is_rtc (i : irq) : bool := match i with IRQ_rtc => true | IRQ_keyboard => false end.

Fixpoint count_rtc (q : list irq) : Z :=
  match q with [] => 0 | i :: q' => (if is_rtc i then 1 else 0) + count_rtc q' end.

Fixpoint count_kbd (q : list irq) : nat :=
  match q with [] => O | i :: q' => ((if is_rtc i then 0 else 1) + count_kbd q')%nat end.

Section Irq.
Context `{D : Device}.
Implicit Types s : kst.

Definition rtc_handler_wrapper (s : kst) : kst := set_if (k_if s) (rtc_handler (set_if false s)).

Definition keyboard_handler_wrapper (s : kst) : kst :=
  set_if (k_if s) (keyboard_handler (set_if false s)).

#[export] Instance kernel_irqs : Interrupts := fun i =>
  match i with
  | IRQ_keyboard => keyboard_handler_wrapper
  | IRQ_rtc => rtc_handler_wrapper
  end.

Lemma rtc_wrapper_frame s :
  let s' := rtc_handler_wrapper s in
  s' = set_rtc (k_rtc s') (set_io (k_io s') s) /\ kbd_log (k_io s') = kbd_log (k_io s) /\
  (rtc_ok s -> k_rtc s' = k_rtc (rtc_handler s)).
Proof.
  unfold rtc_handler_wrapper. split_and!.
  - unfold rtc_handler, send_eoi. simpl. by destruct (_ <=? _).
  - unfold rtc_handler, send_eoi. simpl. by destruct (_ <=? _).
  - intros Hok. change (k_rtc (rtc_handler (set_if false s)) = k_rtc (rtc_handler s)).
    by rewrite !rtc_handler_rtc.
Qed.

Lemma keyboard_wrapper_frame s :
  let s' := keyboard_handler_wrapper s in
  let sc := u8 (dev_in (k_io s) KEYBOARD_DATA_PORT) in
  only_input s s' /\ kbd_log (k_io s') = sc :: kbd_log (k_io s) /\
  (kbd_wf (k_kbd s) -> k_kbd s' = k_kbd (keyboard_handler s)).
Proof.
  intros s' sc. destruct (keyboard_handler_event (set_if false s)) as ([E M] & L & K).
  destruct (keyboard_handler_event s) as (_ & _ & K').
  unfold s', keyboard_handler_wrapper. clear s'. split_and!.
  - split; [|done]. rewrite E. by destruct s.
  - done.
  - intros Hok. change (k_kbd (keyboard_handler (set_if false s)) = k_kbd (keyboard_handler s)).
    rewrite K', K by done. pose proof Hok as (Hi & _). by rewrite !k_kbd_event.
Qed.

(** The flag [rtc_read] waits for. *)
Definition ticked (s : kst) : bool := negb (rtc_interrupt_occurred (k_rtc s) =? 0).

(** An interrupt other than the tick that wraps the counter leaves the waiter waiting,
    with the counter advanced by the clock interrupts. *)
Lemma deliver_before_tick i q s :
  let c := if is_rtc i then 1 else 0 in
  let s' := deliver i (set_irqs q s) in
  rtc_ok s -> rtc_interrupt_occurred (k_rtc s) = 0 -> k_if s = true ->
  c < rtc_max_count (k_rtc s) - rtc_counter (k_rtc s) ->
  rtc_ok s' /\ k_if s' = true /\ k_pcbs s' = k_pcbs s /\ k_rtc s' =
    mkRtc 0 (rtc_counter (k_rtc s) + c) (rtc_max_count (k_rtc s)).
Proof.
  intros c s' Hok H0 Hi Hc. destruct i; simpl in c; subst c; unfold s', deliver, kernel_irqs; clear s'.
  - destruct (keyboard_wrapper_frame (set_irqs q s)) as ([E _] & _).
    generalize dependent (keyboard_handler_wrapper (set_irqs q s)). intros t E. rewrite E. simpl.
    split_and!; try done. rewrite Z.add_0_r, <- H0. by destruct (k_rtc s).
  - destruct (rtc_wrapper_frame (set_irqs q s)) as (E & _ & R). specialize (R Hok).
    pose proof (rtc_handler_ok (set_irqs q s) Hok) as Hok'. unfold rtc_ok in Hok'.
    rewrite <- R in Hok'. rewrite rtc_handler_rtc in R by done.
    cbn [k_rtc set_irqs] in R. rewrite (proj2 (Z.leb_gt _ _)), H0 in R by lia.
    generalize dependent (rtc_handler_wrapper (set_irqs q s)). intros t E Hok' R.
    split_and!; [done|by rewrite E|by rewrite E|done].
Qed.

Lemma count_rtc_nonneg q : 0 <= count_rtc q.
Proof. induction q as [|[] q IH]; simpl; lia. Qed.

Lemma spin_step cond i q s :
  cond s = false -> k_if s = true ->
  spin_until cond (i :: q) s = spin_until cond q (deliver i (set_irqs q s)).
Proof. intros Hc Hi. simpl. by rewrite Hc, Hi. Qed.

(** Until the tick that wraps the counter, the interrupts of a queue are all taken. *)
Lemma wait_tick q q2 s :
  rtc_ok s -> rtc_interrupt_occurred (k_rtc s) = 0 -> k_if s = true ->
  count_rtc q < rtc_max_count (k_rtc s) - rtc_counter (k_rtc s) ->
  exists s1, spin_until ticked (q ++ q2) s = spin_until ticked q2 s1 /\
    rtc_ok s1 /\ k_if s1 = true /\ k_pcbs s1 = k_pcbs s /\
    k_rtc s1 = mkRtc 0 (rtc_counter (k_rtc s) + count_rtc q) (rtc_max_count (k_rtc s)).
Proof.
  revert s. induction q as [|i q IH]; intros s Hok H0 Hi Hc.
  - exists s. simpl. rewrite Z.add_0_r, <- H0. split_and!; try done. by destruct (k_rtc s).
  - change (count_rtc (i :: q)) with ((if is_rtc i then 1 else 0) + count_rtc q) in *.
    pose proof (count_rtc_nonneg q).
    destruct (deliver_before_tick i (q ++ q2) s) as (Ok1 & I1 & P1 & R1); try done; [lia|].
    destruct (IH (deliver i (set_irqs (q ++ q2) s))) as (s1 & E1 & Ok2 & I2 & P2 & R2);
      rewrite ?R1; cbn [rtc_interrupt_occurred rtc_counter rtc_max_count]; try done; [lia|].
    rewrite R1 in R2. cbn [rtc_interrupt_occurred rtc_counter rtc_max_count] in R2.
    exists s1. split_and!; [|done|done|congruence|by rewrite R2, Z.add_assoc].
    rewrite <- E1. change ((i :: q) ++ q2) with (i :: (q ++ q2)). apply spin_step; [|done].
    unfold ticked. by rewrite H0.
Qed.


(** A wait while only the clock interrupts. *)
Definition clock_only (s s' : kst) : Prop :=
  s' = set_rtc (k_rtc s') (set_io (k_io s') (set_irqs (k_irqs s') (set_if (k_if s') s))).

Lemma clock_only_trans s1 s2 s3 : clock_only s1 s2 -> clock_only s2 s3 -> clock_only s1 s3.
Proof. unfold clock_only. intros H1 H2. rewrite H2, H1 at 1. done. Qed.

Lemma spin_clock n s :
  rtc_ok s -> rtc_interrupt_occurred (k_rtc s) = 0 -> k_if s = true ->
  let d := rtc_max_count (k_rtc s) - rtc_counter (k_rtc s) in
  if Z.of_nat n <? d
  then exists s', spin_until ticked (replicate n IRQ_rtc) s = Blocked s' /\ clock_only s s'
  else exists s', spin_until ticked (replicate n IRQ_rtc) s = Ret tt s' /\ clock_only s s' /\
    k_irqs s' = replicate (n - Z.to_nat d) IRQ_rtc /\ k_rtc s' = mkRtc 1 0 (rtc_max_count (k_rtc s)).
Proof.
  revert s. induction n as [|n IH]; intros s Hok H0 Hi d.
  { destruct Hok as [Hc _]. rewrite (proj2 (Z.ltb_lt _ _)) by (unfold d; lia). exists s. split; [|by destruct s].
    simpl. unfold ticked. by rewrite H0, Hi. }
  cbn [replicate]. rewrite spin_step by (done || by unfold ticked; rewrite H0).
  set (s1 := deliver IRQ_rtc (set_irqs (replicate n IRQ_rtc) s)).
  destruct (rtc_wrapper_frame (set_irqs (replicate n IRQ_rtc) s)) as (E1 & _ & R1). specialize (R1 Hok).
  change (rtc_handler_wrapper _) with s1 in E1, R1. rewrite rtc_handler_rtc in R1 by done.
  cbn [k_rtc set_irqs] in R1. clearbody s1. revert E1. generalize (k_io s1). intros io E1.
  assert (C1 : clock_only s s1) by (rewrite E1; by destruct s). assert (I1 : k_if s1 = true) by (by rewrite E1).
  clear E1 io. destruct Hok as [Hc Hf].
  destruct (Z.leb_spec (rtc_max_count (k_rtc s)) (rtc_counter (k_rtc s) + 1)) as [Hm|Hm].
  - rewrite (proj2 (Z.ltb_ge _ _)) by (unfold d; lia). exists (set_irqs (replicate n IRQ_rtc) s1).
    assert (Ht : ticked s1 = true) by (unfold ticked; by rewrite R1).
    split; [destruct n; simpl; by rewrite Ht|]. split; [eapply clock_only_trans; [exact C1|by destruct s1]|].
    split; [|done]. replace (S n - Z.to_nat d)%nat with n by (unfold d; lia). done.
  - assert (Ok1 : rtc_ok s1) by (split; rewrite R1; cbn [rtc_counter rtc_max_count]; [lia|done]).
    specialize (IH s1 Ok1). rewrite R1 in IH. cbn [rtc_interrupt_occurred rtc_counter rtc_max_count] in IH.
    specialize (IH H0 I1). cbv zeta in IH.
    destruct (Z.ltb_spec (Z.of_nat n) (rtc_max_count (k_rtc s) - (rtc_counter (k_rtc s) + 1))) as [Hn|Hn].
    + rewrite (proj2 (Z.ltb_lt _ _)) by (unfold d; lia). destruct IH as (s' & E & C). exists s'.
      split; [done|by eapply clock_only_trans].
    + rewrite (proj2 (Z.ltb_ge _ _)) by (unfold d; lia). destruct IH as (s' & E & C & Q & R). exists s'.
      split; [done|]. split; [by eapply clock_only_trans|]. split; [|done]. rewrite Q. f_equal. unfold d. lia.
Qed.

Lemma rtc_read_clock fd buf nbytes n s :
  buf <> 0 -> rtc_ok s -> rtc_interrupt_occurred (k_rtc s) = 0 -> k_irqs s = replicate n IRQ_rtc ->
  let d := rtc_max_count (k_rtc s) - rtc_counter (k_rtc s) in
  if Z.of_nat n <? d
  then exists s', rtc_read fd buf nbytes s = Blocked s' /\ clock_only s s'
  else exists s', rtc_read fd buf nbytes s = Ret 0 s' /\ clock_only s s' /\
    k_irqs s' = replicate (n - Z.to_nat d) IRQ_rtc /\ k_rtc s' = mkRtc 0 0 (rtc_max_count (k_rtc s)).
Proof.
  intros Hb Hok H0 Hq d. unfold rtc_read. rewrite (proj2 (Z.eqb_neq buf 0)) by done.
  unfold kbind, kmod, busy_wait. change (fun s => negb _) with ticked. change (k_irqs (sti s)) with (k_irqs s).
  rewrite Hq. pose proof (spin_clock n (sti s) Hok H0 eq_refl) as H. cbv zeta in H.
  change (rtc_max_count (k_rtc (sti s)) - rtc_counter (k_rtc (sti s))) with d in H.
  destruct (Z.of_nat n <? d).
  - destruct H as (s' & -> & C). exists s'. split; [done|]. rewrite C. by destruct s.
  - destruct H as (s' & -> & C & Q & R). exists (set_occurred 0 s'). split; [done|]. split; [rewrite C; by destruct s|].
    split; [done|]. unfold set_occurred. simpl. by rewrite R.
Qed.

End Irq.
