(* ===== verification/Terminal.v ===== *)
(** * The terminal driver (terminal.c)

    Reading a line waits for Enter and copies the keyboard buffer up to the newline to
    the caller; writing draws every byte with interrupts off.  The main theorem runs
    the wait against the keyboard's interrupt handler: what the user types, edited by
    the line editor of Keyboard.v, is what the program reads. *)

From stdpp Require Import base list numbers gmap.
From Stdlib Require Import ZArith Lia.
From S2P Require Import Prelude Mem LibStr State Pic Console Rtc Keyboard Irq.

(** [for (i = 0; i < 128; i++) if (keyboard_buffer[i] == '\n') break;] with [k]
    iterations left. *)
Fixpoint scan_newline (k : nat) (b : list Z) (i : Z) : Z :=
  match k with
  | O => i
  | S k' => if zget 0 b i =? 10 then i else scan_newline k' b (i + 1)
  end.

Definition set_kbd_buffer (b : list Z) (s : kst) : kst :=
  set_kbd (mkKbd b (keyboard_buffer_index (k_kbd s)) (key_status (k_kbd s))
                 (enterpress (k_kbd s))) s.

Section Terminal.
Context `{I : Interrupts}.

Definition entered (s : kst) : bool := negb (enterpress (k_kbd s) =? 0).

(** [nbytes] is clamped to 128 and then not used. *)
Definition terminal_read (fd buf nbytes : Z) : K Z :=
  (if (buf =? 0)%Z then kret (-1)
   else
     kmod sti ;;
     busy_wait entered ;;
     i <- (fun s => Ret (scan_newline 128 (keyboard_buffer (k_kbd s)) 0) s) ;;
     kmod (fun s =>
       set_mem (strncpy buf (fun _ => at_ (keyboard_buffer (k_kbd s)) 0) (i + 1) (k_mem s)) s) ;;
     kmod (fun s => set_kbd_buffer (memset 0 0 128 (keyboard_buffer (k_kbd s))) s) ;;
     kmod (set_enterpress 0) ;;
     kmod cli ;;
     kret (i + 1)%Z)%kernel.

Definition terminal_write (fd buf nbytes : Z) (s : kst) : Z * kst :=
  let s := cli s in
  if (nbytes <=? 0) || (buf =? 0) then (-1, sti s)
  else
    let s := for_loop 0 nbytes (fun i s => putc_term (ldb (k_mem s) (buf + i)) s) s in
    (nbytes, sti s).

Definition terminal_open (filename : Z) (s : kst) : Z * kst := (0, clear_term s).
Definition terminal_close (fd : Z) (s : kst) : Z * kst := (0, s).
Definition terminal_open_fail (filename : Z) (s : kst) : Z * kst := (-1, s).
Definition terminal_close_fail (fd : Z) (s : kst) : Z * kst := (-1, s).

End Terminal.

(** ** Facts on the pieces *)

Section Pieces.

Lemma scan_newline_at k b i n :
  (n < k)%nat -> zget 0 b (i + Z.of_nat n) = 10 ->
  (forall j, 0 <= j < Z.of_nat n -> zget 0 b (i + j) <> 10) ->
  scan_newline k b i = i + Z.of_nat n.
Proof.
  revert k i. induction n as [|n IH]; intros [|k] i Hk Hn Hj; try lia; simpl.
  - rewrite Z.add_0_r in *. by rewrite (proj2 (Z.eqb_eq _ _)).
  - rewrite (proj2 (Z.eqb_neq _ _)).
    + rewrite IH; [lia|lia|by replace (i + 1 + Z.of_nat n) with (i + Z.of_nat (S n)) by lia|].
      intros j Hj'. replace (i + 1 + j) with (i + (1 + j)) by lia. apply Hj. lia.
    + specialize (Hj 0 ltac:(lia)). by rewrite Z.add_0_r in Hj.
Qed.

Lemma zget_take (d : Z) l n i : 0 <= i < Z.of_nat n -> zget d (take n l) i = zget d l i.
Proof.
  intros Hi. unfold zget. split_if; [done|]. rewrite lookup_take_lt by lia. done.
Qed.

Lemma zget_app_l (d : Z) l1 l2 i : 0 <= i < Z.of_nat (length l1) -> zget d (l1 ++ l2) i = zget d l1 i.
Proof. intros Hi. unfold zget. split_if; [done|]. by rewrite lookup_app_l by lia. Qed.

Lemma zget_app_r (d : Z) l1 l2 i : 0 <= i -> zget d (l1 ++ l2) (Z.of_nat (length l1) + i) = zget d l2 i.
Proof.
  intros Hi. unfold zget. rewrite !(proj2 (Z.ltb_ge _ _)) by lia. rewrite lookup_app_r by lia. do 2 f_equal. lia.
Qed.

Lemma zget_snoc (d : Z) l x : zget d (l ++ [x]) (Z.of_nat (length l)) = x.
Proof.
  unfold zget. rewrite (proj2 (Z.ltb_ge _ _)), Nat2Z.id by lia.
  rewrite lookup_app_r, Nat.sub_diag by lia. done.
Qed.

(** A buffer that begins with a finished line: the scan stops at its newline. *)
Lemma scan_line b l :
  (length l < 128)%nat -> take (S (length l)) b = l ++ [10] ->
  Forall (fun c => 0 < c < 128 /\ c <> 10) l ->
  scan_newline 128 b 0 = Z.of_nat (length l).
Proof.
  intros Hl Hb Hn.
  assert (G : forall i, 0 <= i < Z.of_nat (S (length l)) -> zget 0 b i = zget 0 (l ++ [10]) i).
  { intros i Hi. rewrite <- Hb. by rewrite zget_take. }
  rewrite (scan_newline_at 128 b 0 (length l)); [lia|done| |].
  - rewrite Z.add_0_l, G by lia. apply zget_snoc.
  - intros j Hj. rewrite Z.add_0_l, G, zget_app_l by lia.
    unfold zget. rewrite (proj2 (Z.ltb_ge _ _)) by lia.
    destruct (lookup_lt_is_Some_2 l (Z.to_nat j)) as [x Hx]; [lia|]. rewrite Hx. simpl.
    eapply Forall_lookup_1 in Hn; [|exact Hx]. lia.
Qed.

(** Clearing the buffer. *)
Lemma memset_buffer b :
  length b = 128%nat ->
  length (memset 0 0 128 b) = 128%nat /\
  forall i, 0 <= i < 128 -> ldb (memset 0 0 128 b) i = 0.
Proof.
  intros Hl.
  destruct (memset_filled 0 0 128 b) as [Hc F]; try lia.
  { apply arr_region; lia. }
  split; [by rewrite (only_changes_length _ _ _ _ Hc)|].
  intros i Hi. specialize (F i Hi). rewrite Z.add_0_l in F. exact F.
Qed.

Lemma edit_out c line line' l : edit c line = (line', Some l) -> l = line ++ [10] /\ line' = [].
Proof. unfold edit. repeat split_if; naive_solver. Qed.

Lemma ed_step_out sc e e' l : ed_step sc e = (e', Some l) -> l = ed_line e ++ [10].
Proof.
  unfold ed_step. destruct (edit _ _) as [line' out] eqn:E. intros [= <- ->].
  by apply edit_out in E as [-> _].
Qed.

End Pieces.

(** ** What the user types *)

(** The first line finished by a sequence of scancodes: how many scancodes it takes,
    the line, and the editor afterwards. *)
Fixpoint first_line (scs : list Z) (e : editor) : option (nat * list Z * editor) :=
  match scs with
  | [] => None
  | sc :: scs' =>
      match ed_step sc e with
      | (e', Some l) => Some (1%nat, l, e')
      | (e', None) =>
          match first_line scs' e' with
          | Some (n, l, e'') => Some (S n, l, e'')
          | None => None
          end
      end
  end.

Lemma removelast_length (l : list Z) : (length (removelast l) <= length l)%nat.
Proof. induction l as [|x [|y l] IH]; simpl in *; lia. Qed.

(** A line has at most 127 characters and a newline, and none of them is NUL. *)
Lemma first_line_length scs e n l e' :
  (length (ed_line e) <= 127)%nat -> Forall (fun c => c <> 0) (ed_line e) ->
  first_line scs e = Some (n, l, e') ->
  (1 <= length l <= 128)%nat /\ Forall (fun c => c <> 0) l.
Proof.
  revert e n. induction scs as [|sc scs IH]; intros e n He Hz; simpl; [done|].
  destruct (ed_step sc e) as [e1 [l1|]] eqn:Es.
  - intros [= <- <- <-]. rewrite (ed_step_out _ _ _ _ Es), length_app. simpl. split; [lia|].
    apply Forall_app. split; [done|by repeat constructor].
  - destruct (first_line scs e1) as [[[n1 l1] e2]|] eqn:Ef; [|done]. intros [= <- <- <-].
    pose proof (removelast_length (ed_line e)) as Hr.
    assert (H : (length (ed_line e1) <= 127)%nat /\ Forall (fun c => c <> 0) (ed_line e1)).
    { unfold ed_step, edit in Es. destruct (Z.eqb_spec (spec_typed sc (ed_mods e)) 0); [by simplify_eq|].
      repeat case_match; simplify_eq; simpl; try done.
      - split; [lia|]. by rewrite removelast_firstn_len; apply Forall_take.
      - rewrite length_app, Forall_app. simpl. rewrite Nat.ltb_lt in *. split; [lia|]. by repeat constructor. }
    destruct H. by eapply IH.
Qed.

(** The screen when that line is finished. *)
Fixpoint typed_screen (scs : list Z) (e : editor) (t : scr) : option scr :=
  match scs with
  | [] => None
  | sc :: scs' =>
      match spec_key sc e t with
      | None => None
      | Some t' =>
          match ed_step sc e with
          | (_, Some _) => Some t'
          | (e', None) => typed_screen scs' e' t'
          end
      end
  end.

(** A keyboard whose data port delivers the scancodes [scs], one per read. *)
Class KeyboardDevice `{D : Device} (scs : list Z) : Prop := {
  kbd_bytes : Forall (fun c => 0 <= c < 256) scs;
  kbd_reads : forall log,
    dev_in log KEYBOARD_DATA_PORT = zget 0 scs (Z.of_nat (length (kbd_log log)))
}.

(** The scancodes not read yet. *)
Definition pending (scs : list Z) (s : kst) : list Z := drop (length (kbd_log (k_io s))) scs.

Section Reading.
Context `{D : Device}.
Implicit Types s : kst.

(** What waiting for a line may change. *)
Definition waiting (s s' : kst) : Prop :=
  k_if s' = k_if s /\ k_pcbs s' = k_pcbs s /\ k_pg s' = k_pg s /\ k_esp s' = k_esp s /\
  k_boot s' = k_boot s /\ k_tss s' = k_tss s /\ same_map (k_mem s) (k_mem s').

#[export] Instance waiting_preorder : PreOrder waiting.
Proof.
  unfold waiting. split; red; intros; [split_and!; reflexivity|].
  destruct_and!. split_and!; try congruence. by etrans.
Qed.

Lemma waiting_deliver i q s : waiting s (deliver i (set_irqs q s)).
Proof.
  unfold deliver, kernel_irqs. destruct i.
  - destruct (keyboard_wrapper_frame (set_irqs q s)) as ([E M] & _).
    unfold waiting. rewrite E. by split_and!.
  - destruct (rtc_wrapper_frame (set_irqs q s)) as (E & _). unfold waiting. by rewrite E.
Qed.

Context (scs : list Z) `{KD : !KeyboardDevice scs}.

Lemma pending_read q s sc rest :
  pending scs s = sc :: rest ->
  scs !! length (kbd_log (k_io s)) = Some sc /\
  u8 (dev_in (k_io (set_irqs q s)) KEYBOARD_DATA_PORT) = sc.
Proof.
  intros Hp. assert (Hl : scs !! length (kbd_log (k_io s)) = Some sc).
  { unfold pending in Hp. rewrite <- (Nat.add_0_r (length _)), <- lookup_drop, Hp. done. }
  split; [done|]. rewrite kbd_reads. unfold zget. rewrite (proj2 (Z.ltb_ge _ _)), Nat2Z.id by lia.
  cbn [k_io set_irqs]. rewrite Hl. simpl. apply u8_small.
  by eapply Forall_lookup_1 in Hl; [|apply kbd_bytes].
Qed.

(** What the screen shows: [t], and no other memory has changed since [s]. *)
Definition screen (s : kst) (t : scr) (s' : kst) : Prop :=
  scr_eq (view s') t /\ cursor_ok s' /\ only_changes (k_mem s) (k_mem s') VIDEO 4000.

Lemma screen_trans s1 t2 s2 t3 s3 : screen s1 t2 s2 -> screen s2 t3 s3 -> screen s1 t3 s3.
Proof. intros (_ & _ & C) (V & K & C'). split_and!; [done|done|by eapply only_changes_trans]. Qed.

Lemma deliver_key_shows q s sc rest t t' :
  kbd_ok (k_kbd s) -> pending scs s = sc :: rest -> cursor_ok s -> scr_eq (view s) t ->
  spec_key sc (ed_of (k_kbd s)) t = Some t' -> screen s t' (deliver IRQ_keyboard (set_irqs q s)).
Proof.
  intros Hok Hp Hc V Hs. destruct (pending_read q s sc rest Hp) as [_ Hsc].
  destruct (spec_key_proper _ _ t (view s) t' (symmetry V) Hs) as (u & Hu & Eu). rewrite <- Hsc in Hu.
  destruct (keyboard_handler_shows (set_if false (set_irqs q s)) u (kbd_ok_wf _ Hok) Hc Hu) as (V' & C' & [_ E']).
  split_and!; [by rewrite Eu|exact C'|exact E'].
Qed.

Lemma deliver_tick_shows q s t :
  cursor_ok s -> scr_eq (view s) t -> screen s t (deliver IRQ_rtc (set_irqs q s)).
Proof.
  intros Hc V. unfold deliver, kernel_irqs. destruct (rtc_wrapper_frame (set_irqs q s)) as (E & _).
  generalize dependent (rtc_handler_wrapper (set_irqs q s)). intros s' E. rewrite E.
  split_and!; [exact V|exact Hc|apply only_changes_refl].
Qed.

(** A keyboard interrupt performs the editor's step for the next scancode. *)
Lemma deliver_key q s sc rest :
  kbd_ok (k_kbd s) -> pending scs s = sc :: rest ->
  let s' := deliver IRQ_keyboard (set_irqs q s) in
  let '(e', out) := ed_step sc (ed_of (k_kbd s)) in
  pending scs s' = rest /\ kbd_ok (k_kbd s') /\ ed_of (k_kbd s') = e' /\
  match out with
  | None => enterpress (k_kbd s') = enterpress (k_kbd s)
  | Some l => enterpress (k_kbd s') = 1 /\ keyboard_buffer_index (k_kbd s') = 0 /\
      (length l <= 128)%nat /\ take (length l) (keyboard_buffer (k_kbd s')) = l
  end.
Proof.
  intros Hok Hp s'. unfold s', deliver, kernel_irqs. clear s'.
  destruct (keyboard_wrapper_frame (set_irqs q s)) as (_ & L & K). specialize (K (kbd_ok_wf _ Hok)).
  destruct (keyboard_handler_event (set_irqs q s)) as (_ & _ & K'). rewrite (K' (kbd_ok_wf _ Hok)) in K. clear K'.
  destruct (pending_read q s sc rest Hp) as [Hl Hsc].
  assert (Hb : 0 <= sc < 256) by (rewrite <- Hsc; apply u8_range).
  rewrite Hsc in K, L.
  pose proof (key_event_refines sc (set_irqs q s) Hok Hb) as R.
  cbn [k_kbd set_irqs] in R. destruct (ed_step sc _) as [e' out]. cbv zeta in R.
  rewrite <- K in R. destruct R as (R1 & R2 & R3). split_and!; try done.
  unfold pending in *. rewrite L. cbn [k_io set_irqs length]. by apply drop_S in Hl; rewrite Hl in Hp; simplify_eq.
Qed.

Lemma deliver_tick q s :
  let s' := deliver IRQ_rtc (set_irqs q s) in
  k_kbd s' = k_kbd s /\ pending scs s' = pending scs s.
Proof.
  unfold deliver, kernel_irqs, pending.
  destruct (rtc_wrapper_frame (set_irqs q s)) as (E & L & _). cbv zeta. rewrite L. split; [|done].
  by rewrite E.
Qed.

Lemma wait_line q s n l e' :
  kbd_ok (k_kbd s) -> enterpress (k_kbd s) = 0 -> k_if s = true ->
  first_line (pending scs s) (ed_of (k_kbd s)) = Some (n, l, e') -> (n <= count_kbd q)%nat ->
  exists s1 q1 line, spin_until entered q s = Ret tt s1 /\ q = q1 ++ k_irqs s1 /\ count_kbd q1 = n /\
    waiting s s1 /\ kbd_ok (k_kbd s1) /\ ed_of (k_kbd s1) = e' /\ keyboard_buffer_index (k_kbd s1) = 0 /\
    l = line ++ [10] /\ (length line < 128)%nat /\
    Forall (fun c => 0 < c < 128 /\ c <> 10) line /\ 
    take (S (length line)) (keyboard_buffer (k_kbd s1)) = line ++ [10] /\
    pending scs s1 = drop n (pending scs s) /\
    forall t t', cursor_ok s -> scr_eq (view s) t ->
      typed_screen (pending scs s) (ed_of (k_kbd s)) t = Some t' -> screen s t' s1.
Proof.
  revert s n. induction q as [|i q IH]; intros s n Hok H0 Hif Hf Hn.
  { simpl in Hn. replace n with O in Hf by lia. exfalso. clear -Hf.
    destruct (pending scs s) as [|sc r]; simpl in Hf; [done|].
    destruct (ed_step _ _) as [e1 [|]]; [done|]. by destruct (first_line r e1) as [[[]]|]. }
  rewrite spin_step by (done || unfold entered; by rewrite H0).
  pose proof (waiting_deliver i q s) as W.
  assert (Hif' : k_if (deliver i (set_irqs q s)) = true) by (destruct W as [-> _]; done).
  destruct i; simpl in Hn.
  - destruct (pending scs s) as [|sc rest] eqn:Ep; [done|]. cbn [first_line] in Hf.
    pose proof (deliver_key q s sc rest Hok Ep) as DK. cbv zeta in DK.
    destruct (ed_step sc (ed_of (k_kbd s))) as [e1 [l1|]] eqn:Es.
    + simplify_eq. destruct DK as (Hp & Ok1 & Ee & En & Ei & Hl & Ht).
      pose proof (ed_step_out _ _ _ _ Es) as ->. rewrite length_app in Hl, Ht. cbn [length] in Hl, Ht.
      rewrite Nat.add_1_r in Ht.
      pose proof (fun t t' => deliver_key_shows q s sc rest t t' Hok Ep) as SK.
      set (s' := deliver IRQ_keyboard (set_irqs q s)) in *. clearbody s'.
      exists (set_irqs q s'), [IRQ_keyboard], (ed_line (ed_of (k_kbd s))).
      split_and!; [|done|done|exact W|done|done|done|done|lia|by destruct Hok as (_ & _ & _ & ?)|done|exact Hp|].
      { destruct q; simpl; unfold entered; by rewrite En. }
      intros t t' Hc V Ht'. cbn [typed_screen] in Ht'. rewrite Es in Ht'.
      destruct (spec_key sc (ed_of (k_kbd s)) t) as [u|] eqn:Eu; [|done]. simplify_eq.
      exact (SK t t' Hc V Eu).
    + destruct (first_line rest e1) as [[[n1 l1] e2]|] eqn:Ef; [|done]. simplify_eq.
      destruct DK as (Hp & Ok1 & Ee & En).
      destruct (IH (deliver IRQ_keyboard (set_irqs q s)) n1) as (s1 & q1 & line & E1 & Eq & Ec & W1 & R1 & R2 & R3 & R4 & R5 & R6 & R7 & Rp & R8);
        try done; [congruence|by rewrite Hp, Ee|lia|].
      exists s1, (IRQ_keyboard :: q1), line. rewrite E1.
      split_and!; try done; [by rewrite Eq at 1|simpl; lia|by etrans|by rewrite Rp, Hp|].
      intros t t' Hc V Ht'. cbn [typed_screen] in Ht'. rewrite Es in Ht'.
      destruct (spec_key sc (ed_of (k_kbd s)) t) as [u|] eqn:Eu; [|done].
      pose proof (deliver_key_shows q s sc rest t u Hok Ep Hc V Eu) as SK.
      eapply screen_trans; [exact SK|]. destruct SK as (V' & C' & _). apply (R8 u t'); [done|done|by rewrite Hp, Ee].
  - destruct (deliver_tick q s) as [Ek Ep]. cbv zeta in Ek, Ep.
    destruct (IH (deliver IRQ_rtc (set_irqs q s)) n) as (s1 & q1 & line & E1 & Eq & Ec & W1 & R1 & R2 & R3 & R4 & R5 & R6 & R7 & Rp & R8);
      rewrite ?Ek, ?Ep; try done.
    exists s1, (IRQ_rtc :: q1), line. rewrite E1. split_and!; try done; [by rewrite Eq at 1|by etrans|by rewrite Rp, Ep|].
    intros t t' Hc V Ht'. pose proof (deliver_tick_shows q s t Hc V) as ST.
    eapply screen_trans; [exact ST|]. destruct ST as (V' & C' & _). apply (R8 t t'); [done|done|by rewrite Ep, Ek].
Qed.

(** After the wait: the line is copied out and the buffer cleared. *)
Lemma copy_line (m : vmem) buf (b : list Z) line :
  region m buf (Z.of_nat (S (length line))) ->
  take (S (length line)) b = line ++ [10] ->
  Forall (fun c => 0 < c < 128 /\ c <> 10) line ->
  let m' := strncpy buf (fun _ => at_ b 0) (Z.of_nat (length line) + 1) m in
  bytes_at m' buf (S (length line)) = line ++ [10] /\
  only_changes m m' buf (Z.of_nat (S (length line))).
Proof.
  intros Hr Hb Hl m'. set (n := Z.of_nat (S (length line))) in *.
  assert (G : forall i, 0 <= i < n -> 0 < zget 0 b i < 128 /\ zget 0 b i = zget 0 (line ++ [10]) i).
  { intros i Hi. rewrite <- (zget_take 0 b (S (length line))) by done. rewrite Hb. split; [|done].
    unfold zget. rewrite (proj2 (Z.ltb_ge _ _)) by lia.
    destruct (lookup_lt_is_Some_2 (line ++ [10]) (Z.to_nat i)) as [x Hx];
      [rewrite length_app; simpl; lia|].
    rewrite Hx. simpl. eapply (Forall_lookup_1 (fun c => 0 < c < 128)); [|exact Hx].
    apply Forall_app. split; [|by repeat constructor]. eapply Forall_impl; [exact Hl|]. intros y Hy. simpl in Hy. lia. }
  assert (A : forall i, 0 <= i < n -> at_ b 0 i = zget 0 b i).
  { intros i Hi. unfold at_, ldb. simpl. rewrite Z.add_0_l. apply u8_small.
    destruct (G i Hi). lia. }
  assert (Hnz : forall j, 0 <= j < n -> at_ b 0 j <> 0).
  { intros j Hj. rewrite A by done. destruct (G j Hj). lia. }
  assert (Hn0 : 0 <= n <= n) by lia.
  destruct (strncpy_filled buf (fun _ => at_ b 0) n n m (at_ b 0) Hr Hn0
    (fun _ _ _ _ => eq_refl) Hnz (or_introl eq_refl)) as [F1 F2].
  assert (En : Z.of_nat (length line) + 1 = n) by lia. unfold m'. rewrite En. clear m'.
  set (m' := strncpy _ _ _ _) in *.
  rewrite Z.add_0_r, Z.sub_0_r in F1. split; [|done].
  apply (zlist_ext 0). { rewrite bytes_at_length, length_app. simpl. lia. }
  rewrite bytes_at_length. fold n. intros i Hi. rewrite bytes_at_get by exact Hi.
  rewrite (F2 i Hi).
  rewrite (proj2 (Z.ltb_lt _ _)), A by lia. destruct (G i Hi) as [Hz <-]. apply u8_small. lia.
Qed.

Lemma terminal_read_ok fd buf nbytes s n l e' :
  buf <> 0 -> kbd_ok (k_kbd s) -> enterpress (k_kbd s) = 0 ->
  first_line (pending scs s) (ed_of (k_kbd s)) = Some (n, l, e') ->
  (n <= count_kbd (k_irqs s))%nat -> region (k_mem s) buf (Z.of_nat (length l)) ->
  exists s' q1, terminal_read fd buf nbytes s = Ret (Z.of_nat (length l)) s' /\
    bytes_at (k_mem s') buf (length l) = l /\ (1 <= length l <= 128)%nat /\
    k_irqs s = q1 ++ k_irqs s' /\ count_kbd q1 = n /\
    kbd_ok (k_kbd s') /\ ed_of (k_kbd s') = e' /\ enterpress (k_kbd s') = 0 /\
    waiting (cli s) s' /\ pending scs s' = drop n (pending scs s) /\
    forall t, cursor_ok s -> apart (k_mem s) VIDEO 4000 buf (Z.of_nat (length l)) ->
      typed_screen (pending scs s) (ed_of (k_kbd s)) (view s) = Some t ->
      scr_eq (view s') t /\ cursor_ok s' /\
      exists m, only_changes (k_mem s) m VIDEO 4000 /\ only_changes m (k_mem s') buf (Z.of_nat (length l)).
Proof.
  intros Hb Hok H0 Hf Hn Hr. unfold terminal_read. rewrite (proj2 (Z.eqb_neq buf 0)) by done.
  destruct (wait_line (k_irqs s) (sti s) n l e') as
    (s1 & q1 & line & E1 & Eq & Ec & W & Ok1 & Ee & Ei & -> & Hl & Hfa & Ht & Hpend & Hscr); try done.
  unfold kbind, kmod, busy_wait. simpl k_irqs at 1. rewrite E1.
  rewrite (scan_line _ line Hl Ht Hfa). rewrite length_app, Nat.add_1_r in *. simpl length in *.
  destruct W as (_ & W1 & W2 & W3 & W4 & W5 & Wm).
  destruct (copy_line (k_mem s1) buf (keyboard_buffer (k_kbd s1)) line) as [B C]; try done.
  { by eapply same_map_region; [exact Wm|]. }
  pose proof (strncpy_pres (same_map (k_mem s1)) (fun st a v H => H) buf
    (fun _ => at_ (keyboard_buffer (k_kbd s1)) 0) (Z.of_nat (length line) + 1) (k_mem s1)
    (reflexivity _)) as Sm.
  set (m := strncpy _ _ _ _) in *. clearbody m.
  destruct Ok1 as (O1 & O2 & O3 & O4). destruct (memset_buffer _ O2) as [M1 _].
  eexists _, q1. split; [unfold kret; f_equal; lia|].
  change (keyboard_buffer (k_kbd (set_mem m s1))) with (keyboard_buffer (k_kbd s1)).
  generalize dependent (memset 0 0 128 (keyboard_buffer (k_kbd s1))). intros b' M1.
  split; [done|]. split; [lia|]. split; [done|]. split; [done|].
  assert (Ee' : ed_of (mkKbd b' (keyboard_buffer_index (k_kbd s1)) (key_status (k_kbd s1)) 0) = e')
    by (rewrite <- Ee; unfold ed_of; simpl; by rewrite Ei).
  split_and!; [|exact Ee'|done| |exact Hpend|].
  - split; [exact O1|]. split; [exact M1|]. split; [exact O3|]. change (Forall (fun c => 0 < c < 128 /\ c <> 10)
      (ed_line (ed_of (mkKbd b' (keyboard_buffer_index (k_kbd s1)) (key_status (k_kbd s1)) 0)))).
    by rewrite Ee', <- Ee.
  - unfold waiting. simpl. split_and!; try done. by etrans.
  - intros t Hc Ha Hs. destruct (Hscr (view s) t Hc (reflexivity _) Hs) as (V1 & C1 & Ov).
    split_and!; [|exact C1|by exists (k_mem s1)]. rewrite <- V1. split; [done|]. intros i Hi.
    eapply (only_changes_ldb (k_mem s1) m buf _ VIDEO 4000); [exact C| |lia].
    apply apart_sym. eapply apart_ext; [exact Ov|exact Ha].
Qed.


End Reading.

(** ** Writing *)

Section Writing.
Implicit Types s : kst.

Lemma spec_puts_app l1 l2 t :
  spec_puts (l1 ++ l2) t = match spec_puts l1 t with Some u => spec_puts l2 u | None => None end.
Proof.
  revert t. induction l1 as [|c l1 IH]; intros t; simpl; [done|]. destruct (spec_putc c t); auto.
Qed.

Lemma bytes_at_bytes (m : vmem) a n : Forall (fun c => 0 <= c < 256) (bytes_at m a n).
Proof.
  unfold bytes_at. apply Forall_map, Forall_true. intros i. apply (ldb_range m).
Qed.

Lemma bytes_at_take (m : vmem) a n k :
  (k < n)%nat -> take (S k) (bytes_at m a n) = take k (bytes_at m a n) ++ [ldb m (a + Z.of_nat k)].
Proof.
  intros Hk. apply take_S_r. unfold bytes_at.
  rewrite list_lookup_fmap, lookup_seq_lt by lia. done.
Qed.

(** The loop draws the bytes of the buffer as they were, as long as drawing the first
    ones does not change the others. *)
Lemma write_loop_bytes buf n s :
  let l := bytes_at (k_mem s) buf n in
  (forall i, (i < n)%nat ->
     ldb (k_mem (term_list (take i l) s)) (buf + Z.of_nat i) = ldb (k_mem s) (buf + Z.of_nat i)) ->
  for_loop 0 (Z.of_nat n) (fun i s => putc_term (ldb (k_mem s) (buf + i)) s) s = term_list l s.
Proof.
  intros l H. assert (L : length l = n) by apply bytes_at_length.
  assert (G : forall i u, i = Z.of_nat n -> u = term_list (take (Z.to_nat i) l) s ->
    u = term_list l s).
  { intros i u -> ->. rewrite Nat2Z.id, take_ge; [done|lia]. }
  eapply G; [done|].
  apply (for_loop_inv (fun i u => u = term_list (take (Z.to_nat i) l) s)); [lia|done|].
  intros i u Hi ->. replace (Z.to_nat (i + 1)) with (S (Z.to_nat i)) by lia.
  unfold l at 3. rewrite bytes_at_take by lia. fold l. unfold term_list at 3. rewrite fold_left_app.
  simpl. rewrite Z2Nat.id by lia. fold (term_list (take (Z.to_nat i) l) s).
  f_equal. specialize (H (Z.to_nat i) ltac:(lia)). by rewrite Z2Nat.id in H by lia.
Qed.

Lemma write_loop buf n s t :
  cursor_ok s -> apart (k_mem s) VIDEO 4000 buf (Z.of_nat n) ->
  spec_puts (bytes_at (k_mem s) buf n) (view s) = Some t ->
  for_loop 0 (Z.of_nat n) (fun i s => putc_term (ldb (k_mem s) (buf + i)) s) s =
    term_list (bytes_at (k_mem s) buf n) s.
Proof.
  intros Hok Ha Hs. apply write_loop_bytes. set (l := bytes_at (k_mem s) buf n) in *. intros i Hi.
  rewrite <- (take_drop i l), spec_puts_app in Hs.
  destruct (spec_puts (take i l) (view s)) as [u|] eqn:Eu; [|done].
  destruct (term_list_refines (take i l) s u) as (_ & _ & _ & D); try done.
  { apply Forall_take, bytes_at_bytes. }
  eapply only_changes_ldb; [exact D|exact Ha|lia].
Qed.

(** A write of a positive number of bytes. *)
Lemma terminal_write_ok fd buf nbytes s t :
  0 < nbytes -> buf <> 0 -> cursor_ok s -> apart (k_mem s) VIDEO 4000 buf nbytes ->
  spec_puts (bytes_at (k_mem s) buf (Z.to_nat nbytes)) (view s) = Some t ->
  exists s', terminal_write fd buf nbytes s = (nbytes, s') /\ scr_eq (view s') t /\ cursor_ok s' /\
    draws (set_if true s) s'.
Proof.
  intros Hn Hb Hok Ha Hs. unfold terminal_write.
  rewrite (proj2 (Z.leb_gt nbytes 0)), (proj2 (Z.eqb_neq buf 0)) by lia. cbn [orb].
  pose proof (write_loop buf (Z.to_nat nbytes) (cli s) t) as W.
  rewrite Z2Nat.id in W by lia. rewrite W by done. clear W.
  destruct (term_list_refines (bytes_at (k_mem (cli s)) buf (Z.to_nat nbytes)) (cli s) t) as (V & C & Dr);
    [done|apply bytes_at_bytes|done|].
  revert V C Dr. generalize (term_list (bytes_at (k_mem (cli s)) buf (Z.to_nat nbytes)) (cli s)).
  intros u V C Dr. exists (sti u). split; [done|]. split; [exact V|]. split; [exact C|].
  destruct Dr as [(E & L & M) O]. split; [|exact O]. split; [|done]. rewrite E. by destruct s.
Qed.

(** C23: writing [nbytes] bytes to the terminal returns [nbytes] and shows the bytes,
    position by position, as the linear screen says (line breaks, wrapping,
    scrolling, backspace), with the cursor left on the screen; nothing but the
    screen's memory, the cursor and the interrupt flag (set) changes.  A count that is
    not positive or a null buffer gives -1 and draws nothing. *)
Theorem terminal_write_shows fd buf nbytes s :
  let '(r, s') := terminal_write fd buf nbytes s in
  k_if s' = true /\
  ((nbytes <= 0 \/ buf = 0) -> r = -1 /\ s' = set_if true s) /\
  forall t, 0 < nbytes -> buf <> 0 -> cursor_ok s -> apart (k_mem s) VIDEO 4000 buf nbytes ->
    spec_puts (bytes_at (k_mem s) buf (Z.to_nat nbytes)) (view s) = Some t ->
    r = nbytes /\ scr_eq (view s') t /\ cursor_ok s' /\ draws (set_if true s) s'.
Proof.
  unfold terminal_write. destruct ((nbytes <=? 0) || (buf =? 0)) eqn:E.
  { split_and!; [done|done|]. intros. exfalso. lia. }
  split_and!; [done|intros; exfalso; lia|]. intros t Hn Hb Hok Ha Hs.
  destruct (terminal_write_ok fd buf nbytes s t) as (s' & W & V & C & Dr); try done.
  unfold terminal_write in W. rewrite E in W. by injection W as <-.
Qed.

End Writing.
