(* ===== verification/Paging.v ===== *)
(** * Paging (paging.c, paging.h)

    The page directory and the page table the kernel sets up, and the control
    registers.  [walk] is the processor's translation as the architecture manual
    gives it (4 MiB pages, one page table, present and user bits); the theorems show
    that the address map of Mem.v is what it computes, and that a program can reach
    its own frame and the video pages and nothing else. *)

From stdpp Require Import base list numbers gmap.
From Stdlib Require Import ZArith Lia.
From S2P Require Import Prelude Mem State Pic.

(** ** Bit fields of the entries *)

(** Assignment to a bit field of [width] bits at [pos]. *)
Definition set_bits (val pos width v : Z) : Z :=
  let mask := Z.ones width in
  u32 (Z.lor (Z.land val (Z.lnot (Z.shiftl mask pos))) (Z.shiftl (Z.land v mask) pos)).

Definition whole_p (val v : Z) : Z := set_bits val 0 1 v.
Definition whole_rw (val v : Z) : Z := set_bits val 1 1 v.
Definition whole_ps (val v : Z) : Z := set_bits val 7 1 v.
Definition whole_g (val v : Z) : Z := set_bits val 8 1 v.
Definition whole_add_22_31 (val v : Z) : Z := set_bits val 22 10 v.
Definition ptr_us (val v : Z) : Z := set_bits val 2 1 v.
Definition ent_add (val v : Z) : Z := set_bits val 12 20 v.

(** ** Operations *)

Definition set_pageDir (d : list Z) (s : kst) : kst :=
  let p := k_pg s in set_pg (mkPaging d (table p) (cr0 p) (cr3 p) (cr4 p)) s.
Definition set_table (t : list Z) (s : kst) : kst :=
  let p := k_pg s in set_pg (mkPaging (pageDir p) t (cr0 p) (cr3 p) (cr4 p)) s.
Definition set_crs (c0 c3 c4 : Z) (s : kst) : kst :=
  let p := k_pg s in set_pg (mkPaging (pageDir p) (table p) c0 c3 c4) s.

(** The physical base of the 128 MiB window in the directory. *)
Definition window_base (p : paging) : Z := Z.land (zget 0 (pageDir p) 32) 0xFFC00000.

(** A write to cr3 drops the cached translations. *)
Definition reload_tlb (s : kst) : kst :=
  let m := k_mem s in
  set_mem (mkVmem (phys m) (Z.testbit (cr0 (k_pg s)) 31) (window_base (k_pg s))) s.

Section Paging.
Context `{Sy : Symbols}.

Definition pageEnable (s : kst) : kst :=
  let s := set_crs (cr0 (k_pg s)) sym_pageDir (cr4 (k_pg s)) s in
  let s := set_crs (cr0 (k_pg s)) (cr3 (k_pg s)) (Z.lor (cr4 (k_pg s)) 0x10) s in
  let s := set_crs (Z.lor (cr0 (k_pg s)) 0x80000000) (cr3 (k_pg s)) (cr4 (k_pg s)) s in
  reload_tlb s.

Definition spawnDir (s : kst) : kst :=
  for_loop 0 1024 (fun i s => set_pageDir (zset (pageDir (k_pg s)) i 0) s) s.

Definition spawnTbl (s : kst) : kst :=
  for_loop 0 1024 (fun i s => set_table (zset (table (k_pg s)) i 0) s) s.

Definition page_init (s : kst) : kst :=
  let vidTable := Z.lor sym_table 3 in
  let kernel := 0 in
  let kernel := whole_p kernel 1 in
  let kernel := whole_rw kernel 1 in
  let kernel := whole_ps kernel 1 in
  let kernel := whole_g kernel 1 in
  let kernel := whole_add_22_31 kernel 0x1 in
  let s := spawnTbl s in
  let s := for_loop 0xB8 0xC0 (fun i s =>
    let vidPg := 0x7 in
    let vidPg := ent_add vidPg i in
    set_table (zset (table (k_pg s)) i vidPg) s) s in
  let s := spawnDir s in
  let s := set_pageDir (zset (pageDir (k_pg s)) 0 vidTable) s in
  let s := set_pageDir (zset (pageDir (k_pg s)) 1 kernel) s in
  let vidTable := ptr_us vidTable 1 in
  let s := set_pageDir (zset (pageDir (k_pg s)) 33 vidTable) s in
  pageEnable s.

Definition chgDir (idx e : Z) (s : kst) : kst := set_pageDir (zset (pageDir (k_pg s)) idx e) s.

Definition flushTLB (s : kst) : kst :=
  let s := set_crs (cr0 (k_pg s)) (cr3 (k_pg s)) (cr4 (k_pg s)) s in
  reload_tlb s.

(** The sequence of [sys_execute] and [sys_halt] that maps the frame of process [n]. *)
Definition map_program (n : Z) (s : kst) : kst :=
  let d := 7 in
  let d := whole_ps d 1 in
  let d := whole_add_22_31 d (Z.shiftr (u32 (0x00800000 + 0x00400000 * n)) 22) in
  flushTLB (chgDir 32 d s).

(** ** The processor's translation

    An access is a physical address with its user and write permissions. *)

Record access := mkAcc { acc_pa : Z; acc_user : bool; acc_write : bool }.

Definition walk (p : paging) (a : Z) : option access :=
  let a := u32 a in
  let pde := zget 0 (pageDir p) (Z.shiftr a 22) in
  if negb (Z.testbit (cr0 p) 31) then Some (mkAcc a true true)
  else if negb (Z.testbit pde 0) then None
  else if Z.testbit pde 7 && Z.testbit (cr4 p) 4 then
    Some (mkAcc (Z.land pde 0xFFC00000 + a mod 0x400000) (Z.testbit pde 2) (Z.testbit pde 1))
  else if Z.land pde 0xFFFFF000 =? sym_table then
    let pte := zget 0 (table p) (Z.shiftr a 12 mod 1024) in
    if Z.testbit pte 0
    then Some (mkAcc (Z.land pte 0xFFFFF000 + a mod 0x1000)
                     (Z.testbit pde 2 && Z.testbit pte 2) (Z.testbit pde 1 && Z.testbit pte 1))
    else None
  else None.

End Paging.

(** What the linker guarantees of the tables: page-aligned, in 32 bits. *)
Class AlignedSymbols `{Symbols} : Prop := {
  table_aligned : sym_table mod 4096 = 0;
  table_range : 0 <= sym_table < 4294967296
}.

(** The directory the kernel runs on, with the frame of the program at [base]. *)
Definition boot_table (t : list Z) : Prop :=
  length t = 1024%nat /\
  forall i, 0 <= i < 1024 -> zget 0 t i = if (0xB8 <=? i) && (i <? 0xC0) then i * 4096 + 7 else 0.

Definition kernel_pages `{Symbols} (p : paging) (pde32 : Z) : Prop :=
  length (pageDir p) = 1024%nat /\ boot_table (table p) /\
  (forall i, 0 <= i < 1024 -> zget 0 (pageDir p) i =
     if i =? 0 then Z.lor sym_table 3
     else if i =? 1 then 0x400183
     else if i =? 32 then pde32
     else if i =? 33 then Z.lor sym_table 7 else 0) /\
  Z.testbit (cr0 p) 31 = true /\ Z.testbit (cr4 p) 4 = true.

(** ** Facts on the entries *)

Section Entries.
Context `{Sy : Symbols} `{AS : !AlignedSymbols}.

Lemma table_bits i : i < 12 -> Z.testbit sym_table i = false.
Proof.
  intros Hi. destruct (Z.lt_ge_cases i 0); [by apply Z.testbit_neg_r|].
  replace sym_table with (Z.shiftl (sym_table / 4096) 12).
  - apply Z.shiftl_spec_low. lia.
  - rewrite Z.shiftl_mul_pow2 by lia. change (2 ^ 12) with 4096.
    pose proof table_aligned. modlia.
Qed.

Lemma high_bits x n i : 0 <= x < 2 ^ n -> n <= i -> 0 <= n -> Z.testbit x i = false.
Proof.
  intros Hx Hi Hn. destruct (Z.eq_dec x 0) as [->|]; [apply Z.bits_0|].
  apply Z.bits_above_log2; [lia|]. apply Z.lt_le_trans with n; [|lia]. apply Z.log2_lt_pow2; lia.
Qed.

(** The low bits of an entry that points to the table are its flags. *)
Lemma ptr_low c i : 0 <= i < 12 -> Z.testbit (Z.lor sym_table c) i = Z.testbit c i.
Proof. intros Hi. by rewrite Z.lor_spec, table_bits by lia. Qed.

Lemma ptr_high c : 0 <= c < 4096 -> Z.land (Z.lor sym_table c) 0xFFFFF000 = sym_table.
Proof.
  intros Hc. apply Z.bits_inj'. intros i Hi. rewrite Z.land_spec, Z.lor_spec.
  change 0xFFFFF000 with (Z.shiftl (Z.ones 20) 12). rewrite Z.shiftl_spec by lia.
  destruct (Z.lt_ge_cases i 12).
  - rewrite (Z.testbit_neg_r _ (i - 12)), andb_false_r by lia. symmetry. by apply table_bits.
  - rewrite (high_bits c 12), orb_false_r by (simpl; lia). destruct (Z.lt_ge_cases i 32).
    + rewrite Z.ones_spec_low by lia. apply andb_true_r.
    + rewrite (high_bits sym_table 32) by (pose proof table_range; simpl; lia). done.
Qed.

Lemma ptr_us_3 : ptr_us (Z.lor sym_table 3) 1 = Z.lor sym_table 7.
Proof.
  unfold ptr_us, set_bits. apply Z.bits_inj'. intros i Hi. unfold u32.
  change 4294967296 with (2 ^ 32). destruct (Z.lt_ge_cases i 32).
  - rewrite Z.mod_pow2_bits_low by lia. rewrite !Z.lor_spec, Z.land_spec, Z.lor_spec.
    rewrite Z.lnot_spec by lia. change (Z.shiftl (Z.ones 1) 2) with 4.
    change (Z.shiftl (Z.land 1 (Z.ones 1)) 2) with 4.
    destruct (Z.lt_ge_cases i 12).
    + rewrite table_bits by lia. assert (C : i ∈ [0;1;2;3;4;5;6;7;8;9;10;11])
        by (rewrite !elem_of_cons; lia). clear Hi.
      repeat (apply elem_of_cons in C as [->|C]; [done|]). by apply not_elem_of_nil in C.
    + rewrite (high_bits 3 12), (high_bits 4 12), (high_bits 7 12) by (simpl; lia).
      by destruct (Z.testbit sym_table i).
  - rewrite Z.mod_pow2_bits_high by lia. rewrite Z.lor_spec.
    rewrite (high_bits sym_table 32) by (pose proof table_range; simpl; lia).
    rewrite (high_bits 7 12) by (simpl; lia). done.
Qed.

(** The entry of a program's 4 MiB frame. *)
Definition frame (n : Z) : Z := 0x00800000 + 0x00400000 * n.

Lemma program_entry n :
  0 <= n < 6 ->
  whole_add_22_31 (whole_ps 7 1) (Z.shiftr (u32 (frame n)) 22) = frame n + 0x87 /\
  Z.land (frame n + 0x87) 0xFFC00000 = frame n /\
  Z.testbit (frame n + 0x87) 0 = true /\ Z.testbit (frame n + 0x87) 7 = true /\
  Z.testbit (frame n + 0x87) 2 = true.
Proof.
  intros Hn. assert (C : n ∈ [0;1;2;3;4;5]) by (rewrite !elem_of_cons; lia). clear Hn.
  repeat (apply elem_of_cons in C as [->|C]; [vm_compute; done|]). by apply not_elem_of_nil in C.
Qed.

End Entries.

(** ** What the operations establish *)

Section Setup.
Context `{Sy : Symbols} `{AS : !AlignedSymbols}.
Implicit Types s : kst.

Lemma zero_fill (d : list Z) k :
  length d = 1024%nat -> 0 <= k <= 1024 ->
  let d' := for_loop 0 k (fun i d => zset d i 0) d in
  length d' = 1024%nat /\ forall i, 0 <= i < k -> zget 0 d' i = 0.
Proof.
  intros Hl Hk.
  apply (for_loop_inv (fun k d' => length d' = 1024%nat /\ forall i, 0 <= i < k -> zget 0 d' i = 0));
    [lia|split; [done|lia]|].
  intros j t Hj [L H]. split; [by rewrite zset_length|]. intros i Hi.
  rewrite zget_zset by lia. case_decide; [done|]. apply H. lia.
Qed.

Lemma for_set_pageDir lo hi f s :
  for_loop lo hi (fun i s => set_pageDir (f i (pageDir (k_pg s))) s) s =
    set_pageDir (for_loop lo hi f (pageDir (k_pg s))) s.
Proof.
  apply (for_loop_lens (fun s => pageDir (k_pg s)) set_pageDir); [|done|done].
  by intros [? ? ? ? ? ? ? ? ? []].
Qed.

Lemma for_set_table lo hi f s :
  for_loop lo hi (fun i s => set_table (f i (table (k_pg s))) s) s =
    set_table (for_loop lo hi f (table (k_pg s))) s.
Proof.
  apply (for_loop_lens (fun s => table (k_pg s)) set_table); [|done|done].
  by intros [? ? ? ? ? ? ? ? ? []].
Qed.

Lemma vid_entry i : 0xB8 <= i < 0xC0 -> ent_add 7 i = i * 4096 + 7.
Proof.
  intros Hi. assert (C : i ∈ [0xB8;0xB9;0xBA;0xBB;0xBC;0xBD;0xBE;0xBF]) by (rewrite !elem_of_cons; lia).
  clear Hi. repeat (apply elem_of_cons in C as [->|C]; [done|]). by apply not_elem_of_nil in C.
Qed.

Lemma vid_fill t :
  length t = 1024%nat -> (forall i, 0 <= i < 1024 -> zget 0 t i = 0) ->
  boot_table (for_loop 0xB8 0xC0 (fun i t => zset t i (ent_add 7 i)) t).
Proof.
  intros Hl Hz.
  assert (H : (fun k t => length t = 1024%nat /\ forall i, 0 <= i < 1024 -> zget 0 t i =
    if (0xB8 <=? i) && (i <? k) then i * 4096 + 7 else 0)
    0xC0 (for_loop 0xB8 0xC0 (fun i t => zset t i (ent_add 7 i)) t)).
  { apply for_loop_inv; [lia| |].
    - split; [done|]. intros i Hi. rewrite Hz by done. split_if; [lia|done].
    - intros j t' Hj [L H]. split; [by rewrite zset_length|]. intros i Hi.
      rewrite zget_zset by lia. case_decide as E.
      + subst. rewrite vid_entry by lia. split_if; [done|lia].
      + rewrite H by done. repeat split_if; done || lia. }
  exact H.
Qed.

(** Both tables exist with their static sizes. *)
Definition tables_sized (s : kst) : Prop :=
  length (pageDir (k_pg s)) = 1024%nat /\ length (table (k_pg s)) = 1024%nat.

Lemma page_init_pages s :
  tables_sized s ->
  kernel_pages (k_pg (page_init s)) 0 /\ paging_on (k_mem (page_init s)) = true /\
  cr3 (k_pg (page_init s)) = sym_pageDir /\ phys (k_mem (page_init s)) = phys (k_mem s) /\
  page_init s = set_pg (k_pg (page_init s)) (set_mem (k_mem (page_init s)) s).
Proof.
  intros [Hd Ht]. unfold page_init, spawnTbl, spawnDir.
  rewrite (for_set_table 0 1024 (fun i t => zset t i 0)).
  destruct (zero_fill (table (k_pg s)) 1024 Ht ltac:(lia)) as [Lt Zt].
  set (t := for_loop 0 1024 (fun i t => zset t i 0) (table (k_pg s))) in *. clearbody t.
  rewrite (for_set_table 0xB8 0xC0 (fun i t => zset t i (ent_add 7 i))). cbn [table set_table k_pg set_pg].
  pose proof (vid_fill t Lt Zt) as Hb. set (t' := for_loop 0xB8 0xC0 (fun i t => zset t i (ent_add 7 i)) t) in *. clearbody t'.
  rewrite (for_set_pageDir 0 1024 (fun i t => zset t i 0)). cbn [pageDir set_table k_pg set_pg].
  destruct (zero_fill (pageDir (k_pg s)) 1024 Hd ltac:(lia)) as [Ld Zd].
  set (d := for_loop 0 1024 (fun i t => zset t i 0) (pageDir (k_pg s))) in *. clearbody d.
  unfold pageEnable, reload_tlb. rewrite ptr_us_3.
  change (whole_add_22_31 (whole_g (whole_ps (whole_rw (whole_p 0 1) 1) 1) 1) 1) with 0x400183.
  simpl.
  assert (PG : Z.testbit (Z.lor (cr0 (k_pg s)) 2147483648) 31 = true).
  { rewrite Z.lor_spec. change (Z.testbit 2147483648 31) with true. apply orb_true_r. }
  split; [|by destruct s].
  split; [simpl; by rewrite !zset_length|]. split; [exact Hb|]. split; [|split].
  - intros i Hi. cbn [pageDir]. rewrite !zget_zset by (rewrite ?zset_length; lia).
    repeat case_decide; subst; try done. rewrite Zd by lia. repeat split_if; lia || done.
  - exact PG.
  - cbn [cr4]. rewrite Z.lor_spec. change (Z.testbit 16 4) with true. apply orb_true_r.
Qed.

Lemma map_program_pages n s pde :
  0 <= n < 6 -> kernel_pages (k_pg s) pde ->
  let s' := map_program n s in
  kernel_pages (k_pg s') (frame n + 0x87) /\ upage (k_mem s') = frame n /\
  paging_on (k_mem s') = true /\ phys (k_mem s') = phys (k_mem s) /\
  s' = set_pg (k_pg s') (set_mem (k_mem s') s).
Proof.
  intros Hn (Ld & Ht & Hd & H0 & H4). destruct (program_entry n Hn) as (E1 & E2 & _).
  unfold map_program, flushTLB, reload_tlb, chgDir, window_base. fold (frame n). rewrite E1. simpl.
  rewrite zget_zset_eq by lia. rewrite E2. split; [|split_and!; try done].
  split; [simpl; by rewrite zset_length|]. split; [exact Ht|]. split; [|done].
  intros i Hi. cbn [pageDir]. rewrite zget_zset by lia. case_decide; subst; [done|].
  rewrite Hd by done. repeat split_if; done || lia.
Qed.

End Setup.

(** ** Translation and isolation *)

Section Walk.
Context `{Sy : Symbols} `{AS : !AlignedSymbols}.
Implicit Types s : kst.

(** Where a present page of the kernel's tables can be, and what it maps to. *)
Inductive reach (n x : Z) (acc : access) : Prop :=
| reach_video_low : 0xB8000 <= x < 0xC0000 -> acc_pa acc = x -> acc_user acc = false -> reach n x acc
| reach_kernel : 0x400000 <= x < 0x800000 -> acc_pa acc = x -> acc_user acc = false -> reach n x acc
| reach_program : MB128 <= x < MB132 -> acc_pa acc = frame n + (x - MB128) -> reach n x acc
| reach_video_high :
    MB132 + 0xB8000 <= x < MB132 + 0xC0000 -> acc_pa acc = x - MB132 -> reach n x acc.

Lemma video_pte x :
  0 <= x < 4294967296 -> let i := Z.shiftr x 12 mod 1024 in
  0xB8 <= i < 0xC0 ->
  Z.testbit (i * 4096 + 7) 0 = true /\
  Z.land (i * 4096 + 7) 0xFFFFF000 + x mod 0x1000 = x mod 0x400000 /\
  0xB8000 <= x mod 0x400000 < 0xC0000.
Proof.
  intros Hx i Hi.
  assert (E : i * 4096 + x mod 4096 = x mod 0x400000).
  { unfold i. rewrite Z.shiftr_div_pow2 by lia. change (2 ^ 12) with 4096. modlia. }
  assert (L : Z.testbit (i * 4096 + 7) 0 = true /\ Z.land (i * 4096 + 7) 0xFFFFF000 = i * 4096).
  { clear E. revert Hi. generalize i. clear. intros i Hi.
    assert (C : i ∈ [0xB8;0xB9;0xBA;0xBB;0xBC;0xBD;0xBE;0xBF]) by (rewrite !elem_of_cons; lia).
    clear Hi. repeat (apply elem_of_cons in C as [->|C]; [done|]). by apply not_elem_of_nil in C. }
  destruct L as [L1 L2]. rewrite L2, E. split_and!; [done|done|modlia|modlia].
Qed.

Lemma walk_table p c x (us : bool) :
  0 <= x < 4294967296 -> boot_table (table p) -> 0 <= c < 128 -> Z.testbit c 0 = true ->
  Z.testbit (cr0 p) 31 = true -> zget 0 (pageDir p) (Z.shiftr x 22) = Z.lor sym_table c ->
  match walk p x with
  | Some acc => acc_pa acc = x mod 0x400000 /\ 0xB8000 <= x mod 0x400000 < 0xC0000 /\
      (Z.testbit c 2 = false -> acc_user acc = false)
  | None => True
  end.
Proof.
  intros Hx [_ Ht] Hc H0 Hcr Hd. unfold walk. rewrite u32_small by done. rewrite Hd, Hcr. cbn [negb].
  rewrite !ptr_low by lia. rewrite H0, (high_bits c 7) by (simpl; lia). cbn [negb andb].
  rewrite ptr_high by lia. rewrite Z.eqb_refl.
  rewrite Ht by (apply Z.mod_pos_bound; lia). split_if; [|done]. split_if; [|done].
  destruct (video_pte x Hx) as (_ & E2 & E3); [lia|].
  cbn [acc_pa acc_user]. split_and!; [done|lia|lia|]. by intros ->.
Qed.

Lemma walk_reach p n a acc :
  0 <= n < 6 -> kernel_pages p (frame n + 0x87) -> walk p a = Some acc -> reach n (u32 a) acc.
Proof.
  intros Hn (Ld & Ht & Hd & H0 & H4) Hw.
  assert (E : walk p a = walk p (u32 a)) by (unfold walk; by rewrite u32_u32).
  rewrite E in Hw. clear E. pose proof (u32_range a) as Hx. generalize dependent (u32 a). intros x Hw Hx.
  assert (Hq : 0 <= Z.shiftr x 22 < 1024)
    by (rewrite Z.shiftr_div_pow2 by lia; change (2 ^ 22) with 4194304; modlia).
  pose proof (Hd _ Hq) as Hp.
  assert (Eq : 4194304 * Z.shiftr x 22 <= x < 4194304 * Z.shiftr x 22 + 4194304 /\
    x mod 4194304 = x - 4194304 * Z.shiftr x 22).
  { rewrite Z.shiftr_div_pow2 by lia. change (2 ^ 22) with 4194304. clear. modlia. }
  destruct Eq as [Eq Em]. unfold MB128, MB132.
  destruct (program_entry n Hn) as (_ & P2 & P3 & P4 & _).
  destruct (Z.eqb_spec (Z.shiftr x 22) 0) as [E0|].
  { pose proof (walk_table p 3 x false Hx Ht ltac:(lia) eq_refl H0 Hp) as T. rewrite Hw in T.
    destruct T as (T1 & T2 & T3). rewrite E0 in Em. apply reach_video_low; [lia|lia|by apply T3]. }
  destruct (Z.eqb_spec (Z.shiftr x 22) 1) as [E0|].
  { unfold walk in Hw. rewrite u32_small, Hp, H0, H4 in Hw by done.
    change (Z.testbit 0x400183 0) with true in Hw. change (Z.testbit 0x400183 7) with true in Hw.
    change (Z.land 0x400183 0xFFC00000) with 0x400000 in Hw. cbn [negb andb] in Hw. simplify_eq.
    rewrite E0 in Eq, Em. apply reach_kernel; cbn [acc_pa acc_user]; [lia|lia|done]. }
  destruct (Z.eqb_spec (Z.shiftr x 22) 32) as [E0|].
  { unfold walk in Hw. rewrite u32_small, Hp, H0, H4, P2, P3, P4 in Hw by done. cbn [negb andb] in Hw.
    simplify_eq. rewrite E0 in Eq, Em. apply reach_program; cbn [acc_pa]; unfold MB128, MB132; lia. }
  destruct (Z.eqb_spec (Z.shiftr x 22) 33) as [E0|].
  { pose proof (walk_table p 7 x true Hx Ht ltac:(lia) eq_refl H0 Hp) as T. rewrite Hw in T.
    destruct T as (T1 & T2 & _). rewrite E0 in Eq, Em. apply reach_video_high; unfold MB132; lia. }
  unfold walk in Hw. rewrite u32_small, Hp, H0 in Hw by done. done.
Qed.

(** C22: the address map the rest of the development computes with is the processor's:
    in every state where the boot code's tables are set up and the frame of process
    [n] is mapped and flushed, an address the page tables translate has exactly that
    physical address. *)
Theorem translation_agrees s n s0 a acc :
  0 <= n < 6 -> tables_sized s0 -> s = map_program n (page_init s0) ->
  walk (k_pg s) a = Some acc -> tr (k_mem s) a = acc_pa acc.
Proof.
  intros Hn Hs -> Hw. destruct (page_init_pages s0 Hs) as (Hk & _).
  destruct (map_program_pages n _ 0 Hn Hk) as (Hk' & Hu & Hp & _).
  apply (walk_reach _ n) in Hw; [|done|done]. unfold tr. rewrite Hp, Hu.
  pose proof (u32_range a). unfold MB128, MB132, MB136 in *.
  destruct Hw; unfold MB128, MB132 in *; repeat split_if; lia.
Qed.

(** C21: isolation: with the frame of process [n] mapped, the addresses a program in
    user mode can access are those of its own 4 MiB frame and of the video pages; a
    frame of another process and the kernel's own 4 MiB are out of its reach, and
    frames of different processes do not overlap. *)
Theorem program_isolation s0 n n' a acc :
  0 <= n < 6 -> 0 <= n' < 6 -> tables_sized s0 ->
  walk (k_pg (map_program n (page_init s0))) a = Some acc -> acc_user acc = true ->
  (frame n <= acc_pa acc < frame n + MB4 \/ 0xB8000 <= acc_pa acc < 0xC0000) /\
  ~ (0x400000 <= acc_pa acc < 0x800000) /\
  (n <> n' -> ~ (frame n' <= acc_pa acc < frame n' + MB4)).
Proof.
  intros Hn Hn' Hs Hw Hu. destruct (page_init_pages s0 Hs) as (Hk & _).
  destruct (map_program_pages n _ 0 Hn Hk) as (Hk' & _).
  apply (walk_reach _ n) in Hw; [|done|done].
  destruct Hw; try congruence; unfold frame, MB4, MB128, MB132 in *; lia.
Qed.

End Walk.
