(* ===== verification/Filesystem.v ===== *)
(** * The read-only file system (filesystem.c, filesystem.h)

    The image the boot loader puts in memory: a boot block with 63 directory entries,
    inode blocks with a length and the numbers of the data blocks, data blocks of
    4096 bytes.  Every structure is read from memory at the address the C code
    computes.  The specification of a file is the function from positions to bytes
    that the inode describes ([file_byte]); [read_data] is shown to deliver it. *)

From stdpp Require Import base list numbers gmap.
From Stdlib Require Import ZArith Lia.
From S2P Require Import Prelude Mem LibStr State.

Definition BLKSIZE : Z := 4096.

(** ** Process control blocks *)

(** [get_pcb]: the process whose kernel stack the stack pointer is in. *)
Definition get_pcb (s : kst) : option Z :=
  let e := u32 (0x3FF - k_esp s / 0x2000) in
  if 6 <=? e then None else Some e.

Definition pcb_at (i : Z) (s : kst) : pcb := zget pcb0 (k_pcbs s) i.
Definition upd_pcb (i : Z) (f : pcb -> pcb) (s : kst) : kst :=
  set_pcbs (zset (k_pcbs s) i (f (pcb_at i s))) s.

Definition fd_at (p fd : Z) (s : kst) : file_desc := zget fd0 (file_desc_tb (pcb_at p s)) fd.

Definition set_fds (l : list file_desc) (p : pcb) : pcb :=
  mkPcb l (args p) (pid p) (parent_pid p) (saved_esp p) (saved_ebp p) (active p).

Definition upd_fd (p fd : Z) (f : file_desc -> file_desc) (s : kst) : kst :=
  upd_pcb p (fun q => set_fds (zset (file_desc_tb q) fd (f (zget fd0 (file_desc_tb q) fd))) q) s.

Definition with_f_op (o : fops) (d : file_desc) : file_desc :=
  mkFd o (fd_inode d) (file_position d) (flag d).
Definition with_inode (i : Z) (d : file_desc) : file_desc :=
  mkFd (f_op d) i (file_position d) (flag d).
Definition with_position (p : Z) (d : file_desc) : file_desc :=
  mkFd (f_op d) (fd_inode d) (u32 p) (flag d).
Definition with_flag (b : Z) (d : file_desc) : file_desc :=
  mkFd (f_op d) (fd_inode d) (file_position d) b.

(** Code that dereferences the result of [get_pcb]. *)
Definition with_pcb {A} (k : Z -> K A) : K A := fun s =>
  match get_pcb s with Some p => k p s | None => NullDeref s end.

(** ** Structures of the image *)

(** A directory entry is its 64 bytes: name, type, inode number, reserved. *)
Definition dentry : Type := list Z.
Definition d_name (d : dentry) (i : Z) : Z := ldb d i.
Definition d_ft (d : dentry) : Z := ld32 d 32.
Definition d_ind (d : dentry) : Z := ld32 d 36.

Definition nent (m : vmem) (boot : Z) : Z := ld32 m boot.
Definition nnod (m : vmem) (boot : Z) : Z := ld32 m (boot + 4).
Definition nblck (m : vmem) (boot : Z) : Z := ld32 m (boot + 8).
Definition dir_addr (boot i : Z) : Z := boot + 64 + 64 * i.
Definition inode_addr (boot nd : Z) : Z := boot + 4096 * (nd + 1).

(** [boot + boot->nnod + 1 + nod->data[off / BLKSIZE]] *)
Definition block_addr (m : vmem) (boot nod off : Z) : Z :=
  boot + 4096 * (nnod m boot + 1 + ld32 m (nod + 4 + 4 * (off / BLKSIZE))).

(** ** Directory lookups *)

(** The loop of [read_dentry_by_name] from entry [i] with [k] entries left. *)
Fixpoint find_dentry (k : nat) (m : vmem) (boot : Z) (fname : Z -> Z) (i : Z) : option dentry :=
  match k with
  | O => None
  | S k' =>
      if strncmp fname (at_ m (dir_addr boot i)) 32 =? 0
      then Some (bytes_at m (dir_addr boot i) 64)
      else find_dentry k' m boot fname (i + 1)
  end.

Definition read_dentry_by_name (fname : Z -> Z) (s : kst) : option dentry :=
  find_dentry (Z.to_nat (nent (k_mem s) (k_boot s))) (k_mem s) (k_boot s) fname 0.

Definition read_dentry_by_index (i : Z) (s : kst) : option dentry :=
  if nent (k_mem s) (k_boot s) <? i then None
  else Some (bytes_at (k_mem s) (dir_addr (k_boot s) i) 64).

(** ** Reading file data

    The destination is an object of its own: [mem] is the memory the image is read
    from and [put t i v] stores to [buf[i]], which may be in that memory. *)

Section ReadData.
Context {T : Type} (mem : T -> vmem) (put : T -> Z -> Z -> T).

Definition read_data (boot nd off len : Z) (t : T) : Z * T :=
  if nnod (mem t) boot <=? nd then (-1, t)
  else
    let nod := inode_addr boot nd in
    let flen := ld32 (mem t) nod in
    let len := if flen <? u32 (len + off) then u32 (flen - off) else len in
    let blk := block_addr (mem t) boot nod off in
    let '(_, _, t) := for_loop 0 len (fun i '(off, blk, t) =>
      let t := put t i (ldb (mem t) (blk + off mod BLKSIZE)) in
      let off := u32 (off + 1) in
      let blk := if off mod BLKSIZE =? 0 then block_addr (mem t) boot nod off else blk in
      (off, blk, t)) (off, blk, t) in
    (i32 len, t).

End ReadData.

(** The two kinds of destination: memory at [buf], and a local array. *)
Definition put_mem (buf : Z) (m : vmem) (i v : Z) : vmem := stb m (buf + i) v.
Definition put_local (t : vmem * list Z) (i v : Z) : vmem * list Z := (fst t, stb (snd t) i v).

(** ** File operations *)

Definition dir_open (fn : Z) (s : kst) : Z * kst := (0, set_boot fn s).

(** The copy loop of [dir_read] from [i] with [k] iterations left: the final [i]. *)
Fixpoint copy_name (k : nat) (d : dentry) (buf i : Z) (m : vmem) : Z * vmem :=
  match k with
  | O => (i, m)
  | S k' =>
      let m := stb m (buf + i) (d_name d i) in
      if d_name d i =? 0 then (i, m) else copy_name k' d buf (i + 1) m
  end.

Definition dir_read (fd buf n : Z) : K Z :=
  with_pcb (fun p s =>
    match read_dentry_by_index (file_position (fd_at p fd s)) s with
    | None => Ret (-1) s
    | Some d =>
        let s := upd_fd p fd (fun f => with_position (file_position f + 1) f) s in
        let '(i, m) := copy_name (Z.to_nat n) d buf 0 (k_mem s) in
        Ret i (set_mem m s)
    end).

Definition dir_write (fd buf n : Z) (s : kst) : Z * kst := (-1, s).

Definition dir_close (fd : Z) : K Z :=
  with_pcb (fun p s => Ret 0 (upd_fd p fd (with_flag 0) s)).

(** The first free descriptor from [i] with [k] left. *)
Fixpoint free_fd (k : nat) (i : Z) (l : list file_desc) : option Z :=
  match k with
  | O => None
  | S k' => if flag (zget fd0 l i) =? 0 then Some i else free_fd k' (i + 1) l
  end.

Definition file_open (fn : Z) : K Z := fun s =>
  match read_dentry_by_name (at_ (k_mem s) fn) s with
  | None => Ret (-1) s
  | Some d =>
      with_pcb (fun p s =>
        match free_fd 6 2 (file_desc_tb (pcb_at p s)) with
        | Some i =>
            let s := upd_fd p i (with_flag 1) s in
            let s := upd_fd p i (with_position 0) s in
            let s := upd_fd p i (with_inode (d_ind d)) s in
            Ret i s
        | None => Ret (-1) s
        end) s
  end.

Definition file_read (fd buf n : Z) : K Z := fun s =>
  if 7 <? fd then Ret (-1) s
  else
    with_pcb (fun p s =>
      let f := fd_at p fd s in
      let '(n, m) := read_data id (put_mem buf) (k_boot s) (fd_inode f) (file_position f) (u32 n)
                       (k_mem s) in
      let s := set_mem m s in
      let s := upd_fd p fd (fun f => with_position (file_position f + n) f) s in
      Ret n s) s.

Definition file_write (fd buf n : Z) (s : kst) : Z * kst := (-1, s).

Definition file_close (fd : Z) : K Z := fun s =>
  if (7 <? fd) || (fd <? 2) then Ret (-1) s
  else with_pcb (fun p s => Ret 0 (upd_fd p fd (with_flag 0) s)) s.

(** ** Specification *)

Definition file_len (m : vmem) (boot nd : Z) : Z := ld32 m (inode_addr boot nd).

Definition file_byte (m : vmem) (boot nd p : Z) : Z :=
  ldb m (block_addr m boot (inode_addr boot nd) p + p mod BLKSIZE).

Definition file_slice (m : vmem) (boot nd off : Z) (n : nat) : list Z :=
  map (fun i => file_byte m boot nd (off + Z.of_nat i)) (seq 0 n).

Definition image_size (m : vmem) (boot : Z) : Z := 4096 * (1 + nnod m boot + nblck m boot).

(** A well-formed image: in kernel addresses, and every block number an inode uses
    is that of a data block. *)
Definition fs_wf (m : vmem) (boot : Z) : Prop :=
  0 <= boot /\ boot + image_size m boot <= MB128 /\ nent m boot <= 63 /\
  forall nd, 0 <= nd < nnod m boot ->
    file_len m boot nd <= 4096 * 1023 /\
    forall p, 0 <= p < file_len m boot nd ->
      ld32 m (inode_addr boot nd + 4 + 4 * (p / 4096)) < nblck m boot.

(** [m'] shows the same image as [m]. *)
Definition same_image (m m' : vmem) (boot : Z) : Prop :=
  forall i, 0 <= i < image_size m boot -> ldb m' (boot + i) = ldb m (boot + i).

Section ImageFacts.
Implicit Types m : vmem.

Lemma image_bounds m boot nd :
  fs_wf m boot -> 0 <= nd < nnod m boot ->
  0 <= 4096 * (nd + 1) /\ 4096 * (nd + 1) + 4096 <= image_size m boot.
Proof.
  intros (H0 & Hb & _) Hn. unfold image_size, nblck.
  pose proof (ld32_range m (boot + 8)). lia.
Qed.

(** Words of the image read the same in a memory that shows the same image. *)
Lemma image_ld32 m m' boot a :
  same_image m m' boot -> 0 <= a -> a + 4 <= image_size m boot ->
  ld32 m' (boot + a) = ld32 m (boot + a).
Proof.
  intros E Ha Hb. apply ld32_ext. intros i Hi. rewrite <- Z.add_assoc. apply E. lia.
Qed.

Lemma image_header m m' boot :
  fs_wf m boot -> same_image m m' boot -> nnod m' boot = nnod m boot.
Proof.
  intros (H0 & Hb & _) E. apply (image_ld32 m m' boot 4); [done|lia|].
  unfold image_size, nnod, nblck. pose proof (ld32_range m (boot + 4)).
  pose proof (ld32_range m (boot + 8)). lia.
Qed.

(** The block of a position inside the file is in the image, and does not depend on
    what else is in memory. *)
Lemma image_block m m' boot nd p :
  fs_wf m boot -> same_image m m' boot -> 0 <= nd < nnod m boot ->
  0 <= p < file_len m boot nd ->
  block_addr m' boot (inode_addr boot nd) p = block_addr m boot (inode_addr boot nd) p /\
  ldb m' (block_addr m boot (inode_addr boot nd) p + p mod BLKSIZE) = file_byte m boot nd p.
Proof.
  intros Hw E Hn Hp. pose proof (image_bounds m boot nd Hw Hn) as Hi.
  pose proof Hw as (H0 & Hb & _ & Hf). destruct (Hf nd Hn) as [Hl Hk]. specialize (Hk p Hp).
  assert (Hq : 0 <= p / 4096 < 1023) by modlia.
  assert (Eb : block_addr m' boot (inode_addr boot nd) p = block_addr m boot (inode_addr boot nd) p).
  { unfold block_addr. rewrite (image_header m m') by done. do 3 f_equal. change BLKSIZE with 4096.
    unfold inode_addr.
    replace (boot + 4096 * (nd + 1) + 4 + 4 * (p / 4096))
      with (boot + (4096 * (nd + 1) + 4 + 4 * (p / 4096))) by lia.
    apply (image_ld32 m m' boot); [done|lia|lia]. }
  split; [done|]. unfold file_byte, block_addr. change BLKSIZE with 4096 in *.
  rewrite <- Z.add_assoc. apply E. unfold image_size.
  pose proof (ld32_range m (inode_addr boot nd + 4 + 4 * (p / 4096))).
  unfold nnod in *. pose proof (ld32_range m (boot + 4)). modlia.
Qed.

End ImageFacts.

(** ** [read_data] delivers the file *)

Section ReadFacts.
Context {T : Type} (mem : T -> vmem) (put : T -> Z -> Z -> T) (ok : T -> Prop).
Implicit Types t : T.

(** Storing to the destination does not change the image, while the destination is
    where it was ([ok]). *)
Definition put_stable (m : vmem) (boot n : Z) : Prop :=
  forall t i v, 0 <= i < n -> ok t -> same_image m (mem t) boot ->
    ok (put t i v) /\ same_image m (mem (put t i v)) boot.

Lemma read_data_eq boot nd off len t :
  let m := mem t in
  let k := Z.min len (file_len m boot nd - off) in
  fs_wf m boot -> 0 <= nd < nnod m boot -> 0 <= off <= file_len m boot nd ->
  0 <= len -> off + len < 4294967296 -> ok t -> put_stable m boot k ->
  read_data mem put boot nd off len t =
    (k, for_loop 0 k (fun i t => put t i (file_byte m boot nd (off + i))) t).
Proof.
  intros m k Hw Hn Ho Hl Hov Hok Hp. unfold read_data. fold m. fold (file_len m boot nd).
  rewrite (proj2 (Z.leb_gt _ _)) by lia. rewrite u32_small by lia.
  pose proof Hw as (_ & _ & _ & Hf). destruct (Hf nd Hn) as [Hfl _].
  assert (Ek : (if file_len m boot nd <? len + off then u32 (file_len m boot nd - off) else len) = k).
  { split_if; [rewrite u32_small by lia|]; lia. }
  rewrite Ek. set (body := fun i '(off, blk, t) => _). set (body2 := fun i t => put t i _).
  assert (H : (fun i '(off', blk, t') => off' = off + i /\ t' = for_loop 0 i body2 t /\
      ok t' /\ same_image m (mem t') boot /\
      (off' < file_len m boot nd -> blk = block_addr m boot (inode_addr boot nd) off'))
    k (for_loop 0 k body (off, block_addr m boot (inode_addr boot nd) off, t))).
  { apply for_loop_inv; [lia| |].
    - rewrite Z.add_0_r, for_loop_nil by lia. done.
    - intros j [[o b] t'] Hj (-> & Et & Hok' & Ei & Eb). specialize (Eb ltac:(lia)). subst b. unfold body.
      destruct (image_block m (mem t') boot nd (off + j)) as [_ Ebyte]; try done; [lia|].
      rewrite Ebyte. rewrite u32_small by lia.
      destruct (Hp t' j (file_byte m boot nd (off + j))) as [Hok2 Ei']; [lia|done|done|].
      split_and!; [lia|by rewrite for_loop_last, <- Et by lia|done|done|].
      intros Hlt. split_if.
      + by apply image_block; try done; lia.
      + unfold block_addr. change BLKSIZE with 4096 in *.
        replace ((off + j + 1) / 4096) with ((off + j) / 4096) by modlia. done. }
  destruct (for_loop 0 k body _) as [[o b] t']. destruct H as (_ & -> & _).
  rewrite i32_small by lia. done.
Qed.

End ReadFacts.

(** ** Reading into memory *)

Section ReadMem.
Implicit Types (m : vmem) (s : kst).

Lemma store_loop_filled m buf k f :
  region m buf k -> 0 <= k ->
  filled m (for_loop 0 k (fun i m => put_mem buf m i (f i)) m) buf 0 k f.
Proof.
  intros Hr Hk.
  assert (H : (fun i m' => i <= k -> filled m m' buf 0 i f)
    k (for_loop 0 k (fun i m => put_mem buf m i (f i)) m)).
  { apply for_loop_inv; [lia| |].
    - intros _. apply filled_nil.
    - intros j m' Hj IH Hle. apply (filled_snoc _ _ _ k); [done|lia|apply IH; lia|done]. }
  apply H. lia.
Qed.

Lemma put_mem_stable m boot buf n :
  apart m buf n boot (image_size m boot) ->
  put_stable id (put_mem buf) (same_map m) m boot n.
Proof.
  intros Ha m1 i v Hi Hc E. split; [exact Hc|]. intros j Hj. unfold id, put_mem.
  rewrite ldb_stb_other; [by apply E|]. rewrite !(same_map_cell m m1) by done. by apply Ha.
Qed.

Lemma read_data_mem boot nd off len buf m :
  let k := Z.min len (file_len m boot nd - off) in
  fs_wf m boot -> 0 <= nd < nnod m boot -> 0 <= off <= file_len m boot nd ->
  0 <= len -> off + len < 4294967296 -> region m buf k ->
  apart m buf k boot (image_size m boot) ->
  exists m', read_data id (put_mem buf) boot nd off len m = (k, m') /\
    filled m m' buf 0 k (fun i => file_byte m boot nd (off + i)) /\ same_map m m'.
Proof.
  intros k Hw Hn Ho Hl Hov Hr Ha.
  exists (for_loop 0 k (fun i t => put_mem buf t i (file_byte m boot nd (off + i))) m). split_and!.
  - apply (read_data_eq id (put_mem buf) (same_map m)); try done. by apply put_mem_stable.
  - apply store_loop_filled; [done|lia].
  - by apply (for_loop_pres (same_map m)).
Qed.

Lemma filled_bytes m m' buf k f :
  filled m m' buf 0 k f -> 0 <= k -> (forall i, 0 <= i < k -> 0 <= f i < 256) ->
  bytes_at m' buf (Z.to_nat k) = map (fun i => f (Z.of_nat i)) (seq 0 (Z.to_nat k)).
Proof.
  intros [_ F] Hk Hb. unfold bytes_at. apply map_ext_in. intros i Hi%in_seq.
  rewrite F by lia. apply u8_small, Hb. lia.
Qed.

End ReadMem.

(** ** Descriptors *)

(** Six control blocks with eight descriptors and 128 bytes of arguments each. *)
Definition pcbs_ok (s : kst) : Prop :=
  length (k_pcbs s) = 6%nat /\
  Forall (fun q => length (file_desc_tb q) = 8%nat /\ length (args q) = 128%nat) (k_pcbs s).

Section Descriptors.
Implicit Types s : kst.

Lemma get_pcb_range s p : get_pcb s = Some p -> 0 <= p < 6.
Proof.
  unfold get_pcb. pose proof (u32_range (0x3FF - k_esp s / 0x2000)).
  split_if; [done|]. intros [= <-]. lia.
Qed.

Lemma pcb_at_upd p q f s :
  pcbs_ok s -> 0 <= p < 6 ->
  pcb_at q (upd_pcb p f s) = if decide (p = q) then f (pcb_at p s) else pcb_at q s.
Proof. intros [Hl _] Hp. unfold pcb_at, upd_pcb. simpl. apply zget_zset. lia. Qed.

Lemma pcb_at_sized p s :
  pcbs_ok s -> length (file_desc_tb (pcb_at p s)) = 8%nat /\ length (args (pcb_at p s)) = 128%nat.
Proof.
  intros [_ Hf]. unfold pcb_at.
  by apply (zget_Forall (fun q => length (file_desc_tb q) = 8%nat /\ length (args q) = 128%nat)).
Qed.

Lemma pcbs_ok_upd p f s :
  pcbs_ok s ->
  (forall q, length (file_desc_tb q) = 8%nat /\ length (args q) = 128%nat ->
     length (file_desc_tb (f q)) = 8%nat /\ length (args (f q)) = 128%nat) ->
  pcbs_ok (upd_pcb p f s).
Proof.
  intros Hok Hf. pose proof (pcb_at_sized p s Hok) as Hp. destruct Hok as [Hl Ha].
  split; simpl; [by rewrite zset_length|]. unfold zset. split_if; [done|].
  apply Forall_insert; [done|]. by apply Hf.
Qed.

Lemma pcbs_ok_upd_fd p fd f s : pcbs_ok s -> pcbs_ok (upd_fd p fd f s).
Proof. intros Hok. apply pcbs_ok_upd; [done|]. intros q. simpl. by rewrite zset_length. Qed.

Lemma fd_at_upd p fd p' fd' f s :
  pcbs_ok s -> 0 <= p < 6 -> 0 <= fd < 8 ->
  fd_at p' fd' (upd_fd p fd f s) =
    if decide (p = p' /\ fd = fd') then f (fd_at p fd s) else fd_at p' fd' s.
Proof.
  intros Hok Hp Hfd. unfold fd_at, upd_fd. rewrite pcb_at_upd by done.
  destruct (pcb_at_sized p s Hok) as [Hl _].
  destruct (decide (p = p')) as [<-|]; [|by rewrite decide_False by tauto].
  simpl. rewrite zget_zset by lia. repeat case_decide; tauto || naive_solver.
Qed.

End Descriptors.

#[export] Hint Resolve pcbs_ok_upd_fd : store.

(** ** [file_read] *)

Section FileRead.
Implicit Types s : kst.

(** A destination of [n] bytes that is not part of the image. *)
Definition good_buf (m : vmem) (boot buf n : Z) : Prop :=
  region m buf n /\ apart m buf n boot (image_size m boot).

(** An open regular file: its descriptor, inode number and position. *)
Record open_file (s : kst) (p fd nd pos : Z) : Prop := {
  of_pcb : get_pcb s = Some p;
  of_pcbs : pcbs_ok s;
  of_fd : 0 <= fd <= 7;
  of_wf : fs_wf (k_mem s) (k_boot s);
  of_ind : fd_inode (fd_at p fd s) = nd;
  of_nd : 0 <= nd < nnod (k_mem s) (k_boot s);
  of_pos : file_position (fd_at p fd s) = pos;
  of_range : 0 <= pos <= file_len (k_mem s) (k_boot s) nd
}.

Lemma good_buf_sub m boot buf n k : good_buf m boot buf n -> 0 <= k <= n -> good_buf m boot buf k.
Proof.
  intros [Hr Ha] Hk. split; [by eapply region_sub; [..|exact Hr]; lia|].
  by eapply apart_sub; [exact Ha|lia..].
Qed.

Lemma file_byte_range m boot nd p : 0 <= file_byte m boot nd p < 256.
Proof. apply (ldb_range m). Qed.

Lemma file_read_ok s p fd nd pos buf n :
  open_file s p fd nd pos -> 0 <= n < 2147483648 ->
  let k := Z.min n (file_len (k_mem s) (k_boot s) nd - pos) in
  good_buf (k_mem s) (k_boot s) buf k ->
  exists m', file_read fd buf n s =
      Ret k (upd_fd p fd (with_position (pos + k)) (set_mem m' s)) /\
    bytes_at m' buf (Z.to_nat k) = file_slice (k_mem s) (k_boot s) nd pos (Z.to_nat k) /\
    only_changes (k_mem s) m' buf k /\ same_map (k_mem s) m'.
Proof.
  intros [Hp Hs Hfd Hw Hi Hnd Hpos Hr] Hn k [Hreg Hap].
  assert (Hfl : file_len (k_mem s) (k_boot s) nd <= 4096 * 1023)
    by (destruct Hw as (_ & _ & _ & Hf); by apply Hf).
  destruct (read_data_mem (k_boot s) nd pos n buf (k_mem s)) as (m' & E & F & M); try done; try lia.
  exists m'. unfold file_read. rewrite (proj2 (Z.ltb_ge _ _)) by lia. unfold with_pcb. rewrite Hp.
  rewrite Hi, Hpos, (u32_small n), E by lia. fold k in F |- *. split_and!; [| |by destruct F as [F _]; rewrite Z.add_0_r, Z.sub_0_r in F|done].
  - f_equal. unfold upd_fd, upd_pcb. f_equal. f_equal. unfold pcb_at at 1 2. simpl.
    unfold set_fds. f_equal. f_equal. change (zget pcb0 (k_pcbs s) p) with (pcb_at p s).
    change (zget fd0 (file_desc_tb (pcb_at p s)) fd) with (fd_at p fd s). by rewrite Hpos.
  - rewrite (filled_bytes _ _ _ _ _ F); [done|lia|]. intros. apply file_byte_range.
Qed.

End FileRead.

(** ** Reading a whole file *)

(** The loop of a program that reads a file in pieces of [n] bytes until [file_read]
    returns 0, and collects the pieces. *)
Fixpoint read_all (fuel : nat) (fd buf n : Z) (acc : list Z) : K (list Z) :=
  match fuel with
  | O => fun _ => NoFuel
  | S f => (r <- file_read fd buf n ;;
            fun s => if r <=? 0 then Ret acc s
                     else read_all f fd buf n (acc ++ bytes_at (k_mem s) buf (Z.to_nat r)) s)%kernel
  end.

Section ReadAll.
Implicit Types s : kst.

(** The image after a read is the image before. *)
Lemma same_image_changes m m' boot buf k :
  only_changes m m' buf k -> apart m buf k boot (image_size m boot) -> same_image m m' boot.
Proof. intros C A i Hi. by eapply only_changes_ldb. Qed.

Lemma same_image_len m m' boot nd :
  fs_wf m boot -> same_image m m' boot -> 0 <= nd < nnod m boot ->
  file_len m' boot nd = file_len m boot nd.
Proof.
  intros Hw E Hn. pose proof (image_bounds m boot nd Hw Hn). unfold file_len, inode_addr.
  apply (image_ld32 m m'); [done|lia|lia].
Qed.

Lemma image_size_pos m boot : 4096 <= image_size m boot.
Proof.
  unfold image_size, nnod, nblck. pose proof (ld32_range m (boot + 4)).
  pose proof (ld32_range m (boot + 8)). lia.
Qed.

Lemma same_image_wf m m' boot :
  fs_wf m boot -> same_image m m' boot ->
  fs_wf m' boot /\ image_size m' boot = image_size m boot.
Proof.
  intros Hw E. pose proof (image_header m m' boot Hw E) as En.
  pose proof (image_size_pos m boot) as Hs.
  assert (Eb : nblck m' boot = nblck m boot) by (apply (image_ld32 m m' boot 8); [done|lia|lia]).
  assert (Ee : nent m' boot = nent m boot).
  { unfold nent. rewrite <- (Z.add_0_r boot). apply (image_ld32 m m'); [done|lia|lia]. }
  assert (Es : image_size m' boot = image_size m boot) by (unfold image_size; by rewrite En, Eb).
  split; [|done]. pose proof Hw as (H0 & Hb & H63 & Hf). unfold fs_wf. rewrite Es, Ee, En, Eb.
  split_and!; try done. intros nd Hn. destruct (Hf nd Hn) as [Hl Hk].
  rewrite (same_image_len m m') by done. split; [done|]. intros q Hq.
  pose proof (image_bounds m boot nd Hw Hn). unfold inode_addr in *.
  replace (boot + 4096 * (nd + 1) + 4 + 4 * (q / 4096))
    with (boot + (4096 * (nd + 1) + 4 + 4 * (q / 4096))) by lia.
  rewrite (image_ld32 m m') by (done || modlia).
  replace (boot + (4096 * (nd + 1) + 4 + 4 * (q / 4096)))
    with (boot + 4096 * (nd + 1) + 4 + 4 * (q / 4096)) by lia. by apply Hk.
Qed.

Lemma same_image_slice m m' boot nd off k :
  fs_wf m boot -> same_image m m' boot -> 0 <= nd < nnod m boot -> 0 <= off ->
  off + Z.of_nat k <= file_len m boot nd ->
  file_slice m' boot nd off k = file_slice m boot nd off k.
Proof.
  intros Hw E Hn Ho Hk. unfold file_slice. apply map_ext_in. intros i Hi%in_seq.
  destruct (image_block m m' boot nd (off + Z.of_nat i)) as [E1 E2]; try done; [lia|].
  unfold file_byte at 1. by rewrite E1.
Qed.

Lemma file_slice_app m boot nd off j k :
  file_slice m boot nd off (j + k) =
    file_slice m boot nd off j ++ file_slice m boot nd (off + Z.of_nat j) k.
Proof.
  unfold file_slice. rewrite seq_app, map_app. f_equal. simpl.
  apply list_eq. intros i. rewrite !list_lookup_fmap. destruct (decide (i < k)%nat).
  - rewrite !lookup_seq_lt by done. simpl. do 2 f_equal. lia.
  - rewrite !lookup_seq_ge by lia. done.
Qed.

Lemma read_all_ok fuel s p fd nd pos buf n acc :
  open_file s p fd nd pos -> 0 < n < 2147483648 ->
  good_buf (k_mem s) (k_boot s) buf n ->
  file_len (k_mem s) (k_boot s) nd - pos < Z.of_nat fuel ->
  exists s', read_all fuel fd buf n acc s =
    Ret (acc ++ file_slice (k_mem s) (k_boot s) nd pos
                  (Z.to_nat (file_len (k_mem s) (k_boot s) nd - pos))) s'.
Proof.
  revert s pos acc. induction fuel as [|fuel IH]; intros s pos acc Ho Hn Hb Hf.
  { pose proof (of_range _ _ _ _ _ Ho). lia. }
  pose proof (of_range _ _ _ _ _ Ho) as Hr.
  set (L := file_len (k_mem s) (k_boot s) nd) in *. set (k := Z.min n (L - pos)).
  destruct (file_read_ok s p fd nd pos buf n Ho ltac:(lia)) as (m' & E & B & C & M).
  { apply (good_buf_sub _ _ _ n); [done|lia]. }
  fold L k in E, B, C. cbn [read_all]. unfold kbind. rewrite E.
  destruct (Z.leb_spec k 0).
  { replace (L - pos) with 0 by lia. rewrite app_nil_r. eauto. }
  set (s1 := upd_fd p fd (with_position (pos + k)) (set_mem m' s)).
  destruct Ho as [Hp Hs Hfd Hw Hi Hnd Hpos _]. destruct Hb as [Hreg Hap].
  assert (Si : same_image (k_mem s) m' (k_boot s)).
  { eapply same_image_changes; [exact C|]. eapply apart_sub; [exact Hap|lia..]. }
  destruct (same_image_wf _ _ _ Hw Si) as [Hw' Es].
  assert (El : file_len m' (k_boot s) nd = L) by by apply same_image_len.
  assert (Efd : fd_at p fd s1 = with_position (pos + k) (fd_at p fd s)).
  { unfold s1. rewrite fd_at_upd; [by rewrite decide_True|done|by eapply get_pcb_range|lia]. }
  assert (Hfl : L <= 4096 * 1023) by (destruct Hw as (_ & _ & _ & Hf'); by apply Hf').
  assert (Ho1 : open_file s1 p fd nd (pos + k)).
  { split; try done.
    - by apply pcbs_ok_upd_fd.
    - by rewrite Efd.
    - change (0 <= nd < nnod m' (k_boot s)). by rewrite (image_header (k_mem s)).
    - rewrite Efd. simpl. apply u32_small. lia.
    - change (0 <= pos + k <= file_len m' (k_boot s) nd). lia. }
  destruct (IH s1 (pos + k) (acc ++ bytes_at (k_mem s1) buf (Z.to_nat k)) Ho1 Hn) as [s' Er].
  { split; [by eapply same_map_region|]. change (apart m' buf n (k_boot s) (image_size m' (k_boot s))).
    rewrite Es. by eapply same_map_apart. }
  { change (file_len m' (k_boot s) nd - (pos + k) < Z.of_nat fuel). lia. }
  exists s'. rewrite Er. f_equal. change (k_mem s1) with m'. change (k_boot s1) with (k_boot s).
  rewrite El, B, <- app_assoc. f_equal.
  rewrite (same_image_slice (k_mem s) m') by (done || fold L; lia).
  rewrite <- (Z2Nat.id k) at 2 by lia. rewrite <- file_slice_app. f_equal. lia.
Qed.


End ReadAll.

(** ** The directory *)

Section Directory.
Implicit Types s : kst.

(** Entry [i] of the directory is named [f]: equal up to 32 characters or a NUL. *)
Definition named (m : vmem) (boot i : Z) (f : Z -> Z) : Prop :=
  eq_upto 32 f (at_ m (dir_addr boot i)).

Lemma find_dentry_spec k m boot f i :
  (forall j, 0 <= f j < 256) ->
  match find_dentry k m boot f i with
  | Some d => exists j, i <= j < i + Z.of_nat k /\ d = bytes_at m (dir_addr boot j) 64 /\
      named m boot j f /\ forall j', i <= j' < j -> ~ named m boot j' f
  | None => forall j, i <= j < i + Z.of_nat k -> ~ named m boot j f
  end.
Proof.
  intros Hf. revert i. induction k as [|k IH]; intros i; cbn [find_dentry]; [lia|].
  assert (Z0 : strncmp f (at_ m (dir_addr boot i)) 32 = 0 <-> named m boot i f).
  { apply strncmp_zero; [done| |lia]. intros j. apply (ldb_range m). }
  destruct (Z.eqb_spec (strncmp f (at_ m (dir_addr boot i)) 32) 0) as [E|E].
  - exists i. split_and!; [lia|lia|done|by apply Z0|lia].
  - specialize (IH (i + 1)). destruct (find_dentry k m boot f (i + 1)).
    + destruct IH as (j & Hj & Hd & Hn & Hl). exists j. split_and!; [lia|lia|done|done|].
      intros j' Hj'. destruct (Z.eq_dec j' i) as [->|]; [by rewrite <- Z0|]. apply Hl. lia.
    + intros j Hj. destruct (Z.eq_dec j i) as [->|]; [by rewrite <- Z0|]. apply IH. lia.
Qed.

(** The directory of a memory that shows the same image. *)
Lemma same_image_lookup m m' boot f :
  fs_wf m boot -> same_image m m' boot -> nent m' boot = nent m boot /\
  find_dentry (Z.to_nat (nent m' boot)) m' boot f 0 = find_dentry (Z.to_nat (nent m boot)) m boot f 0.
Proof.
  intros Hw E. pose proof Hw as (H0 & Hb & H63 & _). pose proof (image_size_pos m boot) as Hs.
  assert (Ee : nent m' boot = nent m boot).
  { unfold nent. rewrite <- (Z.add_0_r boot). apply (image_ld32 m m'); [done|lia|lia]. }
  split; [done|]. rewrite Ee. pose proof (ld32_range m boot : 0 <= nent m boot < _) as Hn.
  assert (B : forall i j, 0 <= i < 63 -> 0 <= j < 64 ->
    ldb m' (dir_addr boot i + j) = ldb m (dir_addr boot i + j)).
  { intros i j Hi Hj. unfold dir_addr. replace (boot + 64 + 64 * i + j) with (boot + (64 + 64 * i + j)) by lia.
    apply E. lia. }
  assert (G : forall k i, 0 <= i -> i + Z.of_nat k <= 63 ->
    find_dentry k m' boot f i = find_dentry k m boot f i).
  { induction k as [|k IH]; intros i Hi Hk; cbn [find_dentry]; [done|].
    rewrite (strncmp_ext f (at_ m' (dir_addr boot i)) f (at_ m (dir_addr boot i))).
    - rewrite (IH (i + 1)) by lia. split_if; [|done]. f_equal. apply map_ext_in.
      intros j Hj%in_seq. apply B; lia.
    - intros j Hj. split; [done|]. apply B; lia. }
  apply G; lia.
Qed.

(** C32: looking a name up gives the 64 bytes of the first of the [nent] directory
    entries with that name (32 characters compared, or up to the NUL), and fails
    exactly when no entry has it. *)
Theorem read_dentry_by_name_spec f s :
  (forall j, 0 <= f j < 256) ->
  let m := k_mem s in let boot := k_boot s in
  match read_dentry_by_name f s with
  | Some d => exists i, 0 <= i < nent m boot /\ d = bytes_at m (dir_addr boot i) 64 /\
      named m boot i f /\ forall j, 0 <= j < i -> ~ named m boot j f
  | None => forall i, 0 <= i < nent m boot -> ~ named m boot i f
  end.
Proof.
  intros Hf m boot. unfold read_dentry_by_name. fold m boot.
  pose proof (find_dentry_spec (Z.to_nat (nent m boot)) m boot f 0 Hf) as H.
  pose proof (ld32_range m boot : 0 <= nent m boot < _).
  rewrite Z.add_0_l, Z2Nat.id in H by lia. exact H.
Qed.

Lemma copy_name_ok k d buf i m N L :
  region m buf N -> 0 <= i -> i <= L -> L <= i + Z.of_nat k -> L < N ->
  (forall j, i <= j < L -> d_name d j <> 0) -> (L = i + Z.of_nat k \/ d_name d L = 0) ->
  forall m0, region m0 buf N -> filled m0 m buf 0 i (d_name d) ->
  exists m', copy_name k d buf i m = (L, m') /\ same_map m m' /\
    only_changes m0 m' buf N /\ forall j, 0 <= j < L -> ldb m' (buf + j) = d_name d j.
Proof.
  revert i m. induction k as [|k IH]; intros i m Hr Hi HL Hk HN Hnz Hend m0 Hr0 F; cbn [copy_name].
  - replace L with i by lia. exists m. split_and!; [done|reflexivity| |].
    + eapply only_changes_filled; [exact F|lia].
    + intros j Hj. destruct F as [_ F]. rewrite F by lia. apply u8_small, (ldb_range d).
  - assert (F' : filled m0 (stb m (buf + i) (d_name d i)) buf 0 (i + 1) (d_name d))
      by (apply (filled_snoc _ _ _ N); [done|lia|done|done]).
    destruct (Z.eqb_spec (d_name d i) 0) as [E|E].
    + assert (L = i) as -> by (destruct (Z.eq_dec L i); [done|]; exfalso; apply (Hnz i); [lia|done]).
      eexists. split_and!; [done|done| |].
      * eapply only_changes_filled; [exact F'|lia].
      * intros j Hj. destruct F' as [_ F']. rewrite F' by lia. apply u8_small, (ldb_range d).
    + assert (i <> L) by (intros ->; destruct Hend; [lia|done]).
      destruct (IH (i + 1) (stb m (buf + i) (d_name d i))) with (m0 := m0)
        as (m' & E1 & M & C & B); try done; try lia.
      * intros j Hj. apply Hnz. lia.
      * exists m'. done.
Qed.

Lemma dir_read_ok s p fd buf n L :
  get_pcb s = Some p -> 0 <= L <= n -> region (k_mem s) buf (L + 1) ->
  let q := file_position (fd_at p fd s) in
  let d := bytes_at (k_mem s) (dir_addr (k_boot s) q) 64 in
  q <= nent (k_mem s) (k_boot s) ->
  (forall j, 0 <= j < L -> d_name d j <> 0) -> (L = n \/ d_name d L = 0) ->
  exists m', dir_read fd buf n s =
      Ret L (set_mem m' (upd_fd p fd (fun f => with_position (file_position f + 1) f) s)) /\
    bytes_at m' buf (Z.to_nat L) = map (fun i => d_name d (Z.of_nat i)) (seq 0 (Z.to_nat L)) /\
    only_changes (k_mem s) m' buf (L + 1).
Proof.
  intros Hp HL Hr q d Hq Hnz Hend. unfold dir_read, with_pcb. rewrite Hp.
  unfold read_dentry_by_index. fold q. rewrite (proj2 (Z.ltb_ge _ _)) by lia. fold d. simpl k_mem.
  destruct (copy_name_ok (Z.to_nat n) d buf 0 (k_mem s) (L + 1) L) with (m0 := k_mem s)
    as (m' & E & M & C & B); try done; try lia.
  { apply filled_nil. }
  rewrite E. exists m'. split_and!; [done| |done].
  apply (zlist_ext 0); rewrite bytes_at_length; [by rewrite length_map, length_seq|].
  intros i Hi. rewrite bytes_at_get, B by lia. unfold zget.
  rewrite (proj2 (Z.ltb_ge _ _)), list_lookup_fmap, lookup_seq_lt by lia. simpl. f_equal. lia.
Qed.

(** C33: reading a directory through a descriptor whose position is that of an entry, or
    of the slot after the last one, returns the length of its name, at most [n], stores
    exactly those characters,
    and moves the descriptor to the next entry; beyond the entries it returns -1 and
    changes nothing. *)
Theorem dir_read_spec s p fd buf n L :
  get_pcb s = Some p -> pcbs_ok s -> 0 <= fd <= 7 -> 0 <= L <= n -> region (k_mem s) buf (L + 1) ->
  let pos := file_position (fd_at p fd s) in
  let d := bytes_at (k_mem s) (dir_addr (k_boot s) pos) 64 in
  0 <= pos < 4294967295 -> (forall j, 0 <= j < L -> d_name d j <> 0) -> (L = n \/ d_name d L = 0) ->
  (pos <= nent (k_mem s) (k_boot s) ->
   exists s', dir_read fd buf n s = Ret L s' /\
     bytes_at (k_mem s') buf (Z.to_nat L) = map (fun i => d_name d (Z.of_nat i)) (seq 0 (Z.to_nat L)) /\
     only_changes (k_mem s) (k_mem s') buf (L + 1) /\
     fd_at p fd s' = with_position (pos + 1) (fd_at p fd s) /\
     forall p' fd', (p', fd') <> (p, fd) -> fd_at p' fd' s' = fd_at p' fd' s) /\
  (nent (k_mem s) (k_boot s) < pos -> dir_read fd buf n s = Ret (-1) s).
Proof.
  intros Hp Hok Hfd HL Hr pos d Hpos Hnz Hend. pose proof (get_pcb_range s p Hp) as Hp6. split; intros Hc.
  - destruct (dir_read_ok s p fd buf n L Hp HL Hr Hc Hnz Hend) as (m' & E & B & C).
    set (s1 := upd_fd p fd _ s) in E. exists (set_mem m' s1).
    assert (F : forall p' fd', fd_at p' fd' (set_mem m' s1) = fd_at p' fd' s1) by done.
    split_and!; [done|done|done| |intros p' fd' Hne]; rewrite F; unfold s1;
      rewrite fd_at_upd by (done || lia).
    + by rewrite decide_True.
    + rewrite decide_False; [done|]. by intros [-> ->].
  - unfold dir_read, with_pcb. rewrite Hp. unfold read_dentry_by_index. fold pos.
    by rewrite (proj2 (Z.ltb_lt _ _)) by lia.
Qed.

End Directory.
