(* ===== verification/Syscall.v ===== *)
(** * System calls (syscall.c, the dispatcher of handler_wrapper.S)

    Descriptors, files and devices behind [open]/[read]/[write]/[close]; the argument
    string and the video mapping; [execute] and [halt], which leave the kernel: the
    outcome of a successful [execute] is [EnterUser] (the [iret] into the program),
    that of [halt] is [Resume] on the stack its [execute] saved. *)

From stdpp Require Import base list numbers gmap.
From Stdlib Require Import ZArith Lia.
From S2P Require Import Prelude Mem LibStr State Pic Console.
From S2P Require Import Rtc Keyboard Irq Terminal Paging Filesystem.

Definition MAX_CMD_LEN : Z := 32.
Definition MAX_PROCESSES : Z := 6.
Definition MAX_FILES : Z := 8.
Definition _8MB : Z := 0x00800000.
Definition _8KB : Z := 0x00002000.
Definition PROC_OFFSET : Z := 0x00048000.
Definition KERNEL_STACK_BOTTOM : Z := (1024 - 1) * 0x1000.
Definition KERNEL_DS : Z := 0x0018.

(** ['q' 'u' 'i' 't'] and the ELF magic number. *)
Definition quit_str : list Z := [113; 117; 105; 116; 0].
Definition check_exe : list Z := [0x7f; 0x45; 0x4c; 0x46].

(** ** Fields of the control block *)

Definition with_args (l : list Z) (q : pcb) : pcb :=
  mkPcb (file_desc_tb q) l (pid q) (parent_pid q) (saved_esp q) (saved_ebp q) (active q).
Definition with_pid (v : Z) (q : pcb) : pcb :=
  mkPcb (file_desc_tb q) (args q) (u32 v) (parent_pid q) (saved_esp q) (saved_ebp q) (active q).
Definition with_parent (v : Z) (q : pcb) : pcb :=
  mkPcb (file_desc_tb q) (args q) (pid q) (u32 v) (saved_esp q) (saved_ebp q) (active q).
Definition with_saved_esp (v : Z) (q : pcb) : pcb :=
  mkPcb (file_desc_tb q) (args q) (pid q) (parent_pid q) v (saved_ebp q) (active q).
Definition with_saved_ebp (v : Z) (q : pcb) : pcb :=
  mkPcb (file_desc_tb q) (args q) (pid q) (parent_pid q) (saved_esp q) v (active q).
Definition with_active (v : Z) (q : pcb) : pcb :=
  mkPcb (file_desc_tb q) (args q) (pid q) (parent_pid q) (saved_esp q) (saved_ebp q) v.

(** A C function that only changes the state and returns. *)
Definition lift (f : kst -> Z * kst) : K Z := fun s => let '(r, s) := f s in Ret r s.

Section Syscalls.
Context `{D : Device} `{Sy : Symbols}.

(** ** The operation tables *)

Definition op_read (o : fops) (fd buf nbytes : Z) : K Z :=
  match o with
  | F_terminal => terminal_read fd buf nbytes
  | F_rtc => rtc_read fd buf nbytes
  | F_dir => dir_read fd buf nbytes
  | F_file => file_read fd buf nbytes
  | F_unset => fun s => NullDeref s
  end.

Definition op_write (o : fops) (fd buf nbytes : Z) : K Z :=
  match o with
  | F_terminal => lift (terminal_write fd buf nbytes)
  | F_rtc => lift (rtc_write fd buf nbytes)
  | F_dir => lift (dir_write fd buf nbytes)
  | F_file => lift (file_write fd buf nbytes)
  | F_unset => fun s => NullDeref s
  end.

(** ** Files *)

(** The allocation loop of one branch of [sys_open]. *)
Definition alloc_fd (f : file_desc -> file_desc) (k : Z -> K Z) : K Z :=
  with_pcb (fun p s =>
    match free_fd 6 2 (file_desc_tb (pcb_at p s)) with
    | Some i => k i (upd_fd p i f s)
    | None => Ret (-1) s
    end).

Definition sys_open (filename : Z) : K Z := fun s =>
  match read_dentry_by_name (at_ (k_mem s) filename) s with
  | None => Ret (-1) s
  | Some d =>
      if d_ft d =? 0 then
        alloc_fd (fun f => with_position 0 (with_flag 1 (with_f_op F_rtc f)))
          (fun i => (lift (rtc_open filename) ;; kret i)%kernel) s
      else if d_ft d =? 1 then
        alloc_fd (fun f => with_position 0 (with_flag 1 (with_f_op F_dir f))) kret s
      else if d_ft d =? 2 then
        alloc_fd (fun f => with_inode (d_ind d) (with_position 0 (with_flag 1 (with_f_op F_file f))))
          kret s
      else Ret 0 s
  end.

Definition sys_write (fd buf nbytes : Z) : K Z :=
  with_pcb (fun p s =>
    let f := fd_at p fd s in
    if flag f =? 0 then Ret (-1) s
    else if (1 <? fd) && (fd <=? 7) then
      (valid <- op_write (f_op f) fd buf nbytes ;;
       kret (if negb (valid =? -1) then nbytes else (-1)%Z))%kernel s
    else if fd =? 0 then Ret (-1) s
    else if fd =? 1 then op_write (f_op f) fd buf nbytes s
    else Ret (-1) s).

Definition sys_read (fd buf nbytes : Z) : K Z := fun s =>
  if fd <? 0 then Ret (-1) s
  else if fd =? 1 then Ret (-1) s
  else if 7 <? fd then Ret (-1) s
  else
    with_pcb (fun p s =>
      let f := fd_at p fd s in
      if flag f =? 0 then Ret (-1) s else op_read (f_op f) fd buf nbytes s) s.

Definition sys_close (fd : Z) : K Z := fun s =>
  if (fd <=? 1) || (8 <=? fd) then Ret (-1) s
  else
    with_pcb (fun p s =>
      if flag (fd_at p fd s) =? 0 then Ret (-1) s
      else Ret 0 (upd_fd p fd (with_flag 0) s)) s.

(** ** Arguments and video *)

(** [pcb->args[i]]: past the array come the other fields of the structure and then the
    memory after it. *)
Definition args_byte (p i : Z) (s : kst) : Z :=
  let q := pcb_at p s in
  if i <? 128 then ldb (args q) i
  else if i <? 148 then
    let w := zget 0 [pid q; parent_pid q; saved_esp q; saved_ebp q; active q] ((i - 128) / 4) in
    u8 (Z.shiftr w (8 * ((i - 128) mod 4)))
  else ldb (k_mem s) (_8MB - (p + 1) * _8KB + 128 + i).

Definition sys_getargs (buf nbytes : Z) : K Z := fun s =>
  if (buf =? 0) || (nbytes <=? 0) then Ret (-1) s
  else
    with_pcb (fun p s =>
      if args_byte p 0 s =? 0 then Ret (-1) s
      else
        match strlen 4096 (fun i => args_byte p i s) with
        | None => NoFuel
        | Some len =>
            if nbytes <=? len then Ret (-1) s
            else
              let m := memcpy buf (fun m i => args_byte p i (set_mem m s)) nbytes (k_mem s) in
              Ret 0 (set_mem m s)
        end) s.

Definition sys_vidmap (screen_start : Z) (s : kst) : Z * kst :=
  if (screen_start <? MB128) || (MB132 <? screen_start) then (-1, s)
  else (0, set_mem (st32 (k_mem s) screen_start (0x00400000 * 33 + 0xB8000)) s).

Definition sys_sethandler (signum handler_address : Z) (s : kst) : Z * kst := (-1, s).
Definition sys_sigreturn (s : kst) : Z * kst := (-1, s).

(** ** Starting a program *)

(** The first word: at most 32 characters, up to a newline or a space. *)
Fixpoint first_word (k : nat) (cmd : Z -> Z) (i : Z) (name : list Z) : Z * list Z :=
  match k with
  | O => (i, name)
  | S k' =>
      if (cmd i =? 10) || (cmd i =? 32) then (i, name)
      else first_word k' cmd (i + 1) (stb name i (cmd i))
  end.

(** The arguments from [i]: up to a newline, a NUL or index 128. *)
Fixpoint copy_args (k : nat) (cmd : Z -> Z) (i j : Z) (args : list Z) : list Z :=
  match k with
  | O => args
  | S k' =>
      if (cmd (i + j) =? 10) || (cmd (i + j) =? 0) then args
      else copy_args k' cmd i (j + 1) (stb args j (cmd (i + j)))
  end.

(** The argument string of a command whose first word ends at [i]; the loop that skips
    spaces may run past the command, hence the bound. *)
Definition parse_args (fuel : nat) (cmd : Z -> Z) (i : Z) : option (list Z) :=
  if cmd i =? 32 then
    match while fuel (fun i => cmd i =? 32) (fun i => i + 1) i with
    | Some i => Some (copy_args (Z.to_nat (128 - i)) cmd i 0 (replicate 128 0))
    | None => None
    end
  else Some (replicate 128 0).

(** [while (pcb_index < MAX_PROCESSES && curr_pcb[pcb_index]->active) pcb_index++;] *)
Fixpoint find_pcb (k : nat) (i : Z) (l : list pcb) : Z :=
  match k with
  | O => i
  | S k' => if active (zget pcb0 l i) =? 0 then i else find_pcb k' (i + 1) l
  end.

(** The entry point in bytes 24 to 27 of the header. *)
Definition entry_of (exe : list Z) : Z :=
  u32 (Z.land (ldb exe 24) 0xFF + Z.shiftl (Z.land (ldb exe 25) 0xFF) 8 +
       Z.shiftl (Z.land (ldb exe 26) 0xFF) 16 + Z.shiftl (Z.land (ldb exe 27) 0xFF) 24).

(** The control block of a new process. *)
Definition init_pcb (i : Z) (q : pcb) : pcb :=
  let q := with_pid i q in
  let q := with_active 1 q in
  let q := with_parent (pid q - 1) q in
  let q := with_saved_esp (_8MB - 1) q in
  let fds := file_desc_tb q in
  let fds := zset fds 0 (with_f_op F_terminal (with_flag 1 (zget fd0 fds 0))) in
  let fds := zset fds 1 (with_f_op F_terminal (with_flag 1 (zget fd0 fds 1))) in
  let fds := for_loop 2 MAX_PROCESSES (fun i fds => zset fds i (with_flag 0 (zget fd0 fds i))) fds in
  set_fds fds q.

Definition set_kernel_stack (p : Z) (s : kst) : kst :=
  set_tss (mkTss KERNEL_DS (u32 (_8MB - p * _8KB - 4)) (ldt_segment_selector (k_tss s))) s.

(** From the search for a control block to the [iret]. *)
Definition launch (ebp : Z) (inode entry_point : Z) (argv : list Z) : K Z := fun s =>
  let i := find_pcb 6 0 (k_pcbs s) in
  if i =? MAX_PROCESSES then Ret (-1) s
  else
    match strcpy 128 0 (fun _ => at_ argv 0) (args (pcb_at i s)) with
    | None => NoFuel
    | Some a =>
        let s := upd_pcb i (with_args a) s in
        let s := map_program i s in
        let '(_, m) := read_data id (put_mem (MB128 + PROC_OFFSET)) (k_boot s) inode 0
                         KERNEL_STACK_BOTTOM (k_mem s) in
        let s := set_mem m s in
        let s := upd_pcb i (init_pcb i) s in
        let s := set_kernel_stack (pid (pcb_at i s)) s in
        let s := upd_pcb i (fun q => with_saved_ebp ebp (with_saved_esp (k_esp s) q)) s in
        EnterUser entry_point (MB132 - 4) (set_if true s)
    end.

(** [sys_execute], given [sys_halt]; [ebp] is the frame pointer at the call. *)
Definition execute_body (halt : Z -> K Z) (ebp command : Z) : K Z := fun s =>
  let cmd := at_ (k_mem s) command in
  let '(i, command_name) := first_word 32 cmd 0 (replicate 32 0) in
  if zget 0 command_name 0 =? 0 then Ret 0 s
  else
    ((if (strncmp (at_ command_name 0) (at_ quit_str 0) 4 =? 0)%Z then halt 0%Z else kret 0%Z) ;;
     fun s =>
     match parse_args 4096 (at_ (k_mem s) command) i with
     | None => NoFuel
     | Some argv =>
         match read_dentry_by_name (at_ command_name 0) s with
         | None => Ret (-1)%Z s
         | Some d =>
             if negb (d_ft d =? 2)%Z then Ret (-1)%Z s
             else
               let '(_, (_, exe)) := read_data fst put_local (k_boot s) (d_ind d) 0 40
                                       (k_mem s, replicate 40 0%Z) in
               if negb (strncmp (at_ exe 0) (at_ check_exe 0) 4 =? 0)%Z then Ret (-1)%Z s
               else launch ebp (d_ind d) (entry_of exe) argv s
         end
     end)%kernel s.

(** The body of the loop of [sys_halt]: it frees descriptor 0, whatever its index. *)
Definition close_step (p : Z) (s : kst) : kst :=
  upd_pcb p (with_active 0) (upd_fd p 0 (with_flag 0) s).

(** [sys_halt], given [sys_execute]. *)
Definition halt_body (execute : Z -> K Z) (status : Z) : K Z :=
  with_pcb (fun p s =>
    let s := for_loop 0 MAX_FILES (fun _ s => close_step p s) s in
    ((fun s =>
        if parent_pid (pcb_at p s) =? u32 (-1) then
          let s := upd_pcb p (fun q => with_pid (pid q - 1) q) s in
          let s := clear_term s in
          execute sym_shell s
        else Ret 0%Z s) ;;
     fun s =>
       let parent := parent_pid (pcb_at p s) in
       let s := map_program parent s in
       let s := set_kernel_stack parent s in
       Resume (saved_esp (pcb_at p s)) (saved_ebp (pcb_at p s)) (u32 (i8 (u8 status))) s)%kernel s).

(** The two call each other: [quit] halts, and halting the first shell starts it
    again.  [fuel] bounds the depth. *)
Fixpoint sys_execute (fuel : nat) (ebp command : Z) : K Z :=
  match fuel with
  | O => fun _ => NoFuel
  | S f => execute_body (halt_body (sys_execute f ebp)) ebp command
  end.

Definition sys_halt (fuel : nat) (ebp status : Z) : K Z := halt_body (sys_execute fuel ebp) status.

(** ** The dispatcher

    [eax] is the call number, [ebx], [ecx], [edx] the arguments; the numbers 1 to 8
    have an entry in the table, 9 passes the range check without one. *)
Definition syscall_wrapper (fuel : nat) (ebp eax ebx ecx edx : Z) : K Z := fun s =>
  if (9 <? u32 eax) || (i32 eax <=? 0) then Ret (-1) s
  else if eax =? 1 then sys_halt fuel ebp (u8 ebx) s
  else if eax =? 2 then sys_execute fuel ebp ebx s
  else if eax =? 3 then sys_read (i32 ebx) ecx (i32 edx) s
  else if eax =? 4 then sys_write (i32 ebx) ecx (i32 edx) s
  else if eax =? 5 then sys_open ebx s
  else if eax =? 6 then sys_close (i32 ebx) s
  else if eax =? 7 then sys_getargs ebx (i32 ecx) s
  else if eax =? 8 then lift (sys_vidmap ebx) s
  else BadJump s.

End Syscalls.

(** ** Descriptors *)

Section FdFacts.
Context `{D : Device} `{Sy : Symbols}.
Implicit Types s : kst.

(** The allocation picks the least free descriptor. *)
Lemma free_fd_spec k i l :
  match free_fd k i l with
  | Some j => i <= j < i + Z.of_nat k /\ flag (zget fd0 l j) = 0 /\
      forall j', i <= j' < j -> flag (zget fd0 l j') <> 0
  | None => forall j, i <= j < i + Z.of_nat k -> flag (zget fd0 l j) <> 0
  end.
Proof.
  revert i. induction k as [|k IH]; intros i; cbn [free_fd]; [lia|].
  destruct (Z.eqb_spec (flag (zget fd0 l i)) 0).
  - split_and!; [lia|lia|done|lia].
  - specialize (IH (i + 1)). destruct (free_fd k (i + 1) l).
    + destruct IH as (H1 & H2 & H3). split_and!; [lia|lia|done|].
      intros j' Hj. destruct (Z.eq_dec j' i) as [->|]; [done|]. apply H3. lia.
    + intros j Hj. destruct (Z.eq_dec j i) as [->|]; [done|]. apply IH. lia.
Qed.

(** The operation table and the inode a directory entry's type calls for. *)
Definition fd_for (d : dentry) (f : file_desc) : option file_desc :=
  if d_ft d =? 0 then Some (mkFd F_rtc (fd_inode f) 0 1)
  else if d_ft d =? 1 then Some (mkFd F_dir (fd_inode f) 0 1)
  else if d_ft d =? 2 then Some (mkFd F_file (d_ind d) 0 1)
  else None.

(** Only the clock's variables and descriptor [fd] of process [p] differ. *)
Definition only_fd (p fd : Z) (s s' : kst) : Prop :=
  s' = set_rtc (k_rtc s') (set_pcbs (k_pcbs s') s) /\ pcbs_ok s' /\
  (forall p' fd', (p', fd') <> (p, fd) -> fd_at p' fd' s' = fd_at p' fd' s) /\
  exists l, k_pcbs s' = k_pcbs (upd_pcb p (set_fds l) s).

Lemma only_fd_upd p fd f s :
  pcbs_ok s -> 0 <= p < 6 -> 0 <= fd < 8 ->
  only_fd p fd s (upd_fd p fd f s) /\ fd_at p fd (upd_fd p fd f s) = f (fd_at p fd s).
Proof.
  intros Hok Hp Hfd. split; [split_and!|].
  - by destruct s.
  - by apply pcbs_ok_upd_fd.
  - intros p' fd' Hne. rewrite fd_at_upd by done. rewrite decide_False; [done|]. by intros [-> ->].
  - eexists. reflexivity.
  - rewrite fd_at_upd by done. by rewrite decide_True.
Qed.

Lemma rtc_open_frame a s :
  exists r, snd (rtc_open a s) = set_rtc r s.
Proof. unfold rtc_open. split_if; simpl; [exists (k_rtc s); by destruct s|by eexists]. Qed.

Lemma sys_open_ok s p filename d :
  get_pcb s = Some p -> pcbs_ok s ->
  read_dentry_by_name (at_ (k_mem s) filename) s = Some d ->
  match free_fd 6 2 (file_desc_tb (pcb_at p s)) with
  | Some fd =>
      match fd_for d (fd_at p fd s) with
      | Some f => exists s', sys_open filename s = Ret fd s' /\ fd_at p fd s' = f /\
          only_fd p fd s s' /\ (d_ft d <> 0 -> k_rtc s' = k_rtc s)
      | None => sys_open filename s = Ret 0 s
      end
  | None => d_ft d <= 2 -> sys_open filename s = Ret (-1) s
  end.
Proof.
  intros Hp Hok Hd. unfold sys_open. rewrite Hd.
  pose proof (get_pcb_range s p Hp) as Hp6. pose proof (ld32_range d 32 : 0 <= d_ft d < _) as Hft.
  pose proof (free_fd_spec 6 2 (file_desc_tb (pcb_at p s))) as Hfree.
  unfold alloc_fd, with_pcb. rewrite Hp. destruct (free_fd 6 2 _) as [fd|].
  - destruct Hfree as (Hfd & _). unfold fd_for.
    destruct (d_ft d =? 0) eqn:E0; [|destruct (d_ft d =? 1) eqn:E1; [|destruct (d_ft d =? 2) eqn:E2]].
    + destruct (only_fd_upd p fd (fun f => with_position 0 (with_flag 1 (with_f_op F_rtc f))) s)
        as [O1 F1]; try done; [lia|].
      set (s1 := upd_fd p fd _ s) in *. destruct (rtc_open_frame filename s1) as [r Er].
      unfold kbind, lift. destruct (rtc_open filename s1) as [v s2]. simpl in Er. subst s2.
      exists (set_rtc r s1). split_and!; [done|exact F1| |lia].
      destruct O1 as (O1 & O2 & O3 & O4). split_and!; [|done|done|exact O4]. rewrite O1. by destruct s.
    + destruct (only_fd_upd p fd (fun f => with_position 0 (with_flag 1 (with_f_op F_dir f))) s)
        as [O1 F1]; try done; [lia|]. eexists. by split_and!.
    + destruct (only_fd_upd p fd (fun f => with_inode (d_ind d) (with_position 0 (with_flag 1 (with_f_op F_file f)))) s)
        as [O1 F1]; try done; [lia|]. eexists. by split_and!.
    + done.
  - intros. destruct (d_ft d =? 0) eqn:?; [done|]. destruct (d_ft d =? 1) eqn:?; [done|].
    destruct (d_ft d =? 2) eqn:?; [done|]. lia.
Qed.

(** C27: opening a name: unknown names give -1 and change nothing; a known name of type
    clock, directory or file takes the least free descriptor from 2 to 7, which then
    is open at position 0 with that type's operations (and the file's inode), while
    every other descriptor of every process is as before; -1 when all are in use.
    An entry of another type gives 0. *)
Theorem sys_open_spec s p filename :
  get_pcb s = Some p -> pcbs_ok s ->
  match read_dentry_by_name (at_ (k_mem s) filename) s with
  | None => sys_open filename s = Ret (-1) s
  | Some d =>
      (exists fd f s', 2 <= fd <= 7 /\ flag (fd_at p fd s) = 0 /\
         (forall j, 2 <= j < fd -> flag (fd_at p j s) <> 0) /\
         fd_for d (fd_at p fd s) = Some f /\ sys_open filename s = Ret fd s' /\
         fd_at p fd s' = f /\ only_fd p fd s s') \/
      (d_ft d <= 2 /\ (forall j, 2 <= j <= 7 -> flag (fd_at p j s) <> 0) /\
         sys_open filename s = Ret (-1) s) \/
      (2 < d_ft d /\ sys_open filename s = Ret 0 s)
  end.
Proof.
  intros Hp Hok. destruct (read_dentry_by_name _ _) as [d|] eqn:Hd; [|unfold sys_open; by rewrite Hd].
  pose proof (sys_open_ok s p filename d Hp Hok Hd) as H.
  pose proof (free_fd_spec 6 2 (file_desc_tb (pcb_at p s))) as Hfree.
  pose proof (ld32_range d 32 : 0 <= d_ft d < _) as Hft.
  destruct (Z.le_gt_cases (d_ft d) 2).
  - destruct (free_fd 6 2 _) as [fd|].
    + destruct Hfree as (H1 & H2 & H3). unfold fd_for in *. left.
      destruct (d_ft d =? 0) eqn:?; [|destruct (d_ft d =? 1) eqn:?; [|destruct (d_ft d =? 2) eqn:?; [|lia]]];
      destruct H as (s' & E & F & O & _); eexists fd, _, s'; split_and!; try done; try lia.
    + right; left. split_and!; [done| |by apply H]. intros j Hj. apply Hfree. lia.
  - right; right. split; [lia|]. unfold sys_open. rewrite Hd.
    rewrite !(proj2 (Z.eqb_neq (d_ft d) _)) by lia. done.
Qed.

(** A regular file opened by name can be read: the descriptor returned is an open
    file at position 0 of the inode the directory gives, and [sys_read] on it is
    [file_read]. *)
Theorem open_then_read s p filename d fd s' :
  get_pcb s = Some p -> pcbs_ok s -> fs_wf (k_mem s) (k_boot s) ->
  read_dentry_by_name (at_ (k_mem s) filename) s = Some d -> d_ft d = 2 ->
  d_ind d < nnod (k_mem s) (k_boot s) -> sys_open filename s = Ret fd s' -> fd <> -1 ->
  open_file s' p fd (d_ind d) 0 /\
  forall buf n, sys_read fd buf n s' = file_read fd buf n s'.
Proof.
  intros Hp Hok Hw Hd Hft Hi Ho Hne. pose proof (sys_open_ok s p filename d Hp Hok Hd) as H.
  pose proof (free_fd_spec 6 2 (file_desc_tb (pcb_at p s))) as Hfree.
  destruct (free_fd 6 2 _) as [j|]; [|rewrite H in Ho by lia; by simplify_eq].
  destruct Hfree as (Hj & _). unfold fd_for in H. rewrite Hft in H. simpl in H.
  destruct H as (s1 & E & F & (O1 & O2 & _) & Hr). rewrite E in Ho. simplify_eq.
  specialize (Hr ltac:(lia)).
  assert (Hp' : get_pcb s' = Some p) by (rewrite O1; exact Hp).
  split.
  - split; try done; try lia; rewrite ?F; try done.
    + by rewrite O1.
    + rewrite O1. split; [apply ld32_range|done].
    + pose proof (ld32_range (k_mem s') (inode_addr (k_boot s') (d_ind d))). unfold file_len. lia.
  - intros buf n. unfold sys_read, with_pcb.
    rewrite (proj2 (Z.ltb_ge fd 0)), (proj2 (Z.eqb_neq fd 1)), (proj2 (Z.ltb_ge 7 fd)) by lia.
    rewrite Hp', F. done.
Qed.


End FdFacts.
