(* ===== verification/Process.v ===== *)
(** * Processes: [execute], [halt], [getargs], [vidmap]

    Theorems on the system calls of Syscall.v that create, end and serve processes:
    how a command line is split, what a program finds when it starts (its file in its
    own frame, its control block, its arguments, its kernel stack), and where [halt]
    resumes. *)

From stdpp Require Import base list numbers gmap.
From Stdlib Require Import ZArith Lia.
From S2P Require Import Prelude Mem LibStr State Pic Console.
From S2P Require Import Rtc Keyboard Irq Terminal Paging Filesystem Syscall.

(** ** Command lines *)

(** [cmd] begins with the characters of [l]. *)
Definition reads_list (cmd : Z -> Z) (l : list Z) : Prop :=
  forall i, 0 <= i < Z.of_nat (length l) -> cmd i = zget 0 l i.

(** [a] followed by zeros, [n] bytes in all. *)
Definition padded (n : nat) (a : list Z) : list Z := a ++ replicate (n - length a) 0.

Section Parse.

Lemma padded_length n a : (length a <= n)%nat -> length (padded n a) = n.
Proof. intros. unfold padded. rewrite length_app, length_replicate. lia. Qed.

Lemma padded_snoc n a c :
  (length a < n)%nat -> 0 <= c < 256 -> stb (padded n a) (Z.of_nat (length a)) c = padded n (a ++ [c]).
Proof.
  intros Hl Hc. unfold stb; simpl. rewrite u8_small by done. unfold zset, padded.
  rewrite (proj2 (Z.ltb_ge _ _)), Nat2Z.id by lia. rewrite length_app. simpl.
  replace (n - length a)%nat with (S (n - (length a + 1))) by lia.
  rewrite <- (Nat.add_0_r (length a)) at 1. rewrite insert_app_r. simpl. by rewrite <- app_assoc.
Qed.

Lemma zget_lookup (l : list Z) n x : l !! n = Some x -> zget 0 l (Z.of_nat n) = x.
Proof.
  intros H. unfold zget. by rewrite (proj2 (Z.ltb_ge _ _)), Nat2Z.id, H by lia.
Qed.

Lemma reads_app_r cmd l1 l2 :
  reads_list cmd (l1 ++ l2) -> reads_list (fun i => cmd (Z.of_nat (length l1) + i)) l2.
Proof.
  intros H i Hi. rewrite H by (rewrite length_app; lia). unfold zget.
  rewrite !(proj2 (Z.ltb_ge _ _)) by lia. rewrite lookup_app_r by lia. do 3 f_equal. lia.
Qed.

(** The scan of the first word consumes the characters that do not end it. *)
Lemma first_word_ok k cmd w done_ stop :
  reads_list (fun i => cmd (Z.of_nat (length done_) + i)) (w ++ [stop]) ->
  Forall (fun c => 0 <= c < 256 /\ c <> 10 /\ c <> 32) w -> stop = 10 \/ stop = 32 ->
  (length done_ + length w <= 32)%nat -> (length w <= k)%nat -> 
  first_word k cmd (Z.of_nat (length done_)) (padded 32 done_) =
    (Z.of_nat (length done_ + length w), padded 32 (done_ ++ w)).
Proof.
  revert k done_. induction w as [|c w IH]; intros k dn Hr Hw Hs Hl Hk.
  - rewrite app_nil_r, Nat.add_0_r. destruct k; cbn [first_word]; [done|].
    specialize (Hr 0 ltac:(simpl; lia)). cbv beta in Hr. rewrite Z.add_0_r in Hr. rewrite Hr. simpl.
    destruct Hs as [-> | ->]; done.
  - apply Forall_cons in Hw as [(Hc & H10 & H32) Hw]. destruct k as [|k]; [simpl in Hk; lia|].
    cbn [first_word]. pose proof (Hr 0 ltac:(simpl; lia)) as Hc0. cbv beta in Hc0. rewrite Z.add_0_r in Hc0.
    simpl in Hc0. rewrite Hc0. change (zget 0 (c :: w ++ [stop]) 0) with c.
    rewrite (proj2 (Z.eqb_neq c 10)), (proj2 (Z.eqb_neq c 32)) by done. cbn [orb].
    simpl in Hl, Hk. rewrite padded_snoc by (done || lia).
    replace (Z.of_nat (length dn) + 1) with (Z.of_nat (length (dn ++ [c])))
      by (rewrite length_app; simpl; lia).
    rewrite IH; [| |done|done|rewrite length_app; simpl; lia|lia].
    + rewrite length_app, <- app_assoc. simpl. f_equal. lia.
    + rewrite length_app. simpl. intros i Hi.
      replace (Z.of_nat (length dn + 1) + i) with (Z.of_nat (length dn) + (1 + i)) by lia.
      rewrite (Hr (1 + _)) by (simpl; lia). unfold zget. rewrite !(proj2 (Z.ltb_ge _ _)) by lia.
      replace (Z.to_nat (1 + i)) with (S (Z.to_nat i)) by lia. done.
Qed.

Lemma copy_args_ok k cmd i a dn stop :
  reads_list (fun j => cmd (i + (Z.of_nat (length dn) + j))) (a ++ [stop]) ->
  Forall (fun c => 0 < c < 256 /\ c <> 10) a -> stop = 10 \/ stop = 0 ->
  (length dn + length a <= 128)%nat -> (length a <= k)%nat ->
  copy_args k cmd i (Z.of_nat (length dn)) (padded 128 dn) = padded 128 (dn ++ a).
Proof.
  revert k dn. induction a as [|c a IH]; intros k dn Hr Ha Hs Hl Hk.
  - rewrite app_nil_r. destruct k; cbn [copy_args]; [done|].
    specialize (Hr 0 ltac:(simpl; lia)). cbv beta in Hr. rewrite Z.add_0_r in Hr. rewrite Hr. simpl.
    destruct Hs as [-> | ->]; done.
  - apply Forall_cons in Ha as [[Hc H10] Ha]. destruct k as [|k]; [simpl in Hk; lia|].
    cbn [copy_args]. pose proof (Hr 0 ltac:(simpl; lia)) as Hc0. cbv beta in Hc0. rewrite Z.add_0_r in Hc0.
    simpl in Hc0. rewrite Hc0. change (zget 0 (c :: a ++ [stop]) 0) with c.
    rewrite (proj2 (Z.eqb_neq c 10)), (proj2 (Z.eqb_neq c 0)) by lia. cbn [orb].
    simpl in Hl, Hk. rewrite padded_snoc by lia.
    replace (Z.of_nat (length dn) + 1) with (Z.of_nat (length (dn ++ [c])))
      by (rewrite length_app; simpl; lia).
    rewrite IH; [|  |done|done|rewrite length_app; simpl; lia|lia].
    + by rewrite <- app_assoc.
    + rewrite length_app. simpl. intros j Hj.
      replace (i + (Z.of_nat (length dn + 1) + j)) with (i + (Z.of_nat (length dn) + (1 + j))) by lia.
      rewrite (Hr (1 + _)) by (simpl; lia). unfold zget. rewrite !(proj2 (Z.ltb_ge _ _)) by lia.
      replace (Z.to_nat (1 + j)) with (S (Z.to_nat j)) by lia. done.
Qed.

Lemma skip_spaces fuel cmd i k :
  (forall j, 0 <= j < Z.of_nat k -> cmd (i + j) = 32) -> cmd (i + Z.of_nat k) <> 32 ->
  (k <= fuel)%nat -> while fuel (fun i => cmd i =? 32) (fun i => i + 1) i = Some (i + Z.of_nat k).
Proof.
  revert fuel i. induction k as [|k IH]; intros fuel i Hs He Hf.
  - rewrite Z.add_0_r in *. destruct fuel; simpl; by rewrite (proj2 (Z.eqb_neq _ _)).
  - destruct fuel as [|fuel]; [lia|]. simpl.
    pose proof (Hs 0 ltac:(lia)) as H0. rewrite Z.add_0_r in H0. rewrite H0. simpl.
    rewrite IH; [f_equal; lia| | |lia].
    + intros j Hj. replace (i + 1 + j) with (i + (1 + j)) by lia. apply Hs. lia.
    + by replace (i + 1 + Z.of_nat k) with (i + Z.of_nat (S k)) by lia.
Qed.

Lemma parse_line cmd w k a stop :
  reads_list cmd (w ++ replicate (S k) 32 ++ a ++ [stop]) ->
  Forall (fun c => 0 <= c < 256 /\ c <> 10 /\ c <> 32) w ->
  Forall (fun c => 0 < c < 256 /\ c <> 10) a -> zget 0 (a ++ [stop]) 0 <> 32 ->
  stop = 10 \/ stop = 0 -> (length w <= 32)%nat ->
  (length w + S k + length a <= 128)%nat ->
  first_word 32 cmd 0 (replicate 32 0) = (Z.of_nat (length w), padded 32 w) /\
  parse_args 4096 cmd (Z.of_nat (length w)) = Some (padded 128 a).
Proof.
  intros Hr Hw Ha H32 Hs Hl Hla. split.
  - apply (first_word_ok 32 cmd w [] 32); try done; [|by right].
    intros i Hi. rewrite length_app in Hi. simpl in Hi. simpl length. rewrite Z.add_0_l, Hr.
    + unfold zget. rewrite (proj2 (Z.ltb_ge _ _)) by lia. simpl.
      rewrite !lookup_app. destruct (w !! Z.to_nat i) eqn:E; [done|].
      apply lookup_ge_None in E. by replace (Z.to_nat i - length w)%nat with O by lia.
    + rewrite !length_app, length_replicate. simpl. lia.
  - pose proof (reads_app_r _ _ _ Hr) as Hr1. pose proof (reads_app_r _ _ _ Hr1) as Hr2.
    rewrite length_replicate in Hr2. unfold parse_args.
    set (n := Z.of_nat (length w)) in *.
    assert (Sp : forall j, 0 <= j < Z.of_nat (S k) -> cmd (n + j) = 32).
    { intros j Hj. rewrite Hr1 by (rewrite length_app, length_replicate; lia). unfold zget.
      rewrite (proj2 (Z.ltb_ge _ _)), lookup_app_l by (rewrite ?length_replicate; lia).
      rewrite lookup_replicate_2 by lia. done. }
    pose proof (Sp 0 ltac:(lia)) as S0. rewrite Z.add_0_r in S0. rewrite S0. cbn [Z.eqb Pos.eqb].
    rewrite (skip_spaces 4096 cmd n (S k)); [|done| |lia].
    + f_equal. apply (copy_args_ok _ cmd _ a [] stop); simpl length; try done; try lia.
      intros j Hj. rewrite Z.add_0_l. replace (n + Z.of_nat (S k) + j) with (n + (Z.of_nat (S k) + j)) by lia.
      by apply Hr2.
    + specialize (Hr2 0 ltac:(rewrite length_app; simpl; lia)). cbv beta in Hr2. rewrite Z.add_0_r in Hr2. by rewrite Hr2.
Qed.

(** Where the scan of the first word stops, and what it has copied. *)
Lemma first_word_scan k cmd i name :
  0 <= i -> i + Z.of_nat k = Z.of_nat (length name) ->
  let '(i', name') := first_word k cmd i name in
  (i' = i + Z.of_nat k \/ cmd i' = 10 \/ cmd i' = 32) /\ i <= i' <= i + Z.of_nat k /\
  length name' = length name /\ (forall j, i <= j < i' -> cmd j <> 10 /\ cmd j <> 32) /\
  forall j, zget 0 name' j = if (i <=? j) && (j <? i') then u8 (cmd j) else zget 0 name j.
Proof.
  revert i name. induction k as [|k IH]; intros i name Hi Hk; cbn [first_word].
  - split_and!; [left; lia|lia|lia|done|lia|]. intros j. by destruct ((i <=? j) && (j <? i)) eqn:E; [lia|].
  - destruct ((cmd i =? 10) || (cmd i =? 32)) eqn:Ec.
    { split_and!; [right; lia|lia|lia|done|lia|]. intros j. by destruct ((i <=? j) && (j <? i)) eqn:E; [lia|]. }
    assert (Hlen : length (stb name i (cmd i)) = length name) by apply zset_length.
    specialize (IH (i + 1) (stb name i (cmd i)) ltac:(lia) ltac:(rewrite Hlen; lia)).
    destruct (first_word k cmd (i + 1) _) as [i' name']. destruct IH as (H1 & H2 & H3 & H4 & H5).
    split_and!; [destruct H1; [left; lia|by right]|lia|lia|congruence| |].
    + intros j Hj. destruct (Z.eq_dec j i) as [->|]; [lia|]. apply H4. lia.
    + intros j. rewrite H5. change (stb name i (cmd i)) with (zset name i (u8 (cmd i))).
      destruct (Z.eq_dec j i) as [->|].
      * rewrite zget_zset_eq by lia. destruct ((i + 1 <=? i) && (i <? i')) eqn:?, ((i <=? i) && (i <? i')) eqn:?; (done || lia).
      * rewrite zget_zset_ne by lia. destruct ((i + 1 <=? j) && (j <? i')) eqn:?, ((i <=? j) && (j <? i')) eqn:?; (done || lia).
Qed.

(** A word that ends in a NUL, as the shell leaves it: the scan runs on behind the NUL,
    and as long as it meets no space there, there are no arguments. *)
Lemma parse_bare cmd w :
  reads_list cmd (w ++ [0]) -> Forall (fun c => 0 < c < 256 /\ c <> 10 /\ c <> 32) w ->
  (length w < 32)%nat -> (forall j, 0 <= cmd j < 256) ->
  (forall j, Z.of_nat (length w) < j <= 32 -> cmd j <> 32) ->
  exists i name, first_word 32 cmd 0 (replicate 32 0) = (i, name) /\ cstr (at_ name 0) w /\
    parse_args 4096 cmd i = Some (padded 128 []).
Proof.
  intros Hr Hw Hl Hb Hsp. pose proof (first_word_scan 32 cmd 0 (replicate 32 0) ltac:(lia) eq_refl) as S.
  destruct (first_word 32 cmd 0 (replicate 32 0)) as [i name]. destruct S as (S1 & S2 & S3 & S4 & S5).
  exists i, name. split; [done|]. rewrite length_replicate in S3.
  assert (Rw : forall j, 0 <= j < Z.of_nat (length w) -> cmd j = zget 0 w j).
  { intros j Hj. rewrite Hr by (rewrite length_app; simpl; lia). by apply zget_app_l. }
  assert (R0 : cmd (Z.of_nat (length w)) = 0) by (rewrite Hr by (rewrite length_app; simpl; lia); apply zget_snoc).
  assert (Nw : forall j, 0 <= j < Z.of_nat (length w) -> 0 < cmd j < 256 /\ cmd j <> 10 /\ cmd j <> 32).
  { intros j Hj. rewrite Rw by done. unfold zget. rewrite (proj2 (Z.ltb_ge _ _)) by lia.
    destruct (lookup_lt_is_Some_2 w (Z.to_nat j)) as [c Hc]; [lia|]. rewrite Hc. by eapply Forall_lookup_1 in Hw. }
  assert (Hi : Z.of_nat (length w) < i).
  { destruct (Z.lt_trichotomy i (Z.of_nat (length w))) as [Hlt|[->|]]; [|lia|done].
    destruct S1 as [->|S1]; [lia|]. destruct (Nw i ltac:(lia)) as (_ & ? & ?). tauto. }
  assert (Nm : forall j, 0 <= j < i -> at_ name 0 j = cmd j).
  { intros j Hj. change (u8 (zget 0 name j) = cmd j). rewrite S5.
    destruct ((0 <=? j) && (j <? i)) eqn:E; [|lia]. by rewrite u8_u8, u8_small. }
  split.
  - split_and!; [eapply Forall_impl; [exact Hw|]; simpl; lia| |by rewrite Nm by lia].
    intros j Hj. rewrite Nm by lia. by apply Rw.
  - unfold parse_args. rewrite (proj2 (Z.eqb_neq (cmd i) 32)); [done|].
    destruct S1 as [->|[S1|S1]]; [apply Hsp; lia|lia|].
    exfalso. by apply (Hsp i); [lia|].
Qed.

(** C29: a command line [word], spaces, [arguments], then a newline or NUL is split into
    the word (zero-padded to 32 bytes) and the arguments (zero-padded to 128 bytes),
    whenever the word has at most 32 characters and the line at most 128; the word
    ends only at a space or newline, a NUL is a character of it like any other.  A word
    of fewer than 32 characters that a NUL ends is read as that word with no arguments
    when the bytes behind it, up to the 32nd, are not spaces. *)
Theorem parse_command cmd w :
  Forall (fun c => 0 <= c < 256 /\ c <> 10 /\ c <> 32) w -> (length w <= 32)%nat ->
  (forall j, 0 <= cmd j < 256) ->
  (forall k a stop, reads_list cmd (w ++ replicate (S k) 32 ++ a ++ [stop]) ->
     Forall (fun c => 0 < c < 256 /\ c <> 10) a -> zget 0 (a ++ [stop]) 0 <> 32 ->
     stop = 10 \/ stop = 0 -> (length w + S k + length a <= 128)%nat ->
     first_word 32 cmd 0 (replicate 32 0) = (Z.of_nat (length w), padded 32 w) /\
     parse_args 4096 cmd (Z.of_nat (length w)) = Some (padded 128 a)) /\
  (reads_list cmd (w ++ [0]) -> Forall (fun c => c <> 0) w -> (length w < 32)%nat ->
     (forall j, Z.of_nat (length w) < j <= 32 -> cmd j <> 32) ->
     exists i name, first_word 32 cmd 0 (replicate 32 0) = (i, name) /\ cstr (at_ name 0) w /\
       parse_args 4096 cmd i = Some (padded 128 [])).
Proof.
  intros Hw Hl Hb. split; [intros k a stop **; by apply (parse_line cmd w k a stop)|]. intros Hr Hz Hlt Hsp. apply parse_bare; try done.
  eapply Forall_impl; [apply Forall_and; exact (conj Hw Hz)|]. simpl. lia.
Qed.

End Parse.

(** ** What a new process finds *)

(** What a change of process leaves alone: ports, interrupts to come, console, clock,
    keyboard and file system. *)
Definition same_devices (s s' : kst) : Prop :=
  k_io s' = k_io s /\ k_irqs s' = k_irqs s /\ k_con s' = k_con s /\ k_pic s' = k_pic s /\
  k_rtc s' = k_rtc s /\ k_kbd s' = k_kbd s /\ k_boot s' = k_boot s /\ k_esp s' = k_esp s.

(** The state when process [i] starts, from the state of its parent's call. *)
Record started (s s' : kst) (i ebp : Z) (argl : list Z) : Prop := {
  st_pid : pid (pcb_at i s') = i;
  st_parent : parent_pid (pcb_at i s') = u32 (i - 1);
  st_active : active (pcb_at i s') = 1;
  st_esp : saved_esp (pcb_at i s') = k_esp s;
  st_ebp : saved_ebp (pcb_at i s') = ebp;
  st_args : cstr (at_ (args (pcb_at i s')) 0) argl;
  st_std : forall fd, 0 <= fd <= 1 ->
    flag (fd_at i fd s') = 1 /\ f_op (fd_at i fd s') = F_terminal;
  st_closed : forall fd, 2 <= fd <= 5 -> flag (fd_at i fd s') = 0;
  st_kept : forall fd, 6 <= fd <= 7 -> fd_at i fd s' = fd_at i fd s;
  st_others : forall j, j <> i -> pcb_at j s' = pcb_at j s;
  st_esp0 : k_tss s' = mkTss KERNEL_DS (_8MB - i * _8KB - 4) (ldt_segment_selector (k_tss s));
  st_if : k_if s' = true;
  st_devices : same_devices s s';
  st_pcbs : pcbs_ok s'
}.

Section Launch.
Context `{D : Device} `{Sy : Symbols} `{AS : !AlignedSymbols}.
Implicit Types s : kst.

Lemma find_pcb_spec k i l :
  i <= find_pcb k i l <= i + Z.of_nat k /\
  (forall j, i <= j < find_pcb k i l -> active (zget pcb0 l j) <> 0) /\
  (find_pcb k i l < i + Z.of_nat k -> active (zget pcb0 l (find_pcb k i l)) = 0).
Proof.
  revert i. induction k as [|k IH]; intros i; cbn [find_pcb]; [split_and!; lia|].
  destruct (Z.eqb_spec (active (zget pcb0 l i)) 0).
  - split_and!; [lia|lia|lia|done].
  - destruct (IH (i + 1)) as (H1 & H2 & H3). split_and!; [lia|lia| |intros; apply H3; lia].
    intros j Hj. destruct (Z.eq_dec j i) as [->|]; [done|]. apply H2. lia.
Qed.

(** Kernel addresses read the same whatever frame is mapped. *)
Lemma kernel_ldb m m' a : phys m' = phys m -> 0 <= a < MB128 -> ldb m' a = ldb m a.
Proof.
  intros E Ha. unfold ldb; simpl. unfold vmem_ldb. by rewrite !tr_kernel, E by done.
Qed.

Lemma remap_image m m' boot :
  fs_wf m boot -> phys m' = phys m -> same_image m m' boot.
Proof. intros (H0 & Hb & _) E i Hi. apply kernel_ldb; [done|lia]. Qed.

Lemma init_fds fds :
  length fds = 8%nat ->
  let l := for_loop 2 MAX_PROCESSES (fun i fds => zset fds i (with_flag 0 (zget fd0 fds i))) fds in
  length l = 8%nat /\
  forall j, zget fd0 l j = if (2 <=? j) && (j <? 6) then with_flag 0 (zget fd0 fds j) else zget fd0 fds j.
Proof.
  intros Hl l. change MAX_PROCESSES with 6 in l.
  assert (H : (fun k l => length l = 8%nat /\ forall j, zget fd0 l j =
    if (2 <=? j) && (j <? k) then with_flag 0 (zget fd0 fds j) else zget fd0 fds j) 6 l).
  { unfold l. apply for_loop_inv; [lia| |].
    - split; [done|]. intros j. split_if; [lia|done].
    - intros j t Hj [L H]. split; [by rewrite zset_length|]. intros j'.
      rewrite zget_zset by lia. case_decide as E.
      + subst j'. rewrite H. repeat split_if; done || lia.
      + rewrite H. repeat split_if; done || lia. }
  exact H.
Qed.

Lemma init_pcb_spec i q :
  length (file_desc_tb q) = 8%nat ->
  length (file_desc_tb (init_pcb i q)) = 8%nat /\
  forall j, zget fd0 (file_desc_tb (init_pcb i q)) j =
    if (0 <=? j) && (j <? 2) then with_f_op F_terminal (with_flag 1 (zget fd0 (file_desc_tb q) j))
    else if (2 <=? j) && (j <? 6) then with_flag 0 (zget fd0 (file_desc_tb q) j)
    else zget fd0 (file_desc_tb q) j.
Proof.
  intros Hl. unfold init_pcb. cbn [file_desc_tb set_fds with_saved_esp with_parent with_active with_pid].
  set (fds := file_desc_tb q) in *.
  set (f1 := zset fds 0 _). set (f2 := zset f1 1 _).
  assert (L2 : length f2 = 8%nat) by (unfold f2, f1; by rewrite !zset_length).
  destruct (init_fds f2 L2) as [L H]. split; [done|]. intros j. rewrite H.
  assert (E2 : zget fd0 f2 j = if (0 <=? j) && (j <? 2)
    then with_f_op F_terminal (with_flag 1 (zget fd0 fds j)) else zget fd0 fds j).
  { unfold f2. rewrite zget_zset by (unfold f1; rewrite zset_length; lia). case_decide as E.
    - subst j. unfold f1. by rewrite zget_zset_ne.
    - unfold f1. rewrite zget_zset by lia. case_decide; [by subst|]. repeat split_if; done || lia. }
  rewrite E2. repeat split_if; done || lia.
Qed.

(** The room for a program in its frame. *)
Definition PROG_MAX : Z := MB4 - PROC_OFFSET.

(** Of physical memory below 128 MiB at most the frame of process [i] differs. *)
Definition only_frame (i : Z) (m m' : vmem) : Prop :=
  forall a, 0 <= a < MB128 -> ~ (frame i <= a < frame i + MB4) -> ldb m' a = ldb m a.

Lemma only_frame_low i m m' a : 0 <= i -> only_frame i m m' -> 0 <= a < _8MB -> ldb m' a = ldb m a.
Proof. intros Hi H Ha. apply H; unfold frame, _8MB, MB128 in *; lia. Qed.

(** Loading the file into the mapped frame. *)
Lemma load_program m boot nd i :
  fs_wf m boot -> boot + image_size m boot <= _8MB -> 0 <= nd < nnod m boot ->
  file_len m boot nd <= PROG_MAX -> 0 <= i < 6 -> paging_on m = true -> upage m = frame i ->
  let n := file_len m boot nd in
  exists m', read_data id (put_mem (MB128 + PROC_OFFSET)) boot nd 0 KERNEL_STACK_BOTTOM m = (n, m') /\
    bytes_at m' (MB128 + PROC_OFFSET) (Z.to_nat n) = file_slice m boot nd 0 (Z.to_nat n) /\
    same_map m m' /\ only_frame i m m'.
Proof.
  intros Hw Hb Hn Hl Hi Hp Hu n.
  pose proof (ld32_range m (inode_addr boot nd) : 0 <= n < _) as Hn0.
  unfold PROG_MAX, MB4, PROC_OFFSET, _8MB in *. fold n in Hl.
  assert (Hk : Z.min KERNEL_STACK_BOTTOM (n - 0) = n) by (unfold KERNEL_STACK_BOTTOM; lia).
  assert (Hr : region m (MB128 + 0x48000) n) by (apply region_window; [done|lia|unfold MB4; lia]).
  assert (Ha : forall b k, 0 <= b -> b + k <= 0x800000 -> apart m (MB128 + 0x48000) n b k).
  { intros b k H0 H1. apply apart_window_kernel; try done; try lia; rewrite ?Hu;
      unfold frame, MB128, MB4 in *; lia. }
  assert (Hw' : forall a, 0 <= a < MB128 -> ~ (frame i <= a < frame i + MB4) -> apart m (MB128 + 0x48000) n a 1).
  { intros a H0 H1 j l Hj Hl0. unfold cell; simpl. replace (MB128 + 294912 + j) with (MB128 + (294912 + j)) by lia.
    rewrite tr_window, tr_kernel, Hu by (done || unfold MB4; lia). unfold MB4 in *. lia. }
  destruct (read_data_mem boot nd 0 KERNEL_STACK_BOTTOM (MB128 + 0x48000) m)
    as (m' & E & F & M); try done; fold n; rewrite ?Hk; try done; try lia.
  { apply Ha; [by destruct Hw|done]. }
  fold n in E, F. rewrite Hk in E, F. exists m'. split_and!; [done| |done|].
  - rewrite (filled_bytes _ _ _ _ _ F); [done|lia|]. intros. apply file_byte_range.
  - intros a Ha0 Hf. destruct F as [C _]. rewrite Z.add_0_r, Z.sub_0_r in C.
    rewrite <- (Z.add_0_r a). by eapply only_changes_ldb; [exact C|apply Hw'|].
Qed.

(** The argument string is stored in the control block. *)
Lemma store_args a l :
  length a = 128%nat -> (length l < 128)%nat -> Forall (fun c => 0 < c < 256) l ->
  exists a', strcpy 128 0 (fun _ => at_ (padded 128 l) 0) a = Some a' /\
    length a' = 128%nat /\ cstr (at_ a' 0) l.
Proof.
  intros Ha Hl Hf.
  assert (G : forall i, 0 <= i < Z.of_nat (length l) -> 0 < zget 0 l i < 256).
  { intros i Hi. unfold zget. rewrite (proj2 (Z.ltb_ge _ _)) by lia.
    destruct (lookup_lt_is_Some_2 l (Z.to_nat i)) as [x Hx]; [lia|]. rewrite Hx. simpl.
    by eapply Forall_lookup_1 in Hf. }
  assert (A : forall i, 0 <= i < Z.of_nat (length l) -> at_ (padded 128 l) 0 i = zget 0 l i).
  { intros i Hi. unfold at_, ldb; simpl. rewrite Z.add_0_l. unfold padded.
    rewrite zget_app_l by lia. apply u8_small. specialize (G i Hi). lia. }
  assert (Z0 : at_ (padded 128 l) 0 (Z.of_nat (length l)) = 0).
  { unfold at_, ldb; simpl. rewrite Z.add_0_l. unfold padded, zget.
    rewrite (proj2 (Z.ltb_ge _ _)), Nat2Z.id by lia. rewrite lookup_app_r, Nat.sub_diag by lia.
    rewrite lookup_replicate_2 by lia. done. }
  destruct (strcpy_filled 128 0 (fun _ : list Z => at_ (padded 128 l) 0) (Z.of_nat (length l)) a
    (at_ (padded 128 l) 0)) as (a' & E & F); try done; try lia.
  { apply arr_region; lia. }
  { intros j Hj. rewrite A by done. specialize (G j Hj). lia. }
  exists a'. split_and!; [done| |].
  - destruct F as [C _]. by rewrite (only_changes_length _ _ _ _ C).
  - by apply (filled_cstr a a' 0 l (at_ (padded 128 l) 0)).
Qed.

(** The control block and the TSS of the new process, from a state [s3] in which its
    argument buffer [a] is stored. *)
Lemma start_pcb s s3 i ebp a argl :
  pcbs_ok s -> 0 <= i < 6 -> cstr (at_ a 0) argl -> pcbs_ok s3 ->
  (forall j, pcb_at j s3 = pcb_at j (upd_pcb i (with_args a) s)) ->
  same_devices s s3 -> k_tss s3 = k_tss s ->
  let s4 := upd_pcb i (init_pcb i) s3 in
  let s5 := set_kernel_stack (pid (pcb_at i s4)) s4 in
  let s6 := upd_pcb i (fun q => with_saved_ebp ebp (with_saved_esp (k_esp s5) q)) s5 in
  started s (set_if true s6) i ebp argl.
Proof.
  intros Hok Hi Ca Ok3 P3 Dv T3 s4 s5 s6. assert (K3 : k_esp s3 = k_esp s) by apply Dv. destruct (pcb_at_sized i s Hok) as [Hfds _].
  assert (Ok4 : pcbs_ok s4).
  { apply pcbs_ok_upd; [done|]. intros q [H1 H2]. split; [by apply init_pcb_spec|done]. }
  assert (Ok6 : pcbs_ok s6) by (apply pcbs_ok_upd; [done|by intros q [? ?]]).
  assert (Q4 : pcb_at i s4 = init_pcb i (with_args a (pcb_at i s))).
  { unfold s4. rewrite pcb_at_upd by (done || lia). rewrite decide_True by done.
    rewrite P3. rewrite pcb_at_upd by (done || lia). by rewrite decide_True. }
  assert (Q6 : pcb_at i s6 =
    with_saved_ebp ebp (with_saved_esp (k_esp s) (init_pcb i (with_args a (pcb_at i s))))).
  { unfold s6. rewrite pcb_at_upd by (done || lia). change (k_esp s5) with (k_esp s3).
    rewrite decide_True, K3 by done. change (pcb_at i s5) with (pcb_at i s4). by rewrite Q4. }
  assert (O6 : forall j, j <> i -> pcb_at j s6 = pcb_at j s).
  { intros j Hj. unfold s6. rewrite pcb_at_upd, decide_False by (done || lia).
    change (pcb_at j s5) with (pcb_at j s4). unfold s4. rewrite pcb_at_upd, decide_False by (done || lia).
    rewrite P3. by rewrite pcb_at_upd, decide_False by (done || lia). }
  destruct (init_pcb_spec i (with_args a (pcb_at i s)) Hfds) as [_ Hfd].
  assert (F6 : forall fd, fd_at i fd (set_if true s6) =
    zget fd0 (file_desc_tb (init_pcb i (with_args a (pcb_at i s)))) fd)
    by (intros fd; change (fd_at i fd (set_if true s6)) with (fd_at i fd s6); unfold fd_at; by rewrite Q6).
  assert (E6 : forall j, pcb_at j (set_if true s6) = pcb_at j s6) by done.
  split; rewrite ?E6, ?Q6; try done.
  - cbn. apply u32_small. lia.
  - cbn. by rewrite (u32_small i) by lia.
  - intros fd Hfd2. rewrite F6, Hfd. by destruct ((0 <=? fd) && (fd <? 2)) eqn:?; [|lia].
  - intros fd Hfd2. rewrite F6, Hfd. repeat split_if; try lia; done.
  - intros fd Hfd2. rewrite F6, Hfd. repeat split_if; try lia; done.
  - change (mkTss KERNEL_DS (u32 (_8MB - pid (pcb_at i s4) * _8KB - 4))
      (ldt_segment_selector (k_tss s3)) = mkTss KERNEL_DS (_8MB - i * _8KB - 4)
      (ldt_segment_selector (k_tss s))).
    rewrite Q4, T3. change (pid (init_pcb i (with_args a (pcb_at i s)))) with (u32 i).
    rewrite (u32_small i) by lia. f_equal. apply u32_small. unfold _8MB, _8KB. lia.
Qed.

(** Everything a program relies on when it starts. *)
Lemma launch_ok s pde inode entry argl ebp :
  let i := find_pcb 6 0 (k_pcbs s) in
  let n := file_len (k_mem s) (k_boot s) inode in
  pcbs_ok s -> kernel_pages (k_pg s) pde -> fs_wf (k_mem s) (k_boot s) ->
  k_boot s + image_size (k_mem s) (k_boot s) <= _8MB ->
  0 <= inode < nnod (k_mem s) (k_boot s) -> n <= PROG_MAX -> i < 6 ->
  (length argl < 128)%nat -> Forall (fun c => 0 < c < 256) argl ->
  exists s', launch ebp inode entry (padded 128 argl) s = EnterUser entry (MB132 - 4) s' /\
    started s s' i ebp argl /\ upage (k_mem s') = frame i /\ paging_on (k_mem s') = true /\
    kernel_pages (k_pg s') (frame i + 0x87) /\
    bytes_at (k_mem s') (MB128 + PROC_OFFSET) (Z.to_nat n) =
      file_slice (k_mem s) (k_boot s) inode 0 (Z.to_nat n) /\
    only_frame i (k_mem s) (k_mem s').
Proof.
  intros i n Hok Hk Hw Hb Hin Hn Hi Hl Hf. unfold launch. fold i.
  destruct (find_pcb_spec 6 0 (k_pcbs s)) as (Hi0 & _ & _). fold i in Hi0.
  rewrite (proj2 (Z.eqb_neq i MAX_PROCESSES)) by (unfold MAX_PROCESSES; lia).
  clearbody i. destruct (pcb_at_sized i s Hok) as [_ Hargs].
  destruct (store_args (args (pcb_at i s)) argl) as (a & Ea & La & Ca); try done. rewrite Ea.
  set (s1 := upd_pcb i (with_args a) s).
  assert (Ok1 : pcbs_ok s1) by (apply pcbs_ok_upd; [done|by intros q [? ?]]).
  destruct (map_program_pages i s1 pde) as (Hk2 & Hu2 & Hp2 & Ph2 & E2); [lia|done|].
  set (s2 := map_program i s1) in *.
  assert (Hm2 : same_image (k_mem s) (k_mem s2) (k_boot s)) by by apply remap_image.
  destruct (same_image_wf _ _ _ Hw Hm2) as [Hw2 Es2].
  assert (Hn2 : nnod (k_mem s2) (k_boot s) = nnod (k_mem s) (k_boot s)) by by apply image_header.
  assert (Hl2 : file_len (k_mem s2) (k_boot s) inode = n) by by apply same_image_len.
  assert (B2 : k_boot s2 = k_boot s) by by rewrite E2. rewrite B2.
  destruct (load_program (k_mem s2) (k_boot s) inode i) as (m3 & E3 & L3 & [M3a M3b] & K3);
    try done; rewrite ?Es2, ?Hn2, ?Hl2; try done; try lia.
  rewrite E3. rewrite Hl2 in L3. eexists. split; [done|]. split.
  - apply (start_pcb s (set_mem m3 s2) i ebp a argl); try done; try lia.
  - split; [exact (eq_trans M3b Hu2)|]. split; [exact (eq_trans M3a Hp2)|]. split; [exact Hk2|]. split.
    + etrans; [exact L3|]. apply same_image_slice; try done. rewrite Z2Nat.id; [fold n; lia|].
      apply ld32_range.
    + intros b Hb8 Hb9. etrans; [exact (K3 b Hb8 Hb9)|]. by apply kernel_ldb.
Qed.

End Launch.

(** ** [execute] *)

(** A command that is neither empty nor [quit]: its name and argument buffers. *)
Record plain_command (s : kst) (command : Z) (name argv : list Z) : Prop := {
  pc_word : exists i, first_word 32 (at_ (k_mem s) command) 0 (replicate 32 0) = (i, name) /\
    parse_args 4096 (at_ (k_mem s) command) i = Some argv;
  pc_some : zget 0 name 0 <> 0;
  pc_quit : strncmp (at_ name 0) (at_ quit_str 0) 4 <> 0
}.

(** The file begins with the ELF magic number. *)
Definition is_elf (m : vmem) (boot nd : Z) : Prop :=
  file_slice m boot nd 0 4 = check_exe.

Definition elf_entry (m : vmem) (boot nd : Z) : Z :=
  file_byte m boot nd 24 + 256 * file_byte m boot nd 25 + 65536 * file_byte m boot nd 26 +
  16777216 * file_byte m boot nd 27.

Section Execute.
Context `{D : Device} `{Sy : Symbols} `{AS : !AlignedSymbols}.
Implicit Types s : kst.

(** Reading the header into the local array: what the file has of it, then zeros. *)
Lemma read_header_any m boot nd :
  fs_wf m boot -> 0 <= nd < nnod m boot ->
  let k := Z.min 40 (file_len m boot nd) in
  exists exe, read_data fst put_local boot nd 0 40 (m, replicate 40 0) = (k, (m, exe)) /\
    (forall j, 0 <= j < k -> ldb exe j = file_byte m boot nd j) /\
    forall j, k <= j < 40 -> ldb exe j = 0.
Proof.
  intros Hw Hn k. pose proof (ld32_range m (inode_addr boot nd) : 0 <= file_len m boot nd < _) as Hl.
  assert (Hk : Z.min 40 (file_len m boot nd - 0) = k) by lia.
  pose proof (read_data_eq fst put_local (fun t => fst t = m) boot nd 0 40 (m, replicate 40 0)) as E.
  cbn [fst] in E. rewrite Hk in E. rewrite E; try done; try lia; clear E.
  set (t := for_loop 0 k _ _).
  assert (H : (fun j t => j <= k -> fst t = m /\ filled (replicate 40 0) (snd t) 0 0 j
    (fun i => file_byte m boot nd (0 + i))) k t).
  { unfold t. apply for_loop_inv; [lia| |].
    - intros _. split; [done|apply filled_nil].
    - intros j [m' l] Hj IH Hle. destruct IH as [Hm F]; [lia|]. simpl in *. subst m'. split; [done|].
      rewrite <- (Z.add_0_l j) at 1. apply (filled_snoc _ _ _ 40); [|lia|done|done].
      apply arr_region; [lia|done]. }
  destruct (H ltac:(lia)) as [Hm [C F]]. destruct t as [m' exe]. simpl in Hm, C, F. subst m'.
  exists exe. split; [done|]. split.
  - intros j Hj. specialize (F j Hj). rewrite !Z.add_0_l in F. rewrite F. apply u8_small, file_byte_range.
  - intros j Hj. destruct C as (_ & _ & L). rewrite L by (unfold cell; simpl; lia). change (u8 (zget 0 (replicate 40 0) j) = 0).
    unfold zget. rewrite (proj2 (Z.ltb_ge _ _)), lookup_replicate_2 by lia. done.
Qed.

Lemma read_header m boot nd :
  fs_wf m boot -> 0 <= nd < nnod m boot -> 40 <= file_len m boot nd ->
  exists exe, read_data fst put_local boot nd 0 40 (m, replicate 40 0) = (40, (m, exe)) /\
    forall j, 0 <= j < 40 -> ldb exe j = file_byte m boot nd j.
Proof.
  intros Hw Hn Hl. destruct (read_header_any m boot nd Hw Hn) as (exe & E & F & _).
  rewrite Z.min_l in E, F by lia. by exists exe.
Qed.

Lemma header_magic m boot nd exe :
  (forall j, 0 <= j < 4 -> ldb exe j = file_byte m boot nd j) ->
  strncmp (at_ exe 0) (at_ check_exe 0) 4 = 0 <-> is_elf m boot nd.
Proof.
  intros He. rewrite strncmp_zero; [|intros; apply (ldb_range exe)|intros; apply (ldb_range check_exe)|lia].
  assert (Ex : forall j, 0 <= j < 4 -> at_ exe 0 j = file_byte m boot nd j)
    by (intros; unfold at_; rewrite Z.add_0_l; auto).
  assert (Ec : forall j, 0 <= j < 4 -> at_ check_exe 0 j = zget 0 check_exe j).
  { intros j Hj. assert (C : j ∈ [0;1;2;3]) by (rewrite !elem_of_cons; lia). clear Hj.
    repeat (apply elem_of_cons in C as [->|C]; [done|]). by apply not_elem_of_nil in C. }
  assert (Sl : forall j, 0 <= j < 4 -> zget 0 (file_slice m boot nd 0 4) j = file_byte m boot nd j).
  { intros j Hj. assert (C : j ∈ [0;1;2;3]) by (rewrite !elem_of_cons; lia). clear Hj.
    repeat (apply elem_of_cons in C as [->|C]; [done|]). by apply not_elem_of_nil in C. }
  assert (Cn : forall j, 0 <= j < 4 -> zget 0 check_exe j <> 0).
  { intros j Hj. assert (C : j ∈ [0;1;2;3]) by (rewrite !elem_of_cons; lia). clear Hj.
    repeat (apply elem_of_cons in C as [->|C]; [done|]). by apply not_elem_of_nil in C. }
  unfold is_elf, eq_upto. split.
  - intros H. apply (zlist_ext 0); [done|]. intros i Hi. simpl in Hi. rewrite Sl by lia.
    assert (G : forall k : nat, (k <= 4)%nat -> forall j, 0 <= j < Z.of_nat k ->
      at_ exe 0 j = at_ check_exe 0 j).
    { induction k as [|k IH]; [lia|]. intros Hk j Hj.
      destruct (Z.eq_dec j (Z.of_nat k)) as [->|]; [|apply IH; lia].
      apply H; [lia|]. intros j' Hj'. rewrite IH, Ec by lia. apply Cn. lia. }
    rewrite <- Ex, <- Ec by lia. apply (G 4%nat); lia.
  - intros H i Hi _. rewrite Ex, Ec, <- Sl, H by lia. done.
Qed.

(** A header that passes the check has all four bytes of the magic number. *)
Lemma magic_bytes exe :
  strncmp (at_ exe 0) (at_ check_exe 0) 4 = 0 -> ldb exe 3 <> 0.
Proof.
  intros H. apply strncmp_zero in H; [|intros; apply (ldb_range exe)|intros; apply (ldb_range check_exe)|lia].
  assert (G : forall j, 0 <= j < 4 -> (forall i, 0 <= i < j -> at_ exe 0 i <> 0) -> at_ exe 0 j <> 0).
  { intros j Hj Hi. rewrite (H j Hj Hi). assert (C : j = 0 \/ j = 1 \/ j = 2 \/ j = 3) by lia.
    by destruct C as [-> |[-> |[-> | ->]]]. }
  pose proof (G 0 ltac:(lia) ltac:(lia)) as G0.
  assert (G1 : at_ exe 0 1 <> 0) by (apply G; [lia|]; intros i Hi; by replace i with 0 by lia).
  assert (G2 : at_ exe 0 2 <> 0).
  { apply G; [lia|]. intros i Hi. assert (C : i = 0 \/ i = 1) by lia. by destruct C as [-> | ->]. }
  apply (G 3 ltac:(lia)). intros i Hi. assert (C : i = 0 \/ i = 1 \/ i = 2) by lia. by destruct C as [-> |[-> | ->]].
Qed.

Lemma header_entry m boot nd exe :
  (forall j, 0 <= j < 40 -> ldb exe j = file_byte m boot nd j) ->
  entry_of exe = elf_entry m boot nd.
Proof.
  intros He. unfold entry_of, elf_entry. rewrite !He by lia.
  assert (L : forall x, 0 <= x < 256 -> Z.land x 255 = x).
  { intros x Hx. change 255 with (Z.ones 8). rewrite Z.land_ones by lia. apply Z.mod_small. lia. }
  rewrite !L by apply file_byte_range. rewrite !Z.shiftl_mul_pow2 by lia.
  change (2 ^ 8) with 256. change (2 ^ 16) with 65536. change (2 ^ 24) with 16777216.
  pose proof (file_byte_range m boot nd 24). pose proof (file_byte_range m boot nd 25).
  pose proof (file_byte_range m boot nd 26). pose proof (file_byte_range m boot nd 27).
  rewrite u32_small by lia. lia.
Qed.

(** A command that names an ELF file: what is left to do is to launch it. *)
Lemma execute_found fuel ebp command s name argv d :
  let m := k_mem s in let boot := k_boot s in
  plain_command s command name argv -> fs_wf m boot ->
  read_dentry_by_name (at_ name 0) s = Some d -> d_ft d = 2 -> d_ind d < nnod m boot ->
  40 <= file_len m boot (d_ind d) -> is_elf m boot (d_ind d) ->
  sys_execute (S fuel) ebp command s = launch ebp (d_ind d) (elf_entry m boot (d_ind d)) argv s.
Proof.
  intros m boot [(w & Ew & Ea) Hne Hq] Hw Hd Hft Hin Hn He. subst m boot.
  cbn [sys_execute]. unfold execute_body. rewrite Ew.
  rewrite (proj2 (Z.eqb_neq (zget 0 name 0) 0)) by done.
  rewrite (proj2 (Z.eqb_neq (strncmp _ _ _) 0)) by done. unfold kbind, kret. rewrite Ea, Hd.
  rewrite (proj2 (Z.eqb_eq (d_ft d) 2)) by done. cbn [negb].
  destruct (read_header (k_mem s) (k_boot s) (d_ind d)) as (exe & -> & Hx); try done.
  { split; [apply ld32_range|done]. }
  rewrite (proj2 (Z.eqb_eq (strncmp _ _ _) 0)) by (apply (header_magic (k_mem s) (k_boot s) (d_ind d)); [intros; apply Hx; lia|done]).
  cbn [negb]. by rewrite (header_entry (k_mem s) (k_boot s) (d_ind d)).
Qed.

(** C7: [execute] on a command whose first word names a regular file with an ELF header
    starts it: control leaves for the header's entry point with the stack at the top
    of the program window; the first inactive control block is the new process, with
    its number, parent, arguments, standard descriptors and the caller's stack to
    return to; its 4 MiB frame is mapped at 128 MiB and holds the whole file; the
    other processes and all memory outside that frame are as before. *)
Theorem execute_starts fuel ebp command s name argl d pde :
  let m := k_mem s in let boot := k_boot s in
  let i := find_pcb 6 0 (k_pcbs s) in
  let n := file_len m boot (d_ind d) in
  plain_command s command name (padded 128 argl) ->
  (length argl < 128)%nat -> Forall (fun c => 0 < c < 256) argl ->
  pcbs_ok s -> kernel_pages (k_pg s) pde -> fs_wf m boot -> boot + image_size m boot <= _8MB ->
  read_dentry_by_name (at_ name 0) s = Some d -> d_ft d = 2 -> d_ind d < nnod m boot ->
  40 <= n <= PROG_MAX -> is_elf m boot (d_ind d) -> i < 6 ->
  exists s', sys_execute (S fuel) ebp command s =
      EnterUser (elf_entry m boot (d_ind d)) (MB132 - 4) s' /\
    started s s' i ebp argl /\ upage (k_mem s') = frame i /\ paging_on (k_mem s') = true /\
    kernel_pages (k_pg s') (frame i + 0x87) /\
    bytes_at (k_mem s') (MB128 + PROC_OFFSET) (Z.to_nat n) =
      file_slice m boot (d_ind d) 0 (Z.to_nat n) /\
    only_frame i m (k_mem s').
Proof.
  intros m boot i n Hc Hla Hfa Hok Hk Hw Hb Hd Hft Hin Hn He Hi. subst m boot.
  assert (Hin0 : 0 <= d_ind d < nnod (k_mem s) (k_boot s)) by (split; [apply ld32_range|done]).
  rewrite (execute_found fuel ebp command s name (padded 128 argl) d) by (done || lia).
  apply (launch_ok s pde); try done. lia.
Qed.


End Execute.

(** ** Programs that survive drawing

    The kernel draws between finding a program and starting it; nothing of the image or
    of a command outside the screen is touched by that. *)

(** [n] bytes at [a] are kernel memory away from the text screen (and from the two
    screens after it, which a cursor below the last row can reach). *)
Definition off_screen (a n : Z) : Prop :=
  0 <= a /\ a + n <= MB128 /\ (a + n <= VIDEO \/ VIDEO + 8000 <= a).

(** Kernel memory off the screen reads the same. *)
Definition same_off (m m' : vmem) : Prop := forall a, off_screen a 1 -> ldb m' a = ldb m a.

#[export] Instance same_off_preorder : PreOrder same_off.
Proof.
  split; [by intros m a _|]. intros m1 m2 m3 H1 H2 a Ha. by rewrite H2, H1.
Qed.

(** An ELF file that fits a frame is in the directory under the name [f]. *)
Record installed (m : vmem) (boot : Z) (f : Z -> Z) (d : dentry) : Prop := {
  in_wf : fs_wf m boot;
  in_low : boot + image_size m boot <= _8MB;
  in_found : find_dentry (Z.to_nat (nent m boot)) m boot f 0 = Some d;
  in_file : d_ft d = 2;
  in_inode : d_ind d < nnod m boot;
  in_size : 40 <= file_len m boot (d_ind d) <= PROG_MAX;
  in_elf : is_elf m boot (d_ind d)
}.

Section Survive.
Implicit Types m : vmem.

Lemma only_changes_off m m' : only_changes m m' VIDEO 8000 -> same_off m m'.
Proof.
  intros C a (H0 & Hb & Hs). rewrite <- (Z.add_0_r a).
  eapply (only_changes_ldb _ _ _ _ a 1); [exact C| |lia].
  unfold VIDEO in *. destruct Hs; [apply apart_sym|]; apply apart_kernel; unfold MB128 in *; lia.
Qed.

Lemma phys_off m m' : phys m' = phys m -> same_off m m'.
Proof. intros E a (H0 & Hb & _). apply kernel_ldb; [done|lia]. Qed.

Lemma off_screen_ldb m m' a n i :
  same_off m m' -> off_screen a n -> 0 <= i < n -> ldb m' (a + i) = ldb m (a + i).
Proof. intros C (H0 & Hb & Hs) Hi. apply C. unfold off_screen. lia. Qed.

Lemma off_screen_image m m' boot :
  same_off m m' -> off_screen boot (image_size m boot) -> same_image m m' boot.
Proof. intros C H i Hi. by eapply off_screen_ldb. Qed.

(** Splitting a command reads at most 4300 characters of it. *)
Lemma first_word_ext k cmd cmd' i name :
  (forall j, i <= j < i + Z.of_nat k -> cmd j = cmd' j) -> first_word k cmd i name = first_word k cmd' i name.
Proof.
  revert i name. induction k as [|k IH]; intros i name H; cbn [first_word]; [done|].
  rewrite (H i) by lia. split_if; [done|]. apply IH. intros j Hj. apply H. lia.
Qed.

Lemma first_word_index k cmd i name : i <= fst (first_word k cmd i name) <= i + Z.of_nat k.
Proof.
  revert i name. induction k as [|k IH]; intros i name; cbn [first_word]; [simpl; lia|].
  split_if; [simpl; lia|]. specialize (IH (i + 1) (stb name i (cmd i))). lia.
Qed.

Lemma copy_args_ext k cmd cmd' i j args :
  (forall x, i + j <= x < i + j + Z.of_nat k -> cmd x = cmd' x) ->
  copy_args k cmd i j args = copy_args k cmd' i j args.
Proof.
  revert j args. induction k as [|k IH]; intros j args H; cbn [copy_args]; [done|].
  rewrite (H (i + j)) by lia. split_if; [done|]. apply IH. intros x Hx. apply H. lia.
Qed.

Lemma skip_ext fuel cmd cmd' i :
  (forall j, i <= j <= i + Z.of_nat fuel -> cmd j = cmd' j) ->
  while fuel (fun i => cmd i =? 32) (fun i => i + 1) i =
    while fuel (fun i => cmd' i =? 32) (fun i => i + 1) i /\
  forall r, while fuel (fun i => cmd i =? 32) (fun i => i + 1) i = Some r -> i <= r.
Proof.
  revert i. induction fuel as [|f IH]; intros i H; simpl; rewrite (H i) by lia.
  - split_if; split; try done; intros r [= <-]; lia.
  - split_if.
    + destruct (IH (i + 1)) as [E B]; [intros; apply H; lia|]. split; [done|].
      intros r Hr. apply B in Hr. lia.
    + split; [done|]. intros r [= <-]. lia.
Qed.

Lemma parse_args_ext cmd cmd' i :
  0 <= i <= 32 -> (forall j, 0 <= j < 4300 -> cmd j = cmd' j) ->
  parse_args 4096 cmd i = parse_args 4096 cmd' i.
Proof.
  intros Hi H. unfold parse_args. rewrite (H i) by lia. split_if; [|done].
  destruct (skip_ext 4096 cmd cmd' i) as [<- B]; [intros j Hj; apply H; lia|].
  destruct (while 4096 _ _ i) as [r|]; [|done]. f_equal. specialize (B r eq_refl).
  apply copy_args_ext. intros x Hx. apply H. lia.
Qed.

Lemma plain_command_eq s s' c name argv :
  (forall j, 0 <= j < 4300 -> at_ (k_mem s') c j = at_ (k_mem s) c j) ->
  plain_command s c name argv -> plain_command s' c name argv.
Proof.
  intros H [(i & Ew & Ea) Hs Hq]. split; [|done|done]. exists i.
  rewrite (first_word_ext 32 _ (at_ (k_mem s) c)) by (intros; apply H; lia). split; [done|].
  pose proof (first_word_index 32 (at_ (k_mem s) c) 0 (replicate 32 0)) as B. rewrite Ew in B. simpl in B.
  by rewrite (parse_args_ext _ (at_ (k_mem s) c)).
Qed.

Lemma plain_command_ext s s' c name argv :
  same_off (k_mem s) (k_mem s') -> off_screen c 4300 ->
  plain_command s c name argv -> plain_command s' c name argv.
Proof. intros C O. apply plain_command_eq. intros j Hj. by apply (off_screen_ldb _ _ _ 4300). Qed.

Lemma same_image_byte m m' boot nd p :
  fs_wf m boot -> same_image m m' boot -> 0 <= nd < nnod m boot -> 0 <= p < file_len m boot nd ->
  file_byte m' boot nd p = file_byte m boot nd p.
Proof.
  intros Hw E Hn Hp. destruct (image_block m m' boot nd p) as [E1 E2]; try done.
  unfold file_byte at 1. by rewrite E1.
Qed.

Lemma installed_ext m m' boot f d :
  same_image m m' boot -> installed m boot f d ->
  installed m' boot f d /\ file_len m' boot (d_ind d) = file_len m boot (d_ind d) /\
  elf_entry m' boot (d_ind d) = elf_entry m boot (d_ind d) /\
  forall k, Z.of_nat k <= file_len m boot (d_ind d) ->
    file_slice m' boot (d_ind d) 0 k = file_slice m boot (d_ind d) 0 k.
Proof.
  intros E [Hw Hlow Hf Hft Hi Hs He].
  assert (Hn : 0 <= d_ind d < nnod m boot) by (split; [apply ld32_range|done]).
  destruct (same_image_wf m m' boot Hw E) as [Hw' Es].
  pose proof (same_image_len m m' boot (d_ind d) Hw E Hn) as El.
  pose proof (image_header m m' boot Hw E) as En.
  destruct (same_image_lookup m m' boot f Hw E) as [_ Ef].
  split_and!; [| done| |].
  - split; rewrite ?Es, ?El, ?En, ?Ef; try done. unfold is_elf.
    rewrite (same_image_slice m m'); try done. lia.
  - unfold elf_entry. by rewrite !(same_image_byte m m') by (done || lia).
  - intros k Hk. by apply same_image_slice.
Qed.

End Survive.

(** ** [halt] *)

Section Halt.
Context `{D : Device} `{Sy : Symbols} `{AS : !AlignedSymbols}.
Implicit Types s : kst.

(** What closing the process does to its control block: it is inactive and its
    descriptor 0 is free; the other descriptors stay as they are. *)
Record closed_pcb (p : Z) (s s' : kst) : Prop := {
  cp_active : active (pcb_at p s') = 0;
  cp_fd0 : flag (fd_at p 0 s') = 0;
  cp_fds : forall fd, fd <> 0 -> fd_at p fd s' = fd_at p fd s;
  cp_ids : pid (pcb_at p s') = pid (pcb_at p s) /\
    parent_pid (pcb_at p s') = parent_pid (pcb_at p s);
  cp_stack : saved_esp (pcb_at p s') = saved_esp (pcb_at p s) /\
    saved_ebp (pcb_at p s') = saved_ebp (pcb_at p s);
  cp_others : forall j, j <> p -> pcb_at j s' = pcb_at j s;
  cp_pcbs : pcbs_ok s'
}.

Lemma close_step_ok p s :
  pcbs_ok s -> 0 <= p < 6 ->
  closed_pcb p s (close_step p s) /\ close_step p s = set_pcbs (k_pcbs (close_step p s)) s.
Proof.
  intros Hok Hp. unfold close_step.
  assert (Ok1 : pcbs_ok (upd_fd p 0 (with_flag 0) s)) by by apply pcbs_ok_upd_fd.
  assert (Q : pcb_at p (close_step p s) = with_active 0 (pcb_at p (upd_fd p 0 (with_flag 0) s))).
  { unfold close_step. rewrite pcb_at_upd by done. by rewrite decide_True. }
  assert (Q1 : pcb_at p (upd_fd p 0 (with_flag 0) s) =
    set_fds (zset (file_desc_tb (pcb_at p s)) 0 (with_flag 0 (fd_at p 0 s))) (pcb_at p s)).
  { unfold upd_fd. rewrite pcb_at_upd by done. by rewrite decide_True. }
  assert (F : forall fd, fd_at p fd (close_step p s) = fd_at p fd (upd_fd p 0 (with_flag 0) s))
    by (intros fd; unfold fd_at; by rewrite Q).
  unfold close_step in *. split; [|by destruct s].
  split; rewrite ?Q, ?Q1; try done.
  - rewrite F, fd_at_upd by (done || lia). by rewrite decide_True.
  - intros fd Hfd. rewrite F, fd_at_upd by (done || lia). rewrite decide_False; [done|]. by intros [_ <-].
  - intros j Hj. rewrite pcb_at_upd, decide_False by done. unfold upd_fd.
    by rewrite pcb_at_upd, decide_False by done.
  - apply pcbs_ok_upd; [done|]. by intros q [? ?].
Qed.

Lemma closed_pcb_trans p s1 s2 s3 : closed_pcb p s1 s2 -> closed_pcb p s2 s3 -> closed_pcb p s1 s3.
Proof.
  intros [] [H1 H2 H3 [H4 H4'] [H5 H5'] H6 H7]. destruct_and!. split; try done.
  - intros. rewrite H3; auto.
  - split; congruence.
  - split; congruence.
  - intros. rewrite H6; auto.
Qed.

Lemma close_loop p s :
  pcbs_ok s -> 0 <= p < 6 ->
  let s1 := for_loop 0 MAX_FILES (fun _ s => close_step p s) s in
  closed_pcb p s s1 /\ s1 = set_pcbs (k_pcbs s1) s.
Proof.
  intros Hok Hp s1. unfold MAX_FILES in s1.
  assert (H : (fun k t => pcbs_ok t /\ t = set_pcbs (k_pcbs t) s /\
    (t = s \/ closed_pcb p s t) /\ (0 < k -> closed_pcb p s t)) 8 s1).
  { unfold s1. apply for_loop_inv; [lia| |].
    - split; [done|]. split; [by destruct s|]. split; [by left|lia].
    - intros j t Hj (Ok & E & Ht & _). destruct (close_step_ok p t Ok Hp) as [C E'].
      assert (C' : closed_pcb p s (close_step p t)).
      { destruct Ht as [->|Ht]; [exact C|]. by eapply closed_pcb_trans. }
      split; [apply C'|]. split; [rewrite E', E; by destruct s|]. split; [by right|done]. }
  destruct H as (_ & E & _ & C). split; [|exact E]. apply C. lia.
Qed.

(** The stack pointer in the kernel stack of process [i] identifies it. *)
Lemma stack_pcb s i :
  0 <= i < 6 -> _8MB - (i + 1) * _8KB <= k_esp s < _8MB - i * _8KB -> get_pcb s = Some i.
Proof.
  unfold get_pcb, _8MB, _8KB. intros Hi He.
  assert (E : 0x3FF - k_esp s / 0x2000 = i) by modlia. rewrite E, u32_small by lia.
  by rewrite (proj2 (Z.leb_gt _ _)) by lia.
Qed.

(** A process with a parent goes back to it. *)
Lemma halt_body_parent ex status s p :
  get_pcb s = Some p ->
  let t := for_loop 0 MAX_FILES (fun _ s => close_step p s) s in
  let par := parent_pid (pcb_at p t) in
  par <> u32 (-1) ->
  halt_body ex status s =
    let t' := set_kernel_stack par (map_program par t) in
    Resume (saved_esp (pcb_at p t')) (saved_ebp (pcb_at p t')) (u32 (i8 (u8 status))) t'.
Proof.
  intros Hg t par Hp. unfold halt_body, with_pcb. rewrite Hg. fold t. clearbody t. unfold kbind.
  fold par. by rewrite (proj2 (Z.eqb_neq par (u32 (-1)))).
Qed.

(** [halt] in a process [i] with a parent, on its own kernel stack. *)
Lemma halt_parent ex status s i pde :
  get_pcb s = Some i -> 1 <= i < 6 -> parent_pid (pcb_at i s) = i - 1 -> pcbs_ok s -> kernel_pages (k_pg s) pde ->
  exists s', halt_body ex status s =
      Resume (saved_esp (pcb_at i s)) (saved_ebp (pcb_at i s)) (u32 (i8 (u8 status))) s' /\
    upage (k_mem s') = frame (i - 1) /\ paging_on (k_mem s') = true /\
    kernel_pages (k_pg s') (frame (i - 1) + 0x87) /\
    k_tss s' = mkTss KERNEL_DS (_8MB - (i - 1) * _8KB - 4) (ldt_segment_selector (k_tss s)) /\
    closed_pcb i s s' /\ phys (k_mem s') = phys (k_mem s) /\
    s' = set_mem (k_mem s') (set_pg (k_pg s') (set_tss (k_tss s') (set_pcbs (k_pcbs s') s))).
Proof.
  intros Hg Hi Hp Hok Hk. pose proof (halt_body_parent ex status s i Hg) as Hh.
  destruct (close_loop i s Hok ltac:(lia)) as [C E]. cbv zeta in Hh.
  generalize dependent (for_loop 0 MAX_FILES (fun _ s => close_step i s) s). intros t Hh C E.
  destruct (cp_ids _ _ _ C) as [_ C4]. rewrite C4, Hp in Hh.
  rewrite Hh by (change (u32 (-1)) with 4294967295; lia). clear Hh.
  assert (Hkt : kernel_pages (k_pg t) pde) by (rewrite E; exact Hk).
  destruct (map_program_pages (i - 1) t pde) as (Hk3 & Hu & Hpg & Hph & E3); [lia|exact Hkt|].
  generalize dependent (map_program (i - 1) t). intros t2 Hk3 Hu Hpg Hph E3.
  assert (P : forall j, pcb_at j (set_kernel_stack (i - 1) t2) = pcb_at j t)
    by (intros j; change (pcb_at j t2 = pcb_at j t); by rewrite E3).
  assert (Q : k_pcbs t2 = k_pcbs t) by (by rewrite E3).
  assert (T : ldt_segment_selector (k_tss t2) = ldt_segment_selector (k_tss s)) by (by rewrite E3, E).
  exists (set_kernel_stack (i - 1) t2). rewrite !P. destruct (cp_stack _ _ _ C) as [C5 C6]. rewrite C5, C6.
  split; [done|]. split; [exact Hu|]. split; [exact Hpg|]. split; [exact Hk3|]. split; [|split; [|split]].
  - unfold set_kernel_stack. simpl. rewrite T. f_equal. apply u32_small. unfold _8MB, _8KB. lia.
  - destruct C. split; rewrite ?P; try done.
    + unfold fd_at in *. by rewrite P.
    + intros fd Hfd. unfold fd_at in *. rewrite P. auto.
    + intros j Hj. rewrite P. auto.
    + unfold pcbs_ok in *. simpl. by rewrite Q.
  - rewrite E in Hph. exact Hph.
  - rewrite E3, E. by destruct s.
Qed.

(** C10: [halt] returns to the call that started the program.  When a process [i] other
    than the first shell, whose control block still has the return stack and parent
    that [execute] recorded from state [s], calls [halt] on its own kernel stack,
    control resumes on the caller's stack with the status sign-extended as the result
    of [execute]; the parent's frame is mapped again and its kernel stack is in the
    TSS; the process is inactive, and of its descriptors only descriptor 0 is freed;
    no other process and no memory changes. *)
Theorem halt_returns_to_caller fuel ebp ebp' status s s1 s2 i argl pde :
  started s s1 i ebp argl -> 1 <= i < 6 ->
  saved_esp (pcb_at i s2) = saved_esp (pcb_at i s1) ->
  saved_ebp (pcb_at i s2) = saved_ebp (pcb_at i s1) ->
  parent_pid (pcb_at i s2) = parent_pid (pcb_at i s1) ->
  pcbs_ok s2 -> kernel_pages (k_pg s2) pde ->
  _8MB - (i + 1) * _8KB <= k_esp s2 <= esp0 (k_tss s1) ->
  exists s3, sys_halt fuel ebp' status s2 = Resume (k_esp s) ebp (u32 (i8 (u8 status))) s3 /\
    upage (k_mem s3) = frame (i - 1) /\ kernel_pages (k_pg s3) (frame (i - 1) + 0x87) /\
    esp0 (k_tss s3) = _8MB - (i - 1) * _8KB - 4 /\
    active (pcb_at i s3) = 0 /\ flag (fd_at i 0 s3) = 0 /\
    (forall fd, fd <> 0 -> fd_at i fd s3 = fd_at i fd s2) /\
    (forall j, j <> i -> pcb_at j s3 = pcb_at j s2) /\ phys (k_mem s3) = phys (k_mem s2).
Proof.
  intros St Hi Ee Eb Ep Hok Hk He.
  assert (Hg : get_pcb s2 = Some i).
  { apply stack_pcb; [lia|]. rewrite (st_esp0 _ _ _ _ _ St) in He. simpl in He. lia. }
  assert (Hpar : parent_pid (pcb_at i s2) = i - 1).
  { rewrite Ep, (st_parent _ _ _ _ _ St). apply u32_small. lia. }
  destruct (halt_parent (sys_execute fuel ebp') status s2 i pde Hg Hi Hpar Hok Hk)
    as (s3 & E & U & _ & K & T & [C1 C2 C3 _ _ C4 _] & P & _).
  exists s3. unfold sys_halt. rewrite E, Ee, Eb, (st_esp _ _ _ _ _ St), (st_ebp _ _ _ _ _ St).
  split_and!; try done. by rewrite T.
Qed.

(** The state in which a halting first shell starts the next one: the screen is blank,
    process 0 is free with its descriptors as they were, the rest is as before. *)
Record rooted (s s1 : kst) : Prop := {
  ro_pcbs : pcbs_ok s1;
  ro_free : find_pcb 6 0 (k_pcbs s1) = 0;
  ro_others : forall j, j <> 0 -> pcb_at j s1 = pcb_at j s;
  ro_fds : forall fd, fd <> 0 -> fd_at 0 fd s1 = fd_at 0 fd s;
  ro_con : k_con s1 = mkCon 0 0;
  ro_chr : forall i, 0 <= i < 2000 -> chr s1 i = 32;
  ro_mem : only_changes (k_mem s) (k_mem s1) VIDEO 4000;
  ro_rest : k_pg s1 = k_pg s /\ k_boot s1 = k_boot s /\ k_esp s1 = k_esp s /\ k_kbd s1 = k_kbd s /\
    k_rtc s1 = k_rtc s /\ k_irqs s1 = k_irqs s
}.

Lemma root_cleared s t :
  closed_pcb 0 s t -> t = set_pcbs (k_pcbs t) s ->
  rooted s (clear_term (upd_pcb 0 (fun q => with_pid (pid q - 1) q) t)).
Proof.
  intros C E. set (f := fun q => with_pid (pid q - 1) q).
  assert (Ok : pcbs_ok (upd_pcb 0 f t)) by (apply pcbs_ok_upd; [apply C|by intros q [? ?]]).
  pose proof (fun j => pcb_at_upd 0 j f t (cp_pcbs _ _ _ C) ltac:(lia)) as U.
  assert (Ha : active (f (pcb_at 0 t)) = 0) by apply (cp_active _ _ _ C).
  assert (Hf : file_desc_tb (f (pcb_at 0 t)) = file_desc_tb (pcb_at 0 t)) by done. clearbody f.
  set (u := upd_pcb 0 f t) in *.
  assert (S : k_pg u = k_pg s /\ k_boot u = k_boot s /\ k_esp u = k_esp s /\ k_kbd u = k_kbd s /\
    k_rtc u = k_rtc s /\ k_irqs u = k_irqs s /\ k_mem u = k_mem s)
    by (unfold u, upd_pcb; simpl; by rewrite E). destruct S as (S1 & S2 & S3 & S4 & S5 & S6 & S7).
  pose proof (clear_term_chr u) as Hb. pose proof (clear_term_draws u) as [[E1 _] Hc].
  assert (Kc : k_con (clear_term u) = mkCon 0 0) by done.
  revert Hb E1 Hc Kc. generalize (clear_term u). intros s1 Hb E1 Hc Kc.
  assert (Q : k_pcbs s1 = k_pcbs u) by (by rewrite E1).
  assert (P : forall j, pcb_at j s1 = pcb_at j u) by (intros j; unfold pcb_at at 1; by rewrite Q).
  split; try done.
  - unfold pcbs_ok in *; by rewrite Q.
  - cbn [find_pcb]. change (zget pcb0 (k_pcbs s1) 0) with (pcb_at 0 s1).
    by rewrite P, U, decide_True, Ha by done.
  - intros j Hj. rewrite P, U, decide_False by done. by apply (cp_others _ _ _ C).
  - intros fd Hfd. rewrite <- (cp_fds _ _ _ C) by done. unfold fd_at. rewrite P, U, decide_True by done. by rewrite Hf.
  - by rewrite <- S7.
  - rewrite <- S1, <- S2, <- S3, <- S4, <- S5, <- S6. by rewrite E1.
Qed.

(** [halt] in the first shell, whose parent is -1. *)
Lemma halt_root fuel ebp status s name argl d pde :
  let m := k_mem s in let boot := k_boot s in
  let n := file_len m boot (d_ind d) in
  get_pcb s = Some 0 -> pcbs_ok s -> parent_pid (pcb_at 0 s) = u32 (-1) -> kernel_pages (k_pg s) pde ->
  plain_command s sym_shell name (padded 128 argl) ->
  (length argl < 128)%nat -> Forall (fun c => 0 < c < 256) argl ->
  installed m boot (at_ name 0) d -> off_screen boot (image_size m boot) -> off_screen sym_shell 4300 ->
  exists s1 s', sys_halt (S fuel) ebp status s =
      EnterUser (elf_entry m boot (d_ind d)) (MB132 - 4) s' /\
    rooted s s1 /\ started s1 s' 0 ebp argl /\
    upage (k_mem s') = frame 0 /\ paging_on (k_mem s') = true /\ kernel_pages (k_pg s') (frame 0 + 0x87) /\
    bytes_at (k_mem s') (MB128 + PROC_OFFSET) (Z.to_nat n) = file_slice m boot (d_ind d) 0 (Z.to_nat n) /\
    only_frame 0 (k_mem s1) (k_mem s').
Proof.
  intros m boot n Hg Hok Hpar Hk Hc Hl Hf Hin Ho Hs. subst m boot n.
  unfold sys_halt, halt_body, with_pcb. rewrite Hg.
  destruct (close_loop 0 s Hok ltac:(lia)) as [C Et]. revert C Et.
  generalize (for_loop 0 MAX_FILES (fun _ s => close_step 0 s) s). intros t C Et. unfold kbind at 1.
  destruct (cp_ids _ _ _ C) as [_ ->]. rewrite Hpar, Z.eqb_refl.
  pose proof (root_cleared s t C Et) as R. revert R.
  generalize (clear_term (upd_pcb 0 (fun q => with_pid (pid q - 1) q) t)). intros s1 R.
  destruct (ro_rest _ _ R) as (R3 & R4 & R5 & _). clear C Et t.
  assert (R8 : same_off (k_mem s) (k_mem s1)).
  { apply only_changes_off. eapply only_changes_weaken; [..|exact (ro_mem _ _ R)]; lia. }
  destruct (installed_ext (k_mem s) (k_mem s1) (k_boot s) (at_ name 0) d) as (I & El & Ee & Es);
    [by apply off_screen_image|done|].
  rewrite <- R4 in I, El, Ee, Es. destruct I as [I1 I2 I3 I4 I5 I6 I7].
  rewrite (execute_found fuel ebp sym_shell s1 name (padded 128 argl) d); try done;
    [|by eapply plain_command_ext|lia].
  destruct (launch_ok s1 pde (d_ind d) (elf_entry (k_mem s1) (k_boot s1) (d_ind d)) argl ebp)
    as (s' & E & St & U & Pg & K & B & M); rewrite ?(ro_free _ _ R), ?R3; try done; try lia; [apply R| |].
  { split; [apply ld32_range|done]. }
  rewrite E, Ee, (ro_free _ _ R) in *. exists s1, s'. split; [by rewrite R4|]. split_and!; try done.
  rewrite El in B. rewrite R4 in B. rewrite B, <- R4, Es by (rewrite Z2Nat.id; [done|apply ld32_range]). by rewrite R4.
Qed.

(** C11: the first shell never ends: when process 0, whose parent is -1, calls [halt], the
    screen is cleared and the program the kernel's command names is loaded afresh into
    the same slot, frame and kernel stack and entered; no other process changes. *)
Theorem halt_restarts_shell fuel ebp status s name argl d pde :
  let m := k_mem s in let boot := k_boot s in
  let n := file_len m boot (d_ind d) in
  get_pcb s = Some 0 -> pcbs_ok s -> parent_pid (pcb_at 0 s) = u32 (-1) -> kernel_pages (k_pg s) pde ->
  plain_command s sym_shell name (padded 128 argl) ->
  (length argl < 128)%nat -> Forall (fun c => 0 < c < 256) argl ->
  installed m boot (at_ name 0) d -> off_screen boot (image_size m boot) -> off_screen sym_shell 4300 ->
  exists s1 s', sys_halt (S fuel) ebp status s =
      EnterUser (elf_entry m boot (d_ind d)) (MB132 - 4) s' /\
    started s1 s' 0 ebp argl /\ k_esp s1 = k_esp s /\
    (forall j, j <> 0 -> pcb_at j s' = pcb_at j s) /\
    upage (k_mem s') = frame 0 /\ kernel_pages (k_pg s') (frame 0 + 0x87) /\
    bytes_at (k_mem s') (MB128 + PROC_OFFSET) (Z.to_nat n) = file_slice m boot (d_ind d) 0 (Z.to_nat n) /\
    forall i, 0 <= i < 2000 -> chr s' i = 32.
Proof.
  intros m boot n Hg Hok Hpar Hk Hc Hl Hf Hin Ho Hs.
  destruct (halt_root fuel ebp status s name argl d pde) as (s1 & s' & E & R & St & U & _ & K & B & M); try done.
  exists s1, s'. split_and!; try done.
  - apply (ro_rest _ _ R).
  - intros j Hj. rewrite (st_others _ _ _ _ _ St) by done. by apply R.
  - intros i Hi. rewrite <- (ro_chr _ _ R i Hi). apply (only_frame_low 0 _ _ _ ltac:(lia) M). unfold VIDEO, _8MB. lia.
Qed.

End Halt.

(** ** [getargs] and [vidmap] *)

Section Serve.
Context `{D : Device} `{Sy : Symbols}.
Implicit Types s : kst.

Lemma args_byte_in p i s : 0 <= i < 128 -> args_byte p i s = at_ (args (pcb_at p s)) 0 i.
Proof. intros Hi. unfold args_byte. by rewrite (proj2 (Z.ltb_lt _ _)) by lia. Qed.

Lemma args_cstr p s l :
  cstr (at_ (args (pcb_at p s)) 0) l -> (length l < 128)%nat -> cstr (fun i => args_byte p i s) l.
Proof.
  intros (H1 & H2 & H3) Hl. split_and!; [done| |].
  - intros i Hi. rewrite args_byte_in by lia. by apply H2.
  - by rewrite args_byte_in by lia.
Qed.

(** Where the bytes past the control block's fields are: the copy may read them. *)
Definition after_pcb (p : Z) : Z := _8MB - (p + 1) * _8KB + 276.

Lemma args_byte_stable p i s m :
  0 <= i -> (148 <= i -> ldb m (after_pcb p + (i - 148)) = ldb (k_mem s) (after_pcb p + (i - 148))) ->
  args_byte p i (set_mem m s) = args_byte p i s.
Proof.
  intros Hi H. unfold args_byte. change (pcb_at p (set_mem m s)) with (pcb_at p s).
  split_if; [done|]. split_if; [done|]. unfold after_pcb in H.
  replace (_8MB - (p + 1) * _8KB + 128 + i) with (_8MB - (p + 1) * _8KB + 276 + (i - 148)) by lia.
  apply H. lia.
Qed.

Lemma getargs_copy s p l buf n :
  get_pcb s = Some p -> cstr (at_ (args (pcb_at p s)) 0) l -> (length l < 128)%nat -> l <> [] ->
  Z.of_nat (length l) < n -> 0 < buf -> buf + n < 4294967296 -> region (k_mem s) buf n ->
  apart (k_mem s) buf n (after_pcb p) (n - 148) ->
  exists m', sys_getargs buf n s = Ret 0 (set_mem m' s) /\
    bytes_at m' buf (S (length l)) = l ++ [0] /\ only_changes (k_mem s) m' buf n.
Proof.
  intros Hp Hc Hl Hne Hlt Hb Hov Hr Ha. unfold sys_getargs, with_pcb.
  rewrite (proj2 (Z.eqb_neq buf 0)), (proj2 (Z.leb_gt n 0)) by lia. cbn [orb]. rewrite Hp.
  pose proof (args_cstr p s l Hc Hl) as Hc'.
  rewrite (strlen_cstr _ l 4096) by (done || lia). pose proof Hc' as (Hnz & Hrd & Hend).
  destruct l as [|c l]; [done|].
  rewrite (Hrd 0) by (simpl; lia). change (zget 0 (c :: l) 0) with c.
  apply Forall_cons in Hnz as [Hc0 _]. rewrite (proj2 (Z.eqb_neq c 0)) by done.
  rewrite (proj2 (Z.leb_gt _ _)) by lia.
  set (src := fun m i => args_byte p i (set_mem m s)).
  destruct (memcpy_filled buf src n (k_mem s) (fun i => args_byte p i s)) as [C F];
    try done; try lia.
  { intros m' j Hj Hch. unfold src. f_equal. apply args_byte_stable; [lia|].
    intros Hj'. eapply only_changes_ldb; [exact Hch|exact Ha|lia]. }
  eexists. split; [done|]. rewrite Z.add_0_r, Z.sub_0_r in C. split; [|exact C].
  apply (zlist_ext 0). { rewrite bytes_at_length, length_app. simpl. lia. }
  rewrite bytes_at_length. intros i Hi. rewrite bytes_at_get by done.
  rewrite F by lia.
  rewrite u8_small by (rewrite args_byte_in by lia; apply (ldb_range (args (pcb_at p s)))).
  destruct (Z.eq_dec i (Z.of_nat (length (c :: l)))) as [->|].
  - rewrite Hend. symmetry. apply zget_snoc.
  - rewrite Hrd, zget_app_l by lia. done.
Qed.

(** C31: [getargs] hands a program the arguments it was started with: for a buffer with
    room for them and the NUL, they and the NUL are stored, nothing outside the buffer
    changes and the result is 0; without arguments, or when they do not fit, the result
    is -1 and nothing changes. *)
Theorem getargs_spec s p l buf n :
  get_pcb s = Some p -> cstr (at_ (args (pcb_at p s)) 0) l -> (length l < 128)%nat ->
  0 < buf -> 0 < n -> buf + n < 4294967296 -> region (k_mem s) buf n ->
  apart (k_mem s) buf n (after_pcb p) (n - 148) ->
  (l <> [] /\ Z.of_nat (length l) < n ->
   exists m', sys_getargs buf n s = Ret 0 (set_mem m' s) /\
     bytes_at m' buf (S (length l)) = l ++ [0] /\ only_changes (k_mem s) m' buf n) /\
  (l = [] \/ n <= Z.of_nat (length l) -> sys_getargs buf n s = Ret (-1) s).
Proof.
  intros Hp Hc Hl Hb Hn Hov Hr Ha. split.
  { intros [Hne Hlt]. by apply (getargs_copy s p). }
  intros H. unfold sys_getargs, with_pcb.
  rewrite (proj2 (Z.eqb_neq buf 0)), (proj2 (Z.leb_gt n 0)) by lia. cbn [orb]. rewrite Hp.
  pose proof (args_cstr p s l Hc Hl) as Hc'.
  rewrite (strlen_cstr _ l 4096) by (done || lia). pose proof Hc' as (_ & _ & Hend).
  destruct H as [-> | Hle].
  - by rewrite (Hend : args_byte p 0 s = 0).
  - split_if; [done|]. by rewrite (proj2 (Z.leb_le _ _)) by lia.
Qed.

(** The user's address of the screen, 132 MiB + 0xB8000. *)
Definition user_screen : Z := 0x84B8000.

(** [vidmap] gives a program a pointer to the screen: for a location inside the
    program window the call returns 0, stores there the address 132 MiB + 0xB8000 and
    changes nothing else, and a byte stored through that pointer is a byte of the
    screen; locations below 128 MiB or above 132 MiB give -1 and nothing changes. *)
Theorem vidmap_spec s a :
  paging_on (k_mem s) = true ->
  (MB128 <= a -> a + 4 <= MB132 ->
   exists m', sys_vidmap a s = (0, set_mem m' s) /\ ld32 m' a = user_screen /\
     only_changes (k_mem s) m' a 4 /\
     forall i v, 0 <= i < 4000 -> vid_get i (set_mem (stb m' (user_screen + i) v) s) = u8 v) /\
  (a < MB128 \/ MB132 < a -> sys_vidmap a s = (-1, s)).
Proof.
  intros Hp. unfold sys_vidmap. unfold user_screen. split.
  - intros H1 H2. rewrite (proj2 (Z.ltb_ge a MB128)), (proj2 (Z.ltb_ge MB132 a)) by lia. cbn [orb].
    change (4194304 * 33 + 753664) with 0x84B8000.
    assert (Hr : region (k_mem s) a 4).
    { replace a with (MB128 + (a - MB128)) by lia. apply region_window; [done|lia|].
      unfold MB128, MB132, MB4 in *. lia. }
    exists (st32 (k_mem s) a 0x84B8000). split; [done|].
    split; [by rewrite ld32_st32|]. split; [apply only_changes_st32|].
    intros i v Hi. set (m' := st32 (k_mem s) a 0x84B8000).
    assert (Hp' : paging_on m' = true) by exact Hp. clearbody m'.
    unfold vid_get. cbn [k_mem set_mem]. apply ldb_stb_same; [done|]. unfold cell; simpl.
    change 139165696 with (MB132 + 0xB8000). rewrite <- Z.add_assoc.
    unfold VIDEO. rewrite tr_window2, tr_kernel; [done|unfold MB128; lia|done|unfold MB4; lia].
  - intros H. destruct ((a <? MB128) || (MB132 <? a)) eqn:E; [done|lia].
Qed.

End Serve.
