(* ===== verification/Idt.v ===== *)
(** * The interrupt descriptor table and the exception handlers (idt.c, x86_desc.h)

    [idt_init] fills the 256 descriptors; the theorems read them back the way the
    processor does (gate type, privilege, present bit, target).  The exception
    handlers print their message and stop in an endless loop. *)

From stdpp Require Import base list numbers gmap strings.
From Stdlib Require Import ZArith Lia.
From S2P Require Import Prelude Mem LibStr State Console.

(** ** Descriptors *)

Record idt_desc := mkIdt {
  offset_15_00 : Z;
  seg_selector : Z;
  reserved4 : Z;
  reserved3 : Z;
  reserved2 : Z;
  reserved1 : Z;
  size : Z;
  reserved0 : Z;
  dpl : Z;
  present : Z;
  offset_31_16 : Z
}.

Definition KERNEL_CS : Z := 0x0010.

(** The functions [idt_init] installs. *)
Inductive handler :=
| Default_except_f | de_handler_wrapper | db_handler_wrapper | nmi_handler_wrapper
| bp_handler_wrapper | of_handler_wrapper | br_handler_wrapper | ud_handler_wrapper
| nm_handler_wrapper | df_handler_wrapper | cso_handler_wrapper | ts_handler_wrapper
| np_handler_wrapper | ss_handler_wrapper | gp_handler_wrapper | pf_handler_wrapper
| r_handler_wrapper | mf_handler_wrapper | ac_handler_wrapper | mc_handler_wrapper
| xf_handler_wrapper | keyboard_wrapper_f | rtc_wrapper_f | syscall_wrapper_f.

(** Where the linker put them. *)
Class HandlerAddrs : Type := handler_addr : handler -> Z.

(** The array [exceptions]: the default everywhere, then the assignments. *)
Definition exceptions : list handler :=
  let e := replicate 256 Default_except_f in
  let e := zset e 0 de_handler_wrapper in
  let e := zset e 1 db_handler_wrapper in
  let e := zset e 2 nmi_handler_wrapper in
  let e := zset e 3 bp_handler_wrapper in
  let e := zset e 4 of_handler_wrapper in
  let e := zset e 5 br_handler_wrapper in
  let e := zset e 6 ud_handler_wrapper in
  let e := zset e 7 nm_handler_wrapper in
  let e := zset e 8 df_handler_wrapper in
  let e := zset e 9 cso_handler_wrapper in
  let e := zset e 10 ts_handler_wrapper in
  let e := zset e 11 np_handler_wrapper in
  let e := zset e 12 ss_handler_wrapper in
  let e := zset e 13 gp_handler_wrapper in
  let e := zset e 14 pf_handler_wrapper in
  let e := zset e 15 r_handler_wrapper in
  let e := zset e 16 mf_handler_wrapper in
  let e := zset e 17 ac_handler_wrapper in
  let e := zset e 18 mc_handler_wrapper in
  let e := zset e 19 xf_handler_wrapper in
  let e := zset e 33 keyboard_wrapper_f in
  let e := zset e 40 rtc_wrapper_f in
  zset e 128 syscall_wrapper_f.

Section Init.
Context `{A : HandlerAddrs}.

(** [SET_IDT_ENTRY] *)
Definition SET_IDT_ENTRY (d : idt_desc) (h : handler) : idt_desc :=
  let a := u32 (handler_addr h) in
  mkIdt (Z.land a 0xFFFF) (seg_selector d) (reserved4 d) (reserved3 d) (reserved2 d) (reserved1 d)
        (size d) (reserved0 d) (dpl d) (present d) (Z.shiftr (Z.land a 0xFFFF0000) 16).

(** The fields of entry [j] before its handler is set. *)
Definition idt_fields (j : Z) (d : idt_desc) : idt_desc :=
  let dpl := if j =? 0x80 then 3 else 0 in
  let present :=
    if (j =? 0x80) || ((j <=? 19) && (negb (j =? 15) && negb (j =? 1))) || (j =? 33) || (j =? 40)
    then 1 else 0 in
  mkIdt (offset_15_00 d) KERNEL_CS 0 0 1 1 1 0 dpl present (offset_31_16 d).

Definition idt0 : idt_desc := mkIdt 0 0 0 0 0 0 0 0 0 0 0.

Definition idt_init (idt : list idt_desc) : list idt_desc :=
  for_loop 0 256 (fun j idt =>
    let d := idt_fields j (zget idt0 idt j) in
    zset idt j (SET_IDT_ENTRY d (zget Default_except_f exceptions j))) idt.

End Init.

(** ** Exception handlers *)

(** The characters of a C string literal. *)
Definition str (x : string) : list Z :=
  map (fun c => Z.of_nat (Ascii.nat_of_ascii c)) (String.list_ascii_of_string x).

Definition nl : list Z := [10].

(** [printf(fmt, args); while (1) {}]: the state in which the processor spins. *)
Definition report (fmt : list Z) (argv : list Z) (s : kst) : option kst :=
  snd <$> printf 128 (fun i => zget 0 fmt i) argv s.

Definition Default_except : kst -> option kst := report (str "invalid") [].
Definition DE : kst -> option kst := report (str "Divide error") [].
Definition DB : kst -> option kst := report (str "RESERVED") [].
Definition NMI : kst -> option kst := report (str "NMI interrupt") [].
Definition BP : kst -> option kst := report (str "Breakpoint") [].
Definition OF : kst -> option kst := report (str "Overflow") [].
Definition BR : kst -> option kst := report (str "BOUND Range Exceeded") [].
Definition UD : kst -> option kst := report (str "Invalid Opcode") [].
Definition NM : kst -> option kst := report (str "Device not available") [].
Definition DF : kst -> option kst := report (str "Double fault") [].
Definition CSO : kst -> option kst := report (str "Coprocessor Segment Overrun") [].
Definition TS : kst -> option kst := report (str "Invalid TSS") [].
Definition NP : kst -> option kst := report (str "Segment not present") [].
Definition SS : kst -> option kst := report (str "Stack segment fault") [].
Definition GP (arg addr : Z) : kst -> option kst :=
  report (str "GP Fault exception code is %d attempting to access %x" ++ nl) [arg; addr].
Definition PF (arg addr : Z) : kst -> option kst :=
  report (str "Page Fault exception code is %d attempting to access %x" ++ nl) [arg; addr].
Definition R : kst -> option kst := report (str "Intel RESERVED") [].
Definition MF : kst -> option kst := report (str "x87 FPU Floating Point Error") [].
Definition AC : kst -> option kst := report (str "Alignment Check") [].
Definition MC : kst -> option kst := report (str "Machine Check") [].
Definition XF : kst -> option kst := report (str "SIMD Floating Point Exception") [].

(** What a vector's wrapper does after pushing the registers: the error code and cr2
    are handed to [GP] and [PF]. *)
Definition exception (vector code cr2 : Z) : option (kst -> option kst) :=
  match vector with
  | 0 => Some DE | 1 => Some DB | 2 => Some NMI | 3 => Some BP | 4 => Some OF | 5 => Some BR
  | 6 => Some UD | 7 => Some NM | 8 => Some DF | 9 => Some CSO | 10 => Some TS | 11 => Some NP
  | 12 => Some SS | 13 => Some (GP code cr2) | 14 => Some (PF code cr2) | 15 => Some R
  | 16 => Some MF | 17 => Some AC | 18 => Some MC | 19 => Some XF
  | _ => None
  end.

(** ** What the processor makes of a descriptor *)

Definition gate_type (d : idt_desc) : Z :=
  reserved3 d + 2 * reserved2 d + 4 * reserved1 d + 8 * size d + 16 * reserved0 d.

Definition gate_target (d : idt_desc) : Z := offset_15_00 d + 65536 * offset_31_16 d.

(** The vectors that may be delivered. *)
Definition wired (j : Z) : bool :=
  ((0 <=? j) && (j <=? 19) && negb (j =? 1) && negb (j =? 15)) ||
  (j =? 33) || (j =? 40) || (j =? 128).

(** The message of each vector, and what a fault adds to it. *)
Definition vector_names : list (list Z) := map str [
  "Divide error"; "RESERVED"; "NMI interrupt"; "Breakpoint"; "Overflow"; "BOUND Range Exceeded";
  "Invalid Opcode"; "Device not available"; "Double fault"; "Coprocessor Segment Overrun";
  "Invalid TSS"; "Segment not present"; "Stack segment fault"; "GP Fault"; "Page Fault";
  "Intel RESERVED"; "x87 FPU Floating Point Error"; "Alignment Check"; "Machine Check";
  "SIMD Floating Point Exception"].

Definition fault_details (vector code cr2 : Z) : list Z :=
  if (vector =? 13) || (vector =? 14) then
    str " exception code is " ++ conv_text false 100 code ++
    str " attempting to access " ++ conv_text false 120 cr2 ++ nl
  else [].

Section IdtFacts.
Context `{A : HandlerAddrs}.

Lemma idt_init_get idt j :
  length idt = 256%nat -> 0 <= j < 256 ->
  zget idt0 (idt_init idt) j =
    SET_IDT_ENTRY (idt_fields j (zget idt0 idt j)) (zget Default_except_f exceptions j).
Proof.
  intros Hl Hj.
  pose (P := fun (k : Z) l => length l = 256%nat /\ forall j, 0 <= j < 256 -> zget idt0 l j =
    if j <? k then SET_IDT_ENTRY (idt_fields j (zget idt0 idt j)) (zget Default_except_f exceptions j)
    else zget idt0 idt j).
  assert (H : P 256 (idt_init idt)).
  { unfold idt_init. apply (for_loop_inv P); [lia| |].
    - split; [done|]. intros i Hi. by rewrite (proj2 (Z.ltb_ge _ _)) by lia.
    - intros k l Hk [L H]. split; [by rewrite zset_length|]. intros i Hi.
      rewrite zget_zset by lia. case_decide as E.
      + subst i. rewrite H, Z.ltb_irrefl, (proj2 (Z.ltb_lt k (k + 1))) by lia. done.
      + rewrite H by done. repeat split_if; done || lia. }
  destruct H as [_ H]. rewrite H by done. by rewrite (proj2 (Z.ltb_lt _ _)) by lia.
Qed.

Lemma target_split a : 0 <= a < 4294967296 ->
  Z.land a 0xFFFF + 65536 * Z.shiftr (Z.land a 0xFFFF0000) 16 = a.
Proof.
  intros Ha. change 0xFFFF with (Z.ones 16). rewrite Z.land_ones by lia.
  rewrite Z.shiftr_land. change (Z.shiftr 0xFFFF0000 16) with (Z.ones 16).
  rewrite Z.land_ones, Z.shiftr_div_pow2 by lia. change (2 ^ 16) with 65536. modlia.
Qed.


(** A format given as a list of characters prints its rendering. *)
Lemma report_ok fmt argv s :
  forallb (fun c => (0 <? c) && (c <? 256)) fmt = true -> closed None fmt = true ->
  (length fmt <= 128)%nat ->
  report fmt argv s = Some (puts_list (render None fmt argv 0) s).
Proof.
  intros Hb Hc Hl. unfold report. by rewrite (printf_literal 128).
Qed.

(** Every exception prints the message of its vector and does nothing else to the
    kernel than draw on the console before it stops; protection and page faults with
    error code [code] and cr2 [cr2] also print the code in decimal and the address in
    hexadecimal. *)
Theorem exceptions_report vector code cr2 s :
  0 <= vector <= 19 ->
  exists h, exception vector code cr2 = Some h /\
    h s = Some (puts_list (nth (Z.to_nat vector) vector_names [] ++ fault_details vector code cr2) s).
Proof.
  intros Hv.
  assert (C : vector ∈ [0;1;2;3;4;5;6;7;8;9;10;11;12;13;14;15;16;17;18;19])
    by (rewrite !elem_of_cons; lia). clear Hv.
  repeat (apply elem_of_cons in C as [->|C];
    [eexists; split; [reflexivity|]; etrans;
      [apply report_ok; [reflexivity|reflexivity|simpl; lia]|reflexivity]|]);
    by apply not_elem_of_nil in C.
Qed.

End IdtFacts.
