(* ===== verification/Pit.v ===== *)
(** * The interval timer (pit.c, pit.h)

    Programming the timer, and its handler, which saves the stack pointers, maps the
    frame of the running process and restores them: the place where a scheduler would
    switch processes. *)

From stdpp Require Import base list numbers gmap.
From Stdlib Require Import ZArith Lia.
From S2P Require Import Prelude Mem State Pic Paging Filesystem Syscall.

Definition PIT_FREQ : Z := 1193182.
Definition PIT_RATE : Z := 20.
Definition PIT_PORT : Z := 0x40.
Definition PIT_CMD_PORT : Z := 0x43.
Definition PIT_CMD : Z := 0x36.
Definition PIT_IRQ : Z := 0.

Section Pit.
Context `{D : Device}.

Definition pit_init (s : kst) : kst :=
  let divisor := Z.quot PIT_FREQ PIT_RATE in
  let s := outb PIT_CMD PIT_CMD_PORT s in
  let s := outb (Z.land divisor 0xFF) PIT_PORT s in
  let s := outb (Z.shiftr divisor 8) PIT_PORT s in
  enable_irq PIT_IRQ s.

(** [ebp] is the frame pointer in the handler. *)
Definition pit_handler (ebp : Z) : K unit := fun s =>
  let s := send_eoi PIT_IRQ s in
  let s := cli s in
  with_pcb (fun p s =>
    let s := upd_pcb p (fun q => with_saved_ebp ebp (with_saved_esp (k_esp s) q)) s in
    with_pcb (fun p s =>
      let s := map_program (pid (pcb_at p s)) s in
      let s := set_kernel_stack (pid (pcb_at p s)) s in
      let s := set_esp (saved_esp (pcb_at p s)) s in
      Ret tt (sti s)) s) s.

(** ** Properties *)

(** The timer is programmed with the divisor whose low and high byte are sent, in
    that order, after the command byte for that mode: about 20 interrupts a second;
    nothing but the port history changes. *)
Theorem pit_init_divisor s :
  exists lo hi v data, k_io (pit_init s) =
      [Out 0x21 data; In 0x21 v; Out 0x40 hi; Out 0x40 lo; Out 0x43 0x36] ++ k_io s /\
    lo + 256 * hi = 59659 /\ data = u8 (Z.land v (Z.lnot 1)) /\ only_io s (pit_init s).
Proof.
  exists 11, 233. eexists _, _. split; [reflexivity|]. split; [done|]. split; [|by destruct s].
  apply u8_u8.
Qed.

Context `{Sy : Symbols} `{AS : !AlignedSymbols}.

(** The timer's handler returns to the process it interrupted: for a process whose
    control block has its own number, the stack pointer and every other process are as
    before, the stack pointers are saved in its control block, its own frame is mapped
    and its own kernel stack is in the TSS; interrupts are on. *)
Theorem pit_handler_same_process ebp s p pde :
  get_pcb s = Some p -> pcbs_ok s -> pid (pcb_at p s) = p -> kernel_pages (k_pg s) pde ->
  exists s', pit_handler ebp s = Ret tt s' /\ k_esp s' = k_esp s /\ get_pcb s' = Some p /\
    saved_esp (pcb_at p s') = k_esp s /\ saved_ebp (pcb_at p s') = ebp /\
    (forall fd, fd_at p fd s' = fd_at p fd s) /\ (forall j, j <> p -> pcb_at j s' = pcb_at j s) /\
    upage (k_mem s') = frame p /\ esp0 (k_tss s') = _8MB - p * _8KB - 4 /\
    phys (k_mem s') = phys (k_mem s) /\ k_if s' = true.
Proof.
  intros Hg Hok Hpid Hk. pose proof (get_pcb_range s p Hg) as Hp. unfold pit_handler.
  assert (H0 : send_eoi PIT_IRQ s = set_io (k_io (send_eoi PIT_IRQ s)) s)
    by apply send_eoi_only_io. set (io := k_io (send_eoi PIT_IRQ s)) in *. rewrite H0. clearbody io.
  set (s0 := cli (set_io io s)). unfold with_pcb at 1. change (get_pcb s0) with (get_pcb s). rewrite Hg.
  set (f := fun q => with_saved_ebp ebp (with_saved_esp (k_esp s0) q)). set (s1 := upd_pcb p f s0).
  unfold with_pcb. change (get_pcb s1) with (get_pcb s). rewrite Hg.
  assert (P1 : forall j, pcb_at j s1 = if decide (p = j) then f (pcb_at p s) else pcb_at j s)
    by (intros j; exact (pcb_at_upd p j f s0 Hok Hp)).
  assert (Q1 : pcb_at p s1 = f (pcb_at p s)) by (rewrite P1; by rewrite decide_True).
  assert (E1 : pid (pcb_at p s1) = p) by (rewrite Q1; exact Hpid). rewrite E1.
  destruct (map_program_pages p s1 pde Hp Hk) as (_ & Hu & _ & Hph & E2).
  generalize dependent (map_program p s1). intros s2 Hu Hph E2.
  assert (P2 : forall j, pcb_at j s2 = pcb_at j s1) by (intros j; by rewrite E2).
  rewrite P2, E1. eexists. split; [done|].
  change (saved_esp (pcb_at p (set_kernel_stack p s2))) with (saved_esp (pcb_at p s2)).
  set (s3 := sti _).
  assert (P3 : forall j, pcb_at j s3 = pcb_at j s1) by (intros j; exact (P2 j)).
  assert (K3 : k_esp s3 = k_esp s) by (unfold s3; simpl; rewrite P2, Q1; done).
  assert (F3 : forall fd, fd_at p fd s3 = fd_at p fd s) by (intros fd; unfold fd_at; by rewrite P3, Q1).
  split; [done|]. split; [unfold get_pcb; rewrite K3; exact Hg|].
  split; [by rewrite P3, Q1|]. split; [by rewrite P3, Q1|]. split; [done|].
  split; [intros j Hj; rewrite P3, P1; by rewrite decide_False|]. split; [exact Hu|].
  split; [apply u32_small; unfold _8MB, _8KB; lia|]. split; [exact Hph|done].
Qed.

End Pit.
