(* ===== verification/Boot.v ===== *)
(** * Kernel entry (kernel.c, the descriptor macros of x86_desc.h)

    [entry], called by boot.S with the boot loader's magic number and information
    structure: it prints what the boot loader reports, builds the LDT and TSS
    descriptors, initialises interrupt controllers, file system, IDT, clock, keyboard
    and paging in this order, and starts the first shell.  The theorem at the end
    composes the components: from a boot loader that reports a file system image with
    the shell's program in it, [entry] ends in user mode in that program. *)

From stdpp Require Import base list numbers gmap strings.
From Stdlib Require Import ZArith Lia.
From S2P Require Import Prelude Mem LibStr State Pic Console Rtc Keyboard Irq Terminal Paging.
From S2P Require Import Filesystem Syscall Process Idt.

Definition MULTIBOOT_BOOTLOADER_MAGIC : Z := 0x2BADB002.
Definition KERNEL_TSS : Z := 0x0030.
Definition KERNEL_LDT : Z := 0x0038.
Definition TSS_SIZE : Z := 104.

(** x86_desc.S: [tss_size] and [ldt_size] are the limits, the sizes less one. *)
Definition tss_size : Z := 104 - 1.
Definition ldt_size : Z := 4 * 8 - 1.

(** Addresses the linker chooses for kernel.c. *)
Class BootSymbols : Type := {
  sym_ldt : Z;                    (* &ldt *)
  sym_tss : Z;                    (* &tss *)
  sym_boot_shell : Z              (* the literal "shell" of entry *)
}.

(** ** Segment descriptors *)

Record seg_desc := mkSeg {
  seg_lim_15_00 : Z;
  base_15_00 : Z;
  base_23_16 : Z;
  seg_type : Z;
  seg_sys : Z;
  seg_dpl : Z;
  seg_present : Z;
  seg_lim_19_16 : Z;
  seg_avail : Z;
  seg_reserved : Z;
  seg_opsize : Z;
  seg_granularity : Z;
  base_31_24 : Z
}.

(** [SET_LDT_PARAMS] and [SET_TSS_PARAMS] have the same text. *)
Definition SET_LDT_PARAMS (d : seg_desc) (addr lim : Z) : seg_desc :=
  mkSeg (Z.land lim 0x0000FFFF) (Z.land (u32 addr) 0x0000FFFF)
    (Z.shiftr (Z.land (u32 addr) 0x00FF0000) 16)
    (seg_type d) (seg_sys d) (seg_dpl d) (seg_present d)
    (Z.shiftr (Z.land lim 0x000F0000) 16)
    (seg_avail d) (seg_reserved d) (seg_opsize d) (seg_granularity d)
    (Z.shiftr (Z.land (u32 addr) 0xFF000000) 24).
Definition SET_TSS_PARAMS (d : seg_desc) (addr lim : Z) : seg_desc :=
  mkSeg (Z.land lim 0x0000FFFF) (Z.land (u32 addr) 0x0000FFFF)
    (Z.shiftr (Z.land (u32 addr) 0x00FF0000) 16)
    (seg_type d) (seg_sys d) (seg_dpl d) (seg_present d)
    (Z.shiftr (Z.land lim 0x000F0000) 16)
    (seg_avail d) (seg_reserved d) (seg_opsize d) (seg_granularity d)
    (Z.shiftr (Z.land (u32 addr) 0xFF000000) 24).

(** The tables and registers of the processor that only [entry] writes. *)
Record tables := mkTables {
  ldt_desc_ptr : seg_desc;
  tss_desc_ptr : seg_desc;
  idt_table : list idt_desc;
  ldtr : Z;
  task_register : Z
}.

(** ** The boot loader's information *)

Definition CHECK_FLAG (flags bit : Z) : bool := negb (Z.land flags (Z.shiftl 1 bit) =? 0).

(** Word [i] of [multiboot_info_t]: flags, mem_lower, mem_upper, boot_device, cmdline,
    mods_count, mods_addr, the four words of elf_sec, mmap_length, mmap_addr. *)
Definition mbi_word (addr i : Z) (s : kst) : Z := ld32 (k_mem s) (addr + 4 * i).
Definition mbi_flags (addr : Z) : kst -> Z := mbi_word addr 0.
Definition mem_lower (addr : Z) : kst -> Z := mbi_word addr 1.
Definition mem_upper (addr : Z) : kst -> Z := mbi_word addr 2.
Definition boot_device (addr : Z) : kst -> Z := mbi_word addr 3.
Definition cmdline (addr : Z) : kst -> Z := mbi_word addr 4.
Definition mods_count (addr : Z) : kst -> Z := mbi_word addr 5.
Definition mods_addr (addr : Z) : kst -> Z := mbi_word addr 6.
Definition mmap_length (addr : Z) : kst -> Z := mbi_word addr 11.
Definition mmap_addr (addr : Z) : kst -> Z := mbi_word addr 12.

(** [printf(fmt, args)]; a format has at most 4096 characters, strings included. *)
Definition say (fmt argv : list Z) : K unit := fun s =>
  match printf 4096 (fun i => zget 0 fmt i) argv s with
  | Some (_, s) => Ret tt s
  | None => NoFuel
  end.

(** [say] with arguments read in the state at the call. *)
Definition say_at (fmt : list Z) (argv : kst -> list Z) : K unit := fun s => say fmt (argv s) s.

(** [if (CHECK_FLAG(mbi->flags, bit)) ...] *)
Definition if_flag (addr bit : Z) (c : K unit) : K unit := fun s =>
  if CHECK_FLAG (mbi_flags addr s) bit then c s else Ret tt s.

(** The 16 bytes of a module: the byte is a [char], sign-extended for [%x]. *)
Fixpoint show_bytes (k : nat) (mod_ i : Z) : K unit :=
  match k with
  | O => kret tt
  | S k' =>
      (say_at (str "0x%x ") (fun s => [u32 (i8 (ldb (k_mem s) (ld32 (k_mem s) mod_ + i)%Z))]) ;;
       show_bytes k' mod_ (i + 1))%kernel
  end.

(** The lines on one module. *)
Definition show_module (mod_count mod_ : Z) : K unit :=
  (say_at (str "Module %d loaded at address: 0x%#x" ++ nl)
     (fun s => [mod_count; ld32 (k_mem s) mod_]) ;;
   say_at (str "Module %d ends at address: 0x%#x" ++ nl)
     (fun s => [mod_count; ld32 (k_mem s) (mod_ + 4)%Z]) ;;
   say_at (str "First few bytes of module:" ++ nl) (fun _ => []) ;;
   show_bytes 16 mod_ 0 ;;
   say nl [])%kernel.

(** The loop over the modules; [k] bounds the iterations. *)
Fixpoint show_modules (k : nat) (addr mod_count mod_ : Z) : K unit := fun s =>
  if mod_count <? mods_count addr s then
    match k with
    | O => NoFuel
    | S k' =>
        (show_module mod_count mod_ ;; show_modules k' addr (mod_count + 1) (mod_ + 16))%kernel s
    end
  else Ret tt s.

(** The loop over the memory map. *)
Fixpoint show_mmap (k : nat) (addr mmap : Z) : K unit := fun s =>
  if mmap <? u32 (mmap_addr addr s + mmap_length addr s) then
    match k with
    | O => NoFuel
    | S k' =>
        (say_at (str "    size = 0x%x, base_addr = 0x%#x%#x" ++ nl ++
                 str "    type = 0x%x,  length    = 0x%#x%#x" ++ nl)
           (fun s => map (fun i => ld32 (k_mem s) (mmap + 4 * i)%Z) [0; 2; 1; 5; 4; 3]) ;;
         fun s => show_mmap k' addr (u32 (mmap + ld32 (k_mem s) mmap + 4)) s)%kernel s
    end
  else Ret tt s.

(** The report up to the test of bits 4 and 5, and the rest of it. *)
Definition report_first (addr : Z) : K unit :=
  (say_at (str "flags = 0x%#x" ++ nl) (fun s => [mbi_flags addr s]) ;;
   if_flag addr 0 (say_at (str "mem_lower = %uKB, mem_upper = %uKB" ++ nl)
     (fun s => [mem_lower addr s; mem_upper addr s])) ;;
   if_flag addr 1 (say_at (str "boot_device = 0x%#x" ++ nl) (fun s => [boot_device addr s])) ;;
   if_flag addr 2 (say_at (str "cmdline = %s" ++ nl) (fun s => [cmdline addr s])) ;;
   if_flag addr 3 (fun s => show_modules (Z.to_nat (mods_count addr s)) addr 0 (mods_addr addr s) s))%kernel.

Definition report_second (addr : Z) : K unit :=
  (if_flag addr 5 (say_at (str "elf_sec: num = %u, size = 0x%#x, addr = 0x%#x, shndx = 0x%#x" ++ nl)
     (fun s => map (fun i => mbi_word addr i s) [7; 8; 9; 10])) ;;
   if_flag addr 6
     (say_at (str "mmap_addr = 0x%#x, mmap_length = 0x%x" ++ nl)
        (fun s => [mmap_addr addr s; mmap_length addr s]) ;;
      fun s => show_mmap (Z.to_nat (mmap_length addr s)) addr (mmap_addr addr s) s))%kernel.

(** ** Initialisation *)

Section Entry.
Context `{D : Device} `{Sy : Symbols} `{BS : BootSymbols} `{HA : HandlerAddrs}.

(** The descriptors; [junk] is the uninitialised local, every field is assigned. *)
Definition the_ldt_desc (junk : seg_desc) : seg_desc :=
  SET_LDT_PARAMS
    (mkSeg (seg_lim_15_00 junk) (base_15_00 junk) (base_23_16 junk)
       0x2 0x0 0x0 0x1 (seg_lim_19_16 junk) 0x0 0x0 0x1 0x0 (base_31_24 junk))
    sym_ldt ldt_size.

Definition the_tss_desc (junk : seg_desc) : seg_desc :=
  SET_TSS_PARAMS
    (mkSeg (Z.land TSS_SIZE 0x0000FFFF) (base_15_00 junk) (base_23_16 junk)
       0x9 0x0 0x0 0x1 (Z.land (Z.land TSS_SIZE 0x000F0000) 15) 0x0 0x0 0x0 0x0 (base_31_24 junk))
    sym_tss tss_size.

Definition init_tables (junk : seg_desc) (t : tables) : tables :=
  mkTables (the_ldt_desc junk) (the_tss_desc junk) (idt_init (idt_table t)) KERNEL_LDT KERNEL_TSS.

(** The TSS, then the components in the order of the code, up to [page_init]. *)
Definition init_kernel (addr : Z) (s : kst) : kst :=
  let s := set_tss (mkTss KERNEL_DS 0x800000 KERNEL_LDT) s in
  let s := i8259_init s in
  let '(_, s) := dir_open (ld32 (k_mem s) (mods_addr addr s)) s in
  let s := rtc_init s in
  let s := keyboard_init s in
  page_init s.

Definition boot_kernel (fuel : nat) (ebp addr : Z) : K Z :=
  (kmod (init_kernel addr) ;;
   say (str "size of dentry: %d, inode: %d, bootblock: %d, data: %d" ++ nl) [64; 4096; 4096; 4096] ;;
   say (str "Enabling Interrupts" ++ nl) [] ;;
   kmod sti ;;
   kmod clear_term ;;
   sys_execute fuel ebp sym_boot_shell ;;
   fun s => Blocked s)%kernel.

(** [entry]: the processor's tables and the outcome.  A bad magic number or
    contradictory flags make it return before any initialisation. *)
Definition entry (fuel : nat) (ebp magic addr : Z) (junk : seg_desc) (t : tables) (s : kst)
  : tables * res Z :=
  let s := clear s in
  if negb (magic =? MULTIBOOT_BOOTLOADER_MAGIC) then
    (t, (say (str "Invalid magic number: 0x%#x" ++ nl) [magic] ;; kret 0)%kernel s)
  else
    match report_first addr s with
    | Ret _ s =>
        if CHECK_FLAG (mbi_flags addr s) 4 && CHECK_FLAG (mbi_flags addr s) 5 then
          (t, (say (str "Both bits 4 and 5 are set." ++ nl) [] ;; kret 0)%kernel s)
        else
          match report_second addr s with
          | Ret _ s => (init_tables junk t, boot_kernel fuel ebp addr s)
          | _ => (t, NoFuel)
          end
    | _ => (t, NoFuel)
    end.

End Entry.

(** ** What the report draws

    [putc] does not scroll: a line break in the last row leaves the cursor on row 25,
    and the next character goes there before the row is reduced modulo 25.  So the
    report may write past the 25 rows of the screen; the 8000 bytes (50 rows) from
    [VIDEO] bound it. *)

Definition rows (k : Z) (s : kst) : Prop :=
  0 <= screen_x (k_con s) < 80 /\ 0 <= screen_y (k_con s) <= k.

Definition prints (s s' : kst) : Prop :=
  only_console s s' /\ only_changes (k_mem s) (k_mem s') VIDEO 8000.

#[export] Instance prints_preorder : PreOrder prints.
Proof.
  split; [split; [reflexivity|apply only_changes_refl]|].
  intros s1 s2 s3 [A1 A2] [B1 B2]. split; [by etrans|by eapply only_changes_trans].
Qed.

Definition is_nl (c : Z) : bool := (c =? 10) || (c =? 13).

Fixpoint nls (l : list Z) : Z :=
  match l with [] => 0 | c :: l' => (if is_nl c then 1 else 0) + nls l' end.

(** The line breaks a format may print: literal ones, and one for each [%c]. *)
Fixpoint fmt_nls (st : option bool) (f : list Z) : Z :=
  match f with
  | [] => 0
  | c :: f' =>
      match st with
      | None => if c =? 37 then fmt_nls (Some false) f' else (if is_nl c then 1 else 0) + fmt_nls None f'
      | Some alt =>
          if c =? 35 then fmt_nls (Some true) f' else (if c =? 99 then 1 else 0) + fmt_nls None f'
      end
  end.

Section Report.
Implicit Types s : kst.

Lemma draws_prints s s' : draws s s' -> prints s s'.
Proof. intros [A B]. split; [done|]. eapply only_changes_weaken; [..|exact B]; lia. Qed.

Lemma rows_mono k k' s : rows k s -> k <= k' -> rows k' s.
Proof. unfold rows. lia. Qed.

Lemma prints_vid_put s off v : 0 <= off < 8000 -> prints s (vid_put off v s).
Proof. intros. split; [apply only_console_stb|]. by apply only_changes_stb. Qed.

Lemma prints_set_con s c : prints s (set_con c s).
Proof. split; [apply only_console_set_con|apply only_changes_refl]. Qed.

Lemma putc_rows c s k :
  rows k s -> 24 <= k <= 49 ->
  prints s (putc c s) /\ rows (if is_nl c then k + 1 else 24) (putc c s).
Proof.
  intros [Hx Hy] Hk. unfold putc, is_nl. destruct ((c =? 10) || (c =? 13)).
  { split; [etrans; apply prints_set_con|]. split; simpl; lia. }
  set (s1 := vid_put (cursor_off s) c s). set (s2 := vid_put (cursor_off s1 + 1) ATTRIB s1).
  assert (Eo : cursor_off s = 2 * (80 * screen_y (k_con s) + screen_x (k_con s))).
  { unfold cursor_off. rewrite shiftl1. change NUM_COLS with 80. lia. }
  assert (P2 : prints s s2).
  { etrans; apply prints_vid_put; [rewrite Eo; lia|]. change (cursor_off s1) with (cursor_off s). lia. }
  split; [etrans; [exact P2|]; etrans; [|apply prints_set_con]; etrans; apply prints_set_con|].
  clear P2. unfold rows. cbn. change NUM_COLS with 80. change NUM_ROWS with 25.
  destruct (k_con s) as [x y]. cbn in *. clear Eo s1 s2.
  rewrite !Z.rem_mod_nonneg by lia.
  pose proof (Z.mod_pos_bound (x + 1) 80 ltac:(lia)).
  rewrite Z.quot_small by lia. rewrite Z.rem_mod_nonneg by lia.
  pose proof (Z.mod_pos_bound (y + 0) 25 ltac:(lia)). lia.
Qed.

Lemma nls_nonneg l : 0 <= nls l.
Proof. induction l as [|c l IH]; simpl; [lia|]. destruct (is_nl c); lia. Qed.

Lemma nls_app l1 l2 : nls (l1 ++ l2) = nls l1 + nls l2.
Proof. induction l1 as [|c l1 IH]; simpl; [done|]. rewrite IH. lia. Qed.

Lemma puts_list_rows l s k :
  rows k s -> 24 <= k -> k + nls l <= 49 ->
  prints s (puts_list l s) /\ rows (k + nls l) (puts_list l s).
Proof.
  revert s k. induction l as [|c l IH]; intros s k Hr Hk Hn; simpl in *.
  { split; [reflexivity|]. by rewrite Z.add_0_r. }
  pose proof (nls_nonneg l) as H0.
  destruct (putc_rows c s k) as [P R]; [done|destruct (is_nl c); lia|].
  destruct (IH (putc c s) (if is_nl c then k + 1 else k)) as [P' R'];
    [eapply rows_mono; [exact R|destruct (is_nl c); lia]|destruct (is_nl c); lia|destruct (is_nl c); lia|].
  split; [by etrans|]. eapply rows_mono; [exact R'|]. destruct (is_nl c); lia.
Qed.

(** A text that begins with a character that is not a line break brings the cursor back
    to the 25 rows. *)
Lemma puts_line_rows c l s k :
  is_nl c = false -> rows k s -> 24 <= k <= 49 -> nls l <= 25 ->
  prints s (puts_list (c :: l) s) /\ rows (24 + nls l) (puts_list (c :: l) s).
Proof.
  intros Hc Hr Hk Hn. destruct (putc_rows c s k) as [P R]; [done|done|]. rewrite Hc in R.
  destruct (puts_list_rows l (putc c s) 24) as [P' R']; [done|lia|lia|].
  split; [by etrans|done].
Qed.

Lemma nls_digits ds : Forall (fun d => 0 <= d < 36) ds -> nls (map lookup_digit ds) = 0.
Proof.
  induction 1 as [|d ds Hd _ IH]; [done|]. cbn [map nls]. rewrite IH.
  assert (is_nl (lookup_digit d) = false) as ->; [|done].
  unfold is_nl, lookup_digit. repeat split_if; lia.
Qed.

Lemma nls_itoa radix v : 2 <= radix <= 36 -> nls (itoa_text radix v) = 0.
Proof.
  intros Hr. unfold itoa_text. split_if; [done|]. apply nls_digits, Forall_rev.
  eapply Forall_impl; [apply (digits_of_range 32 radix v); lia|]. simpl. lia.
Qed.

Lemma nls_zeros n : nls (replicate n 48) = 0.
Proof. induction n; done. Qed.

Lemma nls_conv alt c arg : nls (conv_text alt c arg) <= if c =? 99 then 1 else 0.
Proof.
  unfold conv_text, hex8. destruct (Z.eqb_spec c 99) as [->|].
  { cbn. destruct (is_nl (u8 arg)); lia. }
  repeat split_if; cbn [nls]; rewrite ?nls_app, ?nls_zeros, ?nls_itoa by lia; cbn; lia.
Qed.

Lemma nls_render f st argv esp : nls (render st f argv esp) <= fmt_nls st f.
Proof.
  revert st esp. induction f as [|c f IH]; intros st esp; simpl; [lia|]. destruct st as [alt|].
  - split_if; [apply IH|]. rewrite nls_app. pose proof (nls_conv alt c (zget 0 argv esp)) as H.
    specialize (IH None (if takes_arg c then esp + 1 else esp)). destruct (c =? 99); lia.
  - split_if; [apply IH|]. cbn [nls]. specialize (IH None esp). lia.
Qed.

End Report.

(** ** The report terminates *)

Lemma prints_off s s' : prints s s' -> same_off (k_mem s) (k_mem s').
Proof. intros [_ C]. by apply only_changes_off. Qed.


(** The chain of memory map entries from [p] reaches the end [e]. *)
Inductive mmap_chain (m : vmem) (e : Z) : Z -> Prop :=
| chain_end p : e <= p -> mmap_chain m e p
| chain_step p : p < e -> off_screen p 4 -> p + ld32 m p + 4 < 4294967296 ->
    mmap_chain m e (p + ld32 m p + 4) -> mmap_chain m e p.

(** What is relied on of the boot loader: its structures are not on the screen, at most
    one of bits 4 and 5 is set, the command line is one line of text and the memory
    map is a chain of entries. *)
Record boot_info (addr : Z) (s : kst) : Prop := {
  bi_where : off_screen addr 52;
  bi_mods : off_screen (mods_addr addr s) 4;
  bi_once : CHECK_FLAG (mbi_flags addr s) 4 && CHECK_FLAG (mbi_flags addr s) 5 = false;
  bi_cmd : CHECK_FLAG (mbi_flags addr s) 2 = true ->
    exists l, cstr (at_ (k_mem s) (cmdline addr s)) l /\ (length l <= 4000)%nat /\ nls l = 0 /\
      off_screen (cmdline addr s) (Z.of_nat (length l) + 1);
  bi_mmap : CHECK_FLAG (mbi_flags addr s) 6 = true ->
    mmap_addr addr s + mmap_length addr s < 4294967296 /\
    mmap_chain (k_mem s) (mmap_addr addr s + mmap_length addr s) (mmap_addr addr s)
}.

(** A step of the report: it returns, draws, and leaves the cursor near the screen. *)
Definition talks (addr : Z) (c : K unit) (s : kst) : Prop :=
  boot_info addr s -> rows 26 s -> exists s', c s = Ret tt s' /\ prints s s' /\ rows 26 s'.

(** A format for one or two lines that starts with an ordinary character. *)
Definition line_fmt (fmt : list Z) : bool :=
  forallb (fun c => (0 <? c) && (c <? 256)) fmt && closed None fmt && (length fmt <=? 4096)%nat &&
  match fmt with c :: _ => negb (is_nl c) && negb (c =? 37) | [] => false end &&
  (fmt_nls None fmt <=? 2).

Section Talks.
Implicit Types s : kst.
Context (addr : Z).

Lemma mbi_stable s s' i :
  prints s s' -> off_screen addr 52 -> 0 <= i < 13 -> mbi_word addr i s' = mbi_word addr i s.
Proof.
  intros C%prints_off O Hi. unfold mbi_word. apply ld32_ext. intros j Hj.
  replace (addr + 4 * i + j) with (addr + (4 * i + j)) by lia.
  apply (off_screen_ldb _ _ _ 52); [done|done|lia].
Qed.

Lemma word_stable s s' a : prints s s' -> off_screen a 4 -> ld32 (k_mem s') a = ld32 (k_mem s) a.
Proof.
  intros C%prints_off O. apply ld32_ext. intros j Hj. by apply (off_screen_ldb _ _ _ 4).
Qed.

Lemma mmap_chain_stable s s' e p :
  prints s s' -> mmap_chain (k_mem s) e p -> mmap_chain (k_mem s') e p.
Proof.
  intros P. induction 1 as [p H|p H1 H2 H3 H4 IH]; [by apply chain_end|].
  apply chain_step; rewrite ?(word_stable s s') by done; done.
Qed.

Lemma cstr_stable s s' a l :
  prints s s' -> off_screen a (Z.of_nat (length l) + 1) ->
  cstr (at_ (k_mem s) a) l -> cstr (at_ (k_mem s') a) l.
Proof.
  intros C%prints_off O (H1 & H2 & H3).
  assert (E : forall i, 0 <= i <= Z.of_nat (length l) -> at_ (k_mem s') a i = at_ (k_mem s) a i)
    by (intros i Hi; apply (off_screen_ldb _ _ _ (Z.of_nat (length l) + 1)); [done|done|lia]).
  split_and!; [done| |].
  - intros i Hi. rewrite E by lia. by apply H2.
  - by rewrite E by lia.
Qed.

Lemma boot_info_stable s s' : prints s s' -> boot_info addr s -> boot_info addr s'.
Proof.
  intros P [H1 H2 H3 H4 H5].
  assert (E : forall i, 0 <= i < 13 -> mbi_word addr i s' = mbi_word addr i s)
    by (intros; by apply mbi_stable).
  assert (Ef : mbi_flags addr s' = mbi_flags addr s) by (apply E; lia).
  assert (Em : mods_addr addr s' = mods_addr addr s) by (apply E; lia).
  assert (Ec : cmdline addr s' = cmdline addr s) by (apply E; lia).
  assert (Ea : mmap_addr addr s' = mmap_addr addr s) by (apply E; lia).
  assert (El : mmap_length addr s' = mmap_length addr s) by (apply E; lia).
  split; rewrite ?Ef, ?Em, ?Ec, ?Ea, ?El; try done.
  - intros F. destruct (H4 F) as (l & C & L & N & O). exists l. split_and!; try done.
    by eapply cstr_stable.
  - intros F. destruct (H5 F) as [B C]. split; [done|]. by eapply mmap_chain_stable.
Qed.

Lemma talks_bind c1 c2 s :
  talks addr c1 s -> (forall s1, prints s s1 -> talks addr c2 s1) -> talks addr (kbind c1 (fun _ => c2)) s.
Proof.
  intros H1 H2 B R. destruct (H1 B R) as (s1 & E1 & P1 & R1).
  destruct (H2 s1 P1) as (s2 & E2 & P2 & R2); [by eapply boot_info_stable|done|].
  exists s2. unfold kbind. rewrite E1. split_and!; [done|by etrans|done].
Qed.

Lemma talks_if bit c s :
  (CHECK_FLAG (mbi_flags addr s) bit = true -> talks addr c s) -> talks addr (if_flag addr bit c) s.
Proof.
  intros H B R. unfold if_flag. destruct (CHECK_FLAG _ bit); [by apply H|].
  exists s. by split_and!.
Qed.

(** Printing is no port access. *)
Lemma puts_list_io l s : k_io (puts_list l s) = k_io s.
Proof.
  revert s. induction l as [|c l IH]; intros s; [done|]. cbn [puts_list fold_left].
  unfold puts_list in IH. rewrite IH. unfold putc. by split_if.
Qed.

(** A line of the report, from any row the report can be on. *)
Lemma say_line fmt argv s :
  line_fmt fmt = true -> rows 26 s ->
  exists s', say fmt argv s = Ret tt s' /\ prints s s' /\ rows (24 + fmt_nls None fmt) s' /\
    k_io s' = k_io s.
Proof.
  intros H R. unfold line_fmt in H.
  apply andb_true_iff in H as [H H5%Z.leb_le]. apply andb_true_iff in H as [H H4].
  apply andb_true_iff in H as [H H3%Nat.leb_le]. apply andb_true_iff in H as [H1 H2].
  unfold say. rewrite (printf_literal 4096 fmt argv s H1 H2 H3).
  eexists. split; [done|]. pose proof (nls_render fmt None argv 0) as N. clear H1 H2 H3.
  destruct fmt as [|c fmt]; [done|]. cbn [render fmt_nls] in *.
  destruct (is_nl c) eqn:Ec; [done|]. destruct (c =? 37); [done|].
  cbn [nls] in N. rewrite Ec in N.
  destruct (puts_line_rows c (render None fmt argv 0) s 26) as [P R']; try done; try lia.
  split; [done|]. split; [eapply rows_mono; [exact R'|]; lia|apply puts_list_io].
Qed.

Lemma talks_say fmt argv s : line_fmt fmt = true -> talks addr (say_at fmt argv) s.
Proof.
  intros H B R. destruct (say_line fmt (argv s) s H R) as (s' & E & P & R' & _).
  exists s'. split_and!; [done|done|]. eapply rows_mono; [exact R'|].
  unfold line_fmt in H. apply andb_true_iff in H as [_ H%Z.leb_le]. lia.
Qed.

(** The bytes of a module leave the cursor on the screen, so one line break is safe. *)
Lemma show_bytes_ok k mod_ i s :
  rows 26 s -> exists s', show_bytes k mod_ i s = Ret tt s' /\ prints s s' /\
    rows (if (k =? 0)%nat then 26 else 24) s'.
Proof.
  revert i s. induction k as [|k IH]; intros i s R; simpl.
  { exists s. by split_and!. }
  unfold kbind, say_at.
  destruct (say_line (str "0x%x ") [u32 (i8 (ldb (k_mem s) (ld32 (k_mem s) mod_ + i)))] s)
    as (s1 & -> & P1 & R1 & _); [done|done|].
  destruct (IH (i + 1) s1) as (s2 & E2 & P2 & R2); [eapply rows_mono; [exact R1|done]|].
  exists s2. split_and!; [done|by etrans|]. destruct k; [|done].
  simpl in E2. injection E2 as <-. exact R1.
Qed.

Lemma talks_bytes mod_ s : talks addr (kbind (show_bytes 16 mod_ 0) (fun _ => say nl [])) s.
Proof.
  intros B R. unfold kbind. destruct (show_bytes_ok 16 mod_ 0 s R) as (s1 & -> & P1 & R1).
  unfold say. rewrite (printf_literal 4096 nl [] s1) by (done || (simpl; lia)).
  destruct (puts_list_rows nl s1 24) as [P2 R2]; [done|lia|done|].
  eexists. split; [done|]. split; [by etrans|]. eapply rows_mono; [exact R2|done].
Qed.

Lemma talks_module mc mod_ s : talks addr (show_module mc mod_) s.
Proof.
  unfold show_module. apply talks_bind; [by apply talks_say|intros s1 _].
  apply talks_bind; [by apply talks_say|intros s2 _].
  apply talks_bind; [by apply talks_say|intros s3 _]. apply talks_bytes.
Qed.

Lemma talks_modules k mc mod_ s :
  mods_count addr s <= mc + Z.of_nat k -> talks addr (show_modules k addr mc mod_) s.
Proof.
  revert mc mod_ s. induction k as [|k IH]; intros mc mod_ s Hk B R; cbn [show_modules];
    (destruct (Z.ltb_spec mc (mods_count addr s)); [|by exists s; split_and!]); [lia|].
  apply (talks_bind (show_module mc mod_)); [apply talks_module| |done|done].
  intros s1 P1. apply IH.
  assert (mods_count addr s1 = mods_count addr s) as -> by (apply mbi_stable; [done|apply B|lia]). lia.
Qed.

Lemma talks_mmap k p e s :
  e = mmap_addr addr s + mmap_length addr s -> e < 4294967296 -> mmap_chain (k_mem s) e p ->
  e <= p + Z.of_nat k -> talks addr (show_mmap k addr p) s.
Proof.
  intros He Hb. revert p s He. induction k as [|k IH]; intros p s He C Hk B R; cbn [show_mmap];
    pose proof (ld32_range (k_mem s) (addr + 4 * 11) : 0 <= mmap_length addr s < _);
    pose proof (ld32_range (k_mem s) (addr + 4 * 12) : 0 <= mmap_addr addr s < _);
    rewrite (u32_small (mmap_addr addr s + mmap_length addr s)), <- He by lia;
    (destruct (Z.ltb_spec p e); [|by exists s; split_and!]); [lia|].
  inversion_clear C as [? ?|? ? O L C']; [lia|]. unfold kbind, say_at.
  pose proof (ld32_range (k_mem s) p) as Hp.
  match goal with |- context [say ?f ?a s] => destruct (say_line f a s) as (s1 & -> & P1 & R1 & _) end;
    [done|done|]. rewrite (word_stable s s1) by done. rewrite u32_small by (destruct O; lia).
  destruct (IH (p + ld32 (k_mem s) p + 4) s1) as (s2 & E2 & P2 & R2).
  - rewrite He. f_equal; symmetry; (apply mbi_stable; [done|apply B|lia]).
  - by eapply mmap_chain_stable.
  - lia.
  - by eapply boot_info_stable.
  - eapply rows_mono; [exact R1|done].
  - exists s2. split_and!; [done|by etrans|done].
Qed.

End Talks.

Section CommandLine.
Implicit Types s : kst.

Lemma printf_loop_prefix format argv l f b esp s :
  (forall i, 0 <= i < Z.of_nat (length l) -> format (b + i) = zget 0 l i) ->
  Forall (fun c => 0 < c < 256 /\ c <> 37) l ->
  printf_loop (length l + f) format argv b esp s =
    printf_loop f format argv (b + Z.of_nat (length l)) esp (puts_list l s).
Proof.
  intros Hr Hf. revert b s Hr. induction Hf as [|c l [Hc H37] Hf IH]; intros b s Hr.
  { simpl. by rewrite Z.add_0_r. }
  cbn [length Nat.add printf_loop].
  assert (format b = c) as -> by (rewrite <- (Z.add_0_r b), Hr by (simpl; lia); done).
  rewrite (proj2 (Z.eqb_neq c 0)), (proj2 (Z.eqb_neq c 37)), (u8_small c) by lia. rewrite IH.
  - cbn [puts_list fold_left]. f_equal. lia.
  - intros i Hi. replace (b + 1 + i) with (b + (1 + i)) by lia. rewrite Hr by (simpl; lia).
    unfold zget. rewrite !(proj2 (Z.ltb_ge _ _)) by lia.
    by replace (Z.to_nat (1 + i)) with (S (Z.to_nat i)) by lia.
Qed.

(** A string in memory off the screen prints as it is: drawing does not change it. *)
Lemma puts_mem a l fuel s k :
  cstr (at_ (k_mem s) a) l -> off_screen a (Z.of_nat (length l) + 1) -> nls l = 0 ->
  rows k s -> 24 <= k <= 49 -> (length l <= fuel)%nat ->
  exists s', puts fuel (fun m i => ldb m (a + i)) s = Some (Z.of_nat (length l), s') /\
    prints s s' /\ rows k s'.
Proof.
  intros Hc Ho Hn Hr Hk Hf. unfold puts.
  assert (Hnl : forall i x, l !! i = Some x -> is_nl x = false).
  { clear -Hn. induction l as [|c l IH]; intros i x Hi; [done|]. cbn [nls] in Hn.
    pose proof (nls_nonneg l). destruct (is_nl c) eqn:E; [lia|].
    destruct i; simpl in Hi; [by simplify_eq|]. eapply IH; [lia|exact Hi]. }
  enough (G : forall n f j t, Z.of_nat j + Z.of_nat n = Z.of_nat (length l) -> prints s t -> rows k t ->
    (n <= f)%nat -> exists s', while f (fun '(index, s) => negb (ldb (k_mem s) (a + index) =? 0))
      (fun '(index, s) => (index + 1, putc (u8 (ldb (k_mem s) (a + index))) s)) (Z.of_nat j, t)
      = Some (Z.of_nat (length l), s') /\ prints s s' /\ rows k s').
  { apply (G (length l) fuel O s); [lia|reflexivity|done|done]. }
  induction n as [|n IH]; intros f j t Hj P R Hf';
    destruct (cstr_stable s t a l P Ho Hc) as (Hz & Hget & Hend); unfold at_ in Hget, Hend.
  - replace (Z.of_nat j) with (Z.of_nat (length l)) by lia.
    exists t. destruct f; simpl; rewrite Hend; done.
  - destruct f as [|f]; [lia|]. cbn [while].
    destruct (lookup_lt_is_Some_2 l j) as [x Hx]; [lia|].
    assert (E : ldb (k_mem t) (a + Z.of_nat j) = x).
    { rewrite Hget by lia. unfold zget. rewrite (proj2 (Z.ltb_ge _ _)), Nat2Z.id by lia. by rewrite Hx. }
    rewrite E. rewrite (proj2 (Z.eqb_neq x 0)) by (by eapply Forall_lookup_1 in Hz). cbn [negb].
    pose proof (ldb_range (k_mem t) (a + Z.of_nat j)) as Hb. rewrite E in Hb. rewrite u8_small by lia.
    destruct (putc_rows x t k R Hk) as [P' R']. rewrite (Hnl j x Hx) in R'.
    replace (Z.of_nat j + 1) with (Z.of_nat (S j)) by lia.
    apply IH; [lia|by etrans|by eapply rows_mono; [exact R'|lia]|lia].
Qed.

Lemma talks_cmdline addr s :
  CHECK_FLAG (mbi_flags addr s) 2 = true ->
  talks addr (say_at (str "cmdline = %s" ++ nl) (fun s => [cmdline addr s])) s.
Proof.
  intros Hflag B R. destruct (bi_cmd _ _ B Hflag) as (l & C & L & N & O).
  unfold say_at, say, printf. generalize dependent (cmdline addr s). intros a C O.
  set (fmt := str "cmdline = %s" ++ nl).
  assert (exists f, 4096%nat = (length (str "cmdline = ") + S (S (S f)))%nat /\ (4000 <= f)%nat)
    as (f & -> & Hf) by (exists 4083%nat; split; [reflexivity|lia]).
  rewrite (printf_loop_prefix _ _ (str "cmdline = ")).
  2: { intros i Hi. rewrite Z.add_0_l. unfold fmt.
       change (str "cmdline = %s") with (str "cmdline = " ++ str "%s").
       rewrite <- app_assoc. by rewrite zget_app_l. }
  2: { apply (bool_decide_eq_true_1 _). vm_compute. reflexivity. }
  destruct (puts_line_rows 99 (str "mdline = ") s 26) as [P1 R1]; [done|done|lia|done|].
  change (puts_list (99 :: str "mdline = ") s) with (puts_list (str "cmdline = ") s) in P1, R1.
  revert P1 R1. generalize (puts_list (str "cmdline = ") s). intros s1 P1 R1.
  destruct (puts_mem a l (S (S f)) s1 24) as (s2 & E2 & P2 & R2);
    [by eapply cstr_stable|done|done|exact R1|lia|lia|].
  cbn [printf_loop]. change (zget 0 fmt (0 + Z.of_nat (length (str "cmdline = ")))) with 37.
  change (37 =? 0) with false. change (37 =? 37) with true. cbv iota.
  cbn [format_char_switch].
  change (zget 0 fmt (0 + Z.of_nat (length (str "cmdline = ")) + 1)) with 115.
  change (zget 0 [a] 0) with a.
  cbn [Z.eqb Pos.eqb]. rewrite E2. cbn [fmap option_fmap option_map snd].
  change (zget 0 fmt (0 + Z.of_nat (length (str "cmdline = ")) + 1 + 1)) with 10.
  change (zget 0 fmt (0 + Z.of_nat (length (str "cmdline = ")) + 1 + 1 + 1)) with 0.
  cbn [Z.eqb Pos.eqb].
  destruct (puts_list_rows [10] s2 24) as [P3 R3]; [done|lia|done|].
  eexists. split; [done|]. split; [etrans; [exact P1|]; by etrans|].
  eapply rows_mono; [exact R3|done].
Qed.

End CommandLine.

Section ReportOk.
Context (addr : Z).

Lemma talks_report_first s : talks addr (report_first addr) s.
Proof.
  unfold report_first. apply talks_bind; [by apply talks_say|intros s1 _].
  apply talks_bind; [apply talks_if; intros _; by apply talks_say|intros s2 _].
  apply talks_bind; [apply talks_if; intros _; by apply talks_say|intros s3 _].
  apply talks_bind; [apply talks_if; intros; by apply talks_cmdline|intros s4 _].
  apply talks_if. intros _. apply (talks_modules addr _ 0).
  pose proof (ld32_range (k_mem s4) (addr + 4 * 5) : 0 <= mods_count addr s4 < _). lia.
Qed.

Lemma talks_report_second s : talks addr (report_second addr) s.
Proof.
  unfold report_second.
  apply talks_bind; [apply talks_if; intros _; by apply talks_say|intros s1 _].
  apply talks_if. intros F. apply talks_bind; [by apply talks_say|intros s2 P2].
  intros B R. pose proof (bi_mmap _ _ B) as Hm. destruct Hm as [Hm1 Hm2].
  { assert (mbi_flags addr s2 = mbi_flags addr s1) as ->; [|done].
    apply mbi_stable; [done|apply B|lia]. }
  apply (talks_mmap addr _ _ (mmap_addr addr s2 + mmap_length addr s2)); try done.
  pose proof (ld32_range (k_mem s2) (addr + 4 * 11) : 0 <= mmap_length addr s2 < _). lia.
Qed.

End ReportOk.

(** ** Initialisation *)

Section InitOk.
Context `{D : Device} `{PD : !PicDevice} `{Sy : Symbols} `{AS : !AlignedSymbols}.
Implicit Types s : kst.

Lemma clear_io s : k_io (clear s) = k_io s.
Proof. unfold clear. apply (for_loop_pres (fun t => k_io t = k_io s)); [done|]. by intros i t _ Ht. Qed.

Lemma pic_same_move s : pic_same s (move_cursor s).
Proof.
  intros cmd Hc. by apply (pic_hw_away [_; _; _; _]).
Qed.

Lemma pic_same_clear_term s : pic_same s (clear_term s).
Proof.
  transitivity (clear s); [apply pic_same_io, clear_io|]. unfold clear_term.
  generalize (clear s). intros t. etrans; [|apply pic_same_move]. by apply pic_same_io.
Qed.

(** [rtc_init] is port accesses of the clock, then line 8. *)
Lemma rtc_init_steps s :
  exists s1, rtc_init s = sti (enable_irq 8 s1) /\ pic_same s s1 /\
    s1 = set_if true (set_rtc (k_rtc s1) (set_io (k_io s1) s)) /\ (rtc_ok s -> rtc_ok s1).
Proof.
  unfold rtc_init. cbv zeta. unfold rtc_set_rate.
  change (find_rate 10 6 RTC_MAX_FREQ =? 0) with false. cbv iota zeta.
  change (Z.land (find_rate 10 6 RTC_MAX_FREQ) 0x0F) with 6.
  cbn [inb]. eexists. split; [reflexivity|]. split; [|split; [by destruct s|]].
  - intros cmd Hc. by apply (pic_hw_away [_; _; _; _; _; _; _; _]).
  - intros H. by apply (rtc_init_ok s).
Qed.

(** What [init_kernel] leaves: the image found, paging on, lines 1, 2 and 8 open. *)
Lemma init_kernel_ok addr s :
  tables_sized s ->
  let s' := init_kernel addr s in
  k_boot s' = ld32 (k_mem s) (mods_addr addr s) /\ k_pcbs s' = k_pcbs s /\ k_con s' = k_con s /\
  k_esp s' = k_esp s /\ phys (k_mem s') = phys (k_mem s) /\ paging_on (k_mem s') = true /\
  kernel_pages (k_pg s') 0 /\ k_tss s' = mkTss KERNEL_DS 0x800000 KERNEL_LDT /\
  pic_ready s' /\
  (forall n, 0 <= n <= 15 -> masked s' n = negb ((n =? 1) || (n =? 2) || (n =? 8))) /\
  k_kbd s' = k_kbd s /\ (rtc_ok s -> rtc_ok s').
Proof.
  intros Ht s'. unfold init_kernel in s'.
  set (s0 := set_tss (mkTss KERNEL_DS 0x800000 KERNEL_LDT) s) in s'.
  destruct (i8259_init_masks s0) as [R0 M0].
  assert (F0 : i8259_init s0 = set_pic (k_pic (i8259_init s0)) (set_io (k_io (i8259_init s0)) s0))
    by (by destruct s).
  revert s' R0 M0 F0. generalize (i8259_init s0). intros a s' R0 M0 F0.
  destruct (rtc_init_steps (set_boot (ld32 (k_mem a) (mods_addr addr a)) a)) as (b & Eb & Pb & Fb & Rb).
  cbn [dir_open] in s'. cbv zeta in s'. unfold s'. rewrite Eb. clear s' Eb.
  assert (Pb' : pic_same a b) by (etrans; [by apply pic_same_io|exact Pb]).
  destruct (enable_irq_masks 8 b ltac:(lia)) as [R1 M1]; [by eapply pic_same_ready|].
  assert (F1 := enable_irq_only_io 8 b). destruct F1 as [F1 _].
  revert R1 M1 F1. generalize (enable_irq 8 b). intros c R1 M1 F1.
  unfold keyboard_init, KEYBOARD_IRQ.
  destruct (enable_irq_masks 1 (sti c) ltac:(lia) R1) as [R2 M2].
  assert (F2 := enable_irq_only_io 1 (sti c)). destruct F2 as [F2 _].
  revert R2 M2 F2. generalize (enable_irq 1 (sti c)). intros e R2 M2 F2.
  assert (Pg : k_pg e = k_pg s /\ k_mem e = k_mem s /\ k_con e = k_con s /\ k_esp e = k_esp s /\
    k_pcbs e = k_pcbs s /\ k_tss e = k_tss s0 /\ k_boot e = ld32 (k_mem s) (mods_addr addr s) /\
    k_kbd e = k_kbd s).
  { rewrite F2, F1, Fb. cbn. rewrite F0. done. }
  assert (Re : rtc_ok s -> rtc_ok e).
  { intros H. assert (H' : rtc_ok b) by (apply Rb; unfold rtc_ok in *; cbn; by rewrite F0).
    unfold rtc_ok in *. rewrite F2, F1. exact H'. }
  destruct Pg as (G1 & G2 & G3 & G4 & G5 & G6 & G7 & G8).
  destruct (page_init_pages e) as (Hk & Hp & _ & Hph & E).
  { unfold tables_sized in *. by rewrite G1. }
  revert Hk Hp Hph E. generalize (page_init e). intros f Hk Hp Hph E.
  assert (Q : k_con f = k_con e /\ k_esp f = k_esp e /\ k_pcbs f = k_pcbs e /\ k_tss f = k_tss e /\
    k_boot f = k_boot e /\ k_io f = k_io e /\ k_kbd f = k_kbd e /\ k_rtc f = k_rtc e) by (by rewrite E).
  destruct Q as (Q1 & Q2 & Q3 & Q4 & Q5 & Q6 & Q7 & Q8).
  rewrite Q1, Q2, Q3, Q4, Q5, Q7, Hph, G2, G3, G4, G5, G6, G7, G8.
  split_and!; try done.
  - apply (pic_same_ready e); [by apply pic_same_io|done].
  - intros n Hn. rewrite (pic_same_masked e) by by apply pic_same_io.
    rewrite M2 by done. change (masked (sti c) n) with (masked c n).
    rewrite M1, (pic_same_masked a b), M0 by done.
    destruct (n =? 1), (n =? 2), (n =? 8); done.
  - unfold rtc_ok in *. by rewrite Q8.
Qed.

End InitOk.

(** ** Properties *)

Section Properties.
Context `{D : Device} `{PD : !PicDevice} `{Sy : Symbols} `{AS : !AlignedSymbols}.
Context `{BS : BootSymbols} `{HA : HandlerAddrs}.
Implicit Types s : kst.

(** The report as a whole: from the cleared screen to the start of initialisation. *)
Lemma report_prints addr s :
  boot_info addr s -> rows 26 s ->
  exists s1 s2, report_first addr (clear s) = Ret tt s1 /\
    CHECK_FLAG (mbi_flags addr s1) 4 && CHECK_FLAG (mbi_flags addr s1) 5 = false /\
    report_second addr s1 = Ret tt s2 /\ prints s s2 /\ rows 26 s2.
Proof.
  intros B R. destruct (clear_blank s) as (_ & Kc & Dc).
  revert Kc Dc. generalize (clear s). intros s0 Kc Dc. apply draws_prints in Dc.
  destruct (talks_report_first addr s0) as (s1 & E1 & P1 & R1);
    [by eapply boot_info_stable|unfold rows in *; by rewrite Kc|].
  assert (B1 : boot_info addr s1) by (eapply boot_info_stable; [|exact B]; by etrans).
  destruct (talks_report_second addr s1 B1 R1) as (s2 & E2 & P2 & R2).
  exists s1, s2. split_and!; try done; [apply B1|]. etrans; [exact Dc|]. by etrans.
Qed.

(** The kernel before the first program is started: it is initialised and the screen
    blank; nothing the boot loader put in memory off the screen has changed. *)
Record ready (addr : Z) (s s' : kst) : Prop := {
  rd_boot : k_boot s' = ld32 (k_mem s) (mods_addr addr s);
  rd_pcbs : k_pcbs s' = k_pcbs s;
  rd_esp : k_esp s' = k_esp s;
  rd_pages : kernel_pages (k_pg s') 0;
  rd_off : same_off (k_mem s) (k_mem s');
  rd_blank : forall i, 0 <= i < 2000 -> chr s' i = 32;
  rd_masks : forall n, 0 <= n <= 15 -> masked s' n = negb ((n =? 1) || (n =? 2) || (n =? 8));
  rd_cursor : cursor_ok s';
  rd_kbd : k_kbd s' = k_kbd s;
  rd_rtc : rtc_ok s -> rtc_ok s'
}.

Lemma boot_kernel_ready fuel ebp addr s :
  tables_sized s -> rows 26 s ->
  exists s', boot_kernel fuel ebp addr s = (sys_execute fuel ebp sym_boot_shell ;; fun s => Blocked s)%kernel s' /\
    ready addr s s'.
Proof.
  intros Ht R. unfold boot_kernel. rewrite kbind_mod.
  destruct (init_kernel_ok addr s Ht) as (I1 & I2 & I3 & I4 & I5 & _ & I6 & _ & _ & I7 & I8 & I9).
  revert I1 I2 I3 I4 I5 I6 I7 I8 I9. generalize (init_kernel addr s). intros a I1 I2 I3 I4 I5 I6 I7 I8 I9.
  unfold kbind at 1.
  match goal with |- context [say ?f ?l a] => destruct (say_line f l a) as (b & -> & Pb & Rb & Ib) end;
    [done|unfold rows in *; by rewrite I3|].
  unfold kbind at 1.
  match goal with |- context [say ?f ?l b] => destruct (say_line f l b) as (c & -> & Pc & Rc & Ic) end;
    [done|eapply rows_mono; [exact Rb|done]|].
  rewrite !kbind_mod. eexists. split; [reflexivity|].
  destruct Pb as [[Fb _] Mb]. destruct Pc as [[Fc _] Mc].
  pose proof (clear_term_draws (sti c)) as [[Fd _] Md]. pose proof (clear_term_chr (sti c)) as Hchr.
  pose proof (pic_same_clear_term (sti c)) as Hpic. pose proof (clear_term_home (sti c)) as Hcur.
  revert Fd Md Hchr Hpic Hcur. generalize (clear_term (sti c)). intros e Fd Md Hchr Hpic Hcur.
  assert (Q : k_boot e = k_boot a /\ k_pcbs e = k_pcbs a /\ k_esp e = k_esp a /\ k_pg e = k_pg a /\
    k_kbd e = k_kbd a /\ k_rtc e = k_rtc a) by (rewrite Fd, Fc; cbn; by rewrite Fb).
  destruct Q as (Q1 & Q2 & Q3 & Q4 & Q5 & Q6). split; rewrite ?Q1, ?Q2, ?Q3, ?Q4, ?Q5, ?I1, ?I2, ?I4; try done.
  - etrans; [by apply (phys_off _ (k_mem a))|]. etrans; [by apply only_changes_off, Mb|].
    etrans; [by apply only_changes_off, Mc|]. apply only_changes_off.
    eapply only_changes_weaken; [..|exact Md]; lia.
  - intros n Hn. rewrite (pic_same_masked _ _ n Hpic). change (masked (sti c) n) with (masked c n).
    rewrite (pic_same_masked b c) by (by apply pic_same_io).
    rewrite (pic_same_masked a b) by (by apply pic_same_io). by apply I7.
  - unfold cursor_ok. rewrite Hcur. simpl. lia.
  - intros H. unfold rtc_ok. rewrite Q6. by apply I9.
Qed.

(** What the boot loader and the linker provide: the report's data, an image with the
    program the kernel's command names, and that command; the kernel's globals are as
    they are linked. *)
Record loaded (addr : Z) (s : kst) (name argl : list Z) (d : dentry) : Prop := {
  lo_info : boot_info addr s;
  lo_rows : rows 24 s;
  lo_tables : tables_sized s;
  lo_pcbs : pcbs_ok s;
  lo_free : active (pcb_at 0 s) = 0;
  lo_command : plain_command s sym_boot_shell name (padded 128 argl);
  lo_args : (length argl < 128)%nat /\ Forall (fun c => 0 < c < 256) argl;
  lo_program : installed (k_mem s) (ld32 (k_mem s) (mods_addr addr s)) (at_ name 0) d;
  lo_image : off_screen (ld32 (k_mem s) (mods_addr addr s))
               (image_size (k_mem s) (ld32 (k_mem s) (mods_addr addr s)));
  lo_literal : off_screen sym_boot_shell 4300
}.

(** [entry] up to the first program. *)
Lemma entry_launches fuel ebp addr junk t s name argl d :
  loaded addr s name argl d ->
  let m := k_mem s in let boot := ld32 m (mods_addr addr s) in
  exists s1 s', entry (S fuel) ebp MULTIBOOT_BOOTLOADER_MAGIC addr junk t s =
      (init_tables junk t, EnterUser (elf_entry m boot (d_ind d)) (MB132 - 4) s') /\
    ready addr s s1 /\ started s1 s' 0 ebp argl /\
    upage (k_mem s') = frame 0 /\ paging_on (k_mem s') = true /\ kernel_pages (k_pg s') (frame 0 + 0x87) /\
    bytes_at (k_mem s') (MB128 + PROC_OFFSET) (Z.to_nat (file_len m boot (d_ind d))) =
      file_slice m boot (d_ind d) 0 (Z.to_nat (file_len m boot (d_ind d))) /\
    only_frame 0 (k_mem s1) (k_mem s').
Proof.
  intros [B R Ht Hok Ha Hc [Hl Hf] Hin Ho Hs] m boot.
  destruct (report_prints addr s B) as (s1 & s2 & E1 & F1 & E2 & P2 & R2); [by eapply rows_mono; [exact R|]|].
  unfold entry. cbv zeta. rewrite Z.eqb_refl. cbn [negb]. rewrite E1, F1, E2. clear E1 F1 E2 s1.
  pose proof P2 as [[F2 _] _]. pose proof (prints_off _ _ P2) as O2.
  destruct (boot_kernel_ready (S fuel) ebp addr s2) as (s3 & E3 & [K1 K2 K3 K4 K5 K6 K7 K8 K9 K10]).
  { rewrite F2. exact Ht. } { exact R2. }
  rewrite E3. clear E3.
  assert (Em : mods_addr addr s2 = mods_addr addr s) by (apply mbi_stable; [done|apply B|lia]).
  assert (Eb : ld32 (k_mem s2) (mods_addr addr s2) = boot) by (rewrite Em; apply word_stable; [done|apply B]).
  rewrite Eb in K1.
  assert (Rd : ready addr s s3).
  { split; try done; try (by rewrite ?K2, ?K3, ?K9, F2); [by etrans|].
    intros H. apply K10. unfold rtc_ok in *. by rewrite F2. }
  clear K2 K3 K5 K6 K7 K8 K9 K10 P2 R2 F2 O2 Em Eb s2.
  destruct (installed_ext m (k_mem s3) boot (at_ name 0) d) as (I & El & Ee & Es);
    [apply off_screen_image; [apply Rd|done]|done|]. rewrite <- K1 in I, El, Ee, Es.
  destruct I as [I1 I2 I3 I4 I5 I6 I7].
  unfold kbind. rewrite (execute_found fuel ebp sym_boot_shell s3 name (padded 128 argl) d); try done;
    [|eapply plain_command_ext; [apply Rd|done|done]|lia].
  assert (Hp : k_pcbs s3 = k_pcbs s) by apply Rd.
  assert (Hi : find_pcb 6 0 (k_pcbs s3) = 0).
  { cbn [find_pcb]. rewrite Hp. change (zget pcb0 (k_pcbs s) 0) with (pcb_at 0 s). by rewrite Ha. }
  destruct (launch_ok s3 0 (d_ind d) (elf_entry (k_mem s3) (k_boot s3) (d_ind d)) argl ebp)
    as (s' & E & St & U & Pg & K & Bt & M); rewrite ?Hi; try done; try lia.
  { unfold pcbs_ok in *. by rewrite Hp. } { split; [apply ld32_range|done]. }
  rewrite E, Ee, Hi in *. exists s3, s'. rewrite K1 in *. split_and!; try done.
  rewrite El in Bt. rewrite Bt. apply Es. rewrite Z2Nat.id; [done|apply ld32_range].
Qed.


(** Booted by anything else, [entry] prints the magic number it was given and returns:
    no table, device or process is touched. *)
Theorem entry_rejects_magic fuel ebp magic addr junk t s :
  magic <> MULTIBOOT_BOOTLOADER_MAGIC ->
  entry fuel ebp magic addr junk t s =
    (t, Ret 0 (puts_list (str "Invalid magic number: 0x" ++ hex8 (u32 magic) ++ nl) (clear s))).
Proof.
  intros Hm. unfold entry. cbv zeta. rewrite (proj2 (Z.eqb_neq magic _)) by done. cbn [negb].
  f_equal. unfold kbind, say.
  rewrite (printf_literal 4096 _ [magic] (clear s)) by (reflexivity || (apply Nat.leb_le; reflexivity)).
  done.
Qed.

(** What the processor reads out of a segment descriptor. *)
Definition seg_base (d : seg_desc) : Z := base_15_00 d + 65536 * base_23_16 d + 16777216 * base_31_24 d.
Definition seg_limit (d : seg_desc) : Z := seg_lim_15_00 d + 65536 * seg_lim_19_16 d.

Lemma base_split a : 0 <= a < 4294967296 ->
  Z.land (u32 a) 0xFFFF + 65536 * Z.shiftr (Z.land (u32 a) 0xFF0000) 16 +
  16777216 * Z.shiftr (Z.land (u32 a) 0xFF000000) 24 = a.
Proof.
  intros Ha. rewrite u32_small by done. rewrite !Z.shiftr_land.
  change (Z.shiftr 0xFF0000 16) with (Z.ones 8). change (Z.shiftr 0xFF000000 24) with (Z.ones 8).
  change 0xFFFF with (Z.ones 16). rewrite !Z.land_ones, !Z.shiftr_div_pow2 by lia.
  change (2 ^ 16) with 65536. change (2 ^ 24) with 16777216. change (2 ^ 8) with 256. modlia.
Qed.

(** The descriptors [entry] builds are a present, kernel-only, available 32-bit TSS of
    104 bytes and a present LDT of 32 bytes, each at the address of its structure,
    whatever was in the uninitialised locals. *)
Theorem boot_descriptors junk t :
  0 <= sym_ldt < 4294967296 -> 0 <= sym_tss < 4294967296 ->
  let l := ldt_desc_ptr (init_tables junk t) in let g := tss_desc_ptr (init_tables junk t) in
  seg_base l = sym_ldt /\ seg_limit l = 31 /\ seg_type l = 2 /\ seg_present l = 1 /\ seg_sys l = 0 /\
  seg_base g = sym_tss /\ seg_limit g = 103 /\ seg_type g = 9 /\ seg_present g = 1 /\ seg_sys g = 0 /\
  seg_dpl g = 0.
Proof.
  intros Hl Hg l g. unfold l, g, seg_base, seg_limit. cbn. rewrite !base_split by done. done.
Qed.

End Properties.
