(* ===== verification/User.v ===== *)
(** * User mode: the system call library (syscalls/ece391syscall.S, ece391support.c)

    A program runs in the window at 128 MiB of the kernel's memory; [int80] is the trap
    through the gate 0x80 and back.  The library wrappers load the call number and the
    arguments; the support routines are those of ece391support.c.  [running] says what
    a process in user mode relies on, and the lemmas at the end what the calls do in
    such a state. *)

From stdpp Require Import base list numbers gmap strings.
From Stdlib Require Import ZArith Lia.
From S2P Require Import Prelude Mem LibStr State Pic Console Rtc Keyboard Irq Terminal Paging.
From S2P Require Import Filesystem Syscall Process Idt.

(** ** The trap

    The gate loads the stack pointer from the TSS and clears the interrupt flag;
    [depth] is how far below it the called C function's frame is, [trap_ebp] its frame
    pointer.  [iret] restores the flags of the program, which runs with interrupts
    enabled. *)

Class TrapFrame : Type := { depth : Z; trap_ebp : Z }.

(** Where the compiler put a string literal of the program. *)
Class Literals : Type := lit : list Z -> Z.

Section Library.
Context `{D : Device} `{Sy : Symbols} `{TF : TrapFrame}.

Definition enter (s : kst) : kst := set_if false (set_esp (esp0 (k_tss s) - depth) s).

Definition leave (esp : Z) (r : res Z) : res Z :=
  match r with Ret v s' => Ret v (set_if true (set_esp esp s')) | r => r end.

Definition int80 (eax ebx ecx edx : Z) : K Z := fun s =>
  leave (k_esp s) (syscall_wrapper 2 trap_ebp eax (u32 ebx) (u32 ecx) (u32 edx) (enter s)).

Definition ece391_halt (status : Z) : K Z := int80 1 status 0 0.
Definition ece391_execute (command : Z) : K Z := int80 2 command 0 0.
Definition ece391_read (fd buf nbytes : Z) : K Z := int80 3 fd buf nbytes.
Definition ece391_write (fd buf nbytes : Z) : K Z := int80 4 fd buf nbytes.
Definition ece391_open (filename : Z) : K Z := int80 5 filename 0 0.
Definition ece391_close (fd : Z) : K Z := int80 6 fd 0 0.
Definition ece391_getargs (buf nbytes : Z) : K Z := int80 7 buf nbytes 0.
Definition ece391_vidmap (screen_start : Z) : K Z := int80 8 screen_start 0 0.
Definition ece391_set_handler (signum handler : Z) : K Z := int80 9 signum handler 0.
Definition ece391_sigreturn : K Z := int80 10 0 0 0.

(** ** ece391support.c *)

(** Counts up to the NUL. *)
Definition ece391_strlen (fuel : nat) (s : Z -> Z) : option Z :=
  while fuel (fun len => negb (s len =? 0)) (fun len => u32 (len + 1)) 0.

(** Copies up to and including the NUL. *)
Fixpoint ece391_strcpy (fuel : nat) (dst src : Z) (m : vmem) : option vmem :=
  let c := ldb m src in
  let m := stb m dst c in
  if c =? 0 then Some m
  else match fuel with O => None | S f => ece391_strcpy f (dst + 1) (src + 1) m end.

Definition ece391_fdputs (fd s : Z) : K unit := fun st =>
  match ece391_strlen 4096 (at_ (k_mem st) s) with
  | None => NoFuel
  | Some len => (ece391_write fd s len ;; kret tt)%kernel st
  end.

Fixpoint ece391_strcmp (fuel : nat) (s1 s2 : Z -> Z) (i : Z) : option Z :=
  if s1 i =? s2 i then
    if s1 i =? 0 then Some 0
    else match fuel with O => None | S f => ece391_strcmp f s1 s2 (i + 1) end
  else Some (s1 i - s2 i).

(** The loop of [ece391_strncmp] from character [i] with [n] left. *)
Fixpoint ece391_strncmp_loop (n : nat) (s1 s2 : Z -> Z) (i : Z) : Z :=
  if s1 i =? s2 i then
    match n with
    | O => 0
    | S n' => if (s1 i =? 0) || (n' =? 0)%nat then 0 else ece391_strncmp_loop n' s1 s2 (i + 1)
    end
  else s1 i - s2 i.

Definition ece391_strncmp (s1 s2 : Z -> Z) (n : Z) : Z :=
  if n =? 0 then 0 else ece391_strncmp_loop (Z.to_nat n) s1 s2 0.

(** [ece391_strrev] and [ece391_itoa] over any store of bytes. *)
Section Conversion.
Context {S : Type} `{Store S}.

Definition ece391_strrev (fuel : nat) (s : Z) (st : S) : option S :=
  match ece391_strlen fuel (at_ st s) with
  | None => None
  | Some len =>
      let last := i32 len - 1 in
      if last <=? 0 then Some st
      else
        (fun r => snd r) <$>
        while fuel (fun '(b, e, _) => b <? e)
          (fun '(b, e, st) =>
             let tmp := ldb st (s + e) in
             let st := stb st (s + e) (ldb st (s + b)) in
             let st := stb st (s + b) tmp in
             (b + 1, e - 1, st)) (0, last, st)
  end.

Definition ece391_itoa (fuel : nat) (value buf radix : Z) (st : S) : option S :=
  if value =? 0 then Some (stb (stb st (buf + 0) 48) (buf + 1) 0)
  else
    match while fuel (fun '(newval, _, _) => 0 <? newval)
            (fun '(newval, newbuf, st) =>
               (newval / radix, newbuf + 1, stb st newbuf (lookup_digit (newval mod radix))))
            (value, buf, st) with
    | None => None
    | Some (_, newbuf, st) => ece391_strrev fuel buf (stb st newbuf 0)
    end.

End Conversion.

End Library.

(** ** The support routines against those of the kernel *)

Section SameRoutines.
Context {S : Type} `{Store S}.

Lemma ece391_strrev_same fuel s st : ece391_strrev fuel s st = strrev fuel s st.
Proof.
  unfold ece391_strrev, strrev, strrev_loop. change (ece391_strlen fuel (at_ st s)) with (strlen fuel (at_ st s)).
  destruct (strlen fuel (at_ st s)) as [n|]; [|done].
  destruct (Z.leb_spec (i32 n - 1) 0) as [Hn|Hn].
  - destruct fuel; simpl; by rewrite (proj2 (Z.ltb_ge _ _)) by lia.
  - unfold swap_bytes. by destruct (while fuel _ _ _) as [[[b e] st']|].
Qed.

Lemma ece391_itoa_same fuel value buf radix st :
  ece391_itoa fuel value buf radix st = itoa fuel value buf radix st.
Proof.
  unfold ece391_itoa, itoa, itoa_loop. rewrite Z.add_0_r. split_if; [done|].
  destruct (while fuel _ _ _) as [[[v b] st']|]; [|done]. apply ece391_strrev_same.
Qed.

End SameRoutines.

Lemma ece391_strlen_same fuel s : ece391_strlen fuel s = strlen fuel s.
Proof. done. Qed.

(** The user's comparison differs from the kernel's in signedness only. *)
Lemma ece391_strncmp_zero s1 s2 n :
  0 <= n -> (ece391_strncmp s1 s2 n = 0 <-> eq_upto n s1 s2).
Proof.
  intros Hn. unfold ece391_strncmp. destruct (Z.eqb_spec n 0) as [->|Hn0].
  { split; [|done]. intros _ i Hi. lia. }
  assert (G : forall k i, 0 <= i -> (0 < k)%nat -> (ece391_strncmp_loop k s1 s2 i = 0 <->
    forall j, i <= j < i + Z.of_nat k -> (forall j', i <= j' < j -> s1 j' <> 0) -> s1 j = s2 j)).
  { induction k as [|k IH]; intros i Hi Hk; [lia|]. cbn [ece391_strncmp_loop].
    destruct (Z.eqb_spec (s1 i) (s2 i)) as [E|E].
    - destruct (Z.eqb_spec (s1 i) 0) as [E0|E0]; cbn [orb].
      { split; [|done]. intros _ j Hj Hz. destruct (Z.eq_dec j i) as [->|]; [done|].
        exfalso. apply (Hz i); [lia|done]. }
      destruct (Nat.eqb_spec k 0) as [->|].
      { split; [|done]. intros _ j Hj Hz. by replace j with i by lia. }
      rewrite IH by lia. split; intros Hx j Hj Hz.
      + destruct (Z.eq_dec j i) as [->|]; [done|]. apply Hx; [lia|]. intros. apply Hz. lia.
      + apply Hx; [lia|]. intros j' Hj'. destruct (Z.eq_dec j' i) as [->|]; [done|]. apply Hz. lia.
    - split; [lia|]. intros Hx. exfalso. apply E, Hx; lia. }
  rewrite G by lia. unfold eq_upto. split; intros Hx i Hi Hz; apply Hx; try lia; intros; apply Hz; lia.
Qed.

(** C40: the routines of ece391support.c agree with the kernel's: the same lengths, the same
    decimal (or any other base) text in the same bytes, and strings that are equal for
    one are equal for the other. *)
Theorem support_agrees {S : Type} `{Store S} fuel value buf radix (st : S) s1 s2 n :
  ece391_strlen fuel s1 = strlen fuel s1 /\
  ece391_itoa fuel value buf radix st = itoa fuel value buf radix st /\
  ((forall j, 0 <= s1 j < 256) -> (forall j, 0 <= s2 j < 256) -> 0 <= n ->
   (ece391_strncmp s1 s2 n = 0 <-> strncmp s1 s2 n = 0)).
Proof.
  split; [done|]. split; [apply ece391_itoa_same|]. intros H1 H2 Hn.
  by rewrite ece391_strncmp_zero, strncmp_zero.
Qed.

(** ** A process in user mode *)

Class TrapOk `{TF : TrapFrame} : Prop := depth_range : 0 <= depth <= 8000.

Record running (p : Z) (s : kst) : Prop := {
  ru_proc : 0 <= p < 6;
  ru_esp0 : esp0 (k_tss s) = _8MB - p * _8KB - 4;
  ru_pcbs : pcbs_ok s;
  ru_if : k_if s = true;
  ru_paging : paging_on (k_mem s) = true;
  ru_upage : upage (k_mem s) = frame p;
  ru_in : flag (fd_at p 0 s) = 1 /\ f_op (fd_at p 0 s) = F_terminal;
  ru_out : flag (fd_at p 1 s) = 1 /\ f_op (fd_at p 1 s) = F_terminal;
  ru_wf : fs_wf (k_mem s) (k_boot s);
  ru_low : k_boot s + image_size (k_mem s) (k_boot s) <= _8MB;
  ru_off : off_screen (k_boot s) (image_size (k_mem s) (k_boot s));
  ru_cursor : cursor_ok s
}.

(** [n] bytes at [a] in the program's page. *)
Definition in_window (a n : Z) : Prop := MB128 <= a /\ 0 <= n /\ a + n <= MB132.

(** The end of the video pages, which programs can write. *)
Definition VIDEO_END : Z := 0xC0000.

(** What a step of process [p] or of one above it leaves alone: the kernel's memory
    behind the video pages, the frames and the control blocks of the processes below
    [p]. *)
Definition below (p : Z) (s s' : kst) : Prop :=
  (forall a, VIDEO_END <= a < frame p -> ldb (k_mem s') a = ldb (k_mem s) a) /\
  (forall j, 0 <= j < p -> pcb_at j s' = pcb_at j s).

(** Neither keys nor interrupts have come, and the clock is as it was. *)
Definition same_input (s s' : kst) : Prop :=
  k_kbd s' = k_kbd s /\ k_irqs s' = k_irqs s /\ kbd_log (k_io s') = kbd_log (k_io s) /\ k_rtc s' = k_rtc s.

#[export] Instance same_input_preorder : PreOrder same_input.
Proof. unfold same_input. split; [done|]. intros s1 s2 s3 (A1 & A2 & A3 & A4) (B1 & B2 & B3 & B4). split_and!; congruence. Qed.

#[export] Instance below_preorder p : PreOrder (below p).
Proof.
  split; [done|]. intros s1 s2 s3 [A1 A2] [B1 B2]. split.
  - intros a Ha. by rewrite B1, A1.
  - intros j Hj. by rewrite B2, A2.
Qed.

(** A step that leaves more processes alone. *)
Lemma below_mono p q s s' : q <= p -> below p s s' -> below q s s'.
Proof.
  intros H [A1 A2]. split; [|intros; apply A2; lia]. intros a Ha. apply A1. unfold frame in *. lia.
Qed.

Section Running.
Context `{D : Device} `{Sy : Symbols} `{TF : TrapFrame} `{TO : !TrapOk}.
Implicit Types s : kst.

Lemma enter_pcb p s : running p s -> get_pcb (enter s) = Some p.
Proof.
  intros R. pose proof depth_range as Hd. apply stack_pcb; [apply R|].
  change (k_esp (enter s)) with (esp0 (k_tss s) - depth). rewrite (ru_esp0 _ _ R).
  unfold _8MB, _8KB in *. lia.
Qed.

Lemma window_region p s a n : running p s -> in_window a n -> region (k_mem s) a n.
Proof.
  intros R (H1 & H2 & H3). replace a with (MB128 + (a - MB128)) by lia.
  apply region_window; [apply R|lia|unfold MB128, MB132, MB4 in *; lia].
Qed.

Lemma window_apart p s a n b k :
  running p s -> in_window a n -> 0 <= b -> b + k <= _8MB -> apart (k_mem s) a n b k.
Proof.
  intros R (H1 & H2 & H3) Hb Hk. replace a with (MB128 + (a - MB128)) by lia.
  pose proof (ru_proc _ _ R). pose proof (ru_upage _ _ R).
  apply apart_window_kernel; try (apply R); unfold frame, MB128, MB132, MB4, _8MB in *; lia.
Qed.

Lemma window_apart_screen p s a n : running p s -> in_window a n -> apart (k_mem s) VIDEO 4000 a n.
Proof.
  intros R W. apply apart_sym. eapply window_apart; [done|done|unfold VIDEO; lia|unfold VIDEO, _8MB; lia].
Qed.

Lemma window_image p s a n :
  running p s -> in_window a n -> apart (k_mem s) a n (k_boot s) (image_size (k_mem s) (k_boot s)).
Proof.
  intros R W. destruct (ru_wf _ _ R) as (H0 & _). eapply window_apart; [done|done|done|apply R].
Qed.

(** What drawing leaves of a process. *)
Lemma draws_off s s' : draws s s' -> same_off (k_mem s) (k_mem s').
Proof. intros [_ C]. apply only_changes_off. eapply only_changes_weaken; [..|exact C]; lia. Qed.

Lemma running_draws p s s' : running p s -> draws s s' -> cursor_ok s' -> running p s'.
Proof.
  intros R Dr Hc. pose proof (draws_off _ _ Dr) as Ho. destruct Dr as [(E & _ & M1 & M2) _].
  assert (Hi : same_image (k_mem s) (k_mem s') (k_boot s)) by (apply off_screen_image; [done|apply R]).
  destruct (same_image_wf _ _ _ (ru_wf _ _ R) Hi) as [Hw Es].
  assert (Q : k_tss s' = k_tss s /\ k_pcbs s' = k_pcbs s /\ k_if s' = k_if s /\ k_boot s' = k_boot s)
    by (by rewrite E). destruct Q as (Q1 & Q2 & Q3 & Q4).
  assert (F : forall fd, fd_at p fd s' = fd_at p fd s) by (intros; unfold fd_at, pcb_at; by rewrite Q2).
  destruct R. split; rewrite ?Q1, ?Q3, ?Q4, ?F, ?Es, ?M1, ?M2; try done.
  unfold pcbs_ok in *. by rewrite Q2.
Qed.

Lemma window_draws p s s' a n :
  running p s -> draws s s' -> in_window a (Z.of_nat n) -> bytes_at (k_mem s') a n = bytes_at (k_mem s) a n.
Proof.
  intros R [_ C] W. apply map_ext_in. intros i Hi%in_seq.
  eapply only_changes_ldb; [exact C|by eapply window_apart_screen|lia].
Qed.

(** Back in user mode, the trap has left no trace of its own. *)
Lemma leave_enter s : k_if s = true -> set_if true (set_esp (k_esp s) (enter s)) = s.
Proof. destruct s. simpl. by intros ->. Qed.

Lemma leave_draws s s' :
  k_if s = true -> draws (set_if true (enter s)) s' -> draws s (set_if true (set_esp (k_esp s) s')).
Proof.
  intros Hi [(E & L & M) C]. split; [|exact C]. split; [|split; [exact L|exact M]].
  rewrite E. destruct s. simpl in *. by subst.
Qed.

(** The dispatcher at each call number. *)
Definition small_arg (a : Z) : Prop := 0 <= a < 2147483648.

Lemma call_read fd buf n s : small_arg fd -> small_arg buf -> small_arg n ->
  ece391_read fd buf n s = leave (k_esp s) (sys_read fd buf n (enter s)).
Proof.
  intros H1 H2 H3. unfold small_arg in *. unfold ece391_read, int80.
  rewrite !u32_small by lia. unfold syscall_wrapper. by rewrite !i32_small by lia.
Qed.

Lemma call_write fd buf n s : small_arg fd -> small_arg buf -> small_arg n ->
  ece391_write fd buf n s = leave (k_esp s) (sys_write fd buf n (enter s)).
Proof.
  intros H1 H2 H3. unfold small_arg in *. unfold ece391_write, int80.
  rewrite !u32_small by lia. unfold syscall_wrapper. by rewrite !i32_small by lia.
Qed.

Lemma call_open a s : small_arg a -> ece391_open a s = leave (k_esp s) (sys_open a (enter s)).
Proof. intros H. unfold small_arg in *. unfold ece391_open, int80. by rewrite !u32_small by lia. Qed.

Lemma call_execute a s : small_arg a ->
  ece391_execute a s = leave (k_esp s) (sys_execute 2 trap_ebp a (enter s)).
Proof. intros H. unfold small_arg in *. unfold ece391_execute, int80. by rewrite !u32_small by lia. Qed.

Lemma call_getargs a n s : small_arg a -> small_arg n ->
  ece391_getargs a n s = leave (k_esp s) (sys_getargs a n (enter s)).
Proof.
  intros H1 H2. unfold small_arg in *. unfold ece391_getargs, int80.
  rewrite !u32_small by lia. unfold syscall_wrapper. by rewrite !i32_small by lia.
Qed.

(** [write] to standard output. *)
Lemma user_write p s buf n t :
  running p s -> in_window buf n -> 0 < n ->
  spec_puts (bytes_at (k_mem s) buf (Z.to_nat n)) (view s) = Some t ->
  exists s', ece391_write 1 buf n s = Ret n s' /\ draws s s' /\ scr_eq (view s') t /\ running p s'.
Proof.
  intros R W Hn Hs. pose proof W as (W1 & _ & W3). unfold MB128, MB132 in W1, W3.
  destruct (terminal_write_ok 1 buf n (enter s) t) as (s1 & E & V & C & Dr);
    [lia|lia|exact (ru_cursor _ _ R)|exact (window_apart_screen p s buf n R W)|exact Hs|].
  rewrite call_write by (unfold small_arg; lia). unfold sys_write, with_pcb. rewrite (enter_pcb p s R).
  change (fd_at p 1 (enter s)) with (fd_at p 1 s). destruct (ru_out _ _ R) as [-> ->].
  cbn [Z.ltb Z.leb Z.eqb Z.compare Pos.compare Pos.compare_cont andb Pos.eqb op_write]. unfold lift. rewrite E.
  eexists. split; [done|]. assert (Dr' := leave_draws s s1 (ru_if _ _ R) Dr).
  split; [done|]. split; [exact V|]. by eapply running_draws.
Qed.


(** A string literal of the program: bytes of its page, ending in NUL. *)
Definition literal_at (s : kst) (a : Z) (l : list Z) : Prop :=
  cstr (at_ (k_mem s) a) l /\ l <> [] /\ (length l <= 4000)%nat /\ in_window a (Z.of_nat (length l) + 1).

Lemma user_fdputs p s a l t :
  running p s -> literal_at s a l -> spec_puts l (view s) = Some t ->
  exists s', ece391_fdputs 1 a s = Ret tt s' /\ draws s s' /\ scr_eq (view s') t /\ running p s'.
Proof.
  intros R (C & Hne & Hl & W) Hs. unfold ece391_fdputs.
  rewrite ece391_strlen_same, (strlen_cstr _ l 4096) by (done || lia).
  assert (B : bytes_at (k_mem s) a (length l) = l).
  { apply (zlist_ext 0); [by rewrite bytes_at_length|]. rewrite bytes_at_length. intros i Hi.
    rewrite bytes_at_get by done. destruct C as (_ & C & _). by apply C. }
  destruct (user_write p s a (Z.of_nat (length l)) t) as (s' & E & Dr & V & R'); try done.
  - destruct W as (W1 & W2 & W3). split_and!; lia.
  - destruct l; [done|simpl; lia].
  - by rewrite Nat2Z.id, B.
  - exists s'. unfold kbind. by rewrite E.
Qed.

(** Neither the screen nor the page is memory of the kernel or of a process below. *)
Lemma screen_low p (m m' : vmem) :
  only_changes m m' VIDEO 4000 -> 0 <= p < 6 -> forall a, VIDEO_END <= a < frame p -> ldb m' a = ldb m a.
Proof.
  intros C Hp a Ha. rewrite <- (Z.add_0_r a). eapply (only_changes_ldb _ _ _ _ a 1); [exact C| |lia].
  apply apart_kernel; unfold VIDEO, VIDEO_END, MB128, frame in *; lia.
Qed.

Lemma window_low p (m m' : vmem) b n :
  0 <= p < 6 -> paging_on m = true -> upage m = frame p -> in_window b n -> only_changes m m' b n ->
  forall a, VIDEO_END <= a < frame p -> ldb m' a = ldb m a.
Proof.
  intros Hp Hg Hu (W1 & W2 & W3) (_ & _ & L) a Ha. apply L. intros i Hi. unfold cell; simpl.
  replace (b + i) with (MB128 + (b - MB128 + i)) by lia.
  rewrite tr_window, tr_kernel, Hu; try done; unfold VIDEO_END, frame, MB128, MB132, MB4 in *; lia.
Qed.

(** *** What a program's steps leave alone

    The other processes: those below are as they were, [p] is still to return to the same
    place, and the same processes are there. *)
Record kept (p : Z) (s s' : kst) : Prop := {
  kp_below : below p s s';
  kp_parent : parent_pid (pcb_at p s') = parent_pid (pcb_at p s);
  kp_stack : saved_esp (pcb_at p s') = saved_esp (pcb_at p s);
  kp_frame : saved_ebp (pcb_at p s') = saved_ebp (pcb_at p s);
  kp_active : forall j, active (pcb_at j s') = active (pcb_at j s);
  kp_pages : forall pde, kernel_pages (k_pg s) pde -> kernel_pages (k_pg s') pde
}.

#[export] Instance kept_preorder p : PreOrder (kept p).
Proof.
  split; [intros s; split; reflexivity || auto|]. intros s1 s2 s3 [A1 A2 A3 A4 A5 A6] [B1 B2 B3 B4 B5 B6].
  split; [by etrans|congruence|congruence|congruence| |by auto]. intros j. by rewrite B5.
Qed.

(** When the control blocks and page tables are the same, it is about the memory. *)
Lemma kept_memory p s s' :
  k_pcbs s' = k_pcbs s -> k_pg s' = k_pg s ->
  (forall a, VIDEO_END <= a < frame p -> ldb (k_mem s') a = ldb (k_mem s) a) -> kept p s s'.
Proof. intros E G M. split; unfold below, pcb_at; rewrite ?E, ?G; auto. Qed.

(** Descriptors of [p] are no concern of the others. *)
Lemma kept_fds p s s' l :
  pcbs_ok s -> 0 <= p < 6 -> k_pcbs s' = k_pcbs (upd_pcb p (set_fds l) s) -> k_pg s' = k_pg s -> k_mem s' = k_mem s ->
  kept p s s'.
Proof.
  intros Hok Hp E G M.
  assert (Q : forall j, pcb_at j s' = if decide (p = j) then set_fds l (pcb_at p s) else pcb_at j s).
  { intros j. unfold pcb_at at 1. rewrite E. by apply pcb_at_upd. }
  split; rewrite ?Q, ?decide_True by done; try done; [split| |by rewrite G].
  - by rewrite M.
  - intros j Hj. rewrite Q, decide_False by lia. done.
  - intros j. rewrite Q. by case_decide; subst.
Qed.

(** [ustep p b n s s']: from [s] to [s'] process [p] keeps running over the same file
    system, and of its page only the buffer of [n] bytes at [b] may have changed. *)
Record ustep (p b n : Z) (s s' : kst) : Prop := {
  us_from : running p s;
  us_run : running p s';
  us_boot : k_boot s' = k_boot s;
  us_image : same_image (k_mem s) (k_mem s') (k_boot s);
  us_page : forall a, in_window a 1 -> ~ (b <= a < b + n) -> ldb (k_mem s') a = ldb (k_mem s) a;
  us_kept : kept p s s'
}.

Lemma ustep_refl p b n s : running p s -> ustep p b n s s.
Proof. by split. Qed.

Lemma ustep_trans p b n s1 s2 s3 : ustep p b n s1 s2 -> ustep p b n s2 s3 -> ustep p b n s1 s3.
Proof.
  intros [A1 A2 A3 A4 A5 A6] [B1 B2 B3 B4 B5 B6]. split; [done|done|congruence| | |by etrans].
  - destruct (same_image_wf _ _ _ (ru_wf _ _ A1) A4) as [_ Es]. rewrite A3 in B4.
    intros i Hi. rewrite B4, A4; [done|done|by rewrite Es].
  - intros a W Ha. by rewrite B5, A5.
Qed.

(** A part of a buffer. *)
Lemma ustep_sub p b n b' n' s s' : ustep p b n s s' -> b' <= b -> b + n <= b' + n' -> ustep p b' n' s s'.
Proof. intros [U1 U2 U3 U4 U5 U6] H1 H2. split; try done. intros a W Ha. apply U5; [done|lia]. Qed.

(** A step that changes nothing of the page. *)
Lemma ustep_0 p b n s s' : ustep p 0 0 s s' -> ustep p b n s s'.
Proof. intros [U1 U2 U3 U4 U5 U6]. split; try done. intros a W _. apply U5; [done|lia]. Qed.

Lemma ustep_draws p b n s s' : running p s -> draws s s' -> cursor_ok s' -> ustep p b n s s'.
Proof.
  intros R Dr Hc. split; [done|by eapply running_draws| | | |].
  - destruct Dr as [(E & _) _]. by rewrite E.
  - apply off_screen_image; [by apply draws_off|apply R].
  - intros a W _. destruct Dr as [_ C]. rewrite <- (Z.add_0_r a).
    eapply only_changes_ldb; [exact C|by eapply window_apart_screen|lia].
  - destruct Dr as [(E & _) C]. apply kept_memory; [by rewrite E|by rewrite E|].
    apply screen_low; [exact C|apply R].
Qed.

(** Distinct addresses of the page are distinct bytes. *)
Lemma window_cell p s a b :
  running p s -> in_window a 1 -> in_window b 1 -> cell (k_mem s) a = cell (k_mem s) b -> a = b.
Proof.
  intros R (A1 & _ & A2) (B1 & _ & B2). unfold cell; simpl.
  replace a with (MB128 + (a - MB128)) by lia. replace b with (MB128 + (b - MB128)) by lia.
  rewrite !tr_window; [lia|apply R|unfold MB128, MB132, MB4 in *; lia|apply R|unfold MB128, MB132, MB4 in *; lia].
Qed.

(** A change of bytes alone keeps the mapping of the page. *)
Lemma cells_map p s m' :
  running p s -> (forall a, cell m' a = cell (k_mem s) a) -> paging_on m' = true /\ upage m' = frame p.
Proof.
  intros R C. specialize (C MB128). pose proof (ru_proc _ _ R). revert C. unfold cell; simpl.
  rewrite <- (Z.add_0_r MB128) at 2.
  rewrite tr_window, (ru_upage _ _ R) by (apply R || (unfold MB4; lia)).
  unfold tr. change (u32 MB128) with MB128. destruct (paging_on m').
  - change ((MB128 <=? MB128) && (MB128 <? MB132)) with true. cbv iota. intros. split; [done|lia].
  - unfold frame, MB128. lia.
Qed.

Lemma ustep_mem p b n s m' :
  running p s -> in_window b n -> only_changes (k_mem s) m' b n ->
  ustep p b n s (set_mem m' s) /\ scr_eq (view (set_mem m' s)) (view s).
Proof.
  intros R W C. destruct (cells_map p s m' R) as [M1 M2]; [by destruct C as [C _]|].
  pose proof (window_image p s b n R W) as A.
  assert (Hi : same_image (k_mem s) m' (k_boot s)) by (by eapply same_image_changes).
  destruct (same_image_wf _ _ _ (ru_wf _ _ R) Hi) as [Hw Es]. split; [split|]; try done.
  - destruct R. split; try done; simpl; by rewrite ?Es.
  - intros a Ha Hb. simpl. destruct C as (_ & _ & L). apply L. intros i Hi' E.
    apply Hb. destruct W as (W1 & W2 & W3).
    enough (b + i = a) by lia. eapply window_cell; [exact R| |done|exact E]. split_and!; lia.
  - apply kept_memory; [done|done|]. apply (window_low p (k_mem s) m' b n); try done; apply R.
  - split; [done|]. intros i Hi'. simpl. unfold chr, vid_get. simpl.
    eapply (only_changes_ldb _ _ _ _ VIDEO 4000); [exact C| |lia].
    by apply apart_sym, (window_apart_screen p).
Qed.

(** Descriptors 2 to 7 may change. *)
Lemma ustep_fds p b n s r l :
  running p s -> pcbs_ok (set_pcbs l s) ->
  (forall fd, 0 <= fd <= 1 -> fd_at p fd (set_pcbs l s) = fd_at p fd s) -> kept p s (set_pcbs l s) ->
  ustep p b n s (set_rtc r (set_pcbs l s)).
Proof.
  intros R Hok F Kp. pose proof (F 0 ltac:(lia)) as F0. pose proof (F 1 ltac:(lia)) as F1.
  split; try done; [|by destruct Kp]. destruct R. split; try done.
  - change (fd_at p 0 (set_rtc r (set_pcbs l s))) with (fd_at p 0 (set_pcbs l s)). by rewrite F0.
  - change (fd_at p 1 (set_rtc r (set_pcbs l s))) with (fd_at p 1 (set_pcbs l s)). by rewrite F1.
Qed.

Lemma ustep_upd_fd p b n s fd f :
  running p s -> 2 <= fd <= 7 -> ustep p b n s (upd_fd p fd f s).
Proof.
  intros R Hfd. pose proof (ru_proc _ _ R) as Hp. pose proof (ru_pcbs _ _ R) as Hok.
  destruct (only_fd_upd p fd f s) as [(E & O2 & O3 & l & O4) _]; [done|done|lia|].
  rewrite E. apply ustep_fds; [done|done| |by apply (kept_fds p s _ l)]. intros fd' Hf.
  change (fd_at p fd' (upd_fd p fd f s) = fd_at p fd' s). apply O3. intros [=]. lia.
Qed.

(** A call that fills the first [k] bytes of a buffer and updates a descriptor. *)
Lemma ustep_call p b n k s m' fd g :
  running p s -> in_window b n -> 0 <= k <= n -> only_changes (k_mem s) m' b k -> 2 <= fd <= 7 ->
  let s' := upd_fd p fd g (set_mem m' s) in
  ustep p b n s s' /\ scr_eq (view s') (view s) /\ fd_at p fd s' = g (fd_at p fd s).
Proof.
  intros R W Hk C Hfd s'. assert (C' : only_changes (k_mem s) m' b n)
    by (eapply only_changes_weaken; [..|exact C]; lia).
  destruct (ustep_mem p b n s m' R W C') as [U V]. pose proof (us_run _ _ _ _ _ U) as R1. split_and!.
  - eapply ustep_trans; [exact U|]. by apply ustep_upd_fd.
  - exact V.
  - unfold s'. pose proof (ru_proc _ _ R). rewrite fd_at_upd by (apply R1 || lia). by rewrite decide_True.
Qed.

(** Back in user mode after such a call. *)
Lemma leave_call p s fd g m' v :
  k_if s = true ->
  leave (k_esp s) (Ret v (upd_fd p fd g (set_mem m' (enter s)))) = Ret v (upd_fd p fd g (set_mem m' s)).
Proof. destruct s. simpl. by intros ->. Qed.

(** The string [l] at [a] and the buffer of [n] bytes at [b] do not overlap. *)
Definition beside (b n a : Z) (l : list Z) : Prop := b + n <= a \/ a + Z.of_nat (length l) + 1 <= b.

Lemma literal_step p b n s s' a l :
  ustep p b n s s' -> literal_at s a l -> beside b n a l ->
  literal_at s' a l.
Proof.
  intros U (C & Hne & Hl & W) Hd. unfold beside in Hd. split_and!; try done.
  assert (E : forall i, 0 <= i <= Z.of_nat (length l) -> at_ (k_mem s') a i = at_ (k_mem s) a i).
  { intros i Hi. destruct W as (W1 & W2 & W3). unfold at_. apply (us_page _ _ _ _ _ U); [split_and!; lia|lia]. }
  destruct C as (C1 & C2 & C3). split_and!; [done| |].
  - intros i Hi. rewrite E by lia. by apply C2.
  - by rewrite E by lia.
Qed.

(** *** Files *)

(** Descriptor [fd] of process [p] is the file of inode [nd], at position [q]. *)
Record file_fd (p : Z) (s : kst) (fd nd q : Z) : Prop := {
  ff_range : 2 <= fd <= 7;
  ff_fd : fd_at p fd s = mkFd F_file nd q 1;
  ff_inode : 0 <= nd < nnod (k_mem s) (k_boot s);
  ff_pos : 0 <= q <= file_len (k_mem s) (k_boot s) nd
}.

Lemma enter_open_file p s fd nd q : running p s -> file_fd p s fd nd q -> open_file (enter s) p fd nd q.
Proof.
  intros R [F1 F2 F3 F4].
  assert (E : fd_at p fd (enter s) = mkFd F_file nd q 1) by exact F2.
  split; rewrite ?E; try done; [by apply enter_pcb|exact (ru_pcbs _ _ R)|lia|exact (ru_wf _ _ R)].
Qed.

(** The image an open file is read from survives every step. *)
Lemma file_fd_step p b n s s' fd nd q :
  ustep p b n s s' -> file_fd p s fd nd q -> fd_at p fd s' = fd_at p fd s -> file_fd p s' fd nd q.
Proof.
  intros U [F1 F2 F3 F4] E. pose proof (ru_wf _ _ (us_from _ _ _ _ _ U)) as Hw.
  pose proof (us_image _ _ _ _ _ U) as Hi. split; [done|by rewrite E| |]; rewrite (us_boot _ _ _ _ _ U).
  - by rewrite (image_header _ _ _ Hw Hi).
  - by rewrite (same_image_len _ _ _ _ Hw Hi F3).
Qed.

(** [read] on an open descriptor is its operation. *)
Lemma read_open p s fd o buf n :
  running p s -> fd = 0 \/ 2 <= fd <= 7 -> flag (fd_at p fd s) = 1 -> f_op (fd_at p fd s) = o ->
  sys_read fd buf n (enter s) = op_read o fd buf n (enter s).
Proof.
  intros R Hfd Hf Ho. unfold sys_read.
  rewrite (proj2 (Z.ltb_ge fd 0)), (proj2 (Z.eqb_neq fd 1)), (proj2 (Z.ltb_ge 7 fd)) by lia.
  unfold with_pcb. rewrite (enter_pcb p s R). change (fd_at p fd (enter s)) with (fd_at p fd s).
  by rewrite Hf, Ho.
Qed.

Lemma user_read_file_fds p s fd nd q buf n :
  running p s -> file_fd p s fd nd q -> in_window buf n ->
  let k := Z.min n (file_len (k_mem s) (k_boot s) nd - q) in
  exists s', ece391_read fd buf n s = Ret k s' /\
    bytes_at (k_mem s') buf (Z.to_nat k) = file_slice (k_mem s) (k_boot s) nd q (Z.to_nat k) /\
    file_fd p s' fd nd (q + k) /\ ustep p buf n s s' /\ scr_eq (view s') (view s) /\
    (forall fd', fd' <> fd -> fd_at p fd' s' = fd_at p fd' s) /\ same_input s s'.
Proof.
  intros R F W k. pose proof W as (W1 & W2 & W3). unfold MB128, MB132 in W1, W3.
  pose proof (ff_range _ _ _ _ _ F) as Hfd. pose proof (ff_pos _ _ _ _ _ F) as Hq.
  assert (Wk : in_window buf k) by (unfold in_window, MB128, MB132; lia).
  destruct (file_read_ok (enter s) p fd nd q buf n) as (m' & E & B & C & M).
  { by apply enter_open_file. } { lia. }
  { split; [exact (window_region p s buf k R Wk)|exact (window_image p s buf k R Wk)]. }
  change (k_mem (enter s)) with (k_mem s) in *. change (k_boot (enter s)) with (k_boot s) in *.
  fold k in E, B, C. rewrite call_read by (unfold small_arg; lia).
  rewrite (read_open p s fd F_file) by (done || lia || by rewrite (ff_fd _ _ _ _ _ F)).
  cbn [op_read]. rewrite E, leave_call by apply R.
  destruct (ustep_call p buf n k s m' fd (with_position (q + k)) R W) as (U & V & Fd); [lia|done|lia|].
  set (s' := upd_fd p fd (with_position (q + k)) (set_mem m' s)) in *. exists s'.
  assert (Fo : forall fd', fd' <> fd -> fd_at p fd' s' = fd_at p fd' s).
  { intros fd' Hne. unfold s'. pose proof (ru_proc _ _ R). pose proof (ru_pcbs _ _ R).
    rewrite fd_at_upd by (done || lia). by rewrite decide_False by (intros [_ ?]; congruence). }
  split_and!; [done|exact B| |done|done|exact Fo|done].
  pose proof (image_header _ _ _ (ru_wf _ _ R) (us_image _ _ _ _ _ U)) as En.
  pose proof (same_image_len _ _ _ _ (ru_wf _ _ R) (us_image _ _ _ _ _ U) (ff_inode _ _ _ _ _ F)) as El.
  split; [done| |rewrite (us_boot _ _ _ _ _ U), En; apply F|rewrite (us_boot _ _ _ _ _ U), El; lia].
  rewrite Fd, (ff_fd _ _ _ _ _ F). unfold with_position. simpl. f_equal. apply u32_small.
  pose proof (ld32_range (k_mem s) (inode_addr (k_boot s) nd)). unfold file_len in *. lia.
Qed.

Lemma user_read_file p s fd nd q buf n :
  running p s -> file_fd p s fd nd q -> in_window buf n ->
  let k := Z.min n (file_len (k_mem s) (k_boot s) nd - q) in
  exists s', ece391_read fd buf n s = Ret k s' /\
    bytes_at (k_mem s') buf (Z.to_nat k) = file_slice (k_mem s) (k_boot s) nd q (Z.to_nat k) /\
    file_fd p s' fd nd (q + k) /\ ustep p buf n s s' /\ scr_eq (view s') (view s) /\ same_input s s'.
Proof.
  intros R F W k. destruct (user_read_file_fds p s fd nd q buf n R F W) as (s' & E & B & F' & U & V & _ & I).
  by exists s'.
Qed.

(** Opening a directory or a regular file while a descriptor is free. *)
Lemma user_open_fds p b n s a d fd f :
  running p s -> small_arg a -> read_dentry_by_name (at_ (k_mem s) a) s = Some d -> d_ft d <> 0 ->
  free_fd 6 2 (file_desc_tb (pcb_at p s)) = Some fd -> fd_for d (fd_at p fd s) = Some f ->
  exists s', ece391_open a s = Ret fd s' /\ fd_at p fd s' = f /\ ustep p b n s s' /\
    k_mem s' = k_mem s /\ view s' = view s /\ 2 <= fd <= 7 /\
    (forall fd', fd' <> fd -> fd_at p fd' s' = fd_at p fd' s) /\ same_input s s'.
Proof.
  intros R Ha Hd Hft Hfree Hf. rewrite call_open by done.
  pose proof (sys_open_ok (enter s) p a d (enter_pcb p s R) (ru_pcbs _ _ R) Hd) as H.
  pose proof (free_fd_spec 6 2 (file_desc_tb (pcb_at p s))) as Hr.
  change (pcb_at p (enter s)) with (pcb_at p s) in H. change (fd_at p fd (enter s)) with (fd_at p fd s) in H.
  rewrite Hfree in H, Hr. destruct Hr as (Hfd & _).
  change (fd_at p fd (enter s)) with (fd_at p fd s) in H. rewrite Hf in H.
  destruct H as (s1 & E & F & (O1 & O2 & O3 & l & O5) & Hr').
  assert (O4 : forall fd', fd' <> fd -> fd_at p fd' s1 = fd_at p fd' (enter s)) by (intros; apply O3; congruence).
  rewrite E. exists (set_rtc (k_rtc s1) (set_pcbs (k_pcbs s1) s)). split_and!; try done; try lia.
  - simpl. rewrite O1. pose proof (ru_if _ _ R) as Hif. destruct s. simpl in *. by subst.
  - apply ustep_fds; [done|exact O2| |].
    + intros fd' Hfd'. apply (O4 fd'). lia.
    + apply (kept_fds p s _ l); [apply R|apply R|exact O5|done|done].
  - split_and!; [done|done|done|exact (Hr' Hft)].
Qed.

Lemma user_open p b n s a d fd f :
  running p s -> small_arg a -> read_dentry_by_name (at_ (k_mem s) a) s = Some d -> d_ft d <> 0 ->
  free_fd 6 2 (file_desc_tb (pcb_at p s)) = Some fd -> fd_for d (fd_at p fd s) = Some f ->
  exists s', ece391_open a s = Ret fd s' /\ fd_at p fd s' = f /\ ustep p b n s s' /\
    k_mem s' = k_mem s /\ view s' = view s /\ 2 <= fd <= 7 /\ same_input s s'.
Proof.
  intros R Ha Hd Hft Hfree Hf.
  destruct (user_open_fds p b n s a d fd f R Ha Hd Hft Hfree Hf) as (s' & E & F & U & M & V & Hfd & _ & I).
  by exists s'.
Qed.

Lemma user_open_file p b n s a d fd :
  running p s -> small_arg a -> read_dentry_by_name (at_ (k_mem s) a) s = Some d -> d_ft d = 2 ->
  d_ind d < nnod (k_mem s) (k_boot s) -> free_fd 6 2 (file_desc_tb (pcb_at p s)) = Some fd ->
  exists s', ece391_open a s = Ret fd s' /\ file_fd p s' fd (d_ind d) 0 /\ ustep p b n s s' /\
    k_mem s' = k_mem s /\ view s' = view s /\ same_input s s'.
Proof.
  intros R Ha Hd Hft Hi Hfree.
  destruct (user_open p b n s a d fd (mkFd F_file (d_ind d) 0 1)) as (s' & E & F & U & M & V & Hfd & I);
    try done; [lia|unfold fd_for; by rewrite Hft|].
  exists s'. split_and!; try done. split; [done|done| |]; rewrite (us_boot _ _ _ _ _ U), M.
  - split; [apply ld32_range|done].
  - pose proof (ld32_range (k_mem s) (inode_addr (k_boot s) (d_ind d))). unfold file_len. lia.
Qed.

Lemma user_open_none p s a :
  running p s -> small_arg a -> read_dentry_by_name (at_ (k_mem s) a) s = None ->
  ece391_open a s = Ret (-1) s.
Proof.
  intros R Ha Hd. rewrite call_open by done. unfold sys_open.
  change (read_dentry_by_name (at_ (k_mem (enter s)) a) (enter s)) with
    (read_dentry_by_name (at_ (k_mem s) a) s). rewrite Hd. simpl.
  by rewrite leave_enter by apply R.
Qed.

(** With every descriptor taken, nothing opens. *)
Lemma user_open_full p s a d :
  running p s -> small_arg a -> read_dentry_by_name (at_ (k_mem s) a) s = Some d -> d_ft d <= 2 ->
  free_fd 6 2 (file_desc_tb (pcb_at p s)) = None -> ece391_open a s = Ret (-1) s.
Proof.
  intros R Ha Hd Hft Hfree. rewrite call_open by done.
  pose proof (sys_open_ok (enter s) p a d (enter_pcb p s R) (ru_pcbs _ _ R) Hd) as H.
  change (pcb_at p (enter s)) with (pcb_at p s) in H. rewrite Hfree in H.
  rewrite H by done. simpl. by rewrite leave_enter by apply R.
Qed.

(** *** Calls that are refused *)

(** A descriptor number that is none of the process. *)
Definition bad_fd (p fd : Z) (s : kst) : Prop :=
  fd < 0 \/ 7 < fd \/ 2 <= fd <= 7 /\ flag (fd_at p fd s) = 0.

Lemma user_read_bad p s fd buf n :
  running p s -> bad_fd p (i32 fd) s \/ i32 fd = 1 -> ece391_read fd buf n s = Ret (-1) s.
Proof.
  intros R H. unfold ece391_read, int80, syscall_wrapper. cbn -[i32 u32 enter leave sys_read].
  unfold sys_read, with_pcb. rewrite i32_u32, (enter_pcb p s R).
  change (fd_at p (i32 fd) (enter s)) with (fd_at p (i32 fd) s). unfold bad_fd in H.
  repeat split_if; simpl; try (by rewrite leave_enter by apply R); lia.
Qed.

Lemma user_write_bad p s fd buf n :
  running p s -> bad_fd p (i32 fd) s \/ i32 fd = 0 -> ece391_write fd buf n s = Ret (-1) s.
Proof.
  intros R H. unfold ece391_write, int80, syscall_wrapper. cbn -[i32 u32 enter leave sys_write].
  unfold sys_write, with_pcb. rewrite i32_u32, (enter_pcb p s R).
  change (fd_at p (i32 fd) (enter s)) with (fd_at p (i32 fd) s). unfold bad_fd in H.
  repeat split_if; simpl; try (by rewrite leave_enter by apply R); lia.
Qed.

Lemma user_close_bad p s fd :
  running p s -> bad_fd p (i32 fd) s \/ 0 <= i32 fd <= 1 -> ece391_close fd s = Ret (-1) s.
Proof.
  intros R H. unfold ece391_close, int80, syscall_wrapper. cbn -[i32 u32 enter leave sys_close].
  unfold sys_close, with_pcb. rewrite i32_u32, (enter_pcb p s R).
  change (fd_at p (i32 fd) (enter s)) with (fd_at p (i32 fd) s). unfold bad_fd in H.
  repeat split_if; simpl; try (by rewrite leave_enter by apply R); lia.
Qed.

(** Closing an open descriptor frees it. *)
Lemma user_close p b n s fd :
  running p s -> 2 <= fd <= 7 -> flag (fd_at p fd s) <> 0 ->
  exists s', ece391_close fd s = Ret 0 s' /\ ustep p b n s s' /\ view s' = view s /\ k_mem s' = k_mem s /\
    fd_at p fd s' = with_flag 0 (fd_at p fd s) /\ (forall fd', fd' <> fd -> fd_at p fd' s' = fd_at p fd' s) /\
    same_input s s'.
Proof.
  intros R Hfd Hf. exists (upd_fd p fd (with_flag 0) s).
  assert (E : ece391_close fd s = Ret 0 (upd_fd p fd (with_flag 0) s)).
  { unfold ece391_close, int80, syscall_wrapper. cbn -[i32 u32 enter leave sys_close].
    unfold sys_close, with_pcb. rewrite i32_u32, (i32_small fd), (enter_pcb p s R) by lia.
    change ((9 <? u32 6) || (6 <=? 0)) with false. change (fd_at p fd (enter s)) with (fd_at p fd s). cbv iota.
    rewrite (proj2 (Z.leb_gt fd 1)), (proj2 (Z.leb_gt 8 fd)), (proj2 (Z.eqb_neq _ 0)) by (done || lia).
    exact (leave_call p s fd (with_flag 0) (k_mem s) 0 (ru_if _ _ R)). }
  pose proof (ru_proc _ _ R). pose proof (ru_pcbs _ _ R).
  split_and!; [done|by apply ustep_upd_fd|done|done| | |done].
  - rewrite fd_at_upd by (done || lia). by rewrite decide_True.
  - intros fd' Hne. rewrite fd_at_upd by (done || lia). by rewrite decide_False by (intros [_ ?]; congruence).
Qed.

(** Addresses below the program's page are no place for [vidmap]. *)
Lemma user_vidmap_bad p s a : running p s -> u32 a < MB128 -> ece391_vidmap a s = Ret (-1) s.
Proof.
  intros R H. unfold ece391_vidmap, int80, syscall_wrapper. cbn -[i32 u32 enter leave sys_vidmap].
  unfold lift, sys_vidmap. rewrite (proj2 (Z.ltb_lt _ _) H). simpl. by rewrite leave_enter by apply R.
Qed.

(** Neither are numbers outside the table calls. *)
Lemma user_call_bad p s n ebx ecx edx :
  running p s -> 9 < u32 n \/ i32 n <= 0 -> int80 n ebx ecx edx s = Ret (-1) s.
Proof.
  intros R H. unfold int80, syscall_wrapper.
  replace ((9 <? u32 n) || (i32 n <=? 0)) with true by lia. simpl. by rewrite leave_enter by apply R.
Qed.

(** The calls for signals: the first is a jump through an entry the table does not have. *)
Lemma no_signals p s signum handler :
  running p s ->
  (exists s', ece391_set_handler signum handler s = BadJump s') /\ ece391_sigreturn s = Ret (-1) s.
Proof.
  intros R. split; [by eexists|]. apply (user_call_bad p); [done|]. left. done.
Qed.

(** *** The directory *)

(** The name of directory entry [i]: at most 32 characters, up to a NUL. *)
Fixpoint upto_nul (l : list Z) : list Z :=
  match l with [] => [] | c :: l' => if c =? 0 then [] else c :: upto_nul l' end.

Definition name_of (s : kst) (i : Z) : list Z :=
  upto_nul (bytes_at (k_mem s) (dir_addr (k_boot s) i) 32).

Lemma zget_cons_succ (x : Z) l i : 0 <= i -> zget 0 (x :: l) (1 + i) = zget 0 l i.
Proof.
  intros Hi. unfold zget. rewrite !(proj2 (Z.ltb_ge _ _)) by lia.
  by replace (Z.to_nat (1 + i)) with (S (Z.to_nat i)) by lia.
Qed.

Lemma upto_nul_spec l :
  (length (upto_nul l) <= length l)%nat /\
  (forall i, 0 <= i < Z.of_nat (length (upto_nul l)) -> zget 0 (upto_nul l) i = zget 0 l i /\ zget 0 l i <> 0) /\
  (length (upto_nul l) = length l \/ zget 0 l (Z.of_nat (length (upto_nul l))) = 0).
Proof.
  induction l as [|c l (H1 & H2 & H3)]; [split_and!; [done|simpl; lia|by left]|]. cbn [upto_nul].
  destruct (Z.eqb_spec c 0) as [->|Hc]; [split_and!; [simpl; lia|simpl; lia|by right]|].
  split_and!; [simpl; lia| |].
  - intros i Hi. destruct (Z.eq_dec i 0) as [->|]; [done|].
    replace i with (1 + (i - 1)) by lia. rewrite !zget_cons_succ by lia. apply H2. simpl in Hi. lia.
  - simpl length. destruct H3 as [H3|H3]; [left; lia|right]. rewrite Nat2Z.inj_succ, <- Z.add_1_l.
    by rewrite zget_cons_succ by lia.
Qed.

Lemma upto_nul_nz l : Forall (fun c => c <> 0) (upto_nul l).
Proof. induction l as [|c l IH]; simpl; [constructor|]. destruct (Z.eqb_spec c 0); by constructor. Qed.

(** The characters the directory entry holds. *)
Lemma name_of_spec s i :
  let l := name_of s i in
  let d := bytes_at (k_mem s) (dir_addr (k_boot s) i) 64 in
  (length l <= 32)%nat /\
  (forall j, 0 <= j < Z.of_nat (length l) -> zget 0 l j = d_name d j /\ d_name d j <> 0) /\
  (Z.of_nat (length l) = 32 \/ d_name d (Z.of_nat (length l)) = 0).
Proof.
  intros l d. destruct (upto_nul_spec (bytes_at (k_mem s) (dir_addr (k_boot s) i) 32)) as (N1 & N2 & N3).
  change (upto_nul _) with l in N1, N2, N3. rewrite bytes_at_length in N1, N3.
  assert (Dn : forall j, 0 <= j < 32 -> d_name d j = zget 0 (bytes_at (k_mem s) (dir_addr (k_boot s) i) 32) j).
  { intros j Hj. change (d_name d j) with (u8 (zget 0 (bytes_at (k_mem s) (dir_addr (k_boot s) i) 64) j)).
    rewrite !bytes_at_get by lia. apply u8_small, (ldb_range (k_mem s)). }
  split_and!; [done| |].
  - intros j Hj. rewrite Dn by lia. by apply N2.
  - destruct (Nat.eq_dec (length l) 32); [left; lia|right]. rewrite Dn by lia. destruct N3; [lia|done].
Qed.

Definition dir_fd (p : Z) (s : kst) (fd q : Z) : Prop :=
  2 <= fd <= 7 /\ exists nd, fd_at p fd s = mkFd F_dir nd q 1.

Lemma user_read_dir_fds p s fd q buf :
  running p s -> dir_fd p s fd q -> 0 <= q <= nent (k_mem s) (k_boot s) -> in_window buf 33 ->
  let l := name_of s q in
  exists s', ece391_read fd buf 32 s = Ret (Z.of_nat (length l)) s' /\
    bytes_at (k_mem s') buf (length l) = l /\ (length l <= 32)%nat /\
    dir_fd p s' fd (q + 1) /\ ustep p buf 33 s s' /\ scr_eq (view s') (view s) /\
    forall fd', fd' <> fd -> fd_at p fd' s' = fd_at p fd' s.
Proof.
  intros R (Hfd & nd & F) Hq W l. pose proof W as (W1 & W2 & W3). unfold MB128, MB132 in W1, W3.
  destruct (name_of_spec s q) as (N1 & N2 & N3). fold l in N1, N2, N3.
  set (d := bytes_at (k_mem s) (dir_addr (k_boot s) q) 64) in *.
  assert (Wl : in_window buf (Z.of_nat (length l) + 1)) by (unfold in_window, MB128, MB132; lia).
  pose proof (dir_read_ok (enter s) p fd buf 32 (Z.of_nat (length l)) (enter_pcb p s R)) as H.
  change (fd_at p fd (enter s)) with (fd_at p fd s) in H. change (k_mem (enter s)) with (k_mem s) in H.
  change (k_boot (enter s)) with (k_boot s) in H. rewrite F in H. simpl file_position in H. fold d in H.
  destruct H as (m' & E & B & C); [lia|by apply (window_region p)|lia|intros; by apply N2|done|].
  rewrite call_read by (unfold small_arg; lia).
  rewrite (read_open p s fd F_dir) by (done || lia || by rewrite F).
  cbn [op_read]. rewrite E.
  set (g := fun f => with_position (file_position f + 1) f).
  change (set_mem m' (upd_fd p fd g (enter s))) with (upd_fd p fd g (set_mem m' (enter s))).
  rewrite leave_call by apply R.
  destruct (ustep_call p buf 33 (Z.of_nat (length l) + 1) s m' fd g R W) as (U & V & Fd); [lia|done|done|].
  exists (upd_fd p fd g (set_mem m' s)).
  assert (Fo : forall fd', fd' <> fd -> fd_at p fd' (upd_fd p fd g (set_mem m' s)) = fd_at p fd' s).
  { intros fd' Hne. pose proof (ru_proc _ _ R). pose proof (ru_pcbs _ _ R).
    rewrite fd_at_upd by (done || lia). by rewrite decide_False by (intros [_ ?]; congruence). }
  split_and!; try done.
  - change (k_mem _) with m'. rewrite Nat2Z.id in B. rewrite B. apply (zlist_ext 0); rewrite length_map, length_seq; [done|].
    intros i Hi. rewrite (proj1 (N2 i Hi)). unfold zget.
    rewrite (proj2 (Z.ltb_ge _ _)), list_lookup_fmap, lookup_seq_lt by lia. simpl. f_equal. lia.
  - split; [done|]. exists nd. rewrite Fd, F. unfold g, with_position. simpl. f_equal. apply u32_small.
    destruct (ru_wf _ _ R) as (_ & _ & H63 & _). lia.
Qed.

Lemma user_read_dir p s fd q buf :
  running p s -> dir_fd p s fd q -> 0 <= q <= nent (k_mem s) (k_boot s) -> in_window buf 33 ->
  let l := name_of s q in
  exists s', ece391_read fd buf 32 s = Ret (Z.of_nat (length l)) s' /\
    bytes_at (k_mem s') buf (length l) = l /\ (length l <= 32)%nat /\
    dir_fd p s' fd (q + 1) /\ ustep p buf 33 s s' /\ scr_eq (view s') (view s).
Proof.
  intros R F Hq W l. destruct (user_read_dir_fds p s fd q buf R F Hq W) as (s' & E & B & Hl & F' & U & V & _).
  by exists s'.
Qed.

(** *** The keyboard *)

(** What a process sees of the kernel is its memory, its table, the TSS and the console. *)
Lemma ustep_rest p b n s s' :
  running p s -> k_mem s' = k_mem s -> k_tss s' = k_tss s -> k_pcbs s' = k_pcbs s ->
  k_boot s' = k_boot s -> k_if s' = true -> k_con s' = k_con s -> k_pg s' = k_pg s ->
  ustep p b n s s' /\ scr_eq (view s') (view s).
Proof.
  intros R M T P B I C G. assert (R' : running p s').
  { assert (F : forall fd, fd_at p fd s' = fd_at p fd s) by (intros; unfold fd_at, pcb_at; by rewrite P).
    destruct R. split; rewrite ?T, ?M, ?F, ?B; try done.
    - unfold pcbs_ok in *. by rewrite P.
    - unfold cursor_ok in *. by rewrite C. }
  split; [split; rewrite ?M; try done; apply kept_memory; by rewrite ?M|]. split; [simpl; by rewrite C|].
  intros i Hi. simpl. unfold chr, vid_get. by rewrite M.
Qed.

Context (scs : list Z) `{KD : !KeyboardDevice scs}.

(** The keyboard between two lines. *)
Definition keyboard_ready (s : kst) : Prop := kbd_ok (k_kbd s) /\ enterpress (k_kbd s) = 0.

Lemma typed_screen_proper l e t u t' :
  scr_eq t u -> typed_screen l e t = Some t' -> exists u', typed_screen l e u = Some u' /\ scr_eq t' u'.
Proof.
  revert e t u. induction l as [|sc l IH]; intros e t u E; simpl; [done|].
  destruct (spec_key sc e t) as [t1|] eqn:Et; [|done].
  destruct (spec_key_proper sc e t u t1 E Et) as (u1 & -> & E1).
  destruct (ed_step sc e) as [e1 [l1|]]; [intros [= <-]; by eexists|by apply IH].
Qed.

Lemma count_kbd_app q1 q2 : count_kbd (q1 ++ q2) = (count_kbd q1 + count_kbd q2)%nat.
Proof. induction q1 as [|i q1 IH]; simpl; [done|]. rewrite IH. lia. Qed.

(** Only the tab key types a tab. *)
Lemma typed_tab sc m : 0 <= sc -> spec_typed sc m = 9 -> sc = 15.
Proof.
  intros H0. unfold spec_typed. destruct (sc <? 128) eqn:E; [|done]. cbn [andb]. split_if; [|done]. intros H.
  pose proof (forallb_below (fun sc => (sc =? 15) || negb (zget 0 keymap_upper sc =? 9) && negb (zget 0 keymap sc =? 9))
    128 ltac:(vm_compute; reflexivity) sc ltac:(lia)) as T. cbv beta in T.
  unfold spec_char in H. destruct (xorb _ _); rewrite H in T; destruct (Z.eqb_spec sc 15); try done;
    by rewrite ?andb_false_r in T.
Qed.

(** Without it, every key can be echoed. *)
Lemma spec_key_total sc e t : 0 <= sc -> sc <> 15 -> is_Some (spec_key sc e t).
Proof.
  intros H0 H. assert (P : forall c, c <> 9 -> is_Some (spec_putc c t)).
  { intros c Hc. unfold spec_putc. rewrite (proj2 (Z.eqb_neq c 9)) by done. by repeat split_if. }
  unfold spec_key, spec_echo. split_if; [done|].
  assert (H9 : spec_typed sc (ed_mods e) <> 9) by (intros E; by apply H, (typed_tab sc (ed_mods e))).
  split_if; [by destruct (ed_line e); [|destruct (zget _ _ _ =? 9)]|].
  split_if; [by destruct (_ =? 126)%nat|]. split_if; [by apply P|done].
Qed.

Lemma typed_screen_total l e t :
  Forall (fun sc => 0 <= sc /\ sc <> 15) l -> is_Some (first_line l e) -> is_Some (typed_screen l e t).
Proof.
  intros Hl. revert e t. induction Hl as [|sc l [H0 H] Hl IH]; intros e t; simpl; [by intros []|].
  destruct (spec_key_total sc e t H0 H) as [t1 ->]. destruct (ed_step sc e) as [e1 [l1|]]; [done|].
  intros Hf. apply IH. by destruct (first_line l e1).
Qed.

Lemma spec_puts_total l t : Forall (fun c => c <> 9) l -> is_Some (spec_puts l t).
Proof.
  intros Hl. revert t. induction Hl as [|c l Hc Hl IH]; intros t; cbn [spec_puts]; [done|].
  unfold spec_putc. rewrite (proj2 (Z.eqb_neq c 9)) by done. repeat split_if; apply IH.
Qed.

(** [read] from the keyboard: the line typed next, echoed on the screen. *)
Lemma user_read_line p s buf nbytes n l e' t0 t :
  running p s -> keyboard_ready s -> in_window buf 128 -> small_arg nbytes ->
  first_line (pending scs s) (ed_of (k_kbd s)) = Some (n, l, e') -> (n <= count_kbd (k_irqs s))%nat ->
  scr_eq (view s) t0 -> typed_screen (pending scs s) (ed_of (k_kbd s)) t0 = Some t ->
  exists s', ece391_read 0 buf nbytes s = Ret (Z.of_nat (length l)) s' /\
    bytes_at (k_mem s') buf (length l) = l /\ (1 <= length l <= 128)%nat /\ Forall (fun c => c <> 0) l /\
    ustep p buf (Z.of_nat (length l)) s s' /\ scr_eq (view s') t /\
    keyboard_ready s' /\ ed_of (k_kbd s') = e' /\ pending scs s' = drop n (pending scs s) /\
    (count_kbd (k_irqs s) = n + count_kbd (k_irqs s'))%nat /\ k_pcbs s' = k_pcbs s /\ k_pg s' = k_pg s.
Proof.
  intros R (K1 & K2) W Hb Hf Hn V0 Ht0. destruct (typed_screen_proper _ _ _ _ _ (symmetry V0) Ht0) as (u & Ht & Eu).
  pose proof W as (W1 & W2 & W3). unfold MB128, MB132 in W1, W3.
  assert (Hl : (1 <= length l <= 128)%nat /\ Forall (fun c => c <> 0) l).
  { eapply first_line_length; [| |exact Hf].
    - pose proof (ed_line_length _ (kbd_ok_wf _ K1)). destruct K1 as (? & _). lia.
    - destruct K1 as (_ & _ & _ & K1). eapply Forall_impl; [exact K1|]. simpl. lia. }
  destruct Hl as [Hl Hz].
  assert (Wl : in_window buf (Z.of_nat (length l))) by (unfold in_window, MB128, MB132; lia).
  destruct (terminal_read_ok scs 0 buf nbytes (enter s) n l e')
    as (s' & q & E & B & _ & Q & N & K1' & K2' & K3' & Wt & Hp & S); try done; [lia|exact (window_region p s buf _ R Wl)|].
  destruct (S u (ru_cursor _ _ R) (window_apart_screen p s buf _ R Wl) Ht) as (V & C & m & O1 & O2).
  rewrite call_read by (unfold small_arg in *; lia).
  destruct (ru_in _ _ R) as [I1 I2]. rewrite (read_open p s 0 F_terminal) by (done || lia). cbn [op_read].
  rewrite E. exists (set_if true (set_esp (k_esp s) s')).
  set (s1 := set_con (k_con s') (set_mem m s)).
  assert (D1 : draws s s1).
  { split; [split_and!; [by destruct s|done|]|exact O1].
    destruct (cells_map p s m R) as [M1 M2]; [by destruct O1 as [O1 _]|].
    pose proof (ru_paging _ _ R). pose proof (ru_upage _ _ R). split; simpl; congruence. }
  pose proof (ustep_draws p buf (Z.of_nat (length l)) s s1 R D1 C) as U1.
  destruct (ustep_mem p buf (Z.of_nat (length l)) s1 (k_mem s') (us_run _ _ _ _ _ U1) Wl O2) as [U2 _].
  destruct Wt as (T1 & T2 & T3 & T4 & T5 & T6 & T7).
  destruct (ustep_rest p buf (Z.of_nat (length l)) (set_mem (k_mem s') s1) (set_if true (set_esp (k_esp s) s'))) as [U3 _];
    try done; [apply U2|].
  split_and!; try done; try lia; [|by rewrite Eu|].
  2: { change (k_irqs s) with (k_irqs (enter s)). rewrite Q, count_kbd_app, N. done. }
  eapply ustep_trans; [exact U1|]. by eapply ustep_trans.
Qed.

(** *** Arguments *)

Lemma user_getargs p s l buf n :
  running p s -> cstr (at_ (args (pcb_at p s)) 0) l -> (length l < 128)%nat -> l <> [] ->
  Z.of_nat (length l) < n -> n <= 8000 -> in_window buf n ->
  exists m', ece391_getargs buf n s = Ret 0 (set_mem m' s) /\ cstr (at_ m' buf) l /\
    only_changes (k_mem s) m' buf n.
Proof.
  intros R C Hl Hne Hlt Hn W. pose proof W as (W1 & W2 & W3). unfold MB128, MB132 in W1, W3.
  pose proof (ru_proc _ _ R) as Hp.
  destruct (getargs_copy (enter s) p l buf n) as (m' & E & B & Ch); try done; try lia.
  { by apply enter_pcb. } { exact (window_region p s buf n R W). }
  { change (k_mem (enter s)) with (k_mem s).
    eapply window_apart; [done|done|..]; unfold after_pcb, _8MB, _8KB; lia. }
  exists m'. rewrite call_getargs by (unfold small_arg; lia). rewrite E. split_and!; [| |exact Ch].
  - simpl. pose proof (ru_if _ _ R) as Hif. destruct s. simpl in *. by subst.
  - assert (G : forall i, 0 <= i <= Z.of_nat (length l) -> at_ m' buf i = zget 0 (l ++ [0]) i).
    { intros i Hi. unfold at_. rewrite <- B. symmetry. apply bytes_at_get. lia. }
    destruct C as (C1 & _ & _). split_and!; [done| |].
    + intros i Hi. rewrite G, zget_app_l by lia. done.
    + rewrite G by lia. apply zget_snoc.
Qed.

Lemma user_getargs_none p s buf n :
  running p s -> cstr (at_ (args (pcb_at p s)) 0) [] -> small_arg buf -> small_arg n ->
  ece391_getargs buf n s = Ret (-1) s.
Proof.
  intros R (_ & _ & C) Hb Hn. rewrite call_getargs by done. unfold sys_getargs, with_pcb.
  rewrite (enter_pcb p s R). rewrite (C : args_byte p 0 (enter s) = 0). cbn [Z.eqb].
  by split_if; simpl; rewrite leave_enter by apply R.
Qed.

End Running.
