(* ===== verification/System.v ===== *)
(** * The running system: every call of every process

    [kernel_ok p s] is what holds of the kernel whenever process [p] runs: the page
    tables map its frame, the processes 0 to [p] are active and stacked one above the
    other, every descriptor is usable, the drivers' variables are in range, and the file
    system image is whole.  The lemmas of this file show that each system call, with
    whatever arguments, keeps it; that the memory and control blocks of the processes
    below are untouched; and that no call ends in a state the kernel cannot go on from. *)

From stdpp Require Import base list numbers gmap relations.
From Stdlib Require Import ZArith Lia.
From S2P Require Import Prelude Mem LibStr State Pic Console Rtc Keyboard Irq Terminal Paging.
From S2P Require Import Filesystem Syscall Process Idt Boot User.

(** ** The invariant *)

(** A descriptor in use has an operation table, and its position is in its file. *)
Definition fd_ok (m : vmem) (boot : Z) (f : file_desc) : Prop :=
  flag f <> 0 ->
  match f_op f with
  | F_unset => False
  | F_terminal | F_rtc => True
  | F_dir => 0 <= file_position f
  | F_file => 0 <= fd_inode f < nnod m boot /\ 0 <= file_position f <= file_len m boot (fd_inode f)
  end.

(** Every regular file has an inode, and what looks like a program fits a frame. *)
Definition files_ok (m : vmem) (boot : Z) : Prop :=
  forall f d, find_dentry (Z.to_nat (nent m boot)) m boot f 0 = Some d -> d_ft d = 2 ->
    d_ind d < nnod m boot /\
    (4 <= file_len m boot (d_ind d) -> is_elf m boot (d_ind d) ->
     40 <= file_len m boot (d_ind d) <= PROG_MAX).

(** The two memories agree on the kernel's memory behind the video pages. *)
Definition same_kernel (m m' : vmem) : Prop :=
  forall a, VIDEO_END <= a < _8MB -> ldb m' a = ldb m a.

Section Invariant.
Context `{Sy : Symbols}.

(** The shell the kernel starts again is there. *)
Definition shell_there (m : vmem) (boot : Z) : Prop :=
  VIDEO_END <= sym_shell /\ sym_shell + 4300 <= _8MB /\
  exists name d, plain_command (set_mem m kst0) sym_shell name (padded 128 []) /\
    installed m boot (at_ name 0) d.

(** The kernel's constant memory: the file system image and its command lines. *)
Record mem_ok (m : vmem) (boot : Z) : Prop := {
  mo_wf : fs_wf m boot;
  mo_high : VIDEO_END <= boot;
  mo_low : boot + image_size m boot <= _8MB;
  mo_files : files_ok m boot;
  mo_shell : shell_there m boot
}.

(** [esp] is in the kernel stack of process [q]. *)
Definition on_stack (q esp : Z) : Prop :=
  _8MB - (q + 1) * _8KB <= esp < _8MB - q * _8KB.

(** The process table when process [p] runs. *)
Record procs_ok (p : Z) (s : kst) : Prop := {
  pr_sized : pcbs_ok s;
  pr_active : forall q, 0 <= q < 6 -> active (pcb_at q s) <> 0 <-> q <= p;
  pr_root : parent_pid (pcb_at 0 s) = u32 (-1);
  pr_chain : forall q, 1 <= q <= p ->
    parent_pid (pcb_at q s) = q - 1 /\ on_stack (q - 1) (saved_esp (pcb_at q s));
  pr_std : forall q fd, 0 <= q <= p -> 0 <= fd <= 1 ->
    flag (fd_at q fd s) = 1 /\ f_op (fd_at q fd s) = F_terminal;
  pr_fds : forall q fd, 0 <= q < 6 -> 2 <= fd <= 7 -> fd_ok (k_mem s) (k_boot s) (fd_at q fd s);
  pr_args : forall q, 0 <= q <= p ->
    exists l, cstr (at_ (args (pcb_at q s)) 0) l /\ (length l < 128)%nat
}.

Record kernel_ok (p : Z) (s : kst) : Prop := {
  ko_proc : 0 <= p < 6;
  ko_esp0 : esp0 (k_tss s) = _8MB - p * _8KB - 4;
  ko_pages : kernel_pages (k_pg s) (frame p + 0x87);
  ko_map : paging_on (k_mem s) = true /\ upage (k_mem s) = frame p;
  ko_mem : mem_ok (k_mem s) (k_boot s);
  ko_cursor : cursor_ok s;
  ko_kbd : kbd_wf (k_kbd s);
  ko_rtc : rtc_ok s;
  ko_procs : procs_ok p s
}.

(** Where process [p] resumes its parent. *)
Definition back (p : Z) (s : kst) : Z * Z := (saved_esp (pcb_at p s), saved_ebp (pcb_at p s)).

(** Process [p] goes on. *)
Definition moves (p : Z) (s s' : kst) : Prop :=
  kernel_ok p s' /\ below p s s' /\ back p s' = back p s.

End Invariant.

#[export] Instance same_kernel_preorder : PreOrder same_kernel.
Proof. split; [done|]. intros m1 m2 m3 H1 H2 a Ha. by rewrite H2, H1. Qed.

Lemma below_kernel p s s' : 0 <= p -> below p s s' -> same_kernel (k_mem s) (k_mem s').
Proof. intros Hp [A _] a Ha. apply A. unfold frame, _8MB in *. lia. Qed.

(** ** What depends on the kernel's constant memory *)

Section Constant.
Context `{Sy : Symbols}.

Lemma same_kernel_image m m' boot :
  same_kernel m m' -> VIDEO_END <= boot -> boot + image_size m boot <= _8MB -> same_image m m' boot.
Proof. intros E Hb Hs i Hi. apply E. lia. Qed.

Lemma fd_ok_image m m' boot f :
  fs_wf m boot -> same_image m m' boot -> fd_ok m boot f -> fd_ok m' boot f.
Proof.
  intros Hw E H Hf. specialize (H Hf). destruct (f_op f); try done. destruct H as [Hn Hp].
  by rewrite (image_header m m'), (same_image_len m m') by done.
Qed.

Lemma files_ok_image m m' boot : fs_wf m boot -> same_image m m' boot -> files_ok m boot -> files_ok m' boot.
Proof.
  intros Hw E H f d Hd Hft. destruct (same_image_lookup m m' boot f Hw E) as [_ Ef]. rewrite Ef in Hd.
  destruct (H f d Hd Hft) as [Hi He]. assert (Hn : 0 <= d_ind d < nnod m boot) by (split; [apply ld32_range|done]).
  rewrite (image_header m m'), (same_image_len m m') by done. split; [done|].
  intros H4. unfold is_elf. rewrite (same_image_slice m m') by (done || simpl; lia). by apply He.
Qed.

Lemma mem_ok_same m m' boot : same_kernel m m' -> mem_ok m boot -> mem_ok m' boot /\ same_image m m' boot.
Proof.
  intros E [Hw Hh Hl Hf (S1 & S2 & name & d & Hc & Hi)].
  assert (Im : same_image m m' boot) by by apply same_kernel_image.
  destruct (same_image_wf m m' boot Hw Im) as [Hw' Es]. split; [|done].
  split; [done|done|by rewrite Es|by apply (files_ok_image m)|].
  split; [done|]. split; [done|]. exists name, d. split.
  - eapply (plain_command_eq (set_mem m kst0)); [|exact Hc]. intros j Hj. apply E. lia.
  - by apply (installed_ext m m').
Qed.

End Constant.

(** ** Steps that keep the invariant *)

Section Steps.
Context `{D : Device} `{Sy : Symbols}.
Implicit Types s : kst.

Lemma pcb_at_eq s s' j : k_pcbs s' = k_pcbs s -> pcb_at j s' = pcb_at j s.
Proof. unfold pcb_at. by intros ->. Qed.

Lemma fd_at_eq s s' q fd : k_pcbs s' = k_pcbs s -> fd_at q fd s' = fd_at q fd s.
Proof. intros E. unfold fd_at. by rewrite (pcb_at_eq s s'). Qed.

Lemma procs_ok_eq p s s' :
  mem_ok (k_mem s) (k_boot s) -> same_kernel (k_mem s) (k_mem s') -> k_boot s' = k_boot s ->
  k_pcbs s' = k_pcbs s -> procs_ok p s -> procs_ok p s'.
Proof.
  intros Hm E Eb Ep [A1 A2 A3 A4 A5 A6 A7]. destruct (mem_ok_same _ _ _ E Hm) as [_ Im].
  split; intros; rewrite ?(pcb_at_eq s s'), ?(fd_at_eq s s'), ?Eb by done; auto.
  - unfold pcbs_ok in *. by rewrite Ep.
  - eapply fd_ok_image; [apply Hm|exact Im|auto].
Qed.

(** Drivers, console and memory change; tables and processes do not. *)
Lemma kernel_ok_upd p s s' :
  kernel_ok p s -> same_kernel (k_mem s) (k_mem s') -> same_map (k_mem s) (k_mem s') ->
  k_tss s' = k_tss s -> k_pg s' = k_pg s -> k_boot s' = k_boot s -> k_pcbs s' = k_pcbs s ->
  cursor_ok s' -> kbd_wf (k_kbd s') -> rtc_ok s' -> kernel_ok p s'.
Proof.
  intros [B1 B2 B3 [B4 B5] B6 B7 B8 B9 B10] E [M1 M2] Et Eg Eb Ep Hc Hk Hr.
  split; try done; rewrite ?Et, ?Eg, ?M1, ?M2, ?Eb; try done.
  - by apply (mem_ok_same (k_mem s)).
  - by apply (procs_ok_eq p s).
Qed.

Lemma moves_refl p s : kernel_ok p s -> moves p s s.
Proof. by split. Qed.

Lemma moves_trans p s1 s2 s3 : moves p s1 s2 -> (kernel_ok p s2 -> moves p s2 s3) -> moves p s1 s3.
Proof.
  intros (K1 & B1 & E1) H. destruct (H K1) as (K2 & B2 & E2). split; [done|]. split; [by etrans|congruence].
Qed.

(** The flag, the stack pointer, ports and pending interrupts do not matter. *)
Lemma moves_quiet p s s' :
  kernel_ok p s -> k_mem s' = k_mem s -> k_tss s' = k_tss s -> k_pg s' = k_pg s -> k_boot s' = k_boot s ->
  k_pcbs s' = k_pcbs s -> k_con s' = k_con s -> k_kbd s' = k_kbd s -> rtc_ok s' -> moves p s s'.
Proof.
  intros K Em Et Eg Eb Ep Ec Ek Hr. split; [|split; [|unfold back; by rewrite (pcb_at_eq s s')]].
  - apply (kernel_ok_upd p s); rewrite ?Em, ?Ek; try done; [unfold cursor_ok; rewrite Ec|]; apply K.
  - split; [by rewrite Em|]. intros j _. by apply pcb_at_eq.
Qed.

(** Drawing. *)
Lemma screen_below p s s' :
  only_changes (k_mem s) (k_mem s') VIDEO 4000 -> 0 <= p < 6 -> k_pcbs s' = k_pcbs s -> below p s s'.
Proof.
  intros C Hp E. split; [by apply screen_low|]. intros j _. by apply pcb_at_eq.
Qed.

Lemma moves_echoes p s s' :
  kernel_ok p s -> echoes s s' -> cursor_ok s' -> kbd_wf (k_kbd s') -> moves p s s'.
Proof.
  intros K [[E M] C] Hc Hk. assert (B : below p s s') by (apply screen_below; [done|apply K|by rewrite E]).
  split; [|split; [done|by unfold back; rewrite (pcb_at_eq s s') by (by rewrite E)]].
  eapply kernel_ok_upd; [exact K|..]; try done; try (by rewrite E).
  - eapply below_kernel; [|exact B]. apply K.
  - unfold rtc_ok. rewrite E. apply K.
Qed.

Lemma moves_draws p s s' : kernel_ok p s -> draws s s' -> cursor_ok s' -> moves p s s'.
Proof.
  intros K Dr Hc. apply moves_echoes; [done|by apply draws_echoes|done|].
  destruct Dr as [(E & _) _]. rewrite E. apply K.
Qed.

(** Bytes of the program's page. *)
Lemma window_below p s m' b n :
  kernel_ok p s -> in_window b n -> only_changes (k_mem s) m' b n -> below p s (set_mem m' s).
Proof.
  intros K W C. split; [|done]. destruct (ko_map _ _ K).
  by apply (window_low p (k_mem s) m' b n); [apply K|..].
Qed.

Lemma cells_same_map p s m' :
  kernel_ok p s -> (forall a, cell m' a = cell (k_mem s) a) -> same_map (k_mem s) m'.
Proof.
  intros K C. pose proof (C MB128) as C1. pose proof (ko_proc _ _ K). destruct (ko_map _ _ K) as [Hp Hu].
  unfold same_map. rewrite Hp, Hu. revert C1. unfold cell; simpl. rewrite <- (Z.add_0_r MB128) at 2.
  rewrite tr_window, Hu by (done || unfold MB4; lia). unfold tr. change (u32 MB128) with MB128.
  destruct (paging_on m').
  - change ((MB128 <=? MB128) && (MB128 <? MB132)) with true. cbv iota. intros. split; [done|lia].
  - unfold frame, MB128. lia.
Qed.

Lemma moves_window p s m' b n :
  kernel_ok p s -> in_window b n -> only_changes (k_mem s) m' b n -> moves p s (set_mem m' s).
Proof.
  intros K W C. pose proof (window_below p s m' b n K W C) as B. split; [|done].
  eapply kernel_ok_upd; [exact K|..]; try done; try apply K.
  - eapply below_kernel; [|exact B]. apply K.
  - eapply cells_same_map; [exact K|]. by destruct C.
Qed.

(** A descriptor from 2 to 7. *)
Lemma moves_upd_fd p s fd f :
  kernel_ok p s -> 2 <= fd <= 7 -> fd_ok (k_mem s) (k_boot s) (f (fd_at p fd s)) -> moves p s (upd_fd p fd f s).
Proof.
  intros K Hfd Hf. pose proof (ko_proc _ _ K) as Hp. destruct (ko_procs _ _ K) as [A1 A2 A3 A4 A5 A6 A7].
  set (s' := upd_fd p fd f s).
  assert (Q : forall q, pcb_at q s' = if decide (p = q) then
    set_fds (zset (file_desc_tb (pcb_at p s)) fd (f (fd_at p fd s))) (pcb_at p s) else pcb_at q s)
    by (intros q; exact (pcb_at_upd p q _ s A1 Hp)).
  assert (F : forall q fd', fd_at q fd' s' = if decide (p = q /\ fd = fd') then f (fd_at p fd s) else fd_at q fd' s)
    by (intros; apply fd_at_upd; done || lia).
  split; [|split; [split; [done|]; intros j Hj; rewrite Q; by rewrite decide_False by lia|]].
  2: { unfold back. by rewrite Q, decide_True. }
  destruct K as [B1 B2 B3 B4 B5 B6 B7 B8 B9]. split; try done. split.
  - by apply pcbs_ok_upd_fd.
  - intros q Hq. rewrite Q. case_decide; [subst|]; exact (A2 q Hq).
  - rewrite Q. case_decide; [subst|]; exact A3.
  - intros q Hq. rewrite Q. case_decide; [subst|]; exact (A4 q Hq).
  - intros q fd' Hq Hfd'. rewrite F. rewrite decide_False by lia. by apply A5.
  - intros q fd' Hq Hfd'. rewrite F. case_decide; [done|]. by apply A6.
  - intros q Hq. rewrite Q. case_decide; [subst|]; exact (A7 q Hq).
Qed.

(** The running process, in the kernel. *)
Context `{TF : TrapFrame} `{TO : !TrapOk}.

Lemma kernel_ok_enter p s : kernel_ok p s -> kernel_ok p (enter s) /\ get_pcb (enter s) = Some p.
Proof.
  intros K. split.
  - exact (proj1 (moves_quiet p s (enter s) K eq_refl eq_refl eq_refl eq_refl eq_refl eq_refl eq_refl (ko_rtc _ _ K))).
  - pose proof depth_range. pose proof (ko_proc _ _ K). apply stack_pcb; [done|].
    change (k_esp (enter s)) with (esp0 (k_tss s) - depth). rewrite (ko_esp0 _ _ K).
    unfold _8MB, _8KB in *. lia.
Qed.

End Steps.

(** ** Interrupts and waiting *)

(** No key of the keyboard is the tab key. *)
Class TablessKeyboard `{D : Device} : Prop :=
  no_tab : forall l, u8 (dev_in l KEYBOARD_DATA_PORT) <> 15.

Section Waiting.
Context `{D : Device} `{TK : !TablessKeyboard} `{Sy : Symbols}.
Implicit Types s : kst.

Lemma keyboard_moves p s : kernel_ok p s -> moves p s (keyboard_handler_wrapper s).
Proof.
  intros K. unfold keyboard_handler_wrapper. set (s0 := set_if false s).
  assert (M0 : moves p s s0) by (apply moves_quiet; try done; apply K).
  eapply moves_trans; [exact M0|]. clear M0. intros K0. clearbody s0. clear K.
  pose proof (ko_kbd _ _ K0) as Hk. pose proof (ko_cursor _ _ K0) as Hc.
  destruct (spec_key_total (u8 (dev_in (k_io s0) KEYBOARD_DATA_PORT)) (ed_of (k_kbd s0)) (view s0))
    as [t Ht]; [apply u8_range|apply no_tab|].
  destruct (keyboard_handler_shows s0 t Hk Hc Ht) as (_ & C & E).
  destruct (keyboard_handler_event s0) as (_ & _ & Ek). specialize (Ek Hk).
  assert (W : kbd_wf (k_kbd (keyboard_handler s0))) by (rewrite Ek; apply key_event_wf; [done|apply u8_range]).
  revert C E W. generalize (keyboard_handler s0). intros s1 C E W.
  eapply moves_trans; [by apply moves_echoes|]. intros K1. apply moves_quiet; try done. apply K1.
Qed.

Lemma deliver_moves p i s : kernel_ok p s -> moves p s (deliver i s).
Proof.
  intros K. destruct i; [by apply keyboard_moves|].
  destruct (rtc_wrapper_frame s) as (E & _ & R). specialize (R (ko_rtc _ _ K)).
  pose proof (rtc_handler_ok s (ko_rtc _ _ K)) as H. unfold deliver, kernel_irqs.
  assert (H' : rtc_ok (rtc_handler_wrapper s)) by (unfold rtc_ok in *; by rewrite R).
  revert E H'. generalize (rtc_handler_wrapper s). intros s1 E H'.
  apply moves_quiet; try done; by rewrite E.
Qed.

(** What a wait ends in: the process goes on, or waits for ever. *)
Definition returns {A} (p : Z) (s : kst) (r : res A) : Prop :=
  match r with Ret _ s' => moves p s s' | Blocked _ => True | _ => False end.

Lemma spin_moves p s0 cond q s : moves p s0 s -> returns p s0 (spin_until cond q s).
Proof.
  revert s. induction q as [|i q IH]; intros s M; simpl.
  - split_if; [|by split_if]. eapply moves_trans; [exact M|]. intros K. apply moves_quiet; try done. apply K.
  - split_if; [|split_if; [|done]].
    + eapply moves_trans; [exact M|]. intros K. apply moves_quiet; try done. apply K.
    + apply IH. eapply moves_trans; [exact M|]. intros K.
      eapply (moves_trans p s (set_irqs q s)); [|by apply deliver_moves].
      apply moves_quiet; try done. apply K.
Qed.

Lemma returns_bind {A B} p s (c : K A) (k : A -> K B) :
  returns p s (c s) -> (forall a s', moves p s s' -> returns p s (k a s')) -> returns p s (kbind c k s).
Proof. intros H Hk. unfold kbind, returns in *. destruct (c s); try done. by apply Hk. Qed.

(** *** The drivers a descriptor can lead to *)

Lemma terminal_read_moves p fd buf n s :
  kernel_ok p s -> in_window buf 129 -> returns p s (terminal_read fd buf n s).
Proof.
  intros K W. unfold terminal_read. split_if; [by apply moves_refl|].
  unfold kbind at 1, kmod at 1. cbv beta.
  assert (M0 : moves p s (sti s)) by (apply moves_quiet; try done; apply K).
  unfold kbind at 1, busy_wait. pose proof (spin_moves p s entered (k_irqs (sti s)) (sti s) M0) as H.
  destruct (spin_until _ _ _) as [u s1| | | | | |]; try done. simpl in H. unfold kbind, kmod, kret.
  cbn [returns]. clear M0 u. set (i := scan_newline 128 (keyboard_buffer (k_kbd s1)) 0).
  assert (Hi : i + 1 <= 129).
  { unfold i. assert (G : forall k b j, scan_newline k b j <= j + Z.of_nat k).
    { induction k as [|k IH]; intros b j; simpl; [lia|]. split_if; [lia|]. specialize (IH b (j + 1)). lia. }
    specialize (G 128%nat (keyboard_buffer (k_kbd s1)) 0). lia. }
  clearbody i. set (m := strncpy buf _ (i + 1) (k_mem s1)).
  assert (C : only_changes (k_mem s1) m buf 129).
  { eapply only_changes_weaken; [..|apply strncpy_changes]; lia. }
  clearbody m. eapply moves_trans; [exact H|]. intros K1.
  eapply moves_trans; [exact (moves_window p s1 m buf 129 K1 W C)|]. intros K2.
  set (b' := memset 0 0 128 _). assert (L : length b' = 128%nat) by (apply memset_buffer; apply K2).
  clearbody b'. split; [|split; [|done]]; [|done].
  apply (kernel_ok_upd p (set_mem m s1)); try done; [apply K2| |apply K2].
  destruct (ko_kbd _ _ K2) as (A1 & A2 & A3). split; [exact A1|]. split; [exact L|exact A3].
Qed.

Lemma rtc_read_moves p fd buf n s : kernel_ok p s -> returns p s (rtc_read fd buf n s).
Proof.
  intros K. unfold rtc_read. split_if; [by apply moves_refl|].
  unfold kbind at 1, kmod at 1. cbv beta.
  assert (M0 : moves p s (sti s)) by (apply moves_quiet; try done; apply K).
  unfold kbind at 1, busy_wait.
  match goal with |- context [spin_until ?c _ _] => pose proof (spin_moves p s c (k_irqs (sti s)) (sti s) M0) as H end.
  destruct (spin_until _ _ _) as [u s1| | | | | |]; try done. simpl in H. unfold kbind, kmod, kret.
  cbn [returns]. eapply moves_trans; [exact H|]. intros K1. apply moves_quiet; try done. apply (ko_rtc _ _ K1).
Qed.

End Waiting.

(** ** The calls that return *)

Section Calls.
Context `{D : Device} `{TK : !TablessKeyboard} `{Sy : Symbols}.
Implicit Types s : kst.

Lemma kernel_running p s : kernel_ok p s -> running p (set_if true s).
Proof.
  intros [A1 A2 A3 [A4 A5] [B1 B2 B3 B4 B5] A7 A8 A9 [P1 P2 P3 P4 P5 P6 P7]].
  split; try done; try (apply P5; lia). pose proof (image_size_pos (k_mem s) (k_boot s)).
  unfold off_screen, VIDEO_END, VIDEO, _8MB, MB128 in *. simpl. lia.
Qed.

Lemma copy_name_changes k d buf i (m : vmem) n :
  0 <= i -> i + Z.of_nat k <= n -> only_changes m (copy_name k d buf i m).2 buf n.
Proof.
  revert i m. induction k as [|k IH]; intros i m Hi Hk; cbn [copy_name]; [apply only_changes_refl|].
  split_if; cbn [snd]; [apply only_changes_stb; lia|].
  eapply only_changes_trans; [|apply IH; lia]. apply only_changes_stb. lia.
Qed.

Lemma dir_read_moves p fd buf n s :
  kernel_ok p s -> get_pcb s = Some p -> 2 <= fd <= 7 -> 0 <= n -> in_window buf n ->
  f_op (fd_at p fd s) = F_dir -> returns p s (dir_read fd buf n s).
Proof.
  intros K Hg Hfd Hn W Ho. unfold dir_read, with_pcb. rewrite Hg.
  destruct (read_dentry_by_index _ s) as [d|]; [|by apply moves_refl].
  set (g := fun f => with_position (file_position f + 1) f).
  pose proof (copy_name_changes (Z.to_nat n) d buf 0 (k_mem (upd_fd p fd g s)) n ltac:(lia) ltac:(lia)) as C.
  destruct (copy_name _ _ _ _ _) as [i m]. simpl in C. cbn [returns].
  apply (moves_trans p s (upd_fd p fd g s)).
  - apply moves_upd_fd; [done|done|]. intros _. unfold g. cbn [f_op with_position]. rewrite Ho. apply u32_range.
  - intros K1. by apply (moves_window p _ m buf n).
Qed.

Lemma file_read_moves p fd buf n s :
  kernel_ok p s -> get_pcb s = Some p -> 2 <= fd <= 7 -> 0 <= n -> in_window buf n ->
  flag (fd_at p fd s) <> 0 -> f_op (fd_at p fd s) = F_file -> returns p s (file_read fd buf n s).
Proof.
  intros K Hg Hfd Hn W Hf Ho. pose proof (pr_fds _ _ (ko_procs _ _ K) p fd (ko_proc _ _ K) Hfd Hf) as H.
  rewrite Ho in H. destruct H as [Hi Hp]. pose proof (kernel_running p s K) as R.
  set (nd := fd_inode (fd_at p fd s)) in *. set (q := file_position (fd_at p fd s)) in *.
  assert (Wk : in_window buf (Z.min n (file_len (k_mem s) (k_boot s) nd - q)))
    by (destruct W as (W1 & W2 & W3); unfold in_window; lia).
  destruct (file_read_ok s p fd nd q buf n) as (m & E & _ & C & _).
  - split; try done; [apply (ko_procs _ _ K)|lia|apply (ko_mem _ _ K)].
  - destruct W as (W1 & W2 & W3). unfold MB128, MB132 in *. lia.
  - split; [exact (window_region p _ _ _ R Wk)|exact (window_image p _ _ _ R Wk)].
  - rewrite E. cbn [returns]. eapply moves_trans; [exact (moves_window p s m buf _ K Wk C)|].
    intros K1. apply moves_upd_fd; [done|done|]. intros _.
    pose proof (below_kernel p s (set_mem m s) (proj1 (ko_proc _ _ K)) (window_below p s m buf _ K Wk C)) as Sk.
    destruct (mem_ok_same _ _ _ Sk (ko_mem _ _ K)) as [_ Im]. pose proof (mo_wf _ _ (ko_mem _ _ K)) as Hw.
    change (fd_at p fd (set_mem m s)) with (fd_at p fd s). cbn [f_op with_position fd_inode file_position].
    rewrite Ho. fold nd. change (k_mem (set_mem m s)) with m in *. change (k_boot (set_mem m s)) with (k_boot s).
    rewrite (image_header _ _ _ Hw Im), (same_image_len _ _ _ _ Hw Im Hi). split; [done|].
    pose proof (ld32_range (k_mem s) (inode_addr (k_boot s) nd)). unfold file_len in *.
    rewrite u32_small by lia. lia.
Qed.

(** What a pointer argument of [read] must leave room for: the terminal stores up to 129
    bytes whatever the count. *)
Definition read_buf (buf n : Z) : Prop := 0 <= n /\ in_window buf (Z.max 129 n).

Lemma sys_read_moves p fd buf n s :
  kernel_ok p s -> get_pcb s = Some p -> read_buf buf n -> returns p s (sys_read fd buf n s).
Proof.
  intros K Hg [Hn W]. assert (W1 : in_window buf 129 /\ in_window buf n)
    by (destruct W as (?&?&?); unfold in_window; lia). destruct W1 as [W1 W2].
  unfold sys_read. destruct (Z.ltb_spec fd 0); [by apply moves_refl|].
  destruct (Z.eqb_spec fd 1); [by apply moves_refl|]. destruct (Z.ltb_spec 7 fd); [by apply moves_refl|].
  unfold with_pcb. rewrite Hg. destruct (Z.eqb_spec (flag (fd_at p fd s)) 0) as [Hf|Hf]; [by apply moves_refl|].
  destruct (Z.eq_dec fd 0) as [->|].
  { pose proof (ko_proc _ _ K). destruct (pr_std _ _ (ko_procs _ _ K) p 0) as [_ ->]; [lia|lia|].
    by apply terminal_read_moves. }
  pose proof (pr_fds _ _ (ko_procs _ _ K) p fd (ko_proc _ _ K) ltac:(lia) Hf) as Hop.
  destruct (f_op (fd_at p fd s)) eqn:Ho; [done|by apply terminal_read_moves|by apply rtc_read_moves| |].
  - apply dir_read_moves; done || lia.
  - apply file_read_moves; done || lia.
Qed.

(** Text for the terminal: in the program's page, without tabs. *)
Definition write_buf (s : kst) (buf n : Z) : Prop :=
  n <= 0 \/ in_window buf n /\ Forall (fun c => c <> 9) (bytes_at (k_mem s) buf (Z.to_nat n)).

Lemma terminal_write_moves p fd buf n s :
  kernel_ok p s -> write_buf s buf n -> returns p s (lift (terminal_write fd buf n) s).
Proof.
  intros K Hb. unfold lift. destruct (Z.leb_spec n 0) as [Hn|Hn].
  { unfold terminal_write. rewrite (proj2 (Z.leb_le n 0)) by done. cbn [orb returns].
    apply moves_quiet; try done. apply K. }
  destruct Hb as [|[W Ht]]; [lia|]. pose proof (kernel_running p s K) as R. pose proof W as (W1 & _ & _).
  destruct (spec_puts_total _ (view s) Ht) as [t Hs]. unfold MB128 in W1.
  destruct (terminal_write_ok fd buf n s t) as (s' & -> & _ & C & Dr); try done; [lia|apply K| |].
  { exact (window_apart_screen p _ buf n R W). }
  cbn [returns]. apply (moves_trans p s (set_if true s)); [apply moves_quiet; try done; apply K|].
  intros K1. by apply moves_draws.
Qed.

Lemma rtc_write_moves p fd buf n s : kernel_ok p s -> returns p s (lift (rtc_write fd buf n) s).
Proof.
  intros K. unfold lift. pose proof (rtc_write_ok fd buf n s (ko_rtc _ _ K)) as H.
  destruct (rtc_write_cases fd buf n s) as [(_ & _ & _ & E)|[_ E]]; rewrite E in *; cbn [returns snd] in *;
    [by apply moves_quiet|by apply moves_refl].
Qed.

Lemma sys_write_moves p fd buf n s :
  kernel_ok p s -> get_pcb s = Some p -> write_buf s buf n -> returns p s (sys_write fd buf n s).
Proof.
  intros K Hg Hb. unfold sys_write, with_pcb. rewrite Hg. cbv zeta.
  destruct (Z.eqb_spec (flag (fd_at p fd s)) 0) as [Hf|Hf]; [by apply moves_refl|].
  destruct ((1 <? fd) && (fd <=? 7)) eqn:E.
  - apply returns_bind; [|intros; done]. pose proof (pr_fds _ _ (ko_procs _ _ K) p fd (ko_proc _ _ K) ltac:(lia) Hf) as H.
    destruct (f_op (fd_at p fd s)); [done|by apply terminal_write_moves|by apply rtc_write_moves|by apply moves_refl|by apply moves_refl].
  - destruct (Z.eqb_spec fd 0); [by apply moves_refl|]. destruct (Z.eqb_spec fd 1) as [->|]; [|by apply moves_refl].
    pose proof (ko_proc _ _ K). destruct (pr_std _ _ (ko_procs _ _ K) p 1) as [_ ->]; [lia|lia|].
    by apply terminal_write_moves.
Qed.

Lemma sys_close_moves p fd s : kernel_ok p s -> get_pcb s = Some p -> returns p s (sys_close fd s).
Proof.
  intros K Hg. unfold sys_close. destruct ((fd <=? 1) || (8 <=? fd)) eqn:E; [by apply moves_refl|].
  unfold with_pcb. rewrite Hg. split_if; [by apply moves_refl|]. apply moves_upd_fd; [done|lia|by intros []].
Qed.

Lemma sys_open_moves p a s : kernel_ok p s -> get_pcb s = Some p -> returns p s (sys_open a s).
Proof.
  intros K Hg. unfold sys_open. destruct (read_dentry_by_name _ s) as [d|] eqn:Hd; [|by apply moves_refl].
  assert (Al : forall g k, (forall f, fd_ok (k_mem s) (k_boot s) (g f)) ->
    (forall i t, moves p s t -> returns p s (k i t)) -> returns p s (alloc_fd g k s)).
  { intros g k Hg' Hk. unfold alloc_fd, with_pcb. rewrite Hg.
    pose proof (free_fd_spec 6 2 (file_desc_tb (pcb_at p s))) as F.
    destruct (free_fd 6 2 _) as [i|]; [|by apply moves_refl]. destruct F as (Hi & _).
    apply Hk, moves_upd_fd; [done|lia|apply Hg']. }
  destruct (d_ft d =? 0); [|destruct (d_ft d =? 1); [|destruct (Z.eqb_spec (d_ft d) 2) as [E2|]]].
  - apply Al; [done|]. intros i t M. unfold kbind, lift, kret.
    pose proof (rtc_open_ok a t (ko_rtc _ _ (proj1 M))) as H. destruct (rtc_open_frame a t) as [r E].
    destruct (rtc_open a t) as [v t']. simpl in E, H. subst t'. cbn [returns].
    eapply moves_trans; [exact M|]. intros K1. by apply moves_quiet.
  - apply Al; [|done]. intros f _. exact (proj1 (u32_range 0)).
  - apply Al; [|done]. intros f _. destruct (mo_files _ _ (ko_mem _ _ K) _ d Hd E2) as [Hi _].
    split; [split; [apply (ld32_range d)|exact Hi]|].
    pose proof (ld32_range (k_mem s) (inode_addr (k_boot s) (d_ind d))) as [Hl _]. split; [done|exact Hl].
  - by apply moves_refl.
Qed.

Lemma sys_getargs_moves p buf n s :
  kernel_ok p s -> get_pcb s = Some p -> n <= 0 \/ n <= 8000 /\ in_window buf n -> returns p s (sys_getargs buf n s).
Proof.
  intros K Hg Hb. destruct (Z.leb_spec n 0) as [Hn|Hn].
  { unfold sys_getargs. rewrite (proj2 (Z.leb_le n 0)), orb_true_r by done. by apply moves_refl. }
  destruct Hb as [|[H8 W]]; [lia|]. pose proof W as (W1 & _ & W3). unfold MB128, MB132 in W1, W3.
  pose proof (ko_proc _ _ K) as Hp. destruct (pr_args _ _ (ko_procs _ _ K) p ltac:(lia)) as (l & C & Hl).
  pose proof (kernel_running p s K) as R.
  destruct (decide (l <> [] /\ Z.of_nat (length l) < n)) as [[Hne Hlt]|Hno].
  - destruct (getargs_copy s p l buf n) as (m & -> & _ & Ch); try done; try lia.
    { exact (window_region p _ buf n R W). }
    { eapply (window_apart p (set_if true s)); [done|done|..]; unfold after_pcb, _8MB, _8KB; lia. }
    cbn [returns]. by apply (moves_window p s m buf n).
  - unfold sys_getargs, with_pcb. rewrite (proj2 (Z.eqb_neq buf 0)), (proj2 (Z.leb_gt n 0)) by lia. cbn [orb]. rewrite Hg.
    pose proof (args_cstr p s l C Hl) as C'. rewrite (strlen_cstr _ l 4096) by (done || lia).
    split_if; [by apply moves_refl|]. pose proof C' as (_ & _ & C0).
    destruct l as [|c l]; [by rewrite (C0 : args_byte p 0 s = 0) in *|].
    assert (n <= Z.of_nat (length (c :: l))).
    { destruct (Z.le_gt_cases n (Z.of_nat (length (c :: l)))); [done|]. exfalso. apply Hno. split; [done|lia]. }
    rewrite (proj2 (Z.leb_le n _)) by done. by apply moves_refl.
Qed.

Lemma sys_vidmap_moves p a s :
  kernel_ok p s -> a < MB128 \/ MB132 < a \/ in_window a 4 -> returns p s (lift (sys_vidmap a) s).
Proof.
  intros K Ha. unfold lift, sys_vidmap. destruct ((a <? MB128) || (MB132 <? a)) eqn:E; [by apply moves_refl|].
  cbn [returns]. apply (moves_window p s _ a 4); [done| |apply only_changes_st32].
  destruct Ha as [|[|]]; [lia|lia|done].
Qed.

End Calls.

(** ** Commands *)

Section Commands.

(** Skipping spaces ends at the first character that is none. *)
Lemma skip_stops fuel (cmd : Z -> Z) i j :
  i <= j -> j - i <= Z.of_nat fuel -> cmd j <> 32 ->
  exists r, while fuel (fun i => cmd i =? 32) (fun i => i + 1) i = Some r /\ i <= r.
Proof.
  revert i. induction fuel as [|fuel IH]; intros i Hi Hf Hj; simpl.
  - replace j with i in Hj by lia. rewrite (proj2 (Z.eqb_neq _ _)) by done. by exists i.
  - destruct (Z.eqb_spec (cmd i) 32) as [E|E]; [|by exists i].
    destruct (IH (i + 1)) as (r & Er & Hr); [destruct (Z.eq_dec i j); [by subst|lia]|lia|done|].
    exists r. split; [done|lia].
Qed.

Lemma copy_args_padded k cmd i acc :
  (forall x, 0 <= cmd x < 256) -> Forall (fun c => 0 < c < 256) acc -> (length acc + k <= 127)%nat ->
  exists l, copy_args k cmd i (Z.of_nat (length acc)) (padded 128 acc) = padded 128 l /\
    (length l < 128)%nat /\ Forall (fun c => 0 < c < 256) l.
Proof.
  intros Hc. revert acc. induction k as [|k IH]; intros acc Ha Hl; cbn [copy_args].
  - exists acc. split_and!; [done|lia|done].
  - destruct ((cmd _ =? 10) || _) eqn:E; [exists acc; split_and!; [done|lia|done]|].
    rewrite padded_snoc by (auto || lia).
    replace (Z.of_nat (length acc) + 1) with (Z.of_nat (length (acc ++ [cmd (i + Z.of_nat (length acc))])))
      by (rewrite length_app; simpl; lia).
    apply IH; [|rewrite length_app; simpl; lia]. apply Forall_app. split; [done|].
    repeat constructor; [|apply Hc]. specialize (Hc (i + Z.of_nat (length acc))). lia.
Qed.

(** The argument string of any command is shorter than its buffer. *)
Lemma parse_args_padded cmd i j :
  (forall x, 0 <= cmd x < 256) -> 1 <= i <= 32 -> 32 <= j < 128 -> cmd j <> 32 ->
  exists l, parse_args 4096 cmd i = Some (padded 128 l) /\ (length l < 128)%nat /\
    Forall (fun c => 0 < c < 256) l.
Proof.
  intros Hc Hi Hj Hs. unfold parse_args.
  destruct (cmd i =? 32); [|exists []; split_and!; [done|simpl; lia|constructor]].
  destruct (skip_stops 4096 cmd i j) as (r & -> & Hr); [lia|lia|done|].
  destruct (copy_args_padded (Z.to_nat (128 - r)) cmd r [] Hc ltac:(constructor)) as (l & E & Hl); [simpl; lia|].
  exists l. split; [|done]. f_equal. exact E.
Qed.

End Commands.

(** ** A process starts *)

Section Start.
Context `{D : Device} `{Sy : Symbols}.
Implicit Types s : kst.

Lemma only_frame_below i m m' : only_frame i m m' -> 0 <= i < 6 -> forall a, VIDEO_END <= a < frame i -> ldb m' a = ldb m a.
Proof. intros O Hi a Ha. apply O; unfold VIDEO_END, frame, MB128 in *; lia. Qed.

(** What the start of process [i] makes of a kernel in order, when the processes below
    [i] are the running ones ([i = 0]: none). *)
Lemma started_kernel i s s' ebp a :
  started s s' i ebp a -> 0 <= i < 6 -> (length a < 128)%nat ->
  upage (k_mem s') = frame i -> paging_on (k_mem s') = true -> kernel_pages (k_pg s') (frame i + 0x87) ->
  only_frame i (k_mem s) (k_mem s') ->
  mem_ok (k_mem s) (k_boot s) -> cursor_ok s -> kbd_wf (k_kbd s) -> rtc_ok s ->
  (forall q fd, 0 <= q < 6 -> 2 <= fd <= 7 -> fd_ok (k_mem s) (k_boot s) (fd_at q fd s)) ->
  (forall q, 0 <= q < 6 -> q <> i -> active (pcb_at q s) <> 0 <-> q <= i) ->
  (1 <= i -> procs_ok (i - 1) s /\ on_stack (i - 1) (k_esp s)) ->
  kernel_ok i s' /\ below i s s' /\ back i s' = (k_esp s, ebp).
Proof.
  intros St Hi Ha Hu Hp Hg Hf Hm Hc Hk Hr Hfd Hact Hpr.
  pose proof (only_frame_below i _ _ Hf Hi) as Bm.
  assert (B : below i s s') by (split; [done|]; intros j Hj; apply (st_others _ _ _ _ _ St); lia).
  pose proof (below_kernel i s s' (proj1 Hi) B) as Sk.
  destruct (st_devices _ _ _ _ _ St) as (_ & _ & Q1 & _ & Q2 & Q3 & Q4 & _).
  destruct (mem_ok_same _ _ _ Sk Hm) as [Hm' Im].
  split; [|split; [done|unfold back; by rewrite (st_esp _ _ _ _ _ St), (st_ebp _ _ _ _ _ St)]].
  assert (O : forall j, j <> i -> pcb_at j s' = pcb_at j s) by apply (st_others _ _ _ _ _ St).
  assert (Fo : forall q fd, q <> i -> fd_at q fd s' = fd_at q fd s) by (intros; unfold fd_at; by rewrite O).
  split; try done.
  - by rewrite (st_esp0 _ _ _ _ _ St).
  - by rewrite Q4.
  - unfold cursor_ok. by rewrite Q1.
  - by rewrite Q3.
  - unfold rtc_ok. by rewrite Q2.
  - destruct St. split.
    + done.
    + intros q Hq. destruct (Z.eq_dec q i) as [->|Hne]; [rewrite st_active; lia|]. rewrite O by done. by apply Hact.
    + destruct (Z.eq_dec 0 i) as [<-|Hne]; [done|]. rewrite O by done. by apply Hpr; lia.
    + intros q Hq. destruct (Hpr ltac:(lia)) as [Pr Os]. destruct (Z.eq_dec q i) as [->|Hne].
      * rewrite st_parent, st_esp. rewrite u32_small by lia. done.
      * rewrite O by done. apply (pr_chain _ _ Pr). lia.
    + intros q fd Hq Hfd2. destruct (Z.eq_dec q i) as [->|Hne]; [by apply st_std|]. rewrite Fo by done.
      apply (pr_std (i - 1) s); [apply Hpr; lia|lia|lia].
    + intros q fd Hq Hfd2. rewrite Q4. eapply fd_ok_image; [apply Hm|exact Im|].
      destruct (Z.eq_dec q i) as [->|Hne]; [|rewrite Fo by done; by apply Hfd].
      destruct (Z.le_gt_cases fd 5); [intros H0; by rewrite st_closed in H0 by lia|].
      rewrite st_kept by lia. apply Hfd; lia.
    + intros q Hq. destruct (Z.eq_dec q i) as [->|Hne]; [by exists a|]. rewrite O by done.
      apply (pr_args (i - 1) s); [apply Hpr; lia|lia].
Qed.

End Start.

(** ** The calls that leave *)

(** What a system call of process [p] can come to: it returns; the process waits; the
    program it started runs as process [p + 1], with the way back on record; it ended
    and its parent goes on where it waited; or the first shell ended and runs again. *)
Definition outcome `{Symbols} (p ebp : Z) (s : kst) (r : res Z) : Prop :=
  match r with
  | Ret _ s' => moves p s s'
  | Blocked _ => True
  | EnterUser _ _ s' =>
      (kernel_ok (p + 1) s' /\ below (p + 1) s s' /\ back (p + 1) s' = (k_esp s, ebp)) \/
      (p = 0 /\ kernel_ok 0 s' /\ below 0 s s')
  | Resume esp ebp' _ s' =>
      1 <= p /\ kernel_ok (p - 1) s' /\ below p s s' /\ (esp, ebp') = back p s
  | NullDeref _ | BadJump _ | NoFuel => False
  end.

(** What a process sees of its call: it goes on, waits, starts a program or ends; the
    kernel is never stuck. *)
Definition answered `{Symbols} (p : Z) (r : res Z) : Prop :=
  match r with
  | Ret _ s' => kernel_ok p s'
  | Blocked _ => True
  | EnterUser _ _ s' => (p < 5 /\ kernel_ok (p + 1) s') \/ (p = 0 /\ kernel_ok 0 s')
  | Resume _ _ _ s' => 1 <= p /\ kernel_ok (p - 1) s'
  | NullDeref _ | BadJump _ | NoFuel => False
  end.

Section Leaving.
Context `{D : Device} `{TK : !TablessKeyboard} `{Sy : Symbols} `{AS : !AlignedSymbols}.
Implicit Types s : kst.

Lemma returns_outcome p ebp s r : returns p s r -> outcome p ebp s r.
Proof. by destruct r. Qed.

Lemma on_stack_pcb p s : 0 <= p < 6 -> on_stack p (k_esp s) -> get_pcb s = Some p.
Proof. intros Hp H. by apply stack_pcb. Qed.

(** [halt] in a process with a parent. *)
Lemma halt_back fuel ebp ebp' status p s :
  kernel_ok p s -> on_stack p (k_esp s) -> 1 <= p -> outcome p ebp' s (sys_halt fuel ebp status s).
Proof.
  intros K Hs Hp. pose proof (ko_proc _ _ K) as Hp6. pose proof (ko_procs _ _ K) as Pr.
  destruct (halt_parent (sys_execute fuel ebp) status s p _ (on_stack_pcb p s Hp6 Hs) ltac:(lia)
    (proj1 (pr_chain _ _ Pr p ltac:(lia))) (pr_sized _ _ Pr) (ko_pages _ _ K))
    as (s' & E & Hu & Hg & Hk & Ht & C & Hph & Es).
  unfold sys_halt. rewrite E. cbn [outcome]. split; [done|].
  assert (Bm : forall a, 0 <= a < MB128 -> ldb (k_mem s') a = ldb (k_mem s) a) by (intros; by apply kernel_ldb).
  assert (O : forall j, j <> p -> pcb_at j s' = pcb_at j s) by apply (cp_others _ _ _ C).
  assert (B : below p s s').
  { split; [|intros; apply O; lia]. intros a Ha. apply Bm. unfold VIDEO_END, frame, MB128 in *. lia. }
  assert (Qb : k_boot s' = k_boot s) by (by rewrite Es).
  destruct (mem_ok_same _ _ _ (below_kernel p s s' (proj1 Hp6) B) (ko_mem _ _ K)) as [Hm Im].
  split; [|split; [done|done]]. split; try done.
  - lia.
  - by rewrite Ht.
  - by rewrite Qb.
  - rewrite Es. apply (ko_cursor _ _ K).
  - rewrite Es. apply (ko_kbd _ _ K).
  - rewrite Es. apply (ko_rtc _ _ K).
  - destruct Pr as [A1 A2 A3 A4 A5 A6 A7]. destruct C as [C1 C2 C3 _ _ _ C7].
    assert (Fo : forall q fd, q <> p -> fd_at q fd s' = fd_at q fd s) by (intros; unfold fd_at; by rewrite O).
    split; [done|..].
    + intros q Hq. destruct (Z.eq_dec q p) as [->|Hne]; [rewrite C1; lia|]. rewrite O by done.
      specialize (A2 q Hq). lia.
    + by rewrite O by lia.
    + intros q Hq. rewrite O by lia. apply A4. lia.
    + intros q fd Hq Hfd. rewrite Fo by lia. apply A5; lia.
    + intros q fd Hq Hfd. rewrite Qb. eapply fd_ok_image; [apply (ko_mem _ _ K)|exact Im|].
      destruct (Z.eq_dec q p) as [->|Hne]; [rewrite C3 by lia|rewrite Fo by done]; by apply A6.
    + intros q Hq. rewrite O by lia. apply A7. lia.
Qed.

(** [halt] in the first shell. *)
Lemma halt_first fuel ebp ebp' status s :
  kernel_ok 0 s -> on_stack 0 (k_esp s) -> outcome 0 ebp' s (sys_halt (S fuel) ebp status s).
Proof.
  intros K Hs. pose proof (ko_procs _ _ K) as Pr. destruct (ko_mem _ _ K) as [Hw Hh Hl Hf (S1 & S2 & name & d & Hc & Hin)].
  assert (Ho : off_screen (k_boot s) (image_size (k_mem s) (k_boot s))).
  { pose proof (image_size_pos (k_mem s) (k_boot s)). unfold off_screen, VIDEO_END, VIDEO, _8MB, MB128 in *. lia. }
  pose proof (plain_command_eq (set_mem (k_mem s) kst0) s _ _ _ (fun j _ => eq_refl) Hc) as Hc'.
  assert (Hos : off_screen sym_shell 4300) by (unfold off_screen, VIDEO_END, VIDEO, _8MB, MB128 in *; lia).
  destruct (halt_root fuel ebp status s name [] d _ (on_stack_pcb 0 s ltac:(lia) Hs) (pr_sized _ _ Pr)
    (pr_root _ _ Pr) (ko_pages _ _ K) Hc' (Nat.lt_0_succ _) (Forall_nil_2 _) Hin Ho Hos)
    as (s1 & s' & E & R & St & U & Pg & Kp & _ & M).
  rewrite E. cbn [outcome]. right. split; [done|].
  destruct (ro_rest _ _ R) as (_ & Qb & _ & Qk & Qr & _).
  assert (B1 : below 0 s s1).
  { split; [|lia]. intros a Ha. rewrite <- (Z.add_0_r a). eapply (only_changes_ldb _ _ _ _ a 1); [apply R| |lia].
    apply apart_kernel; unfold VIDEO, VIDEO_END, MB128, frame in *; lia. }
  destruct (mem_ok_same _ _ _ (below_kernel 0 s s1 ltac:(lia) B1) (ko_mem _ _ K)) as [Hm Im].
  destruct (started_kernel 0 s1 s' ebp [] St) as (K' & B' & _); rewrite ?Qb; try done; [simpl; lia|..].
  - unfold cursor_ok. rewrite (ro_con _ _ R). simpl. lia.
  - rewrite Qk. apply K.
  - unfold rtc_ok. rewrite Qr. apply K.
  - intros q fd Hq Hfd. eapply fd_ok_image; [exact Hw|exact Im|].
    destruct (Z.eq_dec q 0) as [->|Hne]; [rewrite (ro_fds _ _ R) by lia|unfold fd_at; rewrite (ro_others _ _ R) by done];
      by apply (pr_fds _ _ Pr).
  - intros q Hq Hne. rewrite (ro_others _ _ R) by done. by apply (pr_active _ _ Pr).
  - split; [done|]. by etrans.
Qed.

Lemma halt_outcome fuel ebp ebp' status p s :
  kernel_ok p s -> on_stack p (k_esp s) -> outcome p ebp' s (sys_halt (S fuel) ebp status s).
Proof.
  intros K Hs. pose proof (ko_proc _ _ K). destruct (Z.eq_dec p 0) as [->|]; [by apply halt_first|].
  apply halt_back; [done|done|lia].
Qed.

(** Starting a program: in the next process, or not at all when there are six. *)
Lemma launch_outcome p ebp s inode entry argl :
  kernel_ok p s -> on_stack p (k_esp s) -> 0 <= inode < nnod (k_mem s) (k_boot s) ->
  file_len (k_mem s) (k_boot s) inode <= PROG_MAX ->
  (length argl < 128)%nat -> Forall (fun c => 0 < c < 256) argl ->
  outcome p ebp s (launch ebp inode entry (padded 128 argl) s).
Proof.
  intros K Hs Hi Hl La Hf. pose proof (ko_proc _ _ K) as Hp. pose proof (ko_procs _ _ K) as Pr.
  destruct (find_pcb_spec 6 0 (k_pcbs s)) as (F1 & F2 & F3).
  assert (Hf0 : find_pcb 6 0 (k_pcbs s) = p + 1).
  { assert (A : forall j, 0 <= j < 6 -> active (zget pcb0 (k_pcbs s) j) <> 0 <-> j <= p) by apply (pr_active _ _ Pr).
    set (i := find_pcb 6 0 (k_pcbs s)) in *. clearbody i. simpl in F1, F3.
    destruct (Z.lt_trichotomy i (p + 1)) as [H|[H|H]]; [|done|].
    - exfalso. specialize (F3 ltac:(lia)). by apply (A i ltac:(lia)); [lia|].
    - exfalso. destruct (Z.eq_dec (p + 1) 6); [lia|]. apply (F2 (p + 1)); [lia|].
      destruct (Z.eq_dec (active (zget pcb0 (k_pcbs s) (p + 1))) 0) as [|Hne]; [done|]. apply A in Hne; lia. }
  destruct (Z.eq_dec p 5) as [->|H5].
  { unfold launch. rewrite Hf0. change (5 + 1 =? MAX_PROCESSES) with true. by apply moves_refl. }
  destruct (launch_ok s _ inode entry argl ebp (pr_sized _ _ Pr) (ko_pages _ _ K)) as (s' & E & St & U & Pg & Kp & _ & M);
    rewrite ?Hf0; try done; try apply (ko_mem _ _ K); [lia|].
  rewrite Hf0 in *. rewrite E. cbn [outcome]. left.
  apply (started_kernel (p + 1) s s' ebp argl); try done; try apply K; [lia| |].
  - intros q Hq Hne. rewrite (pr_active _ _ Pr q Hq). lia.
  - intros _. by replace (p + 1 - 1) with p by lia.
Qed.

(** [execute] with a command line that has a character other than a space behind its
    first 32. *)
Lemma execute_outcome fuel ebp c p s j :
  kernel_ok p s -> on_stack p (k_esp s) -> 32 <= j < 128 -> ldb (k_mem s) (c + j) <> 32 ->
  outcome p ebp s (sys_execute (S (S fuel)) ebp c s).
Proof.
  intros K Hs Hj Hc. cbn [sys_execute]. unfold execute_body.
  pose proof (first_word_scan 32 (at_ (k_mem s) c) 0 (replicate 32 0) ltac:(lia) eq_refl) as Sc.
  destruct (first_word 32 _ 0 _) as [i name]. destruct Sc as (_ & S2 & _ & _ & S5).
  destruct (Z.eqb_spec (zget 0 name 0) 0) as [H0|H0]; [by apply moves_refl|].
  assert (Hi : 1 <= i <= 32).
  { destruct (Z.eq_dec i 0) as [->|]; [|lia]. exfalso. apply H0. by rewrite S5. }
  unfold kbind at 1. destruct (Z.eqb_spec (strncmp (at_ name 0) (at_ quit_str 0) 4) 0) as [Hq|Hq].
  { pose proof (halt_outcome fuel ebp ebp 0 p s K Hs) as H. unfold sys_halt in H.
    assert (Hr : forall v t, halt_body (sys_execute (S fuel) ebp) 0 s <> Ret v t).
    { intros v t Ev. unfold halt_body, with_pcb in Ev. rewrite (on_stack_pcb p s (ko_proc _ _ K) Hs) in Ev.
      unfold kbind in Ev. by destruct (if _ =? _ then _ else _). }
    destruct (halt_body _ 0 s) as [v t| | | | | |]; try exact H. by destruct (Hr v t). }
  unfold kret. destruct (parse_args_padded (at_ (k_mem s) c) i j) as (argl & -> & La & Lf); try done; try lia.
  { intros x. apply (ldb_range (k_mem s)). }
  destruct (read_dentry_by_name _ s) as [d|] eqn:Hd; [|by apply moves_refl].
  destruct (Z.eqb_spec (d_ft d) 2) as [Ht|Ht]; cbn [negb]; [|by apply moves_refl].
  destruct (mo_files _ _ (ko_mem _ _ K) _ d Hd Ht) as [Hin He].
  assert (Hin0 : 0 <= d_ind d < nnod (k_mem s) (k_boot s)) by (split; [apply (ld32_range d)|done]).
  destruct (read_header_any (k_mem s) (k_boot s) (d_ind d) (mo_wf _ _ (ko_mem _ _ K)) Hin0) as (exe & -> & X1 & X2).
  destruct (Z.eqb_spec (strncmp (at_ exe 0) (at_ check_exe 0) 4) 0) as [Hx|Hx]; cbn [negb]; [|by apply moves_refl].
  assert (H4 : 4 <= file_len (k_mem s) (k_boot s) (d_ind d)).
  { destruct (Z.le_gt_cases 4 (file_len (k_mem s) (k_boot s) (d_ind d))); [done|]. exfalso.
    apply (magic_bytes exe Hx). apply X2. lia. }
  apply (header_magic (k_mem s) (k_boot s) (d_ind d)) in Hx; [|intros; apply X1; lia].
  apply launch_outcome; try done. by apply (He H4).
Qed.

End Leaving.

(** ** Runs of the system *)

(** The running process, as the TSS has it. *)
Definition current (s : kst) : Z := (_8MB - 4 - esp0 (k_tss s)) / _8KB.

(** Arguments a program may pass: pointers into its page with room for what the call
    stores there, text without tabs, a command line that does not end in a hundred spaces,
    and a call number the kernel has an answer for (it has none for 9). *)
Definition args_ok (s : kst) (eax ebx ecx edx : Z) : Prop :=
  match eax with
  | 2 => exists j, 32 <= j < 128 /\ ldb (k_mem s) (ebx + j) <> 32
  | 3 => read_buf ecx (i32 edx)
  | 4 => write_buf s ecx (i32 edx)
  | 7 => i32 ecx <= 0 \/ i32 ecx <= 8000 /\ in_window ebx (i32 ecx)
  | 8 => ebx < MB128 \/ MB132 < ebx \/ in_window ebx 4
  | 9 => False
  | _ => 0 <= eax < 4294967296
  end.

Section Runs.
Context `{D : Device} `{TK : !TablessKeyboard} `{Sy : Symbols} `{AS : !AlignedSymbols}.
Context `{TF : TrapFrame} `{TO : !TrapOk}.
Implicit Types s : kst.

(** What can happen while a process runs in user mode: it stores a byte where the
    processor lets it, an interrupt comes, or it makes a system call, which returns, starts
    a program or ends one (the parent then goes on behind its trap, on its own stack). *)
Inductive step (s : kst) : kst -> Prop :=
| step_store a v acc :
    walk (k_pg s) a = Some acc -> acc_user acc = true -> acc_write acc = true ->
    step s (set_mem (stb (k_mem s) a v) s)
| step_interrupt i q : k_irqs s = i :: q -> step s (deliver i (set_irqs q s))
| step_return eax ebx ecx edx v s' :
    args_ok s eax (u32 ebx) (u32 ecx) (u32 edx) -> int80 eax ebx ecx edx s = Ret v s' -> step s s'
| step_enter eax ebx ecx edx eip esp s' :
    args_ok s eax (u32 ebx) (u32 ecx) (u32 edx) -> int80 eax ebx ecx edx s = EnterUser eip esp s' ->
    step s s'
| step_resume eax ebx ecx edx esp ebp v s' user_esp :
    args_ok s eax (u32 ebx) (u32 ecx) (u32 edx) -> int80 eax ebx ecx edx s = Resume esp ebp v s' ->
    step s (set_if true (set_esp user_esp s')).

Lemma current_ok p s : kernel_ok p s -> current s = p.
Proof.
  intros K. unfold current. rewrite (ko_esp0 _ _ K). unfold _8KB.
  replace (_8MB - 4 - (_8MB - p * 0x2000 - 4)) with (p * 0x2000) by lia. apply Z.div_mul. lia.
Qed.

(** Every call comes to one of the outcomes. *)
Lemma call_outcome p eax ebx ecx edx s :
  kernel_ok p s -> args_ok s eax (u32 ebx) (u32 ecx) (u32 edx) ->
  outcome p trap_ebp (enter s) (int80 eax ebx ecx edx s).
Proof.
  intros K Ha. destruct (kernel_ok_enter p s K) as [K' Hg]. pose proof (ko_proc _ _ K) as Hp.
  assert (Hs : on_stack p (k_esp (enter s))).
  { pose proof depth_range. change (k_esp (enter s)) with (esp0 (k_tss s) - depth). rewrite (ko_esp0 _ _ K).
    unfold on_stack, _8MB, _8KB in *. lia. }
  assert (L : forall r, outcome p trap_ebp (enter s) r -> outcome p trap_ebp (enter s) (leave (k_esp s) r)).
  { intros [v s'| | | | | |]; try done. cbn [leave outcome]. intros M. eapply moves_trans; [exact M|].
    intros K1. apply moves_quiet; try done. apply K1. }
  unfold int80. apply L. clear L. generalize dependent (u32 ebx). generalize dependent (u32 ecx).
  generalize dependent (u32 edx). clear ebx ecx edx. intros edx ecx ebx Ha.
  change (k_mem s) with (k_mem (enter s)) in Ha. unfold syscall_wrapper.
  destruct ((9 <? u32 eax) || (i32 eax <=? 0)) eqn:E; [by apply moves_refl|].
  destruct (Z.eqb_spec eax 1) as [->|N1]; [by apply halt_outcome|].
  destruct (Z.eqb_spec eax 2) as [->|N2]; [destruct Ha as (j & Hj & Hc); by apply (execute_outcome 0 _ _ _ _ j)|].
  destruct (Z.eqb_spec eax 3) as [->|N3]; [by apply returns_outcome, sys_read_moves|].
  destruct (Z.eqb_spec eax 4) as [->|N4]; [by apply returns_outcome, sys_write_moves|].
  destruct (Z.eqb_spec eax 5) as [->|N5]; [by apply returns_outcome, sys_open_moves|].
  destruct (Z.eqb_spec eax 6) as [->|N6]; [by apply returns_outcome, sys_close_moves|].
  destruct (Z.eqb_spec eax 7) as [->|N7]; [by apply returns_outcome, sys_getargs_moves|].
  destruct (Z.eqb_spec eax 8) as [->|N8]; [by apply returns_outcome, sys_vidmap_moves|].
  exfalso. assert (Hx : 0 <= eax < 4294967296 /\ eax <> 9).
  { destruct (Z.eq_dec eax 9) as [->|N9]; [done|]. split; [|done].
    unfold args_ok in Ha. repeat (case_match; try done; try lia). }
  rewrite u32_small in E by lia. destruct (Z.lt_ge_cases eax 2147483648); [rewrite i32_small in E by lia; lia|].
  lia.
Qed.

(** A byte the processor lets the program store is in its frame or on a video page. *)
Lemma store_moves p s a v acc :
  kernel_ok p s -> walk (k_pg s) a = Some acc -> acc_user acc = true ->
  moves p s (set_mem (stb (k_mem s) a v) s).
Proof.
  intros K Hw Hu. pose proof (ko_proc _ _ K) as Hp. destruct (ko_map _ _ K) as [Hg Hm].
  apply (walk_reach _ p) in Hw; [|done|apply K].
  assert (Ht : cell (k_mem s) a < VIDEO_END \/ frame p <= cell (k_mem s) a).
  { unfold cell; simpl. unfold tr. rewrite Hg, Hm. pose proof (u32_range a). unfold VIDEO_END, MB128, MB132, MB136 in *.
    destruct Hw; try congruence; unfold MB128, MB132 in *; repeat split_if; lia. }
  assert (B : below p s (set_mem (stb (k_mem s) a v) s)).
  { split; [|done]. intros b Hb. simpl. apply ldb_stb_other.
    change (cell (k_mem s) a <> tr (k_mem s) b).
    rewrite (tr_kernel _ b) by (unfold VIDEO_END, frame, MB128 in *; lia). lia. }
  split; [|done]. apply (kernel_ok_upd p s); try done; try apply K.
  eapply below_kernel; [apply Hp|exact B].
Qed.

(** What a step does to the running process and the ones below it. *)
Lemma step_ok p s s' :
  kernel_ok p s -> step s s' ->
  moves p s s' \/
  (kernel_ok (p + 1) s' /\ below (p + 1) s s' /\ back (p + 1) s' = (k_esp (enter s), trap_ebp)) \/
  (p = 0 /\ kernel_ok 0 s' /\ below 0 s s') \/
  (1 <= p /\ kernel_ok (p - 1) s' /\ below p s s').
Proof.
  intros K St. destruct St as [a v acc Hw Hu _|i q Hq|eax ebx ecx edx v s' Ha E|eax ebx ecx edx eip esp s' Ha E|
    eax ebx ecx edx esp ebp v s' ue Ha E].
  - left. by eapply store_moves.
  - left. apply (moves_trans p s (set_irqs q s)); [apply moves_quiet; try done; apply K|by apply deliver_moves].
  - left. pose proof (call_outcome p _ _ _ _ s K Ha) as H. by rewrite E in H.
  - right. pose proof (call_outcome p _ _ _ _ s K Ha) as H. rewrite E in H. destruct H as [H|H]; [by left|by right; left].
  - right; right; right. pose proof (call_outcome p _ _ _ _ s K Ha) as H. rewrite E in H.
    destruct H as (H1 & H2 & H3 & _). split; [done|].
    destruct (moves_quiet (p - 1) s' (set_if true (set_esp ue s')) H2) as (K' & _ & _); try done. apply H2.
Qed.

Lemma step_kernel_ok s s' : kernel_ok (current s) s -> step s s' -> kernel_ok (current s') s'.
Proof.
  intros K St. destruct (step_ok _ _ _ K St) as [[K' _]|[(K' & _)|[(_ & K' & _)|(_ & K' & _)]]];
    by rewrite (current_ok _ _ K').
Qed.

Lemma steps_kernel_ok s s' : kernel_ok (current s) s -> relations.rtc step s s' -> kernel_ok (current s') s'.
Proof. intros K St. induction St as [|s s1 s2 H _ IH]; [done|]. apply IH. by eapply step_kernel_ok. Qed.

(** *** The properties *)


(** A run in which process [p] waits: the processes above it run. *)
Definition runs_above (p : Z) : kst -> kst -> Prop := relations.rtc (fun s s' => step s s' /\ p < current s').

(** Throughout it, the invariant holds, and the waiting process is as it was. *)
Definition waiting (p : Z) (s s' : kst) : Prop :=
  exists q, p < q /\ kernel_ok q s' /\ below (p + 1) s s' /\ back (p + 1) s' = back (p + 1) s.

Lemma waiting_step p s s1 s2 :
  0 <= p -> waiting p s s1 -> step s1 s2 -> p < current s2 -> waiting p s s2.
Proof.
  intros Hp (q & Hq & K & B & E) St Hc.
  assert (Bk : forall r, p + 1 < r -> below r s1 s2 -> back (p + 1) s2 = back (p + 1) s).
  { intros r Hr [_ R]. rewrite <- E. unfold back. by rewrite R by lia. }
  assert (Bm : forall r, p + 1 <= r -> below r s1 s2 -> below (p + 1) s s2).
  { intros r Hr R. etrans; [exact B|]. by apply (below_mono r). }
  destruct (step_ok q s1 s2 K St) as [(K' & B' & E')|[(K' & B' & _)|[(-> & _)|(_ & K' & B')]]]; [| |lia|].
  - exists q. split_and!; [done|done|by apply (Bm q); [lia|]|].
    destruct (Z.eq_dec q (p + 1)) as [->|]; [by rewrite E', E|apply (Bk q); [lia|done]].
  - exists (q + 1). split_and!; [lia|done|by apply (Bm (q + 1)); [lia|]|apply (Bk (q + 1)); [lia|done]].
  - rewrite (current_ok _ _ K') in Hc. exists (q - 1).
    split_and!; [done|done|by apply (Bm q); [lia|]|apply (Bk q); [lia|done]].
Qed.

Lemma waiting_run p s s1 s2 : 0 <= p -> waiting p s s1 -> runs_above p s1 s2 -> waiting p s s2.
Proof.
  intros Hp W R. induction R as [|s1 s2 s3 [St Hc] _ IH]; [done|]. apply IH. by eapply waiting_step.
Qed.


End Runs.

(** ** From power-on *)

Section PowerOn.
Context `{D : Device} `{PD : !PicDevice} `{TK : !TablessKeyboard} `{Sy : Symbols} `{AS : !AlignedSymbols}.
Context `{BS : BootSymbols} `{HA : HandlerAddrs} `{TF : TrapFrame} `{TO : !TrapOk}.
Implicit Types s : kst.

(** What [entry] finds in the kernel's own data: no process, the drivers' variables as
    they are initialised, and the image above the video pages. *)
Record linked (boot : Z) (s : kst) : Prop := {
  li_free : forall q, 0 <= q < 6 -> active (pcb_at q s) = 0;
  li_fds : forall q fd, 0 <= q < 6 -> 2 <= fd <= 7 -> flag (fd_at q fd s) = 0;
  li_kbd : kbd_wf (k_kbd s);
  li_rtc : rtc_ok s;
  li_mem : mem_ok (k_mem s) boot
}.

Lemma boot_kernel_ok fuel ebp addr junk t s name argl d :
  loaded addr s name argl d -> linked (ld32 (k_mem s) (mods_addr addr s)) s ->
  exists eip esp s', entry (S fuel) ebp MULTIBOOT_BOOTLOADER_MAGIC addr junk t s =
    (init_tables junk t, EnterUser eip esp s') /\ kernel_ok 0 s'.
Proof.
  intros L Ln.
  destruct (entry_launches fuel ebp addr junk t s name argl d L) as (s1 & s' & E & Rd & St & U & Pg & Kp & _ & M).
  exists (elf_entry (k_mem s) (ld32 (k_mem s) (mods_addr addr s)) (d_ind d)), (MB132 - 4), s'. split; [exact E|]. clear E.
  assert (Sk : same_kernel (k_mem s) (k_mem s1)).
  { intros a Ha. apply (rd_off _ _ _ Rd). unfold off_screen, VIDEO_END, VIDEO, _8MB, MB128 in *. lia. }
  destruct (mem_ok_same _ _ _ Sk (li_mem _ _ Ln)) as [Hm _]. rewrite <- (rd_boot _ _ _ Rd) in Hm.
  assert (P : forall q, pcb_at q s1 = pcb_at q s) by (intros; apply pcb_at_eq, Rd).
  destruct (started_kernel 0 s1 s' ebp argl St) as (K & _); try done.
  - apply (lo_args _ _ _ _ _ L).
  - apply Rd.
  - rewrite (rd_kbd _ _ _ Rd). apply Ln.
  - apply Rd, Ln.
  - intros q fd Hq Hfd Hf. exfalso. apply Hf. unfold fd_at. rewrite P. by apply (li_fds _ _ Ln).
  - intros q Hq Hne. rewrite P, (li_free _ _ Ln) by done. lia.
Qed.


End PowerOn.
