(* ===== verification/Programs.v ===== *)
(** * User programs (syscalls/ece391cat.c, ece391ls.c, ece391hello.c, ece391testprint.c)

    The programs of the file system image, over the system call library.  The address of
    a program's buffer on its stack is an argument; [lit] gives that of a string
    literal.  [Stream] is what the copying loop of [cat] needs of the calls: reading
    returns the next piece of a text, writing shows it.  The loop is proved against the
    interface, and the kernel's files and terminal discharge it. *)

From stdpp Require Import base list numbers gmap strings.
From Stdlib Require Import ZArith Lia.
From S2P Require Import Prelude Mem LibStr State Pic Console Rtc Keyboard Irq Terminal Paging.
From S2P Require Import Filesystem Syscall Process Idt User.

Section Programs.
Context `{D : Device} `{Sy : Symbols} `{TF : TrapFrame} `{L : Literals}.

(** ** cat *)

Fixpoint cat_loop (fuel : nat) (fd buf : Z) : K Z :=
  match fuel with
  | O => fun _ => NoFuel
  | S f =>
      (cnt <- ece391_read fd buf 1024 ;;
       if (cnt =? 0)%Z then kret 0
       else if (cnt =? -1)%Z then (ece391_fdputs 1 (lit (str "file read failed" ++ [10])) ;; kret 3)
       else
         (r <- ece391_write 1 buf cnt ;;
          if (r =? -1)%Z then kret 3 else cat_loop f fd buf))%kernel
  end.

Definition cat_main (fuel : nat) (buf : Z) : K Z :=
  (r <- ece391_getargs buf 1024 ;;
   if negb (r =? 0)%Z then
     (ece391_fdputs 1 (lit (str "could not read arguments" ++ [10])) ;; kret 3)
   else
     (fd <- ece391_open buf ;;
      if (fd =? -1)%Z then (ece391_fdputs 1 (lit (str "file not found" ++ [10])) ;; kret 2)
      else cat_loop fuel fd buf))%kernel.

(** ** ls *)

Definition SBUFSIZE : Z := 33.

Fixpoint ls_loop (fuel : nat) (fd buf : Z) : K Z :=
  match fuel with
  | O => fun _ => NoFuel
  | S f =>
      (cnt <- ece391_read fd buf (SBUFSIZE - 1) ;;
       if (cnt =? 0)%Z then kret 0
       else if (cnt =? -1)%Z then
         (ece391_fdputs 1 (lit (str "directory entry read failed" ++ [10])) ;; kret 3)
       else
         (kmod (fun s => set_mem (stb (k_mem s) (buf + cnt) 10) s) ;;
          r <- ece391_write 1 buf (cnt + 1) ;;
          if (r =? -1)%Z then kret 3 else ls_loop f fd buf))%kernel
  end.

Definition ls_main (fuel : nat) (buf : Z) : K Z :=
  (fd <- ece391_open (lit (str ".")) ;;
   if (fd =? -1)%Z then (ece391_fdputs 1 (lit (str "directory open failed" ++ [10])) ;; kret 2)
   else ls_loop fuel fd buf)%kernel.

(** ** testprint and hello *)

Definition testprint_main : K Z :=
  (ece391_fdputs 1 (lit (str "Hello, if this ran, the program was correct. Yay!" ++ [10])) ;; kret 0)%kernel.

Definition BUFSIZE : Z := 1024.

Definition hello_main (buf : Z) : K Z :=
  (ece391_fdputs 1 (lit (str "Hi, what's your name? ")) ;;
   cnt <- ece391_read 0 buf (BUFSIZE - 1) ;;
   if (cnt =? -1)%Z then (ece391_fdputs 1 (lit (str "Can't read name from keyboard." ++ [10])) ;; kret 3)
   else
     (kmod (fun s => set_mem (stb (k_mem s) (buf + cnt) 0) s) ;;
      ece391_fdputs 1 (lit (str "Hello, ")) ;;
      ece391_fdputs 1 buf ;;
      kret 0))%kernel.

End Programs.

(** ** What a copying loop needs

    [on s l t]: in state [s], [l] is still to be read from descriptor [fd] and the
    screen shows [t]. *)
Class Stream `{D : Device} `{Sy : Symbols} `{TF : TrapFrame}
    (fd buf : Z) (on : kst -> list Z -> scr -> Prop) : Prop := {
  stream_read : forall s l t, on s l t ->
    exists s', ece391_read fd buf 1024 s = Ret (Z.of_nat (length (take 1024 l))) s' /\
      bytes_at (k_mem s') buf (length (take 1024 l)) = take 1024 l /\ on s' (drop 1024 l) t;
  stream_write : forall s l t n t', on s l t -> 0 < n <= 1024 ->
    spec_puts (bytes_at (k_mem s) buf (Z.to_nat n)) t = Some t' ->
    exists s', ece391_write 1 buf n s = Ret n s' /\ on s' l t'
}.

Section Copying.
Context `{D : Device} `{Sy : Symbols} `{TF : TrapFrame} `{L : Literals}.
Context (fd buf : Z) (on : kst -> list Z -> scr -> Prop) `{St : !Stream fd buf on}.

(** The loop of [cat] shows all of the text that is left and ends with 0. *)
Lemma cat_loop_shows fuel s l t t' :
  on s l t -> (length l < fuel)%nat -> spec_puts l t = Some t' ->
  exists s', cat_loop fuel fd buf s = Ret 0 s' /\ on s' [] t'.
Proof.
  revert s l t. induction fuel as [|fuel IH]; intros s l t O Hf Hs; [lia|]. cbn [cat_loop].
  destruct (stream_read s l t O) as (s1 & E1 & B1 & O1). unfold kbind at 1. rewrite E1.
  destruct l as [|c l'] eqn:El.
  - simpl in *. simplify_eq. by exists s1.
  - rewrite <- El in *. assert (Hl : (0 < length (take 1024 l) <= 1024)%nat).
    { rewrite length_take, El. simpl length. lia. }
    rewrite (proj2 (Z.eqb_neq (Z.of_nat (length (take 1024 l))) 0)), (proj2 (Z.eqb_neq (Z.of_nat (length (take 1024 l))) (-1))) by lia.
    rewrite <- (take_drop 1024 l), spec_puts_app in Hs.
    destruct (spec_puts (take 1024 l) t) as [u|] eqn:Eu; [|done].
    destruct (stream_write s1 (drop 1024 l) t (Z.of_nat (length (take 1024 l))) u) as (s2 & E2 & O2);
      [done|lia|by rewrite Nat2Z.id, B1|].
    unfold kbind. rewrite E2, (proj2 (Z.eqb_neq _ (-1))) by lia.
    apply (IH s2 (drop 1024 l) u); [done| |done]. rewrite length_take in Hl. rewrite length_drop. lia.
Qed.

End Copying.

(** ** The kernel's files are streams *)

Section FileStreams.
Context `{D : Device} `{Sy : Symbols} `{TF : TrapFrame} `{TO : !TrapOk}.

Lemma file_slice_length m boot nd q n : length (file_slice m boot nd q n) = n.
Proof. unfold file_slice. by rewrite length_map, length_seq. Qed.

Lemma file_slice_split m boot nd q n j :
  (j <= n)%nat -> take j (file_slice m boot nd q n) = file_slice m boot nd q j /\
  drop j (file_slice m boot nd q n) = file_slice m boot nd (q + Z.of_nat j) (n - j).
Proof.
  intros Hj. replace n with (j + (n - j))%nat at 1 2 by lia. rewrite !file_slice_app.
  by rewrite take_app_length', drop_app_length' by (by rewrite file_slice_length).
Qed.

Lemma draws_fd p fd s s' : draws s s' -> fd_at p fd s' = fd_at p fd s.
Proof. intros [(E & _) _]. by rewrite E. Qed.

Lemma draws_input s s' : draws s s' -> same_input s s'.
Proof. intros [(E & K & _) _]. unfold same_input. rewrite K. by rewrite E. Qed.

(** The file of inode [nd] as it was in [s0], read from position [q]. *)
Definition rest_of (s0 : kst) (nd q : Z) : list Z :=
  file_slice (k_mem s0) (k_boot s0) nd q (Z.to_nat (file_len (k_mem s0) (k_boot s0) nd - q)).

Definition file_stream (p fd nd buf : Z) (s0 s : kst) (l : list Z) (t : scr) : Prop :=
  exists q, ustep p buf 1024 s0 s /\ file_fd p s fd nd q /\ l = rest_of s0 nd q /\ scr_eq (view s) t /\ same_input s0 s.

#[export] Instance file_stream_ok p fd nd buf s0 :
  in_window buf 1024 -> Stream fd buf (file_stream p fd nd buf s0).
Proof.
  intros W. split.
  - intros s l t (q & U & F & -> & V & I). pose proof (us_run _ _ _ _ _ U) as R.
    destruct (user_read_file p s fd nd q buf 1024 R F W) as (s' & E & B & F' & U' & V' & I').
    pose proof (ru_wf _ _ (us_from _ _ _ _ _ U)) as Hw. pose proof (us_image _ _ _ _ _ U) as Hi.
    pose proof (ff_pos _ _ _ _ _ F) as Hq. pose proof (ff_inode _ _ _ _ _ F) as Hn.
    rewrite (us_boot _ _ _ _ _ U) in *. rewrite (image_header _ _ _ Hw Hi) in Hn.
    rewrite (same_image_len _ _ _ _ Hw Hi Hn) in *. unfold rest_of.
    set (len := file_len (k_mem s0) (k_boot s0) nd) in *. set (k := Z.min 1024 (len - q)) in *.
    assert (T : take 1024 (file_slice (k_mem s0) (k_boot s0) nd q (Z.to_nat (len - q))) =
      file_slice (k_mem s0) (k_boot s0) nd q (Z.to_nat k)).
    { destruct (Z.le_gt_cases (len - q) 1024).
      - rewrite take_ge by (rewrite file_slice_length; lia). f_equal. lia.
      - replace (Z.to_nat k) with 1024%nat by lia. apply file_slice_split. lia. }
    rewrite T, file_slice_length. exists s'. split_and!; [rewrite E; f_equal; lia| |].
    + rewrite B. apply same_image_slice; [done|done|done|lia|fold len; lia].
    + exists (q + k). split_and!; [by eapply ustep_trans|done| |by rewrite V'|by etrans].
      unfold rest_of. fold len. destruct (Z.le_gt_cases (len - q) 1024).
      * rewrite drop_ge by (rewrite file_slice_length; lia).
        by replace (Z.to_nat (len - (q + k))) with 0%nat by lia.
      * replace k with 1024 by lia. rewrite (proj2 (file_slice_split _ _ _ _ (Z.to_nat (len - q)) 1024 ltac:(lia))).
        f_equal. lia.
  - intros s l t n t' (q & U & F & -> & V & I) Hn Hs. pose proof (us_run _ _ _ _ _ U) as R.
    destruct (spec_puts_proper _ t (view s) t' (symmetry V) Hs) as (u & Hu & Eu).
    assert (Wn : in_window buf n) by (destruct W as (?&?&?); unfold in_window; lia).
    destruct (user_write p s buf n u R Wn ltac:(lia) Hu) as (s' & E & Dr & V' & R').
    exists s'. split; [done|]. exists q.
    pose proof (ustep_draws p buf 1024 s s' R Dr (ru_cursor _ _ R')) as U'.
    split_and!; [by eapply ustep_trans| |done|by rewrite V', Eu|etrans; [exact I|by apply draws_input]].
    eapply file_fd_step; [exact U'|done|by apply draws_fd].
Qed.

End FileStreams.

(** ** Looking up a name *)

Section Names.
Implicit Types m : vmem.

Lemma eq_upto_cstr n f g h l : cstr f l -> cstr g l -> eq_upto n f h -> eq_upto n g h.
Proof.
  intros (_ & F1 & F2) (N & G1 & G2) H i Hi Hz.
  assert (E : forall j, 0 <= j <= Z.of_nat (length l) -> f j = g j).
  { intros j Hj. destruct (Z.eq_dec j (Z.of_nat (length l))) as [->|]; [congruence|].
    by rewrite F1, G1 by lia. }
  assert (i <= Z.of_nat (length l)).
  { destruct (Z.le_gt_cases i (Z.of_nat (length l))); [done|]. exfalso. by apply (Hz (Z.of_nat (length l))); [lia|]. }
  rewrite <- E by lia. apply H; [done|]. intros j Hj. rewrite E by lia. by apply Hz.
Qed.

(** The directory depends on the characters of the name only. *)
Lemma find_dentry_cstr k m boot f g l i :
  (forall j, 0 <= f j < 256) -> (forall j, 0 <= g j < 256) -> cstr f l -> cstr g l ->
  find_dentry k m boot f i = find_dentry k m boot g i.
Proof.
  intros Bf Bg Cf Cg. revert i. induction k as [|k IH]; intros i; cbn [find_dentry]; [done|].
  assert (Bh : forall j, 0 <= at_ m (dir_addr boot i) j < 256) by (intros; apply (ldb_range m)).
  assert (E : strncmp f (at_ m (dir_addr boot i)) 32 = 0 <-> strncmp g (at_ m (dir_addr boot i)) 32 = 0).
  { rewrite !strncmp_zero by (done || lia). split; [by apply (eq_upto_cstr _ f g _ l)|by apply (eq_upto_cstr _ g f _ l)]. }
  rewrite (IH (i + 1)). destruct (Z.eqb_spec (strncmp f (at_ m (dir_addr boot i)) 32) 0),
    (Z.eqb_spec (strncmp g (at_ m (dir_addr boot i)) 32) 0); tauto.
Qed.

(** The entry of the name [l]. *)
Definition entry_named (s : kst) (l : list Z) : option dentry := read_dentry_by_name (at_ (l ++ [0]) 0) s.

Lemma cstr_own l : Forall (fun c => c <> 0) l -> Forall (fun c => 0 <= c < 256) l -> cstr (at_ (l ++ [0]) 0) l.
Proof.
  intros Hz Hb. assert (E : forall i, at_ (l ++ [0]) 0 i = u8 (zget 0 (l ++ [0]) i)) by done.
  split_and!; [done| |]; [intros i Hi|]; rewrite E.
  - rewrite zget_app_l by lia. apply u8_small, (zget_Forall (fun c => 0 <= c < 256)); [lia|done].
  - rewrite zget_snoc. done.
Qed.

Lemma cstr_bytes f l : (forall j, 0 <= f j < 256) -> cstr f l -> Forall (fun c => 0 <= c < 256) l.
Proof.
  intros Hb (_ & C & _). apply Forall_lookup_2. intros i c Hi.
  pose proof (lookup_lt_Some _ _ _ Hi). specialize (C (Z.of_nat i) ltac:(lia)).
  unfold zget in C. rewrite (proj2 (Z.ltb_ge _ _)), Nat2Z.id, Hi in C by lia. simpl in C.
  rewrite <- C. apply Hb.
Qed.

Lemma entry_named_eq s l f :
  (forall j, 0 <= f j < 256) -> cstr f l -> read_dentry_by_name f s = entry_named s l.
Proof.
  intros Hb C. apply (find_dentry_cstr _ _ _ _ _ l); [done| |done|].
  - intros j. apply (ldb_range (l ++ [0])).
  - apply cstr_own; [by destruct C|by eapply cstr_bytes].
Qed.

Lemma entry_named_step `{Sy : Symbols} p b n s s' l : ustep p b n s s' -> entry_named s' l = entry_named s l.
Proof.
  intros U. unfold entry_named, read_dentry_by_name. rewrite (us_boot _ _ _ _ _ U).
  apply same_image_lookup; [apply U|apply U].
Qed.

End Names.

(** ** cat *)

Section Cat.
Context `{D : Device} `{Sy : Symbols} `{TF : TrapFrame} `{TO : !TrapOk} `{L : Literals}.
Context (p : Z) (s : kst) (buf : Z).
Hypothesis (R : running p s) (W : in_window buf 1024).

(** The arguments in the buffer, where [open] finds them as a name. *)
Lemma cat_arguments l :
  cstr (at_ (args (pcb_at p s)) 0) l -> l <> [] -> (length l < 128)%nat ->
  exists m, ece391_getargs buf 1024 s = Ret 0 (set_mem m s) /\
    ustep p buf 1024 s (set_mem m s) /\ scr_eq (view (set_mem m s)) (view s) /\
    read_dentry_by_name (at_ m buf) (set_mem m s) = entry_named s l.
Proof.
  intros Ha Hne Hl. destruct (user_getargs p s l buf 1024) as (m & E & C & Ch); try done; try lia.
  destruct (ustep_mem p buf 1024 s m R W Ch) as [U V]. exists m. split_and!; try done.
  rewrite (entry_named_eq _ l); [by eapply entry_named_step|intros; apply (ldb_range m)|done].
Qed.

(** Started with the name of a regular file while a descriptor is free, [cat] reads the
    whole file 1024 bytes at a time; the screen afterwards is the one its bytes make. *)
Lemma cat_ok l d fd fuel t :
  cstr (at_ (args (pcb_at p s)) 0) l -> l <> [] -> (length l < 128)%nat ->
  entry_named s l = Some d -> d_ft d = 2 -> d_ind d < nnod (k_mem s) (k_boot s) ->
  free_fd 6 2 (file_desc_tb (pcb_at p s)) = Some fd ->
  file_len (k_mem s) (k_boot s) (d_ind d) < Z.of_nat fuel ->
  spec_puts (rest_of s (d_ind d) 0) (view s) = Some t ->
  exists s', cat_main fuel buf s = Ret 0 s' /\ scr_eq (view s') t /\ ustep p buf 1024 s s' /\ same_input s s'.
Proof.
  intros Ha Hne Hl Hd Hft Hi Hfree Hfuel Hs.
  destruct (cat_arguments l Ha Hne Hl) as (m & E & U & V & N). unfold cat_main, kbind. rewrite E.
  change (negb (0 =? 0)%Z) with false. cbv iota.
  pose proof (free_fd_spec 6 2 (file_desc_tb (pcb_at p s))) as Hf. rewrite Hfree in Hf. destruct Hf as (Hfd & _).
  assert (Ha' : small_arg buf) by (destruct W as (?&?&?); unfold small_arg, MB128, MB132 in *; lia).
  destruct (user_open_file p buf 1024 (set_mem m s) buf d fd) as (s1 & E1 & F & U1 & M1 & V1 & I1);
    [apply U|done|by rewrite <- Hd, <- N|done| |done|].
  { simpl. by rewrite (image_header (k_mem s) m) by apply U. }
  rewrite E1, (proj2 (Z.eqb_neq fd (-1))) by lia.
  pose proof (file_stream_ok p fd (d_ind d) buf s W) as St.
  destruct (cat_loop_shows fd buf (file_stream p fd (d_ind d) buf s) fuel s1 (rest_of s (d_ind d) 0) (view s) t)
    as (s' & E2 & q & U2 & _ & _ & V2 & I2).
  - exists 0. split_and!; [by eapply ustep_trans|done|done|by rewrite V1|exact I1].
  - unfold rest_of. rewrite file_slice_length.
    pose proof (ld32_range (k_mem s) (inode_addr (k_boot s) (d_ind d))). unfold file_len in *. lia.
  - done.
  - by exists s'.
Qed.

(** C15: [cat] reports what it cannot show: without an argument it says that it could not
    read it and returns 3, with a name the directory does not have it says that the file
    was not found and returns 2; nothing but the screen and the buffer changes. *)
Theorem cat_reports fuel t l msg :
  cstr (at_ (args (pcb_at p s)) 0) l -> (length l < 128)%nat -> (l <> [] -> entry_named s l = None) ->
  msg = (if decide (l = []) then str "could not read arguments" else str "file not found") ++ [10] ->
  literal_at s (lit msg) msg -> beside buf 1024 (lit msg) msg ->
  spec_puts msg (view s) = Some t ->
  exists s', cat_main fuel buf s = Ret (if decide (l = []) then 3 else 2) s' /\
    scr_eq (view s') t /\ ustep p buf 1024 s s'.
Proof.
  intros Ha Hl Hd Hm Hlit Hdj Hs.
  assert (Hb : small_arg buf) by (destruct W as (?&?&?); unfold small_arg, MB128, MB132 in *; lia).
  unfold cat_main, kbind. destruct (decide (l = [])) as [->|Hne].
  - rewrite (user_getargs_none p s buf 1024 R Ha Hb) by (unfold small_arg; lia). cbn [negb Z.eqb]. rewrite <- Hm.
    destruct (user_fdputs p s (lit msg) msg t R Hlit Hs) as (s' & E & Dr & V & R'). rewrite E.
    exists s'. split_and!; [done|done|]. by apply ustep_draws; [..|apply R'].
  - destruct (cat_arguments l Ha Hne Hl) as (m & E & U & V & N). rewrite E. cbn [negb Z.eqb].
    rewrite (user_open_none p _ _ (us_run _ _ _ _ _ U) Hb (eq_trans N (Hd Hne))).
    change ((-1 =? -1)%Z) with true. cbv iota. rewrite <- Hm.
    destruct (spec_puts_proper _ _ (view (set_mem m s)) t (symmetry V) Hs) as (u & Hu & Eu).
    destruct (user_fdputs p (set_mem m s) (lit msg) msg u) as (s' & E' & Dr & V' & R');
      [apply U|by eapply literal_step|done|]. rewrite E'. exists s'. split_and!; [done|by rewrite V', Eu|].
    eapply ustep_trans; [exact U|]. by apply ustep_draws; [apply U|..|apply R'].
Qed.

End Cat.

(** ** ls *)

Section Ls.
Context `{D : Device} `{Sy : Symbols} `{TF : TrapFrame} `{TO : !TrapOk} `{L : Literals}.

(** The names of [k] entries from the [i]th, a line each. *)
Fixpoint listing (s : kst) (k : nat) (i : Z) : list Z :=
  match k with O => [] | S k' => name_of s i ++ [10] ++ listing s k' (i + 1) end.

Lemma directory_step p b n s s' :
  ustep p b n s s' ->
  nent (k_mem s') (k_boot s') = nent (k_mem s) (k_boot s) /\
  forall i, 0 <= i <= 62 -> name_of s' i = name_of s i.
Proof.
  intros U. pose proof (ru_wf _ _ (us_from _ _ _ _ _ U)) as Hw. pose proof (us_image _ _ _ _ _ U) as Hi.
  rewrite (us_boot _ _ _ _ _ U). destruct (same_image_lookup _ _ _ (fun _ => 0) Hw Hi) as [En _].
  split; [done|]. intros i Hr. unfold name_of. rewrite (us_boot _ _ _ _ _ U). f_equal.
  apply map_ext_in. intros j Hj%in_seq. pose proof (image_size_pos (k_mem s) (k_boot s)).
  unfold dir_addr. rewrite <- !Z.add_assoc. apply Hi. lia.
Qed.

(** Ending the name in the buffer with a newline. *)
Lemma end_line p s buf l :
  running p s -> in_window buf 33 -> (length l <= 32)%nat -> bytes_at (k_mem s) buf (length l) = l ->
  let s' := set_mem (stb (k_mem s) (buf + Z.of_nat (length l)) 10) s in
  bytes_at (k_mem s') buf (S (length l)) = l ++ [10] /\ ustep p buf 33 s s' /\ scr_eq (view s') (view s).
Proof.
  intros R W Hl B s'. pose proof (window_region p s buf 33 R W) as Rg. split.
  - apply (zlist_ext 0); rewrite bytes_at_length; [rewrite length_app; simpl; lia|].
    intros i Hi. rewrite bytes_at_get by done. simpl.
    destruct (Z.eq_dec i (Z.of_nat (length l))) as [->|].
    + rewrite zget_snoc. by rewrite ldb_stb_eq.
    + rewrite ldb_stb_other by (apply (region_ne _ _ 33); (done || lia)).
      rewrite zget_app_l by lia. rewrite <- B at 1. symmetry. apply bytes_at_get. lia.
  - apply ustep_mem; [done|done|]. apply only_changes_stb. lia.
Qed.

Lemma ls_loop_shows p s0 fd buf fuel s q t t' :
  in_window buf 33 -> nent (k_mem s0) (k_boot s0) <= 62 ->
  let n := nent (k_mem s0) (k_boot s0) in
  name_of s0 n = [] -> (forall i, 0 <= i < n -> name_of s0 i <> []) ->
  ustep p buf 33 s0 s -> dir_fd p s fd q -> 0 <= q <= n -> n - q < Z.of_nat fuel ->
  scr_eq (view s) t -> spec_puts (listing s0 (Z.to_nat (n - q)) q) t = Some t' ->
  exists s', ls_loop fuel fd buf s = Ret 0 s' /\ scr_eq (view s') t' /\ ustep p buf 33 s0 s'.
Proof.
  intros W H62 n Hend Hnames. revert s q t. induction fuel as [|fuel IH]; intros s q t U F Hq Hf V Hs; [lia|].
  cbn [ls_loop]. destruct (directory_step _ _ _ _ _ U) as [En Es]. pose proof (us_run _ _ _ _ _ U) as R.
  destruct (user_read_dir p s fd q buf) as (s1 & E1 & B1 & Hl & F1 & U1 & V1); [done|done|rewrite En; done|done|].
  change (SBUFSIZE - 1) with 32. unfold kbind at 1. rewrite E1. rewrite Es in * by lia.
  assert (U01 : ustep p buf 33 s0 s1) by (by eapply ustep_trans).
  destruct (Z.eq_dec q n) as [->|Hne].
  { rewrite Hend in *. rewrite Z.sub_diag in Hs. simpl in Hs. simplify_eq.
    exists s1. split_and!; [done|by rewrite V1|done]. }
  assert (H0 : (0 < length (name_of s0 q))%nat).
  { specialize (Hnames q ltac:(lia)). destruct (name_of s0 q); [done|simpl; lia]. }
  rewrite (proj2 (Z.eqb_neq _ 0)), (proj2 (Z.eqb_neq _ (-1))) by lia.
  replace (Z.to_nat (n - q)) with (S (Z.to_nat (n - (q + 1)))) in Hs by lia. cbn [listing] in Hs.
  rewrite app_assoc, spec_puts_app in Hs.
  destruct (spec_puts (name_of s0 q ++ [10]) t) as [u|] eqn:Eu; [|done].
  destruct (end_line p s1 buf (name_of s0 q)) as (B2 & U2 & V2); [apply U1|done|done|done|].
  set (s2 := set_mem _ s1) in *. unfold kbind at 1, kmod. fold s2.
  destruct (spec_puts_proper (name_of s0 q ++ [10]) t (view s2) u) as (u' & Hu & Eu'); [by rewrite V2, V1, V|done|].
  destruct (user_write p s2 buf (Z.of_nat (length (name_of s0 q)) + 1) u') as (s3 & E3 & Dr & V3 & R3).
  { apply U2. } { destruct W as (?&?&?). unfold in_window. lia. } { lia. }
  { replace (Z.to_nat _) with (S (length (name_of s0 q))) by lia. by rewrite B2. }
  unfold kbind. rewrite E3, (proj2 (Z.eqb_neq _ (-1))) by lia.
  apply (IH s3 (q + 1) u); [| |lia|lia|by rewrite V3, Eu'|done].
  - eapply ustep_trans; [exact U01|]. eapply ustep_trans; [exact U2|].
    by apply ustep_draws; [apply U2|..|apply R3].
  - destruct F1 as (F1 & nd & F2). split; [done|]. exists nd. by rewrite (draws_fd p fd s2 s3 Dr).
Qed.

(** C12: [ls] lists the directory: the names of its entries, in order, a line each, are what
    the screen shows afterwards, and the result is 0.  The end of the directory is the
    empty name in the slot after the last entry, which the kernel still lets a program
    read; the directory has room for that slot. *)
Theorem ls_lists_directory p s buf d fd fuel t :
  running p s -> in_window buf 33 -> literal_at s (lit (str ".")) (str ".") ->
  entry_named s (str ".") = Some d -> d_ft d = 1 ->
  free_fd 6 2 (file_desc_tb (pcb_at p s)) = Some fd ->
  let n := nent (k_mem s) (k_boot s) in
  n <= 62 -> name_of s n = [] -> (forall i, 0 <= i < n -> name_of s i <> []) -> n < Z.of_nat fuel ->
  spec_puts (listing s (Z.to_nat n) 0) (view s) = Some t ->
  exists s', ls_main fuel buf s = Ret 0 s' /\ scr_eq (view s') t /\ ustep p buf 33 s s'.
Proof.
  intros R W (C & _ & _ & Wl) Hd Hft Hfree n H62 Hend Hnames Hf Hs. unfold ls_main, kbind.
  destruct (user_open p buf 33 s (lit (str ".")) d fd (mkFd F_dir (fd_inode (fd_at p fd s)) 0 1))
    as (s1 & E1 & F & U & M & V & Hfd & _); [done| | |lia|done| |].
  - destruct Wl as (?&?&?). unfold small_arg, MB128, MB132 in *. simpl in *. lia.
  - rewrite (entry_named_eq _ (str ".")); [done|intros; apply (ldb_range (k_mem s))|done].
  - unfold fd_for. by rewrite Hft.
  - rewrite E1, (proj2 (Z.eqb_neq fd (-1))) by lia.
    pose proof (ld32_range (k_mem s) (k_boot s) : 0 <= n < _).
    apply (ls_loop_shows p s fd buf fuel s1 0 (view s) t); try done; [|lia|fold n; lia|by rewrite V|].
    + split; [done|]. by eexists.
    + fold n. by rewrite Z.sub_0_r.
Qed.

End Ls.

(** ** Talking to the user *)

Section Hello.
Context `{D : Device} `{Sy : Symbols} `{TF : TrapFrame} `{TO : !TrapOk} `{L : Literals}.
Context (scs : list Z) `{KD : !KeyboardDevice scs}.

(** Writing to the screen leaves the keyboard alone. *)
Lemma draws_keyboard s s' :
  draws s s' -> k_kbd s' = k_kbd s /\ k_irqs s' = k_irqs s /\ pending scs s' = pending scs s.
Proof. intros [(E & K & _) _]. unfold pending. rewrite K. by rewrite E. Qed.

Lemma ustep_wider p b n k s s' : ustep p b n s s' -> n <= k -> ustep p b k s s'.
Proof. intros U Hk. eapply ustep_sub; [exact U|lia|lia]. Qed.

(** A question and the line that answers it. *)
Lemma user_asks p s buf k n q l e' t1 t2 :
  running p s -> keyboard_ready s -> in_window buf 128 -> small_arg k -> literal_at s (lit q) q ->
  first_line (pending scs s) (ed_of (k_kbd s)) = Some (n, l, e') -> (n <= count_kbd (k_irqs s))%nat ->
  spec_puts q (view s) = Some t1 -> typed_screen (pending scs s) (ed_of (k_kbd s)) t1 = Some t2 ->
  exists s1 s2, ece391_fdputs 1 (lit q) s = Ret tt s1 /\
    ece391_read 0 buf k s1 = Ret (Z.of_nat (length l)) s2 /\
    bytes_at (k_mem s2) buf (length l) = l /\ (1 <= length l <= 128)%nat /\ Forall (fun c => c <> 0) l /\
    ustep p buf 128 s s2 /\ scr_eq (view s2) t2 /\
    keyboard_ready s2 /\ pending scs s2 = drop n (pending scs s) /\ k_pcbs s2 = k_pcbs s.
Proof.
  intros R K W Hk Lq Hf Hn Hs1 Hs2. destruct (user_fdputs p s _ _ t1 R Lq Hs1) as (s1 & E1 & D1 & V1 & R1).
  destruct (draws_keyboard s s1 D1) as (K1 & K2 & K3).
  pose proof (ustep_draws p buf 128 s s1 R D1 (ru_cursor _ _ R1)) as U1.
  rewrite <- K1, <- K3 in Hf, Hs2. rewrite <- K2 in Hn. unfold keyboard_ready in K. rewrite <- K1 in K.
  destruct (user_read_line scs p s1 buf k n l e' t1 t2 R1 K W Hk Hf Hn V1 Hs2)
    as (s2 & E2 & B & Hl & Hz & U2 & V2 & K' & _ & P2 & _ & P3 & _).
  apply ustep_wider with (k := 128) in U2; [|lia]. exists s1, s2.
  do 5 (split; [done|]). split; [by eapply ustep_trans|]. do 2 (split; [done|]). rewrite P2, P3, K3.
  split; [done|]. destruct D1 as [(E & _) _]. by rewrite E.
Qed.

(** Ending the line in the buffer with a NUL makes it a string of the program. *)
Lemma end_string p s buf n l :
  running p s -> in_window buf n -> bytes_at (k_mem s) buf (length l) = l -> (1 <= length l <= 4000)%nat ->
  Z.of_nat (length l) < n -> Forall (fun c => c <> 0) l ->
  let s' := set_mem (stb (k_mem s) (buf + Z.of_nat (length l)) 0) s in
  literal_at s' buf l /\ ustep p buf n s s' /\ scr_eq (view s') (view s).
Proof.
  intros R W B Hl Hn Hz s'. pose proof (window_region p s buf n R W) as Rg. split.
  - split_and!; [split_and!| | |]; [done| | | |lia|destruct W as (?&?&?); unfold in_window; lia].
    + intros i Hi. unfold at_, s'. simpl. rewrite ldb_stb_other by (apply (region_ne _ _ n); (done || lia)).
      rewrite <- B at 1. symmetry. apply bytes_at_get. lia.
    + unfold at_, s'. simpl. by rewrite ldb_stb_eq.
    + destruct l; [simpl in Hl; lia|done].
  - apply ustep_mem; [done|done|]. apply only_changes_stb. lia.
Qed.

(** C13: [hello] greets the user by the name typed: it shows its question, the keys as they
    are typed and edited, then "Hello, " and the line that was finished with Enter, and
    returns 0; the keyboard is ready for the next line. *)
Theorem hello_greets p s buf n l e' t1 t2 t :
  running p s -> keyboard_ready s -> in_window buf 129 ->
  literal_at s (lit (str "Hi, what's your name? ")) (str "Hi, what's your name? ") ->
  literal_at s (lit (str "Hello, ")) (str "Hello, ") ->
  beside buf 129 (lit (str "Hello, ")) (str "Hello, ") ->
  first_line (pending scs s) (ed_of (k_kbd s)) = Some (n, l, e') -> (n <= count_kbd (k_irqs s))%nat ->
  spec_puts (str "Hi, what's your name? ") (view s) = Some t1 ->
  typed_screen (pending scs s) (ed_of (k_kbd s)) t1 = Some t2 ->
  spec_puts (str "Hello, " ++ l) t2 = Some t ->
  exists s', hello_main buf s = Ret 0 s' /\ scr_eq (view s') t /\ ustep p buf 129 s s' /\
    keyboard_ready s' /\ pending scs s' = drop n (pending scs s).
Proof.
  intros R K W L1 L2 Hd Hf Hn Hs1 Hs2 Hs. unfold hello_main.
  assert (W' : in_window buf 128) by (destruct W as (?&?&?); unfold in_window; lia).
  destruct (user_asks p s buf 1023 n _ l e' t1 t2 R K W' ltac:(unfold small_arg; lia) L1 Hf Hn Hs1 Hs2)
    as (s1 & s2 & E1 & E2 & B & Hl & Hz & U2 & V2 & K' & P2 & _).
  unfold kbind at 1. rewrite E1. change (BUFSIZE - 1) with 1023. unfold kbind at 1.
  rewrite E2, (proj2 (Z.eqb_neq _ (-1))) by lia.
  apply ustep_wider with (k := 129) in U2; [|lia].
  destruct (end_string p s2 buf 129 l) as (L3 & U3 & V3); [apply U2|exact W|exact B|lia|lia|exact Hz|].
  set (s3 := set_mem _ s2) in *. unfold kbind at 1, kmod. fold s3.
  rewrite spec_puts_app in Hs. destruct (spec_puts (str "Hello, ") t2) as [t3|] eqn:E3; [|done].
  destruct (spec_puts_proper (str "Hello, ") t2 (view s3) t3) as (u3 & Hu3 & Eu3); [by rewrite V3, V2|done|].
  assert (U03 : ustep p buf 129 s s3) by (by eapply ustep_trans).
  destruct (user_fdputs p s3 (lit (str "Hello, ")) (str "Hello, ") u3) as (s4 & E4 & D4 & V4 & R4);
    [apply U3|exact (literal_step p buf 129 s s3 _ _ U03 L2 Hd)|exact Hu3|].
  unfold kbind at 1. rewrite E4.
  pose proof (ustep_draws p 0 0 s3 s4 (us_run _ _ _ _ _ U3) D4 (ru_cursor _ _ R4)) as U4.
  destruct (spec_puts_proper l t3 (view s4) t) as (u & Hu & Eu); [by rewrite V4, <- Eu3|done|].
  destruct (user_fdputs p s4 buf l u) as (s5 & E5 & D5 & V5 & R5);
    [exact R4| |exact Hu|].
  { apply (literal_step p 0 0 s3 s4 buf l U4 L3). left. destruct W as (?&?&?); unfold MB128 in *; lia. }
  unfold kbind. rewrite E5. destruct (draws_keyboard s3 s4 D4) as (A1 & _ & A3).
  destruct (draws_keyboard s4 s5 D5) as (B1 & _ & B3). exists s5. split_and!; [done|by rewrite V5, Eu| | |].
  - eapply ustep_trans; [exact U03|].
    eapply ustep_trans; [exact (ustep_draws p buf 129 s3 s4 (us_run _ _ _ _ _ U3) D4 (ru_cursor _ _ R4))|].
    exact (ustep_draws p buf 129 s4 s5 R4 D5 (ru_cursor _ _ R5)).
  - unfold keyboard_ready. rewrite B1, A1. exact K'.
  - by rewrite B3, A3.
Qed.

End Hello.
