(* ===== verification/Shell.v ===== *)
(** * The shell (syscalls/ece391shell.c)

    The first program of the system: it prompts, reads a line, and has the kernel execute
    it.  [shell_command] is the part of the loop after the line has been read.  The
    theorems follow a line from the keys to what the kernel does with it. *)

From stdpp Require Import base list numbers gmap strings.
From Stdlib Require Import ZArith Lia.
From S2P Require Import Prelude Mem LibStr State Pic Console Rtc Keyboard Irq Terminal Paging.
From S2P Require Import Filesystem Syscall Process Idt User Programs.

Section Shell.
Context `{D : Device} `{Sy : Symbols} `{TF : TrapFrame} `{L : Literals}.

(** The call [ece391_execute], or the call with the program it starts (Session.v). *)
Context (execute : Z -> K Z).

Definition shell_report (rval : Z) : K unit :=
  if rval =? -1 then ece391_fdputs 1 (lit (str "no such command" ++ [10]))
  else if rval =? 256 then ece391_fdputs 1 (lit (str "program terminated by exception" ++ [10]))
  else if negb (rval =? 0) then ece391_fdputs 1 (lit (str "program terminated abnormally" ++ [10]))
  else kret tt.

Definition shell_command (again : K Z) (buf : Z) : K Z := fun s =>
  match ece391_strcmp 4096 (at_ (k_mem s) buf) (at_ (k_mem s) (lit (str "exit"))) 0 with
  | None => NoFuel
  | Some r =>
      if r =? 0 then Ret 0 s
      else if ldb (k_mem s) buf =? 0 then again s
      else (rval <- execute buf ;; shell_report rval ;; again)%kernel s
  end.

Fixpoint shell_loop (fuel : nat) (buf : Z) : K Z :=
  match fuel with
  | O => fun _ => NoFuel
  | S f =>
      (ece391_fdputs 1 (lit (str "391OS> ")) ;;
       cnt <- ece391_read 0 buf (BUFSIZE - 1) ;;
       if (cnt =? -1)%Z then
         (ece391_fdputs 1 (lit (str "read from keyboard failed" ++ [10])) ;; kret 3)
       else fun s =>
         let cnt := if (0 <? cnt)%Z && (ldb (k_mem s) (buf + (cnt - 1)) =? 10)%Z then (cnt - 1)%Z else cnt in
         shell_command (shell_loop f buf) buf (set_mem (stb (k_mem s) (buf + cnt) 0) s))%kernel
  end.

Definition shell_main (fuel : nat) (buf : Z) : K Z :=
  (ece391_fdputs 1 (lit (str "Starting 391 Shell" ++ [10])) ;; shell_loop fuel buf)%kernel.

End Shell.

(** ** The comparison with [exit] *)

(** A string, character by character. *)
Lemma cstr_at f i l :
  cstr (fun j => f (i + j)) l ->
  match l with [] => f i = 0 | c :: l' => f i = c /\ c <> 0 /\ cstr (fun j => f (i + 1 + j)) l' end.
Proof.
  destruct l as [|c l]; intros H.
  - destruct H as (_ & _ & H). simpl in H. by rewrite Z.add_0_r in H.
  - apply cstr_cons in H as (E & Hc & C1 & C2 & C3). rewrite Z.add_0_r in E.
    split_and!; [done|done|]. split_and!; [done| |]; [intros j Hj|]; rewrite <- Z.add_assoc; auto.
Qed.

Lemma strcmp_from fuel f g l1 l2 i :
  cstr (fun j => f (i + j)) l1 -> cstr (fun j => g (i + j)) l2 -> (length l1 <= fuel)%nat ->
  exists r, ece391_strcmp fuel f g i = Some r /\ (r = 0 <-> l1 = l2).
Proof.
  revert l1 l2 i. induction fuel as [|fuel IH]; intros l1 l2 i C1%cstr_at C2%cstr_at Hf; cbn [ece391_strcmp];
    (destruct (Z.eqb_spec (f i) (g i)) as [E|E]; [|exists (f i - g i); split; [done|];
      split; [lia|]; intros ->; destruct l2; [congruence|destruct C1 as [? _], C2 as [? _]; congruence]]).
  - destruct l1; [|simpl in Hf; lia]. rewrite C1. exists 0. split; [done|].
    destruct l2; [done|]. destruct C2 as (? & ? & _). congruence.
  - destruct l1 as [|c1 l1], l2 as [|c2 l2]; [rewrite C1; by exists 0|destruct C2 as (? & ? & _); congruence|
      destruct C1 as (? & ? & _); congruence|].
    destruct C1 as (E1 & H1 & C1), C2 as (E2 & H2 & C2). rewrite (proj2 (Z.eqb_neq (f i) 0)) by congruence.
    destruct (IH l1 l2 (i + 1) C1 C2) as (r & Er & Hr); [simpl in Hf; lia|].
    exists r. split; [done|]. rewrite Hr. split; [intros ->; congruence|by intros [= _ ->]].
Qed.

Lemma ece391_strcmp_cstr fuel f g l1 l2 :
  cstr f l1 -> cstr g l2 -> (length l1 <= fuel)%nat ->
  exists r, ece391_strcmp fuel f g 0 = Some r /\ (r = 0 <-> l1 = l2).
Proof. intros C1 C2 Hf. by apply (strcmp_from fuel f g l1 l2 0). Qed.

(** ** From the keys to the command *)

Section Rounds.
Context `{D : Device} `{Sy : Symbols} `{TF : TrapFrame} `{TO : !TrapOk} `{L : Literals}.
Context (scs : list Z) `{KD : !KeyboardDevice scs} (p buf : Z).
Hypothesis W : in_window buf 129.

(** The line [w] typed next: it is finished by [n] scancodes, for which interrupts come, and
    the prompt and its echo turn the screen into [t]. *)
Record types_line (s : kst) (n : nat) (w : list Z) (t : scr) : Prop := {
  tl_run : running p s;
  tl_ready : keyboard_ready s;
  tl_prompt : literal_at s (lit (str "391OS> ")) (str "391OS> ");
  tl_exit : literal_at s (lit (str "exit")) (str "exit");
  tl_beside : beside buf 129 (lit (str "exit")) (str "exit");
  tl_line : exists e', first_line (pending scs s) (ed_of (k_kbd s)) = Some (n, w ++ [10], e');
  tl_irqs : (n <= count_kbd (k_irqs s))%nat;
  tl_screen : exists t1, spec_puts (str "391OS> ") (view s) = Some t1 /\
    typed_screen (pending scs s) (ed_of (k_kbd s)) t1 = Some t
}.

(** [after s n w t s']: the shell holds the line [w] in its buffer, the screen shows [t],
    and the kernel is otherwise as it was before the [n] keys were pressed. *)
Record after (s : kst) (n : nat) (w : list Z) (t : scr) (s' : kst) : Prop := {
  af_string : cstr (at_ (k_mem s') buf) w;
  af_length : (length w <= 127)%nat;
  af_step : ustep p buf (Z.of_nat (length w) + 1) s s';
  af_screen : scr_eq (view s') t;
  af_ready : keyboard_ready s';
  af_pending : pending scs s' = drop n (pending scs s);
  af_irqs : count_kbd (k_irqs s) = (n + count_kbd (k_irqs s'))%nat;
  af_editor : forall e', first_line (pending scs s) (ed_of (k_kbd s)) = Some (n, w ++ [10], e') -> ed_of (k_kbd s') = e';
  af_pcbs : k_pcbs s' = k_pcbs s;
  af_pg : k_pg s' = k_pg s
}.

Lemma draws_rest s s' : draws s s' -> k_pcbs s' = k_pcbs s /\ k_pg s' = k_pg s.
Proof. intros [(E & _) _]. by rewrite E. Qed.

(** The newline that ends the line becomes its NUL. *)
Lemma cut_line s w :
  running p s -> bytes_at (k_mem s) buf (length (w ++ [10])) = w ++ [10] -> (length w <= 127)%nat ->
  Forall (fun c => c <> 0) (w ++ [10]) ->
  let s' := set_mem (stb (k_mem s) (buf + Z.of_nat (length w)) 0) s in
  ldb (k_mem s) (buf + Z.of_nat (length w)) = 10 /\ cstr (at_ (k_mem s') buf) w /\
  ustep p buf (Z.of_nat (length w) + 1) s s' /\ scr_eq (view s') (view s).
Proof.
  intros R B Hl Hz s'. assert (Wl : in_window buf (Z.of_nat (length w) + 1))
    by (destruct W as (?&?&?); unfold in_window; lia).
  pose proof (window_region p s buf _ R Wl) as Rg.
  assert (G : forall i, 0 <= i <= Z.of_nat (length w) -> ldb (k_mem s) (buf + i) = zget 0 (w ++ [10]) i).
  { intros i Hi. rewrite <- B. symmetry. apply bytes_at_get. rewrite length_app. simpl. lia. }
  split; [rewrite G by lia; apply zget_snoc|]. split.
  - apply Forall_app in Hz as [Hz _]. split_and!; [done| |].
    + intros i Hi. unfold at_, s'. simpl.
      rewrite ldb_stb_other by (apply (region_ne _ _ (Z.of_nat (length w) + 1)); (done || lia)).
      by rewrite G, zget_app_l by lia.
    + unfold at_, s'. simpl. by rewrite ldb_stb_eq.
  - apply ustep_mem; [done|done|]. apply only_changes_stb. lia.
Qed.

Lemma shell_reads execute fuel s n w t :
  types_line s n w t ->
  exists s', shell_loop execute (S fuel) buf s = shell_command execute (shell_loop execute fuel buf) buf s' /\
    after s n w t s'.
Proof.
  intros [R K L1 L2 Hb (e' & Hf) Hn (t1 & Hs1 & Hs2)]. cbn [shell_loop].
  destruct (user_fdputs p s _ _ t1 R L1 Hs1) as (s1 & E1 & D1 & V1 & R1).
  unfold kbind at 1. rewrite E1. destruct (draws_keyboard scs s s1 D1) as (K1 & K2 & K3).
  destruct (draws_rest s s1 D1) as [P1 G1].
  rewrite <- K1, <- K3 in Hf, Hs2. rewrite <- K2 in Hn. unfold keyboard_ready in K. rewrite <- K1 in K.
  assert (W' : in_window buf 128) by (destruct W as (?&?&?); unfold in_window; lia).
  destruct (user_read_line scs p s1 buf 1023 n (w ++ [10]) e' t1 t R1 K W' ltac:(unfold small_arg; lia) Hf Hn V1 Hs2)
    as (s2 & E2 & B & Hl & Hz & U2 & V2 & K' & Ed & P2 & Q2 & A2 & G2).
  change (BUFSIZE - 1) with 1023. unfold kbind at 1. rewrite E2, (proj2 (Z.eqb_neq _ (-1))) by lia.
  rewrite length_app, Nat.add_1_r in *. simpl length in *.
  destruct (cut_line s2 w) as (B10 & C3 & U3 & V3); [apply U2|by rewrite length_app, Nat.add_1_r|lia|done|].
  rewrite (proj2 (Z.ltb_lt 0 _)) by lia. cbv zeta.
  replace (Z.of_nat (S (length w)) - 1) with (Z.of_nat (length w)) by lia.
  rewrite B10. change (true && (10 =? 10)) with true. cbv iota.
  set (s3 := set_mem _ s2) in *. exists s3. split; [done|].
  replace (Z.of_nat (S (length w))) with (Z.of_nat (length w) + 1) in U2 by lia.
  split; [done|lia| |by rewrite V3, V2|done|by rewrite <- K3|by rewrite <- K2| |exact (eq_trans A2 P1)|exact (eq_trans G2 G1)].
  2: { intros e2 He2. rewrite <- K1, <- K3, Hf in He2. by injection He2 as ->. }
  eapply ustep_trans; [exact (ustep_draws p _ _ s s1 R D1 (ru_cursor _ _ R1))|].
  eapply ustep_trans; [exact U2|exact U3].
Qed.

(** What the shell does with the line. *)
Lemma shell_branch execute again s n w t s' :
  types_line s n w t -> after s n w t s' ->
  shell_command execute again buf s' =
    if decide (w = str "exit") then Ret 0 s'
    else if decide (w = []) then again s'
    else (rval <- execute buf ;; shell_report rval ;; again)%kernel s'.
Proof.
  intros T A. pose proof (af_string _ _ _ _ _ A) as C. pose proof (af_length _ _ _ _ _ A) as Hl.
  assert (E : literal_at s' (lit (str "exit")) (str "exit")).
  { apply (literal_step p buf (Z.of_nat (length w) + 1) s); [apply A|apply T|].
    destruct (tl_beside _ _ _ _ T) as [H|H]; [left; lia|right; exact H]. }
  destruct E as (Ce & _). unfold shell_command.
  destruct (ece391_strcmp_cstr 4096 _ _ w (str "exit") C Ce) as (r & -> & Hr); [lia|].
  destruct (decide (w = str "exit")) as [Ew|Ew]; [by rewrite (proj2 Hr Ew)|].
  rewrite (proj2 (Z.eqb_neq r 0)) by tauto. apply (cstr_at _ 0) in C. unfold at_ in C. rewrite Z.add_0_r in C.
  destruct w as [|c w]; [by rewrite C|]. destruct C as (E0 & Hc & _). rewrite E0.
  by rewrite (proj2 (Z.eqb_neq c 0)).
Qed.

(** The shell returns 0 when the line typed is [exit]; an empty line brings the next
    prompt.  In both cases the line has been echoed, the
    keyboard is ready for the next one and nothing else has changed. *)
Theorem shell_exits execute fuel s n w t :
  types_line s n w t -> w = str "exit" \/ w = [] ->
  exists s', after s n w t s' /\
    shell_loop execute (S fuel) buf s = if decide (w = []) then shell_loop execute fuel buf s' else Ret 0 s'.
Proof.
  intros T Hw. destruct (shell_reads execute fuel s n w t T) as (s' & E & A). exists s'. split; [done|].
  rewrite E, (shell_branch execute _ s n w t s' T A). by destruct Hw as [-> | ->].
Qed.

(** *** Commands *)

Lemma strncmp_quit f w :
  (forall j, 0 <= f j < 256) -> cstr f w -> take 4 w <> take 4 quit_str ->
  strncmp f (at_ quit_str 0) 4 <> 0.
Proof.
  intros Hb C Hq E. apply Hq. apply strncmp_zero in E; [|done|intros; apply (ldb_range quit_str)|lia].
  pose proof (E 0 ltac:(lia) ltac:(lia)) as E0. change (at_ quit_str 0 0) with 113 in E0.
  assert (E1 : f 1 = 117) by (apply (E 1); [lia|]; intros j Hj; replace j with 0 by lia; lia).
  assert (E2 : f 2 = 105) by (apply (E 2); [lia|]; intros j Hj; destruct (Z.eq_dec j 0) as [->|];
    [|replace j with 1 by lia]; lia).
  assert (E3 : f 3 = 116) by (apply (E 3); [lia|]; intros j Hj; destruct (Z.eq_dec j 0) as [->|];
    [|destruct (Z.eq_dec j 1) as [->|]; [|replace j with 2 by lia]]; lia).
  apply (cstr_at f 0) in C. destruct w as [|c0 w]; [lia|]. destruct C as (? & _ & C).
  apply (cstr_at f 1) in C. destruct w as [|c1 w]; [lia|]. destruct C as (? & _ & C).
  apply (cstr_at f 2) in C. destruct w as [|c2 w]; [lia|]. destruct C as (? & _ & C).
  apply (cstr_at f 3) in C. destruct w as [|c3 w]; [lia|]. destruct C as (? & _ & C).
  assert (c0 = 113 /\ c1 = 117 /\ c2 = 105 /\ c3 = 116) as (-> & -> & -> & ->) by lia. done.
Qed.

Lemma cstr_reads f l : cstr f l -> reads_list f (l ++ [0]).
Proof.
  intros (_ & C1 & C2) i Hi. rewrite length_app in Hi. simpl in Hi.
  destruct (Z.eq_dec i (Z.of_nat (length l))) as [->|]; [by rewrite C2, zget_snoc|].
  by rewrite zget_app_l, C1 by lia.
Qed.

(** The name copied out of a command is the word typed. *)
Lemma command_plain s name w argv i :
  first_word 32 (at_ (k_mem s) buf) 0 (replicate 32 0) = (i, name) ->
  parse_args 4096 (at_ (k_mem s) buf) i = Some argv -> cstr (at_ name 0) w -> w <> [] ->
  take 4 w <> take 4 quit_str ->
  plain_command (enter s) buf name argv /\ read_dentry_by_name (at_ name 0) (enter s) = entry_named s w.
Proof.
  intros Ew Ea C Hne Hq. assert (Hb : forall j, 0 <= at_ name 0 j < 256) by (intros; apply (ldb_range name)).
  split; [split|].
  - by exists i.
  - intros E. destruct w as [|c w]; [done|]. apply (cstr_at _ 0) in C as (C & Hc & _).
    change (u8 (zget 0 name 0) = c) in C. rewrite E in C. by subst c.
  - by apply (strncmp_quit _ w).
  - exact (entry_named_eq s w (at_ name 0) Hb C).
Qed.

Lemma execute_unknown fuel ebp command s name argv :
  plain_command s command name argv -> read_dentry_by_name (at_ name 0) s = None ->
  sys_execute (S fuel) ebp command s = Ret (-1) s.
Proof.
  intros [(i & Ew & Ea) Hne Hq] Hd. cbn [sys_execute]. unfold execute_body. rewrite Ew.
  rewrite (proj2 (Z.eqb_neq (zget 0 name 0) 0)) by done.
  rewrite (proj2 (Z.eqb_neq (strncmp _ _ _) 0)) by done. unfold kbind, kret. by rewrite Ea, Hd.
Qed.

(** A word the kernel reads as a command of its own. *)
Definition plain_word (w : list Z) : Prop :=
  w <> [] /\ w <> str "exit" /\ take 4 w <> take 4 quit_str /\ (length w < 32)%nat /\
  Forall (fun c => 0 < c < 256 /\ c <> 10 /\ c <> 32) w.

(** The buffer behind the word [w] has no space the scan of the word could stop at. *)
Definition no_stale_space (s : kst) (w : list Z) : Prop :=
  forall j, Z.of_nat (length w) < j <= 32 -> ldb (k_mem s) (buf + j) <> 32.

Lemma bare_command s n w t s' :
  after s n w t s' -> plain_word w -> no_stale_space s w ->
  exists name, plain_command (enter s') buf name (padded 128 []) /\
    read_dentry_by_name (at_ name 0) (enter s') = entry_named s w.
Proof.
  intros A (Hne & _ & Hq & Hl & Hw) Hs.
  destruct (parse_bare (at_ (k_mem s') buf) w) as (i & name & Ew & C & Ea); try done.
  - exact (cstr_reads _ _ (af_string _ _ _ _ _ A)).
  - intros. apply (ldb_range (k_mem s')).
  - intros j Hj. unfold at_. destruct W as (W1 & W2 & W3).
    rewrite (us_page _ _ _ _ _ (af_step _ _ _ _ _ A)); [by apply Hs|split_and!; lia|lia].
  - exists name. destruct (command_plain s' name w (padded 128 []) i) as [P E]; try done.
    split; [done|]. rewrite E. eapply entry_named_step, A.
Qed.

(** C14: a word that names no file is reported: the shell shows "no such command" after the
    echo of the line and prompts again; the kernel, the file system and, outside the
    buffer, the shell's page are as before and the keyboard is ready for the next line. *)
Theorem shell_reports_unknown fuel s n w t t' :
  let msg := str "no such command" ++ [10] in
  types_line s n w t -> plain_word w -> no_stale_space s w -> entry_named s w = None ->
  literal_at s (lit msg) msg -> beside buf 129 (lit msg) msg -> spec_puts msg t = Some t' ->
  exists s', shell_loop ece391_execute (S fuel) buf s = shell_loop ece391_execute fuel buf s' /\ scr_eq (view s') t' /\
    ustep p buf 129 s s' /\ keyboard_ready s' /\ pending scs s' = drop n (pending scs s) /\
    count_kbd (k_irqs s) = (n + count_kbd (k_irqs s'))%nat /\ k_pcbs s' = k_pcbs s.
Proof.
  intros msg T Hw Hsp Hd Hlit Hbes Hs. destruct (shell_reads ece391_execute fuel s n w t T) as (s1 & E1 & A).
  pose proof Hw as (Hne & Hex & _ & Hl & _). pose proof (af_step _ _ _ _ _ A) as U1.
  rewrite E1, (shell_branch _ _ s n w t s1 T A), !decide_False by done.
  destruct (bare_command s n w t s1 A Hw Hsp) as (name & P & En). rewrite Hd in En.
  assert (Hb : small_arg buf) by (destruct W as (?&?&?); unfold small_arg, MB128, MB132 in *; lia).
  unfold kbind at 1. rewrite call_execute, (execute_unknown 1 trap_ebp buf (enter s1) name (padded 128 [])) by done.
  cbn [leave]. rewrite leave_enter by (apply (us_run _ _ _ _ _ U1)).
  unfold shell_report. change ((-1 =? -1)%Z) with true. cbv iota. fold msg.
  apply ustep_wider with (k := 129) in U1; [|lia].
  destruct (spec_puts_proper msg t (view s1) t') as (u & Hu & Eu); [symmetry; apply A|done|].
  destruct (user_fdputs p s1 (lit msg) msg u (us_run _ _ _ _ _ U1) (literal_step _ _ _ _ _ _ _ U1 Hlit Hbes) Hu)
    as (s2 & E2 & D2 & V2 & R2).
  unfold kbind. rewrite E2. destruct (draws_keyboard scs s1 s2 D2) as (K1 & K2 & K3).
  destruct (draws_rest s1 s2 D2) as [P2 _]. exists s2. split; [done|]. split; [by rewrite V2, Eu|]. split_and!.
  - eapply ustep_trans; [exact U1|]. exact (ustep_draws p buf 129 s1 s2 (us_run _ _ _ _ _ U1) D2 (ru_cursor _ _ R2)).
  - unfold keyboard_ready. rewrite K1. apply A.
  - rewrite K3. apply A.
  - rewrite K2. apply A.
  - rewrite P2. apply A.
Qed.

(** *** Programs *)

(** The typed line [w], spaces, [a] as the kernel reads it from the buffer. *)
Lemma args_command s n w k a t s' :
  after s n (w ++ replicate (S k) 32 ++ a) t s' -> plain_word w -> a <> [] -> zget 0 a 0 <> 32 ->
  Forall (fun c => 0 < c < 256 /\ c <> 10) a ->
  plain_command (enter s') buf (padded 32 w) (padded 128 a) /\
  read_dentry_by_name (at_ (padded 32 w) 0) (enter s') = entry_named s w.
Proof.
  intros A (Hne & _ & Hq & Hl & Hw) Ha H32 Hfa. pose proof (af_length _ _ _ _ _ A) as Hlen.
  rewrite !length_app, length_replicate in Hlen.
  destruct (parse_line (at_ (k_mem s') buf) w k a 0) as [Ew Ea].
  - replace (w ++ replicate (S k) 32 ++ a ++ [0]) with ((w ++ replicate (S k) 32 ++ a) ++ [0])
      by (by rewrite <- !app_assoc).
    exact (cstr_reads _ _ (af_string _ _ _ _ _ A)).
  - eapply Forall_impl; [exact Hw|]. simpl. lia.
  - done.
  - by rewrite zget_app_l by (destruct a; [done|simpl; lia]).
  - by right.
  - lia.
  - lia.
  - assert (C : cstr (at_ (padded 32 w) 0) w).
    { assert (G : forall j, at_ (padded 32 w) 0 j = u8 (zget 0 (padded 32 w) j)) by done.
      split_and!; [eapply Forall_impl; [exact Hw|]; simpl; lia|intros j Hj|]; rewrite G; unfold padded.
      - rewrite zget_app_l by done. apply u8_small. unfold zget. rewrite (proj2 (Z.ltb_ge _ _)) by lia.
        destruct (lookup_lt_is_Some_2 w (Z.to_nat j)) as [c Hc]; [lia|]. rewrite Hc.
        eapply Forall_lookup_1 in Hw; [|exact Hc]. simpl in *. lia.
      - unfold zget. rewrite (proj2 (Z.ltb_ge _ _)), Nat2Z.id, lookup_app_r, Nat.sub_diag by lia.
        by replace (32 - length w)%nat with (S (31 - length w)) by lia. }
    destruct (command_plain s' (padded 32 w) w (padded 128 a) (Z.of_nat (length w))) as [P E]; try done.
    split; [done|]. rewrite E. eapply entry_named_step, A.
Qed.

(** A process that has just been started runs over the same files and screen. *)
Lemma started_running s e s' i ebp a :
  started e s' i ebp a -> k_con e = k_con s -> k_boot e = k_boot s -> 0 <= i < 6 -> upage (k_mem s') = frame i -> paging_on (k_mem s') = true ->
  (forall b, 0 <= b < _8MB -> ldb (k_mem s') b = ldb (k_mem s) b) ->
  running p s -> running i s' /\ scr_eq (view s') (view s) /\
  k_boot s' = k_boot s /\ same_image (k_mem s) (k_mem s') (k_boot s).
Proof.
  intros S Ec Eb Hi U P M R. destruct S. destruct st_devices as (_ & _ & Q1 & _ & _ & _ & Q2 & _).
  rewrite Ec in Q1. rewrite Eb in Q2. destruct R. assert (Im : same_image (k_mem s) (k_mem s') (k_boot s)).
  { destruct ru_wf as (H0 & _). intros j Hj. apply M. lia. }
  destruct (same_image_wf _ _ _ ru_wf Im) as [Hw Es]. split_and!; try done.
  - split; rewrite ?Q2, ?Es; try done; [by rewrite st_esp0|by apply st_std|by apply st_std|].
    unfold cursor_ok in *. by rewrite Q1.
  - split; [simpl; by rewrite Q1|]. intros j Hj. simpl. unfold chr, vid_get. apply M.
    unfold VIDEO, _8MB. lia.
Qed.

Context `{AS : !AlignedSymbols}.

(** What a program finds that the trap of [s] has started in process [i], from the file
    [d] and with the arguments [a]. *)
Record launched (s s' : kst) (i : Z) (d : dentry) (a : list Z) : Prop := {
  la_run : running i s';
  la_args : cstr (at_ (args (pcb_at i s')) 0) a;
  la_parent : parent_pid (pcb_at i s') = u32 (i - 1);
  la_back : saved_esp (pcb_at i s') = esp0 (k_tss s) - depth /\ saved_ebp (pcb_at i s') = trap_ebp;
  la_closed : forall fd, 2 <= fd <= 5 -> flag (fd_at i fd s') = 0;
  la_others : forall j, j <> i -> pcb_at j s' = pcb_at j s;
  la_program : bytes_at (k_mem s') (MB128 + PROC_OFFSET) (length (rest_of s (d_ind d) 0)) = rest_of s (d_ind d) 0;
  la_low : forall b, 0 <= b < frame i -> ldb (k_mem s') b = ldb (k_mem s) b;
  la_pages : kernel_pages (k_pg s') (frame i + 0x87);
  la_screen : scr_eq (view s') (view s);
  la_boot : k_boot s' = k_boot s;
  la_image : same_image (k_mem s) (k_mem s') (k_boot s);
  la_input : same_input s s'
}.

(** [execute] of a command that names an installed program. *)
Lemma user_launch s name a d pde :
  let i := find_pcb 6 0 (k_pcbs s) in
  running p s -> plain_command (enter s) buf name (padded 128 a) ->
  read_dentry_by_name (at_ name 0) (enter s) = Some d ->
  d_ft d = 2 -> d_ind d < nnod (k_mem s) (k_boot s) -> 40 <= file_len (k_mem s) (k_boot s) (d_ind d) <= PROG_MAX ->
  is_elf (k_mem s) (k_boot s) (d_ind d) ->
  kernel_pages (k_pg s) pde -> i < 6 -> (length a < 128)%nat -> Forall (fun c => 0 < c < 256) a ->
  exists s', ece391_execute buf s = EnterUser (elf_entry (k_mem s) (k_boot s) (d_ind d)) (MB132 - 4) s' /\
    launched s s' i d a.
Proof.
  intros i R P Hd Hft Hin Hsz Helf Hk Hi Hl Hfa.
  assert (Hb : small_arg buf) by (destruct W as (?&?&?); unfold small_arg, MB128, MB132 in *; lia).
  rewrite call_execute by done.
  assert (Ex : sys_execute 2 trap_ebp buf (enter s) =
    launch trap_ebp (d_ind d) (elf_entry (k_mem s) (k_boot s) (d_ind d)) (padded 128 a) (enter s)).
  { apply (execute_found 1 trap_ebp buf (enter s) name (padded 128 a) d P); try done; [apply R|apply Hsz]. }
  rewrite Ex. clear Ex.
  assert (H0 : exists e, enter s = e /\ k_mem e = k_mem s /\ k_boot e = k_boot s /\ k_pcbs e = k_pcbs s /\
    k_pg e = k_pg s /\ k_con e = k_con s /\ k_esp e = esp0 (k_tss s) - depth /\ same_input s e)
    by (by exists (enter s)).
  destruct H0 as (e & -> & Q1 & Q2 & Q3 & Q4 & Q5 & Q6 & Q7).
  destruct (launch_ok e pde (d_ind d) (elf_entry (k_mem s) (k_boot s) (d_ind d)) a trap_ebp)
    as (s' & E & St & U & Pg & Kp & B & M); rewrite ?Q1, ?Q2, ?Q3, ?Q4; try done;
    [unfold pcbs_ok; rewrite Q3; apply R|apply R|apply R|split; [apply ld32_range|done]|apply Hsz|].
  rewrite Q1, Q2, Q3 in *. fold i in E, St, U, Kp, M.
  destruct (find_pcb_spec 6 0 (k_pcbs s)) as (Hi0 & _). fold i in Hi0.
  assert (Ml : forall b, 0 <= b < frame i -> ldb (k_mem s') b = ldb (k_mem s) b).
  { intros b Hb'. apply M; unfold frame, MB128 in *; lia. }
  exists s'. rewrite E. split; [done|].
  destruct (started_running s e s' i trap_ebp a St Q5 Q2) as (R' & V & Bo & Im); try done; [lia| |].
  { intros b Hb'. apply Ml. unfold frame, _8MB in *. lia. }
  destruct (st_devices _ _ _ _ _ St) as (D1 & D2 & _ & _ & D4 & D3 & _).
  split; try done; try (apply St).
  - rewrite (st_esp _ _ _ _ _ St), (st_ebp _ _ _ _ _ St). by split.
  - intros j Hj. rewrite (st_others _ _ _ _ _ St) by done. unfold pcb_at. by rewrite Q3.
  - unfold rest_of. rewrite file_slice_length, Z.sub_0_r. exact B.
  - destruct Q7 as (I1 & I2 & I3 & I4). split_and!; congruence.
Qed.

End Rounds.
