(* ===== verification/SelfTest.v ===== *)
(** * The system call tests (syscalls/ece391syserr.c)

    The program that checks the errors of the system calls: eight tests, each of which
    makes calls that must fail, complains about the ones that do not, and prints its
    verdict.  The address of a test's buffer is an argument, as are the registers that
    [call_sys] leaves to the compiler.  In a process whose descriptors from 2 on are
    closed the kernel passes all of them. *)

From stdpp Require Import base list numbers gmap strings.
From Stdlib Require Import ZArith Lia.
From S2P Require Import Prelude Mem LibStr State Pic Console Rtc Keyboard Irq Terminal Paging.
From S2P Require Import Filesystem Syscall Process Idt User Programs.

Definition NEG_FD : Z := -1073741823.
Definition BIG_FD : Z := 1073741823.
Definition BIG_NUM : Z := 1073741823.
Definition NEG_NUM : Z := -1073741823.

Section Tests.
Context `{D : Device} `{Sy : Symbols} `{TF : TrapFrame} `{L : Literals}.

Definition call_sys (num ebx ecx edx : Z) : K Z := int80 num ebx ecx edx.

(** [if (-1 != r) { fail = 2; fdputs (msg); }] *)
Definition must_fail (msg : list Z) (r fail : Z) : K Z :=
  if negb (r =? -1) then (ece391_fdputs 1 (lit (msg ++ [10])) ;; kret 2)%kernel else kret fail.

(** The verdict of the test [name]. *)
Definition verdict (name : list Z) (fail : Z) : K Z :=
  ((if negb (fail =? 0)%Z then ece391_fdputs 1 (lit (name ++ str ": FAIL" ++ [10]))
    else ece391_fdputs 1 (lit (name ++ str ": PASS" ++ [10]))) ;;
   kret fail)%kernel.

Definition err_neg_fd (buf : Z) : K Z :=
  (r <- ece391_read NEG_FD buf 31 ;; fail <- must_fail (str "read fail") r 0 ;;
   r <- ece391_write NEG_FD buf 31 ;; fail <- must_fail (str "write fail") r fail ;;
   r <- ece391_close NEG_FD ;; fail <- must_fail (str "close fail") r fail ;;
   verdict (str "err_neg_fd") fail)%kernel.

Definition err_big_fd (buf : Z) : K Z :=
  (r <- ece391_read BIG_FD buf 31 ;; fail <- must_fail (str "read fail") r 0 ;;
   r <- ece391_write BIG_FD buf 31 ;; fail <- must_fail (str "write fail") r fail ;;
   r <- ece391_close BIG_FD ;; fail <- must_fail (str "close fail") r fail ;;
   verdict (str "err_big_fd") fail)%kernel.

Definition err_open_lots : K Z :=
  (cnt <- k_for 0 7 (fun _ cnt =>
     (r <- ece391_open (lit (str ".")) ;; kret (if r =? -1 then cnt + 1 else cnt))%kernel) 0 ;;
   k_for 2 8 (fun i _ => (ece391_close i ;; kret tt)%kernel) tt ;;
   if (cnt =? 1)%Z then (ece391_fdputs 1 (lit (str "err_open_lots: PASS" ++ [10])) ;; kret 0)
   else (ece391_fdputs 1 (lit (str "err_open_lots: FAIL" ++ [10])) ;; kret 2))%kernel.

Definition err_open : K Z :=
  (r <- ece391_open (lit (str "helloo")) ;; fail <- must_fail (str "'helloo' fail") r 0 ;;
   r <- ece391_open (lit (str "shel")) ;; fail <- must_fail (str "'shel' fail") r fail ;;
   r <- ece391_open (lit []) ;; fail <- must_fail (str "empty string fail") r fail ;;
   verdict (str "err_open") fail)%kernel.

Definition err_unopened (buf : Z) : K Z :=
  (fail <- k_for 0 8 (fun i fail =>
     (r <- ece391_close i ;; must_fail (str "close unopened or invalid fd fail") r fail)%kernel) 0 ;;
   fail <- k_for 2 8 (fun i fail =>
     (r <- ece391_read i buf 31 ;; must_fail (str "read from unopened fd fail") r fail)%kernel) fail ;;
   fail <- k_for 2 8 (fun i fail =>
     (r <- ece391_write i buf 31 ;; must_fail (str "write to unopened fd fail") r fail)%kernel) fail ;;
   verdict (str "err_unopened") fail)%kernel.

Definition err_vidmap : K Z :=
  (r <- ece391_vidmap 0x0 ;; fail <- must_fail (str "Null pointer fail") r 0 ;;
   r <- ece391_vidmap 0x400000 ;; fail <- must_fail (str "Kernel pointer fail fail") r fail ;;
   verdict (str "err_vidmap") fail)%kernel.

Definition err_stdin_out (buf : Z) : K Z :=
  (r <- ece391_write 0 buf 31 ;; fail <- must_fail (str "write to stdin fail") r 0 ;;
   r <- ece391_read 1 buf 31 ;; fail <- must_fail (str "read from stdout fail") r fail ;;
   verdict (str "err_stdin_out") fail)%kernel.

Definition err_syscall_num (ebx ecx edx : Z) : K Z :=
  (r <- call_sys BIG_NUM ebx ecx edx ;; fail <- must_fail (str "syscall 0 fail") r 0 ;;
   r <- call_sys NEG_NUM ebx ecx edx ;; fail <- must_fail (str "big num syscall fail") r fail ;;
   r <- call_sys 0 ebx ecx edx ;; fail <- must_fail (str "neg num syscall fail") r fail ;;
   verdict (str "err_syscall_num") fail)%kernel.

(** [case 0]: all of them. *)
Definition err_all (tbuf ebx ecx edx : Z) : K Z :=
  (f1 <- err_neg_fd tbuf ;; f2 <- err_big_fd tbuf ;; f3 <- err_open_lots ;; f4 <- err_open ;;
   f5 <- err_unopened tbuf ;; f6 <- err_vidmap ;; f7 <- err_stdin_out tbuf ;;
   f8 <- err_syscall_num ebx ecx edx ;;
   let fail := (f1 + f2 + f3 + f4 + f5 + f6 + f7 + f8)%Z in
   (if negb (fail =? 0)%Z then ece391_fdputs 1 (lit ([10] ++ str "Overall Tests: FAIL" ++ [10]))
    else ece391_fdputs 1 (lit ([10] ++ str "Overall Tests: PASS" ++ [10]))) ;;
   kret fail)%kernel.

Definition syserr_main (buf tbuf ebx ecx edx : Z) : K Z :=
  (ece391_fdputs 1 (lit (str "Choose from tests 1-8. 0 to run all: ")) ;;
   cnt <- ece391_read 0 buf 127 ;;
   if (cnt =? -1)%Z then (ece391_fdputs 1 (lit (str "Can't read test #" ++ [10])) ;; kret 2)
   else fun s =>
     let select := ldb (k_mem s) buf - 48 in
     (if (select =? 0)%Z then err_all tbuf ebx ecx edx
      else if (select =? 1)%Z then err_neg_fd tbuf
      else if (select =? 2)%Z then err_big_fd tbuf
      else if (select =? 3)%Z then err_open_lots
      else if (select =? 4)%Z then err_open
      else if (select =? 5)%Z then err_unopened tbuf
      else if (select =? 6)%Z then err_vidmap
      else if (select =? 7)%Z then err_stdin_out tbuf
      else if (select =? 8)%Z then err_syscall_num ebx ecx edx
      else (ece391_fdputs 1 (lit (str "Invalid test number. Choose from tests 1-8 or 0")) ;; kret 0)) s)%kernel.

End Tests.

(** ** The bench

    What the suite needs of the process it runs in: closed descriptors, a directory that
    can be opened and has none of the wrong names, and its literals, away from the line
    buffer. *)

Definition passed (name : list Z) : list Z := name ++ str ": PASS" ++ [10].

Definition all_passed : list Z :=
  passed (str "err_neg_fd") ++ passed (str "err_big_fd") ++ passed (str "err_open_lots") ++
  passed (str "err_open") ++ passed (str "err_unopened") ++ passed (str "err_vidmap") ++
  passed (str "err_stdin_out") ++ passed (str "err_syscall_num") ++
  [10] ++ str "Overall Tests: PASS" ++ [10].

Definition question : list Z := str "Choose from tests 1-8. 0 to run all: ".

Definition syserr_texts : list (list Z) :=
  [question; str "."; str "helloo"; str "shel";
   passed (str "err_neg_fd"); passed (str "err_big_fd"); passed (str "err_open_lots");
   passed (str "err_open"); passed (str "err_unopened"); passed (str "err_vidmap");
   passed (str "err_stdin_out"); passed (str "err_syscall_num"); [10] ++ str "Overall Tests: PASS" ++ [10]].

(** A text of the suite is one of the list. *)
Ltac listed := apply (bool_decide_unpack _); vm_compute; exact I.

Section Bench.
Context `{D : Device} `{Sy : Symbols} `{TF : TrapFrame} `{TO : !TrapOk} `{L : Literals}.
Context (p buf : Z).
Implicit Types s : kst.

Record bench (s : kst) : Prop := {
  be_run : running p s;
  be_closed : forall fd, 2 <= fd <= 7 -> flag (fd_at p fd s) = 0;
  be_dir : exists d, entry_named s (str ".") = Some d /\ d_ft d = 1;
  be_none : forall l, l ∈ [str "helloo"; str "shel"; []] -> entry_named s l = None;
  be_texts : forall l, l ∈ syserr_texts -> literal_at s (lit l) l /\ beside buf 128 (lit l) l;
  be_empty : at_ (k_mem s) (lit []) 0 = 0 /\ in_window (lit []) 1 /\ ~ (buf <= lit [] < buf + 128)
}.

(** Only the descriptors can spoil it. *)
Lemma bench_step s s' :
  bench s -> ustep p buf 128 s s' -> (forall fd, 2 <= fd <= 7 -> flag (fd_at p fd s') = 0) -> bench s'.
Proof.
  intros [B1 B2 B3 B4 B5 B6] U Hc. split; [apply U|done|..].
  - by setoid_rewrite (entry_named_step p buf 128 s s' _ U).
  - intros l Hl. rewrite (entry_named_step p buf 128 s s' _ U). by apply B4.
  - intros l Hl. destruct (B5 l Hl) as [Hl1 Hl2]. split; [|done]. by eapply literal_step.
  - destruct B6 as (E & W & Hn). split; [|done]. unfold at_ in *. rewrite Z.add_0_r in *.
    by rewrite (us_page _ _ _ _ _ U).
Qed.

(** The test [k] shows [l] and gives 0. *)
Definition passes (k : K Z) (l : list Z) : Prop := forall s t t',
  bench s -> scr_eq (view s) t -> spec_puts l t = Some t' ->
  exists s', k s = Ret 0 s' /\ bench s' /\ ustep p buf 128 s s' /\ scr_eq (view s') t'.

(** Printing one of the suite's texts. *)
Lemma bench_puts s l t t' :
  bench s -> l ∈ syserr_texts -> scr_eq (view s) t -> spec_puts l t = Some t' ->
  exists s', ece391_fdputs 1 (lit l) s = Ret tt s' /\ bench s' /\ draws s s' /\
    ustep p buf 128 s s' /\ scr_eq (view s') t'.
Proof.
  intros B Hl V Hs. destruct (be_texts _ B l Hl) as [La _].
  destruct (spec_puts_proper l t (view s) t' (symmetry V) Hs) as (u & Hu & Eu).
  destruct (user_fdputs p s (lit l) l u (be_run _ B) La Hu) as (s' & E & Dr & V' & R).
  pose proof (ustep_draws p buf 128 s s' (be_run _ B) Dr (ru_cursor _ _ R)) as U.
  exists s'. split; [done|]. split; [|split; [done|split; [done|by rewrite V', Eu]]].
  apply (bench_step s); [done|done|]. intros fd Hfd. rewrite (draws_fd p fd s s' Dr). by apply B.
Qed.

Lemma verdict_passes name : passed name ∈ syserr_texts -> passes (verdict name 0) (passed name).
Proof.
  intros Hl s t t' B V Hs. destruct (bench_puts s _ t t' B Hl V Hs) as (s' & E & B' & _ & U & V').
  exists s'. split; [|done]. unfold verdict, kbind. cbn [Z.eqb negb]. unfold passed in E. by rewrite E.
Qed.

(** A call that fails is followed by the rest of the test. *)
Lemma refused_then (c : K Z) (k : Z -> K Z) msg fail l :
  (forall s, bench s -> c s = Ret (-1) s) -> passes (k fail) l ->
  passes (r <- c ;; fail <- must_fail msg r fail ;; k fail)%kernel l.
Proof. intros Hc Hk s t t' B V Hs. unfold kbind. rewrite (Hc s B). by apply (Hk s t t'). Qed.

(** A loop of such calls. *)
Lemma refused_loop n lo (c : Z -> K Z) msg s :
  (forall i, lo <= i < lo + Z.of_nat n -> c i s = Ret (-1) s) ->
  k_up n lo (fun i fail => (r <- c i ;; must_fail msg r fail)%kernel) 0 s = Ret 0 s.
Proof.
  revert lo. induction n as [|n IH]; intros lo Hc; [done|]. cbn [k_up]. unfold kbind at 1 2.
  rewrite Hc by lia. apply IH. intros i Hi. apply Hc. lia.
Qed.

Lemma bench_bad s fd : bench s -> fd < 0 \/ 2 <= fd -> bad_fd p fd s.
Proof. intros B H. unfold bad_fd. pose proof (be_closed _ B fd). lia. Qed.

(** ** The tests *)

(** Every refused call leads to the verdict. *)
Ltac refuse := repeat (apply refused_then; [intros s B; pose proof (be_run _ B)|]); [..|apply verdict_passes; listed].

Lemma err_neg_fd_passes b : passes (err_neg_fd b) (passed (str "err_neg_fd")).
Proof.
  unfold err_neg_fd. refuse; [apply (user_read_bad p)|apply (user_write_bad p)|apply (user_close_bad p)]; try done;
    left; apply bench_bad; (done || left; reflexivity).
Qed.

Lemma err_big_fd_passes b : passes (err_big_fd b) (passed (str "err_big_fd")).
Proof.
  unfold err_big_fd. refuse; [apply (user_read_bad p)|apply (user_write_bad p)|apply (user_close_bad p)]; try done;
    left; apply bench_bad; (done || right; discriminate).
Qed.

Lemma err_stdin_out_passes b : passes (err_stdin_out b) (passed (str "err_stdin_out")).
Proof. unfold err_stdin_out. refuse; [apply (user_write_bad p)|apply (user_read_bad p)]; try done; by right. Qed.

Lemma err_vidmap_passes : passes err_vidmap (passed (str "err_vidmap")).
Proof. unfold err_vidmap. refuse; by apply (user_vidmap_bad p). Qed.

Lemma err_syscall_num_passes ebx ecx edx :
  passes (err_syscall_num ebx ecx edx) (passed (str "err_syscall_num")).
Proof. unfold err_syscall_num, call_sys. refuse; apply (user_call_bad p); try done; by (left + right). Qed.

Lemma bench_name s l : bench s -> l ∈ syserr_texts ->
  small_arg (lit l) /\ read_dentry_by_name (at_ (k_mem s) (lit l)) s = entry_named s l.
Proof.
  intros B Hl. destruct (be_texts _ B l Hl) as [(C & _ & _ & W1 & W2 & W3) _]. split.
  - unfold small_arg, MB128, MB132 in *. lia.
  - apply entry_named_eq; [intros; apply (ldb_range (k_mem s))|done].
Qed.

Lemma err_open_passes : passes err_open (passed (str "err_open")).
Proof.
  unfold err_open. refuse; (apply (user_open_none p); [done|..]).
  - apply (bench_name s); [done|listed].
  - rewrite (proj2 (bench_name s (str "helloo") B ltac:(listed))). apply (be_none _ B). listed.
  - apply (bench_name s); [done|listed].
  - rewrite (proj2 (bench_name s (str "shel") B ltac:(listed))). apply (be_none _ B). listed.
  - destruct (be_empty _ B) as (_ & (W1 & _ & W2) & _). unfold small_arg, MB128, MB132 in *. lia.
  - rewrite (entry_named_eq s []); [apply (be_none _ B); listed|intros; apply (ldb_range (k_mem s))|].
    split; [constructor|]. split; [simpl; lia|apply (be_empty _ B)].
Qed.

Lemma err_unopened_passes b : passes (err_unopened b) (passed (str "err_unopened")).
Proof.
  assert (P : passed (str "err_unopened") ∈ syserr_texts) by listed.
  intros s t t' B V Hs. pose proof (be_run _ B) as R. unfold err_unopened, k_for.
  pose proof (refused_loop 8 0 ece391_close (str "close unopened or invalid fd fail") s) as H1.
  pose proof (refused_loop 6 2 (fun i => ece391_read i b 31) (str "read from unopened fd fail") s) as H2.
  pose proof (refused_loop 6 2 (fun i => ece391_write i b 31) (str "write to unopened fd fail") s) as H3.
  cbv beta in H1, H2, H3. change (Z.to_nat (8 - 0)) with 8%nat. change (Z.to_nat (8 - 2)) with 6%nat.
  unfold kbind at 1. rewrite H1. 2: { intros i Hi. apply (user_close_bad p); [done|]. rewrite i32_small by lia.
    destruct (Z.le_gt_cases i 1); [right; lia|left]. apply bench_bad; [done|lia]. }
  unfold kbind at 1. rewrite H2. 2: { intros i Hi. apply (user_read_bad p); [done|]. left.
    rewrite i32_small by lia. apply bench_bad; [done|lia]. }
  unfold kbind at 1. rewrite H3. 2: { intros i Hi. apply (user_write_bad p); [done|]. left.
    rewrite i32_small by lia. apply bench_bad; [done|lia]. }
  exact (verdict_passes (str "err_unopened") P s t t' B V Hs).
Qed.

(** The first [j] descriptors from 2 on are open, the others closed. *)
Definition opened (j : Z) (s : kst) : Prop :=
  forall fd, 2 <= fd <= 7 -> flag (fd_at p fd s) = if fd <? 2 + j then 1 else 0.

Lemma opened_free j s : opened j s -> 0 <= j <= 6 ->
  free_fd 6 2 (file_desc_tb (pcb_at p s)) = if j <? 6 then Some (2 + j) else None.
Proof.
  intros O Hj. pose proof (free_fd_spec 6 2 (file_desc_tb (pcb_at p s))) as H. unfold opened, fd_at in O.
  destruct (free_fd 6 2 _) as [fd|].
  - destruct H as (H1 & H2 & H3). rewrite O in H2 by lia.
    destruct (Z.ltb_spec fd (2 + j)) as [|Hfd]; [done|]. destruct (Z.eq_dec fd (2 + j)) as [->|].
    + by rewrite (proj2 (Z.ltb_lt _ _)) by lia.
    + exfalso. apply (H3 (2 + j)); [lia|]. rewrite O by lia. by rewrite (proj2 (Z.ltb_ge _ _)) by lia.
  - destruct (Z.ltb_spec j 6) as [Hj6|]; [|done]. exfalso. apply (H (2 + j)); [lia|].
    rewrite O by lia. by rewrite (proj2 (Z.ltb_ge _ _)) by lia.
Qed.

(** Seven times [open]: the seventh fails. *)
Lemma open_loop d a k j s cnt :
  running p s -> small_arg a -> d_ft d = 1 -> opened j s -> 0 <= j -> j + Z.of_nat k = 7 ->
  (forall s', ustep p buf 128 s s' -> read_dentry_by_name (at_ (k_mem s') a) s' = Some d) ->
  exists s', k_up k j (fun _ cnt => (r <- ece391_open a ;; kret (if r =? -1 then cnt + 1 else cnt))%kernel) cnt s =
      Ret (if (0 <? k)%nat then cnt + 1 else cnt) s' /\
    ustep p buf 128 s s' /\ view s' = view s /\ (j <= 6 -> opened 6 s').
Proof.
  intros R Ha Hft. revert j s cnt R. induction k as [|k IH]; intros j s cnt R O Hj Hk Hn.
  { exists s. split_and!; [done|by apply ustep_refl|done|lia]. }
  cbn [k_up]. pose proof (opened_free j s O ltac:(lia)) as Hf.
  pose proof (Hn s (ustep_refl p buf 128 s R)) as Hd. destruct (Z.ltb_spec j 6) as [Hj6|Hj6].
  - destruct (user_open_fds p buf 128 s a d (2 + j) (mkFd F_dir (fd_inode (fd_at p (2 + j) s)) 0 1))
      as (s1 & E & F & U & _ & V & _ & Fo & _); try done; [by rewrite Hft|unfold fd_for; by rewrite Hft|].
    destruct (IH (j + 1) s1 cnt (us_run _ _ _ _ _ U)) as (s' & E' & U' & V' & O'); [|lia|lia|..].
    + intros fd Hfd. destruct (Z.eq_dec fd (2 + j)) as [->|Hne].
      * rewrite F, (proj2 (Z.ltb_lt _ _)) by lia. done.
      * rewrite Fo, O by lia. repeat split_if; lia.
    + intros s' U'. apply Hn. by eapply ustep_trans.
    + exists s'. unfold kbind at 1 2. rewrite E. unfold kret at 1. rewrite (proj2 (Z.eqb_neq (2 + j) (-1))) by lia.
      rewrite E'. split_and!; [|by eapply ustep_trans|by rewrite V'|intros; apply O'; lia].
      destruct k; [lia|done].
  - assert (k = 0%nat) as -> by lia. assert (j = 6) as -> by lia. exists s.
    unfold kbind at 1 2. rewrite (user_open_full p s a d) by (done || lia). simpl.
    split_and!; [done|by apply ustep_refl|done|done].
Qed.

(** Closing them again. *)
Lemma close_loop_all k s :
  running p s -> (k <= 6)%nat -> (forall fd, 2 <= fd <= 7 -> flag (fd_at p fd s) = if fd <? 8 - Z.of_nat k then 0 else 1) ->
  exists s', k_up k (8 - Z.of_nat k) (fun i _ => (ece391_close i ;; kret tt)%kernel) tt s = Ret tt s' /\
    ustep p buf 128 s s' /\ view s' = view s /\ forall fd, 2 <= fd <= 7 -> flag (fd_at p fd s') = 0.
Proof.
  revert s. induction k as [|k IH]; intros s R Hk O.
  { exists s. split_and!; [done|by apply ustep_refl|done|]. intros fd Hfd. rewrite O by done.
    by rewrite (proj2 (Z.ltb_lt _ _)) by lia. }
  cbn [k_up]. set (i := 8 - Z.of_nat (S k)) in *.
  destruct (user_close p buf 128 s i R) as (s1 & E & U & V & _ & F & Fo & _); [lia|rewrite O, (proj2 (Z.ltb_ge _ _)) by lia; done|].
  destruct (IH s1 (us_run _ _ _ _ _ U)) as (s' & E' & U' & V' & C); [lia|..].
  - intros fd Hfd. destruct (Z.eq_dec fd i) as [->|Hne].
    + rewrite F. simpl. by rewrite (proj2 (Z.ltb_lt _ _)) by lia.
    + rewrite Fo, O by done. repeat split_if; lia.
  - exists s'. unfold kbind at 1 2. rewrite E. unfold kret at 1. replace (i + 1) with (8 - Z.of_nat k) by lia.
    rewrite E'. split_and!; [done|by eapply ustep_trans|by rewrite V'|done].
Qed.

Lemma err_open_lots_passes : passes err_open_lots (passed (str "err_open_lots")).
Proof.
  assert (P : str "." ∈ syserr_texts) by listed.
  assert (P' : passed (str "err_open_lots") ∈ syserr_texts) by listed.
  intros s t t' B V Hs. pose proof (be_run _ B) as R. destruct (be_dir _ B) as (d & Hd & Hft).
  destruct (bench_name s (str ".") B P) as [Ha Hn]. destruct (be_texts _ B (str ".") P) as [La Lb].
  destruct (open_loop d (lit (str ".")) 7 0 s 0 R Ha Hft) as (s1 & E1 & U1 & V1 & O1); [|lia|lia|..].
  { intros fd Hfd. rewrite (be_closed _ B) by done. by rewrite (proj2 (Z.ltb_ge _ _)) by lia. }
  { intros s' U. destruct (literal_step p buf 128 s s' _ _ U La Lb) as (C & _).
    rewrite (entry_named_eq s' (str ".")); [|intros; apply (ldb_range (k_mem s'))|done].
    by rewrite (entry_named_step p buf 128 s s'). }
  destruct (close_loop_all 6 s1 (us_run _ _ _ _ _ U1)) as (s2 & E2 & U2 & V2 & C2); [lia|..].
  { intros fd Hfd. rewrite (O1 ltac:(lia) fd Hfd), (proj2 (Z.ltb_lt fd (2 + 6))) by lia.
    by rewrite (proj2 (Z.ltb_ge fd (8 - Z.of_nat 6))) by lia. }
  assert (U : ustep p buf 128 s s2) by (by eapply ustep_trans).
  destruct (bench_puts s2 (passed (str "err_open_lots")) t t') as (s3 & E3 & B3 & _ & U3 & V3);
    [by apply (bench_step s)|done|by rewrite V2, V1|done|].
  exists s3. split_and!; [|done|by eapply ustep_trans|done].
  unfold err_open_lots, k_for. change (Z.to_nat (7 - 0)) with 7%nat. change (Z.to_nat (8 - 2)) with 6%nat.
  unfold kbind at 1. rewrite E1. unfold kbind at 1. change (8 - Z.of_nat 6) with 2 in E2. rewrite E2.
  change ((if (0 <? 7)%nat then 0 + 1 else 0) =? 1) with true. cbv beta iota. unfold kbind.
  change (passed (str "err_open_lots")) with (str "err_open_lots: PASS" ++ [10]) in E3. by rewrite E3.
Qed.

(** ** The whole suite *)

Lemma bench_then (k : K Z) (c : Z -> K Z) l l' : passes k l -> passes (c 0) l' -> passes (x <- k ;; c x)%kernel (l ++ l').
Proof.
  intros Hk Hc s t t' B V Hs. rewrite spec_puts_app in Hs. destruct (spec_puts l t) as [u|] eqn:Eu; [|done].
  destruct (Hk s t u B V Eu) as (s1 & E1 & B1 & U1 & V1).
  destruct (Hc s1 u t' B1 V1 Hs) as (s2 & E2 & B2 & U2 & V2).
  exists s2. unfold kbind. rewrite E1. split_and!; [done|done|by eapply ustep_trans|done].
Qed.

Lemma err_all_passes b ebx ecx edx : passes (err_all b ebx ecx edx) all_passed.
Proof.
  unfold err_all, all_passed.
  apply bench_then; [apply err_neg_fd_passes|]. apply bench_then; [apply err_big_fd_passes|].
  apply bench_then; [apply err_open_lots_passes|]. apply bench_then; [apply err_open_passes|].
  apply bench_then; [apply err_unopened_passes|]. apply bench_then; [apply err_vidmap_passes|].
  apply bench_then; [apply err_stdin_out_passes|]. apply bench_then; [apply err_syscall_num_passes|].
  assert (P : [10] ++ str "Overall Tests: PASS" ++ [10] ∈ syserr_texts) by listed.
  intros s t t' B V Hs. destruct (bench_puts s _ t t' B P V Hs) as (s' & E & B' & _ & U & V').
  exists s'. split; [|exact (conj B' (conj U V'))]. change (negb (_ =? 0)) with false. cbv beta iota zeta. unfold kbind. by rewrite E.
Qed.

Context (scs : list Z) `{KD : !KeyboardDevice scs}.

(** C16: the kernel passes its system call tests.  In a process whose descriptors from 2 on
    are closed, over a directory that can be opened, when the user answers the question
    with 0, the suite shows a verdict PASS for each of its eight tests and for the
    whole and returns 0; the descriptors are closed again. *)
Theorem syserr_passes s b ebx ecx edx n l e' t1 t2 t :
  bench s -> keyboard_ready s -> in_window buf 128 ->
  first_line (pending scs s) (ed_of (k_kbd s)) = Some (n, 48 :: l, e') -> (n <= count_kbd (k_irqs s))%nat ->
  spec_puts question (view s) = Some t1 ->
  typed_screen (pending scs s) (ed_of (k_kbd s)) t1 = Some t2 ->
  spec_puts all_passed t2 = Some t ->
  exists s', syserr_main buf b ebx ecx edx s = Ret 0 s' /\ scr_eq (view s') t /\ bench s' /\
    ustep p buf 128 s s'.
Proof.
  intros B K W Hf Hn Hs1 Hs2 Hs. assert (P : question ∈ syserr_texts) by listed.
  destruct (be_texts _ B question P) as [La _].
  destruct (user_asks scs p s buf 127 n question (48 :: l) e' t1 t2 (be_run _ B) K W ltac:(unfold small_arg; lia) La
    Hf Hn Hs1 Hs2) as (s1 & s2 & E1 & E2 & Bt & Hl & _ & U2 & V2 & _ & _ & P2).
  assert (B2 : bench s2).
  { apply (bench_step s); [done|done|]. intros fd Hfd. unfold fd_at, pcb_at. rewrite P2. by apply (be_closed _ B). }
  destruct (err_all_passes b ebx ecx edx s2 t2 t B2 V2 Hs) as (s' & E & B' & U & V).
  exists s'. split_and!; [|done|done|by eapply ustep_trans].
  unfold syserr_main. unfold kbind at 1. unfold question in E1. rewrite E1.
  unfold kbind at 1. rewrite E2, (proj2 (Z.eqb_neq _ (-1))) by lia.
  assert (E0 : ldb (k_mem s2) buf = 48).
  { pose proof (bytes_at_get (k_mem s2) buf (length (48 :: l)) 0 ltac:(simpl; lia)) as G.
    rewrite Bt, Z.add_0_r in G. by rewrite <- G. }
  by rewrite E0.
Qed.

End Bench.
