(* ===== verification/Counter.v ===== *)
(** * The counter (syscalls/ece391counter.c)

    The program asks which of three tests to run and prints the numbers from 1 to 100,
    10000 or 100000.  Whatever line the user answers with, it ends. *)

From stdpp Require Import base list numbers gmap strings.
From Stdlib Require Import ZArith Lia.
From S2P Require Import Prelude Mem LibStr State Pic Console Rtc Keyboard Irq Terminal Paging.
From S2P Require Import Filesystem Syscall Process Idt User Programs.

Definition count_question : list Z :=
  str "Enter the Test Number: (0): 100, (1): 10000, (2): 100000" ++ [10].

Definition count_texts : list (list Z) := [count_question; [10]; str "Wrong Choice!" ++ [10]].

Section Counter.
Context `{D : Device} `{Sy : Symbols} `{TF : TrapFrame} `{L : Literals}.

(** The number [i + 1] on a line of its own. *)
Definition count_line (buf i : Z) : K unit := fun s =>
  match ece391_itoa 32 (u32 (i + 1)) buf 10 (k_mem s) with
  | None => NoFuel
  | Some m =>
      (kmod (set_mem m) ;; ece391_fdputs 1 buf ;; ece391_fdputs 1 (lit [10]))%kernel s
  end.

(** How far to count after the answer [c]. *)
Definition count_max (c : Z) : Z :=
  if c =? 48 then 100 else if c =? 49 then 10000 else if c =? 50 then 100000 else 0.

Definition counter_main (buf : Z) : K Z :=
  (ece391_fdputs 1 (lit count_question) ;;
   cnt <- ece391_read 0 buf (BUFSIZE - 1) ;;
   if (cnt =? -1)%Z then
     (ece391_fdputs 1 (lit (str "Can't read the number from keyboard." ++ [10])) ;; kret 3)
   else
     (kmod (fun s => set_mem (stb (k_mem s) (buf + cnt) 0) s) ;;
      fun s =>
        let c := ldb (k_mem s) buf in
        match ece391_strlen 4096 (at_ (k_mem s) buf) with
        | None => NoFuel
        | Some len =>
            (if (2 <? len)%Z || ((len =? 2)%Z && ((c <? 48)%Z || (50 <? c)%Z)) then
               (ece391_fdputs 1 (lit (str "Wrong Choice!" ++ [10])) ;; kret 0)
             else (k_for 0 (count_max c) (fun i _ => count_line buf i) tt ;; kret 0)) s
        end))%kernel.

End Counter.

(** ** What it shows *)

(** [k] numbers from [i + 1] on, a line each. *)
Fixpoint numbers (k : nat) (i : Z) : list Z :=
  match k with O => [] | S k' => itoa_text 10 (i + 1) ++ [10] ++ numbers k' (i + 1) end.

(** What the line [l] is answered with. *)
Definition count_answer (l : list Z) : list Z :=
  let c := zget 0 l 0 in let n := Z.of_nat (length l) in
  if (2 <? n) || ((n =? 2) && ((c <? 48) || (50 <? c)))
  then str "Wrong Choice!" ++ [10] else numbers (Z.to_nat (count_max c)) 0.

Section Counting.
Context `{D : Device} `{Sy : Symbols} `{TF : TrapFrame} `{TO : !TrapOk} `{L : Literals}.
Context (p buf : Z) (W : in_window buf 129).
Implicit Types s : kst.

Lemma decimal_length v : 0 <= v < 4294967296 -> (1 <= length (itoa_text 10 v) <= 32)%nat.
Proof.
  intros Hv. unfold itoa_text. destruct (Z.eqb_spec v 0); [simpl; lia|].
  pose proof (digits_of_length 32 10 v). rewrite length_map, length_rev. split; [|done].
  change (digits_of 32 10 v) with (if v <=? 0 then [] else v mod 10 :: digits_of 31 10 (v / 10)).
  rewrite (proj2 (Z.leb_gt v 0)) by lia. generalize (digits_of 31 10 (v / 10)). intros ds. simpl. lia.
Qed.

Lemma count_line_shows s i t t' :
  running p s -> 0 <= i -> i + 1 < 4294967296 -> literal_at s (lit [10]) [10] -> beside buf 129 (lit [10]) [10] ->
  scr_eq (view s) t -> spec_puts (itoa_text 10 (i + 1) ++ [10]) t = Some t' ->
  exists s', count_line buf i s = Ret tt s' /\ ustep p buf 129 s s' /\ scr_eq (view s') t'.
Proof.
  intros R Hi Hm Ll Hd V Hs. pose proof (decimal_length (i + 1) ltac:(lia)) as Hl.
  assert (W33 : in_window buf 33) by (destruct W as (?&?&?); unfold in_window; lia).
  destruct (itoa_ok (i + 1) buf 10 (k_mem s)) as (m & E & C & Ct); [lia|lia|exact (window_region p s buf 33 R W33)|].
  destruct (ustep_mem p buf 129 s m R W) as [U1 V1]; [eapply only_changes_weaken; [..|exact C]; lia|].
  rewrite spec_puts_app in Hs. destruct (spec_puts (itoa_text 10 (i + 1)) t) as [u|] eqn:Eu; [|done].
  destruct (spec_puts_proper (itoa_text 10 (i + 1)) t (view (set_mem m s)) u) as (u1 & Hu1 & Q1); [by rewrite V1, V|exact Eu|].
  assert (Lb : literal_at (set_mem m s) buf (itoa_text 10 (i + 1))).
  { split; [exact Ct|]. split; [intros H; rewrite H in Hl; simpl in Hl; lia|]. split; [lia|].
    destruct W as (?&?&?); unfold in_window; lia. }
  destruct (user_fdputs p (set_mem m s) buf _ u1 (us_run _ _ _ _ _ U1) Lb Hu1) as (s2 & E2 & D2 & V2 & R2).
  pose proof (ustep_draws p buf 129 _ s2 (us_run _ _ _ _ _ U1) D2 (ru_cursor _ _ R2)) as U2.
  assert (U12 : ustep p buf 129 s s2) by (by eapply ustep_trans).
  destruct (spec_puts_proper [10] u (view s2) t') as (u2 & Hu2 & Q2); [by rewrite V2|exact Hs|].
  destruct (user_fdputs p s2 (lit [10]) [10] u2 R2 (literal_step _ _ _ _ _ _ _ U12 Ll Hd) Hu2)
    as (s3 & E3 & D3 & V3 & R3).
  exists s3. split; [|split; [eapply ustep_trans; [exact U12|exact (ustep_draws p buf 129 s2 s3 R2 D3 (ru_cursor _ _ R3))]
    |by rewrite V3, Q2]].
  unfold count_line. rewrite u32_small by lia. rewrite ece391_itoa_same, E.
  unfold kbind at 1, kmod. unfold kbind. by rewrite E2, E3.
Qed.

Lemma counting k s i t t' :
  running p s -> 0 <= i -> i + Z.of_nat k < 4294967296 ->
  literal_at s (lit [10]) [10] -> beside buf 129 (lit [10]) [10] ->
  scr_eq (view s) t -> spec_puts (numbers k i) t = Some t' ->
  exists s', k_up k i (fun i _ => count_line buf i) tt s = Ret tt s' /\ ustep p buf 129 s s' /\ scr_eq (view s') t'.
Proof.
  revert s i t. induction k as [|k IH]; intros s i t R Hi Hm Ll Hd V Hs.
  { simpl in Hs. simplify_eq. exists s. split; [done|]. split; [by apply ustep_refl|done]. }
  cbn [numbers] in Hs. rewrite app_assoc, spec_puts_app in Hs.
  destruct (spec_puts (itoa_text 10 (i + 1) ++ [10]) t) as [u|] eqn:Eu; [|done].
  destruct (count_line_shows s i t u R Hi ltac:(lia) Ll Hd V Eu) as (s1 & E1 & U1 & V1).
  destruct (IH s1 (i + 1) u (us_run _ _ _ _ _ U1)) as (s' & E & U & V'); try done; try lia.
  { by eapply literal_step. }
  exists s'. split; [|split; [by eapply ustep_trans|done]]. cbn [k_up]. unfold kbind. by rewrite E1.
Qed.

Context (scs : list Z) `{KD : !KeyboardDevice scs}.

(** C17: the counter ends, whatever it is asked: for every line the user types it returns 0
    after showing either the numbers from 1 to 100, 10000 or 100000 in decimal, a line
    each, for the answers 0, 1 and 2, nothing for an empty line, or that the choice was
    wrong. *)
Theorem counter_ends s n l e' t1 t2 t :
  running p s -> keyboard_ready s ->
  literal_at s (lit count_question) count_question ->
  (forall q, q = [10] \/ q = str "Wrong Choice!" ++ [10] -> literal_at s (lit q) q /\ beside buf 129 (lit q) q) ->
  first_line (pending scs s) (ed_of (k_kbd s)) = Some (n, l, e') -> (n <= count_kbd (k_irqs s))%nat ->
  spec_puts count_question (view s) = Some t1 ->
  typed_screen (pending scs s) (ed_of (k_kbd s)) t1 = Some t2 ->
  spec_puts (count_answer l) t2 = Some t ->
  exists s', counter_main buf s = Ret 0 s' /\ scr_eq (view s') t /\ ustep p buf 129 s s'.
Proof.
  intros R K Lq Lt Hf Hn Hs1 Hs2 Hs.
  assert (W' : in_window buf 128) by (destruct W as (?&?&?); unfold in_window; lia).
  destruct (user_asks scs p s buf 1023 n _ l e' t1 t2 R K W' ltac:(unfold small_arg; lia) Lq Hf Hn Hs1 Hs2)
    as (s1 & s2 & E1 & E2 & B & Hl & Hz & U2 & V2 & _).
  apply ustep_wider with (k := 129) in U2; [|lia].
  destruct (end_string p s2 buf 129 l) as ((C & _) & U3 & V3); [apply U2|exact W|exact B|lia|lia|exact Hz|].
  unfold counter_main. unfold kbind at 1. rewrite E1. change (BUFSIZE - 1) with 1023. unfold kbind at 1.
  rewrite E2, (proj2 (Z.eqb_neq _ (-1))) by lia. unfold kbind at 1, kmod at 1. cbv beta iota.
  set (s3 := set_mem _ s2) in *. assert (U : ustep p buf 129 s s3) by (by eapply ustep_trans).
  assert (E0 : ldb (k_mem s3) buf = zget 0 l 0).
  { destruct C as (_ & C & _). rewrite <- C by lia. unfold at_. by rewrite Z.add_0_r. }
  cbv zeta. rewrite ece391_strlen_same, (strlen_cstr _ l 4096 C ltac:(lia) ltac:(lia)), E0.
  assert (V23 : scr_eq (view s3) t2) by (by rewrite V3, V2).
  assert (Lt3 : forall q, q = [10] \/ q = str "Wrong Choice!" ++ [10] -> literal_at s3 (lit q) q).
  { intros q Hq. destruct (Lt q Hq) as [Lq1 Lq2]. by eapply literal_step. }
  revert Hs. unfold count_answer. set (c := zget 0 l 0).
  cbv zeta.
  destruct ((2 <? _) || _); intros Hs.
  - destruct (spec_puts_proper (str "Wrong Choice!" ++ [10]) t2 (view s3) t (symmetry V23) Hs) as (u & Hu & Qu).
    destruct (user_fdputs p s3 _ _ u (us_run _ _ _ _ _ U) (Lt3 _ (or_intror eq_refl)) Hu) as (s4 & E4 & D4 & V4 & R4).
    exists s4. unfold kbind. rewrite E4. split; [reflexivity|]. split; [by rewrite V4, Qu|].
    eapply ustep_trans; [exact U|]. apply ustep_draws; [apply U|done|apply R4].
  - assert (Hc : 0 <= count_max c <= 100000) by (unfold count_max; repeat split_if; lia).
    destruct (counting (Z.to_nat (count_max c)) s3 0 t2 t (us_run _ _ _ _ _ U) ltac:(lia) ltac:(lia)
      (Lt3 [10] (or_introl eq_refl)) (proj2 (Lt [10] (or_introl eq_refl))) V23 Hs) as (s4 & E4 & U4 & V4).
    exists s4. unfold k_for, kbind. rewrite Z.sub_0_r, E4. split; [reflexivity|]. split; [exact V4|exact (ustep_trans _ _ _ _ _ _ U U4)].
Qed.

End Counting.
