(* ===== verification/Grep.v ===== *)
(** * grep (syscalls/ece391grep.c)

    The program that searches every file of the directory for a string.  [do_one_file]
    reads a file in pieces of up to 1024 bytes, moves the beginning of an unfinished line
    to the front of its buffer, and prints the lines that contain the string.  Proved:
    for a text whose lines fit the buffer it prints exactly those lines, in order, also
    where a line lies across pieces. *)

From stdpp Require Import base list numbers gmap strings.
From Stdlib Require Import ZArith Lia.
From S2P Require Import Prelude Mem LibStr State Pic Console Rtc Keyboard Irq Terminal Paging.
From S2P Require Import Filesystem Syscall Process Idt User Programs.

Section Grep.
Context `{D : Device} `{Sy : Symbols} `{TF : TrapFrame} `{L : Literals}.

(** The line from [line_start] ends at the next newline or at [last]. *)
Definition find_line_end (data line_start last : Z) (m : vmem) : option Z :=
  while 1030 (fun e => (e <? last) && negb (ldb m (data + e) =? 10)) (fun e => e + 1) line_start.

(** Searching the line: [k] positions from [check] on. *)
Fixpoint search_line (k : nat) (check data line_start s s_len fname : Z) : K unit :=
  match k with
  | O => kret tt
  | S k' => fun st =>
      let m := k_mem st in
      if (ldb m s =? ldb m (data + check)) &&
         (ece391_strncmp (at_ m (data + check)) (at_ m s) s_len =? 0)
      then (ece391_fdputs 1 fname ;; ece391_fdputs 1 (lit (str ":")) ;;
            ece391_fdputs 1 (data + line_start) ;; ece391_fdputs 1 (lit [10]))%kernel st
      else search_line k' (check + 1) data line_start s s_len fname st
  end.

(** The lines of the buffer; the result is how many bytes of it are still to be used. *)
Fixpoint grep_lines (fuel : nat) (data cnt line_start last s s_len fname : Z) : K Z :=
  match fuel with
  | O => fun _ => NoFuel
  | S f => fun st =>
      match find_line_end data line_start last (k_mem st) with
      | None => NoFuel
      | Some line_end =>
          if negb (ldb (k_mem st) (data + line_end) =? 10) && negb (cnt =? 0) && negb (line_start =? 0) then
            match ece391_strcpy 1030 data (data + line_start) (stb (k_mem st) (data + line_end) 0) with
            | None => NoFuel
            | Some m => Ret (last - line_start) (set_mem m st)
            end
          else
            (kmod (fun st => set_mem (stb (k_mem st) (data + line_end) 0) st) ;;
             search_line (Z.to_nat (line_end - line_start)) line_start data line_start s s_len fname ;;
             (let line_start := (line_end + 1)%Z in
              if last <=? line_start then kret 0%Z
              else grep_lines f data cnt line_start last s s_len fname))%kernel st
      end
  end.

(** The pieces of the file: [true] when it has been read to its end. *)
Fixpoint grep_pieces (fuel : nat) (fd data last s s_len fname : Z) : K bool :=
  match fuel with
  | O => fun _ => NoFuel
  | S f =>
      (cnt <- ece391_read fd (data + last) (BUFSIZE - last) ;;
       if (cnt =? -1)%Z then (ece391_fdputs 1 (lit (str "file read failed" ++ [10])) ;; kret false)
       else
         (last <- grep_lines 1030 data cnt 0 (last + cnt) s s_len fname ;;
          if (cnt =? 0)%Z then kret true else grep_pieces f fd data last s s_len fname))%kernel
  end.

Definition do_one_file (fuel : nat) (data s fname : Z) : K Z := fun st =>
  match ece391_strlen 4096 (at_ (k_mem st) s) with
  | None => NoFuel
  | Some s_len =>
      (fd <- ece391_open fname ;;
       if (fd =? -1)%Z then (ece391_fdputs 1 (lit (str "file open failed" ++ [10])) ;; kret (-1)%Z)
       else
         (read <- grep_pieces fuel fd data 0 s s_len fname ;;
          if negb read then kret (-1)%Z
          else
            (r <- ece391_close fd ;;
             if (r =? -1)%Z then (ece391_fdputs 1 (lit (str "file close failed" ++ [10])) ;; kret (-1)%Z)
             else kret 0%Z)))%kernel st
  end.

(** The entries of the directory, but those that begin with a dot. *)
Fixpoint grep_entries (n fuel : nat) (fd buf data search : Z) : K Z :=
  match n with
  | O => fun _ => NoFuel
  | S n' =>
      (cnt <- ece391_read fd buf (SBUFSIZE - 1) ;;
       if (cnt =? 0)%Z then kret 0%Z
       else if (cnt =? -1)%Z then
         (ece391_fdputs 1 (lit (str "directory entry read failed" ++ [10])) ;; kret 3%Z)
       else fun st =>
         if ldb (k_mem st) buf =? 46 then grep_entries n' fuel fd buf data search st
         else
           (kmod (fun st => set_mem (stb (k_mem st) (buf + cnt) 0) st) ;;
            r <- do_one_file fuel data search buf ;;
            if negb (r =? 0)%Z then kret 3%Z else grep_entries n' fuel fd buf data search) st)%kernel
  end.

Definition grep_main (n fuel : nat) (search buf data : Z) : K Z :=
  (r <- ece391_getargs search BUFSIZE ;;
   if negb (r =? 0)%Z then (ece391_fdputs 1 (lit (str "could not read argument" ++ [10])) ;; kret 3%Z)
   else
     (fd <- ece391_open (lit (str ".")) ;;
      if (fd =? -1)%Z then (ece391_fdputs 1 (lit (str "directory open failed" ++ [10])) ;; kret 2%Z)
      else grep_entries n fuel fd buf data search))%kernel.

End Grep.

(** ** What it is to show *)

(** The lines of a text: what its newlines separate, and what comes after the last. *)
Fixpoint lines_from (acc l : list Z) : list (list Z) :=
  match l with
  | [] => [acc]
  | c :: l' => if c =? 10 then acc :: lines_from [] l' else lines_from (acc ++ [c]) l'
  end.

Definition lines (l : list Z) : list (list Z) := lines_from [] l.

(** The line contains the string. *)
Fixpoint contains (s line : list Z) : bool :=
  match line with [] => false | _ :: l => bool_decide (s `prefix_of` line) || contains s l end.

Definition grep_line (s fname line : list Z) : list Z :=
  if contains s line then fname ++ str ":" ++ line ++ [10] else [].

Definition grep_out (s fname text : list Z) : list Z := flat_map (grep_line s fname) (lines text).

(** No line is longer than the buffer holds. *)
Definition short (text : list Z) : Prop := Forall (fun l => (length l <= 1023)%nat) (lines text).

Section Lines.

Lemma lines_from_app acc a b : 10 ∉ a -> lines_from acc (a ++ b) = lines_from (acc ++ a) b.
Proof.
  revert acc. induction a as [|c a IH]; intros acc Ha; simpl; [by rewrite app_nil_r|].
  rewrite (proj2 (Z.eqb_neq c 10)) by (intros ->; apply Ha; left).
  rewrite IH by (intros H; apply Ha; by right). by rewrite <- app_assoc.
Qed.

Lemma lines_last a : 10 ∉ a -> lines a = [a].
Proof. intros Ha. unfold lines. rewrite <- (app_nil_r a) at 1. by rewrite lines_from_app. Qed.

Lemma lines_cons a b : 10 ∉ a -> lines (a ++ 10 :: b) = a :: lines b.
Proof. intros Ha. unfold lines. by rewrite lines_from_app. Qed.

(** Without a newline in it, a text begins its first line. *)
Lemma lines_first a b : 10 ∉ a -> exists x ls, lines (a ++ b) = (a ++ x) :: ls.
Proof.
  intros Ha. unfold lines. rewrite lines_from_app by done. simpl. revert a Ha. induction b as [|c b IH]; intros a Ha; simpl.
  - exists [], []. by rewrite app_nil_r.
  - destruct (c =? 10) eqn:Ec; [exists [], (lines_from [] b); by rewrite app_nil_r|].
    destruct (IH (a ++ [c])) as (x & ls & E).
    { rewrite elem_of_app, elem_of_cons. intros [H|[H|H]]; [done|lia|by apply elem_of_nil in H]. }
    exists ([c] ++ x), ls. by rewrite E, <- app_assoc.
Qed.

Lemma grep_out_last s fname a : 10 ∉ a -> grep_out s fname a = grep_line s fname a.
Proof. intros Ha. unfold grep_out. rewrite lines_last by done. simpl. apply app_nil_r. Qed.

Lemma grep_out_cons s fname a b :
  10 ∉ a -> grep_out s fname (a ++ 10 :: b) = grep_line s fname a ++ grep_out s fname b.
Proof. intros Ha. unfold grep_out. by rewrite lines_cons. Qed.

Lemma short_cons a b : 10 ∉ a -> short (a ++ 10 :: b) -> short b.
Proof. intros Ha. unfold short. rewrite lines_cons by done. by intros [_ H]%Forall_cons. Qed.

Lemma short_first a b : 10 ∉ a -> short (a ++ b) -> (length a <= 1023)%nat.
Proof.
  intros Ha Hs. destruct (lines_first a b Ha) as (x & ls & E). unfold short in Hs. rewrite E in Hs.
  apply Forall_cons in Hs as [Hl _]. rewrite length_app in Hl. lia.
Qed.

(** Comparing [s] at a position of a line. *)
Lemma prefix_upto s x f g :
  cstr g s -> cstr f x -> (ece391_strncmp f g (Z.of_nat (length s)) = 0 <-> s `prefix_of` x).
Proof.
  intros Cg Cf. pose proof Cg as (Gz & Gs & Ge). pose proof Cf as (Fz & Fs & Fe). rewrite ece391_strncmp_zero by lia. split.
  - intros H. assert (E : forall i, 0 <= i < Z.of_nat (length s) -> i < Z.of_nat (length x) /\ f i = g i).
    { intros i Hi. pattern i. apply (Z_lt_induction (fun i => 0 <= i < Z.of_nat (length s) -> i < Z.of_nat (length x) /\ f i = g i)); [|lia|done].
      clear i Hi. intros i IH Hi. assert (Hle : i <= Z.of_nat (length x)).
      { destruct (Z.eq_dec i 0); [lia|]. destruct (IH (i - 1)); lia. }
      assert (Eq : f i = g i).
      { apply H; [done|]. intros j Hj. apply (cstr_get f x); [done|]. destruct (IH j); lia. }
      split; [|done]. destruct (Z.eq_dec i (Z.of_nat (length x))) as [->|]; [|lia]. exfalso.
      apply (cstr_get g s (Z.of_nat (length x))); [done|lia|congruence]. }
    assert (Hl : (length s <= length x)%nat).
    { destruct s as [|c s]; [simpl; lia|]. destruct (E (Z.of_nat (length s))) as [? _]; simpl in *; lia. }
    exists (drop (length s) x). rewrite <- (take_drop (length s) x) at 1. f_equal.
    apply (zlist_ext 0); rewrite length_take; [lia|]. intros i Hi.
    rewrite zget_take by lia. rewrite <- Fs, <- Gs by lia. apply E. lia.
  - intros [y ->] i Hi _. rewrite Fs, Gs by (rewrite ?length_app; lia). by rewrite zget_app_l by lia.
Qed.

End Lines.

(** ** The loops *)

Lemma while_count (c : Z -> bool) fuel i n :
  0 <= n <= Z.of_nat fuel -> (forall j, i <= j < i + n -> c j = true) -> c (i + n) = false ->
  while fuel c (fun e => e + 1) i = Some (i + n).
Proof.
  revert i n. induction fuel as [|f IH]; intros i n Hn Ht Hf; simpl.
  - assert (n = 0) as -> by lia. rewrite Z.add_0_r in *. by rewrite Hf.
  - destruct (Z.eq_dec n 0) as [->|Hne]; [rewrite Z.add_0_r in *; by rewrite Hf|].
    rewrite Ht by lia. rewrite (IH (i + 1) (n - 1)); [f_equal; lia|lia|intros; apply Ht; lia|by rewrite <- Hf; f_equal; lia].
Qed.

(** The bytes [l] are at [a]. *)
Definition bytes_here (m : vmem) (a : Z) (l : list Z) : Prop :=
  forall i, 0 <= i < Z.of_nat (length l) -> ldb m (a + i) = zget 0 l i.

Lemma bytes_here_app m a l1 l2 :
  bytes_here m a (l1 ++ l2) <-> bytes_here m a l1 /\ bytes_here m (a + Z.of_nat (length l1)) l2.
Proof.
  unfold bytes_here. rewrite length_app. split.
  - intros H. split; intros i Hi.
    + rewrite H, zget_app_l by lia. done.
    + rewrite <- Z.add_assoc, H by lia. apply zget_app_r. lia.
  - intros [H1 H2] i Hi. destruct (Z.lt_ge_cases i (Z.of_nat (length l1))).
    + rewrite H1, zget_app_l by lia. done.
    + replace i with (Z.of_nat (length l1) + (i - Z.of_nat (length l1))) by lia.
      rewrite zget_app_r, Z.add_assoc by lia. apply H2. lia.
Qed.

Lemma bytes_here_bytes m a l : bytes_at m a (length l) = l -> bytes_here m a l.
Proof. intros E i Hi. rewrite <- E. symmetry. by apply bytes_at_get. Qed.

Lemma not_in_zget l c i : c ∉ l -> 0 <= i < Z.of_nat (length l) -> zget 0 l i <> c.
Proof.
  intros Hc Hi E. apply Hc. unfold zget in E. rewrite (proj2 (Z.ltb_ge _ _)) in E by lia.
  destruct (lookup_lt_is_Some_2 l (Z.to_nat i)) as [x Hx]; [lia|]. rewrite Hx in E. simpl in E. subst.
  by eapply list_elem_of_lookup_2.
Qed.

(** The end of the line [a]: a newline, or the end of the bytes. *)
Lemma find_line_end_ok m data ls a b :
  bytes_here m (data + ls) (a ++ b) -> 10 ∉ a -> (length a <= 1024)%nat -> (b = [] \/ exists b', b = 10 :: b') ->
  find_line_end data ls (ls + Z.of_nat (length (a ++ b))) m = Some (ls + Z.of_nat (length a)).
Proof.
  intros H Ha Hl Hb. apply while_count; rewrite ?length_app; [lia|intros j Hj|].
  - apply bytes_here_app in H as [H _]. specialize (H (j - ls) ltac:(lia)).
    replace (data + ls + (j - ls)) with (data + j) in H by lia.
    rewrite (proj2 (Z.ltb_lt _ _)) by lia. rewrite H. simpl. apply negb_true_iff, Z.eqb_neq, not_in_zget; [done|lia].
  - destruct Hb as [->|[b' ->]]; [rewrite (proj2 (Z.ltb_ge _ _)); [done|simpl; lia]|].
    apply bytes_here_app in H as [_ H]. specialize (H 0 ltac:(simpl; lia)). rewrite Z.add_0_r in H.
    replace (data + (ls + Z.of_nat (length a))) with (data + ls + Z.of_nat (length a)) by lia. rewrite H.
    by rewrite andb_false_r.
Qed.

Lemma only_changes_first (m : vmem) a v n : 1 <= n -> only_changes m (stb m a v) a n.
Proof. intros Hn. pose proof (only_changes_stb m a n 0 v ltac:(lia)) as H. by rewrite Z.add_0_r in H. Qed.

(** Moving a string down. *)
Lemma ece391_strcpy_down l m dst off fuel :
  1 <= off -> (length l <= fuel)%nat -> Forall (fun c => c <> 0) l ->
  region m dst (off + Z.of_nat (length l) + 1) ->
  bytes_here m (dst + off) l -> ldb m (dst + off + Z.of_nat (length l)) = 0 ->
  exists m', ece391_strcpy fuel dst (dst + off) m = Some m' /\ bytes_here m' dst l /\
    ldb m' (dst + Z.of_nat (length l)) = 0 /\ only_changes m m' dst (Z.of_nat (length l) + 1).
Proof.
  revert m dst fuel. induction l as [|c l IH]; intros m dst fuel Ho Hf Hz Rg H0 He; simpl length in *.
  - rewrite Z.add_0_r in *. exists (stb m dst 0).
    destruct fuel; cbn [ece391_strcpy]; rewrite He; cbn [Z.eqb]; (split; [done|]);
      (split; [intros i Hi; simpl in Hi; lia|]); (split; [by rewrite ldb_stb_eq|by apply only_changes_first]).
  - destruct fuel as [|fuel]; [lia|]. cbn [ece391_strcpy]. apply Forall_cons in Hz as [Hc Hz].
    assert (E0 : ldb m (dst + off) = c) by (rewrite <- (Z.add_0_r (dst + off)); by apply H0; simpl; lia).
    rewrite E0, (proj2 (Z.eqb_neq c 0)) by done. set (m1 := stb m dst c).
    assert (St : forall i, 1 <= i <= off + Z.of_nat (length l) + 1 -> ldb m1 (dst + i) = ldb m (dst + i)).
    { intros i Hi. unfold m1. rewrite ldb_stb_other; [done|]. rewrite <- (Z.add_0_r dst) at 1.
      apply (region_ne _ _ _ _ _ Rg); lia. }
    destruct (IH m1 (dst + 1) fuel) as (m' & E & B & Ez & C); try done; try lia.
    + apply region_stb. eapply region_sub; [..|exact Rg]; lia.
    + intros i Hi. replace (dst + 1 + off + i) with (dst + (1 + off + i)) by lia. rewrite St by lia.
      replace (dst + (1 + off + i)) with (dst + off + (1 + i)) by lia. rewrite H0 by (simpl; lia). apply zget_cons_succ. lia.
    + replace (dst + 1 + off + Z.of_nat (length l)) with (dst + (off + Z.of_nat (length l) + 1)) by lia.
      rewrite St by lia. rewrite <- He. f_equal. lia.
    + exists m'. replace (dst + off + 1) with (dst + 1 + off) by lia. split; [done|].
      assert (Ed : ldb m' dst = c).
      { rewrite <- (Z.add_0_r dst). destruct C as (_ & _ & C). rewrite C.
        - rewrite Z.add_0_r. unfold m1. rewrite ldb_stb_eq by done. rewrite <- E0. apply u8_small, (ldb_range m).
        - intros j Hj. replace (dst + 1 + j) with (dst + (1 + j)) by lia. unfold m1. rewrite cell_stb, cell_stb.
          apply (region_ne _ _ _ _ _ Rg); lia. }
      split_and!.
      * intros i Hi. simpl in Hi. destruct (Z.eq_dec i 0) as [->|]; [rewrite Z.add_0_r; done|].
        replace (dst + i) with (dst + 1 + (i - 1)) by lia. rewrite B by lia.
        replace i with (1 + (i - 1)) at 2 by lia. symmetry. apply zget_cons_succ. lia.
      * rewrite <- Ez. f_equal. lia.
      * eapply only_changes_trans; [apply (only_changes_first m dst c); lia|].
        eapply only_changes_weaken; [..|exact C]; lia.
Qed.

(** ** A file *)

(** Only the screen has changed. *)
Record prints_only `{D : Device} `{Sy : Symbols} `{TF : TrapFrame} (p : Z) (s s' : kst) : Prop := {
  po_step : ustep p 0 0 s s';
  po_fds : forall fd, fd_at p fd s' = fd_at p fd s
}.

Section OneFile.
Context `{D : Device} `{Sy : Symbols} `{TF : TrapFrame} `{TO : !TrapOk} `{L : Literals}.
Context (p data sp fp : Z) (s fname : list Z).
Hypotheses (W : in_window data 1025) (Bs : beside data 1025 sp s) (Bf : beside data 1025 fp fname).
Hypotheses (Bc : beside data 1025 (lit (str ":")) (str ":")) (Bn : beside data 1025 (lit [10]) [10]).
Implicit Types st : kst.

(** The search string, the file's name and the literals are in place. *)
Record tools (st : kst) : Prop := {
  to_s : literal_at st sp s;
  to_name : literal_at st fp fname;
  to_colon : literal_at st (lit (str ":")) (str ":");
  to_nl : literal_at st (lit [10]) [10]
}.

Lemma tools_step st st' : ustep p data 1025 st st' -> tools st -> tools st'.
Proof. intros U [T1 T2 T3 T4]. split; by eapply literal_step. Qed.

Lemma prints_refl st : running p st -> prints_only p st st.
Proof. intros R. split; [by apply ustep_refl|done]. Qed.

Lemma prints_only_trans st1 st2 st3 : prints_only p st1 st2 -> prints_only p st2 st3 -> prints_only p st1 st3.
Proof. intros [U1 F1] [U2 F2]. split; [by eapply ustep_trans|]. intros fd. by rewrite F2. Qed.

Lemma prints_byte st st' a : prints_only p st st' -> in_window a 1 -> ldb (k_mem st') a = ldb (k_mem st) a.
Proof. intros [U _] Wa. apply (us_page _ _ _ _ _ U); [done|lia]. Qed.

Lemma prints_literal st st' a l : prints_only p st st' -> literal_at st a l -> literal_at st' a l.
Proof.
  intros [U _] Hl. eapply literal_step; [exact U|done|]. left. destruct Hl as (_ & _ & _ & (H1 & _)).
  unfold MB128 in H1. lia.
Qed.

Lemma prints_puts st a l t t' :
  running p st -> literal_at st a l -> scr_eq (view st) t -> spec_puts l t = Some t' ->
  exists st', ece391_fdputs 1 a st = Ret tt st' /\ prints_only p st st' /\ scr_eq (view st') t'.
Proof.
  intros R Hl V Hs. destruct (spec_puts_proper l t (view st) t' (symmetry V) Hs) as (u & Hu & Eu).
  destruct (user_fdputs p st a l u R Hl Hu) as (st' & E & Dr & V' & R').
  exists st'. split; [done|]. split; [|by rewrite V', Eu].
  split; [by apply ustep_draws; [..|apply R']|]. intros fd. by apply draws_fd.
Qed.

(** A line: [y] is what is left of [x], the string at [data + ls]. *)
Lemma search_line_ok x y ls st t t' :
  running p st -> tools st -> (x <> [] -> literal_at st (data + ls) x) -> y `suffix_of` x ->
  scr_eq (view st) t ->
  spec_puts (if contains s y then fname ++ str ":" ++ x ++ [10] else []) t = Some t' ->
  exists st', search_line (length y) (ls + Z.of_nat (length x) - Z.of_nat (length y)) data ls sp
      (Z.of_nat (length s)) fp st = Ret tt st' /\ prints_only p st st' /\ scr_eq (view st') t'.
Proof.
  intros R T Hx Hy V Hs. revert Hy Hs. induction y as [|c y IH]; intros Hy Hs.
  { simpl in Hs. simplify_eq. exists st. split; [done|]. split; [by apply prints_refl|done]. }
  assert (Hne : x <> []) by (intros ->; by apply suffix_nil_inv in Hy).
  destruct Hy as [z Ez]. assert (Lx : length x = (length z + S (length y))%nat) by (by rewrite Ez, length_app).
  pose proof (Hx Hne) as Hl. pose proof Hl as (Cx & _). destruct (to_s _ T) as (Cs & Hsne & _).
  cbn [search_line length]. set (m := k_mem st).
  replace (ls + Z.of_nat (length x) - Z.of_nat (S (length y))) with (ls + Z.of_nat (length z)) by lia.
  set (chk := ls + Z.of_nat (length z)).
  assert (Cy : cstr (at_ m (data + chk)) (c :: y)).
  { destruct Cx as (Cz & Cb & Ce). rewrite Ez in Cz, Cb, Ce. rewrite length_app in Cb, Ce. apply Forall_app in Cz as [_ Cz].
    split; [done|]. unfold at_ in *. split.
    - intros i Hi. simpl length in *. replace (data + chk + i) with (data + ls + (Z.of_nat (length z) + i)) by (unfold chk; lia).
      rewrite Cb by lia. apply zget_app_r. lia.
    - rewrite <- Ce. f_equal. simpl length. unfold chk. lia. }
  pose proof (prefix_upto s (c :: y) _ _ Cs Cy) as Px. fold m in Px.
  assert (Ht : (ldb m sp =? ldb m (data + chk)) &&
    (ece391_strncmp (at_ m (data + chk)) (at_ m sp) (Z.of_nat (length s)) =? 0) = bool_decide (s `prefix_of` c :: y)).
  { case_bool_decide as Hp.
    - rewrite (proj2 Px Hp). cbn [Z.eqb]. rewrite andb_true_r. apply Z.eqb_eq. destruct s as [|c' s']; [done|].
      destruct Hp as [w Hw]. injection Hw as -> _. destruct Cs as (_ & Cs & _), Cy as (_ & Cy & _).
      specialize (Cs 0 ltac:(simpl; lia)). specialize (Cy 0 ltac:(simpl; lia)). unfold at_ in *.
      rewrite Z.add_0_r in *. exact (eq_trans Cs (eq_sym Cy)).
    - apply andb_false_iff. right. apply Z.eqb_neq. intros H0. by apply Hp, Px. }
  rewrite Ht. cbn [contains] in Hs. case_bool_decide as Hp; cbn [orb] in Hs.
  - rewrite !spec_puts_app in Hs.
    destruct (spec_puts fname t) as [t1|] eqn:E1; [|done]. rewrite spec_puts_app in Hs.
    destruct (spec_puts (str ":") t1) as [t2|] eqn:E2; [|done]. rewrite spec_puts_app in Hs.
    destruct (spec_puts x t2) as [t3|] eqn:E3; [|done].
    destruct (prints_puts st fp fname t t1) as (s1 & F1 & P1 & V1); [done|apply T|done|done|].
    destruct (prints_puts s1 _ _ t1 t2 (us_run _ _ _ _ _ (po_step _ _ _ P1)) (prints_literal _ _ _ _ P1 (to_colon _ T)) V1 E2)
      as (s2 & F2 & P2 & V2). pose proof (prints_only_trans _ _ _ P1 P2) as P02.
    destruct (prints_puts s2 _ _ t2 t3 (us_run _ _ _ _ _ (po_step _ _ _ P2)) (prints_literal _ _ _ _ P02 Hl) V2 E3)
      as (s3 & F3 & P3 & V3). pose proof (prints_only_trans _ _ _ P02 P3) as P03.
    destruct (prints_puts s3 _ _ t3 t' (us_run _ _ _ _ _ (po_step _ _ _ P3)) (prints_literal _ _ _ _ P03 (to_nl _ T)) V3 Hs)
      as (s4 & F4 & P4 & V4).
    exists s4. split; [unfold kbind; by rewrite F1, F2, F3|]. split; [by eapply prints_only_trans|done].
  - destruct IH as (st' & E & P & V'); [exists (z ++ [c]); by rewrite <- app_assoc|done|].
    exists st'. split; [|done]. rewrite <- E. f_equal. unfold chk. lia.
Qed.

(** Steps that may also change the buffer. *)
Record edits (st st' : kst) : Prop := {
  ed_step : ustep p data 1025 st st';
  ed_fds : forall fd, fd_at p fd st' = fd_at p fd st
}.

Lemma edits_trans st1 st2 st3 : edits st1 st2 -> edits st2 st3 -> edits st1 st3.
Proof. intros [U1 F1] [U2 F2]. split; [by eapply ustep_trans|]. intros fd. by rewrite F2. Qed.

Lemma edits_prints st st' : prints_only p st st' -> edits st st'.
Proof. intros [U F]. split; [by apply ustep_0|done]. Qed.

Lemma edits_mem st m : running p st -> only_changes (k_mem st) m data 1025 ->
  edits st (set_mem m st) /\ scr_eq (view (set_mem m st)) (view st).
Proof. intros R C. destruct (ustep_mem p data 1025 st m R W C) as [U V]. by split. Qed.

Lemma data_ne st i j : running p st -> 0 <= i <= 1024 -> 0 <= j <= 1024 -> i <> j ->
  cell (k_mem st) (data + i) <> cell (k_mem st) (data + j).
Proof. intros R Hi Hj Hne. apply (region_ne _ _ _ _ _ (window_region p st data 1025 R W)); lia. Qed.

(** Ending the line [a] with a NUL and searching it. *)
Lemma line_searched a ls st t t' :
  running p st -> tools st -> 0 <= ls -> ls + Z.of_nat (length a) <= 1024 ->
  bytes_here (k_mem st) (data + ls) a -> Forall (fun c => c <> 0) a -> scr_eq (view st) t ->
  spec_puts (grep_line s fname a) t = Some t' ->
  let le := ls + Z.of_nat (length a) in
  exists st', (kmod (fun st => set_mem (stb (k_mem st) (data + le) 0) st) ;;
      search_line (Z.to_nat (le - ls)) ls data ls sp (Z.of_nat (length s)) fp)%kernel st = Ret tt st' /\
    edits st st' /\ scr_eq (view st') t' /\ ldb (k_mem st') (data + le) = 0 /\
    forall i, 0 <= i <= 1024 -> i <> le -> ldb (k_mem st') (data + i) = ldb (k_mem st) (data + i).
Proof.
  intros R T Hls Hle B Hz V Hs le. set (m := stb (k_mem st) (data + le) 0).
  destruct (edits_mem st m R) as [E1 V1]; [apply only_changes_stb; unfold le; lia|]. set (s1 := set_mem m st) in *.
  pose proof (us_run _ _ _ _ _ (ed_step _ _ E1)) as R1.
  assert (G : forall i, 0 <= i <= 1024 -> i <> le -> ldb m (data + i) = ldb (k_mem st) (data + i)).
  { intros i Hi Hne. unfold m. rewrite ldb_stb_other; [done|]. apply data_ne; try done; unfold le; lia. }
  assert (G0 : ldb m (data + le) = 0) by (unfold m; by rewrite ldb_stb_eq).
  assert (Win : forall i, 0 <= i <= 1024 -> in_window (data + i) 1).
  { intros i Hi. destruct W as (?&?&?). unfold in_window. lia. }
  destruct (search_line_ok a a ls s1 t t') as (s2 & E2 & P2 & V2).
  - done.
  - by eapply tools_step; [exact (ed_step _ _ E1)|].
  - intros Hne. split_and!; [split_and!; [done| |]|done|lia|].
    + intros i Hi. unfold at_. change (k_mem s1) with m. rewrite <- Z.add_assoc, G by (unfold le; lia).
      rewrite Z.add_assoc. by apply B.
    + unfold at_. change (k_mem s1) with m. rewrite <- Z.add_assoc. exact G0.
    + destruct W as (?&?&?). unfold in_window. lia.
  - done.
  - by rewrite V1.
  - unfold grep_line in Hs. exact Hs.
  - exists s2. split; [|split; [eapply edits_trans; [exact E1|by apply edits_prints]|split; [done|split]]].
    + unfold kbind at 1, kmod. fold m. fold s1. rewrite <- E2. f_equal; unfold le; lia.
    + rewrite (prints_byte _ _ _ P2) by (apply Win; unfold le; lia). exact G0.
    + intros i Hi Hne. rewrite (prints_byte _ _ _ P2) by by apply Win. by apply G.
Qed.

(** The buffer holds the part [l] of the text, which goes on with [rest]; the screen
    shows what it must when the lines of both are still to be searched. *)
Record holds (a : Z) (st : kst) (l rest : list Z) (t' : scr) : Prop := {
  ho_run : running p st;
  ho_tools : tools st;
  ho_bytes : bytes_here (k_mem st) (data + a) l;
  ho_text : Forall (fun c => c <> 0) l;
  ho_guard : ldb (k_mem st) (data + 1024) <> 10;
  ho_short : short (l ++ rest);
  ho_shows : exists t, scr_eq (view st) t /\ spec_puts (grep_out s fname (l ++ rest)) t = Some t'
}.

Lemma holds_after a st l rest t' st' l' u a' :
  holds a st l rest t' -> edits st st' -> scr_eq (view st') u ->
  bytes_here (k_mem st') (data + a') l' -> Forall (fun c => c <> 0) l' ->
  ldb (k_mem st') (data + 1024) <> 10 -> short (l' ++ rest) ->
  spec_puts (grep_out s fname (l' ++ rest)) u = Some t' -> holds a' st' l' rest t'.
Proof.
  intros H E V B Z G S P. split; try done; [apply (ed_step _ _ E)| |by exists u].
  eapply tools_step; [apply (ed_step _ _ E)|apply H].
Qed.

Lemma short_nil : short [].
Proof. repeat constructor. Qed.

Lemma spec_puts_none t : spec_puts (grep_out s fname []) t = Some t.
Proof. done. Qed.

(** Split at the first newline. *)
Lemma first_newline (l : list Z) : 10 ∉ l \/ exists a b, l = a ++ 10 :: b /\ 10 ∉ a.
Proof.
  induction l as [|c l IH]; [left; by apply not_elem_of_nil|]. destruct (Z.eq_dec c 10) as [->|Hc].
  { right. exists [], l. split; [done|by apply not_elem_of_nil]. }
  destruct IH as [IH|(a & b & -> & Ha)].
  - left. rewrite elem_of_cons. by intros [?|?].
  - right. exists (c :: a), b. split; [done|]. rewrite elem_of_cons. by intros [?|?].
Qed.

(** When the buffer cannot be followed by more of the line it ends in. *)
Definition line_ends (cnt ls last : Z) (st : kst) (l rest : list Z) : Prop :=
  (cnt = 0 -> rest = []) /\ (ldb (k_mem st) (data + last) = 10 -> rest = []) /\
  (ls = 0 -> 10 ∉ l -> rest = []).

(** The last line in the buffer: it is kept for the next piece, or searched. *)
Lemma grep_last_ok fuel cnt ls st l rest t' :
  holds ls st l rest t' -> 0 <= ls -> 10 ∉ l ->
  let last := ls + Z.of_nat (length l) in
  last <= 1024 -> line_ends cnt ls last st l rest ->
  exists st' rem, grep_lines (S fuel) data cnt ls last sp (Z.of_nat (length s)) fp st = Ret (Z.of_nat (length rem)) st' /\
    edits st st' /\ holds 0 st' rem rest t' /\ (10 ∉ rem) /\ (length rem <= 1023)%nat /\ (cnt = 0 -> rem = []).
Proof.
  intros H Hls Hn last Hlast (L1 & L2 & L3). assert (El : last = ls + Z.of_nat (length l)) by done. clearbody last.
  pose proof H as [R T B Z G Sh (t & V & Hs)]. cbn [grep_lines].
  pose proof (find_line_end_ok (k_mem st) data ls l [] ltac:(by rewrite app_nil_r) Hn ltac:(lia) (or_introl eq_refl)) as Ef.
  rewrite app_nil_r, <- El in Ef. rewrite Ef.
  destruct (negb (ldb (k_mem st) (data + last) =? 10) && negb (cnt =? 0) && negb (ls =? 0)) eqn:Ec.
  - apply andb_prop in Ec as [[_ Hc%negb_true_iff%Z.eqb_neq]%andb_prop Hls0%negb_true_iff%Z.eqb_neq].
    set (m := stb (k_mem st) (data + last) 0).
    assert (Gm : forall i, 0 <= i <= 1024 -> i <> last -> ldb m (data + i) = ldb (k_mem st) (data + i)).
    { intros i Hi Hne. unfold m. rewrite ldb_stb_other; [done|]. apply data_ne; try done; lia. }
    destruct (ece391_strcpy_down l m data ls 1030) as (m' & E & B' & _ & C); [lia|lia|done|..].
    { apply region_stb. eapply region_sub; [..|exact (window_region p st data 1025 R W)]; lia. }
    { intros i Hi. rewrite <- Z.add_assoc, Gm by lia. rewrite Z.add_assoc. by apply B. }
    { replace (data + ls + Z.of_nat (length l)) with (data + last) by lia. unfold m. by rewrite ldb_stb_eq. }
    assert (Cm : only_changes (k_mem st) m' data 1025).
    { eapply only_changes_trans; [apply (only_changes_stb _ data 1025 last 0); lia|].
      eapply only_changes_weaken; [..|exact C]; lia. }
    destruct (edits_mem st m' R Cm) as [E1 V1]. exists (set_mem m' st), l. rewrite E.
    split; [f_equal; lia|]. split; [done|]. split; [|split; [done|split; [lia|done]]].
    eapply (holds_after ls); [exact H|exact E1|by rewrite V1|by rewrite Z.add_0_r|done| |done|done].
    change (k_mem (set_mem m' st)) with m'. destruct C as (_ & _ & C). rewrite C.
    + unfold m. destruct (Z.eq_dec last 1024) as [->|]; [by rewrite ldb_stb_eq|by rewrite <- Gm in G by lia].
    + intros j Hj. unfold m. rewrite !cell_stb. apply data_ne; (done || lia).
  - assert (rest = []) as ->.
    { destruct (Z.eqb_spec (ldb (k_mem st) (data + last)) 10); [by apply L2|].
      destruct (Z.eqb_spec cnt 0); [by apply L1|]. destruct (Z.eqb_spec ls 0); [by apply L3|done]. }
    rewrite app_nil_r in *. rewrite grep_out_last in Hs by done.
    destruct (line_searched l ls st t t' R T Hls ltac:(lia) B Z V Hs) as (s1 & E1 & Ed & V1 & Z1 & G1).
    cbv zeta in E1, Z1, G1. rewrite <- El in E1, Z1, G1. rewrite <- kbind_assoc. unfold kbind at 1. rewrite E1.
    rewrite (proj2 (Z.leb_le _ _)) by lia. exists s1, []. split; [done|]. split; [done|].
    split; [|split; [by apply not_elem_of_nil|split; [simpl; lia|done]]].
    eapply (holds_after ls); [exact H|exact Ed|exact V1| |done| |exact short_nil|apply spec_puts_none].
    + intros i Hi. simpl in Hi. lia.
    + destruct (Z.eq_dec last 1024) as [Hq|]; [rewrite Hq in Z1; by rewrite Z1|by rewrite G1 by lia].
Qed.

(** A line that ends in the buffer is searched, and the loop goes on behind it. *)
Lemma grep_next_ok fuel cnt ls st a b rest t' :
  holds ls st (a ++ 10 :: b) rest t' -> 0 <= ls -> 10 ∉ a ->
  let le := ls + Z.of_nat (length a) in
  let last := le + 1 + Z.of_nat (length b) in last <= 1024 ->
  exists s1, grep_lines (S fuel) data cnt ls last sp (Z.of_nat (length s)) fp st =
      (if last <=? le + 1 then kret 0 else grep_lines fuel data cnt (le + 1) last sp (Z.of_nat (length s)) fp) s1 /\
    edits st s1 /\ holds (le + 1) s1 b rest t' /\
    forall i, le < i <= 1024 -> ldb (k_mem s1) (data + i) = ldb (k_mem st) (data + i).
Proof.
  intros H Hls Ha le last Hlast. pose proof H as [R T B Z G Sh (t & V & Hs)]. cbn [grep_lines].
  assert (El : last = ls + Z.of_nat (length (a ++ 10 :: b))) by (unfold last, le; rewrite length_app; simpl; lia).
  assert (Ll : last = le + 1 + Z.of_nat (length b)) by done. clearbody last.
  pose proof (find_line_end_ok (k_mem st) data ls a (10 :: b) B Ha ltac:(lia) (or_intror (ex_intro _ b eq_refl))) as Ef.
  rewrite <- El in Ef. rewrite Ef. apply bytes_here_app in B as [Ba Bb]. fold le.
  assert (Bn' : ldb (k_mem st) (data + le) = 10).
  { unfold le. rewrite Z.add_assoc, <- (Z.add_0_r (data + ls + Z.of_nat (length a))). apply (Bb 0). simpl. lia. }
  rewrite Bn'. cbn [negb Z.eqb Pos.eqb andb]. rewrite <- app_assoc in Hs, Sh. simpl in Hs, Sh.
  rewrite grep_out_cons, spec_puts_app in Hs by done.
  destruct (spec_puts (grep_line s fname a) t) as [u|] eqn:Eu; [|done].
  apply Forall_app in Z as [Za [_ Zb]%Forall_cons].
  destruct (line_searched a ls st t u R T Hls ltac:(lia) Ba Za V Eu) as (s1 & E1 & Ed & V1 & Z1 & G1).
  cbv zeta in E1, Z1, G1. fold le in E1, Z1, G1. rewrite <- kbind_assoc. unfold kbind at 1. rewrite E1.
  exists s1. split; [done|]. split; [done|]. split; [|intros i Hi; apply G1; lia].
  eapply (holds_after ls); [exact H|exact Ed|exact V1| |exact Zb| |by eapply short_cons|exact Hs].
  - intros i Hi. replace (data + (le + 1) + i) with (data + (le + 1 + i)) by lia. rewrite G1 by lia.
    replace (data + (le + 1 + i)) with (data + ls + Z.of_nat (length a) + (1 + i)) by (unfold le; lia).
    rewrite (Bb (1 + i)) by (simpl; lia). apply zget_cons_succ. lia.
  - destruct (Z.eq_dec le 1024) as [Hq|]; [rewrite Hq in Z1; by rewrite Z1|by rewrite G1 by lia].
Qed.

Lemma grep_lines_ok fuel cnt ls st l rest t' :
  holds ls st l rest t' -> 0 <= ls -> (length l < fuel)%nat ->
  let last := ls + Z.of_nat (length l) in
  last <= 1024 -> line_ends cnt ls last st l rest ->
  exists st' rem, grep_lines fuel data cnt ls last sp (Z.of_nat (length s)) fp st = Ret (Z.of_nat (length rem)) st' /\
    edits st st' /\ holds 0 st' rem rest t' /\ (10 ∉ rem) /\ (length rem <= 1023)%nat /\ (cnt = 0 -> rem = []).
Proof.
  revert ls st l. induction fuel as [|fuel IH]; intros ls st l H Hls Hf last Hlast Hl; [lia|].
  destruct (first_newline l) as [Hn|(a & b & -> & Ha)]; [by apply grep_last_ok|].
  destruct Hl as (L1 & L2 & _). rewrite length_app in Hf. simpl in Hf. set (le := ls + Z.of_nat (length a)) in *.
  assert (Ll : last = le + 1 + Z.of_nat (length b)) by (unfold last, le; rewrite length_app; simpl; lia).
  clearbody last. subst last.
  destruct (grep_next_ok fuel cnt ls st a b rest t' H Hls Ha Hlast) as (s1 & E1 & Ed & Hb & G1).
  fold le in E1, Hb, G1. rewrite E1. destruct (Z.leb_spec (le + 1 + Z.of_nat (length b)) (le + 1)) as [Hle|Hle].
  - assert (b = []) as -> by (destruct b; [done|simpl in Hle; lia]). exists s1, []. split; [done|]. split; [done|].
    split; [|split; [by apply not_elem_of_nil|split; [simpl; lia|done]]]. destruct Hb. split; try done.
    intros i Hi. simpl in Hi. lia.
  - destruct (IH (le + 1) s1 b Hb) as (s2 & rem & E2 & Ed2 & H2 & Hr); [unfold le; lia|lia|lia| |].
    + split; [done|]. split; [|unfold le; lia]. intros H10. apply L2. rewrite <- H10. symmetry. apply G1. lia.
    + exists s2, rem. split; [exact E2|]. split; [by eapply edits_trans|done].
Qed.

(** The file of inode [nd] as it was in [s0], open as [fd] at position [q]. *)
Definition reading (s0 st : kst) (fd nd q : Z) : Prop :=
  ustep p data 1025 s0 st /\ file_fd p st fd nd q.

Lemma reading_image s0 st fd nd q : reading s0 st fd nd q ->
  fs_wf (k_mem s0) (k_boot s0) /\ k_boot st = k_boot s0 /\
  file_len (k_mem st) (k_boot st) nd = file_len (k_mem s0) (k_boot s0) nd /\
  0 <= q <= file_len (k_mem s0) (k_boot s0) nd /\ 0 <= nd < nnod (k_mem s0) (k_boot s0).
Proof.
  intros [U F]. pose proof (ru_wf _ _ (us_from _ _ _ _ _ U)) as Hw. pose proof (us_image _ _ _ _ _ U) as Hi.
  pose proof (ff_inode _ _ _ _ _ F) as Hn. pose proof (ff_pos _ _ _ _ _ F) as Hq.
  rewrite (us_boot _ _ _ _ _ U) in *. rewrite (image_header _ _ _ Hw Hi) in Hn.
  rewrite (same_image_len _ _ _ _ Hw Hi Hn) in *. done.
Qed.

(** The next piece of the file, behind the rest of a line. *)
Lemma piece_read s0 st fd nd q rem t' :
  reading s0 st fd nd q -> holds 0 st rem (rest_of s0 nd q) t' -> (length rem <= 1023)%nat ->
  Forall (fun c => c <> 0) (rest_of s0 nd q) ->
  let r := Z.of_nat (length rem) in
  let k := Z.min (BUFSIZE - r) (file_len (k_mem s0) (k_boot s0) nd - q) in
  let l := file_slice (k_mem s0) (k_boot s0) nd q (Z.to_nat k) in
  exists st', ece391_read fd (data + r) (BUFSIZE - r) st = Ret k st' /\ reading s0 st' fd nd (q + k) /\
    (forall fd', fd' <> fd -> fd_at p fd' st' = fd_at p fd' st) /\ ustep p data 1025 st st' /\
    rest_of s0 nd q = l ++ rest_of s0 nd (q + k) /\ length l = Z.to_nat k /\
    holds 0 st' (rem ++ l) (rest_of s0 nd (q + k)) t'.
Proof.
  intros Rd H Hr Hz r k l. destruct (reading_image s0 st fd nd q Rd) as (Hw & Eb & El & Hq & Hn). destruct Rd as [U F].
  destruct H as [R T B Z G Sh (t & V & Hs)]. unfold BUFSIZE in *. rewrite Z.add_0_r in B.
  assert (Wr : in_window (data + r) (1024 - r)) by (destruct W as (?&?&?); unfold in_window; lia).
  destruct (user_read_file_fds p st fd nd q (data + r) (1024 - r) R F Wr) as (st' & E & Bt & F' & U' & V' & Fo & _).
  rewrite El in E, Bt, F'. fold k in E, Bt, F'.
  assert (U1 : ustep p data 1025 st st') by (eapply ustep_sub; [exact U'|lia|lia]).
  assert (Eq : rest_of s0 nd q = l ++ rest_of s0 nd (q + k)).
  { unfold rest_of, l. set (len := file_len _ _ _) in *.
    rewrite <- (take_drop (Z.to_nat k) (file_slice _ _ nd q (Z.to_nat (len - q)))).
    destruct (file_slice_split (k_mem s0) (k_boot s0) nd q (Z.to_nat (len - q)) (Z.to_nat k) ltac:(lia)) as [-> ->].
    f_equal. f_equal; lia. }
  exists st'. split; [done|]. split; [split; [by eapply ustep_trans|done]|]. split; [done|]. split; [done|].
  split; [done|]. split; [apply file_slice_length|].
  assert (Keep : forall i, 0 <= i <= 1024 -> ~ (r <= i < 1024) -> ldb (k_mem st') (data + i) = ldb (k_mem st) (data + i)).
  { intros i Hi Hni. apply (us_page _ _ _ _ _ U'); [destruct W as (?&?&?); unfold in_window; lia|lia]. }
  split.
  - apply U1.
  - by eapply tools_step.
  - rewrite Z.add_0_r. apply bytes_here_app. split.
    + intros i Hi. rewrite Keep by lia. by apply B.
    + apply bytes_here_bytes. unfold l. rewrite file_slice_length. etrans; [exact Bt|].
      rewrite Eb. apply same_image_slice; [done|exact (us_image _ _ _ _ _ U)|done|lia|lia].
  - apply Forall_app. split; [done|]. rewrite Eq in Hz. by apply Forall_app in Hz as [Hz _].
  - by rewrite Keep by lia.
  - by rewrite <- app_assoc, <- Eq.
  - exists t. rewrite <- app_assoc, <- Eq. split; [by rewrite V'|done].
Qed.

Lemma grep_pieces_ok fuel s0 st fd nd q rem t' :
  reading s0 st fd nd q -> holds 0 st rem (rest_of s0 nd q) t' -> (10 ∉ rem) -> (length rem <= 1023)%nat ->
  Forall (fun c => c <> 0) (rest_of s0 nd q) -> (length (rest_of s0 nd q) < fuel)%nat ->
  exists st' q', grep_pieces fuel fd data (Z.of_nat (length rem)) sp (Z.of_nat (length s)) fp st = Ret true st' /\
    reading s0 st' fd nd q' /\ (forall fd', fd' <> fd -> fd_at p fd' st' = fd_at p fd' st) /\ scr_eq (view st') t' /\
    ldb (k_mem st') (data + 1024) <> 10.
Proof.
  revert st q rem. induction fuel as [|fuel IH]; intros st q rem Rd H Hn Hr Hz Hf; [lia|]. cbn [grep_pieces].
  destruct (reading_image s0 st fd nd q Rd) as (_ & _ & _ & Hq & _).
  destruct (piece_read s0 st fd nd q rem t' Rd H Hr Hz) as (s1 & E1 & Rd1 & F1 & U1 & Eq & Ll & H1).
  set (k := Z.min _ _) in *. set (l := file_slice _ _ _ _ _) in *.
  unfold kbind at 1. rewrite E1. rewrite (proj2 (Z.eqb_neq k (-1))) by (unfold k, BUFSIZE; lia).
  replace (Z.of_nat (length rem) + k) with (0 + Z.of_nat (length (rem ++ l))) by (rewrite length_app, Ll; unfold k, BUFSIZE; lia).
  assert (Hend : k < BUFSIZE - Z.of_nat (length rem) -> rest_of s0 nd (q + k) = []).
  { intros Hk. unfold rest_of. replace (Z.to_nat _) with 0%nat by (unfold k in *; lia). done. }
  assert (Hk : (length (rem ++ l) <= 1024)%nat) by (rewrite length_app, Ll; unfold k, BUFSIZE; lia).
  destruct (grep_lines_ok 1030 k 0 s1 (rem ++ l) (rest_of s0 nd (q + k)) t' H1) as (s2 & rem' & E2 & Ed & H2 & Hn2 & Hr2 & Hc);
    [lia|lia|lia| |].
  - split; [intros Hk0; apply Hend; unfold BUFSIZE; lia|]. split.
    + intros H10. apply Hend. destruct (Z.lt_ge_cases k (BUFSIZE - Z.of_nat (length rem))); [done|]. exfalso.
      apply (ho_guard _ _ _ _ _ H1). rewrite <- H10. do 2 f_equal. rewrite length_app, Ll. unfold k, BUFSIZE in *. lia.
    + intros _ Hno. apply Hend. pose proof (short_first _ _ Hno (ho_short _ _ _ _ _ H1)) as Hle.
      rewrite length_app, Ll in Hle. unfold k, BUFSIZE in *. lia.
  - unfold kbind at 1. rewrite E2. destruct (Z.eqb_spec k 0) as [Hk0|Hk0].
    + exists s2, (q + k). split; [done|]. split.
      { destruct Rd1 as [U F]. split; [by eapply ustep_trans; [|apply (ed_step _ _ Ed)]|].
        eapply file_fd_step; [apply (ed_step _ _ Ed)|done|apply (ed_fds _ _ Ed)]. }
      split; [intros fd' Hfd; rewrite (ed_fds _ _ Ed); by apply F1|].
      split; [|apply H2]. destruct (ho_shows _ _ _ _ _ H2) as (t & V & Hs). rewrite (Hc Hk0), Hend in Hs by (unfold BUFSIZE; lia).
      simpl app in Hs. rewrite spec_puts_none in Hs. by injection Hs as <-.
    + destruct (IH s2 (q + k) rem') as (s3 & q' & E3 & Rd3 & F3 & V3); try done.
      { destruct Rd1 as [U F]. split; [by eapply ustep_trans; [|apply (ed_step _ _ Ed)]|].
        eapply file_fd_step; [apply (ed_step _ _ Ed)|done|apply (ed_fds _ _ Ed)]. }
      { rewrite Eq in Hz. by apply Forall_app in Hz as [_ Hz]. }
      { rewrite Eq, length_app, Ll in Hf. unfold k, BUFSIZE in *. lia. }
      exists s3, q'. split; [done|]. split; [done|]. split; [|done].
      intros fd' Hfd. rewrite F3, (ed_fds _ _ Ed) by done. by apply F1.
Qed.

(** What [grep] can search: a text without NULs whose lines fit the buffer. *)
Definition searchable (text : list Z) : Prop := Forall (fun c => c <> 0) text /\ short text.

Lemma do_one_file_ok fuel st d fd t t' :
  running p st -> tools st -> entry_named st fname = Some d -> d_ft d = 2 -> d_ind d < nnod (k_mem st) (k_boot st) ->
  free_fd 6 2 (file_desc_tb (pcb_at p st)) = Some fd ->
  let text := rest_of st (d_ind d) 0 in
  searchable text -> ldb (k_mem st) (data + 1024) <> 10 -> (length text < fuel)%nat ->
  scr_eq (view st) t -> spec_puts (grep_out s fname text) t = Some t' ->
  exists st', do_one_file fuel data sp fp st = Ret 0 st' /\ ustep p data 1025 st st' /\ scr_eq (view st') t' /\
    flag (fd_at p fd st') = 0 /\ (forall fd', fd' <> fd -> fd_at p fd' st' = fd_at p fd' st) /\
    ldb (k_mem st') (data + 1024) <> 10.
Proof.
  intros R T Hd Hft Hi Hfree text [Hz Hsh] G Hf V Hs. unfold do_one_file.
  destruct (to_s _ T) as (Cs & _ & Ls & _). destruct (to_name _ T) as (Cn & _ & _ & Wn).
  rewrite ece391_strlen_same, (strlen_cstr _ s 4096 Cs ltac:(lia) ltac:(lia)).
  assert (Ha : small_arg fp) by (destruct Wn as (?&?&?); unfold small_arg, MB128, MB132 in *; lia).
  pose proof (free_fd_spec 6 2 (file_desc_tb (pcb_at p st))) as Hr. rewrite Hfree in Hr. destruct Hr as (Hfd & _).
  destruct (user_open_fds p data 1025 st fp d fd (mkFd F_file (d_ind d) 0 1)) as (s1 & E1 & F1 & U1 & M1 & V1 & _ & O1 & _);
    [done|done| |lia|done|unfold fd_for; by rewrite Hft|].
  { rewrite <- Hd. apply entry_named_eq; [intros; apply (ldb_range (k_mem st))|done]. }
  assert (Rd : reading st s1 fd (d_ind d) 0).
  { split; [done|]. split; [lia|done| |]; rewrite (us_boot _ _ _ _ _ U1), M1.
    - split; [apply (ld32_range d)|done].
    - pose proof (ld32_range (k_mem st) (inode_addr (k_boot st) (d_ind d))). unfold file_len. lia. }
  destruct (grep_pieces_ok fuel st s1 fd (d_ind d) 0 [] t' Rd) as (s2 & q & E2 & [U2 F2] & O2 & V2 & G2);
    [|by apply not_elem_of_nil|simpl; lia|done|done|].
  { split; [apply U1|by eapply tools_step|intros i Hi'; simpl in Hi'; lia|done|by rewrite M1|done|].
    exists t. split; [by rewrite V1|done]. }
  unfold kbind at 1. rewrite E1, (proj2 (Z.eqb_neq fd (-1))) by lia.
  simpl length in E2. unfold kbind at 1. change (Z.of_nat 0) with 0 in E2. rewrite E2. cbn [negb].
  destruct (user_close p data 1025 s2 fd) as (s3 & E3 & U3 & V3 & M3 & F3 & O3 & _);
    [apply U2|lia|by rewrite (ff_fd _ _ _ _ _ F2)|].
  unfold kbind. rewrite E3. exists s3. split; [done|]. split; [by eapply ustep_trans|]. split; [by rewrite V3|].
  split; [by rewrite F3|]. split; [intros fd' Hne; by rewrite O3, O2, O1|by rewrite M3].
Qed.

End OneFile.

(** ** The directory *)

Lemma free_fd_flags k i l l' :
  (forall j, i <= j < i + Z.of_nat k -> flag (zget fd0 l' j) = flag (zget fd0 l j)) -> free_fd k i l' = free_fd k i l.
Proof.
  revert i. induction k as [|k IH]; intros i H; cbn [free_fd]; [done|]. rewrite (H i) by lia.
  split_if; [done|]. apply IH. intros j Hj. apply H. lia.
Qed.

Section Main.
Context `{D : Device} `{Sy : Symbols} `{TF : TrapFrame} `{TO : !TrapOk} `{L : Literals}.
Context (p stk len search buf data : Z).

(** The program's arrays are apart from one another on its stack, and its literals are
    elsewhere in its page. *)
Record frame_ok : Prop := {
  fr_search : in_window search 1024 /\ stk <= search /\ search + 1024 <= stk + len;
  fr_buf : in_window buf 33 /\ stk <= buf /\ buf + 33 <= stk + len;
  fr_data : in_window data 1025 /\ stk <= data /\ data + 1025 <= stk + len;
  fr_sb : search + 1024 <= buf \/ buf + 33 <= search;
  fr_sd : search + 1024 <= data \/ data + 1025 <= search;
  fr_bd : buf + 33 <= data \/ data + 1025 <= buf
}.

Definition grep_texts : list (list Z) := [str "."; str ":"; [10]].

(** What an entry of the directory adds to the screen. *)
Definition entry_out (st : kst) (s : list Z) (i : Z) : list Z :=
  let l := name_of st i in
  if zget 0 l 0 =? 46 then []
  else match entry_named st l with Some d => grep_out s l (rest_of st (d_ind d) 0) | None => [] end.

Fixpoint entries_out (st : kst) (s : list Z) (k : nat) (i : Z) : list Z :=
  match k with O => [] | S k' => entry_out st s i ++ entries_out st s k' (i + 1) end.

(** An entry [grep] can search: a name beginning with a dot, or the name of a file. *)
Definition entry_ok (st : kst) (fuel : nat) (i : Z) : Prop :=
  let l := name_of st i in
  l <> [] /\ (zget 0 l 0 <> 46 -> exists d, entry_named st l = Some d /\ d_ft d = 2 /\
    d_ind d < nnod (k_mem st) (k_boot st) /\ searchable (rest_of st (d_ind d) 0) /\
    (length (rest_of st (d_ind d) 0) < fuel)%nat).

Hypothesis Fr : frame_ok.

(** The program between two entries, at the [q]th. *)
Record grepping (s0 st : kst) (s : list Z) (fd fd2 q : Z) : Prop := {
  gr_step : ustep p stk len s0 st;
  gr_dir : dir_fd p st fd q;
  gr_free : free_fd 6 2 (file_desc_tb (pcb_at p st)) = Some fd2;
  gr_s : literal_at st search s;
  gr_texts : forall l, l ∈ grep_texts -> literal_at st (lit l) l;
  gr_beside : forall l, l ∈ grep_texts -> beside stk len (lit l) l;
  gr_guard : ldb (k_mem st) (data + 1024) <> 10
}.

Lemma rest_of_step b n s0 st nd :
  ustep p b n s0 st -> 0 <= nd < nnod (k_mem s0) (k_boot s0) -> rest_of st nd 0 = rest_of s0 nd 0.
Proof.
  intros U Hn. pose proof (ru_wf _ _ (us_from _ _ _ _ _ U)) as Hw. pose proof (us_image _ _ _ _ _ U) as Hi.
  unfold rest_of. rewrite (us_boot _ _ _ _ _ U), (same_image_len _ _ _ _ Hw Hi Hn).
  apply same_image_slice; try done. pose proof (ld32_range (k_mem s0) (inode_addr (k_boot s0) nd)).
  unfold file_len in *. lia.
Qed.

Lemma frame_search st st' s : literal_at st search s -> (length s < 128)%nat ->
  ustep p buf 33 st st' \/ ustep p data 1025 st st' -> literal_at st' search s.
Proof.
  intros Hl Hs [U|U]; (eapply literal_step; [exact U|done|]); destruct Fr as [? ? ? [H|H] [H'|H'] ?];
    unfold beside; lia.
Qed.

Lemma frame_guard st st' : ustep p buf 33 st st' -> ldb (k_mem st') (data + 1024) = ldb (k_mem st) (data + 1024).
Proof.
  intros U. destruct Fr as [_ _ [(?&?&?) _] _ _ Hb]. apply (us_page _ _ _ _ _ U); [unfold in_window; lia|lia].
Qed.

Lemma frame_buf st st' : ustep p buf 33 st st' -> ustep p stk len st st'.
Proof. intros U. destruct Fr as [_ (_ & H1 & H2) _ _ _ _]. by eapply ustep_sub. Qed.

Lemma frame_data st st' : ustep p data 1025 st st' -> ustep p stk len st st'.
Proof. intros U. destruct Fr as [_ _ (_ & H1 & H2) _ _ _]. by eapply ustep_sub. Qed.

(** A step in [buf] that leaves the descriptors but for the directory's position. *)
Lemma grepping_buf s0 st st' s fd fd2 q q' :
  grepping s0 st s fd fd2 q -> (length s < 128)%nat -> ustep p buf 33 st st' -> dir_fd p st' fd q' ->
  (forall fd', fd' <> fd -> fd_at p fd' st' = fd_at p fd' st) -> grepping s0 st' s fd fd2 q'.
Proof.
  intros [G1 G2 G3 G4 G5 G6 G7] Hs U F O. pose proof (frame_buf _ _ U) as U'. split.
  - by eapply ustep_trans.
  - done.
  - rewrite <- G3. apply free_fd_flags. intros j Hj. change (flag (fd_at p j st') = flag (fd_at p j st)).
    destruct (Z.eq_dec j fd) as [->|Hne]; [|by rewrite O].
    destruct F as (_ & nd & ->), G2 as (_ & nd' & ->). done.
  - eapply frame_search; [done|done|by left].
  - intros l Hl. eapply literal_step; [exact U'|by apply G5|by apply G6].
  - done.
  - by rewrite (frame_guard st st').
Qed.

(** One entry of the directory. *)
Lemma grep_entry n fuel s0 st s fd fd2 q t t' :
  grepping s0 st s fd fd2 q -> (length s < 128)%nat -> fd <> fd2 ->
  0 <= q < nent (k_mem s0) (k_boot s0) -> nent (k_mem s0) (k_boot s0) <= 62 -> entry_ok s0 fuel q ->
  scr_eq (view st) t -> spec_puts (entry_out s0 s q) t = Some t' ->
  exists st', grep_entries (S n) fuel fd buf data search st = grep_entries n fuel fd buf data search st' /\
    grepping s0 st' s fd fd2 (q + 1) /\ scr_eq (view st') t'.
Proof.
  intros G Hls Hfd Hq H62 [Hne Hent] V Hs. pose proof (us_run _ _ _ _ _ (gr_step _ _ _ _ _ _ G)) as R.
  destruct (directory_step p stk len s0 st (gr_step _ _ _ _ _ _ G)) as [En Nm].
  pose proof Fr as [_ (Wb & _) (Wd & Hd1 & Hd2) _ Hsd Hbd].
  destruct (user_read_dir_fds p st fd q buf R (gr_dir _ _ _ _ _ _ G)) as (s1 & E1 & B1 & L1 & F1 & U1 & V1 & O1);
    [rewrite En; lia|exact Wb|]. rewrite (Nm q) in E1, B1, L1 by lia. unfold entry_out in Hs.
  set (l := name_of s0 q) in *. assert (Hl0 : (0 < length l)%nat) by (destruct l; [done|simpl; lia]).
  pose proof (grepping_buf s0 st s1 s fd fd2 q (q + 1) G Hls U1 F1 O1) as G1.
  cbn [grep_entries]. unfold kbind at 1. change (SBUFSIZE - 1) with 32. rewrite E1.
  rewrite (proj2 (Z.eqb_neq (Z.of_nat (length l)) 0)), (proj2 (Z.eqb_neq (Z.of_nat (length l)) (-1))) by lia.
  assert (E0 : ldb (k_mem s1) buf = zget 0 l 0).
  { pose proof (bytes_here_bytes _ _ _ B1 0 ltac:(lia)) as H. by rewrite Z.add_0_r in H. }
  rewrite E0. destruct (Z.eqb_spec (zget 0 l 0) 46) as [Hdot|Hdot].
  { simpl in Hs. simplify_eq. exists s1. split; [done|]. split; [done|]. by rewrite V1. }
  destruct (Hent Hdot) as (d & Hd & Hft & Hi & Hsr & Hfu). rewrite Hd in Hs.
  destruct (end_string p s1 buf 33 l) as (Lb & U2 & V2);
    [apply U1|exact Wb|exact B1|lia|lia|apply upto_nul_nz|]. set (s2 := set_mem _ s1) in *.
  assert (G2 : grepping s0 s2 s fd fd2 (q + 1)) by (apply (grepping_buf s0 s1 s2 s fd fd2 (q + 1)); done).
  assert (Tx : forall x, x ∈ grep_texts -> literal_at s2 (lit x) x /\ beside data 1025 (lit x) x).
  { intros x Hx. split; [by apply G2|]. pose proof (gr_beside _ _ _ _ _ _ G2 x Hx). unfold beside in *. lia. }
  assert (Pc : str ":" ∈ grep_texts) by (right; left). assert (Pn : [10] ∈ grep_texts) by (right; right; left).
  destruct (directory_step p stk len s0 s2 (gr_step _ _ _ _ _ _ G2)) as [_ _].
  pose proof (rest_of_step stk len s0 s2 (d_ind d) (gr_step _ _ _ _ _ _ G2) (conj (proj1 (ld32_range d _)) Hi)) as Er.
  destruct (do_one_file_ok p data search buf s l Wd) with (fuel := fuel) (st := s2) (d := d) (fd := fd2) (t := t) (t' := t')
    as (s3 & E3 & U3 & V3 & Z3 & O3 & Gd).
  - unfold beside. lia.
  - unfold beside. lia.
  - by apply Tx.
  - by apply Tx.
  - apply U2.
  - split; [apply G2|exact Lb|by apply Tx|by apply Tx].
  - by rewrite (entry_named_step p stk len s0 s2 l (gr_step _ _ _ _ _ _ G2)).
  - done.
  - rewrite (us_boot _ _ _ _ _ (gr_step _ _ _ _ _ _ G2)).
    by rewrite (image_header (k_mem s0)) by apply (gr_step _ _ _ _ _ _ G2).
  - apply G2.
  - by rewrite Er.
  - apply G2.
  - by rewrite Er.
  - by rewrite V2, V1.
  - by rewrite Er.
  - exists s3. split; [unfold kbind at 1, kmod; fold s2; unfold kbind; by rewrite E3|]. split; [|done].
    pose proof (frame_data _ _ U3) as U3'. split.
    + eapply ustep_trans; [apply G2|exact U3'].
    + destruct (gr_dir _ _ _ _ _ _ G2) as (H1 & nd & H2). split; [done|]. exists nd. by rewrite O3.
    + rewrite <- (gr_free _ _ _ _ _ _ G2). apply free_fd_flags. intros j Hj.
      change (flag (fd_at p j s3) = flag (fd_at p j s2)). destruct (Z.eq_dec j fd2) as [->|]; [|by rewrite O3].
      rewrite Z3. pose proof (free_fd_spec 6 2 (file_desc_tb (pcb_at p s2))) as Hr.
      rewrite (gr_free _ _ _ _ _ _ G2) in Hr. by destruct Hr as (_ & Hr & _).
    + eapply frame_search; [apply G2|done|by right].
    + intros x Hx. eapply literal_step; [exact U3'|by apply G2|by apply (gr_beside _ _ _ _ _ _ G2)].
    + apply G2.
    + exact Gd.
Qed.

Lemma grep_entries_ok n fuel s0 st s fd fd2 q t t' :
  grepping s0 st s fd fd2 q -> (length s < 128)%nat -> fd <> fd2 ->
  let e := nent (k_mem s0) (k_boot s0) in
  0 <= q <= e -> e <= 62 -> name_of s0 e = [] -> (forall i, 0 <= i < e -> entry_ok s0 fuel i) ->
  e - q < Z.of_nat n -> scr_eq (view st) t -> spec_puts (entries_out s0 s (Z.to_nat (e - q)) q) t = Some t' ->
  exists st', grep_entries n fuel fd buf data search st = Ret 0 st' /\ ustep p stk len s0 st' /\ scr_eq (view st') t'.
Proof.
  revert st q t. induction n as [|n IH]; intros st q t G Hls Hfd e Hq H62 Hend Hent Hn V Hs; [lia|].
  destruct (Z.eq_dec q e) as [->|Hne].
  - rewrite Z.sub_diag in Hs. simpl in Hs. simplify_eq.
    pose proof (us_run _ _ _ _ _ (gr_step _ _ _ _ _ _ G)) as R.
    destruct (directory_step p stk len s0 st (gr_step _ _ _ _ _ _ G)) as [En Nm].
    pose proof Fr as [_ (Wb & _) _ _ _ _].
    destruct (user_read_dir_fds p st fd e buf R (gr_dir _ _ _ _ _ _ G)) as (s1 & E1 & _ & _ & _ & U1 & V1 & _);
      [rewrite En; lia|exact Wb|]. rewrite (Nm e), Hend in E1 by lia.
    exists s1. cbn [grep_entries]. unfold kbind. change (SBUFSIZE - 1) with 32. rewrite E1. split; [done|].
    split; [eapply ustep_trans; [apply G|by apply frame_buf]|by rewrite V1].
  - replace (Z.to_nat (e - q)) with (S (Z.to_nat (e - (q + 1)))) in Hs by lia. cbn [entries_out] in Hs.
    rewrite spec_puts_app in Hs. destruct (spec_puts (entry_out s0 s q) t) as [u|] eqn:Eu; [|done].
    destruct (grep_entry n fuel s0 st s fd fd2 q t u G Hls Hfd ltac:(lia) H62 (Hent q ltac:(lia)) V Eu)
      as (s1 & E1 & G1 & V1).
    destruct (IH s1 (q + 1) u G1 Hls Hfd) as (s2 & E2 & U2 & V2); try done; try lia.
    exists s2. by rewrite E1.
Qed.

(** C6: [grep] finds the lines.  Started with a string as argument over a directory whose
    entries begin with a dot or name files that are texts with lines of at most 1023
    characters, it shows, file by file in the order of the directory and line by line,
    exactly the lines that contain the string, each behind the name of its file, and
    returns 0; also where a line is read in two pieces.  (Whether a line of 1024 bytes
    read is complete it takes from a byte of its array it has not initialised, which
    must not be a newline.) *)
Theorem grep_searches s0 s n fuel d t :
  running p s0 -> cstr (at_ (args (pcb_at p s0)) 0) s -> s <> [] -> (length s < 128)%nat ->
  (forall l, l ∈ grep_texts -> literal_at s0 (lit l) l /\ beside stk len (lit l) l) ->
  entry_named s0 (str ".") = Some d -> d_ft d = 1 ->
  flag (fd_at p 2 s0) = 0 -> flag (fd_at p 3 s0) = 0 -> ldb (k_mem s0) (data + 1024) <> 10 ->
  let e := nent (k_mem s0) (k_boot s0) in
  e <= 62 -> name_of s0 e = [] -> (forall i, 0 <= i < e -> entry_ok s0 fuel i) -> e < Z.of_nat n ->
  spec_puts (entries_out s0 s (Z.to_nat e) 0) (view s0) = Some t ->
  exists s', grep_main n fuel search buf data s0 = Ret 0 s' /\ scr_eq (view s') t /\ ustep p stk len s0 s'.
Proof.
  intros R Ca Hne Hls Tx Hd Hft F2 F3 Gd e H62 Hend Hent Hn Hs.
  pose proof Fr as [(Ws & Hs1 & Hs2) _ _ _ Hsd _]. destruct (Tx (str ".") ltac:(left)) as [Ld Bd].
  destruct (user_getargs p s0 s search 1024 R Ca Hls Hne ltac:(lia) ltac:(lia) Ws) as (m & E1 & Cm & Ch).
  destruct (ustep_mem p search 1024 s0 m R Ws Ch) as [U1 V1]. set (s1 := set_mem m s0) in *.
  assert (U1' : ustep p stk len s0 s1) by (by eapply ustep_sub).
  assert (Ls : literal_at s1 search s).
  { split; [exact Cm|]. split; [done|]. split; [lia|]. destruct Ws as (?&?&?). unfold in_window. lia. }
  assert (Ld1 : literal_at s1 (lit (str ".")) (str ".")) by (by eapply literal_step).
  assert (Ha : small_arg (lit (str "."))).
  { destruct Ld as (_ & _ & _ & (?&?&?)). unfold small_arg, MB128, MB132 in *. lia. }
  assert (Hf : free_fd 6 2 (file_desc_tb (pcb_at p s1)) = Some 2).
  { cbn [free_fd]. change (zget fd0 (file_desc_tb (pcb_at p s1)) 2) with (fd_at p 2 s0). by rewrite F2. }
  destruct (user_open_fds p stk len s1 (lit (str ".")) d 2 (mkFd F_dir (fd_inode (fd_at p 2 s1)) 0 1)) as
    (s2 & E2 & D2 & U2 & M2 & V2 & _ & O2 & _); [apply U1|done| |lia|done|unfold fd_for; by rewrite Hft|].
  { destruct Ld1 as (C1 & _). rewrite (entry_named_eq s1 (str ".")); [|intros; apply (ldb_range (k_mem s1))|done].
    by rewrite (entry_named_step p stk len s0 s1). }
  assert (U02 : ustep p stk len s0 s2) by (by eapply ustep_trans).
  assert (G : grepping s0 s2 s 2 3 0).
  { split.
    - done.
    - split; [lia|]. eexists. exact D2.
    - cbn [free_fd]. change (zget fd0 (file_desc_tb (pcb_at p s2)) 2) with (fd_at p 2 s2).
      rewrite D2. cbn [flag Z.eqb Pos.eqb]. change (zget fd0 (file_desc_tb (pcb_at p s2)) (2 + 1)) with (fd_at p 3 s2).
      rewrite O2 by lia. change (fd_at p 3 s1) with (fd_at p 3 s0). by rewrite F3.
    - destruct Ls as (C1 & ?). split; [|done]. by rewrite M2.
    - intros l Hl. destruct (Tx l Hl). by eapply literal_step.
    - intros l Hl. by apply Tx.
    - rewrite M2. rewrite (us_page _ _ _ _ _ U1); [done| |lia].
      destruct Fr as [_ _ [(?&?&?) _] _ _ _]. unfold in_window. lia. }
  destruct (grep_entries_ok n fuel s0 s2 s 2 3 0 (view s0) t G Hls ltac:(lia)) as (s3 & E3 & U3 & V3);
    [|exact H62|exact Hend|exact Hent|lia|by rewrite V2, V1|by rewrite Z.sub_0_r|].
  { pose proof (ld32_range (k_mem s0) (k_boot s0) : 0 <= e < _). fold e. lia. }
  exists s3. split; [|done]. unfold grep_main, kbind. change BUFSIZE with 1024. rewrite E1. fold s1.
  cbn [Z.eqb negb]. rewrite E2. cbn [Z.eqb Pos.eqb]. exact E3.
Qed.

End Main.
