(* ===== verification/Pingpong.v ===== *)
(** * pingpong (syscalls/ece391pingpong.c)

    The program that bounces a letter between two walls, a frame at each tick of the
    clock it has set to 32 Hz.  It never ends; proved is that it shows exactly one frame
    per tick, in order, and waits when the ticks stop. *)

From stdpp Require Import base list numbers gmap strings.
From Stdlib Require Import ZArith Lia.
From S2P Require Import Prelude Mem LibStr State Pic Console Rtc Keyboard Irq Terminal Paging.
From S2P Require Import Filesystem Syscall Process Idt User Programs.

Definition SCREENWIDTH : Z := 79.
Definition ENDING : Z := 2.
Definition BUFMAX : Z := SCREENWIDTH + ENDING.
Definition START : Z := 1.
Definition STARTLOOP : Z := START + 1.
Definition LOOPMAX : Z := BUFMAX - ENDING - 1.
Definition STARTCHAR : Z := 65.
Definition ENDCHAR : Z := 90.

Section Pingpong.
Context `{D : Device} `{Sy : Symbols} `{TF : TrapFrame} `{L : Literals}.

(** Stores of the program into its arrays. *)
Definition blank (buf lo hi : Z) (m : vmem) : vmem := for_loop lo hi (fun i m => stb m (buf + i) 32) m.

Definition walls (buf : Z) (m : vmem) : vmem :=
  let m := blank buf 0 BUFMAX m in
  let m := stb m (buf + (BUFMAX - 1)) 0 in
  let m := stb m (buf + (BUFMAX - 2)) 10 in
  let m := stb m (buf + (BUFMAX - 3)) 124 in
  stb m (buf + START) 124.

(** Draws the letter [c] at column [j] and waits for a tick. *)
Definition pp_frame (fd buf garbage c j : Z) : K unit :=
  (kmod (fun s => set_mem (stb (blank buf STARTLOOP LOOPMAX (k_mem s)) (buf + j) c) s) ;;
   ece391_fdputs 1 buf ;;
   ece391_read fd garbage 4 ;;
   kret tt)%kernel.

Fixpoint pingpong_loop (fuel : nat) (fd buf garbage c : Z) : K Z :=
  match fuel with
  | O => fun _ => NoFuel
  | S f =>
      (k_for STARTLOOP LOOPMAX (fun j _ => pp_frame fd buf garbage c j) tt ;;
       k_for 0 (LOOPMAX - STARTLOOP) (fun i _ => pp_frame fd buf garbage c (LOOPMAX - 1 - i)) tt ;;
       pingpong_loop f fd buf garbage (if c =? ENDCHAR then STARTCHAR else u8 (c + 1)))%kernel
  end.

Definition pingpong_main (fuel : nat) (buf ret_val garbage : Z) : K Z :=
  (kmod (fun s => set_mem (walls buf (k_mem s)) s) ;;
   rtc_fd <- ece391_open (lit (str "rtc")) ;;
   kmod (fun s => set_mem (st32 (k_mem s) ret_val 32) s) ;;
   r <- ece391_write rtc_fd ret_val 4 ;;
   kmod (fun s => set_mem (st32 (k_mem s) ret_val r) s) ;;
   pingpong_loop fuel rtc_fd buf garbage STARTCHAR)%kernel.

End Pingpong.

(** ** The frames *)

Definition frame_text (c j : Z) : list Z :=
  [32; 124] ++ replicate (Z.to_nat (j - 2)) 32 ++ [c] ++ replicate (Z.to_nat (77 - j)) 32 ++ [124; 10].

(** The letter and its column, frame by frame: out, and back. *)
Definition round (c : Z) : list (Z * Z) :=
  map (fun i => (c, 2 + Z.of_nat i)) (seq 0 76) ++ map (fun i => (c, 77 - Z.of_nat i)) (seq 0 76).

Fixpoint rounds (k : nat) (c : Z) : list (Z * Z) :=
  match k with O => [] | S k' => round c ++ rounds k' (if c =? ENDCHAR then STARTCHAR else c + 1) end.

(** What the first [k] frames put on the screen. *)
Definition frames_text (l : list (Z * Z)) : list Z := flat_map (fun '(c, j) => frame_text c j) l.

Section Frames.
Context `{D : Device} `{Sy : Symbols} `{TF : TrapFrame} `{L : Literals}.

(** Frame by frame. *)
Fixpoint run_frames (fd buf garbage : Z) (l : list (Z * Z)) : K unit :=
  match l with
  | [] => kret tt
  | (c, j) :: l' => (pp_frame fd buf garbage c j ;; run_frames fd buf garbage l')%kernel
  end.

Lemma run_frames_app fd buf garbage l1 l2 s :
  run_frames fd buf garbage (l1 ++ l2) s = (run_frames fd buf garbage l1 ;; run_frames fd buf garbage l2)%kernel s.
Proof.
  revert s. induction l1 as [|[c j] l1 IH]; intros s; [done|]. cbn [app run_frames]. rewrite kbind_assoc.
  unfold kbind at 1 2. destruct (pp_frame _ _ _ _ _ s); [|done..]. apply IH.
Qed.

Lemma k_up_frames fd buf garbage c (f : Z -> Z) k i s :
  k_up k i (fun i _ => pp_frame fd buf garbage c (f i)) tt s =
  run_frames fd buf garbage (map (fun n => (c, f (i + Z.of_nat n))) (seq 0 k)) s.
Proof.
  revert i s. induction k as [|k IH]; intros i s; [done|]. cbn [k_up seq map run_frames].
  rewrite Z.add_0_r. unfold kbind at 1 2. destruct (pp_frame _ _ _ _ _ s) as [[] s'| | | | | |]; [|done..].
  rewrite IH. f_equal. rewrite <- seq_shift, map_map. apply map_ext. intros n. do 2 f_equal. lia.
Qed.

Lemma pingpong_loop_frames fuel fd buf garbage c s :
  65 <= c <= 90 ->
  pingpong_loop fuel fd buf garbage c s = (run_frames fd buf garbage (rounds fuel c) ;; fun _ => NoFuel)%kernel s.
Proof.
  revert c s. induction fuel as [|fuel IH]; intros c s Hc; [done|]. cbn [pingpong_loop rounds].
  change STARTLOOP with 2. change LOOPMAX with 78.
  assert (E1 : forall s, k_for 2 78 (fun j _ => pp_frame fd buf garbage c j) tt s =
    run_frames fd buf garbage (map (fun i => (c, 2 + Z.of_nat i)) (seq 0 76)) s).
  { intros s'. exact (k_up_frames fd buf garbage c (fun j => j) 76 2 s'). }
  assert (E2 : forall s, k_for 0 (78 - 2) (fun i _ => pp_frame fd buf garbage c (78 - 1 - i)) tt s =
    run_frames fd buf garbage (map (fun i => (c, 77 - Z.of_nat i)) (seq 0 76)) s).
  { intros s'. exact (k_up_frames fd buf garbage c (fun i => 78 - 1 - i) 76 0 s'). }
  assert (Eb : forall {A B} (x y : K A) (k k' : A -> K B) s, x s = y s ->
    (forall a s', k a s' = k' a s') -> kbind x k s = kbind y k' s).
  { intros A B x y k k' s' H H'. unfold kbind. rewrite H. destruct (y s'); [apply H'|done..]. }
  unfold round. rewrite <- !app_assoc.
  rewrite (Eb _ _ _ _ _ (fun _ => fun _ => NoFuel) s (run_frames_app _ _ _ _ _ s) (fun _ _ => eq_refl)), kbind_assoc.
  apply Eb; [apply E1|]. intros _ s1.
  rewrite (Eb _ _ _ _ _ (fun _ => fun _ => NoFuel) s1 (run_frames_app _ _ _ _ _ s1) (fun _ _ => eq_refl)), kbind_assoc.
  apply Eb; [apply E2|]. intros _ s2. rewrite IH; [|unfold ENDCHAR, STARTCHAR; split_if; rewrite ?u8_small; lia].
  unfold ENDCHAR. split_if; [done|]. by rewrite u8_small by lia.
Qed.

End Frames.

(** ** The array *)

(** The 81 bytes of the array are what [f] gives. *)
Definition picture (m : vmem) (buf : Z) (f : Z -> Z) : Prop :=
  region m buf 81 /\ forall i, 0 <= i < 81 -> ldb m (buf + i) = f i.

Definition wall (i : Z) : Z :=
  if i =? 80 then 0 else if i =? 79 then 10 else if (i =? 78) || (i =? 1) then 124 else 32.

Lemma picture_stb m buf f k v : picture m buf f -> 0 <= k < 81 -> 0 <= v < 256 ->
  picture (stb m (buf + k) v) buf (fun i => if i =? k then v else f i).
Proof.
  intros [R P] Hk Hv. split; [by apply region_stb|]. intros i Hi. destruct (Z.eqb_spec i k) as [->|Hne].
  - rewrite ldb_stb_eq by done. by apply u8_small.
  - rewrite ldb_stb_other; [by apply P|]. apply (region_ne _ _ _ _ _ R); lia.
Qed.

Lemma picture_ext m buf f g : picture m buf f -> (forall i, 0 <= i < 81 -> f i = g i) -> picture m buf g.
Proof. intros [R P] H. split; [done|]. intros i Hi. rewrite <- H by done. by apply P. Qed.

Lemma picture_blank m buf f lo hi : picture m buf f -> 0 <= lo <= hi -> hi <= 81 ->
  picture (blank buf lo hi m) buf (fun i => if (lo <=? i) && (i <? hi) then 32 else f i) /\
  only_changes m (blank buf lo hi m) buf 81.
Proof.
  intros P Hl Hh. unfold blank.
  pose proof (for_loop_inv (fun k m' => k <= hi ->
    picture m' buf (fun i => if (lo <=? i) && (i <? k) then 32 else f i) /\ only_changes m m' buf 81)
    lo hi (fun i m => stb m (buf + i) 32) m) as H. cbv beta in H. apply H; [lia| | |lia].
  - intros _. split; [|apply only_changes_refl]. eapply picture_ext; [exact P|]. intros i Hi. cbv beta.
    by replace ((lo <=? i) && (i <? lo)) with false by lia.
  - intros j m' Hj IH _. destruct (IH ltac:(lia)) as [P' C]. split.
    + eapply picture_ext; [apply (picture_stb _ _ _ j 32 P'); lia|]. intros i Hi. cbv beta.
      destruct (Z.eqb_spec i j) as [->|]; [by replace ((lo <=? j) && (j <? j + 1)) with true by lia|].
      by replace (i <? j + 1) with (i <? j) by lia.
    + eapply only_changes_trans; [exact C|]. apply only_changes_stb. lia.
Qed.

Lemma walls_ok m buf : region m buf 81 -> picture (walls buf m) buf wall /\ only_changes m (walls buf m) buf 81.
Proof.
  intros R. assert (P : picture m buf (fun i => ldb m (buf + i))) by by split.
  destruct (picture_blank m buf _ 0 81 P ltac:(lia) ltac:(lia)) as [P0 C0]. unfold walls.
  change BUFMAX with 81. change START with 1. change (81 - 1) with 80. change (81 - 2) with 79. change (81 - 3) with 78.
  split.
  - pose proof (picture_stb _ _ _ 80 0 P0 ltac:(lia) ltac:(lia)) as P1.
    pose proof (picture_stb _ _ _ 79 10 P1 ltac:(lia) ltac:(lia)) as P2.
    pose proof (picture_stb _ _ _ 78 124 P2 ltac:(lia) ltac:(lia)) as P3.
    pose proof (picture_stb _ _ _ 1 124 P3 ltac:(lia) ltac:(lia)) as P4.
    eapply picture_ext; [exact P4|]. intros i Hi. cbv beta. unfold wall.
    replace ((0 <=? i) && (i <? 81)) with true by lia. repeat split_if; lia.
  - repeat (eapply only_changes_trans; [|apply only_changes_stb; lia]). exact C0.
Qed.

Lemma zget_replicate n (x : Z) i : 0 <= i < Z.of_nat n -> zget 0 (replicate n x) i = x.
Proof.
  intros Hi. unfold zget. rewrite (proj2 (Z.ltb_ge _ _)) by lia. by rewrite lookup_replicate_2 by lia.
Qed.

Lemma frame_text_length c j : 2 <= j <= 77 -> length (frame_text c j) = 80%nat.
Proof. intros Hj. unfold frame_text. rewrite !length_app, !length_replicate. simpl. lia. Qed.

(** The text of a frame, column by column. *)
Lemma frame_text_get c j i : 2 <= j <= 77 -> 0 <= i < 80 ->
  zget 0 (frame_text c j) i = if i =? j then c else wall i.
Proof.
  intros Hj Hi. unfold frame_text, wall.
  assert (S : forall (l1 l2 : list Z) k, 0 <= k -> zget 0 (l1 ++ l2) k =
    if k <? Z.of_nat (length l1) then zget 0 l1 k else zget 0 l2 (k - Z.of_nat (length l1))).
  { intros l1 l2 k Hk. destruct (Z.ltb_spec k (Z.of_nat (length l1))); [by rewrite zget_app_l by lia|].
    replace k with (Z.of_nat (length l1) + (k - Z.of_nat (length l1))) at 1 by lia. by rewrite zget_app_r by lia. }
  rewrite S by lia. change (Z.of_nat (length [32; 124])) with 2. destruct (Z.ltb_spec i 2).
  { assert (i = 0 \/ i = 1) as [-> | ->] by lia; rewrite (proj2 (Z.eqb_neq _ j)) by lia; done. }
  rewrite S, length_replicate by lia. destruct (Z.ltb_spec (i - 2) (Z.of_nat (Z.to_nat (j - 2)))).
  { rewrite zget_replicate by lia. repeat split_if; lia. }
  rewrite S by lia. change (Z.of_nat (length [c])) with 1.
  destruct (Z.ltb_spec (i - 2 - Z.of_nat (Z.to_nat (j - 2))) 1).
  { replace (i - 2 - Z.of_nat (Z.to_nat (j - 2))) with 0 by lia. rewrite (proj2 (Z.eqb_eq i j)) by lia. done. }
  rewrite (proj2 (Z.eqb_neq i j)) by lia. rewrite S, length_replicate by lia.
  destruct (Z.ltb_spec (i - 2 - Z.of_nat (Z.to_nat (j - 2)) - 1) (Z.of_nat (Z.to_nat (77 - j)))).
  { rewrite zget_replicate by lia. repeat split_if; lia. }
  assert (i = 78 \/ i = 79) as [-> | ->] by lia;
    [replace (78 - 2 - _ - 1 - _) with 0 by lia|replace (79 - 2 - _ - 1 - _) with 1 by lia]; done.
Qed.

(** ** The clock, from user mode *)

Section Clock.
Context `{D : Device} `{Sy : Symbols} `{TF : TrapFrame} `{TO : !TrapOk} `{L : Literals}.
Implicit Types s : kst.

Definition clock_fd (p : Z) (s : kst) (fd : Z) : Prop :=
  2 <= fd <= 7 /\ flag (fd_at p fd s) = 1 /\ f_op (fd_at p fd s) = F_rtc.

Lemma clock_fd_pcbs p s s' fd : k_pcbs s' = k_pcbs s -> clock_fd p s fd -> clock_fd p s' fd.
Proof. unfold clock_fd, fd_at, pcb_at. by intros ->. Qed.

Lemma user_open_rtc p b n s a d fd :
  running p s -> small_arg a -> a <> 0 -> read_dentry_by_name (at_ (k_mem s) a) s = Some d -> d_ft d = 0 ->
  free_fd 6 2 (file_desc_tb (pcb_at p s)) = Some fd ->
  exists s', ece391_open a s = Ret fd s' /\ clock_fd p s' fd /\ ustep p b n s s' /\ k_mem s' = k_mem s /\
    view s' = view s /\ k_irqs s' = k_irqs s /\ rtc_interrupt_occurred (k_rtc s') = 0 /\
    forall fd', fd' <> fd -> fd_at p fd' s' = fd_at p fd' s.
Proof.
  intros R Ha Ha0 Hd Hft Hfree. pose proof (free_fd_spec 6 2 (file_desc_tb (pcb_at p s))) as Hr.
  rewrite Hfree in Hr. destruct Hr as (Hfd & _).
  set (g := fun f => with_position 0 (with_flag 1 (with_f_op F_rtc f))).
  pose proof (ustep_upd_fd p b n s fd g R ltac:(lia)) as U. set (s1 := upd_fd p fd g s) in *.
  assert (F : fd_at p fd s1 = g (fd_at p fd s)).
  { unfold s1. pose proof (ru_proc _ _ R). rewrite fd_at_upd by (apply R || lia). by rewrite decide_True. }
  set (r := mkRtc 0 (rtc_counter (k_rtc s)) (RTC_MAX_FREQ / RTC_BASE_FREQ)).
  exists (set_rtc r s1). split.
  - rewrite call_open by done. unfold sys_open.
    change (read_dentry_by_name (at_ (k_mem (enter s)) a) (enter s)) with (read_dentry_by_name (at_ (k_mem s) a) s).
    rewrite Hd, Hft. cbn [Z.eqb]. unfold alloc_fd, with_pcb. rewrite (enter_pcb p s R).
    change (pcb_at p (enter s)) with (pcb_at p s). rewrite Hfree. unfold kbind, lift, rtc_open, kret.
    rewrite (proj2 (Z.eqb_neq a 0)) by done. pose proof (ru_if _ _ R) as Hif. unfold s1, r.
    destruct s. simpl in *. by subst.
  - split; [split; [lia|]; by change (fd_at p fd (set_rtc r s1)) with (fd_at p fd s1); rewrite F|].
    split; [|split_and!; try done]; cycle 1.
    { intros fd' Hne. change (fd_at p fd' (set_rtc r s1)) with (fd_at p fd' s1). unfold s1. pose proof (ru_proc _ _ R).
      rewrite fd_at_upd by (apply R || lia). by rewrite decide_False by (intros [_ ?]; congruence). }
    eapply ustep_trans; [exact U|].
    exact (ustep_fds p b n s1 r (k_pcbs s1) (us_run _ _ _ _ _ U) (ru_pcbs _ _ (us_run _ _ _ _ _ U)) (fun _ _ => eq_refl)
      ltac:(by apply kept_memory)).
Qed.

Lemma user_write_rtc p s fd buf :
  running p s -> clock_fd p s fd -> in_window buf 4 -> valid_freq (ld32 (k_mem s) buf) ->
  ece391_write fd buf 4 s =
    Ret 4 (set_rtc (mkRtc (rtc_interrupt_occurred (k_rtc s)) 0 (1024 / ld32 (k_mem s) buf)) s).
Proof.
  intros R (Hfd & F1 & F2) (W1 & _ & W3) Hv. unfold MB128, MB132 in *.
  rewrite call_write by (unfold small_arg; lia). unfold sys_write, with_pcb. rewrite (enter_pcb p s R).
  change (fd_at p fd (enter s)) with (fd_at p fd s). rewrite F1, F2. cbn [Z.eqb].
  replace ((1 <? fd) && (fd <=? 7)) with true by lia. cbn [op_write]. unfold kbind, lift.
  change (ld32 (k_mem s) buf) with (ld32 (k_mem (enter s)) buf) in *.
  destruct (rtc_write_cases fd buf 4 (enter s)) as [(_ & _ & _ & E)|[H _]];
    [rewrite E|exfalso; apply H; split; [lia|done]].
  pose proof (ru_if _ _ R) as Hif. destruct s. simpl in *. by subst.
Qed.

(** [read] waits for a tick: with too few interrupts to come it is never back. *)
Lemma user_read_rtc p b k s fd buf n :
  running p s -> clock_fd p s fd -> in_window buf 4 -> rtc_ok s -> rtc_interrupt_occurred (k_rtc s) = 0 ->
  k_irqs s = replicate n IRQ_rtc ->
  let d := rtc_max_count (k_rtc s) - rtc_counter (k_rtc s) in
  if Z.of_nat n <? d then exists s', ece391_read fd buf 4 s = Blocked s' /\ scr_eq (view s') (view s)
  else exists s', ece391_read fd buf 4 s = Ret 0 s' /\ ustep p b k s s' /\ scr_eq (view s') (view s) /\
    k_mem s' = k_mem s /\ k_pcbs s' = k_pcbs s /\ k_irqs s' = replicate (n - Z.to_nat d) IRQ_rtc /\
    k_rtc s' = mkRtc 0 0 (rtc_max_count (k_rtc s)).
Proof.
  intros R (Hfd & F1 & F2) (W1 & _ & W3) Hok H0 Hq d. unfold MB128, MB132 in *.
  pose proof (rtc_read_clock fd buf 4 n (enter s) ltac:(lia) Hok H0 Hq) as H. cbv zeta in H.
  change (rtc_max_count (k_rtc (enter s)) - rtc_counter (k_rtc (enter s))) with d in H.
  rewrite call_read by (unfold small_arg; lia). rewrite (read_open p s fd F_rtc) by (done || lia). cbn [op_read].
  destruct (Z.of_nat n <? d); destruct H as (s1 & -> & H); cbn [leave].
  - exists s1. split; [done|]. rewrite H. done.
  - destruct H as (C & Q & T). unfold clock_only in C.
    exists (set_if true (set_esp (k_esp s) s1)). split; [done|].
    destruct (ustep_rest p b k s (set_if true (set_esp (k_esp s) s1)) R) as [U V];
      [by rewrite C|by rewrite C|by rewrite C|by rewrite C|done|by rewrite C|by rewrite C|].
    split; [exact U|]. split; [exact V|]. split; [by rewrite C|]. by split; [rewrite C|].
Qed.

End Clock.

(** ** The game *)

Section Game.
Context `{D : Device} `{Sy : Symbols} `{TF : TrapFrame} `{TO : !TrapOk} `{L : Literals}.
Context (p buf ret_val garbage stk len : Z).
Implicit Types s : kst.

(** The locals on the stack. *)
Record locals : Prop := {
  lo_buf : in_window buf 81 /\ stk <= buf /\ buf + 81 <= stk + len;
  lo_ret : in_window ret_val 4 /\ stk <= ret_val /\ ret_val + 4 <= stk + len;
  lo_garbage : in_window garbage 4;
  lo_apart : buf + 81 <= ret_val \/ ret_val + 4 <= buf
}.

Context (Lo : locals).

(** Between two frames, with [n] clock interrupts to come. *)
Record playing (fd : Z) (n : nat) (s0 s : kst) : Prop := {
  pl_step : ustep p stk len s0 s;
  pl_fd : clock_fd p s fd;
  pl_rtc : k_rtc s = mkRtc 0 0 32;
  pl_irqs : k_irqs s = replicate n IRQ_rtc;
  pl_walls : exists f, picture (k_mem s) buf f /\ forall i, 0 <= i < 81 -> i < 2 \/ 77 < i -> f i = wall i
}.

(** The same text in the array after a step elsewhere. *)
Lemma picture_step b n s s' f :
  ustep p b n s s' -> n <= 0 \/ b + n <= buf \/ buf + 81 <= b -> picture (k_mem s) buf f -> picture (k_mem s') buf f.
Proof.
  intros U Hb [_ P]. destruct Lo as [(W & _) _ _ _]. split; [exact (window_region p s' buf 81 (us_run _ _ _ _ _ U) W)|].
  intros i Hi. rewrite <- P by done. destruct W as (?&?&?). apply (us_page _ _ _ _ _ U); [unfold in_window; lia|lia].
Qed.

(** The letter at column [j]. *)
Lemma draw_frame m f c j :
  picture m buf f -> (forall i, 0 <= i < 81 -> i < 2 \/ 77 < i -> f i = wall i) -> 65 <= c <= 90 -> 2 <= j <= 77 ->
  let m' := stb (blank buf STARTLOOP LOOPMAX m) (buf + j) c in
  picture m' buf (fun i => if i =? j then c else wall i) /\ only_changes m m' buf 81 /\
  cstr (at_ m' buf) (frame_text c j).
Proof.
  intros P Hf Hc Hj m'. destruct (picture_blank m buf f 2 78 P ltac:(lia) ltac:(lia)) as [P1 C1].
  assert (P2 : picture m' buf (fun i => if i =? j then c else wall i)).
  { eapply picture_ext; [exact (picture_stb _ _ _ j c P1 ltac:(lia) ltac:(lia))|]. intros i Hi. cbv beta.
    destruct (i =? j); [done|]. destruct (Z.leb_spec 2 i), (Z.ltb_spec i 78); cbn [andb];
      try (apply Hf; [done|lia]). unfold wall. repeat split_if; lia. }
  split; [exact P2|]. split.
  - eapply only_changes_trans; [exact C1|]. apply only_changes_stb. lia.
  - destruct P2 as [_ P2]. split_and!.
    + unfold frame_text. rewrite !Forall_app. split_and!; try (apply Forall_replicate; lia);
        repeat (constructor; [lia|]); constructor.
    + rewrite frame_text_length by done. intros i Hi. unfold at_. rewrite P2, frame_text_get by lia. done.
    + rewrite frame_text_length by done. unfold at_. rewrite P2 by lia. rewrite (proj2 (Z.eqb_neq _ j)) by lia. done.
Qed.

Lemma frame_shows fd n s0 s c j t t' :
  playing fd n s0 s -> 65 <= c <= 90 -> 2 <= j <= 77 ->
  scr_eq (view s) t -> spec_puts (frame_text c j) t = Some t' ->
  if Z.of_nat n <? 32 then exists s', pp_frame fd buf garbage c j s = Blocked s' /\ scr_eq (view s') t'
  else exists s', pp_frame fd buf garbage c j s = Ret tt s' /\ playing fd (n - 32) s0 s' /\ scr_eq (view s') t'.
Proof.
  intros [G1 G2 G3 G4 (f & P & Hf)] Hc Hj V Hs. pose proof (us_run _ _ _ _ _ G1) as R.
  destruct Lo as [(W & Hb1 & Hb2) _ Wg _]. destruct (draw_frame _ f c j P Hf Hc Hj) as (P1 & C1 & T1).
  set (m1 := stb _ _ _) in *. destruct (ustep_mem p buf 81 s m1 R W C1) as [U1 V1]. set (s1 := set_mem m1 s) in *.
  destruct (spec_puts_proper (frame_text c j) t (view s1) t') as (t1 & Ht1 & Q1); [by rewrite V1, V|exact Hs|].
  assert (Lb : literal_at s1 buf (frame_text c j)).
  { split; [exact T1|]. split; [done|]. rewrite frame_text_length by done. split; [lia|exact W]. }
  destruct (user_fdputs p s1 buf _ t1 (us_run _ _ _ _ _ U1) Lb Ht1) as (s2 & E2 & D2 & V2 & R2).
  pose proof (ustep_draws p stk 0 s1 s2 (us_run _ _ _ _ _ U1) D2 (ru_cursor _ _ R2)) as U2.
  assert (U12 : ustep p stk len s s2).
  { eapply ustep_trans; [eapply ustep_sub; [exact U1|lia|lia]|]. eapply ustep_sub; [exact U2|lia|lia]. }
  destruct D2 as [(E & _) _].
  assert (F2 : k_rtc s2 = mkRtc 0 0 32 /\ k_irqs s2 = replicate n IRQ_rtc /\ k_pcbs s2 = k_pcbs s)
    by (rewrite E; done). destruct F2 as (K2 & I2 & B2).
  assert (Ok2 : rtc_ok s2) by (split; rewrite K2; [simpl; lia|exists 32; split; [by exists 5|done]]).
  pose proof (user_read_rtc p stk 0 s2 fd garbage n R2 (clock_fd_pcbs p s s2 fd B2 G2) Wg Ok2) as H.
  rewrite K2 in H. specialize (H eq_refl I2). cbv zeta in H. cbn [rtc_max_count rtc_counter] in H.
  change (32 - 0) with 32 in H.
  assert (Ef : pp_frame fd buf garbage c j s = (ece391_read fd garbage 4 ;; kret tt)%kernel s2).
  { unfold pp_frame. unfold kbind at 1, kmod. fold m1 s1. unfold kbind at 1. by rewrite E2. }
  rewrite Ef. unfold kbind. destruct (Z.of_nat n <? 32); destruct H as (s3 & -> & H).
  - exists s3. split; [done|]. by rewrite H, V2, Q1.
  - destruct H as (U3 & V3 & M3 & B3 & I3 & K3). exists s3. split; [done|]. split; [|by rewrite V3, V2, Q1]. split.
    + eapply ustep_trans; [exact G1|]. eapply ustep_trans; [exact U12|]. eapply ustep_sub; [exact U3|lia|lia].
    + by apply (clock_fd_pcbs p s2), (clock_fd_pcbs p s).
    + exact K3.
    + exact I3.
    + rewrite M3. exists (fun i => if i =? j then c else wall i).
      split; [by apply (picture_step stk 0 s1 s2 _ U2); [left|]|].
      intros i Hi Hw. by rewrite (proj2 (Z.eqb_neq i j)) by lia.
Qed.

(** Frames one after the other, a tick apart, until the ticks end. *)
Definition in_walls (x : Z * Z) : Prop := 65 <= x.1 <= 90 /\ 2 <= x.2 <= 77.

Lemma spec_puts_frame c j t : 65 <= c <= 90 -> is_Some (spec_puts (frame_text c j) t).
Proof.
  intros Hc. apply spec_puts_total. unfold frame_text. rewrite !Forall_app.
  split_and!; try (apply Forall_replicate; lia); repeat (constructor; [lia|]); constructor.
Qed.

Lemma run_frames_shows fd n s0 s l t :
  playing fd n s0 s -> Forall in_walls l -> scr_eq (view s) t -> (n < 32 * length l)%nat ->
  exists s' t', run_frames fd buf garbage l s = Blocked s' /\
    spec_puts (frames_text (take (S (n / 32)) l)) t = Some t' /\ scr_eq (view s') t'.
Proof.
  intros G Hl. revert n s t G. induction Hl as [|[c j] l [Hc Hj] Hl IH]; intros n s t G V Hn; [simpl in Hn; lia|].
  cbn [fst snd] in Hc, Hj. cbn [run_frames take frames_text flat_map]. unfold kbind.
  destruct (spec_puts_frame c j t Hc) as [u Hu].
  pose proof (frame_shows fd n s0 s c j t u G Hc Hj V Hu) as H. destruct (Z.ltb_spec (Z.of_nat n) 32) as [Hs|Hs].
  - destruct H as (s' & -> & V'). exists s', u. rewrite Nat.div_small by lia. simpl. by rewrite app_nil_r.
  - destruct H as (s1 & -> & G1 & V1). destruct (IH (n - 32)%nat s1 u G1 V1) as (s' & t' & E & Ht & V').
    { simpl in Hn. lia. }
    exists s', t'. split; [done|]. split; [|done]. rewrite spec_puts_app, Hu.
    replace (n / 32)%nat with (S ((n - 32) / 32)); [exact Ht|].
    replace n with (n - 32 + 1 * 32)%nat at 2 by lia. rewrite Nat.div_add by lia. lia.
Qed.

Lemma rounds_ok k c : 65 <= c <= 90 -> Forall in_walls (rounds k c) /\ length (rounds k c) = (152 * k)%nat.
Proof.
  revert c. induction k as [|k IH]; intros c Hc; [by split; [constructor|]|]. cbn [rounds].
  destruct (IH (if c =? ENDCHAR then STARTCHAR else c + 1)) as [I1 I2];
    [unfold ENDCHAR, STARTCHAR; split_if; lia|]. split.
  - unfold round. rewrite !Forall_app, !Forall_map. split_and!; [..|exact I1];
      apply Forall_forall; intros i Hi%elem_of_seq; split; simpl; lia.
  - rewrite length_app, I2. unfold round. rewrite length_app, !length_map, !length_seq. lia.
Qed.

(** C18: pingpong moves its letter exactly once per tick and otherwise waits.  When the clock
    interrupts [n] more times, it shows one frame and another one for each 32
    interrupts, the letter between the two walls going from the left to the right and
    back and the next letter of the alphabet after that, from Z on to A; then it waits
    in its [read] of the clock, which it does not leave without a further tick.  ([fuel]
    bounds the rounds of the loop that never ends; more than the interrupts can bring is
    enough.) *)
Theorem pingpong_waits s fuel d fd n :
  running p s -> literal_at s (lit (str "rtc")) (str "rtc") -> beside stk len (lit (str "rtc")) (str "rtc") ->
  entry_named s (str "rtc") = Some d -> d_ft d = 0 -> free_fd 6 2 (file_desc_tb (pcb_at p s)) = Some fd ->
  k_irqs s = replicate n IRQ_rtc -> (n < 32 * (152 * fuel))%nat ->
  exists s' t, pingpong_main fuel buf ret_val garbage s = Blocked s' /\
    spec_puts (frames_text (take (S (n / 32)) (rounds fuel STARTCHAR))) (view s) = Some t /\ scr_eq (view s') t.
Proof.
  intros R Ll Lb Hd Hft Hfree Hq Hn. pose proof Lo as [(Wb & Hb1 & Hb2) (Wr & Hr1 & Hr2) _ Hbr].
  destruct (walls_ok (k_mem s) buf (window_region p s buf 81 R Wb)) as [P1 C1]. set (m1 := walls buf (k_mem s)) in *.
  destruct (ustep_mem p buf 81 s m1 R Wb C1) as [U1 V1]. set (s1 := set_mem m1 s) in *.
  assert (U01 : ustep p stk len s s1) by (eapply ustep_sub; [exact U1|lia|lia]).
  pose proof (literal_step _ _ _ _ _ _ _ U01 Ll Lb) as L1.
  assert (Ha : small_arg (lit (str "rtc")) /\ lit (str "rtc") <> 0).
  { destruct Ll as (_ & _ & _ & (?&?&?)). unfold small_arg, MB128, MB132 in *. lia. }
  destruct (user_open_rtc p stk 0 s1 (lit (str "rtc")) d fd) as (s2 & E2 & F2 & U2 & M2 & V2 & Q2 & O2 & _);
    [apply U1|apply Ha|apply Ha| |done|exact Hfree|].
  { rewrite (entry_named_eq s1 (str "rtc")); [|intros; apply (ldb_range (k_mem s1))|apply L1].
    by rewrite (entry_named_step p stk len s s1). }
  set (m3 := st32 (k_mem s2) ret_val 32). pose proof (us_run _ _ _ _ _ U2) as R2.
  destruct (ustep_mem p ret_val 4 s2 m3 R2 Wr (only_changes_st32 _ _ _)) as [U3 V3]. set (s3 := set_mem m3 s2) in *.
  assert (E32 : ld32 m3 ret_val = 32) by (apply (ld32_st32 (k_mem s2)), (window_region p s2 ret_val 4 R2 Wr)).
  pose proof (user_write_rtc p s3 fd ret_val (us_run _ _ _ _ _ U3)) as E4. change (k_mem s3) with m3 in E4.
  rewrite E32 in E4. specialize (E4 (clock_fd_pcbs p s2 s3 fd eq_refl F2) Wr ltac:(by exists 5)).
  change (rtc_interrupt_occurred (k_rtc s3)) with (rtc_interrupt_occurred (k_rtc s2)) in E4. rewrite O2 in E4.
  change (1024 / 32) with 32 in E4. set (s4 := set_rtc _ s3) in E4.
  set (m5 := st32 (k_mem s4) ret_val 4). pose proof (us_run _ _ _ _ _ U3) as R3.
  destruct (ustep_rest p ret_val 4 s3 s4 R3) as [U4 V4]; try done; [apply R3|].
  destruct (ustep_mem p ret_val 4 s4 m5 (us_run _ _ _ _ _ U4) Wr (only_changes_st32 _ _ _)) as [U5 V5].
  set (s5 := set_mem m5 s4) in *.
  assert (U35 : ustep p ret_val 4 s2 s5) by (eapply ustep_trans; [exact U3|eapply ustep_trans; [exact U4|exact U5]]).
  assert (G : playing fd n s s5).
  { split; [|exact (clock_fd_pcbs p s2 s5 fd eq_refl F2)|done|by change (k_irqs s5) with (k_irqs s2); rewrite Q2|].
    - eapply ustep_trans; [exact U01|]. eapply ustep_trans; [eapply ustep_sub; [exact U2|lia|lia]|].
      eapply ustep_sub; [exact U35|lia|lia].
    - exists wall. split; [|done]. apply (picture_step ret_val 4 s2 s5 _ U35); [right; lia|]. by rewrite M2. }
  destruct (rounds_ok fuel STARTCHAR ltac:(unfold STARTCHAR; lia)) as [Rk Rl].
  destruct (run_frames_shows fd n s s5 (rounds fuel STARTCHAR) (view s) G Rk) as (s' & t & E & Ht & V');
    [by rewrite V5, V4, V3, V2, V1|by rewrite Rl|].
  exists s', t. split; [|by split]. unfold pingpong_main. unfold kbind at 1, kmod at 1. fold m1 s1.
  unfold kbind at 1. rewrite E2. unfold kbind at 1, kmod at 1. fold m3 s3. unfold kbind at 1. rewrite E4.
  unfold kbind at 1, kmod at 1. fold m5 s5. rewrite pingpong_loop_frames by (unfold STARTCHAR; lia).
  unfold kbind. by rewrite E.
Qed.

End Game.
