(* ===== verification/Session.v ===== *)
(** * A session at the prompt

    [execute] followed into the program it starts and back: the program runs, its
    [_start] halts with what [main] returned, and the kernel resumes the shell inside its
    call.  With it the shell is followed through a whole session. *)

From stdpp Require Import base list numbers gmap strings.
From Stdlib Require Import ZArith Lia.
From S2P Require Import Prelude Mem LibStr State Pic Console Rtc Keyboard Irq Terminal Paging.
From S2P Require Import Filesystem Syscall Process Idt User Programs Shell.

Section Run.
Context `{D : Device} `{Sy : Symbols} `{TF : TrapFrame} `{L : Literals}.

Definition _start (main : K Z) : K Z := (r <- main ;; ece391_halt r)%kernel.

(** [execute] with the program: [code eip m] is what the instructions from [eip] on do in
    memory [m].  The kernel resumes the caller when it comes back to the stack and frame
    pointers of the call. *)
Definition execute_running (code : Z -> vmem -> K Z) (command : Z) : K Z := fun s =>
  match ece391_execute command s with
  | EnterUser eip _ s1 =>
      match _start (code eip (k_mem s1)) s1 with
      | Resume esp ebp v s2 =>
          if (esp =? k_esp (enter s)) && (ebp =? trap_ebp) then leave (k_esp s) (Ret (i32 v) s2)
          else Resume esp ebp v s2
      | r => r
      end
  | r => r
  end.

End Run.

(** Where the bytes of the file are, [code] does what [main] does. *)
Definition runs_as (code : Z -> vmem -> K Z) (entry : Z) (bytes : list Z) (main : K Z) : Prop :=
  forall m, bytes_at m (MB128 + PROC_OFFSET) (length bytes) = bytes -> code entry m = main.

Section Return.
Context `{D : Device} `{Sy : Symbols} `{TF : TrapFrame} `{TO : !TrapOk} `{L : Literals}.
Implicit Types s : kst.

Lemma u8_u8_u32 v : u8 (u8 (u32 v)) = u8 v.
Proof. unfold u8, u32. modlia. Qed.

(** [halt] in a process that [execute] has started. *)
Lemma user_halt i s v :
  running i s -> 1 <= i -> parent_pid (pcb_at i s) = i - 1 -> kernel_pages (k_pg s) (frame i + 0x87) ->
  exists s', ece391_halt v s =
      Resume (saved_esp (pcb_at i s)) (saved_ebp (pcb_at i s)) (u32 (i8 (u8 v))) s' /\
    upage (k_mem s') = frame (i - 1) /\ paging_on (k_mem s') = true /\
    kernel_pages (k_pg s') (frame (i - 1) + 0x87) /\ esp0 (k_tss s') = _8MB - (i - 1) * _8KB - 4 /\
    closed_pcb i s s' /\ phys (k_mem s') = phys (k_mem s) /\
    s' = set_mem (k_mem s') (set_pg (k_pg s') (set_tss (k_tss s') (set_pcbs (k_pcbs s') (enter s)))).
Proof.
  intros R Hi Hp Hk. pose proof (ru_proc _ _ R) as Hr. pose proof (enter_pcb i s R) as Hg.
  destruct (halt_parent (sys_execute 2 trap_ebp) (u8 (u32 v)) (enter s) i (frame i + 0x87) Hg)
    as (s' & E & U & Pg & K & T & C & P & Q); [lia|exact Hp|apply R|exact Hk|].
  exists s'. split.
  - unfold ece391_halt, int80, syscall_wrapper. cbn -[u32 enter sys_halt u8 i8]. unfold sys_halt. rewrite E. cbn [leave].
    by rewrite u8_u8_u32.
  - split_and!; try done; [by rewrite T|]. destruct C. by split.
Qed.

(** The bytes of the page, where they are in memory. *)
Lemma window_frame (m : vmem) p a :
  0 <= p < 6 -> paging_on m = true -> upage m = frame p -> in_window a 1 ->
  ldb m a = ldb m (frame p + (a - MB128)).
Proof.
  intros Hp Hg Hu (W1 & _ & W3).
  assert (E : tr m a = tr m (frame p + (a - MB128))).
  { replace a with (MB128 + (a - MB128)) at 1 by lia.
    rewrite tr_window, Hu by (done || (unfold MB128, MB132, MB4 in *; lia)).
    by rewrite tr_kernel by (unfold frame, MB128, MB132 in *; lia). }
  change (vmem_ldb m a = vmem_ldb m (frame p + (a - MB128))). unfold vmem_ldb. by rewrite E.
Qed.

Lemma phys_ldb (m m' : vmem) a : phys m' = phys m -> 0 <= a < MB128 -> ldb m' a = ldb m a.
Proof. intros E Ha. change (vmem_ldb m' a = vmem_ldb m a). unfold vmem_ldb. by rewrite E, !tr_kernel. Qed.

Lemma phys_image m m' boot :
  phys m' = phys m -> fs_wf m boot -> boot + image_size m boot <= _8MB -> same_image m m' boot.
Proof.
  intros E (H0 & _) Hl j Hj. apply phys_ldb; [done|]. unfold _8MB, MB128 in *. lia.
Qed.

Lemma same_image_trans (m1 m2 m3 : vmem) boot :
  fs_wf m1 boot -> same_image m1 m2 boot -> same_image m2 m3 boot -> same_image m1 m3 boot.
Proof.
  intros Hw H1 H2 j Hj. destruct (same_image_wf _ _ _ Hw H1) as [_ E]. by rewrite H2, H1 by (by rewrite ?E).
Qed.

Lemma phys_view s s' : phys (k_mem s') = phys (k_mem s) -> k_con s' = k_con s -> scr_eq (view s') (view s).
Proof.
  intros E C. split; [simpl; by rewrite C|]. intros i Hi. simpl. unfold chr, vid_get.
  apply phys_ldb; [done|]. unfold VIDEO, MB128 in *. lia.
Qed.

Lemma kernel_pages_pde pg pde pde' : kernel_pages pg pde -> kernel_pages pg pde' -> pde = pde'.
Proof. intros (_ & _ & H1 & _) (_ & _ & H2 & _). specialize (H1 32 ltac:(lia)). specialize (H2 32 ltac:(lia)). by rewrite H1 in H2. Qed.

(** Back in the caller: its page, its descriptors and the processes below it are as they
    were, the screen and the keyboard as the program has left them. *)
Lemma program_returns p s s1 s2 d a main v b n :
  running p s -> p + 1 < 6 -> active (pcb_at (p + 1) s) = 0 -> kernel_pages (k_pg s) (frame p + 0x87) ->
  launched s s1 (p + 1) d a -> main s1 = Ret v s2 -> ustep (p + 1) b n s1 s2 ->
  exists s3, _start main s1 = Resume (k_esp (enter s)) trap_ebp (u32 (i8 (u8 v))) s3 /\
    let s' := set_if true (set_esp (k_esp s) s3) in
    ustep p 0 0 s s' /\ scr_eq (view s') (view s2) /\ same_input s2 s' /\ kernel_pages (k_pg s') (frame p + 0x87).
Proof.
  intros R Hp Ha Hk La Em U. pose proof (ru_proc _ _ R) as Hr. pose proof (us_kept _ _ _ _ _ U) as Kp.
  pose proof (us_run _ _ _ _ _ U) as R2. destruct (la_back _ _ _ _ _ La) as [B1 B2].
  destruct (user_halt (p + 1) s2 v R2) as (s3 & E & Up & Pg & Kg & T & C & Ph & Q); [lia| | |].
  { rewrite (kp_parent _ _ _ Kp), (la_parent _ _ _ _ _ La). replace (p + 1 - 1) with p by lia. apply u32_small. lia. }
  { apply (kp_pages _ _ _ Kp), La. }
  replace (p + 1 - 1) with p in * by lia.
  rewrite (kp_stack _ _ _ Kp), (kp_frame _ _ _ Kp), B1, B2 in E.
  exists s3. split; [unfold _start, kbind; by rewrite Em|]. set (s' := set_if true (set_esp (k_esp s) s3)).
  assert (Low : forall x, VIDEO_END <= x < frame (p + 1) -> ldb (k_mem s3) x = ldb (k_mem s) x).
  { intros x Hx. rewrite (phys_ldb (k_mem s2)) by (done || (unfold VIDEO_END, frame, MB128 in *; lia)).
    rewrite (proj1 (kp_below _ _ _ Kp)) by done. apply La. unfold VIDEO_END in *. lia. }
  assert (Pj : forall j, 0 <= j -> j < p + 1 -> pcb_at j s3 = pcb_at j s).
  { intros j H0 Hj. rewrite (cp_others _ _ _ C) by lia. rewrite (proj2 (kp_below _ _ _ Kp)) by lia. apply La. lia. }
  assert (Fp : forall fd, fd_at p fd s' = fd_at p fd s).
  { intros fd. change (fd_at p fd s3 = fd_at p fd s). unfold fd_at. by rewrite Pj by lia. }
  assert (Q' : k_boot s3 = k_boot s2 /\ k_con s3 = k_con s2 /\ same_input s2 s3) by (rewrite Q; done).
  destruct Q' as (Qb & Qc & Qi). assert (Eb : k_boot s2 = k_boot s) by (rewrite (us_boot _ _ _ _ _ U); apply La).
  pose proof (us_image _ _ _ _ _ U) as I2. rewrite (la_boot _ _ _ _ _ La) in I2.
  assert (Im : same_image (k_mem s) (k_mem s3) (k_boot s)).
  { eapply same_image_trans; [apply R|apply La|]. eapply same_image_trans; [|exact I2|].
    - rewrite <- (la_boot _ _ _ _ _ La). apply La.
    - rewrite <- Eb. apply phys_image; [done|apply R2|apply R2]. }
  destruct (same_image_wf _ _ _ (ru_wf _ _ R) Im) as [Hw Es].
  assert (R' : running p s').
  { split; rewrite ?Fp; try (change (k_boot s') with (k_boot s3); change (k_mem s') with (k_mem s3); rewrite Qb, Eb, ?Es);
      try done; try apply R; [apply C|]. change (cursor_ok s3). unfold cursor_ok. rewrite Qc. apply R2. }
  split; [|split; [|split]]; [|by apply (phys_view s2 s3)|exact Qi|exact Kg]. split; try done.
  - change (k_boot s3 = k_boot s). congruence.
  - intros x Hx _. rewrite (window_frame (k_mem s') p x), (window_frame (k_mem s) p x) by (done || apply R).
    apply Low. destruct Hx as (?&?&?). unfold VIDEO_END, frame, MB128, MB132 in *. lia.
  - split; try (change (pcb_at p s') with (pcb_at p s3); by rewrite Pj by lia).
    + split; [intros x Hx; apply Low; unfold frame in *; lia|]. intros j Hj. apply Pj; lia.
    + intros j. change (active (pcb_at j s3) = active (pcb_at j s)). destruct (Z.eq_dec j (p + 1)) as [->|Hne].
      * by rewrite (cp_active _ _ _ C).
      * rewrite (cp_others _ _ _ C), (kp_active _ _ _ Kp) by done. by rewrite (la_others _ _ _ _ _ La).
    + intros pde Hpde. by rewrite (kernel_pages_pde _ _ _ Hpde Hk).
Qed.

End Return.

(** ** One line *)

Section Session.
Context `{D : Device} `{Sy : Symbols} `{TF : TrapFrame} `{TO : !TrapOk} `{L : Literals} `{AS : !AlignedSymbols}.
Context (scs : list Z) `{KD : !KeyboardDevice scs} (p buf : Z).
Hypothesis W : in_window buf 129.
Context (code : Z -> vmem -> K Z).
Implicit Types s : kst.

Lemma find_pcb_active k i l l' :
  (forall j, active (zget pcb0 l' j) = active (zget pcb0 l j)) -> find_pcb k i l' = find_pcb k i l.
Proof.
  intros H. revert i. induction k as [|k IH]; intros i; cbn [find_pcb]; [done|]. by rewrite H, IH.
Qed.

Lemma rest_of_image s s' nd :
  fs_wf (k_mem s) (k_boot s) -> k_boot s' = k_boot s -> same_image (k_mem s) (k_mem s') (k_boot s) ->
  0 <= nd < nnod (k_mem s) (k_boot s) -> rest_of s' nd 0 = rest_of s nd 0.
Proof.
  intros Hw B Im Hn. unfold rest_of. rewrite B, (same_image_len _ _ _ _ Hw Im Hn). apply same_image_slice; try done.
  pose proof (ld32_range (k_mem s) (inode_addr (k_boot s) nd)). unfold file_len in *. lia.
Qed.

Lemma entry_named_image s s' l :
  fs_wf (k_mem s) (k_boot s) -> k_boot s' = k_boot s -> same_image (k_mem s) (k_mem s') (k_boot s) ->
  entry_named s' l = entry_named s l.
Proof.
  intros Hw B Im. unfold entry_named, read_dentry_by_name. rewrite B. by apply same_image_lookup.
Qed.

(** [execute] of cat, in the first free process: it runs to its end and shows the file. *)
Lemma cat_started s name a d df fuel buf' t pde :
  let i := find_pcb 6 0 (k_pcbs s) in
  running p s -> i < 6 -> kernel_pages (k_pg s) pde ->
  plain_command (enter s) buf name (padded 128 a) -> read_dentry_by_name (at_ name 0) (enter s) = Some d ->
  d_ft d = 2 -> d_ind d < nnod (k_mem s) (k_boot s) -> 40 <= file_len (k_mem s) (k_boot s) (d_ind d) <= PROG_MAX ->
  is_elf (k_mem s) (k_boot s) (d_ind d) -> in_window buf' 1024 ->
  a <> [] -> (length a < 128)%nat -> Forall (fun c => 0 < c < 256) a ->
  entry_named s a = Some df -> d_ft df = 2 -> d_ind df < nnod (k_mem s) (k_boot s) ->
  file_len (k_mem s) (k_boot s) (d_ind df) < Z.of_nat fuel ->
  spec_puts (rest_of s (d_ind df) 0) (view s) = Some t ->
  exists s1 s2, ece391_execute buf s = EnterUser (elf_entry (k_mem s) (k_boot s) (d_ind d)) (MB132 - 4) s1 /\
    launched s s1 i d a /\ cat_main fuel buf' s1 = Ret 0 s2 /\ scr_eq (view s2) t /\ ustep i buf' 1024 s1 s2 /\
    same_input s1 s2.
Proof.
  intros i R Hi Hk P Hd Hft Hin Hsz Helf W' Ha Hl Hfa Hdf Hft' Hin' Hfu Hs.
  destruct (user_launch p buf W s name a d pde R P Hd Hft Hin Hsz Helf Hk Hi Hl Hfa)
    as (s1 & E1 & La). fold i in La. pose proof (la_run _ _ _ _ _ La) as R1.
  pose proof (ru_wf _ _ R) as Hw. pose proof (la_boot _ _ _ _ _ La) as B. pose proof (la_image _ _ _ _ _ La) as Im.
  assert (Hn : 0 <= d_ind df < nnod (k_mem s) (k_boot s)) by (split; [apply ld32_range|done]).
  destruct (spec_puts_proper _ (view s) (view s1) t (symmetry (la_screen _ _ _ _ _ La)) Hs) as (u & Hu & Eu).
  destruct (cat_ok i s1 buf' R1 W' a df 2 fuel u (la_args _ _ _ _ _ La) Ha Hl) as (s2 & E2 & V2 & U2 & I2).
  - by rewrite (entry_named_image s).
  - done.
  - by rewrite B, (image_header _ _ _ Hw Im).
  - cbn [free_fd]. pose proof (la_closed _ _ _ _ _ La 2 ltac:(lia)) as Hz. unfold fd_at in Hz. by rewrite Hz.
  - by rewrite B, (same_image_len _ _ _ _ Hw Im Hn).
  - by rewrite (rest_of_image s).
  - exists s1, s2. split_and!; try done. by rewrite V2, Eu.
Qed.

(** ... and its caller goes on with 0. *)
Lemma execute_cat s name a d df fuel buf' t :
  running p s -> find_pcb 6 0 (k_pcbs s) = p + 1 -> p + 1 < 6 -> kernel_pages (k_pg s) (frame p + 0x87) ->
  plain_command (enter s) buf name (padded 128 a) -> read_dentry_by_name (at_ name 0) (enter s) = Some d ->
  d_ft d = 2 -> d_ind d < nnod (k_mem s) (k_boot s) -> 40 <= file_len (k_mem s) (k_boot s) (d_ind d) <= PROG_MAX ->
  is_elf (k_mem s) (k_boot s) (d_ind d) ->
  runs_as code (elf_entry (k_mem s) (k_boot s) (d_ind d)) (rest_of s (d_ind d) 0) (cat_main fuel buf') ->
  in_window buf' 1024 ->
  a <> [] -> (length a < 128)%nat -> Forall (fun c => 0 < c < 256) a ->
  entry_named s a = Some df -> d_ft df = 2 -> d_ind df < nnod (k_mem s) (k_boot s) ->
  file_len (k_mem s) (k_boot s) (d_ind df) < Z.of_nat fuel ->
  spec_puts (rest_of s (d_ind df) 0) (view s) = Some t ->
  exists s', execute_running code buf s = Ret 0 s' /\ ustep p 0 0 s s' /\ scr_eq (view s') t /\ same_input s s' /\
    kernel_pages (k_pg s') (frame p + 0x87).
Proof.
  intros R Hf Hp Hk P Hd Hft Hin Hsz Helf Hc W' Ha Hl Hfa Hdf Hft' Hin' Hfu Hs.
  destruct (cat_started s name a d df fuel buf' t (frame p + 0x87) R ltac:(lia) Hk P Hd Hft Hin Hsz Helf W' Ha Hl Hfa Hdf Hft' Hin' Hfu Hs)
    as (s1 & s2 & E1 & La & E2 & V2 & U2 & I2). rewrite Hf in La, U2.
  assert (Hact : active (pcb_at (p + 1) s) = 0).
  { pose proof (find_pcb_spec 6 0 (k_pcbs s)) as (_ & _ & H). rewrite Hf in H. apply H. lia. }
  destruct (program_returns p s s1 s2 d a (cat_main fuel buf') 0 buf' 1024 R Hp Hact Hk La E2 U2)
    as (s3 & E3 & U3 & V3 & I3 & K3).
  exists (set_if true (set_esp (k_esp s) s3)). split.
  - unfold execute_running. rewrite E1, (Hc (k_mem s1)), E3 by apply La. by rewrite !Z.eqb_refl.
  - split; [exact U3|]. split; [by rewrite V3, V2|]. split; [|exact K3]. etrans; [apply La|]. by etrans.
Qed.

(** The line [w], spaces, [a] typed at the prompt, [w] naming cat and [a] a regular file. *)
Record cat_line (s : kst) (fuel : nat) (w a : list Z) (df : dentry) : Prop := {
  cl_argument : a <> [] /\ zget 0 a 0 <> 32 /\ Forall (fun c => 0 < c < 256 /\ c <> 10) a;
  cl_file : entry_named s a = Some df /\ d_ft df = 2 /\ d_ind df < nnod (k_mem s) (k_boot s);
  cl_fuel : file_len (k_mem s) (k_boot s) (d_ind df) < Z.of_nat fuel
}.

Record cat_installed (s : kst) (fuel : nat) (buf' : Z) (w : list Z) (d : dentry) : Prop := {
  ci_word : plain_word w;
  ci_file : installed (k_mem s) (k_boot s) (at_ (w ++ [0]) 0) d;
  ci_code : runs_as code (elf_entry (k_mem s) (k_boot s) (d_ind d)) (rest_of s (d_ind d) 0) (cat_main fuel buf');
  ci_buffer : in_window buf' 1024
}.

(** A process at the prompt with a free slot above it. *)
Record at_prompt (s : kst) : Prop := {
  ap_pages : kernel_pages (k_pg s) (frame p + 0x87);
  ap_free : find_pcb 6 0 (k_pcbs s) = p + 1
}.

Lemma cat_round fuel fuel' buf' s n w k a t d df t' :
  at_prompt s -> p + 1 < 6 -> cat_installed s fuel' buf' w d ->
  types_line scs p buf s n (w ++ replicate (S k) 32 ++ a) t -> cat_line s fuel' w a df ->
  spec_puts (rest_of s (d_ind df) 0) t = Some t' ->
  exists s', shell_loop (execute_running code) (S fuel) buf s = shell_loop (execute_running code) fuel buf s' /\
    at_prompt s' /\ ustep p buf 129 s s' /\ scr_eq (view s') t' /\ keyboard_ready s' /\
    pending scs s' = drop n (pending scs s) /\ count_kbd (k_irqs s) = (n + count_kbd (k_irqs s'))%nat /\
    forall e', first_line (pending scs s) (ed_of (k_kbd s)) = Some (n, (w ++ replicate (S k) 32 ++ a) ++ [10], e') ->
      ed_of (k_kbd s') = e'.
Proof.
  intros [Hk Hf] Hp [Hw In Hc W'] T [(Ha & H32 & Hfa) (Hdf & Hft & Hin) Hfu] Hs.
  destruct (shell_reads scs p buf W (execute_running code) fuel s n _ t T) as (s1 & E1 & A).
  pose proof (af_step _ _ _ _ _ _ _ _ A) as U1. apply ustep_wider with (k := 129) in U1;
    [|pose proof (af_length _ _ _ _ _ _ _ _ A); lia].
  pose proof (us_run _ _ _ _ _ U1) as R1. pose proof (us_image _ _ _ _ _ U1) as Im. pose proof (us_boot _ _ _ _ _ U1) as B.
  pose proof (ru_wf _ _ (us_from _ _ _ _ _ U1)) as Hwf.
  destruct (args_command scs p buf s n w k a t s1 A Hw Ha H32 Hfa) as [P En].
  destruct (installed_ext (k_mem s) (k_mem s1) (k_boot s) _ d Im In) as ([J1 J2 J3 J4 J5 J6 J7] & El & Ee & _).
  assert (Hl : (length a < 128)%nat).
  { pose proof (af_length _ _ _ _ _ _ _ _ A) as H. rewrite !length_app in H. simpl in H. lia. }
  assert (Hn : 0 <= d_ind df < nnod (k_mem s) (k_boot s)) by (split; [apply ld32_range|done]).
  assert (Hn' : 0 <= d_ind d < nnod (k_mem s) (k_boot s)) by (split; [apply ld32_range|apply In]).
  destruct (spec_puts_proper _ t (view s1) t' (symmetry (af_screen _ _ _ _ _ _ _ _ A)) ltac:(exact Hs)) as (u & Hu & Eu).
  destruct (execute_cat s1 (padded 32 w) a d df fuel' buf' u) as (s2 & E2 & U2 & V2 & I2 & K2); rewrite ?B; try done.
  - by rewrite (af_pcbs _ _ _ _ _ _ _ _ A).
  - by rewrite (af_pg _ _ _ _ _ _ _ _ A).
  - rewrite En. unfold entry_named, read_dentry_by_name. apply In.
  - by rewrite Ee, (rest_of_image s).
  - eapply Forall_impl; [exact Hfa|]. simpl. lia.
  - by rewrite (entry_named_image s).
  - by rewrite (image_header _ _ _ Hwf Im).
  - by rewrite (same_image_len _ _ _ _ Hwf Im Hn).
  - by rewrite (rest_of_image s).
  - destruct I2 as (I2 & I3 & I4 & _). exists s2.
    assert (U : ustep p buf 129 s s2) by (eapply ustep_trans; [exact U1|apply ustep_0; exact U2]).
    split; [|split; [split|split; [exact U|split; [by rewrite V2, Eu|]]]].
    + rewrite E1, (shell_branch scs p buf _ _ s n _ t s1 T A), !decide_False.
      2: { destruct w; [by destruct Hw|done]. }
      2: { intros E. assert (H : Forall (fun c => c <> 32) (str "exit")) by (repeat constructor; done).
           rewrite <- E, Forall_app in H. destruct H as [_ H]. by inversion H. }
      unfold kbind at 1. by rewrite E2.
    + exact K2.
    + rewrite <- Hf. apply find_pcb_active. intros j. apply (kp_active _ _ _ (us_kept _ _ _ _ _ U)).
    + unfold keyboard_ready, pending. rewrite I2, I3, I4. split_and!; apply A.
Qed.

(** ** A session

    [session s fuel w al keys e q t t']: the keys [keys], of which [q] have been announced
    by interrupts, type the lines of the arguments [al] into an editor in state [e]; from
    the screen [t], the prompts, the echoes and the files named give [t']. *)
Inductive session (s : kst) (fuel : nat) (w : list Z) : list (list Z) -> list Z -> editor -> nat -> scr -> scr -> Prop :=
| session_end keys e q t : session s fuel w [] keys e q t t
| session_line a al keys e q t n k e' t1 t2 df t3 t' :
    spec_puts (str "391OS> ") t = Some t1 -> typed_screen keys e t1 = Some t2 ->
    first_line keys e = Some (n, (w ++ replicate (S k) 32 ++ a) ++ [10], e') -> (n <= q)%nat ->
    cat_line s fuel w a df -> spec_puts (rest_of s (d_ind df) 0) t2 = Some t3 ->
    session s fuel w al (drop n keys) e' (q - n) t3 t' ->
    session s fuel w (a :: al) keys e q t t'.

(** The literals of the shell, away from its buffer. *)
Definition shell_texts : list (list Z) := [str "391OS> "; str "exit"].

Record shell_ready (s : kst) : Prop := {
  sr_run : running p s;
  sr_keyboard : keyboard_ready s;
  sr_prompt : at_prompt s;
  sr_texts : forall l, l ∈ shell_texts -> literal_at s (lit l) l /\ beside buf 129 (lit l) l
}.

Lemma cat_line_step s s' fuel w a df :
  ustep p buf 129 s s' -> cat_line s fuel w a df -> cat_line s' fuel w a df /\ rest_of s' (d_ind df) 0 = rest_of s (d_ind df) 0.
Proof.
  intros U [H1 (H2 & H3 & H4) H5]. pose proof (us_image _ _ _ _ _ U) as Im. pose proof (us_boot _ _ _ _ _ U) as B.
  pose proof (ru_wf _ _ (us_from _ _ _ _ _ U)) as Hw.
  assert (Hn : 0 <= d_ind df < nnod (k_mem s) (k_boot s)) by (split; [apply ld32_range|done]).
  split; [|by apply rest_of_image]. split; rewrite ?B; [done| |by rewrite (same_image_len _ _ _ _ Hw Im Hn)].
  rewrite (entry_named_image s), (image_header _ _ _ Hw Im) by done. done.
Qed.

Lemma cat_installed_step s s' fuel buf' w d :
  ustep p buf 129 s s' -> cat_installed s fuel buf' w d -> cat_installed s' fuel buf' w d.
Proof.
  intros U [H1 H2 H3 H4]. pose proof (us_image _ _ _ _ _ U) as Im. pose proof (us_boot _ _ _ _ _ U) as B.
  pose proof (ru_wf _ _ (us_from _ _ _ _ _ U)) as Hw.
  destruct (installed_ext (k_mem s) (k_mem s') (k_boot s) _ d Im H2) as (I' & _ & Ee & _).
  split; rewrite ?B; [done|done| |done]. rewrite Ee, (rest_of_image s); try done. split; [apply ld32_range|apply H2].
Qed.

(** The next line of a session, at the prompt. *)
Lemma session_types s n w k a e' t t1 t2 :
  shell_ready s -> first_line (pending scs s) (ed_of (k_kbd s)) = Some (n, (w ++ replicate (S k) 32 ++ a) ++ [10], e') ->
  (n <= count_kbd (k_irqs s))%nat -> scr_eq (view s) t -> spec_puts (str "391OS> ") t = Some t1 ->
  typed_screen (pending scs s) (ed_of (k_kbd s)) t1 = Some t2 ->
  exists u, types_line scs p buf s n (w ++ replicate (S k) 32 ++ a) u /\ scr_eq t2 u.
Proof.
  intros [R K _ Tx] Hf Hn V H1 H2. destruct (spec_puts_proper _ t (view s) t1 (symmetry V) H1) as (u1 & Hu1 & Q1).
  destruct (typed_screen_proper _ _ _ _ _ Q1 H2) as (u & Hu & Q2). exists u. split; [|done].
  destruct (Tx (str "391OS> ") ltac:(left)) as [L1 _]. destruct (Tx (str "exit") ltac:(right; left)) as [L2 B2].
  split; try done; [by exists e'|by exists u1].
Qed.

(** C5: a session.  At the shell's prompt the user types any number of lines, each the name
    of cat and that of a regular file, with any corrections on the way.  The shell has
    each run: cat is loaded and started with the argument in the process above, shows the
    file, halts, and the shell prompts again.  After the last line the screen shows every
    prompt, every line as it was echoed and every file, in order, and the shell is at its
    prompt as it was at first: running in its own page, of which only the buffer has
    changed, with the slot above it free, the keyboard ready and the same file system. *)
Theorem cat_session fuel fuel' buf' s w d al t :
  shell_ready s -> p + 1 < 6 -> cat_installed s fuel' buf' w d ->
  session s fuel' w al (pending scs s) (ed_of (k_kbd s)) (count_kbd (k_irqs s)) (view s) t ->
  exists s', shell_loop (execute_running code) (length al + fuel) buf s = shell_loop (execute_running code) fuel buf s' /\
    scr_eq (view s') t /\ shell_ready s' /\ ustep p buf 129 s s'.
Proof.
  intros Sr Hp Ci Se. pose proof (ustep_refl p buf 129 s (sr_run _ Sr)) as U.
  assert (H : forall al keys e q t0 t, session s fuel' w al keys e q t0 t -> forall s1, shell_ready s1 -> ustep p buf 129 s s1 ->
    pending scs s1 = keys -> ed_of (k_kbd s1) = e -> count_kbd (k_irqs s1) = q -> scr_eq (view s1) t0 ->
    exists s', shell_loop (execute_running code) (length al + fuel) buf s1 = shell_loop (execute_running code) fuel buf s' /\
      scr_eq (view s') t /\ shell_ready s' /\ ustep p buf 129 s s').
  2: { by eapply H. }
  clear al t Se U. intros al keys e q t0 t Se. induction Se as
    [keys e q t|a al keys e q t n k e' t1 t2 df t3 t' H1 H2 H3 H4 Cl H5 _ IH]; intros s1 Sr1 U Ek Ee Eq V.
  { by exists s1. }
  subst keys e q. destruct (session_types s1 n w k a e' t t1 t2 Sr1 H3 H4 V H1 H2) as (u & T & Qu).
  destruct (cat_line_step s s1 fuel' w a df U Cl) as [Cl1 Er].
  destruct (spec_puts_proper _ t2 u t3 Qu H5) as (u3 & Hu3 & Q3).
  destruct (cat_round (length al + fuel) fuel' buf' s1 n w k a u d df u3) as (s2 & E2 & Ap & U2 & V2 & K2 & P2 & C2 & Ed2);
    [apply Sr1|done|by apply (cat_installed_step s)|done|done|by rewrite Er|].
  assert (Sr2 : shell_ready s2).
  { split; [apply U2|done|done|]. intros l Hl. destruct (sr_texts _ Sr1 l Hl) as [L1 B1].
    split; [by eapply literal_step|done]. }
  destruct (IH s2 Sr2) as (s' & E & Vs & Srs & Us); [by eapply ustep_trans|done|by apply Ed2|lia|by rewrite V2, Q3|].
  exists s'. split; [|done]. change (length (a :: al) + fuel)%nat with (S (length al + fuel)). by rewrite E2.
Qed.

End Session.
