(* ===== verification/Blink.v ===== *)
(** * Blinking characters (fish/blink.S, with the allocator of fish.c)

    The library the fish animation is made of: a list of characters on the screen that
    change between two values, kept as a linked list of structures in an array.
    [chain] says which list the pointers in memory stand for; each operation is shown to
    do on memory what its description does on that list. *)

From stdpp Require Import base list numbers gmap.
From Stdlib Require Import ZArith Lia FunctionalExtensionality.
From S2P Require Import Prelude Mem.

(** ** The structure *)

Definition LOCATION : Z := 0.
Definition ON_CHAR : Z := 2.
Definition OFF_CHAR : Z := 3.
Definition ON_LENGTH : Z := 4.
Definition OFF_LENGTH : Z := 6.
Definition COUNTDOWN : Z := 8.
Definition STATUS : Z := 10.
Definition NEXT : Z := 12.
Definition STRUCT_SIZE : Z := 16.

(** Arithmetic on these offsets. *)
Ltac fields := unfold LOCATION, ON_CHAR, OFF_CHAR, ON_LENGTH, OFF_LENGTH, COUNTDOWN, STATUS, NEXT, STRUCT_SIZE in *.

Definition RTC_ADD : Z := 0.
Definition RTC_REMOVE : Z := 1.
Definition RTC_FIND : Z := 2.
Definition RTC_SYNC : Z := 3.

(** Where the program's variables are. *)
Class FishSymbols : Type := { mp1_list_head : Z; blink_array : Z; vmem_base_addr : Z }.

Definition i16 (x : Z) : Z := (x + 32768) mod 65536 - 32768.

Section Words16.
Context {S : Type} `{Store S}.

Definition ld16 (s : S) (a : Z) : Z := ldb s a + 256 * ldb s (a + 1).
Definition st16 (s : S) (a v : Z) : S := stb (stb s a v) (a + 1) (Z.shiftr v 8).

End Words16.

(** ** The code *)

Section Blink.
Context {S : Type} `{Store S} `{FS : FishSymbols}.

Definition ece391_memset (memory c n : Z) (s : S) : S := for_loop 0 n (fun i s => stb s (memory + i) c) s.

Definition ece391_memcpy (dest src n : Z) (s : S) : S :=
  for_loop 0 n (fun i s => stb s (dest + i) (ldb s (src + i))) s.

(** The first structure of the array whose location is 0, NULL when there is none. *)
Fixpoint malloc_loop (k : nat) (i : Z) (s : S) : Z :=
  match k with
  | O => 0
  | Datatypes.S k' =>
      if ld16 s (blink_array + STRUCT_SIZE * i + LOCATION) =? 0 then blink_array + STRUCT_SIZE * i
      else malloc_loop k' (i + 1) s
  end.

Definition mp1_malloc (s : S) : Z := malloc_loop (80 * 25) 0 s.
Definition mp1_free (memory : Z) (s : S) : S := ece391_memset memory 0 STRUCT_SIZE s.

(** Writes the byte [cl] at offset [eax] of the screen. *)
Definition mp1_poke (eax cl : Z) (s : S) : S := stb s (ld32 s vmem_base_addr + eax) cl.

(** One structure of the list at a tick of the clock. *)
Definition tasklet_step (ebx : Z) (s : S) : S :=
  let s := st16 s (ebx + COUNTDOWN) (ld16 s (ebx + COUNTDOWN) - 1) in
  if 0 <? i16 (ld16 s (ebx + COUNTDOWN)) then s
  else
    let eax := 2 * ld16 s (ebx + LOCATION) in
    let '(s, dx) :=
      if Z.testbit (ld16 s (ebx + STATUS)) 0 then
        let s := mp1_poke eax (ldb s (ebx + OFF_CHAR)) s in (s, ld16 s (ebx + OFF_LENGTH))
      else
        let s := mp1_poke eax (ldb s (ebx + ON_CHAR)) s in (s, ld16 s (ebx + ON_LENGTH)) in
    let s := st16 s (ebx + COUNTDOWN) dx in
    st16 s (ebx + STATUS) (Z.lxor (ld16 s (ebx + STATUS)) 1).

Fixpoint tasklet_loop (fuel : nat) (ebx : Z) (s : S) : option S :=
  if ebx =? 0 then Some s
  else match fuel with
       | O => None
       | Datatypes.S f => let s := tasklet_step ebx s in tasklet_loop f (ld32 s (ebx + NEXT)) s
       end.

Definition mp1_rtc_tasklet (s : S) : option S := tasklet_loop 2000 (ld32 s mp1_list_head) s.

(** The first structure of the list at location [ax], NULL when there is none. *)
Fixpoint find_loop (fuel : nat) (ax ebx : Z) (s : S) : option Z :=
  if ebx =? 0 then Some 0
  else match fuel with
       | O => None
       | Datatypes.S f =>
           if ld16 s (ebx + LOCATION) =? ax then Some ebx else find_loop f ax (ld32 s (ebx + NEXT)) s
       end.

Definition mp1_find_helper (arg : Z) (s : S) : option Z := find_loop 2000 (u16 arg) (ld32 s mp1_list_head) s.

(** [tmp] is the temporary structure on the stack. *)
Definition mp1_ioctl_add (tmp arg : Z) (s : S) : Z * S :=
  let s := ece391_memcpy tmp arg STRUCT_SIZE s in
  if 80 * 25 <=? ld16 s (tmp + LOCATION) then (-1, s)
  else
    let s := st16 s (tmp + STATUS) 1 in
    let s := st16 s (tmp + COUNTDOWN) (ld16 s (tmp + ON_LENGTH)) in
    let edx := mp1_malloc s in
    if edx =? 0 then (-1, s)
    else
      let s := ece391_memcpy edx tmp STRUCT_SIZE s in
      let s := st32 s (edx + NEXT) (ld32 s mp1_list_head) in
      let s := st32 s mp1_list_head edx in
      (0, mp1_poke (2 * ld16 s (edx + LOCATION)) (ldb s (edx + ON_CHAR)) s).

(** The pointer that holds [eax]. *)
Fixpoint find_prev (fuel : nat) (eax edx : Z) (s : S) : option Z :=
  if ld32 s edx =? eax then Some edx
  else match fuel with O => None | Datatypes.S f => find_prev f eax (ld32 s edx + NEXT) s end.

Definition mp1_ioctl_remove (arg : Z) (s : S) : option (Z * S) :=
  match mp1_find_helper arg s with
  | None => None
  | Some eax =>
      if eax =? 0 then Some (-1, s)
      else match find_prev 2000 eax mp1_list_head s with
           | None => None
           | Some edx => Some (0, mp1_free eax (st32 s edx (ld32 s (eax + NEXT))))
           end
  end.

(** [cmovl] after [testb $1]: the sign and overflow flags. *)
Definition cmovl_after_testb (status : Z) : bool := xorb (Z.testbit (Z.land status 1) 7) false.

Definition mp1_ioctl_sync (arg : Z) (s : S) : option (Z * S) :=
  match mp1_find_helper (Z.shiftr arg 16) s with
  | None => None
  | Some esi =>
      if esi =? 0 then Some (-1, s)
      else match mp1_find_helper (Z.land arg 0xFFFF) s with
      | None => None
      | Some edi =>
          if edi =? 0 then Some (-1, s)
          else
            let s := st16 s (edi + ON_LENGTH) (ld16 s (esi + ON_LENGTH)) in
            let s := st16 s (edi + OFF_LENGTH) (ld16 s (esi + OFF_LENGTH)) in
            let s := st16 s (edi + COUNTDOWN) (ld16 s (esi + COUNTDOWN)) in
            let s := st16 s (edi + STATUS) (ld16 s (esi + STATUS)) in
            let cl := if cmovl_after_testb (ldb s (edi + STATUS)) then ldb s (edi + ON_CHAR) else ldb s (edi + OFF_CHAR) in
            Some (0, mp1_poke (2 * ld16 s (edi + LOCATION)) cl s)
      end
  end.

(** [tmp] is the halfword on the stack. *)
Definition mp1_ioctl_find (tmp arg : Z) (s : S) : option (Z * S) :=
  let s := ece391_memcpy tmp arg 2 s in
  match mp1_find_helper (ld16 s tmp) s with
  | None => None
  | Some eax => if eax =? 0 then Some (-1, s) else Some (0, ece391_memcpy arg eax STRUCT_SIZE s)
  end.

(** The dispatcher; [ebp] is the frame pointer of the function it jumps to. A number that
    is not in its table is no call. *)
Definition mp1_ioctl (ebp arg cmd : Z) (s : S) : option (Z * S) :=
  if cmd =? RTC_ADD then Some (mp1_ioctl_add (ebp - STRUCT_SIZE) arg s)
  else if cmd =? RTC_REMOVE then mp1_ioctl_remove arg s
  else if cmd =? RTC_FIND then mp1_ioctl_find (ebp - 2) arg s
  else if cmd =? RTC_SYNC then mp1_ioctl_sync arg s
  else None.

End Blink.

(** ** What it is about *)

Record blink := mkBlink {
  location : Z;
  on_char : Z;
  off_char : Z;
  on_length : Z;
  off_length : Z;
  countdown : Z;
  status : Z
}.

(** A tick: the character to be drawn, if any, and the blink afterwards. *)
Definition due (b : blink) : bool := negb (0 <? i16 (u16 (countdown b - 1))).
Definition shows_on (b : blink) : bool := Z.testbit (status b) 0.

Definition tick (b : blink) : blink :=
  if due b then
    mkBlink (location b) (on_char b) (off_char b) (on_length b) (off_length b)
      (if shows_on b then off_length b else on_length b) (Z.lxor (status b) 1)
  else
    mkBlink (location b) (on_char b) (off_char b) (on_length b) (off_length b) (u16 (countdown b - 1)) (status b).

Definition drawn (b : blink) : list (Z * Z) :=
  if due b then [(location b, if shows_on b then off_char b else on_char b)] else [].

(** Characters drawn one after the other, each at its place. *)
Fixpoint draw (l : list (Z * Z)) (f : Z -> Z) : Z -> Z :=
  match l with [] => f | (o, c) :: l' => draw l' (fun i => if i =? o then c else f i) end.

(** The bytes they are on the screen: a character and its colour alternate there. *)
Definition bytes (l : list (Z * Z)) : list (Z * Z) := map (fun '(o, c) => (2 * o, c)) l.

Lemma draw_app l1 l2 f : draw (l1 ++ l2) f = draw l2 (draw l1 f).
Proof. revert f. induction l1 as [|[o c] l1 IH]; intros f; simpl; [done|]. apply IH. Qed.

Lemma draw_ext k l f g i : (forall j, 0 <= j < k -> f j = g j) -> 0 <= i < k -> draw l f i = draw l g i.
Proof.
  revert f g. induction l as [|[o c] l IH]; intros f g E Hi; simpl; [by apply E|].
  apply IH; [|done]. intros j Hj. by rewrite E.
Qed.

Lemma draw_bytes l f i : draw (bytes l) f (2 * i) = draw l (fun j => f (2 * j)) i.
Proof.
  revert f. induction l as [|[o c] l IH]; intros f; cbn [bytes map draw]; [done|]. fold (bytes l). rewrite IH.
  f_equal. apply functional_extensionality. intros j.
  destruct (Z.eqb_spec j o) as [->|Hn]; [by rewrite Z.eqb_refl|]. by rewrite (proj2 (Z.eqb_neq _ _)) by lia.
Qed.

(** ** Memory *)

Section Layout.
Context {S : Type} `{StoreLaws S} `{FS : FishSymbols} (lo n base : Z).
Implicit Types s : S.

(** The program's memory [lo, lo+n) and, apart from it, the screen from [base] on. *)
Record page (s : S) : Prop := {
  pg_region : region s lo n;
  pg_screen : region s base 4000;
  pg_apart : apart s lo n base 4000
}.

(** [k] bytes at [a] are in the program's memory. *)
Definition inside (a k : Z) : Prop := lo <= a /\ 0 <= k /\ a + k <= lo + n.

Lemma page_changes s s' a k : only_changes s s' a k -> page s -> page s'.
Proof.
  intros C [P1 P2 P3]. pose proof C as (C1 & C2 & _). split; [by eapply region_ext|by eapply region_ext|].
  intros i j Hi Hj. rewrite !C1. by apply P3.
Qed.

(** Stores in the program's memory. *)
Lemma page_rest s s' a k x :
  page s -> only_changes s s' a k -> inside a k -> inside x 1 -> x < a \/ a + k <= x -> ldb s' x = ldb s x.
Proof.
  intros [[_ R] _ _] (_ & _ & C) (A1 & A2 & A3) (X1 & _ & X2) Hx. apply C. intros i Hi E.
  enough (a + i = x) by lia.
  replace (a + i) with (lo + (a + i - lo)) in * by lia. replace x with (lo + (x - lo)) in * by lia.
  apply R in E; lia.
Qed.

Lemma page_screen s s' a k i :
  page s -> only_changes s s' a k -> inside a k -> 0 <= i < 4000 -> ldb s' (base + i) = ldb s (base + i).
Proof.
  intros P C (A1 & A2 & A3) Hi. eapply only_changes_ldb; [exact C| |exact Hi]. intros j x Hj Hx.
  replace (a + j) with (lo + (a + j - lo)) by lia. apply P; lia.
Qed.

Lemma page_mapped s a i k : page s -> inside a k -> 0 <= i < k -> mapped s (a + i).
Proof.
  intros [[M _] _ _] (A1 & A2 & A3) Hi. replace (a + i) with (lo + (a + i - lo)) by lia. apply M. lia.
Qed.

Lemma inside_region s a k : page s -> inside a k -> region s a k.
Proof. intros P (A1 & A2 & A3). eapply region_sub; [..|apply P]; lia. Qed.

(** Stores on the screen. *)
Lemma poke_rest s o c x : page s -> 0 <= o < 4000 -> inside x 1 -> ldb (stb s (base + o) c) x = ldb s x.
Proof.
  intros P Ho (X1 & _ & X2). apply ldb_stb_other. replace x with (lo + (x - lo)) by lia.
  intros E. symmetry in E. revert E. apply P; lia.
Qed.

Lemma poke_screen s o c i : page s -> 0 <= o < 4000 -> 0 <= i < 4000 ->
  ldb (stb s (base + o) c) (base + i) = if i =? o then u8 c else ldb s (base + i).
Proof.
  intros P Ho Hi. destruct (Z.eqb_spec i o) as [->|Hne].
  - apply ldb_stb_eq, P. lia.
  - apply ldb_stb_other. apply (region_ne _ _ 4000); [apply P|lia|lia|lia].
Qed.

Lemma poke_page s o c : page s -> 0 <= o < 4000 -> page (stb s (base + o) c).
Proof. intros P Ho. eapply (page_changes s _ base 4000); [by apply only_changes_stb|done]. Qed.

(** *** Halfwords and words *)

Lemma ld16_range s a : 0 <= ld16 s a < 65536.
Proof. unfold ld16. pose proof (ldb_range s a). pose proof (ldb_range s (a + 1)). lia. Qed.

Lemma ld16_ext s s' a : (forall i, 0 <= i < 2 -> ldb s' (a + i) = ldb s (a + i)) -> ld16 s' a = ld16 s a.
Proof.
  intros E. unfold ld16. pose proof (E 0 ltac:(lia)) as E0. rewrite Z.add_0_r in E0. by rewrite E0, E by lia.
Qed.

Lemma only_changes_st16 s a v : only_changes s (st16 s a v) a 2.
Proof.
  unfold st16. eapply only_changes_trans; [|apply only_changes_stb; lia].
  rewrite <- (Z.add_0_r a) at 1. apply only_changes_stb. lia.
Qed.

Lemma ld16_st16 s a v : page s -> inside a 2 -> ld16 (st16 s a v) a = u16 v.
Proof.
  intros P Ha. pose proof (inside_region s a 2 P Ha) as R. destruct R as [M R]. unfold ld16, st16.
  pose proof (M 0 ltac:(lia)) as M0. pose proof (M 1 ltac:(lia)) as M1. rewrite Z.add_0_r in M0.
  assert (Ne : cell s a <> cell s (a + 1)).
  { intros E. rewrite <- (Z.add_0_r a) in E at 1. apply R in E; lia. }
  rewrite (ldb_stb_other _ (a + 1) a) by (rewrite !cell_stb; congruence).
  rewrite !ldb_stb_eq by (rewrite ?mapped_stb; done). unfold u8, u16. rewrite Z.shiftr_div_pow2 by lia.
  change (2 ^ 8) with 256. modlia.
Qed.

End Layout.

(** ** Structures in memory *)

Section Structures.
Context {S : Type} `{StoreLaws S} `{FS : FishSymbols} (lo n base : Z).
Implicit Types s : S.
#[local] Abbreviation page := (page lo n base).
#[local] Abbreviation inside := (inside lo n).

(** Nothing but the program's memory and the screen has changed. *)
Definition within (s s' : S) : Prop :=
  (forall x, cell s' x = cell s x) /\
  forall x, (forall i, 0 <= i < n -> cell s (lo + i) <> cell s x) ->
    (forall i, 0 <= i < 4000 -> cell s (base + i) <> cell s x) -> ldb s' x = ldb s x.

#[local] Instance within_preorder : PreOrder within.
Proof.
  split; [done|]. intros s1 s2 s3 [A1 A2] [B1 B2]. split; [intros x; by rewrite B1|].
  intros x H1 H2. rewrite B2, A2; [done|done|done|..]; intros i Hi; rewrite !A1; auto.
Qed.

Lemma within_page s s' a k : only_changes s s' a k -> inside a k -> within s s'.
Proof.
  intros (C1 & _ & C) (A1 & _ & A2). split; [done|]. intros x H1 _. apply C. intros i Hi.
  replace (a + i) with (lo + (a + i - lo)) by lia. apply H1. lia.
Qed.

Lemma within_screen s o c : 0 <= o < 4000 -> within s (stb s (base + o) c).
Proof.
  intros Ho. split; [intros x; apply cell_stb|]. intros x _ H2. apply ldb_stb_other. by apply H2.
Qed.

(** From [s] to [s'] only the [k] bytes at [a] of the program and, by drawing [l], the
    screen have changed. *)
Record touches (a k : Z) (l : list (Z * Z)) (s s' : S) : Prop := {
  tc_page : page s';
  tc_within : within s s';
  tc_rest : forall x, inside x 1 -> x < a \/ a + k <= x -> ldb s' x = ldb s x;
  tc_screen : forall i, 0 <= i < 4000 -> ldb s' (base + i) = draw (bytes l) (fun i => ldb s (base + i)) i
}.

Lemma bytes_app l1 l2 : bytes (l1 ++ l2) = bytes l1 ++ bytes l2.
Proof. apply map_app. Qed.

Lemma touches_refl a k s : page s -> touches a k [] s s.
Proof. by split. Qed.

Lemma touches_trans a k l1 l2 s1 s2 s3 :
  touches a k l1 s1 s2 -> touches a k l2 s2 s3 -> touches a k (l1 ++ l2) s1 s3.
Proof.
  intros [P1 W1 R1 S1] [P2 W2 R2 S2]. split; [done|by etrans| |].
  - intros x Hx Hr. by rewrite R2, R1.
  - intros i Hi. rewrite S2, bytes_app, draw_app by done. by apply (draw_ext 4000).
Qed.

Lemma touches_widen a k a' k' l s s' : touches a k l s s' -> a' <= a -> a + k <= a' + k' -> touches a' k' l s s'.
Proof. intros [P W R Sc] Ha Hk. split; [done|done| |done]. intros x Hx Hr. apply R; [done|lia]. Qed.

Lemma touches_changes a k s s' : page s -> only_changes s s' a k -> inside a k -> touches a k [] s s'.
Proof.
  intros P C I. split; [by eapply page_changes|by eapply within_page| |].
  - intros x Hx Hr. by eapply page_rest.
  - intros i Hi. by eapply page_screen.
Qed.

Lemma touches_st16 a v s : page s -> inside a 2 -> touches a 2 [] s (st16 s a v).
Proof. intros P I. by apply touches_changes; [|apply only_changes_st16|]. Qed.

Lemma touches_st32 a v s : page s -> inside a 4 -> touches a 4 [] s (st32 s a v).
Proof. intros P I. by apply touches_changes; [|apply only_changes_st32|]. Qed.

Lemma touches_poke a k o c s :
  page s -> ld32 s vmem_base_addr = base -> 0 <= o < 2000 -> 0 <= c < 256 ->
  touches a k [(o, c)] s (mp1_poke (2 * o) c s).
Proof.
  intros P B Ho Hc. assert (Ho' : 0 <= 2 * o < 4000) by lia. unfold mp1_poke. rewrite B.
  split; [by apply poke_page|by apply within_screen| |].
  - intros x Hx _. by eapply poke_rest.
  - intros i Hi. simpl. rewrite (poke_screen lo n) by done. by rewrite u8_small by done.
Qed.

(** What is loaded elsewhere is the same. *)
Lemma touches_ld16 a k l s s' x :
  touches a k l s s' -> inside x 2 -> x + 2 <= a \/ a + k <= x -> ld16 s' x = ld16 s x.
Proof.
  intros T (I1 & _ & I2) Hx. apply ld16_ext. intros i Hi. apply (tc_rest _ _ _ _ _ T); [split_and!; lia|lia].
Qed.

Lemma touches_ld32 a k l s s' x :
  touches a k l s s' -> inside x 4 -> x + 4 <= a \/ a + k <= x -> ld32 s' x = ld32 s x.
Proof.
  intros T (I1 & _ & I2) Hx. apply ld32_ext. intros i Hi. apply (tc_rest _ _ _ _ _ T); [split_and!; lia|lia].
Qed.

(** The structure at [a] has the fields of [b]. *)
Record holds (s : S) (a : Z) (b : blink) : Prop := {
  ho_location : ld16 s (a + LOCATION) = location b;
  ho_on_char : ldb s (a + ON_CHAR) = on_char b;
  ho_off_char : ldb s (a + OFF_CHAR) = off_char b;
  ho_on_length : ld16 s (a + ON_LENGTH) = on_length b;
  ho_off_length : ld16 s (a + OFF_LENGTH) = off_length b;
  ho_countdown : ld16 s (a + COUNTDOWN) = countdown b;
  ho_status : ld16 s (a + STATUS) = status b
}.

Lemma holds_ext s s' a a' b :
  (forall i, 0 <= i < 12 -> ldb s' (a' + i) = ldb s (a + i)) -> holds s a b -> holds s' a' b.
Proof.
  intros E [H1 H2 H3 H4 H5 H6 H7]. assert (E16 : forall k, 0 <= k <= 10 -> ld16 s' (a' + k) = ld16 s (a + k)).
  { intros k Hk. unfold ld16. rewrite <- !Z.add_assoc. by rewrite !E by lia. }
  split; rewrite ?E16, ?E by (unfold LOCATION, ON_CHAR, OFF_CHAR, ON_LENGTH, OFF_LENGTH, COUNTDOWN, STATUS; lia); done.
Qed.

Lemma u16_lxor x : 0 <= x < 65536 -> u16 (Z.lxor x 1) = Z.lxor x 1.
Proof.
  intros Hx. unfold u16. change 65536 with (2 ^ 16). rewrite <- Z.land_ones by lia.
  apply Z.bits_inj'. intros k Hk. rewrite Z.land_spec, Z.testbit_ones_nonneg by lia.
  destruct (Z.ltb_spec k 16) as [Hlt|Hge]; [by rewrite andb_true_r|]. rewrite andb_false_r, Z.lxor_spec.
  assert (E1 : Z.testbit x k = false).
  { rewrite <- (Z.mod_small x (2 ^ 16)) by done. apply Z.mod_pow2_bits_high. lia. }
  assert (E2 : Z.testbit 1 k = false).
  { rewrite <- (Z.mod_small 1 (2 ^ 16)) by done. apply Z.mod_pow2_bits_high. lia. }
  by rewrite E1, E2.
Qed.

(** The part of a step that draws: the character [c] and the countdown [len]. *)
Lemma toggle_ok s s1 a b c len :
  page s -> inside a 16 -> holds s a b -> touches (a + COUNTDOWN) 2 [] s s1 ->
  ld32 s vmem_base_addr = base -> inside vmem_base_addr 4 -> vmem_base_addr + 4 <= a \/ a + 16 <= vmem_base_addr ->
  0 <= location b < 2000 -> 0 <= c < 256 -> 0 <= len < 65536 ->
  let s2 := mp1_poke (2 * location b) c s1 in
  let s3 := st16 s2 (a + COUNTDOWN) len in
  let s4 := st16 s3 (a + STATUS) (Z.lxor (ld16 s3 (a + STATUS)) 1) in
  touches a 12 [(location b, c)] s s4 /\
  holds s4 a (mkBlink (location b) (on_char b) (off_char b) (on_length b) (off_length b) len (Z.lxor (status b) 1)).
Proof.
  intros P I [H1 H2 H3 H4 H5 H6 H7] T1 B Iv Hv Hl Hc Hn s2 s3 s4. pose proof I as (I1 & _ & I2).
  unfold LOCATION, ON_CHAR, OFF_CHAR, ON_LENGTH, OFF_LENGTH, COUNTDOWN, STATUS in *.
  assert (B1 : ld32 s1 vmem_base_addr = base) by (rewrite (touches_ld32 _ _ _ _ _ _ T1); [done|done|lia]).
  assert (T2 : touches (a + 8) 2 [(location b, c)] s1 s2) by (apply touches_poke; [apply T1|done|lia|done]).
  assert (T3 : touches (a + 8) 2 [] s2 s3) by (apply touches_st16; [apply T2|split_and!; lia]).
  assert (T4 : touches (a + 10) 2 [] s3 s4) by (apply touches_st16; [apply T3|split_and!; lia]).
  assert (T13 : touches (a + 8) 2 [(location b, c)] s s3).
  { apply (touches_trans _ _ [] ([(location b, c)] ++ []) _ _ _ T1). by eapply touches_trans. }
  assert (S3 : ld16 s3 (a + 10) = status b)
    by (rewrite (touches_ld16 _ _ _ _ _ _ T13); [done|split_and!; lia|lia]).
  assert (T : touches (a + 8) 4 [(location b, c)] s s4).
  { rewrite <- (app_nil_r [_]). eapply touches_trans; [eapply touches_widen; [exact T13|lia|lia]|].
    eapply touches_widen; [exact T4|lia|lia]. }
  split; [eapply touches_widen; [exact T|lia|lia]|].
  split; cbn [location on_char off_char on_length off_length countdown status];
    unfold LOCATION, ON_CHAR, OFF_CHAR, ON_LENGTH, OFF_LENGTH, COUNTDOWN, STATUS.
  - rewrite (touches_ld16 _ _ _ _ _ _ T); [done|split_and!; lia|lia].
  - rewrite (tc_rest _ _ _ _ _ T); [done|split_and!; lia|lia].
  - rewrite (tc_rest _ _ _ _ _ T); [done|split_and!; lia|lia].
  - rewrite (touches_ld16 _ _ _ _ _ _ T); [done|split_and!; lia|lia].
  - rewrite (touches_ld16 _ _ _ _ _ _ T); [done|split_and!; lia|lia].
  - rewrite (touches_ld16 _ _ _ _ _ _ T4); [|split_and!; lia|lia].
    unfold s3. rewrite (ld16_st16 lo n base); [unfold u16; by rewrite Z.mod_small|apply T2|split_and!; lia].
  - unfold s4. rewrite (ld16_st16 lo n base); [|apply T3|split_and!; lia]. rewrite S3. apply u16_lxor.
    rewrite <- H7. apply ld16_range.
Qed.

(** One structure at a tick. *)
Lemma tasklet_step_ok s a b :
  page s -> ld32 s vmem_base_addr = base -> inside a 16 -> inside vmem_base_addr 4 ->
  vmem_base_addr + 4 <= a \/ a + 16 <= vmem_base_addr -> holds s a b -> location b < 2000 ->
  let s' := tasklet_step a s in
  touches a 12 (drawn b) s s' /\ holds s' a (tick b).
Proof.
  intros P B I Iv Hv Ho Hl s'. pose proof I as (I1 & _ & I2). pose proof Ho as [H1 H2 H3 H4 H5 H6 H7].
  pose proof (ld16_range s (a + LOCATION)) as Hr. rewrite H1 in Hr.
  set (s1 := st16 s (a + COUNTDOWN) (ld16 s (a + COUNTDOWN) - 1)).
  assert (T1 : touches (a + COUNTDOWN) 2 [] s s1) by (apply touches_st16; [done|unfold COUNTDOWN; split_and!; lia]).
  assert (C1 : ld16 s1 (a + COUNTDOWN) = u16 (countdown b - 1)).
  { unfold s1. rewrite (ld16_st16 lo n base) by (done || (unfold COUNTDOWN; split_and!; lia)). by rewrite H6. }
  assert (F16 : forall k, k + 2 <= COUNTDOWN \/ COUNTDOWN + 2 <= k -> 0 <= k <= 14 -> ld16 s1 (a + k) = ld16 s (a + k)).
  { intros k Hk1 Hk2. apply (touches_ld16 _ _ _ _ _ _ T1); [split_and!; lia|lia]. }
  assert (F8 : forall k, k < COUNTDOWN -> 0 <= k -> ldb s1 (a + k) = ldb s (a + k)).
  { intros k Hk1 Hk2. apply (tc_rest _ _ _ _ _ T1); [unfold COUNTDOWN in *; split_and!; lia|lia]. }
  assert (Tg : forall c len, 0 <= c < 256 -> 0 <= len < 65536 -> _) by
    (intros c len Hc Hn; exact (toggle_ok s s1 a b c len P I Ho T1 B Iv Hv ltac:(lia) Hc Hn)).
  assert (Pk : forall c k, 0 <= c < 256 -> k + 2 <= COUNTDOWN -> 0 <= k -> ld16 (mp1_poke (2 * location b) c s1) (a + k) = ld16 s (a + k)).
  { intros c k Hc Hk1 Hk2. assert (B1 : ld32 s1 vmem_base_addr = base)
      by (rewrite (touches_ld32 _ _ _ _ _ _ T1); [done|done|unfold COUNTDOWN; lia]).
    rewrite (touches_ld16 _ _ _ _ _ _ (touches_poke (a + 8) 0 (location b) c s1 (tc_page _ _ _ _ _ T1) B1 ltac:(lia) Hc));
      [|unfold COUNTDOWN in *; split_and!; lia|unfold COUNTDOWN in *; lia]. apply F16; unfold COUNTDOWN in *; lia. }
  subst s'. unfold tasklet_step. fold s1. rewrite C1, (F16 LOCATION), (F16 STATUS), H1, H7 by (unfold LOCATION, STATUS, COUNTDOWN; lia).
  rewrite (F8 OFF_CHAR), (F8 ON_CHAR), H2, H3 by (unfold OFF_CHAR, ON_CHAR, COUNTDOWN; lia).
  unfold tick, drawn, due, shows_on. destruct (0 <? i16 (u16 (countdown b - 1))); cbn [negb].
  - split; [eapply touches_widen; [exact T1|unfold COUNTDOWN; lia|unfold COUNTDOWN; lia]|].
    split; cbn [location on_char off_char on_length off_length countdown status]; try done;
      rewrite ?F16, ?F8 by (unfold LOCATION, ON_CHAR, OFF_CHAR, ON_LENGTH, OFF_LENGTH, COUNTDOWN, STATUS; lia); done.
  - destruct (Z.testbit (status b) 0).
    + assert (Hc : 0 <= off_char b < 256) by (rewrite <- H3; apply ldb_range).
      rewrite Pk, H5 by (done || (unfold OFF_LENGTH, COUNTDOWN; lia)). apply Tg; [done|]. rewrite <- H5. apply ld16_range.
    + assert (Hc : 0 <= on_char b < 256) by (rewrite <- H2; apply ldb_range).
      rewrite Pk, H4 by (done || (unfold ON_LENGTH, COUNTDOWN; lia)). apply Tg; [done|]. rewrite <- H4. apply ld16_range.
Qed.

(** ** The list *)

Definition slot (i : Z) : Z := blink_array + STRUCT_SIZE * i.
Definition is_slot (a : Z) : Prop := exists i, 0 <= i < 2000 /\ a = slot i.

(** The program's variables are in its memory and do not overlap. *)
Record layout : Prop := {
  ly_head : inside mp1_list_head 4;
  ly_base : inside vmem_base_addr 4;
  ly_array : inside blink_array 32000;
  ly_head_array : mp1_list_head + 4 <= blink_array \/ blink_array + 32000 <= mp1_list_head;
  ly_base_array : vmem_base_addr + 4 <= blink_array \/ blink_array + 32000 <= vmem_base_addr;
  ly_head_base : mp1_list_head + 4 <= vmem_base_addr \/ vmem_base_addr + 4 <= mp1_list_head;
  ly_words : 0 < lo /\ lo + n <= 4294967296
}.

Context (Ly : layout).

Lemma slot_bounds a : is_slot a -> inside a 16 /\ blink_array <= a /\ a + 16 <= blink_array + 32000 /\ 0 < a < 4294967296.
Proof.
  intros (i & Hi & ->). destruct (ly_array Ly) as (A1 & _ & A2), (ly_words Ly). unfold slot, STRUCT_SIZE.
  split; [split_and!; lia|lia].
Qed.

Lemma slot_apart a b : is_slot a -> is_slot b -> a <> b -> a + 16 <= b \/ b + 16 <= a.
Proof. intros (i & Hi & ->) (j & Hj & ->). unfold slot, STRUCT_SIZE. lia. Qed.

(** [chain s p l]: the pointer [p] is a list of the structures [l]. *)
Fixpoint chain (s : S) (p : Z) (l : list (Z * blink)) : Prop :=
  match l with
  | [] => p = 0
  | (a, b) :: l' => p = a /\ holds s a b /\ chain s (ld32 s (a + NEXT)) l'
  end.

Lemma ld32_same s s' a : (forall i, 0 <= i < 4 -> ldb s' (a + i) = ldb s (a + i)) -> ld32 s' a = ld32 s a.
Proof. apply ld32_ext. Qed.

Lemma chain_ext s s' p l :
  (forall a i, a ∈ l.*1 -> 0 <= i < 16 -> ldb s' (a + i) = ldb s (a + i)) -> chain s p l -> chain s' p l.
Proof.
  revert p. induction l as [|[a b] l IH]; intros p E; simpl; [done|]. intros (-> & Hh & Hc). split; [done|].
  assert (Ea : forall i, 0 <= i < 16 -> ldb s' (a + i) = ldb s (a + i)) by (intros i Hi; apply E; [apply list_elem_of_here|done]).
  split; [eapply holds_ext; [|exact Hh]; intros i Hi; apply Ea; lia|].
  rewrite (ld32_ext s); [|intros i Hi; rewrite <- Z.add_assoc; apply Ea; unfold NEXT; lia].
  apply IH; [|done]. intros a' i Ha' Hi. apply E; [by apply list_elem_of_further|done].
Qed.

(** *** The tick *)

Definition ticked (l : list (Z * blink)) : list (Z * blink) := map (fun ab => (ab.1, tick ab.2)) l.

(** What the blinks draw, in the order of the list. *)
Definition drawing (l : list blink) : list (Z * Z) := flat_map drawn l.

Lemma ticked_slots l : (ticked l).*1 = l.*1.
Proof. induction l as [|[a b] l IH]; simpl; [done|]. by f_equal. Qed.

Lemma tasklet_loop_ok fuel s p l :
  page s -> ld32 s vmem_base_addr = base -> chain s p l ->
  Forall is_slot l.*1 -> NoDup l.*1 -> Forall (fun b => location b < 2000) l.*2 -> (length l <= fuel)%nat ->
  exists s', tasklet_loop fuel p s = Some s' /\ page s' /\ within s s' /\ chain s' p (ticked l) /\
    (forall x, inside x 1 -> (forall a, a ∈ l.*1 -> x < a \/ a + 12 <= x) -> ldb s' x = ldb s x) /\
    (forall i, 0 <= i < 4000 -> ldb s' (base + i) = draw (bytes (drawing l.*2)) (fun i => ldb s (base + i)) i).
Proof.
  revert s p fuel. induction l as [|[a b] l IH]; intros s p fuel P B C Hs Nd Hl Hf; simpl in C.
  { subst p. exists s. destruct fuel; done. }
  destruct C as (-> & Ho & C). rewrite !fmap_cons in *. cbn [fst snd] in *. apply Forall_cons_1 in Hs as [Ha Hs]. pose proof (NoDup_cons_1_1 _ _ Nd) as Na; apply NoDup_cons_1_2 in Nd.
  apply Forall_cons_1 in Hl as [Hb Hl]. destruct fuel as [|fuel]; [simpl in Hf; lia|]. cbn [tasklet_loop].
  destruct (slot_bounds a Ha) as (I & L1 & L2 & L3). pose proof I as (I1 & _ & I2).
  rewrite (proj2 (Z.eqb_neq a 0)) by lia. pose proof (ly_base_array Ly) as Hv.
  destruct (tasklet_step_ok s a b P B I (ly_base Ly)) as (T & Ho'); [lia|done|done|]. set (s1 := tasklet_step a s) in *.
  assert (En : ld32 s1 (a + NEXT) = ld32 s (a + NEXT)).
  { apply (touches_ld32 _ _ _ _ _ _ T); [unfold NEXT; split_and!; lia|unfold NEXT; lia]. }
  assert (Q : forall x k, x ∈ l.*1 -> 0 <= k < 16 -> x + k < a \/ a + 16 <= x + k).
  { intros x k Hx Hk. pose proof (proj1 (Forall_forall _ _) Hs x Hx) as Sx.
    destruct (slot_apart a x Ha Sx); [|lia|lia]. intros ->. done. }
  assert (Ix : forall x k, x ∈ l.*1 -> 0 <= k < 16 -> inside (x + k) 1).
  { intros x k Hx Hk. pose proof (proj1 (Forall_forall _ _) Hs x Hx) as Sx.
    destruct (slot_bounds x Sx) as ((?&?&?) & _). split_and!; lia. }
  destruct (IH s1 (ld32 s (a + NEXT)) fuel) as (s' & E & P' & Wi' & C' & R' & S'); [apply T| | |done|done|done|simpl in Hf; lia|].
  - rewrite (touches_ld32 _ _ _ _ _ _ T); [done|apply Ly|lia].
  - eapply chain_ext; [|exact C]. intros x k Hx Hk. apply (tc_rest _ _ _ _ _ T); [by apply Ix|].
    specialize (Q x k Hx Hk). lia.
  - assert (Fa : forall k, 0 <= k < 16 -> ldb s' (a + k) = ldb s1 (a + k)).
    { intros k Hk. apply R'; [split_and!; lia|]. intros x Hx. pose proof (proj1 (Forall_forall _ _) Hs x Hx) as Sx.
      destruct (slot_apart a x Ha Sx) as [H1|H1]; [intros ->; done|lia|lia]. }
    exists s'. rewrite En, E. split; [done|]. split; [done|]. split; [etrans; [apply T|done]|]. split; [|split].
    + simpl. split; [done|]. split; [eapply holds_ext; [|exact Ho']; intros k Hk; apply Fa; lia|].
      rewrite (ld32_ext s1); [by rewrite En|]. intros k Hk. rewrite <- Z.add_assoc. apply Fa. unfold NEXT. lia.
    + intros x Hx Hr. rewrite R'; [|done|intros y Hy; apply Hr; by apply list_elem_of_further]. apply (tc_rest _ _ _ _ _ T); [done|].
      apply Hr. apply list_elem_of_here.
    + intros i Hi. rewrite S' by done. simpl. rewrite bytes_app, draw_app. apply (draw_ext 4000); [|done].
      intros j Hj. by apply (tc_screen _ _ _ _ _ T).
Qed.

(** *** The state of the library *)

(** The library's variables stand for the list [l]: the list pointer is a list of these
    structures, and the structures of the array that are not in it are marked free. *)
Record blinks (s : S) (l : list (Z * blink)) : Prop := {
  bk_page : page s;
  bk_base : ld32 s vmem_base_addr = base;
  bk_chain : chain s (ld32 s mp1_list_head) l;
  bk_slots : Forall is_slot l.*1;
  bk_nodup : NoDup l.*1;
  bk_locations : Forall (fun b => 0 < location b < 2000) l.*2;
  bk_free : forall a, is_slot a -> a ∉ l.*1 -> ld16 s (a + LOCATION) = 0
}.

(** From [s] to [s'] only bytes of the program for which [W] holds have changed, and [d]
    has been drawn. *)
Record effect (W : Z -> Prop) (d : list (Z * Z)) (s s' : S) : Prop := {
  mv_page : page s';
  mv_within : within s s';
  mv_rest : forall x, inside x 1 -> ~ W x -> ldb s' x = ldb s x;
  mv_screen : forall i, 0 <= i < 4000 -> ldb s' (base + i) = draw (bytes d) (fun i => ldb s (base + i)) i
}.

(** The variables of the library but the pointer to the screen. *)
Definition library (x : Z) : Prop :=
  mp1_list_head <= x < mp1_list_head + 4 \/ blink_array <= x < blink_array + 32000.

Lemma effect_refl W s : page s -> effect W [] s s.
Proof. by split. Qed.

Lemma effect_trans W d1 d2 s1 s2 s3 : effect W d1 s1 s2 -> effect W d2 s2 s3 -> effect W (d1 ++ d2) s1 s3.
Proof.
  intros [P1 W1 R1 S1] [P2 W2 R2 S2]. split; [done|by etrans| |].
  - intros x Hx Hr. by rewrite R2, R1.
  - intros i Hi. rewrite S2, bytes_app, draw_app by done. by apply (draw_ext 4000).
Qed.

Lemma effect_weaken (W W' : Z -> Prop) d s s' : effect W d s s' -> (forall x, W x -> W' x) -> effect W' d s s'.
Proof. intros [P Wi R Sc] HW. split; [done|done| |done]. intros x Hx Hr. apply R; [done|]. intros Hw. by apply Hr, HW. Qed.

Lemma touches_moves (W : Z -> Prop) a k d s s' :
  touches a k d s s' -> (forall x, a <= x < a + k -> W x) -> effect W d s s'.
Proof.
  intros [P Wi R Sc] HW. split; [done|done| |done]. intros x Hx Hr. apply R; [done|].
  destruct (Z.lt_ge_cases x a); [by left|]. right. destruct (Z.lt_ge_cases x (a + k)); [|done]. destruct Hr. apply HW. lia.
Qed.

Lemma effect_ldb W d s s' a k :
  effect W d s s' -> inside a k -> (forall i, 0 <= i < k -> ~ W (a + i)) -> forall i, 0 <= i < k -> ldb s' (a + i) = ldb s (a + i).
Proof. intros M (I1 & _ & I2) HW i Hi. apply (mv_rest _ _ _ _ M); [split_and!; lia|by apply HW]. Qed.

Lemma effect_ld16 W d s s' a :
  effect W d s s' -> inside a 2 -> (forall i, 0 <= i < 2 -> ~ W (a + i)) -> ld16 s' a = ld16 s a.
Proof. intros M I HW. apply ld16_ext. by apply (effect_ldb W d s s' a 2). Qed.

Lemma effect_ld32 W d s s' a :
  effect W d s s' -> inside a 4 -> (forall i, 0 <= i < 4 -> ~ W (a + i)) -> ld32 s' a = ld32 s a.
Proof. intros M I HW. apply ld32_ext. by apply (effect_ldb W d s s' a 4). Qed.

Lemma library_slot a i : is_slot a -> 0 <= i < 16 -> library (a + i).
Proof. intros Ha Hi. destruct (slot_bounds a Ha) as (_ & H1 & H2 & _). right. lia. Qed.

(** As long as the library's variables and its pointer to the screen are the same, so is
    the list. *)
Lemma blinks_ext s s' l :
  blinks s l -> page s' ->
  (forall x, inside x 1 -> library x \/ vmem_base_addr <= x < vmem_base_addr + 4 -> ldb s' x = ldb s x) -> blinks s' l.
Proof.
  intros [B1 B2 B3 B4 B5 B6 B7] P E.
  assert (Eb : forall a i, is_slot a -> 0 <= i < 16 -> ldb s' (a + i) = ldb s (a + i)).
  { intros a i Ha Hi. destruct (slot_bounds a Ha) as ((?&?&?) & _). apply E; [split_and!; lia|left; by apply library_slot]. }
  destruct (ly_head Ly) as (?&_&?). destruct (ly_base Ly) as (?&_&?). split; try done.
  - rewrite (ld32_ext s); [done|]. intros i Hi. apply E; [split_and!; lia|lia].
  - rewrite (ld32_ext s); [|intros i Hi; apply E; [split_and!; lia|left; left; lia]].
    eapply chain_ext; [|exact B3]. intros a i Ha Hi. apply Eb; [|done]. exact (proj1 (Forall_forall _ _) B4 a Ha).
  - intros a Ha Hn. rewrite (ld16_ext s); [by apply B7|]. intros i Hi. unfold LOCATION. rewrite Z.add_0_r. apply Eb; [done|lia].
Qed.

(** Moves elsewhere leave the list as it is. *)
Lemma blinks_moves W d s s' l :
  blinks s l -> effect W d s s' -> (forall x, W x -> ~ library x) ->
  (forall i, 0 <= i < 4 -> ~ W (vmem_base_addr + i)) -> blinks s' l.
Proof.
  intros B M Hl Hb. eapply blinks_ext; [done|exact (mv_page _ _ _ _ M)|]. intros x Hx Hw.
  apply (mv_rest _ _ _ _ M); [done|]. intros Hn. destruct Hw as [Hw|Hw]; [by apply (Hl x)|].
  apply (Hb (x - vmem_base_addr)); [lia|]. by replace (vmem_base_addr + (x - vmem_base_addr)) with x by lia.
Qed.

Lemma chain_holds s p l a b : chain s p l -> (a, b) ∈ l -> holds s a b.
Proof.
  revert p. induction l as [|[a' b'] l IH]; intros p C Hin; [by apply not_elem_of_nil in Hin|].
  destruct C as (_ & Ho & C). apply elem_of_cons in Hin as [[= -> ->]|Hin]; [done|]. by eapply IH.
Qed.

Lemma fst_in (l : list (Z * blink)) a : a ∈ l.*1 -> exists b, (a, b) ∈ l.
Proof. intros ([a' b] & -> & Hin)%list_elem_of_fmap. by exists b. Qed.

Lemma blinks_used s l a b : blinks s l -> (a, b) ∈ l -> is_slot a /\ holds s a b /\ 0 < location b < 2000.
Proof.
  intros B Hin. split; [|split].
  - apply (proj1 (Forall_forall _ _) (bk_slots _ _ B)). apply list_elem_of_fmap. by exists (a, b).
  - eapply chain_holds; [apply B|done].
  - apply (proj1 (Forall_forall _ _) (bk_locations _ _ B)). apply list_elem_of_fmap. by exists (a, b).
Qed.

(** There are 2000 structures. *)
Definition slots : list Z := map (fun i => slot (Z.of_nat i)) (seq 0 2000).

Lemma slots_spec a : a ∈ slots <-> is_slot a.
Proof.
  unfold slots. rewrite list_elem_of_fmap. split.
  - intros (i & -> & Hi%elem_of_seq). exists (Z.of_nat i). split; [lia|done].
  - intros (i & Hi & ->). exists (Z.to_nat i). split; [by rewrite Z2Nat.id by lia|]. apply elem_of_seq. lia.
Qed.

Lemma blinks_length s l : blinks s l -> (length l <= 2000)%nat.
Proof.
  intros B. rewrite <- (length_fmap fst). replace 2000%nat with (length slots) by (unfold slots; by rewrite length_map, length_seq).
  apply submseteq_length, NoDup_submseteq; [apply B|]. intros a Ha. apply slots_spec.
  exact (proj1 (Forall_forall _ _) (bk_slots _ _ B) a Ha).
Qed.

(** *** Allocation and search *)

(** The first structure of the array that is not in the list, from structure [i] on. *)
Fixpoint free_from (k : nat) (i : Z) (l : list (Z * blink)) : option Z :=
  match k with
  | O => None
  | Datatypes.S k' => if decide (slot i ∈ l.*1) then free_from k' (i + 1) l else Some (slot i)
  end.

Definition first_free (l : list (Z * blink)) : option Z := free_from 2000 0 l.

(** The first blink of the list at a location. *)
Fixpoint find_blink (loc : Z) (l : list (Z * blink)) : option (Z * blink) :=
  match l with
  | [] => None
  | (a, b) :: l' => if location b =? loc then Some (a, b) else find_blink loc l'
  end.

Lemma free_from_spec k i l :
  0 <= i -> i + Z.of_nat k <= 2000 ->
  match free_from k i l with
  | Some a => is_slot a /\ a ∉ l.*1
  | None => forall j, i <= j < i + Z.of_nat k -> slot j ∈ l.*1
  end.
Proof.
  revert i. induction k as [|k IH]; intros i Hi Hk; cbn [free_from]; [intros j Hj; lia|].
  destruct (decide (slot i ∈ l.*1)) as [Hin|Hn].
  - specialize (IH (i + 1) ltac:(lia) ltac:(lia)). destruct (free_from k (i + 1) l); [done|].
    intros j Hj. destruct (Z.eq_dec j i) as [->|]; [done|]. apply IH. lia.
  - split; [|done]. exists i. split; [lia|done].
Qed.

Lemma malloc_loop_ok s l k i :
  blinks s l -> 0 <= i -> i + Z.of_nat k <= 2000 -> malloc_loop k i s = default 0 (free_from k i l).
Proof.
  intros B. revert i. induction k as [|k IH]; intros i Hi Hk; [done|]. cbn [malloc_loop free_from].
  change (blink_array + STRUCT_SIZE * i) with (slot i). assert (Sl : is_slot (slot i)) by (exists i; split; [lia|done]).
  destruct (decide (slot i ∈ l.*1)) as [Hin|Hn].
  - destruct (fst_in l _ Hin) as [b Hb]. destruct (blinks_used s l _ b B Hb) as (_ & Ho & Hl).
    rewrite (ho_location _ _ _ Ho). rewrite (proj2 (Z.eqb_neq _ _)) by lia. apply IH; lia.
  - by rewrite (bk_free _ _ B) by done.
Qed.

Lemma mp1_malloc_ok s l : blinks s l -> mp1_malloc s = default 0 (first_free l).
Proof. intros B. apply malloc_loop_ok; [done|lia|lia]. Qed.

Lemma first_free_spec l : match first_free l with
  | Some a => is_slot a /\ a ∉ l.*1
  | None => forall a, is_slot a -> a ∈ l.*1
  end.
Proof.
  pose proof (free_from_spec 2000 0 l ltac:(lia) ltac:(lia)) as Hp. unfold first_free.
  destruct (free_from 2000 0 l); [done|]. intros a (i & Hi & ->). apply Hp. lia.
Qed.

(** As long as fewer than 2000 structures are in the list there is another one. *)
Lemma first_free_some l : (length l < 2000)%nat -> is_Some (first_free l).
Proof.
  intros Hl. pose proof (first_free_spec l) as Hp. destruct (first_free l); [done|]. exfalso.
  enough (2000 <= length l)%nat by lia. rewrite <- (length_fmap fst).
  replace 2000%nat with (length slots) by (unfold slots; by rewrite length_map, length_seq).
  apply submseteq_length, NoDup_submseteq; [|by intros a Ha%slots_spec; apply Hp].
  unfold slots. apply NoDup_fmap_2_strong; [|apply NoDup_seq]. unfold slot, STRUCT_SIZE. lia.
Qed.

Lemma find_blink_in loc l a b : find_blink loc l = Some (a, b) -> (a, b) ∈ l /\ location b = loc.
Proof.
  induction l as [|[a' b'] l IH]; cbn [find_blink]; [done|]. destruct (Z.eqb_spec (location b') loc) as [E|E].
  - intros [= -> ->]. split; [apply list_elem_of_here|done].
  - intros [H1 H2]%IH. split; [by apply list_elem_of_further|done].
Qed.

Lemma find_loop_ok s loc p l fuel :
  chain s p l -> Forall is_slot l.*1 -> (length l <= fuel)%nat ->
  find_loop fuel loc p s = Some (default 0 (fst <$> find_blink loc l)).
Proof.
  revert p fuel. induction l as [|[a b] l IH]; intros p fuel C Hs Hf.
  { cbn in C. subst p. by destruct fuel. }
  destruct C as (-> & Ho & C). rewrite fmap_cons in Hs. apply Forall_cons_1 in Hs as [Ha Hs].
  destruct (slot_bounds a Ha) as (_ & _ & _ & Hp). destruct fuel as [|fuel]; [simpl in Hf; lia|].
  cbn [find_loop find_blink]. rewrite (proj2 (Z.eqb_neq a 0)) by lia. rewrite (ho_location _ _ _ Ho).
  destruct (location b =? loc); [done|]. apply IH; [done|done|simpl in Hf; lia].
Qed.

Lemma mp1_find_helper_ok s l arg :
  blinks s l -> mp1_find_helper arg s = Some (default 0 (fst <$> find_blink (u16 arg) l)).
Proof. intros B. apply find_loop_ok; [apply B|apply B|by eapply blinks_length]. Qed.

(** *** Copying *)

Lemma memcpy_ok s dst src n0 :
  page s -> inside dst n0 -> inside src n0 -> dst + n0 <= src \/ src + n0 <= dst ->
  let s' := ece391_memcpy dst src n0 s in
  touches dst n0 [] s s' /\ forall i, 0 <= i < n0 -> ldb s' (dst + i) = ldb s (src + i).
Proof.
  intros P I Is Hd. pose proof I as (I1 & I2 & I3). pose proof Is as (J1 & _ & J3). unfold ece391_memcpy.
  pose proof (for_loop_inv (fun k s' => k <= n0 -> touches dst n0 [] s s' /\
    forall i, 0 <= i < k -> ldb s' (dst + i) = ldb s (src + i)) 0 n0 (fun i s => stb s (dst + i) (ldb s (src + i))) s) as Hp.
  cbv beta in Hp. apply Hp; [lia| | |lia].
  - intros _. split; [by apply touches_refl|intros i Hi; lia].
  - intros j t Hj IH _. destruct (IH ltac:(lia)) as [T Hc].
    assert (T1 : touches dst n0 [] t (stb t (dst + j) (ldb t (src + j)))).
    { apply touches_changes; [apply T|by apply only_changes_stb|done]. }
    split; [exact (touches_trans _ _ [] [] _ _ _ T T1)|]. intros i Hi. destruct (Z.eq_dec i j) as [->|Hne].
    + rewrite ldb_stb_eq by (apply (page_mapped lo n base t dst j n0); [apply T|done|lia]).
      rewrite u8_small by apply ldb_range. apply (tc_rest _ _ _ _ _ T); [split_and!; lia|lia].
    + rewrite ldb_stb_other; [apply Hc; lia|].
      apply (region_ne _ dst n0); [apply (inside_region lo n base); [apply T|done]|lia|lia|lia].
Qed.

Lemma memset_ok s a k :
  page s -> inside a k -> let s' := ece391_memset a 0 k s in
  touches a k [] s s' /\ forall i, 0 <= i < k -> ldb s' (a + i) = 0.
Proof.
  intros P I. pose proof I as (I1 & I2 & I3). unfold ece391_memset.
  pose proof (for_loop_inv (fun j s' => j <= k -> touches a k [] s s' /\
    forall i, 0 <= i < j -> ldb s' (a + i) = 0) 0 k (fun i s => stb s (a + i) 0) s) as Hp.
  cbv beta in Hp. apply Hp; [lia| | |lia].
  - intros _. split; [by apply touches_refl|intros i Hi; lia].
  - intros j t Hj IH _. destruct (IH ltac:(lia)) as [T Hc].
    assert (T1 : touches a k [] t (stb t (a + j) 0))
      by (apply touches_changes; [apply T|by apply only_changes_stb|done]).
    split; [exact (touches_trans _ _ [] [] _ _ _ T T1)|]. intros i Hi. destruct (Z.eq_dec i j) as [->|Hne].
    + by rewrite ldb_stb_eq by (apply (page_mapped lo n base t a j k); [apply T|done|lia]).
    + rewrite ldb_stb_other; [apply Hc; lia|].
      apply (region_ne _ a k); [apply (inside_region lo n base); [apply T|done]|lia|lia|lia].
Qed.

Lemma mp1_free_ok s a :
  page s -> inside a 16 -> let s' := mp1_free a s in
  touches a 16 [] s s' /\ forall i, 0 <= i < 16 -> ldb s' (a + i) = 0.
Proof. intros P I. by apply memset_ok. Qed.

(** With the array cleared and the list pointer NULL, the list is empty. *)
Lemma blinks_empty s :
  page s -> ld32 s vmem_base_addr = base -> ld32 s mp1_list_head = 0 ->
  (forall i, 0 <= i < 32000 -> ldb s (blink_array + i) = 0) -> blinks s [].
Proof.
  intros P B Hh Hz. split; try done; try constructor. intros a (i & Hi & ->) _. unfold ld16, slot, STRUCT_SIZE, LOCATION.
  rewrite <- !Z.add_assoc. by rewrite !Hz by lia.
Qed.

(** *** Changes of the list *)

(** The list without the first blink at a location. *)
Fixpoint unblink (loc : Z) (l : list (Z * blink)) : list (Z * blink) :=
  match l with
  | [] => []
  | (a, b) :: l' => if location b =? loc then l' else (a, b) :: unblink loc l'
  end.

(** The list with another blink in place of the first one at a location. *)
Fixpoint set_blink (loc : Z) (b' : blink) (l : list (Z * blink)) : list (Z * blink) :=
  match l with
  | [] => []
  | (a, b) :: l' => if location b =? loc then (a, b') :: l' else (a, b) :: set_blink loc b' l'
  end.

Lemma unblink_perm loc l a b : find_blink loc l = Some (a, b) -> l ≡ₚ (a, b) :: unblink loc l.
Proof.
  induction l as [|[a' b'] l IH]; cbn [find_blink unblink]; [done|]. destruct (location b' =? loc).
  - by intros [= -> ->].
  - intros E%IH. rewrite E at 1. by apply Permutation_swap.
Qed.

Lemma set_blink_slots loc b' l : (set_blink loc b' l).*1 = l.*1.
Proof.
  induction l as [|[a b] l IH]; [done|]. cbn [set_blink]. destruct (location b =? loc); [done|].
  rewrite !fmap_cons. by f_equal.
Qed.

(** Removal: the pointer [find_prev] returns and the list when it has been redirected. *)
Lemma unlink_ok s q l loc a b fuel :
  chain s (ld32 s q) l -> Forall is_slot l.*1 -> NoDup l.*1 -> inside q 4 ->
  (forall x, x ∈ l.*1 -> q + 4 <= x \/ x + 16 <= q) -> find_blink loc l = Some (a, b) -> (length l <= fuel)%nat ->
  exists r, find_prev fuel a q s = Some r /\ (r = q \/ exists x, x ∈ l.*1 /\ x <> a /\ r = x + NEXT) /\
    forall s', (forall x, inside x 1 -> x < r \/ r + 4 <= x -> x < a \/ a + 16 <= x -> ldb s' x = ldb s x) ->
      ld32 s' r = ld32 s (a + NEXT) -> chain s' (ld32 s' q) (unblink loc l).
Proof.
  revert q fuel. induction l as [|[a0 b0] l IH]; intros q fuel C Hs Nd Iq Hq Hf Hl; [done|].
  cbn [chain] in C. destruct C as (E & Ho & C). rewrite !fmap_cons in *. cbn [fst] in *. apply Forall_cons_1 in Hs as [H1 Hs].
  pose proof (NoDup_cons_1_1 _ _ Nd) as Na. apply NoDup_cons_1_2 in Nd. cbn [find_blink] in Hf.
  destruct fuel as [|fuel]; [simpl in Hl; lia|]. cbn [find_prev unblink]. rewrite E.
  assert (Q : forall x, x ∈ l.*1 -> inside x 16 /\ (x + 16 <= a0 \/ a0 + 16 <= x)).
  { intros x Hx. pose proof (proj1 (Forall_forall _ _) Hs x Hx) as Sx. split; [apply (slot_bounds x Sx)|].
    apply slot_apart; [done|done|]. by intros ->. }
  destruct (Z.eqb_spec (location b0) loc) as [El|El].
  - injection Hf as [= -> ->]. rewrite Z.eqb_refl. exists q. split; [done|]. split; [by left|]. intros s' Hr Hn.
    rewrite Hn. eapply chain_ext; [|exact C]. intros x i Hx Hi. destruct (Q x Hx) as ((?&?&?) & ?).
    specialize (Hq x ltac:(by apply list_elem_of_further)). apply Hr; [split_and!; lia|lia|lia].
  - assert (Hin : a ∈ l.*1).
    { destruct (find_blink_in _ _ _ _ Hf) as [Hin _]. apply list_elem_of_fmap. by exists (a, b). }
    rewrite (proj2 (Z.eqb_neq a0 a)) by (intros ->; done).
    destruct (slot_bounds a0 H1) as ((?&?&?) & _). destruct (Q a Hin) as ((?&?&?) & Ha).
    destruct (IH (a0 + NEXT) fuel C Hs Nd) as (r & Er & Hr & Hc); [unfold NEXT; split_and!; lia| |done|simpl in Hl; lia|].
    { intros x Hx. destruct (Q x Hx) as [_ ?]. unfold NEXT. lia. }
    exists r. split; [done|]. split.
    + right. destruct Hr as [->|(x & Hx & Hn & ->)].
      * exists a0. split; [apply list_elem_of_here|]. split; [by intros ->|done].
      * exists x. split; [by apply list_elem_of_further|done].
    + intros s' Hs' Hn. specialize (Hc s' Hs' Hn).
      assert (R : r = a0 + NEXT \/ r + 4 <= a0 \/ a0 + 16 <= r).
      { destruct Hr as [->|(x & Hx & _ & ->)]; [by left|right]. destruct (Q x Hx) as [_ ?]. unfold NEXT. lia. }
      assert (Rq : r + 4 <= q \/ q + 4 <= r).
      { destruct Hr as [->|(x & Hx & _ & ->)].
        - specialize (Hq a0 ltac:(apply list_elem_of_here)). unfold NEXT. lia.
        - specialize (Hq x ltac:(by apply list_elem_of_further)). unfold NEXT. lia. }
      pose proof (Hq a ltac:(by apply list_elem_of_further)) as Hqa. destruct Iq as (?&_&?).
      cbn [chain]. split; [|split].
      * rewrite <- E. apply ld32_ext. intros i Hi. apply Hs'; [split_and!; lia|lia|lia].
      * eapply holds_ext; [|exact Ho]. intros i Hi. apply Hs'; [split_and!; lia| |lia].
        destruct R as [->|R]; unfold NEXT; lia.
      * exact Hc.
Qed.

(** Update in place. *)
Lemma chain_set s s' p l loc a b b' :
  chain s p l -> Forall is_slot l.*1 -> NoDup l.*1 -> find_blink loc l = Some (a, b) ->
  (forall x, inside x 1 -> x < a \/ a + 12 <= x -> ldb s' x = ldb s x) -> holds s' a b' ->
  chain s' p (set_blink loc b' l).
Proof.
  revert p. induction l as [|[a0 b0] l IH]; intros p C Hs Nd Hf Hr Hb; [done|].
  cbn [chain] in C. destruct C as (-> & Ho & C). rewrite !fmap_cons in *. cbn [fst] in *. apply Forall_cons_1 in Hs as [H1 Hs].
  pose proof (NoDup_cons_1_1 _ _ Nd) as Na. apply NoDup_cons_1_2 in Nd. cbn [find_blink] in Hf. cbn [set_blink].
  destruct (slot_bounds a0 H1) as ((?&?&?) & _). destruct (Z.eqb_spec (location b0) loc) as [El|El]; cbn [chain].
  - injection Hf as [= -> ->]. split; [done|]. split; [done|].
    assert (En : ld32 s' (a + NEXT) = ld32 s (a + NEXT)).
    { apply ld32_ext. unfold NEXT. intros i Hi. apply Hr; [split_and!; lia|lia]. }
    rewrite En. eapply chain_ext; [|exact C]. intros x i Hx Hi.
    pose proof (proj1 (Forall_forall _ _) Hs x Hx) as Sx. destruct (slot_bounds x Sx) as ((?&?&?) & _).
    destruct (slot_apart a x H1 Sx); [by intros ->|..]; apply Hr; try (split_and!; lia); lia.
  - assert (Hin : a ∈ l.*1).
    { destruct (find_blink_in _ _ _ _ Hf) as [Hin _]. apply list_elem_of_fmap. by exists (a, b). }
    pose proof (proj1 (Forall_forall _ _) Hs a Hin) as Sa.
    assert (F : forall i, 0 <= i < 16 -> ldb s' (a0 + i) = ldb s (a0 + i)).
    { intros i Hi. destruct (slot_apart a0 a H1 Sa); [by intros ->|..]; apply Hr; try (split_and!; lia); lia. }
    split; [done|]. split; [eapply holds_ext; [|exact Ho]; intros; apply F; lia|].
    rewrite (ld32_ext s); [by apply IH|]. unfold NEXT. intros i Hi. rewrite <- Z.add_assoc. apply F. lia.
Qed.

(** *** The operations *)

Lemma library_base i : 0 <= i < 4 -> ~ library (vmem_base_addr + i).
Proof. intros Hi. pose proof (ly_base_array Ly). pose proof (ly_head_base Ly). unfold library. lia. Qed.

Lemma unblink_blinks loc l a b :
  find_blink loc l = Some (a, b) -> Forall is_slot l.*1 -> NoDup l.*1 -> Forall (fun b => 0 < location b < 2000) l.*2 ->
  Forall is_slot (unblink loc l).*1 /\ NoDup (unblink loc l).*1 /\
  Forall (fun b => 0 < location b < 2000) (unblink loc l).*2 /\
  forall x, x ∉ (unblink loc l).*1 -> x = a \/ x ∉ l.*1.
Proof.
  intros Hf H1 H2 H3. pose proof (unblink_perm _ _ _ _ Hf) as Pm.
  assert (P1 : l.*1 ≡ₚ a :: (unblink loc l).*1) by (rewrite Pm at 1; done).
  assert (P2 : l.*2 ≡ₚ b :: (unblink loc l).*2) by (rewrite Pm at 1; done).
  rewrite P1 in H1, H2. rewrite P2 in H3. apply Forall_cons_1 in H1 as [_ H1]. apply Forall_cons_1 in H3 as [_ H3].
  apply NoDup_cons_1_2 in H2. split_and!; try done. intros x Hx. destruct (decide (x = a)) as [->|Hn]; [by left|right].
  rewrite P1, not_elem_of_cons. done.
Qed.

Lemma ioctl_remove_ok s l arg : blinks s l ->
  match find_blink (u16 arg) l with
  | None => mp1_ioctl_remove arg s = Some (-1, s)
  | Some _ => exists s', mp1_ioctl_remove arg s = Some (0, s') /\ blinks s' (unblink (u16 arg) l) /\ effect library [] s s'
  end.
Proof.
  intros B. unfold mp1_ioctl_remove. rewrite (mp1_find_helper_ok s l) by done.
  destruct (find_blink (u16 arg) l) as [[a b]|] eqn:Hf; [|done]. change (default 0 (fst <$> Some (a, b))) with a.
  destruct (find_blink_in _ _ _ _ Hf) as [Hin Hloc]. destruct (blinks_used s l a b B Hin) as (Sa & Ho & Hb).
  destruct (slot_bounds a Sa) as (Ia & A1 & A2 & A3). rewrite (proj2 (Z.eqb_neq a 0)) by lia.
  pose proof (ly_head_array Ly) as Hh. pose proof (bk_page _ _ B) as P.
  assert (Hx : forall x, is_slot x -> blink_array <= x /\ x + 16 <= blink_array + 32000 /\ inside x 16)
    by (intros x Sx; destruct (slot_bounds x Sx); tauto).
  pose proof (proj1 (Forall_forall _ _) (bk_slots _ _ B)) as Sl.
  destruct (unlink_ok s mp1_list_head l (u16 arg) a b 2000) as (r & -> & Hr & Hc); try (apply B || apply Ly || done).
  { intros x Hl. destruct (Hx x (Sl x Hl)) as (?&?&_). lia. }
  { by eapply blinks_length. }
  assert (Ir : inside r 4).
  { destruct Hr as [->|(x & Hl & _ & ->)]; [apply Ly|]. destruct (Hx x (Sl x Hl)) as (?&?&(?&?&?)). unfold NEXT. split_and!; lia. }
  assert (Ra : r + 4 <= a \/ a + 16 <= r).
  { destruct Hr as [->|(x & Hl & Hn & ->)]; [lia|]. destruct (slot_apart x a (Sl x Hl) Sa Hn); unfold NEXT; lia. }
  set (s1 := st32 s r (ld32 s (a + NEXT))). set (s2 := mp1_free a s1).
  assert (T1 : touches r 4 [] s s1) by (by apply touches_st32).
  destruct (mp1_free_ok s1 a (tc_page _ _ _ _ _ T1) Ia) as [T2 Z2]. fold s2 in T2, Z2.
  assert (M : effect library [] s s2).
  { apply (effect_trans _ [] [] s s1 s2).
    - apply (touches_moves _ _ _ _ _ _ T1). intros x Hxr. destruct Hr as [->|(y & Hl & _ & ->)]; [by left|].
      replace x with (y + (x - y)) by lia. apply library_slot; [by apply Sl|unfold NEXT in *; lia].
    - apply (touches_moves _ _ _ _ _ _ T2). intros x Hxr. right. lia. }
  assert (Rest : forall x, inside x 1 -> x < r \/ r + 4 <= x -> x < a \/ a + 16 <= x -> ldb s2 x = ldb s x).
  { intros x Ix H1 H2. by rewrite (tc_rest _ _ _ _ _ T2), (tc_rest _ _ _ _ _ T1). }
  destruct (unblink_blinks _ _ _ _ Hf (bk_slots _ _ B) (bk_nodup _ _ B) (bk_locations _ _ B)) as (U1 & U2 & U3 & U4).
  exists s2. split; [done|]. split; [|done]. split; try done.
  - exact (mv_page _ _ _ _ M).
  - rewrite (effect_ld32 _ _ _ _ _ M); [exact (bk_base _ _ B)|exact (ly_base Ly)|exact library_base].
  - apply Hc; [done|]. rewrite (touches_ld32 _ _ _ _ _ _ T2) by done. unfold s1.
    rewrite ld32_st32 by (by apply (inside_region lo n base)). apply u32_small, ld32_range.
  - intros x Sx Hn. destruct (U4 x Hn) as [->|Hn'].
    + unfold ld16, LOCATION. rewrite Z.add_0_r, (Z2 1) by lia. replace a with (a + 0) by lia. by rewrite Z2 by lia.
    + rewrite <- (bk_free _ _ B x Sx Hn'). apply ld16_ext. intros i Hi. unfold LOCATION. destruct (Hx x Sx) as (?&?&(?&?&?)).
      apply Rest; [split_and!; lia| |].
      * destruct Hr as [->|(y & Hl & _ & ->)]; [lia|]. destruct (slot_apart x y Sx (Sl y Hl)); [by intros ->|..]; unfold NEXT; lia.
      * assert (Hne : x <> a) by (intros ->; apply Hn', list_elem_of_fmap; by exists (a, b)).
        destruct (slot_apart x a Sx Sa Hne); lia.
Qed.

(** A structure of the program, apart from the library's variables. *)
Definition own (a k : Z) : Prop :=
  inside a k /\ (forall i, 0 <= i < k -> ~ library (a + i)) /\ (a + k <= vmem_base_addr \/ vmem_base_addr + 4 <= a).

Lemma own_moves a k d s s' l :
  blinks s l -> own a k -> touches a k d s s' -> blinks s' l /\ effect (fun x => a <= x < a + k) d s s'.
Proof.
  intros B (I & Hl & Hv) T. assert (M : effect (fun x => a <= x < a + k) d s s') by (by eapply touches_moves).
  split; [|done]. eapply blinks_moves; [done|exact M| |cbv beta; intros i Hi; lia]. cbv beta. intros x Hx.
  replace x with (a + (x - a)) by lia. apply Hl. lia.
Qed.

Lemma ioctl_find_ok s l tmp arg : blinks s l -> own tmp 2 -> own arg 16 -> arg + 2 <= tmp \/ tmp + 2 <= arg ->
  exists r s', mp1_ioctl_find tmp arg s = Some (r, s') /\ blinks s' l /\
    effect (fun x => arg <= x < arg + 16 \/ tmp <= x < tmp + 2) [] s s' /\
    match find_blink (ld16 s arg) l with None => r = -1 | Some (_, b) => r = 0 /\ holds s' arg b end.
Proof.
  intros B Ot Oa Hd. unfold mp1_ioctl_find. pose proof Ot as ((T1 & T2 & T3) & _ & _). pose proof Oa as ((A1 & A2 & A3) & Al & _).
  destruct (memcpy_ok s tmp arg 2 (bk_page _ _ B)) as [Tc Cc]; [split_and!; lia|split_and!; lia|lia|].
  set (s1 := ece391_memcpy tmp arg 2 s) in *. destruct (own_moves _ _ _ _ _ l B Ot Tc) as [B1 M1].
  assert (E : ld16 s1 tmp = ld16 s arg).
  { unfold ld16. rewrite (Cc 1) by lia. specialize (Cc 0 ltac:(lia)). rewrite !Z.add_0_r in Cc. by rewrite Cc. }
  rewrite E. rewrite (mp1_find_helper_ok s1 l) by done. rewrite u16_small by apply ld16_range.
  destruct (find_blink (ld16 s arg) l) as [[a b]|] eqn:Hf.
  - change (default 0 (fst <$> Some (a, b))) with a. destruct (find_blink_in _ _ _ _ Hf) as [Hin _]. destruct (blinks_used s1 l a b B1 Hin) as (Sa & Ho & _).
    destruct (slot_bounds a Sa) as (Ia & L1 & L2 & L3). rewrite (proj2 (Z.eqb_neq a 0)) by lia.
    assert (Da : arg + 16 <= a \/ a + 16 <= arg).
    { destruct (Z.lt_ge_cases (arg + 15) a); [lia|]. destruct (Z.lt_ge_cases (a + 15) arg); [lia|]. exfalso.
      destruct (Z.le_ge_cases a arg).
      - apply (Al 0); [lia|]. right. lia.
      - apply (Al (a - arg)); [lia|]. right. lia. }
    destruct (memcpy_ok s1 arg a 16 (bk_page _ _ B1) ltac:(split_and!; lia) Ia Da) as [Tc2 Cc2].
    destruct (own_moves _ _ _ _ _ l B1 Oa Tc2) as [B2 M2]. exists 0, (ece391_memcpy arg a 16 s1).
    split; [done|]. split; [done|]. split; [|split; [done|]].
    + apply (effect_trans _ [] [] _ s1); [eapply effect_weaken; [exact M1|intros; by right]|].
      eapply effect_weaken; [exact M2|intros; by left].
    + eapply holds_ext; [|exact Ho]. intros i Hi. apply Cc2. lia.
  - exists (-1), s1. split; [done|]. split; [done|]. split; [|done]. eapply effect_weaken; [exact M1|intros; by right].
Qed.

Lemma own_slot x k a : own x k -> 0 < k -> is_slot a -> x + k <= a \/ a + 16 <= x.
Proof.
  intros (_ & Hl & _) Hk Sa. destruct (slot_bounds a Sa) as (_ & L1 & L2 & _).
  destruct (Z.lt_ge_cases (x + k - 1) a); [lia|]. destruct (Z.lt_ge_cases (a + 15) x); [lia|]. exfalso.
  destruct (Z.le_ge_cases a x); [apply (Hl 0); [lia|]|apply (Hl (a - x)); [lia|]]; right; lia.
Qed.

(** A new blink shows its first character. *)
Definition fresh (b : blink) : blink :=
  mkBlink (location b) (on_char b) (off_char b) (on_length b) (off_length b) (on_length b) 1.

Definition add_blink (b : blink) (l : list (Z * blink)) : Z * list (Z * blink) * list (Z * Z) :=
  if 2000 <=? location b then (-1, l, [])
  else match first_free l with
       | None => (-1, l, [])
       | Some a => (0, (a, fresh b) :: l, [(location b, on_char b)])
       end.

Lemma st16_fields s a k v : page s -> inside a 16 -> 0 <= k <= 14 -> 0 <= v < 65536 ->
  let s' := st16 s (a + k) v in
  (forall j, 0 <= j <= 14 -> j + 2 <= k \/ k + 2 <= j -> ld16 s' (a + j) = ld16 s (a + j)) /\
  (forall j, 0 <= j < 16 -> j < k \/ k + 2 <= j -> ldb s' (a + j) = ldb s (a + j)) /\
  ld16 s' (a + k) = v /\ touches a 16 [] s s'.
Proof.
  intros P (I1 & _ & I3) Hk Hv s'. assert (T : touches (a + k) 2 [] s s') by (apply touches_st16; [done|split_and!; lia]).
  split_and!.
  - intros j Hj Hd. apply (touches_ld16 _ _ _ _ _ _ T); [split_and!; lia|lia].
  - intros j Hj Hd. apply (tc_rest _ _ _ _ _ T); [split_and!; lia|lia].
  - unfold s'. rewrite (ld16_st16 lo n base) by (done || split_and!; lia). by apply u16_small.
  - eapply touches_widen; [exact T|lia|lia].
Qed.

Lemma holds_st16_status s a b v : page s -> inside a 16 -> holds s a b -> 0 <= v < 65536 ->
  holds (st16 s (a + STATUS) v) a
    (mkBlink (location b) (on_char b) (off_char b) (on_length b) (off_length b) (countdown b) v).
Proof.
  intros P I [H1 H2 H3 H4 H5 H6 H7] Hv. destruct (st16_fields s a STATUS v P I) as (F16 & F8 & F & _); [by fields|done|].
  split; cbn [location on_char off_char on_length off_length countdown status];
    rewrite ?F, ?F16, ?F8 by (fields; lia); done.
Qed.

Lemma holds_st16_countdown s a b v : page s -> inside a 16 -> holds s a b -> 0 <= v < 65536 ->
  holds (st16 s (a + COUNTDOWN) v) a
    (mkBlink (location b) (on_char b) (off_char b) (on_length b) (off_length b) v (status b)).
Proof.
  intros P I [H1 H2 H3 H4 H5 H6 H7] Hv. destruct (st16_fields s a COUNTDOWN v P I) as (F16 & F8 & F & _); [by fields|done|].
  split; cbn [location on_char off_char on_length off_length countdown status];
    rewrite ?F, ?F16, ?F8 by (fields; lia); done.
Qed.

(** The new structure in front of the list. *)
Lemma push_ok s l a tmp b :
  blinks s l -> is_slot a -> a ∉ l.*1 -> own tmp 16 -> holds s tmp b -> 0 < location b < 2000 ->
  let s1 := ece391_memcpy a tmp 16 s in
  let s2 := st32 s1 (a + NEXT) (ld32 s1 mp1_list_head) in
  let s3 := st32 s2 mp1_list_head a in
  blinks s3 ((a, b) :: l) /\ effect library [] s s3 /\ holds s3 a b.
Proof.
  intros B Sa Hn Ot Hb Hl s1 s2 s3. destruct (slot_bounds a Sa) as (Ia & L1 & L2 & L3). pose proof Ia as (I1 & _ & I3).
  pose proof (own_slot _ _ _ Ot ltac:(lia) Sa) as Dt. pose proof (ly_head_array Ly) as Hh. pose proof (ly_head Ly) as Ih.
  destruct (memcpy_ok s a tmp 16 (bk_page _ _ B) Ia ltac:(apply Ot) ltac:(lia)) as [T1 C1]. fold s1 in T1, C1.
  assert (T2 : touches (a + NEXT) 4 [] s1 s2) by (apply touches_st32; [apply T1|fields; split_and!; lia]).
  assert (T3 : touches mp1_list_head 4 [] s2 s3) by (by apply touches_st32; [apply T2|]).
  assert (M : effect library [] s s3).
  { apply (effect_trans _ [] [] s s2 s3); [apply (effect_trans _ [] [] s s1 s2)|].
    - apply (touches_moves _ _ _ _ _ _ T1). intros x Hx. right. fields. lia.
    - apply (touches_moves _ _ _ _ _ _ T2). intros x Hx. right. fields. lia.
    - apply (touches_moves _ _ _ _ _ _ T3). intros x Hx. left. lia. }
  assert (R : forall x, inside x 1 -> x < a \/ a + 16 <= x -> x < mp1_list_head \/ mp1_list_head + 4 <= x -> ldb s3 x = ldb s x).
  { intros x Hx H1 H2. rewrite (tc_rest _ _ _ _ _ T3), (tc_rest _ _ _ _ _ T2), (tc_rest _ _ _ _ _ T1);
      (done || (fields; lia)). }
  assert (H3 : holds s3 a b).
  { eapply holds_ext; [|exact Hb]. intros i Hi. rewrite (tc_rest _ _ _ _ _ T3), (tc_rest _ _ _ _ _ T2);
      [apply C1; fields; lia|fields; split_and!; lia|fields; lia|split_and!; lia|lia]. }
  assert (En : ld32 s3 (a + NEXT) = ld32 s mp1_list_head).
  { rewrite (touches_ld32 _ _ _ _ _ _ T3); [|fields; split_and!; lia|fields; lia]. unfold s2.
    rewrite ld32_st32, u32_small by (apply ld32_range || (apply (inside_region lo n base); [apply T1|fields; split_and!; lia])).
    apply (touches_ld32 _ _ _ _ _ _ T1); [done|fields; lia]. }
  assert (Eh : ld32 s3 mp1_list_head = a).
  { unfold s3. rewrite ld32_st32 by (apply (inside_region lo n base); [apply T2|done]). apply u32_small. lia. }
  split; [|done]. pose proof (proj1 (Forall_forall _ _) (bk_slots _ _ B)) as Sl.
  assert (K : forall x i, is_slot x -> x <> a -> 0 <= i < 16 -> ldb s3 (x + i) = ldb s (x + i)).
  { intros x i Sx Hx Hi. destruct (slot_bounds x Sx) as ((?&?&?) & ?). destruct (slot_apart x a Sx Sa Hx);
      apply R; try (split_and!; lia); lia. }
  split.
  - exact (mv_page _ _ _ _ M).
  - rewrite (effect_ld32 _ _ _ _ _ M); [exact (bk_base _ _ B)|exact (ly_base Ly)|exact library_base].
  - cbn [chain]. split; [done|]. split; [done|]. rewrite En. eapply chain_ext; [|exact (bk_chain _ _ B)].
    intros x i Hx Hi. apply K; [by apply Sl| |done]. by intros ->.
  - rewrite fmap_cons. constructor; [done|apply B].
  - rewrite fmap_cons. apply NoDup_cons_2; [done|apply B].
  - rewrite fmap_cons. constructor; [done|apply B].
  - intros x Sx Hx. rewrite fmap_cons in Hx. apply not_elem_of_cons in Hx as [Hxa Hxl].
    rewrite <- (bk_free _ _ B x Sx Hxl). apply ld16_ext. intros i Hi. unfold LOCATION. rewrite Z.add_0_r. apply K; [done|done|lia].
Qed.

(** Drawing changes nothing of the list. *)
Lemma poke_ok s l o c : blinks s l -> 0 <= o < 2000 -> 0 <= c < 256 ->
  blinks (mp1_poke (2 * o) c s) l /\ effect (fun _ => False) [(o, c)] s (mp1_poke (2 * o) c s).
Proof.
  intros B Ho Hc. assert (M : effect (fun _ => False) [(o, c)] s (mp1_poke (2 * o) c s)).
  { eapply (touches_moves _ mp1_list_head 0); [by apply touches_poke; [exact (bk_page _ _ B)|exact (bk_base _ _ B)|..]|intros; lia]. }
  split; [|done]. eapply blinks_moves; [done|exact M|tauto|tauto].
Qed.

Lemma ioctl_add_ok s l tmp arg b :
  blinks s l -> own tmp 16 -> inside arg 16 -> arg + 16 <= tmp \/ tmp + 16 <= arg -> holds s arg b -> 0 < location b ->
  let '(r, l', d) := add_blink b l in
  exists s', mp1_ioctl_add tmp arg s = (r, s') /\ blinks s' l' /\
    effect (fun x => library x \/ tmp <= x < tmp + 16) d s s'.
Proof.
  intros B Ot Ia Hd Ho Hl. pose proof Ot as (It & _ & _).
  destruct (memcpy_ok s tmp arg 16 (bk_page _ _ B) It Ia ltac:(lia)) as [T1 C1].
  destruct (own_moves _ _ _ _ _ l B Ot T1) as [B1 M1].
  assert (H1 : holds (ece391_memcpy tmp arg 16 s) tmp b) by (eapply holds_ext; [|exact Ho]; intros; apply C1; lia).
  unfold mp1_ioctl_add, add_blink. cbv zeta. change STRUCT_SIZE with 16. set (s1 := ece391_memcpy tmp arg 16 s) in *.
  rewrite (ho_location _ _ _ H1). change (80 * 25) with 2000. destruct (Z.leb_spec 2000 (location b)) as [Hge|Hlt].
  { exists s1. split; [done|]. split; [done|]. eapply effect_weaken; [exact M1|intros; by right]. }
  pose proof (holds_st16_status s1 tmp b 1 (bk_page _ _ B1) It H1 ltac:(lia)) as H2. set (s2 := st16 s1 (tmp + STATUS) 1) in *.
  assert (T2 : touches tmp 16 [] s1 s2).
  { destruct It as (?&_&?). eapply touches_widen; [apply touches_st16; [apply B1|fields; split_and!; lia]|fields; lia|fields; lia]. }
  destruct (own_moves _ _ _ _ _ l B1 Ot T2) as [B2 M2]. rewrite (ho_on_length _ _ _ H2). cbn [on_length].
  assert (Hr : 0 <= on_length b < 65536) by (rewrite <- (ho_on_length _ _ _ H1); apply ld16_range).
  pose proof (holds_st16_countdown s2 tmp _ (on_length b) (bk_page _ _ B2) It H2 Hr) as H3.
  set (s3 := st16 s2 (tmp + COUNTDOWN) (on_length b)) in *.
  assert (T3 : touches tmp 16 [] s2 s3).
  { destruct It as (?&_&?). eapply touches_widen; [apply touches_st16; [apply B2|fields; split_and!; lia]|fields; lia|fields; lia]. }
  destruct (own_moves _ _ _ _ _ l B2 Ot T3) as [B3 M3].
  cbn [location on_char off_char on_length off_length countdown status] in H3. change (mkBlink _ _ _ _ _ _ _) with (fresh b) in H3.
  assert (M03 : effect (fun x => library x \/ tmp <= x < tmp + 16) [] s s3).
  { eapply effect_weaken; [exact (effect_trans _ [] [] _ _ _ (effect_trans _ [] [] _ _ _ M1 M2) M3)|intros; by right]. }
  rewrite (mp1_malloc_ok s3 l B3). pose proof (first_free_spec l) as Hf. destruct (first_free l) as [a|]; cbn [default from_option id].
  - destruct Hf as [Sa Hn]. destruct (slot_bounds a Sa) as (_ & _ & _ & L3). rewrite (proj2 (Z.eqb_neq a 0)) by lia.
    destruct (push_ok s3 l a tmp (fresh b) B3 Sa Hn Ot H3 ltac:(cbn [fresh location]; lia)) as (B4 & M4 & H4).
    set (s6 := st32 _ mp1_list_head a) in *. rewrite (ho_location _ _ _ H4), (ho_on_char _ _ _ H4). cbn [fresh location on_char].
    destruct (poke_ok s6 _ (location b) (on_char b) B4) as [B5 M5]; [lia| |].
    { rewrite <- (ho_on_char _ _ _ Ho). apply ldb_range. }
    eexists. split; [done|]. split; [exact B5|]. apply (effect_trans _ [] [_] s s6).
    + apply (effect_trans _ [] [] s s3); [exact M03|]. eapply effect_weaken; [exact M4|intros; by left].
    + eapply effect_weaken; [exact M5|tauto].
  - cbn. exists s3. done.
Qed.

(** *** The tick of the whole list *)

Lemma ticked_locations l : map location (ticked l).*2 = map location l.*2.
Proof.
  induction l as [|[a b] l IH]; [done|]. cbn [ticked map]. rewrite !fmap_cons. cbn [map]. f_equal; [|exact IH].
  cbn [snd]. unfold tick. by destruct (due b).
Qed.

Lemma mp1_rtc_tasklet_ok s l : blinks s l ->
  exists s', mp1_rtc_tasklet s = Some s' /\ blinks s' (ticked l) /\ effect library (drawing l.*2) s s'.
Proof.
  intros B. assert (Hl : Forall (fun b => location b < 2000) l.*2).
  { eapply Forall_impl; [exact (bk_locations _ _ B)|]. simpl. lia. }
  destruct (tasklet_loop_ok 2000 s (ld32 s mp1_list_head) l) as (s' & E & P & Wi & C & R & Sc);
    [exact (bk_page _ _ B)|exact (bk_base _ _ B)|exact (bk_chain _ _ B)|exact (bk_slots _ _ B)|exact (bk_nodup _ _ B)|done|by eapply blinks_length|].
  pose proof (proj1 (Forall_forall _ _) (bk_slots _ _ B)) as Sl.
  assert (M : effect library (drawing l.*2) s s').
  { split; [done|done| |done]. intros x Hx Hn. apply R; [done|]. intros a Ha.
    destruct (Z.lt_ge_cases x a); [by left|]. destruct (Z.lt_ge_cases x (a + 12)); [|by right]. destruct Hn.
    replace x with (a + (x - a)) by lia. apply library_slot; [by apply Sl|lia]. }
  exists s'. split; [done|]. split; [|done]. pose proof (ly_head_array Ly) as Hh. destruct (ly_head Ly) as (H1 & _ & H2).
  split; rewrite ?ticked_slots; [done| | |exact (bk_slots _ _ B)|exact (bk_nodup _ _ B)| |].
  - rewrite (effect_ld32 _ _ _ _ _ M); [exact (bk_base _ _ B)|exact (ly_base Ly)|exact library_base].
  - rewrite (ld32_ext s); [done|]. intros i Hi. apply R; [split_and!; lia|]. intros a Ha.
    destruct (slot_bounds a (Sl a Ha)) as (_ & ? & ? & _). lia.
  - pose proof (bk_locations _ _ B) as Hb. apply (Forall_map location (fun z => 0 < z < 2000)).
    rewrite ticked_locations. by apply (Forall_map location (fun z => 0 < z < 2000)).
  - intros a Sa Hn. rewrite <- (bk_free _ _ B a Sa Hn). destruct (slot_bounds a Sa) as ((?&_&?) & _).
    apply ld16_ext. intros i Hi. unfold LOCATION. apply R; [split_and!; lia|]. intros y Hy.
    destruct (slot_apart a y Sa (Sl y Hy)); [by intros ->|lia|lia].
Qed.

(** *** Synchronisation *)

(** The blink [d] with the times and the state of [b]. *)
Definition synced (b d : blink) : blink :=
  mkBlink (location d) (on_char d) (off_char d) (on_length b) (off_length b) (countdown b) (status b).

Definition sync_blink (arg : Z) (l : list (Z * blink)) : Z * list (Z * blink) * list (Z * Z) :=
  match find_blink (u16 (Z.shiftr arg 16)) l, find_blink (u16 (Z.land arg 0xFFFF)) l with
  | Some (_, b), Some (_, d) =>
      (0, set_blink (u16 (Z.land arg 0xFFFF)) (synced b d) l, [(location d, off_char d)])
  | _, _ => (-1, l, [])
  end.

Lemma cmovl_never status : cmovl_after_testb status = false.
Proof. unfold cmovl_after_testb. rewrite Z.land_spec. change (Z.testbit 1 7) with false. by rewrite andb_false_r. Qed.

Lemma sync_copies s e d be bd :
  page s -> is_slot e -> is_slot d -> holds s e be -> holds s d bd ->
  let s1 := st16 s (d + ON_LENGTH) (ld16 s (e + ON_LENGTH)) in
  let s2 := st16 s1 (d + OFF_LENGTH) (ld16 s1 (e + OFF_LENGTH)) in
  let s3 := st16 s2 (d + COUNTDOWN) (ld16 s2 (e + COUNTDOWN)) in
  let s4 := st16 s3 (d + STATUS) (ld16 s3 (e + STATUS)) in
  touches d 12 [] s s4 /\ holds s4 d (synced be bd).
Proof.
  intros P Se Sd [E1 E2 E3 E4 E5 E6 E7] [D1 D2 D3 D4 D5 D6 D7] s1 s2 s3 s4.
  destruct (slot_bounds d Sd) as (Id & _). destruct (slot_bounds e Se) as (Ie & _).
  pose proof Id as (I1 & _ & I3). pose proof Ie as (J1 & _ & J3).
  assert (Ap : e = d \/ e + 16 <= d \/ d + 16 <= e).
  { destruct (Z.eq_dec e d); [by left|right]. by apply slot_apart. }
  (* a halfword of [d] or [e] that a store at [d + k] leaves *)
  assert (T : forall t k v, page t -> 0 <= k <= 14 -> touches (d + k) 2 [] t (st16 t (d + k) v))
    by (intros t k v Pt Hk; apply touches_st16; [done|split_and!; lia]).
  pose proof (T s ON_LENGTH (ld16 s (e + ON_LENGTH)) P ltac:(by fields)) as T1. fold s1 in T1.
  pose proof (T s1 OFF_LENGTH (ld16 s1 (e + OFF_LENGTH)) (tc_page _ _ _ _ _ T1) ltac:(by fields)) as T2. fold s2 in T2.
  pose proof (T s2 COUNTDOWN (ld16 s2 (e + COUNTDOWN)) (tc_page _ _ _ _ _ T2) ltac:(by fields)) as T3. fold s3 in T3.
  pose proof (T s3 STATUS (ld16 s3 (e + STATUS)) (tc_page _ _ _ _ _ T3) ltac:(by fields)) as T4. fold s4 in T4.
  assert (W1 : ld16 s1 (d + ON_LENGTH) = on_length be).
  { unfold s1. rewrite (ld16_st16 lo n base), u16_small by (apply ld16_range || done || (fields; split_and!; lia)). done. }
  assert (W2 : ld16 s2 (d + OFF_LENGTH) = off_length be).
  { unfold s2. rewrite (ld16_st16 lo n base), u16_small by (apply ld16_range || apply T1 || (fields; split_and!; lia)).
    rewrite (touches_ld16 _ _ _ _ _ _ T1); [done|fields; split_and!; lia|fields; lia]. }
  assert (W3 : ld16 s3 (d + COUNTDOWN) = countdown be).
  { unfold s3. rewrite (ld16_st16 lo n base), u16_small by (apply ld16_range || apply T2 || (fields; split_and!; lia)).
    rewrite (touches_ld16 _ _ _ _ _ _ T2), (touches_ld16 _ _ _ _ _ _ T1) by (fields; (split_and!; lia) || lia). done. }
  assert (W4 : ld16 s4 (d + STATUS) = status be).
  { unfold s4. rewrite (ld16_st16 lo n base), u16_small by (apply ld16_range || apply T3 || (fields; split_and!; lia)).
    rewrite (touches_ld16 _ _ _ _ _ _ T3), (touches_ld16 _ _ _ _ _ _ T2), (touches_ld16 _ _ _ _ _ _ T1)
      by (fields; (split_and!; lia) || lia). done. }
  assert (Tw : forall a k t t', touches a k [] t t' -> d <= a -> a + k <= d + 12 -> touches d 12 [] t t')
    by (intros; eapply touches_widen; [done|lia|lia]).
  assert (T14 : touches d 12 [] s s4).
  { apply (touches_trans _ _ [] [] s s2 s4); [apply (touches_trans _ _ [] [] s s1 s2)|apply (touches_trans _ _ [] [] s2 s3 s4)];
      (eapply Tw; [eassumption|fields; lia|fields; lia]). }
  split; [done|].
  assert (F : forall k, 0 <= k < 4 -> ldb s4 (d + k) = ldb s (d + k)).
  { intros k Hk. rewrite (tc_rest _ _ _ _ _ T4), (tc_rest _ _ _ _ _ T3), (tc_rest _ _ _ _ _ T2), (tc_rest _ _ _ _ _ T1)
      by (fields; (split_and!; lia) || lia). done. }
  split; cbn [synced location on_char off_char on_length off_length countdown status].
  - rewrite <- D1. apply ld16_ext. intros i Hi. rewrite <- !Z.add_assoc. apply F. fields. lia.
  - rewrite <- D2. apply F. by fields.
  - rewrite <- D3. apply F. by fields.
  - rewrite <- W1, (touches_ld16 _ _ _ _ _ _ T4), (touches_ld16 _ _ _ _ _ _ T3), (touches_ld16 _ _ _ _ _ _ T2)
      by (fields; (split_and!; lia) || lia). done.
  - rewrite <- W2, (touches_ld16 _ _ _ _ _ _ T4), (touches_ld16 _ _ _ _ _ _ T3) by (fields; (split_and!; lia) || lia). done.
  - rewrite <- W3, (touches_ld16 _ _ _ _ _ _ T4) by (fields; (split_and!; lia) || lia). done.
  - done.
Qed.

Lemma set_blink_location loc b' l a b :
  find_blink loc l = Some (a, b) -> location b' = location b -> map location (set_blink loc b' l).*2 = map location l.*2.
Proof.
  induction l as [|[a0 b0] l IH]; cbn [find_blink set_blink]; [done|]. destruct (location b0 =? loc).
  - intros [= -> ->] E. rewrite !fmap_cons. cbn [map snd]. by rewrite E.
  - intros Hf E. rewrite !fmap_cons. cbn [map snd]. f_equal. by apply IH.
Qed.

Lemma ioctl_sync_ok s l arg : blinks s l ->
  let '(r, l', d) := sync_blink arg l in
  exists s', mp1_ioctl_sync arg s = Some (r, s') /\ blinks s' l' /\ effect library d s s'.
Proof.
  intros B. unfold mp1_ioctl_sync, sync_blink. rewrite (mp1_find_helper_ok s l) by done.
  destruct (find_blink (u16 (Z.shiftr arg 16)) l) as [[e be]|] eqn:He;
    [|exists s; split; [done|]; split; [done|by apply effect_refl, (bk_page _ _ B)]].
  change (default 0 (fst <$> Some (e, be))) with e. destruct (find_blink_in _ _ _ _ He) as [Ie _].
  destruct (blinks_used s l e be B Ie) as (Se & Hoe & _). destruct (slot_bounds e Se) as (_ & _ & _ & ?).
  rewrite (proj2 (Z.eqb_neq e 0)) by lia. rewrite (mp1_find_helper_ok s l) by done.
  destruct (find_blink (u16 (Z.land arg 0xFFFF)) l) as [[d bd]|] eqn:Hd;
    [|exists s; split; [done|]; split; [done|by apply effect_refl, (bk_page _ _ B)]].
  change (default 0 (fst <$> Some (d, bd))) with d. destruct (find_blink_in _ _ _ _ Hd) as [Id Hloc].
  destruct (blinks_used s l d bd B Id) as (Sd & Hod & Hr). destruct (slot_bounds d Sd) as (_ & D1 & D2 & ?).
  rewrite (proj2 (Z.eqb_neq d 0)) by lia. cbv zeta.
  destruct (sync_copies s e d be bd (bk_page _ _ B) Se Sd Hoe Hod) as [T H4]. set (s4 := st16 _ (d + STATUS) _) in *.
  rewrite cmovl_never, (ho_location _ _ _ H4), (ho_off_char _ _ _ H4). cbn [synced location off_char].
  assert (M : effect library [] s s4) by (apply (touches_moves _ _ _ _ _ _ T); intros; right; lia).
  assert (El : map location (set_blink (u16 (Z.land arg 0xFFFF)) (synced be bd) l).*2 = map location l.*2)
    by (by eapply set_blink_location).
  assert (B4 : blinks s4 (set_blink (u16 (Z.land arg 0xFFFF)) (synced be bd) l)).
  { pose proof (ly_head_array Ly) as Hh. destruct (ly_head Ly) as (? & _ & ?).
    split; rewrite ?set_blink_slots; [exact (mv_page _ _ _ _ M)| | |exact (bk_slots _ _ B)|exact (bk_nodup _ _ B)| |].
    - rewrite (effect_ld32 _ _ _ _ _ M); [exact (bk_base _ _ B)|exact (ly_base Ly)|exact library_base].
    - rewrite (touches_ld32 _ _ _ _ _ _ T); [|apply Ly|lia].
      eapply chain_set; [exact (bk_chain _ _ B)|exact (bk_slots _ _ B)|exact (bk_nodup _ _ B)|done|apply T|done].
    - apply (Forall_map location (fun z => 0 < z < 2000)). rewrite El.
      apply (Forall_map location (fun z => 0 < z < 2000)), (bk_locations _ _ B).
    - intros a Sa Hn. rewrite <- (bk_free _ _ B a Sa Hn). destruct (slot_bounds a Sa) as (? & _).
      assert (Hne : a <> d) by (intros ->; apply Hn, list_elem_of_fmap; by exists (d, bd)).
      apply (touches_ld16 _ _ _ _ _ _ T); [fields; destruct (slot_bounds a Sa) as ((?&_&?) & _); split_and!; lia|].
      destruct (slot_apart a d Sa Sd Hne); fields; lia. }
  destruct (poke_ok s4 _ (location bd) (off_char bd) B4) as [B5 M5]; [lia| |].
  { rewrite <- (ho_off_char _ _ _ Hod). apply ldb_range. }
  eexists. split; [done|]. split; [exact B5|]. apply (effect_trans _ [] [_] s s4); [done|].
  eapply effect_weaken; [exact M5|tauto].
Qed.

(** *** The contract

    Without the addresses: the state is a list of blinks. *)

Fixpoint find_first (loc : Z) (bl : list blink) : option blink :=
  match bl with [] => None | b :: bl' => if location b =? loc then Some b else find_first loc bl' end.

Fixpoint remove_first (loc : Z) (bl : list blink) : list blink :=
  match bl with [] => [] | b :: bl' => if location b =? loc then bl' else b :: remove_first loc bl' end.

Fixpoint replace_first (loc : Z) (b' : blink) (bl : list blink) : list blink :=
  match bl with
  | [] => []
  | b :: bl' => if location b =? loc then b' :: bl' else b :: replace_first loc b' bl'
  end.

(** The result, the list and what is drawn. *)
Definition outcome : Type := Z * list blink * list (Z * Z).

Definition add_spec (b : blink) (bl : list blink) : outcome :=
  if 2000 <=? location b then (-1, bl, [])
  else if (length bl <? 2000)%nat then (0, fresh b :: bl, [(location b, on_char b)]) else (-1, bl, []).

Definition remove_spec (arg : Z) (bl : list blink) : outcome :=
  match find_first (u16 arg) bl with None => (-1, bl, []) | Some _ => (0, remove_first (u16 arg) bl, []) end.

Definition find_spec (loc : Z) (bl : list blink) : outcome :=
  match find_first loc bl with None => (-1, bl, []) | Some _ => (0, bl, []) end.

Definition sync_spec (arg : Z) (bl : list blink) : outcome :=
  match find_first (u16 (Z.shiftr arg 16)) bl, find_first (u16 (Z.land arg 0xFFFF)) bl with
  | Some b, Some d =>
      (0, replace_first (u16 (Z.land arg 0xFFFF)) (synced b d) bl, [(location d, off_char d)])
  | _, _ => (-1, bl, [])
  end.

(** The request [cmd]; [b] is the structure [arg] points to, where it does. *)
Definition ioctl_spec (cmd arg : Z) (b : blink) (bl : list blink) : outcome :=
  if cmd =? RTC_ADD then add_spec b bl
  else if cmd =? RTC_REMOVE then remove_spec arg bl
  else if cmd =? RTC_FIND then find_spec (location b) bl
  else sync_spec arg bl.

Lemma find_blink_first loc (l : list (Z * blink)) : snd <$> find_blink loc l = find_first loc l.*2.
Proof.
  induction l as [|[a b] l IH]; [done|]. rewrite fmap_cons. cbn [find_blink find_first snd]. by destruct (location b =? loc).
Qed.

Lemma unblink_first loc (l : list (Z * blink)) : (unblink loc l).*2 = remove_first loc l.*2.
Proof.
  induction l as [|[a b] l IH]; [done|]. rewrite fmap_cons. cbn [unblink remove_first snd].
  destruct (location b =? loc); [done|]. rewrite fmap_cons. by f_equal.
Qed.

Lemma set_blink_first loc b' (l : list (Z * blink)) : (set_blink loc b' l).*2 = replace_first loc b' l.*2.
Proof.
  induction l as [|[a b] l IH]; [done|]. rewrite fmap_cons. cbn [set_blink replace_first snd].
  destruct (location b =? loc); rewrite fmap_cons; [done|]. by f_equal.
Qed.

Lemma ticked_snd (l : list (Z * blink)) : (ticked l).*2 = map tick l.*2.
Proof. induction l as [|[a b] l IH]; [done|]. cbn [ticked map]. rewrite !fmap_cons. cbn [map]. by f_equal. Qed.

(** The state of the library is the list [bl]. *)
Definition listed (s : S) (bl : list blink) : Prop := exists l, blinks s l /\ l.*2 = bl.

Lemma first_free_spec_length s l : blinks s l ->
  match first_free l with
  | Some a => is_slot a /\ (length l < 2000)%nat /\ a ∉ l.*1
  | None => (2000 <= length l)%nat
  end.
Proof.
  intros B. pose proof (first_free_spec l) as Hf. destruct (first_free l) as [a|] eqn:E.
  - destruct Hf as [Sa Hn]. split; [done|]. split; [|done]. rewrite <- (length_fmap fst).
    enough (Datatypes.S (length (l.*1)) <= 2000)%nat by lia. replace 2000%nat with (length slots) by (unfold slots; by rewrite length_map, length_seq).
    change (length (a :: (l.*1)) <= length slots)%nat. apply submseteq_length, NoDup_submseteq.
    + apply NoDup_cons_2; [done|exact (bk_nodup _ _ B)].
    + intros x [->|Hx]%elem_of_cons; apply slots_spec; [done|]. exact (proj1 (Forall_forall _ _) (bk_slots _ _ B) x Hx).
  - destruct (Nat.le_gt_cases 2000 (length l)); [done|]. destruct (first_free_some l) as [a Ha]; [done|congruence].
Qed.

(** What may change during a request: the library's variables, its temporaries on the
    stack below [ebp], and for a search the structure of the program. *)
Definition ioctl_writes (ebp arg cmd x : Z) : Prop :=
  library x \/ ebp - 16 <= x < ebp \/ (cmd = RTC_FIND /\ arg <= x < arg + 16).

Section Requests.
Context (s : S) (ebp arg : Z) (b : blink).
Implicit Types bl : list blink.

(** On the list [bl], the request [cmd] has the outcome [o]. *)
Definition served (bl : list blink) (cmd : Z) (o : outcome) : Prop :=
  let '(r, bl', d) := o in
  exists s', mp1_ioctl ebp arg cmd s = Some (r, s') /\ listed s' bl' /\ effect (ioctl_writes ebp arg cmd) d s s' /\
    (cmd = RTC_FIND -> r = 0 -> exists b', find_first (location b) bl = Some b' /\ holds s' arg b').

Lemma add_served bl :
  listed s bl -> own (ebp - 16) 16 -> own arg 16 -> arg + 16 <= ebp - 16 \/ ebp <= arg -> holds s arg b ->
  0 < location b -> served bl RTC_ADD (add_spec b bl).
Proof.
  intros (l & B & <-) Ot Oa Hd Hb Hz.
  pose proof (ioctl_add_ok s l (ebp - 16) arg b B Ot ltac:(apply Oa) ltac:(lia) Hb Hz) as H1.
  assert (K : forall d s', effect (fun x => library x \/ ebp - 16 <= x < ebp - 16 + 16) d s s' ->
    effect (ioctl_writes ebp arg RTC_ADD) d s s').
  { intros d s' M. eapply effect_weaken; [exact M|]. intros x [?|?]; [by left|right; left; lia]. }
  unfold add_blink in H1. unfold add_spec. rewrite length_fmap. destruct (2000 <=? location b).
  { destruct H1 as (s' & E & B' & M). exists s'. split; [by rewrite <- E|]. split; [by exists l|]. by split; [apply K|]. }
  pose proof (first_free_spec_length s l B) as Hf. destruct (first_free l) as [a|].
  - rewrite (proj2 (Nat.ltb_lt _ _)) by tauto. destruct H1 as (s' & E & B' & M). exists s'. split; [by rewrite <- E|].
    split; [by exists ((a, fresh b) :: l)|]. by split; [apply K|].
  - rewrite (proj2 (Nat.ltb_ge _ _)) by done. destruct H1 as (s' & E & B' & M). exists s'. split; [by rewrite <- E|].
    split; [by exists l|]. by split; [apply K|].
Qed.

Lemma remove_served bl : listed s bl -> served bl RTC_REMOVE (remove_spec arg bl).
Proof.
  intros (l & B & <-). pose proof (ioctl_remove_ok s l arg B) as H1. unfold remove_spec. rewrite <- find_blink_first.
  destruct (find_blink (u16 arg) l) as [[a b0]|]; cbn [fmap option_fmap option_map].
  - destruct H1 as (s' & E & B' & M). exists s'. split; [done|]. split; [|split; [|done]].
    + exists (unblink (u16 arg) l). split; [done|]. apply unblink_first.
    + eapply effect_weaken; [exact M|]. intros x Hx. by left.
  - exists s. split; [done|]. split; [by exists l|]. split; [by apply effect_refl, (bk_page _ _ B)|done].
Qed.

Lemma find_served bl :
  listed s bl -> own (ebp - 16) 16 -> own arg 16 -> arg + 16 <= ebp - 16 \/ ebp <= arg -> holds s arg b ->
  served bl RTC_FIND (find_spec (location b) bl).
Proof.
  intros (l & B & <-) Ot Oa Hd Hb. assert (Ot2 : own (ebp - 2) 2).
  { destruct Ot as ((T1 & T2 & T3) & T4 & T5). split; [split_and!; lia|]. split; [|lia]. intros i Hi.
    replace (ebp - 2 + i) with (ebp - 16 + (14 + i)) by lia. apply T4. lia. }
  destruct (ioctl_find_ok s l (ebp - 2) arg B Ot2 Oa ltac:(lia)) as (r & s' & E & B' & M & Hr).
  unfold find_spec. rewrite <- find_blink_first.
  assert (El : ld16 s arg = location b) by (rewrite <- (ho_location _ _ _ Hb); unfold LOCATION; by rewrite Z.add_0_r).
  rewrite El in Hr. assert (M' : effect (ioctl_writes ebp arg RTC_FIND) [] s s').
  { eapply effect_weaken; [exact M|]. intros x [?|?]; [right; by right|right; left; lia]. }
  unfold served. rewrite <- find_blink_first.
  destruct (find_blink (location b) l) as [[a b0]|] eqn:Ef; cbn [fmap option_fmap option_map].
  - destruct Hr as [-> Hr]. exists s'. split; [done|]. split; [by exists l|]. split; [done|]. intros _ _. by exists b0.
  - subst r. exists s'. split; [done|]. split; [by exists l|]. split; [done|]. intros _ ?. lia.
Qed.

Lemma sync_served bl : listed s bl -> served bl RTC_SYNC (sync_spec arg bl).
Proof.
  intros (l & B & <-). pose proof (ioctl_sync_ok s l arg B) as H1. unfold sync_blink in H1. unfold sync_spec.
  rewrite <- !find_blink_first.
  destruct (find_blink (u16 (Z.shiftr arg 16)) l) as [[e be]|]; [destruct (find_blink (u16 (Z.land arg 0xFFFF)) l) as [[d bd]|]|];
    cbn [fmap option_fmap option_map]; destruct H1 as (s' & E & B' & M); exists s'; (split; [exact E|]);
    (split; [eexists; split; [exact B'|]; done || apply set_blink_first|]);
    (split; [eapply effect_weaken; [exact M|]; intros x Hx; by left|done]).
Qed.

(** C20: the list of blinking characters.  Each request of the program, served by code that
    follows and redirects pointers through structures in an array, does on memory what
    its description says of a list: a new blink comes to the front and is shown while
    there is room and its location is on the screen; removal, search and
    synchronisation take the first one at a location; otherwise the result is -1 and the
    list is as it was.  Nothing outside the library's variables and temporaries changes,
    and on the screen only the character drawn. *)
Theorem ioctl_refines bl cmd :
  listed s bl -> RTC_ADD <= cmd <= RTC_SYNC -> own (ebp - 16) 16 ->
  (cmd = RTC_ADD \/ cmd = RTC_FIND -> own arg 16 /\ (arg + 16 <= ebp - 16 \/ ebp <= arg) /\ holds s arg b) ->
  (cmd = RTC_ADD -> 0 < location b) ->
  served bl cmd (ioctl_spec cmd arg b bl).
Proof.
  intros B Hc Ot Ha Hz. unfold ioctl_spec.
  destruct (Z.eqb_spec cmd RTC_ADD) as [->|N0].
  { destruct (Ha ltac:(by left)) as (Oa & Hd & Hb). by apply add_served; auto. }
  destruct (Z.eqb_spec cmd RTC_REMOVE) as [->|N1]; [by apply remove_served|].
  destruct (Z.eqb_spec cmd RTC_FIND) as [->|N2].
  { destruct (Ha ltac:(by right)) as (Oa & Hd & Hb). by apply find_served. }
  unfold RTC_ADD, RTC_REMOVE, RTC_FIND, RTC_SYNC in *. assert (cmd = 3) as -> by lia. by apply sync_served.
Qed.

End Requests.

(** A tick: every blink counts down, and those that are due change what they show. *)
Lemma tasklet_refines s bl : listed s bl ->
  exists s', mp1_rtc_tasklet s = Some s' /\ listed s' (map tick bl) /\ effect library (flat_map drawn bl) s s'.
Proof.
  intros (l & B & <-). destruct (mp1_rtc_tasklet_ok s l B) as (s' & E & B' & M). exists s'. split; [done|].
  split; [|done]. exists (ticked l). split; [done|]. apply ticked_snd.
Qed.

End Structures.
