(* ===== verification/Fish.v ===== *)
(** * fish (fish/fish.c)

    The animation: the characters of two pictures blink between the one and the other,
    at the rate of the clock.  The library of Blink.v does the blinking; here are the
    program's own functions, over the system calls, and what the whole program shows. *)

From stdpp Require Import base list numbers gmap strings.
From Stdlib Require Import ZArith Lia.
From S2P Require Import Prelude Mem LibStr State Pic Console Rtc Keyboard Irq Terminal Paging.
From S2P Require Import Filesystem Syscall Process Idt User Programs Grep Pingpong Blink.

(** ** The program *)

(** Its other variables: the two file names, and the locals whose addresses it takes. *)
Class FishLocals : Type := {
  file0 : Z;
  file1 : Z;
  ret_val : Z;
  garbage : Z;
  main_struct : Z;
  frame_struct : Z;
  c0 : Z;
  c1 : Z;
  main_ebp : Z;    (* of mp1_ioctl, called from [main] *)
  frame_ebp : Z    (* and from [add_frames] *)
}.

Definition WAIT : Z := 100.

Section Fish.
Context `{D : Device} `{Sy : Symbols} `{TF : TrapFrame} `{L : Literals} `{FS : FishSymbols} `{FL : FishLocals}.

(** Calls of the library, which works on the memory of the program. *)
Definition tasklet : K unit := fun s =>
  match mp1_rtc_tasklet (k_mem s) with None => NoFuel | Some m => Ret tt (set_mem m s) end.

Definition ioctl (ebp arg cmd : Z) : K Z := fun s =>
  match mp1_ioctl ebp arg cmd (k_mem s) with None => NoFuel | Some (r, m) => Ret r (set_mem m s) end.

Definition mp1_set_video_mode : K Z :=
  (r <- ece391_vidmap vmem_base_addr ;;
   if (r =? -1)%Z then kret 0%Z else fun s => Ret (ld32 (k_mem s) vmem_base_addr) s)%kernel.

(** The next character of one picture; the result is whether its file has ended. *)
Definition next_char (fd c eof : Z) : K Z := fun s =>
  if negb (ldb (k_mem s) c =? 10) then
    (num_bytes <- ece391_read fd c 1 ;;
     if (num_bytes =? 0)%Z then (kmod (fun s => set_mem (stb (k_mem s) c 10) s) ;; kret 1%Z) else kret eof)%kernel s
  else Ret eof s.

Definition fill_frame (x0 x1 loc : Z) (m : vmem) : vmem :=
  let m := stb m (frame_struct + ON_CHAR) (if x0 =? 10 then 32 else x0) in
  let m := stb m (frame_struct + OFF_CHAR) (if x1 =? 10 then 32 else x1) in
  st16 m (frame_struct + LOCATION) loc.

(** A row of the pictures. *)
Fixpoint frame_row (fuel : nat) (fd0 fd1 row col eof0 eof1 : Z) : K (Z * Z) :=
  match fuel with
  | O => fun _ => NoFuel
  | S f =>
      (eof0 <- next_char fd0 c0 eof0 ;;
       eof1 <- next_char fd1 c1 eof1 ;;
       fun s =>
         let x0 := ldb (k_mem s) c0 in
         let x1 := ldb (k_mem s) c1 in
         if ((x0 =? 10)%Z && (x1 =? 10)%Z)%bool then Ret (eof0, eof1) s
         else
           ((if (negb (x0 =? 32)%Z && negb (x0 =? 10)%Z || negb (x1 =? 32)%Z && negb (x1 =? 10)%Z)%bool then
              (kmod (fun s => set_mem (fill_frame x0 x1 (row * 80 + col + 40)%Z (k_mem s)) s) ;;
               ioctl frame_ebp frame_struct RTC_ADD ;; kret tt)
             else kret tt) ;;
            frame_row f fd0 fd1 row (col + 1)%Z eof0 eof1) s)%kernel
  end.

(** After a row: a file that has ended is closed. *)
Definition row_end (fd c eof : Z) : K unit :=
  (if negb (eof =? 0)%Z then (kmod (fun s => set_mem (stb (k_mem s) c 10) s) ;; ece391_close fd ;; kret tt)
   else kmod (fun s => set_mem (stb (k_mem s) c 48) s))%kernel.

Fixpoint frame_rows (n fuel : nat) (fd0 fd1 row eof0 eof1 : Z) : K unit :=
  if negb ((eof0 =? 0) || (eof1 =? 0)) then kret tt
  else match n with
  | O => fun _ => NoFuel
  | S n' =>
      (eofs <- frame_row fuel fd0 fd1 row 0 eof0 eof1 ;;
       row_end fd0 c0 eofs.1 ;;
       row_end fd1 c1 eofs.2 ;;
       frame_rows n' fuel fd0 fd1 (row + 1)%Z eofs.1 eofs.2)%kernel
  end.

Definition add_frames (fuel : nat) (f0 f1 rtc_fd : Z) : K unit :=
  (kmod (fun s =>
     let m := stb (stb (k_mem s) c0 48) c1 48 in
     let m := st16 m (frame_struct + ON_LENGTH) 15 in
     set_mem (st16 m (frame_struct + OFF_LENGTH) 15) s) ;;
   fd0 <- ece391_open f0 ;;
   (if (fd0 <? 0)%Z then (ece391_halt (-1)%Z ;; kret tt) else kret tt) ;;
   fd1 <- ece391_open f1 ;;
   (if (fd1 <? 0)%Z then (ece391_halt (-1)%Z ;; kret tt) else kret tt) ;;
   frame_rows fuel fuel fd0 fd1 0%Z 0%Z 0%Z)%kernel.

(** A tick, and [WAIT] of them. *)
Definition wait_tick (rtc_fd : Z) : K unit := (ece391_read rtc_fd garbage 4 ;; tasklet)%kernel.

Definition wait (rtc_fd : Z) : K unit := k_for 0 WAIT (fun _ _ => wait_tick rtc_fd) tt.

Definition fill_main (m : vmem) : vmem :=
  let m := stb m (main_struct + ON_CHAR) 73 in
  let m := stb m (main_struct + OFF_CHAR) 77 in
  let m := st16 m (main_struct + ON_LENGTH) 7 in
  let m := st16 m (main_struct + OFF_LENGTH) 6 in
  st16 m (main_struct + LOCATION) (6 * 80 + 60).

(** The second half of [main]. *)
Definition main_animate (rtc_fd : Z) : K Z :=
  (wait rtc_fd ;;
   kmod (fun s => set_mem (fill_main (k_mem s)) s) ;;
   ioctl main_ebp main_struct RTC_ADD ;;
   wait rtc_fd ;;
   ioctl main_ebp (Z.lor (Z.shiftl 40 16) (6 * 80 + 60)) RTC_SYNC ;;
   wait rtc_fd ;;
   ioctl main_ebp (6 * 80 + 60) RTC_REMOVE ;;
   wait rtc_fd ;;
   ece391_close rtc_fd ;;
   kret 0%Z)%kernel.

Definition fish_main (fuel : nat) : K Z :=
  (kmod (fun s => set_mem (ece391_memset blink_array 0 (STRUCT_SIZE * 80 * 25) (k_mem s)) s) ;;
   v <- mp1_set_video_mode ;;
   if (v =? 0)%Z then kret (-1)%Z
   else
     (rtc_fd <- ece391_open (lit (str "rtc")) ;;
      add_frames fuel file0 file1 rtc_fd ;;
      kmod (fun s => set_mem (st32 (k_mem s) ret_val 32) s) ;;
      r <- ece391_write rtc_fd ret_val 4 ;;
      kmod (fun s => set_mem (st32 (k_mem s) ret_val r) s) ;;
      main_animate rtc_fd))%kernel.

End Fish.

(** ** What it is to show *)

(** The character of the pictures at a place: a blink, unless both are blank there. *)
Definition glyph (loc x0 x1 : Z) : list blink :=
  if (x0 =? 32) && (x1 =? 32) then [] else [mkBlink (u16 loc) x0 x1 15 15 0 0].

Definition row_from (loc : Z) (l0 l1 : list Z) : list blink :=
  flat_map (fun col => glyph (loc + Z.of_nat col) (nth col l0 32) (nth col l1 32)) (seq 0 (length l0 `max` length l1)).

(** The rows from [row] on. *)
Definition rows_from (row : Z) (ls0 ls1 : list (list Z)) : list blink :=
  flat_map (fun k => row_from ((row + Z.of_nat k) * 80 + 40) (nth k ls0 []) (nth k ls1 []))
    (seq 0 (length ls0 `max` length ls1)).

(** The pictures as text. *)
Definition frame_blinks (f0 f1 : list Z) : list blink := rows_from 0 (lines f0) (lines f1).

(** The list and what is drawn, while the program goes on. *)
Definition show : Type := list blink * list (Z * Z).

Definition after_request (o : outcome) : show := (o.1.2, o.2).
Definition then_ (f : list blink -> show) (x : show) : show := let '(bl, d) := f x.1 in (bl, x.2 ++ d).

Fixpoint add_all (l bl : list blink) : show :=
  match l with
  | [] => (bl, [])
  | b :: l' => then_ (add_all l') (after_request (add_spec b bl))
  end.

Fixpoint ticks (k : nat) (bl : list blink) : show :=
  match k with
  | O => (bl, [])
  | S k' => then_ (ticks k') (map tick bl, flat_map drawn bl)
  end.

(** The letter of [main]. *)
Definition letter : blink := mkBlink 540 73 77 7 6 0 0.

Definition animation (f0 f1 : list Z) : list (Z * Z) :=
  (then_ (ticks 100) (then_ (fun bl => after_request (remove_spec 540 bl))
    (then_ (ticks 100) (then_ (fun bl => after_request (sync_spec (40 * 65536 + 540) bl))
      (then_ (ticks 100) (then_ (fun bl => after_request (add_spec letter bl))
        (then_ (ticks 100) (add_all (frame_blinks f0 f1) [])))))))).2.

(** ** The screen through the window at 132 MiB *)

(** A screen after characters have been put at places. *)
Definition scr_draw (d : list (Z * Z)) (t : scr) : scr := mkScr (pos t) (draw d (cells t)).

Lemma scr_draw_app d1 d2 t : scr_draw (d1 ++ d2) t = scr_draw d2 (scr_draw d1 t).
Proof. unfold scr_draw. simpl. by rewrite draw_app. Qed.

#[export] Instance scr_draw_proper d : Proper (scr_eq ==> scr_eq) (scr_draw d).
Proof. intros t u [E1 E2]. split; [done|]. intros i Hi. by apply (draw_ext 2000). Qed.

Section Steps.
Context `{D : Device} `{Sy : Symbols} `{TF : TrapFrame} `{TO : !TrapOk} `{FS : FishSymbols} (p : Z).
Implicit Types s : kst.

#[local] Abbreviation page := (page MB128 MB4 user_screen).
#[local] Abbreviation effect := (effect MB128 MB4 user_screen).

Lemma inside_window a k : inside MB128 MB4 a k <-> in_window a k.
Proof. unfold inside, in_window, MB128, MB132, MB4. lia. Qed.

Lemma screen_cell s j : running p s -> 0 <= j < 4000 -> cell (k_mem s) (user_screen + j) = VIDEO + j.
Proof.
  intros R Hj. unfold cell; simpl. replace (user_screen + j) with (MB132 + (VIDEO + j)) by (unfold user_screen, MB132, VIDEO; lia).
  apply tr_window2; [apply R|unfold VIDEO, MB4; lia].
Qed.

Lemma screen_byte s j : running p s -> 0 <= j < 4000 -> ldb (k_mem s) (user_screen + j) = ldb (k_mem s) (VIDEO + j).
Proof.
  intros R Hj. pose proof (screen_cell s j R Hj) as E. unfold cell in E; simpl in E. unfold ldb; simpl. unfold vmem_ldb.
  rewrite E, tr_kernel by (unfold VIDEO, MB128; lia). done.
Qed.

Lemma page_cell s j : running p s -> 0 <= j < MB4 -> cell (k_mem s) (MB128 + j) = frame p + j.
Proof. intros R Hj. unfold cell; simpl. rewrite tr_window by (apply R || done). by rewrite (ru_upage _ _ R). Qed.

Lemma user_page s : running p s -> page (k_mem s).
Proof.
  intros R. pose proof (ru_proc _ _ R). split.
  - apply (window_region p s MB128 MB4 R). unfold in_window, MB128, MB132, MB4. lia.
  - split; [done|]. intros i j Hi Hj. rewrite !screen_cell by done. lia.
  - intros i j Hi Hj. rewrite screen_cell, page_cell by done. unfold frame, VIDEO. lia.
Qed.

(** From [s] to [s'] the program keeps running, only bytes of its page for which [W] holds
    have changed, and [d] has been drawn. *)
Record fstep (W : Z -> Prop) (d : list (Z * Z)) (s s' : kst) : Prop := {
  fp_step : ustep p MB128 MB4 s s';
  fp_rest : forall a, in_window a 1 -> ~ W a -> ldb (k_mem s') a = ldb (k_mem s) a;
  fp_view : scr_eq (view s') (scr_draw d (view s))
}.

Lemma fstep_refl W s : running p s -> fstep W [] s s.
Proof. intros R. split; [by apply ustep_refl|done|done]. Qed.

Lemma fstep_trans W d1 d2 s1 s2 s3 : fstep W d1 s1 s2 -> fstep W d2 s2 s3 -> fstep W (d1 ++ d2) s1 s3.
Proof.
  intros [U1 R1 V1] [U2 R2 V2]. split; [by eapply ustep_trans| |].
  - intros a Ha Hw. by rewrite R2, R1.
  - by rewrite V2, V1, scr_draw_app.
Qed.

Lemma fstep_weaken (W W' : Z -> Prop) d s s' : fstep W d s s' -> (forall a, W a -> W' a) -> fstep W' d s s'.
Proof. intros [U R V] HW. split; [done| |done]. intros a Ha Hn. apply R; [done|]. intros Hw. by apply Hn, HW. Qed.

Lemma fstep_ustep b n s s' : ustep p b n s s' -> in_window b n -> scr_eq (view s') (view s) ->
  fstep (fun a => b <= a < b + n) [] s s'.
Proof.
  intros U (W1 & W2 & W3) V. split; [|by apply U|done].
  eapply ustep_sub; [exact U|unfold MB128, MB132, MB4 in *; lia|unfold MB128, MB132, MB4 in *; lia].
Qed.

(** What the library does to memory is such a step. *)
Lemma fstep_moves W d s m' : running p s -> effect W d (k_mem s) m' -> fstep W d s (set_mem m' s).
Proof.
  intros R M. destruct (mv_within _ _ _ _ _ _ _ M) as [Mc Mw]. destruct (cells_map p s m' R Mc) as [M1 M2].
  pose proof (ru_proc _ _ R) as Hp.
  assert (Off : forall a, 0 <= a < frame p -> a < VIDEO \/ VIDEO + 4000 <= a -> ldb m' a = ldb (k_mem s) a).
  { intros a Ha Hv. apply Mw; intros i Hi.
    - rewrite page_cell by done. unfold cell; simpl. rewrite tr_kernel by (unfold frame, MB128 in *; lia). lia.
    - rewrite screen_cell by done. unfold cell; simpl. rewrite tr_kernel by (unfold frame, MB128 in *; lia). lia. }
  assert (Hi : same_image (k_mem s) m' (k_boot s)).
  { intros i Hi. destruct (ru_off _ _ R) as (O1 & O2 & O3). pose proof (ru_low _ _ R).
    apply Off; [unfold frame, _8MB in *; lia|lia]. }
  destruct (same_image_wf _ _ _ (ru_wf _ _ R) Hi) as [Hw Es]. split.
  - split; try done.
    + destruct R. split; try done; simpl; by rewrite ?Es.
    + intros a Ha Hn. destruct Hn. destruct Ha as (?&?&?). unfold MB128, MB132, MB4 in *. lia.
    + apply kept_memory; [done|done|]. intros a Ha. apply Off; unfold VIDEO_END, VIDEO in *; lia.
  - intros a Ha Hn. apply (mv_rest _ _ _ _ _ _ _ M); [by apply inside_window|done].
  - split; [done|]. intros i Hi'. cbn [scr_draw cells view]. unfold chr, vid_get. cbn [k_mem set_mem].
    assert (Rm : running p (set_mem m' s)) by (destruct R; split; try done; simpl; by rewrite ?Es).
    rewrite <- (screen_byte (set_mem m' s)) by (done || lia). cbn [k_mem set_mem].
    rewrite (mv_screen _ _ _ _ _ _ _ M), draw_bytes by lia. apply (draw_ext 2000); [|done].
    intros j Hj. by rewrite screen_byte by (done || lia).
Qed.

End Steps.

(** ** The pictures, character by character *)

Section Rows.
Context `{D : Device} `{Sy : Symbols} `{TF : TrapFrame} `{TO : !TrapOk} `{FS : FishSymbols} (p : Z).
Implicit Types s : kst.

#[local] Abbreviation fstep := (fstep p).

Lemma rest_of_ustep b n s s' fd nd q :
  ustep p b n s s' -> file_fd p s fd nd q -> rest_of s' nd q = rest_of s nd q.
Proof.
  intros U F. pose proof (ru_wf _ _ (us_from _ _ _ _ _ U)) as Hw. pose proof (us_image _ _ _ _ _ U) as Hi.
  pose proof (ff_pos _ _ _ _ _ F). unfold rest_of. rewrite (us_boot _ _ _ _ _ U).
  rewrite (same_image_len _ _ _ _ Hw Hi (ff_inode _ _ _ _ _ F)).
  apply same_image_slice; try done; [apply F|lia|lia].
Qed.

(** Descriptor [fd] is the file of inode [nd] with the text [l] left. *)
Definition stream (s : kst) (fd nd : Z) (l : list Z) : Prop := exists q, file_fd p s fd nd q /\ rest_of s nd q = l.

Lemma stream_step b n s s' fd nd l :
  ustep p b n s s' -> fd_at p fd s' = fd_at p fd s -> stream s fd nd l -> stream s' fd nd l.
Proof.
  intros U E (q & F & <-). exists q. split; [by eapply file_fd_step|by eapply rest_of_ustep].
Qed.

Lemma rest_of_cons s fd nd q x l :
  file_fd p s fd nd q -> rest_of s nd q = x :: l ->
  file_slice (k_mem s) (k_boot s) nd q 1 = [x] /\ rest_of s nd (q + 1) = l /\
  q < file_len (k_mem s) (k_boot s) nd.
Proof.
  intros F E. unfold rest_of in *. set (len := file_len (k_mem s) (k_boot s) nd) in *.
  assert (Hl : (1 <= Z.to_nat (len - q))%nat).
  { pose proof (file_slice_length (k_mem s) (k_boot s) nd q (Z.to_nat (len - q))) as H. rewrite E in H. simpl in H. lia. }
  destruct (file_slice_split (k_mem s) (k_boot s) nd q _ 1 Hl) as [T Dr]. rewrite E in T, Dr. simpl in T, Dr.
  split; [done|]. split; [|lia]. etrans; [|symmetry; exact Dr]. f_equal. lia.
Qed.

Lemma read_char s fd nd l c :
  running p s -> stream s fd nd l -> in_window c 1 ->
  exists s', ece391_read fd c 1 s = Ret (match l with [] => 0 | _ => 1 end) s' /\
    stream s' fd nd (tail l) /\ (l <> [] -> ldb (k_mem s') c = hd 0 l) /\
    ustep p c 1 s s' /\ scr_eq (view s') (view s) /\
    (forall fd', fd' <> fd -> fd_at p fd' s' = fd_at p fd' s) /\ same_input s s'.
Proof.
  intros R (q & F & E) W. destruct (user_read_file_fds p s fd nd q c 1 R F W) as (s' & Er & B & F' & U & V & O & I).
  pose proof (ff_pos _ _ _ _ _ F) as Hq. set (len := file_len (k_mem s) (k_boot s) nd) in *.
  pose proof (rest_of_ustep _ _ _ _ _ _ _ U F) as Es. exists s'. destruct l as [|x l].
  - assert (Hl : len - q = 0).
    { pose proof (file_slice_length (k_mem s) (k_boot s) nd q (Z.to_nat (len - q))) as H. unfold rest_of in E. fold len in E.
      rewrite E in H. simpl in H. lia. }
    replace (Z.min 1 (len - q)) with 0 in * by lia. rewrite Z.add_0_r in F'. split_and!; try done.
    exists q. split; [done|]. by rewrite Es.
  - destruct (rest_of_cons s fd nd q x l F E) as (E1 & E2 & Hl). fold len in Hl.
    replace (Z.min 1 (len - q)) with 1 in * by lia. split_and!; try done.
    + exists (q + 1). split; [done|]. rewrite <- E2. unfold rest_of.
      pose proof (ru_wf _ _ R) as Hw. pose proof (us_image _ _ _ _ _ U) as Hi. rewrite (us_boot _ _ _ _ _ U).
      rewrite (same_image_len _ _ _ _ Hw Hi (ff_inode _ _ _ _ _ F)). fold len.
      apply same_image_slice; try done; [apply F|lia|lia].
    + intros _. change (Z.to_nat 1) with 1%nat in B. rewrite E1 in B. unfold bytes_at in B. simpl in B.
      rewrite Z.add_0_r in B. by injection B.
Qed.

(** Where one picture is: the characters left of the row ([None] once its newline has been
    read) and the text after it ([None] when the file ends with it). *)
Definition after (aft : option (list Z)) : list Z := match aft with Some t => 10 :: t | None => [] end.

Definition source (s : kst) (fd nd c eof : Z) (line aft : option (list Z)) : Prop :=
  match line, aft with
  | Some x, _ => ldb (k_mem s) c <> 10 /\ eof = 0 /\ ~ (10 ∈ x) /\ stream s fd nd (x ++ after aft)
  | None, Some t => ldb (k_mem s) c = 10 /\ eof = 0 /\ stream s fd nd t
  | None, None => ldb (k_mem s) c = 10 /\ eof = 1
  end.

Definition advance (line : option (list Z)) : Z * option (list Z) :=
  match line with Some (x :: l) => (x, Some l) | _ => (10, None) end.

(** Steps that leave a picture alone. *)
Lemma source_fstep W d s s' fd nd c eof line aft :
  fstep W d s s' -> ~ W c -> in_window c 1 -> fd_at p fd s' = fd_at p fd s ->
  source s fd nd c eof line aft -> source s' fd nd c eof line aft.
Proof.
  intros [U Rs _] Hw Wc Ef. pose proof (Rs c Wc Hw) as Ec.
  destruct line as [x|], aft as [t|]; unfold source; rewrite Ec; intros H;
    repeat (match goal with H : _ /\ _ |- _ => destruct H end); split_and!; try done; by eapply stream_step.
Qed.

Lemma next_char_ok s fd nd c eof line aft :
  running p s -> source s fd nd c eof line aft -> in_window c 1 ->
  exists s' eof', next_char fd c eof s = Ret eof' s' /\ source s' fd nd c eof' (advance line).2 aft /\
    ldb (k_mem s') c = (advance line).1 /\ fstep (fun a => a = c) [] s s' /\
    (forall fd', fd' <> fd -> fd_at p fd' s' = fd_at p fd' s) /\ same_input s s'.
Proof.
  intros R So W. unfold next_char. destruct line as [x|].
  - destruct So as (Hc & -> & Hx & St). rewrite (proj2 (Z.eqb_neq _ 10)) by done. cbn [negb].
    destruct (read_char s fd nd _ c R St W) as (s1 & E & St' & B & U & V & O & I).
    assert (F : fstep (fun a => a = c) [] s s1).
    { eapply fstep_weaken; [by apply fstep_ustep|]. simpl. lia. }
    unfold kbind. rewrite E. destruct x as [|y x]; [destruct aft as [t|]|].
    + exists s1, 0. cbn [after app tail advance fst snd] in *. specialize (B ltac:(done)). cbn in B.
      split_and!; try done.
    + cbn [after app tail advance fst snd Z.eqb] in *. unfold kmod, kret. set (m := stb (k_mem s1) c 10).
      pose proof (us_run _ _ _ _ _ U) as R1.
      destruct (ustep_mem p c 1 s1 m R1 W) as [U2 V2]; [apply only_changes_first; lia|].
      assert (Ec : ldb m c = 10) by (apply ldb_stb_eq; done).
      exists (set_mem m s1), 1. split_and!; try done.
      apply (fstep_trans p _ [] [] s s1); [done|]. eapply fstep_weaken; [by apply fstep_ustep|]. simpl. lia.
    + exists s1, 0. cbn [after app tail advance fst snd] in *. specialize (B ltac:(done)). cbn in B.
      apply not_elem_of_cons in Hx as [Hy Hx]. split_and!; try done. unfold source. rewrite B. by split_and!.
  - assert (Hc : ldb (k_mem s) c = 10) by (destruct aft; apply So). rewrite Hc. cbn [Z.eqb Pos.eqb negb].
    exists s, eof. cbn [advance fst snd]. by split_and!; try apply fstep_refl.
Qed.

(** *** Where the variables are *)

Context `{FL : FishLocals} (stk len : Z).

#[local] Abbreviation own := (own MB128 MB4).
#[local] Abbreviation listed := (listed MB128 MB4 user_screen).

Definition on_stack (a k : Z) : Prop := stk <= a /\ a + k <= stk + len.
Definition disjoint (a k b l : Z) : Prop := a + k <= b \/ b + l <= a.

Record places : Prop := {
  pc_layout : layout MB128 MB4;
  pc_stack : own stk len;
  pc_c0 : on_stack c0 1;
  pc_c1 : on_stack c1 1;
  pc_chars : c0 <> c1;
  pc_frame : on_stack frame_struct 16;
  pc_frame_tmp : on_stack (frame_ebp - 16) 16;
  pc_frame_apart : disjoint frame_struct 16 (frame_ebp - 16) 16;
  pc_c0_apart : disjoint c0 1 frame_struct 16 /\ disjoint c0 1 (frame_ebp - 16) 16;
  pc_c1_apart : disjoint c1 1 frame_struct 16 /\ disjoint c1 1 (frame_ebp - 16) 16;
  pc_main : on_stack main_struct 16;
  pc_main_tmp : on_stack (main_ebp - 16) 16;
  pc_main_apart : disjoint main_struct 16 (main_ebp - 16) 16;
  pc_ret : on_stack ret_val 4;
  pc_garbage : in_window garbage 4
}.

Context (Pl : places).

(** What the program writes. *)
Definition scratch (x : Z) : Prop :=
  library x \/ vmem_base_addr <= x < vmem_base_addr + 4 \/ stk <= x < stk + len.

Lemma stack_own a k : on_stack a k -> 0 <= k -> own a k.
Proof.
  intros (H1 & H2) Hk. destruct (pc_stack Pl) as ((I1 & I2 & I3) & I4 & I5). split; [split_and!; lia|]. split; [|lia].
  intros i Hi. replace (a + i) with (stk + (a - stk + i)) by lia. apply I4. lia.
Qed.

Lemma stack_window a k : on_stack a k -> 0 <= k -> in_window a k.
Proof. intros H Hk. apply inside_window, (stack_own a k H Hk). Qed.

(** The list survives stores on the stack. *)
Lemma listed_fstep (W : Z -> Prop) s s' bl :
  (forall x, W x -> stk <= x < stk + len) -> fstep W [] s s' -> listed (k_mem s) bl -> listed (k_mem s') bl.
Proof.
  intros Hw F (l & B & E). exists l. split; [|done]. destruct (pc_stack Pl) as ((I1 & I2 & I3) & I4 & I5).
  eapply (blinks_ext MB128 MB4 user_screen (pc_layout Pl)); [exact B|apply (user_page p), (fp_step _ _ _ _ _ F)|].
  intros x Hx Hn. apply (fp_rest _ _ _ _ _ F); [by apply inside_window|]. intros Hx'%Hw.
  destruct Hn as [Hn|Hn]; [|lia]. apply (I4 (x - stk)); [lia|]. by replace (stk + (x - stk)) with x by lia.
Qed.

End Rows.

(** *** Fields of a structure *)

Lemma field_get (m : vmem) a i j v : region m a 16 -> 0 <= i < 16 -> 0 <= j < 16 ->
  ldb (stb m (a + i) v) (a + j) = if j =? i then u8 v else ldb m (a + j).
Proof.
  intros Rg Hi Hj. destruct (Z.eqb_spec j i) as [->|Hn]; [by apply ldb_stb_eq|].
  apply ldb_stb_other, (region_ne _ _ _ _ _ Rg); lia.
Qed.

Lemma u16_bytes v : u8 v + 256 * u8 (Z.shiftr v 8) = u16 v.
Proof. unfold u8, u16. rewrite Z.shiftr_div_pow2 by lia. change (2 ^ 8) with 256. modlia. Qed.

Lemma ld16_at (m : vmem) a k : ld16 m (a + k) = ldb m (a + k) + 256 * ldb m (a + (k + 1)).
Proof. unfold ld16. by rewrite <- Z.add_assoc. Qed.

Lemma st16_at (m : vmem) a k v : st16 m (a + k) v = stb (stb m (a + k) v) (a + (k + 1)) (Z.shiftr v 8).
Proof. unfold st16. by rewrite <- Z.add_assoc. Qed.

(** Any 16 bytes are some structure. *)
Definition blink_at (m : vmem) (a : Z) : blink :=
  mkBlink (ld16 m (a + LOCATION)) (ldb m (a + ON_CHAR)) (ldb m (a + OFF_CHAR)) (ld16 m (a + ON_LENGTH))
    (ld16 m (a + OFF_LENGTH)) (ld16 m (a + COUNTDOWN)) (ld16 m (a + STATUS)).

Lemma blink_at_holds m a : holds m a (blink_at m a).
Proof. done. Qed.

Ltac get_fields :=
  rewrite ?st16_at, ?ld16_at; repeat (rewrite field_get by (repeat apply region_stb; done || lia)); simpl.

(** *** Requests and rows *)

Section Requests.
Context `{D : Device} `{Sy : Symbols} `{TF : TrapFrame} `{TO : !TrapOk} `{FS : FishSymbols} `{FL : FishLocals}.
Context (p stk len : Z) (Pl : places stk len).
Implicit Types s : kst.

#[local] Abbreviation fstep := (fstep p).
#[local] Abbreviation scratch := (scratch stk len).
#[local] Abbreviation listed := (listed MB128 MB4 user_screen).
#[local] Abbreviation holds := (@holds vmem _).

(** Descriptors and input are as they were. *)
Definition quiet (s s' : kst) : Prop := (forall fd, fd_at p fd s' = fd_at p fd s) /\ same_input s s'.

#[export] Instance quiet_preorder : PreOrder quiet.
Proof.
  split; [done|]. intros s1 s2 s3 [A1 A2] [B1 B2]. split; [intros fd; by rewrite B1|by etrans].
Qed.

Lemma quiet_mem m s : quiet s (set_mem m s).
Proof. done. Qed.

Lemma ioctl_step s bl ebp arg cmd b :
  running p s -> listed (k_mem s) bl -> RTC_ADD <= cmd <= RTC_SYNC -> cmd <> RTC_FIND ->
  on_stack stk len (ebp - 16) 16 ->
  (cmd = RTC_ADD -> on_stack stk len arg 16 /\ disjoint arg 16 (ebp - 16) 16 /\ holds (k_mem s) arg b /\ 0 < location b) ->
  let o := ioctl_spec cmd arg b bl in
  exists s', ioctl ebp arg cmd s = Ret o.1.1 s' /\ listed (k_mem s') o.1.2 /\ quiet s s' /\
    fstep (fun x => library x \/ ebp - 16 <= x < ebp) o.2 s s'.
Proof.
  intros R B Hc Hf Ht Ha o.
  assert (Sv : served MB128 MB4 user_screen (k_mem s) ebp arg b bl cmd o).
  { apply (ioctl_refines MB128 MB4 user_screen (pc_layout _ _ Pl)); [done|done|by apply (stack_own _ _ Pl)| |].
    - intros [->| ->]; [|done]. destruct (Ha eq_refl) as (H1 & H2 & H3 & _).
      split; [by apply (stack_own _ _ Pl)|]. unfold disjoint in H2. split; [lia|done].
    - intros ->. apply Ha. done. }
  unfold served in Sv. destruct o as [[r bl'] d]. destruct Sv as (m' & E & B' & M & _).
  exists (set_mem m' s). unfold ioctl. rewrite E. split; [done|]. split; [done|]. split; [apply quiet_mem|].
  apply (fstep_weaken p _ _ _ _ _ (fstep_moves p _ _ _ _ R M)). intros x [H|[H|[H _]]]; [by left|by right|done].
Qed.

Lemma tick_step s bl :
  running p s -> listed (k_mem s) bl ->
  exists s', tasklet s = Ret tt s' /\ listed (k_mem s') (map tick bl) /\ quiet s s' /\ fstep library (flat_map drawn bl) s s'.
Proof.
  intros R B. destruct (tasklet_refines MB128 MB4 user_screen (pc_layout _ _ Pl) _ _ B) as (m' & E & B' & M).
  exists (set_mem m' s). unfold tasklet. rewrite E. split; [done|]. split; [done|]. split; [apply quiet_mem|].
  by apply fstep_moves.
Qed.

(** What [add_spec] uses of a structure. *)
Lemma add_spec_fresh b b' bl : fresh b = fresh b' -> add_spec b bl = add_spec b' bl.
Proof. unfold fresh. intros [= E1 E2 E3 E4 E5]. unfold add_spec, fresh. by rewrite E1, E2, E3, E4, E5. Qed.

(** Stores on the stack. *)
Lemma stack_stores s m a k :
  running p s -> on_stack stk len a k -> 0 <= k -> only_changes (k_mem s) m a k ->
  fstep (fun x => a <= x < a + k) [] s (set_mem m s).
Proof.
  intros R Ha Hk C. pose proof (stack_window _ _ Pl a k Ha Hk) as W. destruct (ustep_mem p a k s m R W C) as [U V].
  by apply fstep_ustep.
Qed.

Lemma only_changes_part s (m m' : vmem) a k b n :
  running p s -> only_changes m m' b n -> a <= b -> b + n <= a + k -> only_changes m m' a k.
Proof. intros R C H1 H2. by eapply only_changes_weaken; [..|exact C]. Qed.

(** The lengths are set once, before the rows. *)
Definition lengths (s : kst) : Prop :=
  ld16 (k_mem s) (frame_struct + ON_LENGTH) = 15 /\ ld16 (k_mem s) (frame_struct + OFF_LENGTH) = 15.

Lemma lengths_fstep W d s s' :
  fstep W d s s' -> (forall x, W x -> x < frame_struct + ON_LENGTH \/ frame_struct + COUNTDOWN <= x) -> lengths s -> lengths s'.
Proof.
  intros F HW [H1 H2]. destruct (stack_window _ _ Pl _ _ (pc_frame _ _ Pl) ltac:(lia)) as (W1 & _ & W2).
  assert (K : forall i, 4 <= i < 8 -> ldb (k_mem s') (frame_struct + i) = ldb (k_mem s) (frame_struct + i)).
  { intros i Hi. apply (fp_rest _ _ _ _ _ F); [unfold in_window; lia|]. intros Hx%HW. fields. lia. }
  split; [rewrite <- H1|rewrite <- H2]; apply ld16_ext; intros i Hi; rewrite <- !Z.add_assoc; apply K; fields; lia.
Qed.

Lemma fill_frame_ok s x0 x1 loc :
  running p s -> lengths s -> 0 <= x0 < 256 -> 0 <= x1 < 256 ->
  let m := fill_frame x0 x1 loc (k_mem s) in
  fstep (fun x => frame_struct <= x < frame_struct + 16) [] s (set_mem m s) /\ lengths (set_mem m s) /\
  fresh (blink_at m frame_struct) =
    fresh (mkBlink (u16 loc) (if x0 =? 10 then 32 else x0) (if x1 =? 10 then 32 else x1) 15 15 0 0).
Proof.
  intros R [L1 L2] H0 H1 m. pose proof (window_region p s _ _ R (stack_window _ _ Pl _ _ (pc_frame _ _ Pl) ltac:(lia))) as Rg.
  assert (C : only_changes (k_mem s) m frame_struct 16).
  { unfold m, fill_frame. rewrite st16_at. fields.
    repeat (eapply only_changes_trans; [|apply only_changes_stb; lia]). apply only_changes_refl. }
  assert (L : lengths (set_mem m s)).
  { unfold lengths in *. cbn [k_mem set_mem]. unfold m, fill_frame. fields. revert L1 L2. get_fields. by intros -> ->. }
  split; [|split; [exact L|]].
  - by apply stack_stores; [|apply Pl| |].
  - destruct L as [L1' L2']. cbn [k_mem set_mem] in L1', L2'. unfold blink_at, fresh.
    cbn [location on_char off_char on_length off_length]. rewrite L1', L2'.
    assert (E : ld16 m (frame_struct + LOCATION) = u16 loc /\
      ldb m (frame_struct + ON_CHAR) = u8 (if x0 =? 10 then 32 else x0) /\
      ldb m (frame_struct + OFF_CHAR) = u8 (if x1 =? 10 then 32 else x1)).
    { unfold m, fill_frame. fields. get_fields. by rewrite u16_bytes. }
    destruct E as (-> & -> & ->). by rewrite !u8_small by (repeat split_if; lia).
Qed.

End Requests.

(** *** Rows *)

Section FrameRows.
Context `{D : Device} `{Sy : Symbols} `{TF : TrapFrame} `{TO : !TrapOk} `{FS : FishSymbols} `{FL : FishLocals}.
Context (p stk len : Z) (Pl : places stk len).
Implicit Types s : kst.

#[local] Abbreviation fstep := (fstep p).
#[local] Abbreviation scratch := (scratch stk len).
#[local] Abbreviation listed := (listed MB128 MB4 user_screen).
#[local] Abbreviation quiet := (quiet p).

(** The structure and what the library writes. *)
Definition glyph_writes (x : Z) : Prop :=
  library x \/ frame_struct <= x < frame_struct + 16 \/ frame_ebp - 16 <= x < frame_ebp.

Lemma glyph_writes_scratch x : glyph_writes x -> scratch x.
Proof.
  destruct (pc_frame _ _ Pl), (pc_frame_tmp _ _ Pl). unfold scratch. intros [A|[A|A]]; [by left|right; right; lia..].
Qed.

Lemma glyph_writes_c0 : ~ glyph_writes c0.
Proof.
  destruct (stack_own _ _ Pl _ _ (pc_c0 _ _ Pl) ltac:(lia)) as (_ & Hl & _). destruct (pc_c0_apart _ _ Pl) as [A1 A2].
  specialize (Hl 0 ltac:(lia)). rewrite Z.add_0_r in Hl. unfold disjoint in *. intros [H|[H|H]]; [done|lia|lia].
Qed.

Lemma glyph_writes_c1 : ~ glyph_writes c1.
Proof.
  destruct (stack_own _ _ Pl _ _ (pc_c1 _ _ Pl) ltac:(lia)) as (_ & Hl & _). destruct (pc_c1_apart _ _ Pl) as [A1 A2].
  specialize (Hl 0 ltac:(lia)). rewrite Z.add_0_r in Hl. unfold disjoint in *. intros [H|[H|H]]; [done|lia|lia].
Qed.

Definition shown (x : Z) : Z := if x =? 10 then 32 else x.

Lemma shown_blank x : (shown x =? 32) = (x =? 32) || (x =? 10).
Proof. unfold shown. destruct (x =? 10); [by rewrite orb_true_r|by rewrite orb_false_r]. Qed.

Lemma glyph_step s bl x0 x1 loc :
  running p s -> lengths s -> listed (k_mem s) bl -> 0 <= x0 < 256 -> 0 <= x1 < 256 ->
  Forall (fun b => 0 < location b) (glyph loc (shown x0) (shown x1)) ->
  let x := add_all (glyph loc (shown x0) (shown x1)) bl in
  exists s',
    (if negb (x0 =? 32) && negb (x0 =? 10) || negb (x1 =? 32) && negb (x1 =? 10) then
       (kmod (fun s => set_mem (fill_frame x0 x1 loc (k_mem s)) s) ;;
        ioctl frame_ebp frame_struct RTC_ADD ;; kret tt)%kernel
     else kret tt) s = Ret tt s' /\
    listed (k_mem s') x.1 /\ fstep glyph_writes x.2 s s' /\ lengths s' /\ quiet s s'.
Proof.
  intros R Ls B Hx0 Hx1 Hl x. subst x. revert Hl.
  replace (negb (x0 =? 32) && negb (x0 =? 10) || negb (x1 =? 32) && negb (x1 =? 10))
    with (negb ((shown x0 =? 32) && (shown x1 =? 32))) by (rewrite !shown_blank; by destruct (x0 =? 32), (x0 =? 10), (x1 =? 32), (x1 =? 10)).
  unfold glyph. destruct ((shown x0 =? 32) && (shown x1 =? 32)); cbn [negb add_all].
  { intros _. exists s. split_and!; done || by apply fstep_refl. }
  intros Hl. apply Forall_cons_1 in Hl as [Hl _]. cbn [location] in Hl.
  destruct (fill_frame_ok p stk len Pl s x0 x1 loc R Ls Hx0 Hx1) as (F1 & L1 & E). unfold shown in *.
  set (b := mkBlink (u16 loc) _ _ 15 15 0 0) in *. set (s1 := set_mem _ s) in *.
  pose proof (us_run _ _ _ _ _ (fp_step _ _ _ _ _ F1)) as R1.
  assert (B1 : listed (k_mem s1) bl).
  { eapply (listed_fstep p stk len Pl); [|exact F1|exact B]. intros y. destruct (pc_frame _ _ Pl). lia. }
  destruct (ioctl_step p stk len Pl s1 bl frame_ebp frame_struct RTC_ADD (blink_at (k_mem s1) frame_struct) R1 B1)
    as (s2 & E2 & B2 & Q2 & F2); [unfold RTC_ADD, RTC_SYNC; lia|done|apply Pl| |].
  { intros _. split_and!; try apply Pl; [apply blink_at_holds|]. apply (f_equal location) in E. cbn [fresh location] in E.
    change (k_mem s1) with (fill_frame x0 x1 loc (k_mem s)). rewrite E. exact Hl. }
  unfold ioctl_spec in *. rewrite Z.eqb_refl in *.
  rewrite (add_spec_fresh _ b) in E2, B2, F2 by exact E.
  exists s2. unfold kbind, kmod. fold s1. rewrite E2. split; [done|]. unfold then_, after_request.
  destruct (add_spec b bl) as [[r bl'] d]. cbn [fst snd] in *. split; [done|].
  assert (F2' : fstep glyph_writes d s1 s2) by (eapply fstep_weaken; [exact F2|]; intros y [?|?]; [by left|right; by right]).
  split; [|split].
  - rewrite app_nil_r. apply (fstep_trans p _ [] d s s1); [|done]. eapply fstep_weaken; [exact F1|]. intros y ?. right. by left.
  - apply (lengths_fstep p stk len Pl _ _ _ _ F2); [|done]. intros y Hy.
    destruct (stack_own _ _ Pl _ _ (pc_frame _ _ Pl) ltac:(lia)) as (_ & Hn & _). pose proof (pc_frame_apart _ _ Pl) as Ha.
    unfold disjoint in Ha. destruct (Z.lt_ge_cases y (frame_struct + ON_LENGTH)); [by left|].
    destruct (Z.lt_ge_cases y (frame_struct + COUNTDOWN)); [|by right]. exfalso. fields. destruct Hy as [Hy|Hy]; [|lia].
    apply (Hn (y - frame_struct)); [lia|]. by replace (frame_struct + (y - frame_struct)) with y by lia.
  - etrans; [apply (quiet_mem p (fill_frame x0 x1 loc (k_mem s)))|exact Q2].
Qed.

(** *** The rows against the text *)

Lemma row_from_nil loc : row_from loc [] [] = [].
Proof. done. Qed.

Lemma row_from_cons loc l0 l1 : l0 <> [] \/ l1 <> [] ->
  row_from loc l0 l1 = glyph loc (hd 32 l0) (hd 32 l1) ++ row_from (loc + 1) (tail l0) (tail l1).
Proof.
  intros Hne. unfold row_from.
  replace (length l0 `max` length l1)%nat with (Datatypes.S (length (tail l0) `max` length (tail l1)))
    by (destruct l0, l1; simpl; try lia; destruct Hne; done).
  cbn [seq flat_map]. f_equal.
  - rewrite Z.add_0_r. by destruct l0, l1.
  - rewrite <- seq_shift, flat_map_concat_map, map_map, <- flat_map_concat_map. apply flat_map_ext. intros c.
    replace (loc + Z.of_nat (Datatypes.S c)) with (loc + 1 + Z.of_nat c) by lia. by destruct l0, l1; destruct c.
Qed.

Lemma add_all_app l1 l2 bl : add_all (l1 ++ l2) bl = then_ (add_all l2) (add_all l1 bl).
Proof.
  revert bl. induction l1 as [|b l1 IH]; intros bl; cbn [app add_all].
  - unfold then_. simpl. by destruct (add_all l2 bl).
  - unfold then_. destruct (after_request (add_spec b bl)) as [bl1 d1]. cbn [fst snd]. rewrite IH. unfold then_.
    destruct (add_all l1 bl1) as [bl2 d2]. cbn [fst snd]. destruct (add_all l2 bl2). by rewrite app_assoc.
Qed.

Definition text (line : option (list Z)) : list Z := default [] line.

Lemma advance_text line :
  (forall x, line = Some x -> ~ (10 ∈ x)) ->
  shown (advance line).1 = hd 32 (text line) /\ text (advance line).2 = tail (text line) /\
  ((advance line).1 = 10 <-> text line = []).
Proof.
  intros H. destruct line as [[|x l]|]; cbn; try done. specialize (H _ eq_refl). apply not_elem_of_cons in H as [H _].
  unfold shown. rewrite (proj2 (Z.eqb_neq x 10)) by done. split_and!; done.
Qed.

Lemma source_line s fd nd c eof line aft : source p s fd nd c eof line aft -> forall x, line = Some x -> ~ (10 ∈ x).
Proof. intros H x ->. apply H. Qed.

(** Both pictures in place: the characters, the files and the list. *)
Record pictures (fd0 fd1 nd0 nd1 eof0 eof1 : Z) (line0 line1 aft0 aft1 : option (list Z)) (bl : list blink) (s : kst)
    : Prop := {
  pi_run : running p s;
  pi_lengths : lengths s;
  pi_list : listed (k_mem s) bl;
  pi_0 : source p s fd0 nd0 c0 eof0 line0 aft0;
  pi_1 : source p s fd1 nd1 c1 eof1 line1 aft1
}.

(** From [s] to [s'] nothing but [scratch], the two descriptors and, by drawing [d], the
    screen has changed. *)
Record frames (fd0 fd1 : Z) (d : list (Z * Z)) (s s' : kst) : Prop := {
  fr_step : fstep scratch d s s';
  fr_fds : forall fd, fd <> fd0 -> fd <> fd1 -> fd_at p fd s' = fd_at p fd s;
  fr_input : same_input s s'
}.

Lemma frames_trans fd0 fd1 d1 d2 s1 s2 s3 :
  frames fd0 fd1 d1 s1 s2 -> frames fd0 fd1 d2 s2 s3 -> frames fd0 fd1 (d1 ++ d2) s1 s3.
Proof.
  intros [F1 O1 I1] [F2 O2 I2]. split; [by eapply fstep_trans| |by etrans]. intros fd Ha Hb. by rewrite O2, O1.
Qed.

(** The next character of each picture. *)
Lemma next_chars fd0 fd1 nd0 nd1 eof0 eof1 line0 line1 aft0 aft1 bl s :
  fd0 <> fd1 -> pictures fd0 fd1 nd0 nd1 eof0 eof1 line0 line1 aft0 aft1 bl s ->
  exists s1 s2 e0 e1, next_char fd0 c0 eof0 s = Ret e0 s1 /\ next_char fd1 c1 eof1 s1 = Ret e1 s2 /\
    pictures fd0 fd1 nd0 nd1 e0 e1 (advance line0).2 (advance line1).2 aft0 aft1 bl s2 /\
    ldb (k_mem s2) c0 = (advance line0).1 /\ ldb (k_mem s2) c1 = (advance line1).1 /\ frames fd0 fd1 [] s s2.
Proof.
  intros Hne [R Ls B So0 So1]. pose proof (stack_window _ _ Pl _ _ (pc_c0 _ _ Pl) ltac:(lia)) as W0.
  pose proof (stack_window _ _ Pl _ _ (pc_c1 _ _ Pl) ltac:(lia)) as W1. pose proof (pc_chars _ _ Pl) as Hc.
  destruct (next_char_ok p s fd0 nd0 c0 eof0 line0 aft0 R So0 W0) as (s1 & e0 & E1 & So0' & X0 & F1 & O1 & I1).
  assert (So1' : source p s1 fd1 nd1 c1 eof1 line1 aft1)
    by (eapply source_fstep; [exact F1|congruence|done|apply O1; congruence|done]).
  destruct (next_char_ok p s1 fd1 nd1 c1 eof1 line1 aft1 (us_run _ _ _ _ _ (fp_step _ _ _ _ _ F1)) So1' W1)
    as (s2 & e1 & E2 & So1'' & X1 & F2 & O2 & I2).
  assert (So0'' : source p s2 fd0 nd0 c0 e0 (advance line0).2 aft0)
    by (eapply source_fstep; [exact F2|congruence|done|by apply O2|done]).
  destruct (pc_c0 _ _ Pl), (pc_c1 _ _ Pl), (pc_c0_apart _ _ Pl) as [A1 _], (pc_c1_apart _ _ Pl) as [A2 _].
  assert (F12 : fstep (fun a => a = c0 \/ a = c1) [] s s2).
  { apply (fstep_trans p _ [] [] s s1); [eapply fstep_weaken; [exact F1|by left]|eapply fstep_weaken; [exact F2|by right]]. }
  exists s1, s2, e0, e1. split_and!; try done.
  - split; try done; [apply F2| |].
    + apply (lengths_fstep p stk len Pl _ _ _ _ F12); [|done]. unfold disjoint in *. fields. lia.
    + eapply (listed_fstep p stk len Pl); [|exact F12|exact B]. cbv beta. intros x. lia.
  - rewrite <- X0. apply (fp_rest _ _ _ _ _ F2); [done|congruence].
  - split; [eapply fstep_weaken; [exact F12|]; cbv beta; intros x Hx; right; right; lia| |by etrans].
    intros fd Ha Hb. by rewrite O2, O1.
Qed.

Lemma frame_row_ok fuel fd0 fd1 nd0 nd1 row col eof0 eof1 line0 line1 aft0 aft1 bl s :
  fd0 <> fd1 -> pictures fd0 fd1 nd0 nd1 eof0 eof1 line0 line1 aft0 aft1 bl s ->
  (length (text line0) < fuel)%nat -> (length (text line1) < fuel)%nat ->
  Forall (fun b => 0 < location b) (row_from (row * 80 + col + 40) (text line0) (text line1)) ->
  let x := add_all (row_from (row * 80 + col + 40) (text line0) (text line1)) bl in
  exists s' e0 e1, frame_row fuel fd0 fd1 row col eof0 eof1 s = Ret (e0, e1) s' /\
    pictures fd0 fd1 nd0 nd1 e0 e1 None None aft0 aft1 x.1 s' /\ frames fd0 fd1 x.2 s s'.
Proof.
  intros Hne. revert s col eof0 eof1 line0 line1 bl.
  induction fuel as [|fuel IH]; intros s col eof0 eof1 line0 line1 bl Pi Hf0 Hf1 Hl; [lia|].
  destruct (next_chars _ _ _ _ _ _ _ _ _ _ _ _ Hne Pi) as (s1 & s2 & e0 & e1 & E1 & E2 & P2 & X0 & X1 & Fr2).
  destruct (advance_text line0 (source_line _ _ _ _ _ _ _ (pi_0 _ _ _ _ _ _ _ _ _ _ _ _ Pi))) as (S0 & T0 & N0).
  destruct (advance_text line1 (source_line _ _ _ _ _ _ _ (pi_1 _ _ _ _ _ _ _ _ _ _ _ _ Pi))) as (S1 & T1 & N1).
  cbn [frame_row]. unfold kbind at 1. rewrite E1. unfold kbind at 1. rewrite E2. cbv zeta. rewrite X0, X1.
  set (y0 := (advance line0).1) in *. set (y1 := (advance line1).1) in *.
  assert (Hy : 0 <= y0 < 256 /\ 0 <= y1 < 256) by (rewrite <- X0, <- X1; split; apply (ldb_range (k_mem s2))).
  destruct Hy as [Hy0 Hy1]. destruct ((y0 =? 10) && (y1 =? 10)) eqn:Eb.
  - apply andb_true_iff in Eb as [Ea%Z.eqb_eq Eb%Z.eqb_eq]. apply N0 in Ea. apply N1 in Eb.
    rewrite Ea, Eb, row_from_nil. cbn [add_all fst snd].
    exists s2, e0, e1. split; [done|]. split; [|done].
    destruct line0 as [[|? ?]|], line1 as [[|? ?]|]; cbn [advance snd] in P2; try done.
  - assert (Hor : text line0 <> [] \/ text line1 <> []).
    { apply andb_false_iff in Eb as [Eb|Eb]; apply Z.eqb_neq in Eb; [left|right]; tauto. }
    revert Hl. rewrite (row_from_cons _ _ _ Hor), <- S0, <- S1, <- T0, <- T1.
    replace (row * 80 + col + 40 + 1) with (row * 80 + (col + 1) + 40) by lia.
    intros [Hl1 Hl2]%Forall_app. rewrite add_all_app.
    destruct (glyph_step s2 bl y0 y1 (row * 80 + col + 40)) as (s3 & E3 & B3 & F3 & L3 & Q3); try done; [apply P2..|].
    destruct (add_all (glyph _ _ _) bl) as [bl3 d3]. cbn [fst snd] in B3, F3.
    assert (P3 : pictures fd0 fd1 nd0 nd1 e0 e1 (advance line0).2 (advance line1).2 aft0 aft1 bl3 s3).
    { split; [apply F3|done|done| |].
      - eapply source_fstep; [exact F3|exact glyph_writes_c0| |apply Q3|apply P2].
        exact (stack_window _ _ Pl _ _ (pc_c0 _ _ Pl) ltac:(lia)).
      - eapply source_fstep; [exact F3|exact glyph_writes_c1| |apply Q3|apply P2].
        exact (stack_window _ _ Pl _ _ (pc_c1 _ _ Pl) ltac:(lia)). }
    destruct (IH s3 (col + 1) e0 e1 (advance line0).2 (advance line1).2 bl3 P3) as (s' & e0' & e1' & E' & P' & Fr');
      [rewrite T0|rewrite T1|done|]; [by destruct (text line0), (text line1); simpl in *; (lia || destruct Hor)..|].
    exists s', e0', e1'. unfold then_. cbn [fst snd].
    destruct (add_all (row_from _ _ _) bl3) as [bl4 d4]. cbn [fst snd] in *.
    split; [|split; [exact P'|]].
    + rewrite <- E'. unfold kbind at 1. by rewrite E3.
    + apply (frames_trans _ _ d3 d4 s s3); [|done]. apply (frames_trans _ _ [] d3 s s2); [done|].
      split; [eapply fstep_weaken; [exact F3|exact glyph_writes_scratch]|intros; apply Q3|apply Q3].
Qed.

(** *** Row after row *)

Fixpoint cut (t : list Z) : list Z * option (list Z) :=
  match t with
  | [] => ([], None)
  | c :: t' => if c =? 10 then ([], Some t') else let '(x, a) := cut t' in (c :: x, a)
  end.

(** What is left of a picture, at the beginning of a row. *)
Definition start (rem : option (list Z)) : option (list Z) * option (list Z) :=
  match rem with Some t => (Some (cut t).1, (cut t).2) | None => (None, None) end.

Definition lines_of (rem : option (list Z)) : list (list Z) := match rem with Some t => lines t | None => [] end.

Lemma cut_spec t : t = (cut t).1 ++ after (cut t).2 /\ ~ (10 ∈ (cut t).1) /\ lines t = (cut t).1 :: lines_of (cut t).2.
Proof.
  assert (H : t = (cut t).1 ++ after (cut t).2 /\ ~ (10 ∈ (cut t).1)).
  { induction t as [|c t IH]; [split; [done|apply not_elem_of_nil]|]. cbn [cut].
    destruct (Z.eqb_spec c 10) as [->|Hn]; [split; [done|apply not_elem_of_nil]|].
    destruct (cut t) as [x a]. cbn [fst snd] in *. destruct IH as [-> IH]. split; [done|].
    apply not_elem_of_cons. split; [congruence|done]. }
  destruct H as [E Hn]. split; [done|]. split; [done|]. rewrite E at 1. destruct (cut t) as [x [t'|]]; cbn [fst snd after lines_of] in *.
  - by apply lines_cons.
  - rewrite app_nil_r. by apply lines_last.
Qed.

Lemma start_lines rem : text (start rem).1 = hd [] (lines_of rem) /\ lines_of (start rem).2 = tail (lines_of rem).
Proof. destruct rem as [t|]; [|done]. destruct (cut_spec t) as (_ & _ & E). cbn [start text lines_of fst snd default from_option id]. by rewrite E. Qed.

Lemma rows_from_cons row ls0 ls1 : ls0 <> [] \/ ls1 <> [] ->
  rows_from row ls0 ls1 = row_from (row * 80 + 40) (hd [] ls0) (hd [] ls1) ++ rows_from (row + 1) (tail ls0) (tail ls1).
Proof.
  intros Hne. unfold rows_from.
  replace (length ls0 `max` length ls1)%nat with (Datatypes.S (length (tail ls0) `max` length (tail ls1)))
    by (destruct ls0, ls1; simpl; try lia; destruct Hne; done).
  cbn [seq flat_map]. f_equal.
  - rewrite Z.add_0_r. by destruct ls0, ls1.
  - rewrite <- seq_shift, flat_map_concat_map, map_map, <- flat_map_concat_map. apply flat_map_ext. intros c.
    replace ((row + Z.of_nat (Datatypes.S c)) * 80 + 40) with ((row + 1 + Z.of_nat c) * 80 + 40) by lia.
    by destruct ls0, ls1; destruct c.
Qed.

Lemma row_end_ok s fd nd c eof aft :
  running p s -> 2 <= fd <= 7 -> source p s fd nd c eof None aft -> on_stack stk len c 1 ->
  exists s', row_end fd c eof s = Ret tt s' /\ source p s' fd nd c eof (start aft).1 (start aft).2 /\
    fstep (fun x => x = c) [] s s' /\ (forall fd', fd' <> fd -> fd_at p fd' s' = fd_at p fd' s) /\ same_input s s'.
Proof.
  intros R Hfd So Hc. pose proof (stack_window _ _ Pl _ _ Hc ltac:(lia)) as W. unfold row_end.
  assert (St : forall v, 0 <= v < 256 -> let s1 := set_mem (stb (k_mem s) c v) s in
    fstep (fun x => x = c) [] s s1 /\ ldb (k_mem s1) c = v).
  { intros v Hv s1. split; [|by rewrite <- (u8_small v Hv); apply ldb_stb_eq].
    eapply fstep_weaken; [apply (stack_stores p stk len Pl s _ c 1 R Hc); [lia|apply only_changes_first; lia]|].
    cbv beta. lia. }
  destruct aft as [t|].
  - destruct So as (_ & -> & Sr). destruct (St 48 ltac:(lia)) as [F V]. cbn [Z.eqb negb].
    eexists. split; [reflexivity|]. split_and!; try done. cbn [start fst snd].
    destruct (cut_spec t) as (E & Hn & _). unfold source. rewrite V. split_and!; try done. rewrite <- E.
    eapply stream_step; [apply F|done|done].
  - destruct So as (_ & ->). destruct (St 10 ltac:(lia)) as [F V]. cbn [Z.eqb negb]. unfold kbind at 1, kmod.
    set (s1 := set_mem _ s) in *. pose proof (us_run _ _ _ _ _ (fp_step _ _ _ _ _ F)) as R1. unfold kbind.
    assert (Hi : i32 fd = fd) by (apply i32_small; lia).
    destruct (Z.eq_dec (flag (fd_at p fd s1)) 0) as [Hz|Hz].
    + rewrite (user_close_bad p) by (try done; rewrite Hi; left; right; right; done).
      exists s1. split; [done|]. by split_and!.
    + destruct (user_close p 0 0 s1 fd R1 Hfd Hz) as (s2 & E & U & Vw & Mm & _ & O & I). rewrite E.
      exists s2. split; [done|]. split_and!; try done.
      * cbn [start source fst snd]. rewrite Mm. by split.
      * apply (fstep_trans p _ [] [] s s1); [done|].
        split; [by apply ustep_0|intros; by rewrite Mm|by rewrite Vw].
Qed.

Lemma start_eof s fd nd c eof rem : source p s fd nd c eof (start rem).1 (start rem).2 ->
  eof = match rem with Some _ => 0 | None => 1 end /\ ((length (lines_of rem) <= 0)%nat \/ lines_of rem = [] -> rem = None).
Proof.
  destruct rem as [t|]; cbn [start fst snd].
  - intros (_ & H & _). split; [done|]. destruct (cut_spec t) as (_ & _ & E). cbn [lines_of]. rewrite E. simpl. intros [?|?]; [lia|done].
  - intros (_ & H). done.
Qed.

(** The two characters are all that is written between rows. *)
Lemma chars_step s s' bl : fstep (fun a => a = c0 \/ a = c1) [] s s' -> lengths s -> listed (k_mem s) bl ->
  lengths s' /\ listed (k_mem s') bl /\ forall x, x = c0 \/ x = c1 -> scratch x.
Proof.
  intros F Ls B. destruct (pc_c0 _ _ Pl), (pc_c1 _ _ Pl), (pc_c0_apart _ _ Pl) as [A1 _], (pc_c1_apart _ _ Pl) as [A2 _].
  split_and!.
  - apply (lengths_fstep p stk len Pl _ _ _ _ F); [|done]. unfold disjoint in *. fields. lia.
  - eapply (listed_fstep p stk len Pl); [|exact F|exact B]. cbv beta. intros x. lia.
  - intros x Hx. right; right. lia.
Qed.

Lemma frame_rows_ok n fuel fd0 fd1 nd0 nd1 row eof0 eof1 rem0 rem1 bl s :
  fd0 <> fd1 -> 2 <= fd0 <= 7 -> 2 <= fd1 <= 7 ->
  pictures fd0 fd1 nd0 nd1 eof0 eof1 (start rem0).1 (start rem1).1 (start rem0).2 (start rem1).2 bl s ->
  (length (lines_of rem0) <= n)%nat -> (length (lines_of rem1) <= n)%nat ->
  Forall (fun l => (length l < fuel)%nat) (lines_of rem0) -> Forall (fun l => (length l < fuel)%nat) (lines_of rem1) ->
  (0 < fuel)%nat ->
  Forall (fun b => 0 < location b) (rows_from row (lines_of rem0) (lines_of rem1)) ->
  let x := add_all (rows_from row (lines_of rem0) (lines_of rem1)) bl in
  exists s', frame_rows n fuel fd0 fd1 row eof0 eof1 s = Ret tt s' /\ running p s' /\ listed (k_mem s') x.1 /\
    frames fd0 fd1 x.2 s s'.
Proof.
  intros Hne Hr0 Hr1. revert row eof0 eof1 rem0 rem1 bl s.
  induction n as [|n IH]; intros row eof0 eof1 rem0 rem1 bl s Pi Hn0 Hn1 Hf0 Hf1 Hfu Hl.
  all: destruct (start_eof _ _ _ _ _ _ (pi_0 _ _ _ _ _ _ _ _ _ _ _ _ Pi)) as [E0 M0].
  all: destruct (start_eof _ _ _ _ _ _ (pi_1 _ _ _ _ _ _ _ _ _ _ _ _ Pi)) as [E1 M1].
  { assert (rem0 = None) as -> by (apply M0; by left). assert (rem1 = None) as -> by (apply M1; by left). subst. exists s. split; [done|]. split; [apply Pi|]. split; [apply Pi|].
    split; [apply fstep_refl, Pi|done|done]. }
  destruct (decide (lines_of rem0 = [] /\ lines_of rem1 = [])) as [[Z0 Z1]|Hz].
  { assert (rem0 = None) as -> by (apply M0; by right). assert (rem1 = None) as -> by (apply M1; by right). subst. exists s. split; [done|]. split; [apply Pi|]. split; [apply Pi|].
    split; [apply fstep_refl, Pi|done|done]. }
  assert (Hor : lines_of rem0 <> [] \/ lines_of rem1 <> []).
  { destruct (decide (lines_of rem0 = [])); [right; tauto|by left]. }
  cbn [frame_rows]. replace (negb ((eof0 =? 0) || (eof1 =? 0))) with false
    by (destruct rem0, rem1; cbn in E0, E1; subst; done || by destruct Hor).
  revert Hl. rewrite (rows_from_cons _ _ _ Hor). destruct (start_lines rem0) as [S0 T0]. destruct (start_lines rem1) as [S1 T1].
  rewrite <- S0, <- S1, <- T0, <- T1. intros [Hl1 Hl2]%Forall_app. rewrite add_all_app.
  replace (row * 80 + 40) with (row * 80 + 0 + 40) in * by lia.
  destruct (frame_row_ok fuel fd0 fd1 nd0 nd1 row 0 eof0 eof1 _ _ _ _ bl s Hne Pi) as (s1 & e0 & e1 & F1 & P1 & Fr1).
  { rewrite S0. destruct Hf0; simpl; lia. } { rewrite S1. destruct Hf1; simpl; lia. } { exact Hl1. }
  unfold kbind at 1. rewrite F1. cbn [fst snd].
  destruct (add_all (row_from _ _ _) bl) as [bl1 d1]. cbn [fst snd] in *.
  destruct P1 as [R1 L1 B1 So0 So1].
  destruct (row_end_ok s1 fd0 nd0 c0 e0 _ R1 Hr0 So0 (pc_c0 _ _ Pl)) as (s2 & F2 & So0' & St2 & O2 & I2).
  pose proof (pc_chars _ _ Pl) as Hc.
  assert (So1' : source p s2 fd1 nd1 c1 e1 None (start rem1).2).
  { eapply source_fstep; [exact St2|congruence| |by apply O2|done]. exact (stack_window _ _ Pl _ _ (pc_c1 _ _ Pl) ltac:(lia)). }
  destruct (row_end_ok s2 fd1 nd1 c1 e1 _ (us_run _ _ _ _ _ (fp_step _ _ _ _ _ St2)) Hr1 So1' (pc_c1 _ _ Pl))
    as (s3 & F3 & So1'' & St3 & O3 & I3).
  assert (So0'' : source p s3 fd0 nd0 c0 e0 (start (start rem0).2).1 (start (start rem0).2).2).
  { eapply source_fstep; [exact St3|congruence| |by apply O3|done]. exact (stack_window _ _ Pl _ _ (pc_c0 _ _ Pl) ltac:(lia)). }
  assert (F13 : fstep (fun a => a = c0 \/ a = c1) [] s1 s3).
  { apply (fstep_trans p _ [] [] s1 s2); [eapply fstep_weaken; [exact St2|by left]|eapply fstep_weaken; [exact St3|by right]]. }
  destruct (chars_step s1 s3 bl1 F13 L1 B1) as (L3 & B3 & G3).
  assert (P3 : pictures fd0 fd1 nd0 nd1 e0 e1 (start (start rem0).2).1 (start (start rem1).2).1 (start (start rem0).2).2
    (start (start rem1).2).2 bl1 s3) by (split; try done; apply F13).
  destruct (IH (row + 1) e0 e1 (start rem0).2 (start rem1).2 bl1 s3 P3) as (s' & F' & R' & B' & Fr'); rewrite ?T0, ?T1; try done.
  { destruct (lines_of rem0); simpl in *; lia. } { destruct (lines_of rem1); simpl in *; lia. }
  { by destruct Hf0. } { by destruct Hf1. } { by rewrite T0, T1 in Hl2. }
  exists s'. unfold kbind at 1. rewrite F2. unfold kbind. rewrite F3, F'. split; [done|]. split; [done|].
  rewrite T0, T1 in *. unfold then_. cbn [fst snd]. destruct (add_all (rows_from _ _ _) bl1) as [bl2 d2]. cbn [fst snd] in *.
  split; [done|]. apply (frames_trans _ _ d1 d2 s s3); [|done]. rewrite <- (app_nil_r d1). apply (frames_trans _ _ d1 [] s s1); [done|].
  split; [eapply fstep_weaken; [exact F13|exact G3]| |by etrans]. intros fd Ha Hb. by rewrite O3, O2.
Qed.

End FrameRows.

(** ** The whole program *)

Section Main.
Context `{D : Device} `{Sy : Symbols} `{TF : TrapFrame} `{TO : !TrapOk} `{L : Literals} `{FS : FishSymbols} `{FL : FishLocals}.
Context (p stk len : Z) (Pl : places stk len).
Implicit Types s : kst.

#[local] Abbreviation fstep := (fstep p).
#[local] Abbreviation scratch := (scratch stk len).
#[local] Abbreviation listed := (listed MB128 MB4 user_screen).
#[local] Abbreviation frames := (frames p stk len).

Lemma user_vidmap s a : running p s -> in_window a 4 -> ece391_vidmap a s = Ret 0 (set_mem (st32 (k_mem s) a user_screen) s).
Proof.
  intros R (W1 & _ & W3). unfold ece391_vidmap, int80, syscall_wrapper. cbn -[i32 u32 enter leave sys_vidmap].
  unfold lift, sys_vidmap. rewrite (u32_small a) by (unfold MB128, MB132 in *; lia).
  rewrite (proj2 (Z.ltb_ge a MB128)), (proj2 (Z.ltb_ge MB132 a)) by lia. cbn [orb].
  pose proof (ru_if _ _ R) as Hif. destruct s. simpl in *. by subst.
Qed.

(** Strings out of reach of the writes survive. *)
Definition safe_literal (s : kst) (a : Z) (l : list Z) : Prop :=
  literal_at s a l /\ forall i, 0 <= i <= Z.of_nat (length l) -> ~ scratch (a + i).

Lemma literal_fstep d s s' a l : fstep scratch d s s' -> safe_literal s a l -> safe_literal s' a l.
Proof.
  intros F [(C & Hne & Hl & W) Hs]. split; [|done]. split_and!; try done.
  assert (E : forall i, 0 <= i <= Z.of_nat (length l) -> at_ (k_mem s') a i = at_ (k_mem s) a i).
  { intros i Hi. destruct W as (W1 & W2 & W3). apply (fp_rest _ _ _ _ _ F); [split_and!; lia|by apply Hs]. }
  destruct C as (C1 & C2 & C3). split_and!; [done| |by rewrite E by lia]. intros i Hi. rewrite E by lia. by apply C2.
Qed.

Lemma safe_small s a l : safe_literal s a l -> small_arg a /\ a <> 0.
Proof. intros [(_ & _ & _ & (?&?&?)) _]. unfold small_arg, MB128, MB132 in *. lia. Qed.

Lemma safe_entry b n s s' a l :
  ustep p b n s s' -> safe_literal s' a l -> read_dentry_by_name (at_ (k_mem s') a) s' = entry_named s l.
Proof.
  intros U [(C & _) _]. rewrite (entry_named_eq s' l); [|intros; apply (ldb_range (k_mem s'))|done].
  by eapply entry_named_step.
Qed.

Lemma least_free_fd s n :
  2 <= n <= 7 -> (forall j, 2 <= j < n -> flag (fd_at p j s) <> 0) -> flag (fd_at p n s) = 0 ->
  free_fd 6 2 (file_desc_tb (pcb_at p s)) = Some n.
Proof.
  intros Hn Hu Hf. pose proof (free_fd_spec 6 2 (file_desc_tb (pcb_at p s))) as H. fold (fd_at p) in H.
  destruct (free_fd 6 2 _) as [j|].
  - destruct H as (H1 & H2 & H3). f_equal. destruct (Z.lt_trichotomy j n) as [Hl|[He|Hg]]; [|done|].
    + destruct (Hu j); [lia|done].
    + destruct (H3 n); [lia|done].
  - destruct (H n); [lia|done].
Qed.

(** Opening a picture. *)
Lemma open_picture s0 s a l d fd :
  ustep p MB128 MB4 s0 s -> safe_literal s a l -> entry_named s0 l = Some d -> d_ft d = 2 ->
  d_ind d < nnod (k_mem s0) (k_boot s0) -> free_fd 6 2 (file_desc_tb (pcb_at p s)) = Some fd ->
  exists s', ece391_open a s = Ret fd s' /\ stream p s' fd (d_ind d) (rest_of s0 (d_ind d) 0) /\ k_mem s' = k_mem s /\
    fstep scratch [] s s' /\ (forall fd', fd' <> fd -> fd_at p fd' s' = fd_at p fd' s) /\ same_input s s' /\ 2 <= fd <= 7.
Proof.
  intros U Sl Hd Hft Hn Hfree. pose proof (us_run _ _ _ _ _ U) as R.
  destruct (user_open_fds p 0 0 s a d fd (mkFd F_file (d_ind d) 0 1) R) as (s' & E & F & U' & M & V & Hfd & O & I);
    [eapply safe_small; done|by rewrite (safe_entry _ _ _ _ _ _ U Sl)|lia|done|unfold fd_for; by rewrite Hft|].
  pose proof (ru_wf _ _ (us_from _ _ _ _ _ U)) as Hw. pose proof (us_image _ _ _ _ _ U) as Hi.
  assert (Hnd : 0 <= d_ind d < nnod (k_mem s0) (k_boot s0)) by (split; [apply ld32_range|done]).
  assert (Hlen : 0 <= file_len (k_mem s0) (k_boot s0) (d_ind d))
    by (pose proof (ld32_range (k_mem s0) (inode_addr (k_boot s0) (d_ind d))); unfold file_len; lia).
  exists s'. split_and!; try done; try lia.
  - exists 0. split.
    + split; [done|done| |]; rewrite (us_boot _ _ _ _ _ U'), M, (us_boot _ _ _ _ _ U).
      * by rewrite (image_header _ _ _ Hw Hi).
      * rewrite (same_image_len _ _ _ _ Hw Hi Hnd). lia.
    + unfold rest_of. rewrite (us_boot _ _ _ _ _ U'), M, (us_boot _ _ _ _ _ U), (same_image_len _ _ _ _ Hw Hi Hnd).
      apply same_image_slice; try done. lia.
  - split; [by apply ustep_0; eapply ustep_sub; [exact U'|lia..]|intros; by rewrite M|by rewrite V].
Qed.

(** How long the lines of a text are. *)
Lemma lines_bound l : (length (lines l) <= Datatypes.S (length l))%nat /\ Forall (fun x => (length x <= length l)%nat) (lines l).
Proof.
  unfold lines. assert (H : forall acc, (length (lines_from acc l) <= Datatypes.S (length l))%nat /\
    Forall (fun x => (length x <= length acc + length l)%nat) (lines_from acc l)).
  { induction l as [|c l IH]; intros acc; cbn [lines_from length].
    - split; [done|]. repeat constructor. lia.
    - destruct (c =? 10).
      + destruct (IH []) as [H1 H2]. split; [simpl; lia|]. constructor; [lia|]. eapply Forall_impl; [exact H2|]. simpl. lia.
      + destruct (IH (acc ++ [c])) as [H1 H2]. split; [lia|]. eapply Forall_impl; [exact H2|]. simpl.
        intros x. rewrite length_app. simpl. lia. }
  apply H.
Qed.

(** *** [add_frames] *)

(** The program's files. *)
Record files (s : kst) (d0 d1 : dentry) (t0 t1 : list Z) : Prop := {
  fi_0 : entry_named s (str "frame0.txt") = Some d0 /\ d_ft d0 = 2 /\ d_ind d0 < nnod (k_mem s) (k_boot s);
  fi_1 : entry_named s (str "frame1.txt") = Some d1 /\ d_ft d1 = 2 /\ d_ind d1 < nnod (k_mem s) (k_boot s);
  fi_text0 : rest_of s (d_ind d0) 0 = t0;
  fi_text1 : rest_of s (d_ind d1) 0 = t1;
  fi_name0 : safe_literal s file0 (str "frame0.txt");
  fi_name1 : safe_literal s file1 (str "frame1.txt")
}.

Lemma first_stores s bl :
  running p s -> listed (k_mem s) bl ->
  let m := st16 (st16 (stb (stb (k_mem s) c0 48) c1 48) (frame_struct + ON_LENGTH) 15) (frame_struct + OFF_LENGTH) 15 in
  let s' := set_mem m s in
  fstep scratch [] s s' /\ lengths s' /\ ldb m c0 = 48 /\ ldb m c1 = 48 /\ listed m bl.
Proof.
  intros R B m s'. destruct (pc_c0_apart _ _ Pl) as [A0 _]. destruct (pc_c1_apart _ _ Pl) as [A1 _]. unfold disjoint in *.
  pose proof (stack_window _ _ Pl _ _ (pc_c0 _ _ Pl) ltac:(lia)) as W0. pose proof (stack_window _ _ Pl _ _ (pc_c1 _ _ Pl) ltac:(lia)) as W1.
  set (m1 := stb (k_mem s) c0 48). set (s1 := set_mem m1 s). set (m2 := stb m1 c1 48). set (s2 := set_mem m2 s).
  pose proof (stack_stores p stk len Pl s m1 c0 1 R (pc_c0 _ _ Pl) ltac:(lia) (only_changes_first _ _ _ 1 ltac:(lia))) as F1.
  fold s1 in F1. pose proof (us_run _ _ _ _ _ (fp_step _ _ _ _ _ F1)) as R1.
  pose proof (stack_stores p stk len Pl s1 m2 c1 1 R1 (pc_c1 _ _ Pl) ltac:(lia) (only_changes_first _ _ _ 1 ltac:(lia))) as F2.
  change (set_mem m2 s1) with s2 in F2. pose proof (us_run _ _ _ _ _ (fp_step _ _ _ _ _ F2)) as R2.
  pose proof (window_region p s2 _ _ R2 (stack_window _ _ Pl _ _ (pc_frame _ _ Pl) ltac:(lia))) as Rg.
  change (k_mem s2) with m2 in Rg.
  assert (C : only_changes m2 m frame_struct 16).
  { unfold m. fold m1 m2. rewrite !st16_at. fields. repeat (eapply only_changes_trans; [|apply only_changes_stb; lia]). apply only_changes_refl. }
  pose proof (stack_stores p stk len Pl s2 m frame_struct 16 R2 (pc_frame _ _ Pl) ltac:(lia) C) as F3.
  change (set_mem m s2) with s' in F3.
  assert (Wk : forall a k s s' d, on_stack stk len a k -> fstep (fun x => a <= x < a + k) d s s' ->
    fstep (fun x => stk <= x < stk + len) d s s').
  { intros a k u u' d [H1 H2] F. eapply fstep_weaken; [exact F|]. cbv beta. lia. }
  assert (F : fstep (fun x => stk <= x < stk + len) [] s s').
  { apply (fstep_trans p _ [] [] s s2 s'); [apply (fstep_trans p _ [] [] s s1 s2)|];
      (eapply Wk; [|eassumption]); apply Pl. }
  split; [eapply fstep_weaken; [exact F|]; intros x Hx; right; by right|].
  split; [|split; [|split; [|exact (listed_fstep p stk len Pl _ s s' bl (fun _ H => H) F B)]]].
  - unfold lengths, s'. cbn [k_mem set_mem]. unfold m. fold m1 m2. fields. get_fields. done.
  - change m with (k_mem s'). rewrite (fp_rest _ _ _ _ _ F3), (fp_rest _ _ _ _ _ F2) by (done || (cbv beta; pose proof (pc_chars _ _ Pl); lia)).
    exact (ldb_stb_eq (k_mem s) c0 48 I).
  - change m with (k_mem s'). rewrite (fp_rest _ _ _ _ _ F3) by (done || (cbv beta; lia)). exact (ldb_stb_eq m1 c1 48 I).
Qed.

Lemma add_frames_ok fuel s d0 d1 t0 t1 bl rtc_fd :
  running p s -> listed (k_mem s) bl -> files s d0 d1 t0 t1 ->
  (forall j, 2 <= j <= 7 -> flag (fd_at p j s) = if j =? 2 then 1 else 0) ->
  (length t0 < fuel)%nat -> (length t1 < fuel)%nat -> Forall (fun b => 0 < location b) (frame_blinks t0 t1) ->
  let x := add_all (frame_blinks t0 t1) bl in
  exists s', add_frames fuel file0 file1 rtc_fd s = Ret tt s' /\ listed (k_mem s') x.1 /\ frames 3 4 x.2 s s'.
Proof.
  intros R B [(N0 & T0 & I0) (N1 & T1 & I1) X0 X1 L0 L1] Hfd H0 H1 Hl x.
  destruct (first_stores s bl R B) as (F1 & Ls1 & C0 & C1 & B1). set (s1 := set_mem _ s) in *.
  assert (Hf1 : forall j, 2 <= j <= 7 -> flag (fd_at p j s1) = if j =? 2 then 1 else 0) by exact Hfd.
  destruct (open_picture s s1 file0 _ d0 3 (fp_step _ _ _ _ _ F1) (literal_fstep _ _ _ _ _ F1 L0) N0 T0 I0)
    as (s2 & E2 & S2 & M2 & F2 & O2 & Q2 & _).
  { apply least_free_fd; [lia|intros j Hj; assert (j = 2) as -> by lia|]; by rewrite Hf1 by lia. }
  pose proof (fstep_trans p _ [] [] s s1 s2 F1 F2) as F12. rewrite app_nil_l in F12.
  destruct (open_picture s s2 file1 _ d1 4 (fp_step _ _ _ _ _ F12) (literal_fstep _ _ _ _ _ F12 L1) N1 T1 I1)
    as (s3 & E3 & S3 & M3 & F3 & O3 & Q3 & _).
  { apply least_free_fd; [lia|intros j Hj|].
    - destruct (Z.eq_dec j 3) as [->|]; [destruct S2 as (q & Ff & _); by rewrite (ff_fd _ _ _ _ _ Ff)|].
      assert (j = 2) as -> by lia. rewrite O2 by done. by rewrite Hf1 by lia.
    - rewrite O2 by done. by rewrite Hf1 by lia. }
  pose proof (fstep_trans p _ [] [] s s2 s3 F12 F3) as F13. rewrite app_nil_l in F13.
  destruct (lines_bound t0) as [K0 K0']. destruct (lines_bound t1) as [K1 K1'].
  destruct (cut_spec t0) as (Ct0 & Cn0 & _). destruct (cut_spec t1) as (Ct1 & Cn1 & _).
  rewrite X0 in S2. rewrite X1 in S3.
  assert (P3 : pictures p 3 4 (d_ind d0) (d_ind d1) 0 0 (start (Some t0)).1 (start (Some t1)).1 (start (Some t0)).2 (start (Some t1)).2 bl s3).
  { split; [apply F3| | | |].
    - unfold lengths. rewrite M3, M2. exact Ls1.
    - rewrite M3, M2. exact B1.
    - cbn [start fst snd source]. rewrite M3, M2. split; [intros E10; discriminate (eq_trans (eq_sym C0) E10)|].
      split_and!; try done. rewrite <- Ct0. eapply stream_step; [apply F3|by apply O3|done].
    - cbn [start fst snd source]. rewrite M3, M2. split; [intros E10; discriminate (eq_trans (eq_sym C1) E10)|].
      split_and!; try done. by rewrite <- Ct1. }
  destruct (frame_rows_ok p stk len Pl fuel fuel 3 4 _ _ 0 0 0 (Some t0) (Some t1) bl s3 ltac:(done) ltac:(done) ltac:(done) P3)
    as (s4 & E4 & R4 & B4 & Fr4).
  { cbn [lines_of]. lia. } { cbn [lines_of]. lia. }
  { eapply Forall_impl; [exact K0'|]. simpl. lia. } { eapply Forall_impl; [exact K1'|]. simpl. lia. } { lia. } { exact Hl. }
  exists s4. split; [|split; [exact B4|]].
  - unfold add_frames. unfold kbind at 1, kmod. fold s1. unfold kbind at 1. rewrite E2. unfold kbind at 1. cbn [Z.ltb Z.compare].
    unfold kret at 1. unfold kbind at 1. rewrite E3. unfold kbind at 1. cbn [Z.ltb Z.compare]. unfold kret at 1. exact E4.
  - rewrite <- (app_nil_l x.2). apply (frames_trans p stk len 3 4 [] x.2 s s3); [|exact Fr4].
    split; [exact F13| |by etrans]. intros fd Ha Hb. by rewrite O3, O2.
Qed.

Lemma files_fstep d s s' d0 d1 t0 t1 : fstep scratch d s s' -> files s d0 d1 t0 t1 -> files s' d0 d1 t0 t1.
Proof.
  intros F [(N0 & T0 & I0) (N1 & T1 & I1) X0 X1 L0 L1]. pose proof (fp_step _ _ _ _ _ F) as U.
  pose proof (ru_wf _ _ (us_from _ _ _ _ _ U)) as Hw. pose proof (us_image _ _ _ _ _ U) as Hi.
  assert (Er : forall e, d_ind e < nnod (k_mem s) (k_boot s) -> rest_of s' (d_ind e) 0 = rest_of s (d_ind e) 0).
  { intros e He. assert (Hn : 0 <= d_ind e < nnod (k_mem s) (k_boot s)) by (split; [apply ld32_range|done]).
    unfold rest_of. rewrite (us_boot _ _ _ _ _ U), (same_image_len _ _ _ _ Hw Hi Hn). apply same_image_slice; try done.
    pose proof (ld32_range (k_mem s) (inode_addr (k_boot s) (d_ind e))). unfold file_len in *. lia. }
  split; rewrite ?(entry_named_step _ _ _ _ _ _ U), ?(us_boot _ _ _ _ _ U), ?(image_header _ _ _ Hw Hi), ?Er by done; try done;
    by eapply literal_fstep.
Qed.

(** *** Waiting *)

(** Between two ticks at 32 Hz, with [n] clock interrupts to come. *)
Record stage (fd : Z) (n : nat) (bl : list blink) (d : list (Z * Z)) (s0 s : kst) : Prop := {
  sg_step : fstep scratch d s0 s;
  sg_list : listed (k_mem s) bl;
  sg_fd : clock_fd p s fd;
  sg_rtc : k_rtc s = mkRtc 0 0 32;
  sg_irqs : k_irqs s = replicate n IRQ_rtc
}.

Lemma stage_run fd n bl d s0 s : stage fd n bl d s0 s -> running p s.
Proof. intros G. apply (sg_step _ _ _ _ _ _ G). Qed.

(** A quiet step of the program. *)
Lemma stage_quiet fd n bl bl' d d' s0 s s' :
  stage fd n bl d s0 s -> fstep scratch d' s s' -> quiet p s s' -> listed (k_mem s') bl' ->
  stage fd n bl' (d ++ d') s0 s'.
Proof.
  intros [F B (Hr & C1 & C2) K I] F' [O (_ & I1 & _ & I2)] B'. split; try done; [by eapply fstep_trans| |congruence|congruence].
  unfold clock_fd. by rewrite O.
Qed.

Lemma tick_stage fd n bl d s0 s :
  stage fd n bl d s0 s -> (32 <= n)%nat ->
  exists s', wait_tick fd s = Ret tt s' /\ stage fd (n - 32) (map tick bl) (d ++ flat_map drawn bl) s0 s'.
Proof.
  intros G Hn. pose proof (stage_run _ _ _ _ _ _ G) as R. destruct G as [F B Fd K I].
  assert (Ok : rtc_ok s) by (split; rewrite K; [simpl; lia|exists 32; split; [by exists 5|done]]).
  pose proof (user_read_rtc p 0 0 s fd garbage n R Fd (pc_garbage _ _ Pl) Ok) as H.
  rewrite K in H. specialize (H eq_refl I). cbv zeta in H. cbn [rtc_max_count rtc_counter] in H. change (32 - 0) with 32 in H.
  rewrite (proj2 (Z.ltb_ge _ _)) in H by lia. destruct H as (s1 & E1 & U1 & V1 & M1 & P1 & I1 & K1).
  assert (F1 : fstep scratch [] s s1).
  { split; [by apply ustep_0|intros; by rewrite M1|by rewrite V1]. }
  destruct (tick_step p stk len Pl s1 bl) as (s2 & E2 & B2 & Q2 & F2); [apply U1|by rewrite M1|].
  exists s2. unfold wait_tick, kbind. rewrite E1. split; [done|].
  assert (G1 : stage fd (n - 32) bl (d ++ []) s0 s1).
  { split; [by eapply fstep_trans|by rewrite M1|by apply (clock_fd_pcbs p s)|done|exact I1]. }
  rewrite app_nil_r in G1. eapply stage_quiet; [exact G1| |exact Q2|exact B2].
  eapply fstep_weaken; [exact F2|]. intros x Hx. by left.
Qed.

Lemma ticks_stage k i fd n bl d s0 s :
  stage fd n bl d s0 s -> (32 * k <= n)%nat ->
  exists s', k_up k i (fun _ _ => wait_tick fd) tt s = Ret tt s' /\
    stage fd (n - 32 * k) (ticks k bl).1 (d ++ (ticks k bl).2) s0 s'.
Proof.
  revert i n bl d s. induction k as [|k IH]; intros i n bl d s G Hn.
  - exists s. split; [done|]. cbn [ticks fst snd]. by rewrite app_nil_r, Nat.sub_0_r.
  - destruct (tick_stage _ _ _ _ _ _ G ltac:(lia)) as (s1 & E1 & G1).
    destruct (IH (i + 1) _ _ _ _ G1 ltac:(lia)) as (s2 & E2 & G2). exists s2. cbn [k_up ticks]. unfold kbind. rewrite E1.
    split; [exact E2|]. unfold then_. cbn [fst snd]. destruct (ticks k (map tick bl)) as [bl' d']. cbn [fst snd] in *.
    rewrite app_assoc. by replace (n - 32 * Datatypes.S k)%nat with (n - 32 - 32 * k)%nat by lia.
Qed.

Lemma wait_stage fd n x s0 s :
  stage fd n x.1 x.2 s0 s -> (3200 <= n)%nat ->
  exists s', wait fd s = Ret tt s' /\ let y := then_ (ticks 100) x in stage fd (n - 3200) y.1 y.2 s0 s'.
Proof.
  intros G Hn. destruct (ticks_stage 100 0 fd n x.1 x.2 s0 s G ltac:(lia)) as (s' & E & G').
  exists s'. split; [exact E|]. unfold then_. destruct (ticks 100 x.1) as [bl d]. exact G'.
Qed.

Lemma request_stage fd n x s0 s arg cmd b :
  stage fd n x.1 x.2 s0 s -> RTC_ADD <= cmd <= RTC_SYNC -> cmd <> RTC_FIND ->
  (cmd = RTC_ADD -> on_stack stk len arg 16 /\ disjoint arg 16 (main_ebp - 16) 16 /\ holds (k_mem s) arg b /\ 0 < location b) ->
  exists r s', ioctl main_ebp arg cmd s = Ret r s' /\
    let y := then_ (fun bl => after_request (ioctl_spec cmd arg b bl)) x in stage fd n y.1 y.2 s0 s'.
Proof.
  intros G Hc Hf Ha. pose proof (stage_run _ _ _ _ _ _ G) as R.
  destruct (ioctl_step p stk len Pl s x.1 main_ebp arg cmd b R (sg_list _ _ _ _ _ _ G) Hc Hf (pc_main_tmp _ _ Pl) Ha)
    as (s' & E & B & Q & F). eexists _, s'. split; [exact E|]. unfold then_, after_request.
  eapply stage_quiet; [exact G| |exact Q|exact B]. eapply fstep_weaken; [exact F|].
  destruct (pc_main_tmp _ _ Pl). intros y [Hy|Hy]; [by left|right; right; lia].
Qed.

(** *** [main] *)

Lemma fill_main_ok s : running p s ->
  let m := fill_main (k_mem s) in
  fstep scratch [] s (set_mem m s) /\ fresh (blink_at m main_struct) = fresh letter /\
  (forall bl, listed (k_mem s) bl -> listed m bl).
Proof.
  intros R m. pose proof (window_region p s _ _ R (stack_window _ _ Pl _ _ (pc_main _ _ Pl) ltac:(lia))) as Rg.
  assert (C : only_changes (k_mem s) m main_struct 16).
  { unfold m, fill_main. rewrite !st16_at. fields.
    repeat (eapply only_changes_trans; [|apply only_changes_stb; lia]). apply only_changes_refl. }
  pose proof (stack_stores p stk len Pl s m main_struct 16 R (pc_main _ _ Pl) ltac:(lia) C) as F. destruct (pc_main _ _ Pl) as [M1 M2].
  split; [eapply fstep_weaken; [exact F|]; cbv beta; intros x Hx; right; right; lia|]. split.
  - assert (E : ld16 m (main_struct + LOCATION) = 540 /\ ldb m (main_struct + ON_CHAR) = 73 /\ ldb m (main_struct + OFF_CHAR) = 77 /\
      ld16 m (main_struct + ON_LENGTH) = 7 /\ ld16 m (main_struct + OFF_LENGTH) = 6).
    { unfold m, fill_main. fields. get_fields. done. }
    destruct E as (E1 & E2 & E3 & E4 & E5). unfold blink_at, fresh. cbn [location on_char off_char on_length off_length].
    by rewrite E1, E2, E3, E4, E5.
  - intros bl B. change (listed (k_mem (set_mem m s)) bl). eapply (listed_fstep p stk len Pl); [|exact F|exact B]. cbv beta. intros x. lia.
Qed.

(** The array is cleared and the screen found: the list is empty. *)
Lemma first_steps s :
  running p s -> ld32 (k_mem s) mp1_list_head = 0 ->
  exists s1 s2, s1 = set_mem (ece391_memset blink_array 0 32000 (k_mem s)) s /\
    s2 = set_mem (st32 (k_mem s1) vmem_base_addr user_screen) s1 /\ mp1_set_video_mode s1 = Ret user_screen s2 /\ listed (k_mem s2) [] /\ fstep scratch [] s s2 /\ quiet p s s2.
Proof.
  intros R H0. pose proof (pc_layout _ _ Pl) as Ly. set (s1 := set_mem (ece391_memset blink_array 0 32000 (k_mem s)) s).
  destruct (memset_ok MB128 MB4 user_screen (k_mem s) blink_array 32000 (user_page p s R) (ly_array _ _ Ly)) as [T Tz].
  change (ece391_memset blink_array 0 32000 (k_mem s)) with (k_mem s1) in T, Tz.
  assert (F1 : fstep scratch [] s s1).
  { apply (fstep_moves p scratch [] s (k_mem s1) R). eapply touches_moves; [exact T|]. intros x Hx. left. by right. }
  pose proof (us_run _ _ _ _ _ (fp_step _ _ _ _ _ F1)) as R1.
  pose proof (proj1 (inside_window _ _) (ly_base _ _ Ly)) as Wb.
  set (s2 := set_mem (st32 (k_mem s1) vmem_base_addr user_screen) s1).
  destruct (ustep_mem p vmem_base_addr 4 s1 _ R1 Wb (only_changes_st32 (k_mem s1) vmem_base_addr user_screen)) as [U2 V2]. fold s2 in U2, V2.
  pose proof (fstep_ustep p _ _ _ _ U2 Wb V2) as F2. pose proof (us_run _ _ _ _ _ U2) as R2.
  exists s1, s2. split; [done|]. split; [done|]. assert (Eb : ld32 (k_mem s2) vmem_base_addr = user_screen).
  { exact (ld32_st32 (k_mem s1) vmem_base_addr user_screen (window_region p s1 _ _ R1 Wb)). }
  assert (K : forall a k, inside MB128 MB4 a k -> disjoint a k vmem_base_addr 4 -> forall i, 0 <= i < k ->
    ldb (k_mem s2) (a + i) = ldb (k_mem s1) (a + i)).
  { intros a k (I1 & _ & I2) Hd i Hi. apply (fp_rest _ _ _ _ _ F2).
    - unfold in_window, MB128, MB132, MB4 in *. lia.
    - unfold disjoint in Hd. cbv beta. lia. }
  split; [|split; [|split]].
  - unfold mp1_set_video_mode, kbind. rewrite (user_vidmap s1 vmem_base_addr R1 Wb). fold s2. cbn [Z.eqb]. by rewrite Eb.
  - exists []. split; [|done]. apply blinks_empty; [by apply (user_page p)|done| |].
    + rewrite (ld32_ext (k_mem s1)), <- H0; [|apply (K _ 4); [exact (ly_head _ _ Ly)|exact (ly_head_base _ _ Ly)]].
      apply (touches_ld32 _ _ _ _ _ _ _ _ _ T); [exact (ly_head _ _ Ly)|exact (ly_head_array _ _ Ly)].
    + intros i Hi. rewrite (K blink_array 32000); [by apply Tz|exact (ly_array _ _ Ly)| |done].
      destruct (ly_base_array _ _ Ly); [by right|by left].
  - apply (fstep_trans p scratch [] [] s s1 s2 F1). eapply fstep_weaken; [exact F2|]. intros x Hx. right. by left.
  - etrans; [exact (quiet_mem p (ece391_memset blink_array 0 32000 (k_mem s)) s)|].
    exact (quiet_mem p (st32 (k_mem s1) vmem_base_addr user_screen) s1).
Qed.

(** A word of [main]'s. *)
Lemma ret_store s v bl : running p s -> listed (k_mem s) bl ->
  let s' := set_mem (st32 (k_mem s) ret_val v) s in
  fstep scratch [] s s' /\ listed (k_mem s') bl /\ ld32 (k_mem s') ret_val = u32 v /\ in_window ret_val 4.
Proof.
  intros R B s'. pose proof (stack_window _ _ Pl _ _ (pc_ret _ _ Pl) ltac:(lia)) as W.
  pose proof (stack_stores p stk len Pl s _ ret_val 4 R (pc_ret _ _ Pl) ltac:(lia) (only_changes_st32 (k_mem s) ret_val v)) as F.
  fold s' in F. destruct (pc_ret _ _ Pl) as [M1 M2].
  split; [eapply fstep_weaken; [exact F|]; cbv beta; intros x Hx; right; right; lia|].
  split; [eapply (listed_fstep p stk len Pl); [|exact F|exact B]; cbv beta; intros x; lia|].
  split; [|done]. exact (ld32_st32 (k_mem s) ret_val v (window_region p s _ _ R W)).
Qed.

(** What [main] is started with. *)
Record started_fish (s : kst) (d2 d0 d1 : dentry) (t0 t1 : list Z) (n : nat) : Prop := {
  sf_run : running p s;
  sf_closed : forall j, 2 <= j <= 7 -> flag (fd_at p j s) = 0;
  sf_head : ld32 (k_mem s) mp1_list_head = 0;
  sf_rtc : entry_named s (str "rtc") = Some d2 /\ d_ft d2 = 0;
  sf_name : safe_literal s (lit (str "rtc")) (str "rtc");
  sf_files : files s d0 d1 t0 t1;
  sf_places : Forall (fun b => 0 < location b) (frame_blinks t0 t1);
  sf_irqs : k_irqs s = replicate n IRQ_rtc
}.

Lemma main_starts fuel s d2 d0 d1 t0 t1 n :
  started_fish s d2 d0 d1 t0 t1 n -> (length t0 < fuel)%nat -> (length t1 < fuel)%nat ->
  let x := add_all (frame_blinks t0 t1) [] in
  exists s', fish_main fuel s = main_animate 2 s' /\ stage 2 n x.1 x.2 s s'.
Proof.
  intros [R Hcl Hh (Hd & Hft) Sl Fi Hpl Hq] H0 H1 x.
  destruct (first_steps s R Hh) as (s1 & s2 & E1 & _ & E2 & B2 & F2 & Q2 & I2).
  pose proof (us_run _ _ _ _ _ (fp_step _ _ _ _ _ F2)) as R2.
  pose proof (literal_fstep _ _ _ _ _ F2 Sl) as Sl2. destruct (safe_small _ _ _ Sl2) as [Sm Nz].
  destruct (user_open_rtc p 0 0 s2 (lit (str "rtc")) d2 2 R2 Sm Nz) as (s3 & E3 & C3 & U3 & M3 & V3 & Q3 & O3 & Fo3).
  { by rewrite (safe_entry _ _ _ _ _ _ (fp_step _ _ _ _ _ F2) Sl2). } { done. }
  { apply least_free_fd; [lia|lia|]. rewrite Q2. apply Hcl. lia. }
  assert (F3 : fstep scratch [] s2 s3) by (split; [by apply ustep_0|intros; by rewrite M3|by rewrite V3]).
  pose proof (fstep_trans p _ [] [] s s2 s3 F2 F3) as F03. rewrite app_nil_l in F03.
  destruct (add_frames_ok fuel s3 d0 d1 t0 t1 [] 2) as (s4 & E4 & B4 & [F4 O4 I4]);
    [apply F03|by rewrite M3|by eapply files_fstep| |done|done|done|].
  { intros j Hj. destruct (Z.eqb_spec j 2) as [->|Hne]; [apply C3|]. rewrite Fo3 by done. rewrite Q2. by apply Hcl. }
  fold x in B4, F4. pose proof (us_run _ _ _ _ _ (fp_step _ _ _ _ _ F4)) as R4.
  destruct (ret_store s4 32 x.1 R4 B4) as (F5 & B5 & V5 & W5). set (s5 := set_mem _ s4) in *.
  pose proof (us_run _ _ _ _ _ (fp_step _ _ _ _ _ F5)) as R5.
  assert (C5 : clock_fd p s5 2).
  { destruct C3 as (C & C'). split; [done|]. change (fd_at p 2 s5) with (fd_at p 2 s4). by rewrite O4. }
  pose proof (user_write_rtc p s5 2 ret_val R5 C5 W5) as E6. rewrite V5 in E6. change (u32 32) with 32 in E6.
  specialize (E6 ltac:(by exists 5)). destruct I4 as (_ & K4 & _ & T4).
  change (k_rtc s5) with (k_rtc s4) in E6. rewrite T4, O3 in E6. change (1024 / 32) with 32 in E6.
  set (s6 := set_rtc (mkRtc 0 0 32) s5) in *.
  destruct (ustep_rest p 0 0 s5 s6 R5) as [U6 V6]; try done; [apply R5|].
  assert (F6 : fstep scratch [] s5 s6) by (split; [by apply ustep_0|done|by rewrite V6]).
  destruct (ret_store s6 4 x.1 (us_run _ _ _ _ _ U6) B5) as (F7 & B7 & _ & _). set (s7 := set_mem _ s6) in *.
  exists s7. split.
  - unfold fish_main. change (STRUCT_SIZE * 80 * 25) with 32000. unfold kbind at 1, kmod at 1. rewrite <- E1.
    unfold kbind at 1. rewrite E2. change (user_screen =? 0) with false. cbv iota. unfold kbind at 1. rewrite E3.
    unfold kbind at 1. rewrite E4. unfold kbind at 1, kmod at 1. fold s5. unfold kbind at 1. rewrite E6. unfold kbind, kmod. by fold s7.
  - split; [|exact B7|exact C5|done|].
    + pose proof (fstep_trans p _ [] [] _ _ _ (fstep_trans p _ [] [] _ _ _ F5 F6) F7) as F57. rewrite <- (app_nil_r x.2).
      eapply fstep_trans; [|exact F57]. rewrite <- (app_nil_l x.2). by eapply fstep_trans.
    + change (k_irqs s7) with (k_irqs s4). rewrite K4, Q3. destruct I2 as (_ & -> & _). done.
Qed.

Lemma request_add x arg b b' : fresh b = fresh b' ->
  then_ (fun bl => after_request (ioctl_spec RTC_ADD arg b bl)) x = then_ (fun bl => after_request (add_spec b' bl)) x.
Proof. intros E. unfold then_, ioctl_spec. rewrite Z.eqb_refl. by rewrite (add_spec_fresh b b') by done. Qed.

(** C19: the fish animation.  Started with its two pictures in the file system and enough
    ticks to come (twelve thousand eight hundred clock interrupts), the program returns 0,
    and the screen is then as it was before, with the characters of [animation] put on it
    in that order: those of the first picture as they are found; then, at each of four
    hundred ticks, those of the one picture where the count of their blink has run out
    and of the other picture the next time; meanwhile the letter I is added, set to the
    times of the blink at place 40 and removed again.  Neither the cursor nor a colour
    nor any other place changes. *)
Theorem fish_shows fuel s d2 d0 d1 t0 t1 n :
  started_fish s d2 d0 d1 t0 t1 n -> (length t0 < fuel)%nat -> (length t1 < fuel)%nat -> (4 * 3200 <= n)%nat ->
  exists s', fish_main fuel s = Ret 0 s' /\ scr_eq (view s') (scr_draw (animation t0 t1) (view s)) /\
    k_irqs s' = replicate (n - 4 * 3200) IRQ_rtc /\ fstep scratch (animation t0 t1) s s'.
Proof.
  intros St H0 H1 Hn. destruct (main_starts fuel s d2 d0 d1 t0 t1 n St H0 H1) as (s1 & E1 & G1). rewrite E1.
  unfold animation. set (x1 := add_all (frame_blinks t0 t1) []) in *.
  destruct (wait_stage 2 n x1 s s1 G1 ltac:(lia)) as (s2 & E2 & G2). set (x2 := then_ (ticks 100) x1) in *.
  destruct (fill_main_ok s2 (stage_run _ _ _ _ _ _ G2)) as (F3 & L3 & B3). set (s3 := set_mem (fill_main (k_mem s2)) s2) in *.
  assert (G3 : stage 2 (n - 3200) x2.1 x2.2 s s3).
  { rewrite <- (app_nil_r x2.2). eapply stage_quiet; [exact G2|exact F3|apply quiet_mem|apply B3, G2]. }
  destruct (request_stage 2 _ x2 s s3 main_struct RTC_ADD (blink_at (k_mem s3) main_struct) G3) as (r4 & s4 & E4 & G4);
    [unfold RTC_ADD, RTC_SYNC; lia|done| |].
  { intros _. split_and!; try apply Pl; [apply blink_at_holds|]. apply (f_equal location) in L3. cbn [fresh location letter] in L3.
    change (k_mem s3) with (fill_main (k_mem s2)). rewrite L3. lia. }
  rewrite (request_add x2 main_struct _ letter L3) in G4. set (x4 := then_ _ x2) in *.
  destruct (wait_stage 2 _ x4 s s4 G4 ltac:(lia)) as (s5 & E5 & G5). set (x5 := then_ (ticks 100) x4) in *.
  destruct (request_stage 2 _ x5 s s5 (40 * 65536 + 540) RTC_SYNC letter G5) as (r6 & s6 & E6 & G6);
    [unfold RTC_ADD, RTC_SYNC; lia|done|done|]. change (ioctl_spec RTC_SYNC ?a letter) with (sync_spec a) in G6.
  set (x6 := then_ _ x5) in *.
  destruct (wait_stage 2 _ x6 s s6 G6 ltac:(lia)) as (s7 & E7 & G7). set (x7 := then_ (ticks 100) x6) in *.
  destruct (request_stage 2 _ x7 s s7 540 RTC_REMOVE letter G7) as (r8 & s8 & E8 & G8);
    [unfold RTC_ADD, RTC_REMOVE, RTC_SYNC; lia|done|done|]. change (ioctl_spec RTC_REMOVE ?a letter) with (remove_spec a) in G8.
  set (x8 := then_ _ x7) in *.
  destruct (wait_stage 2 _ x8 s s8 G8 ltac:(lia)) as (s9 & E9 & G9). set (x9 := then_ (ticks 100) x8) in *.
  destruct (user_close p 0 0 s9 2 (stage_run _ _ _ _ _ _ G9)) as (s10 & E10 & U10 & V10 & M10 & _ & _ & (_ & I10 & _));
    [lia|destruct (sg_fd _ _ _ _ _ _ G9) as (_ & -> & _); done|].
  assert (F10 : fstep scratch x9.2 s s10).
  { rewrite <- (app_nil_r x9.2). eapply fstep_trans; [apply G9|]. split; [by apply ustep_0|intros; by rewrite M10|by rewrite V10]. }
  exists s10. split; [|split; [apply F10|split; [|exact F10]]].
  - unfold main_animate. unfold kbind at 1. rewrite E2. unfold kbind at 1, kmod. fold s3. unfold kbind at 1. rewrite E4.
    unfold kbind at 1. rewrite E5. change (Z.lor (Z.shiftl 40 16) (6 * 80 + 60)) with (40 * 65536 + 540).
    unfold kbind at 1. rewrite E6. unfold kbind at 1. rewrite E7. change (6 * 80 + 60) with 540.
    unfold kbind at 1. rewrite E8. unfold kbind at 1. rewrite E9. unfold kbind. by rewrite E10.
  - rewrite I10, (sg_irqs _ _ _ _ _ _ G9). f_equal. lia.
Qed.

End Main.
