(* ===== verification/Demo.v ===== *)
(** * A small machine

    Concrete instances for the witnesses: linker addresses, devices, a file system
    image with a directory and one program, and states of the kernel built from them
    by the kernel's own code.  Witness.v applies the theorems to them. *)

From stdpp Require Import base list numbers gmap strings.
From Stdlib Require Import ZArith Lia.
From S2P Require Import Prelude Mem LibStr State Pic Console Rtc Keyboard.
From S2P Require Import Irq Terminal Paging Filesystem Syscall Process Idt Pit Boot.
From S2P Require Import User Programs Shell SelfTest Counter Grep.

(** ** Machine *)

#[export] Instance demo_syms : Symbols :=
  {| sym_pageDir := 0x420000; sym_table := 0x421000; sym_shell := 0x422000 |}.

#[export] Instance demo_aligned : AlignedSymbols.
Proof. split; [done|simpl; lia]. Qed.

#[export] Instance demo_boot_syms : BootSymbols :=
  {| sym_ldt := 0x425000; sym_tss := 0x425100; sym_boot_shell := 0x424000 |}.

Definition seg0 : seg_desc := mkSeg 0 0 0 0 0 0 0 0 0 0 0 0 0.

#[export] Instance demo_handlers : HandlerAddrs := fun _ => 0x400100.

(** The user types [hx], Backspace, [i], Enter. *)
Definition demo_keys : list Z := [0x23; 0xA3; 0x2D; 0x0E; 0x17; 0x1C].

(** A keyboard that delivers [keys], next to the interrupt controllers. *)
Definition keyed (keys : list Z) : Device := fun log port =>
  if port =? 0x60 then zget 0 keys (Z.of_nat (length (kbd_log log))) else pic_only log port.

Lemma keyed_keyboard keys : Forall (fun c => 0 <= c < 256) keys -> @KeyboardDevice (keyed keys) keys.
Proof. by split. Qed.

Definition demo_dev : Device := keyed demo_keys.

Lemma demo_keyboard : @KeyboardDevice demo_dev demo_keys.
Proof. apply keyed_keyboard. repeat (constructor; [lia|]). constructor. Qed.

Lemma demo_pic : @PicDevice pic_only.
Proof. intros log cmd [-> | ->]; done. Qed.

(** ** Memory *)

Fixpoint store_all (l : list Z) (a : Z) (m : vmem) : vmem :=
  match l with [] => m | v :: l' => store_all l' (a + 1) (stb m a v) end.

Definition demo_boot : Z := 0x410000.

(** [.] and [shell], one inode of 48 bytes, one data block with an ELF header; the
    literals [shell] of kernel.c and syscall.c, a command line [shell ab], and what the
    boot loader reports: memory sizes, a command line, one module, one memory map entry. *)
Definition shell_name : list Z := [115; 104; 101; 108; 108].

Definition demo_image_mem : vmem :=
  let m := mkVmem ∅ false 0 in
  let m := st32 m demo_boot 2 in
  let m := st32 m (demo_boot + 4) 1 in
  let m := st32 m (demo_boot + 8) 1 in
  let m := store_all [46] (demo_boot + 64) m in
  let m := st32 m (demo_boot + 64 + 32) 1 in
  let m := store_all shell_name (demo_boot + 128) m in
  let m := st32 m (demo_boot + 128 + 32) 2 in
  let m := st32 m (demo_boot + 128 + 36) 0 in
  let m := st32 m (demo_boot + 4096) 48 in
  let m := st32 m (demo_boot + 4100) 0 in
  let m := store_all check_exe (demo_boot + 8192) m in
  st32 m (demo_boot + 8192 + 24) 0x08048000.

Definition demo_mbi : Z := 0x9000.

Definition demo_mem : vmem :=
  let m := demo_image_mem in
  let m := store_all shell_name 0x422000 m in
  let m := store_all shell_name 0x424000 m in
  let m := store_all (shell_name ++ [32; 97; 98; 10]) 0x423000 m in
  let m := st32 m demo_mbi 0x4D in
  let m := st32 m (demo_mbi + 4) 640 in
  let m := st32 m (demo_mbi + 16) 0x9100 in
  let m := st32 m (demo_mbi + 20) 1 in
  let m := st32 m (demo_mbi + 24) 0x9180 in
  let m := st32 m (demo_mbi + 44) 24 in
  let m := st32 m (demo_mbi + 48) 0x9200 in
  let m := store_all [107] 0x9100 m in
  let m := st32 m 0x9180 demo_boot in
  st32 m 0x9200 20.

(** After [page_init], on the boot stack; and the same inside process 0. *)
Definition demo_s : kst := page_init (set_boot demo_boot (set_mem demo_mem kst0)).
Definition demo_p : kst := set_esp 0x7FFF00 demo_s.

Lemma demo_pages : kernel_pages (k_pg demo_s) 0.
Proof. apply page_init_pages. done. Qed.

(** The image is well-formed in any memory with these words. *)
Lemma demo_wf_words m :
  nnod m demo_boot = 1 -> nblck m demo_boot = 1 -> nent m demo_boot = 2 ->
  file_len m demo_boot 0 = 48 -> ld32 m (inode_addr demo_boot 0 + 4 + 4 * 0) = 0 ->
  fs_wf m demo_boot.
Proof.
  intros E1 E2 E3 E4 E5.
  unfold fs_wf, image_size. rewrite E1, E2, E3. unfold demo_boot at 1 2, MB128.
  split; [lia|]. split; [lia|]. split; [lia|]. intros nd Hn. replace nd with 0 by lia.
  rewrite E4. split; [lia|]. intros p Hp. replace (p / 4096) with 0 by modlia. rewrite E5. lia.
Qed.

Lemma demo_wf : fs_wf (k_mem demo_s) demo_boot.
Proof. apply demo_wf_words; vm_compute; reflexivity. Qed.

Lemma demo_pcbs : pcbs_ok demo_s.
Proof. split; [reflexivity|]. vm_compute. repeat constructor. Qed.

Lemma demo_image : image_size (k_mem demo_s) demo_boot = 12288.
Proof. vm_compute. reflexivity. Qed.

Lemma demo_buf n : 0 <= n <= 0x1000 -> good_buf (k_mem demo_s) demo_boot 0x500000 n.
Proof.
  intros Hn. split; [apply region_kernel; unfold MB128; lia|].
  apply apart_sym, apart_kernel;
    [unfold demo_boot; lia|rewrite demo_image; unfold demo_boot; lia|unfold MB128; lia].
Qed.

(** What the witnesses need of a state, kept by changes to processes and stack. *)
Record demo_like (s : kst) : Prop := {
  dl_wf : fs_wf (k_mem s) (k_boot s);
  dl_size : k_boot s + image_size (k_mem s) (k_boot s) <= _8MB;
  dl_pages : kernel_pages (k_pg s) 0;
  dl_pcbs : pcbs_ok s;
  dl_buf : forall n, 0 <= n <= 0x1000 -> good_buf (k_mem s) (k_boot s) 0x500000 n
}.

Lemma demo_s_like : demo_like demo_s.
Proof.
  assert (E : k_boot demo_s = demo_boot) by (vm_compute; reflexivity).
  split; rewrite ?E; [exact demo_wf| |exact demo_pages|exact demo_pcbs|exact demo_buf].
  rewrite demo_image. unfold demo_boot, _8MB. lia.
Qed.

Lemma demo_like_esp e s : demo_like s -> demo_like (set_esp e s).
Proof. intros []. split; assumption. Qed.

Lemma demo_like_upd p f s :
  (forall q, length (file_desc_tb q) = 8%nat /\ length (args q) = 128%nat ->
     length (file_desc_tb (f q)) = 8%nat /\ length (args (f q)) = 128%nat) ->
  demo_like s -> demo_like (upd_pcb p f s).
Proof. intros Hf []. split; try assumption. by apply pcbs_ok_upd. Qed.

Lemma demo_like_fd p fd f s : demo_like s -> demo_like (upd_fd p fd f s).
Proof. apply demo_like_upd. intros q. simpl. by rewrite zset_length. Qed.

Lemma demo_p_like : demo_like demo_p.
Proof. apply demo_like_esp, demo_s_like. Qed.

#[global] Opaque demo_s.

(** Closes a closed arithmetic goal by evaluation. *)
Ltac evaluate := vm_compute; repeat split; (reflexivity || discriminate || auto).

Definition prog_name : list Z := padded 32 shell_name.
Definition prog_dentry : dentry := bytes_at (k_mem demo_s) (dir_addr demo_boot 1) 64.

Lemma demo_command : plain_command demo_s 0x423000 prog_name (padded 128 [97; 98]).
Proof. split; [exists 5; split; vm_compute; reflexivity|evaluate|evaluate]. Qed.

(** ** A process in user mode *)

#[export] Instance demo_trap : TrapFrame := {| depth := 256; trap_ebp := 0 |}.

#[export] Instance demo_trap_ok : TrapOk.
Proof. unfold TrapOk. simpl. lia. Qed.

(** The string literals of its program, 64 bytes apart at the bottom of the page. *)
Definition demo_texts : list (list Z) :=
  [str "391OS> "; str "exit"; str "no such command" ++ [10]; str "could not read arguments" ++ [10];
   str "."; str "Hi, what's your name? "; str "Hello, "] ++ syserr_texts ++ count_texts ++ grep_texts ++ [str "rtc"].

Fixpoint text_index (l : list Z) (ts : list (list Z)) (i : Z) : Z :=
  match ts with [] => i | t :: ts' => if bool_decide (l = t) then i else text_index l ts' (i + 1) end.

Definition text_addr (i : Z) : Z := MB128 + 0x100 + 64 * i.

#[export] Instance demo_lits : Literals := fun l => text_addr (text_index l demo_texts 0).

Fixpoint store_texts (ts : list (list Z)) (i : Z) (m : vmem) : vmem :=
  match ts with [] => m | t :: ts' => store_texts ts' (i + 1) (store_all t (text_addr i) m) end.

(** Process 0 in user mode, with no arguments and [n] keyboard interrupts to come. *)
Definition user_s (n : nat) : kst :=
  let s := map_program 0 demo_s in
  let s := upd_pcb 0 (init_pcb 0) s in
  let s := set_kernel_stack 0 s in
  let s := set_mem (store_texts demo_texts 0 (k_mem s)) s in
  set_irqs (replicate n IRQ_keyboard) (set_if true s).

Definition user_buf : Z := 0x8300000.

Lemma user_window n : 0 <= n <= 0x1000 -> in_window user_buf n.
Proof. unfold in_window, user_buf, MB128, MB132. lia. Qed.

Lemma user_words n : k_boot (user_s n) = demo_boot /\ nnod (k_mem (user_s n)) demo_boot = 1 /\
  nblck (k_mem (user_s n)) demo_boot = 1 /\ nent (k_mem (user_s n)) demo_boot = 2 /\
  file_len (k_mem (user_s n)) demo_boot 0 = 48 /\
  ld32 (k_mem (user_s n)) (inode_addr demo_boot 0 + 4 + 4 * 0) = 0.
Proof. split_and!; vm_compute; reflexivity. Qed.

Lemma user_running n : running 0 (user_s n).
Proof.
  destruct (user_words n) as (Eb & E1 & E2 & E3 & E4 & E5).
  assert (Es : image_size (k_mem (user_s n)) demo_boot = 12288) by (unfold image_size; by rewrite E1, E2).
  split; rewrite ?Eb, ?Es.
  - lia.
  - vm_compute. reflexivity.
  - split; [vm_compute; reflexivity|vm_compute; repeat constructor].
  - reflexivity.
  - vm_compute. reflexivity.
  - vm_compute. reflexivity.
  - vm_compute. by split.
  - vm_compute. by split.
  - by apply demo_wf_words.
  - unfold demo_boot, _8MB. lia.
  - unfold off_screen, demo_boot, MB128, VIDEO. lia.
  - evaluate.
Qed.

Lemma bytes_cstr (m : vmem) a l :
  Forall (fun c => c <> 0) l -> bytes_at m a (S (length l)) = l ++ [0] -> cstr (at_ m a) l.
Proof.
  intros Hz B. assert (G : forall i, 0 <= i <= Z.of_nat (length l) -> at_ m a i = zget 0 (l ++ [0]) i).
  { intros i Hi. unfold at_. rewrite <- B. symmetry. apply bytes_at_get. lia. }
  split_and!; [done|intros i Hi; by rewrite G, zget_app_l by lia|]. rewrite G by lia. apply zget_snoc.
Qed.

Lemma user_literal n l : l ∈ demo_texts -> literal_at (user_s n) (lit l) l.
Proof.
  intros H. unfold demo_texts, syserr_texts, count_texts, grep_texts in H. cbn [app] in H. repeat (rewrite elem_of_cons in H; destruct H as [-> | H]);
    [..|by rewrite elem_of_nil in H].
  all: split_and!; [apply bytes_cstr; [repeat (constructor; [done|]); constructor|vm_compute; reflexivity]|
    done|vm_compute; lia|unfold in_window; evaluate].
Qed.

(** What its keyboard is like. *)
Lemma user_ready n : keyboard_ready (user_s n).
Proof. split; [|evaluate]. split; [evaluate|]. split; [reflexivity|]. split; [evaluate|constructor]. Qed.
