(* ===== verification/Witness.v ===== *)
(** * Witnesses

    Each theorem with hypotheses, applied on the machine of Demo.v (or on a small store)
    where they hold. *)

From stdpp Require Import base list numbers gmap strings.
From Stdlib Require Import ZArith Lia.
From S2P Require Import Prelude Mem LibStr State Pic Console Rtc Keyboard.
From S2P Require Import Irq Terminal Paging Filesystem Syscall Process Idt Pit Boot.
From S2P Require Import User Programs Shell Session Demo.

Lemma execute_starts_witness :
  exists s', sys_execute 1 0 0x423000 demo_s =
    EnterUser 0x08048000 (MB132 - 4) s' /\ upage (k_mem s') = 0x800000.
Proof.
  destruct (execute_starts 0 0 0x423000 demo_s prog_name [97; 98]
    prog_dentry 0) as (s' & E & _ & U & _).
  - exact demo_command.
  - simpl. lia.
  - repeat constructor; lia.
  - exact (dl_pcbs _ demo_s_like).
  - exact (dl_pages _ demo_s_like).
  - exact (dl_wf _ demo_s_like).
  - exact (dl_size _ demo_s_like).
  - vm_compute. reflexivity.
  - vm_compute. reflexivity.
  - evaluate.
  - evaluate.
  - vm_compute. reflexivity.
  - evaluate.
  - exists s'. split; [exact E|exact U].
Defined.

(** Six keystrokes to come. *)
Definition typing : kst := set_irqs (replicate 6 IRQ_keyboard) kst0.

Lemma kbd0_ok : kbd_ok (k_kbd kst0).
Proof. split; [simpl; lia|]. split; [reflexivity|]. split; [simpl; lia|constructor]. Qed.


(** Process 0 with descriptor 2 open on the program's file. *)
Definition reading : kst := upd_fd 0 2 (fun _ => mkFd F_file 0 0 1) demo_p.

Lemma reading_like : demo_like reading.
Proof. apply demo_like_fd, demo_p_like. Qed.


(** Process 0 is running; the program becomes process 1. *)
Definition busy : kst := upd_pcb 0 (with_active 1) demo_p.

Lemma busy_like : demo_like busy.
Proof. apply demo_like_upd; [by intros q [? ?]|exact demo_p_like]. Qed.

Lemma halt_returns_to_caller_witness :
  exists s2 s3, sys_halt 1 0 7 s2 = Resume (k_esp busy) 0x7FFE00 7 s3 /\
    upage (k_mem s3) = 0x800000.
Proof.
  destruct (launch_ok busy 0 0 0x08048000 [97; 98] 0x7FFE00) as (s1 & _ & St & _ & _ & Hk & _).
  - exact (dl_pcbs _ busy_like).
  - exact (dl_pages _ busy_like).
  - exact (dl_wf _ busy_like).
  - exact (dl_size _ busy_like).
  - evaluate.
  - evaluate.
  - evaluate.
  - simpl. lia.
  - repeat constructor; lia.
  - change (find_pcb 6 0 (k_pcbs busy)) with 1 in *.
    destruct (halt_returns_to_caller 1 0x7FFE00 0 7 busy s1 (set_esp 0x7FDF00 s1) 1 [97; 98]
      (frame 1 + 0x87)) as (s3 & E & U & _).
    + exact St.
    + lia.
    + reflexivity.
    + reflexivity.
    + reflexivity.
    + exact (st_pcbs _ _ _ _ _ St).
    + exact Hk.
    + rewrite (st_esp0 _ _ _ _ _ St). evaluate.
    + exists (set_esp 0x7FDF00 s1), s3. split; [exact E|exact U].
Defined.

Lemma program_isolation_witness :
  0x800000 + 0x400000 <= 0xC00000 + 5 < 0xC00000 + 0x400000 /\
  ~ (frame 2 <= 0xC00000 + 5 < frame 2 + MB4).
Proof.
  destruct (program_isolation kst0 1 2 (MB128 + 5) (mkAcc (0xC00000 + 5) true true)) as (A & _ & B).
  - lia.
  - lia.
  - split; reflexivity.
  - vm_compute. reflexivity.
  - reflexivity.
  - split; [lia|]. apply B. discriminate.
Defined.

Lemma translation_agrees_witness :
  tr (k_mem (map_program 1 (page_init kst0))) (MB132 + 0xB8002) = 0xB8002.
Proof.
  apply (translation_agrees _ 1 kst0 (MB132 + 0xB8002) (mkAcc 0xB8002 true true)).
  - lia.
  - split; reflexivity.
  - reflexivity.
  - vm_compute. reflexivity.
Defined.

(** The two characters [Hi] at 0x500000. *)
Definition hi_s : kst := set_mem (store_all [72; 105] 0x500000 (mkVmem ∅ false 0)) kst0.

Lemma terminal_write_shows_witness :
  fst (terminal_write 1 0x500000 2 hi_s) = 2 /\
  pos (view (snd (terminal_write 1 0x500000 2 hi_s))) = 2.
Proof.
  pose proof (terminal_write_shows 1 0x500000 2 hi_s) as H.
  destruct (terminal_write 1 0x500000 2 hi_s) as [r s']. destruct H as (_ & _ & H).
  destruct (H (mkScr 2 (put_cell 1 105 (put_cell 0 72 (chr hi_s))))) as (R & [V _] & _).
  - lia.
  - discriminate.
  - split; simpl; lia.
  - apply apart_kernel; unfold VIDEO, MB128; lia.
  - reflexivity.
  - split; [exact R|exact V].
Defined.

Lemma keyboard_handler_refines_witness :
  ed_of (k_kbd (keyboard_handler (D := demo_dev) kst0)) =
    mkEd (mkMods false false false false false false) [104].
Proof.
  pose proof (keyboard_handler_refines (D := demo_dev) kst0 kbd0_ok) as H.
  destruct H as (_ & _ & E & _). exact E.
Defined.

(** The clock at 1024 Hz: every interrupt is a tick. *)
Definition fast_clock : kst := set_irqs [IRQ_keyboard; IRQ_rtc] (set_rtc (mkRtc 0 0 1) kst0).

Lemma fast_ok : rtc_ok fast_clock.
Proof. split; [simpl; lia|]. exists 1024. split; [exists 10; split; [lia|reflexivity]|reflexivity]. Qed.


(** A request for 32 Hz in memory. *)
Definition ask32 : kst := set_mem (st32 (mkVmem ∅ false 0) 0x500000 32) kst0.

Lemma rtc_write_rate_witness :
  fst (rtc_write 2 0x500000 4 ask32) = 4 /\
  ticks_seen (D := demo_dev) (1 * 1024) (snd (rtc_write 2 0x500000 4 ask32)) = 32.
Proof.
  pose proof (rtc_write_rate (D := demo_dev) 2 0x500000 4 ask32 eq_refl) as H. cbv zeta in H.
  replace (ld32 (k_mem ask32) 0x500000) with 32 in H by (vm_compute; reflexivity).
  destruct (rtc_write 2 0x500000 4 ask32) as [r s'].
  destruct H as [(_ & _ & _ & R & _ & T)|(N & _)].
  - split; [exact R|exact (T 1%nat)].
  - exfalso. apply N. split; [discriminate|]. split; [reflexivity|]. exists 5. split; [lia|reflexivity].
Defined.

Lemma sys_open_spec_witness :
  exists s', sys_open (demo_boot + 128) demo_p = Ret 2 s' /\ f_op (fd_at 0 2 s') = F_file.
Proof.
  pose proof (sys_open_spec demo_p 0 (demo_boot + 128) ltac:(vm_compute; reflexivity)
    (dl_pcbs _ demo_p_like)) as H.
  replace (read_dentry_by_name (at_ (k_mem demo_p) (demo_boot + 128)) demo_p) with (Some prog_dentry)
    in H by (vm_compute; reflexivity).
  destruct H as [(fd & f & s' & H1 & H2 & H3 & H4 & H5 & H6 & _)|[(_ & H & _)|[H _]]].
  - assert (fd = 2) as ->.
    { destruct (Z.eq_dec fd 2) as [|]; [assumption|]. exfalso. apply (H3 2); [lia|vm_compute; reflexivity]. }
    exists s'. split; [exact H5|]. rewrite H6. vm_compute in H4. injection H4 as <-. reflexivity.
  - exfalso. apply (H 2); [lia|vm_compute; reflexivity].
  - exfalso. vm_compute in H. discriminate.
Defined.

Lemma open_then_read_witness :
  exists s', sys_open (demo_boot + 128) demo_p = Ret 2 s' /\ open_file s' 0 2 0 0.
Proof.
  pose proof (sys_open_ok demo_p 0 (demo_boot + 128) prog_dentry ltac:(vm_compute; reflexivity)
    (dl_pcbs _ demo_p_like) ltac:(vm_compute; reflexivity)) as H.
  replace (free_fd 6 2 (file_desc_tb (pcb_at 0 demo_p))) with (Some 2) in H by (vm_compute; reflexivity).
  replace (fd_for prog_dentry (fd_at 0 2 demo_p)) with (Some (mkFd F_file 0 0 1)) in H
    by (vm_compute; reflexivity).
  cbv iota in H. destruct H as (s' & E & _). exists s'. split; [exact E|].
  destruct (open_then_read (D := demo_dev) demo_p 0 (demo_boot + 128) prog_dentry 2 s') as [O _].
  - vm_compute; reflexivity.
  - exact (dl_pcbs _ demo_p_like).
  - exact (dl_wf _ demo_p_like).
  - vm_compute; reflexivity.
  - vm_compute; reflexivity.
  - vm_compute; reflexivity.
  - exact E.
  - discriminate.
  - replace (d_ind prog_dentry) with 0 in O by (vm_compute; reflexivity). exact O.
Defined.


(** [ls], two spaces, [-l], newline. *)
Lemma parse_command_witness :
  let cmd := fun i => zget 0 [108; 115; 32; 32; 45; 108; 10] i in
  first_word 32 cmd 0 (replicate 32 0) = (2, padded 32 [108; 115]) /\
  parse_args 4096 cmd 2 = Some (padded 128 [45; 108]).
Proof.
  intros cmd. destruct (parse_command cmd [108; 115]) as [H _].
  - repeat constructor; lia.
  - simpl. lia.
  - intros j. unfold cmd. apply (zget_Forall (fun c => 0 <= c < 256)); [lia|]. repeat (constructor; [lia|]). constructor.
  - apply (H 1%nat [45; 108] 10); [intros i Hi; reflexivity|repeat constructor; lia|discriminate|left; reflexivity|simpl; lia].
Defined.


(** Process 0 started with the arguments [ab]. *)
Definition with_ab : kst := upd_pcb 0 (with_args (padded 128 [97; 98])) demo_p.

Lemma with_ab_like : demo_like with_ab.
Proof. apply demo_like_upd; [by intros q [? ?]|exact demo_p_like]. Qed.

Lemma getargs_spec_witness :
  exists m', sys_getargs 0x500000 16 with_ab = Ret 0 (set_mem m' with_ab) /\
    bytes_at m' 0x500000 3 = [97; 98; 0].
Proof.
  destruct (getargs_spec with_ab 0 [97; 98] 0x500000 16) as [H _].
  - vm_compute; reflexivity.
  - split_and!; [repeat constructor; discriminate| |vm_compute; reflexivity].
    intros i Hi. simpl in Hi. assert (i = 0 \/ i = 1) as [-> | ->] by lia; vm_compute; reflexivity.
  - simpl. lia.
  - lia.
  - lia.
  - lia.
  - apply region_kernel; unfold MB128; lia.
  - intros i j Hi Hj. lia.
  - destruct H as (m' & E & B & _); [split; [discriminate|simpl; lia]|].
    exists m'. split; [exact E|exact B].
Defined.

Lemma vidmap_spec_witness :
  exists m', sys_vidmap (MB128 + 16) demo_s = (0, set_mem m' demo_s) /\ ld32 m' (MB128 + 16) = 0x84B8000.
Proof.
  destruct (vidmap_spec demo_s (MB128 + 16)) as [H _].
  - vm_compute; reflexivity.
  - destruct H as (m' & E & L & _); [lia|unfold MB128, MB132; lia|].
    exists m'. split; [exact E|exact L].
Defined.

Lemma read_dentry_by_name_spec_witness :
  exists i, 0 <= i < 2 /\ prog_dentry = bytes_at (k_mem demo_s) (dir_addr (k_boot demo_s) i) 64.
Proof.
  pose proof (read_dentry_by_name_spec (at_ prog_name 0) demo_s (fun j => ldb_range _ _)) as H.
  cbv zeta in H.
  replace (read_dentry_by_name (at_ prog_name 0) demo_s) with (Some prog_dentry) in H
    by (vm_compute; reflexivity).
  replace (nent (k_mem demo_s) (k_boot demo_s)) with 2 in H by (vm_compute; reflexivity).
  destruct H as (i & Hi & E & _). exists i. split; [exact Hi|exact E].
Defined.

(** Descriptor 2 open on the directory, at the second entry. *)
Definition listing : kst := upd_fd 0 2 (fun _ => mkFd F_dir 0 1 1) demo_p.

Lemma listing_like : demo_like listing.
Proof. apply demo_like_fd, demo_p_like. Qed.

Lemma dir_read_spec_witness :
  exists s', dir_read 2 0x500000 32 listing = Ret 5 s' /\
    bytes_at (k_mem s') 0x500000 5 = shell_name.
Proof.
  destruct (dir_read_spec listing 0 2 0x500000 32 5) as [H _].
  - vm_compute; reflexivity.
  - exact (dl_pcbs _ listing_like).
  - lia.
  - lia.
  - apply region_kernel; unfold MB128; lia.
  - evaluate.
  - intros j Hj. assert (j = 0 \/ j = 1 \/ j = 2 \/ j = 3 \/ j = 4) as [-> | [-> | [-> | [-> | ->]]]] by lia; evaluate.
  - right. vm_compute; reflexivity.
  - destruct H as (s' & E & B & _); [evaluate|]. exists s'. split; [exact E|].
    etrans; [exact B|]. vm_compute; reflexivity.
Defined.

Lemma enable_disable_irq_witness :
  masked (disable_irq (D := pic_only) 9 (enable_irq (D := pic_only) 9 kst0)) 9 = true.
Proof.
  destruct (enable_disable_irq (D := pic_only) (PD := demo_pic) 9 kst0) as (_ & H & _).
  - lia.
  - split; reflexivity.
  - exact H.
Defined.


Lemma putc_same_row_witness : screen_x (k_con (putc 65 (set_con (mkCon 79 3) kst0))) = 0.
Proof.
  apply (putc_same_row (set_con (mkCon 79 3) kst0) 65); [split; simpl; lia|discriminate|discriminate].
Defined.

Lemma rtc_ops_ok_witness : rtc_ok (rtc_handler (D := demo_dev) fast_clock).
Proof. exact (proj1 (rtc_ops_ok (D := demo_dev) 0 0 0 fast_clock fast_ok)). Defined.


Lemma exceptions_report_witness :
  exists h, exception 0 7 9 = Some h /\ h kst0 = Some (puts_list (str "Divide error") kst0).
Proof. apply (exceptions_report 0 7 9 kst0). lia. Defined.

(** An array as a store: every index in range is a separate byte. *)
Lemma region_arr (l : list Z) a n : 0 <= a -> a + n <= Z.of_nat (length l) -> region l a n.
Proof. intros. split; [simpl; lia|]. intros i j Hi Hj E. change (a + i = a + j) in E. lia. Qed.

Lemma memmove_moves_witness :
  snd (memmove 1 0 3 [1; 2; 3; 4; 5]) = true /\ ldb (fst (memmove 1 0 3 [1; 2; 3; 4; 5])) 3 = 3.
Proof.
  destruct (memmove_moves 1 0 3 [1; 2; 3; 4; 5]) as [[_ F] D].
  - lia.
  - apply region_arr; simpl; lia.
  - split; [exact D|exact (F 2 ltac:(lia))].
Defined.

Lemma itoa_roundtrip_witness :
  exists st' txt, itoa 32 255 0 16 (replicate 33 7) = Some st' /\ cstr (at_ st' 0) txt /\
    undigits 16 (map digit_value (rev txt)) = 255.
Proof.
  destruct (itoa_roundtrip 255 0 16 (replicate 33 7)) as (st' & txt & E & _ & C & _ & U).
  - lia.
  - lia.
  - apply region_arr; simpl; lia.
  - exists st', txt. split; [exact E|]. split; [exact C|exact U].
Defined.

Lemma mem_routines_witness :
  ldb (memset 1 65 6 (replicate 8 0)) 6 = 65 /\
  ldb (memcpy 1 (fun _ i => 97 + i) 6 (replicate 8 0)) 6 = 102.
Proof.
  destruct (mem_routines 1 6 65 (fun _ i => 97 + i) (fun i => 97 + i) (replicate 8 0))
    as [[_ F] [_ G]].
  - lia.
  - lia.
  - lia.
  - apply region_arr; simpl; lia.
  - intros st' j _ _. reflexivity.
  - split; [exact (F 5 ltac:(lia))|exact (G 5 ltac:(lia))].
Defined.

(** The state boot.S hands to [entry]. *)
Definition booting : kst := set_mem demo_mem kst0.

Lemma booting_info : boot_info demo_mbi booting.
Proof.
  assert (Ef : mbi_flags demo_mbi booting = 0x4D) by (vm_compute; reflexivity).
  assert (Ec : cmdline demo_mbi booting = 0x9100) by (vm_compute; reflexivity).
  assert (Em : mods_addr demo_mbi booting = 0x9180) by (vm_compute; reflexivity).
  assert (Ea : mmap_addr demo_mbi booting = 0x9200) by (vm_compute; reflexivity).
  assert (El : mmap_length demo_mbi booting = 24) by (vm_compute; reflexivity).
  assert (Es : ld32 (k_mem booting) 0x9200 = 20) by (vm_compute; reflexivity).
  split.
  - unfold off_screen, demo_mbi, VIDEO, MB128. lia.
  - rewrite Em. unfold off_screen, VIDEO, MB128. lia.
  - rewrite Ef. reflexivity.
  - intros _. rewrite Ec. exists [107].
    split; [|split; [simpl; lia|split; [reflexivity|unfold off_screen, VIDEO, MB128; simpl; lia]]].
    split; [repeat constructor; discriminate|]. split; [|vm_compute; reflexivity].
    intros i Hi. simpl in Hi. replace i with 0 by lia. vm_compute. reflexivity.
  - intros _. rewrite Ea, El. split; [lia|].
    apply chain_step; rewrite ?Es; [lia|unfold off_screen, VIDEO, MB128; lia|lia|]. apply chain_end. lia.
Qed.

Lemma installed_words m d :
  nnod m demo_boot = 1 -> nblck m demo_boot = 1 -> nent m demo_boot = 2 ->
  file_len m demo_boot 0 = 48 -> ld32 m (inode_addr demo_boot 0 + 4 + 4 * 0) = 0 ->
  find_dentry 2 m demo_boot (at_ prog_name 0) 0 = Some d -> d_ft d = 2 -> d_ind d = 0 ->
  file_slice m demo_boot 0 0 4 = check_exe -> installed m demo_boot (at_ prog_name 0) d.
Proof.
  intros E1 E2 E3 E4 E5 Ef Et Ei Ee.
  split; rewrite ?Ei, ?E3, ?E4; try done; [by apply demo_wf_words| |by rewrite E1].
  unfold image_size. rewrite E1, E2. unfold demo_boot, _8MB. lia.
Qed.

Lemma demo_off m :
  nnod m demo_boot = 1 -> nblck m demo_boot = 1 -> off_screen demo_boot (image_size m demo_boot).
Proof. intros E1 E2. unfold off_screen, image_size. rewrite E1, E2. unfold demo_boot, VIDEO, MB128. lia. Qed.


Lemma entry_rejects_magic_witness :
  fst (entry (D := pic_only) 1 0 7 demo_mbi seg0
    (mkTables seg0 seg0 [] 0 0) kst0) =
  mkTables seg0 seg0 [] 0 0.
Proof.
  rewrite (entry_rejects_magic (D := pic_only)); [reflexivity|discriminate].
Defined.

Lemma boot_descriptors_witness :
  seg_base (tss_desc_ptr (init_tables seg0
    (mkTables seg0 seg0 [] 0 0))) = 0x425100.
Proof.
  destruct (boot_descriptors seg0 (mkTables seg0 seg0 [] 0 0)) as (_ & _ & _ & _ & _ & H & _);
    [simpl; lia|simpl; lia|exact H].
Defined.

(** The first shell, about to halt. *)
Definition root : kst := upd_pcb 0 (with_parent (-1)) demo_p.

Lemma root_like : demo_like root.
Proof. apply demo_like_upd; [by intros q [? ?]|exact demo_p_like]. Qed.

Lemma halt_restarts_shell_witness :
  exists s', sys_halt 1 0 7 root = EnterUser 0x08048000 (MB132 - 4) s' /\ upage (k_mem s') = 0x800000.
Proof.
  assert (Eb : k_boot root = demo_boot) by (vm_compute; reflexivity).
  destruct (halt_restarts_shell 0 0 7 root prog_name [] prog_dentry 0) as (s1 & s' & E & _ & _ & _ & U & _).
  - vm_compute; reflexivity.
  - exact (dl_pcbs _ root_like).
  - vm_compute; reflexivity.
  - exact (dl_pages _ root_like).
  - split; [exists 32; split; vm_compute; reflexivity|evaluate|evaluate].
  - simpl. lia.
  - constructor.
  - rewrite Eb. apply installed_words; vm_compute; reflexivity.
  - rewrite Eb. apply demo_off; vm_compute; reflexivity.
  - unfold off_screen, VIDEO, MB128. simpl. lia.
  - exists s'. split; [|exact U]. etrans; [exact E|]. vm_compute. reflexivity.
Defined.

(** The keys of [shell shell], Enter: the program's name and a file's. *)
Definition cat_keys : list Z := [0x1F; 0x23; 0x12; 0x26; 0x26; 0x39; 0x1F; 0x23; 0x12; 0x26; 0x26; 0x1C].

Lemma user_types keys n w e :
  Forall (fun c => 0 <= c < 256 /\ c <> 15) keys ->
  first_line keys (ed_of (k_kbd (user_s n))) = Some (n, w ++ [10], e) ->
  exists t, types_line keys 0 user_buf (user_s n) n w t.
Proof.
  intros Hk Hf. pose proof (user_running n) as R.
  assert (Hp : pending keys (user_s n) = keys) by (unfold pending; vm_compute; reflexivity).
  destruct (spec_puts_total (str "391OS> ") (view (user_s n))) as [t1 H1].
  { repeat (constructor; [done|]). constructor. }
  destruct (typed_screen_total keys (ed_of (k_kbd (user_s n))) t1) as [t H2].
  { eapply Forall_impl; [exact Hk|]. simpl. lia. }
  { by rewrite Hf. }
  exists t. split; rewrite ?Hp.
  - exact R.
  - apply user_ready.
  - apply user_literal. left.
  - apply user_literal. right. left.
  - right. vm_compute. discriminate.
  - exists e. exact Hf.
  - simpl. clear. induction n; simpl; lia.
  - exists t1. by split.
Qed.

Lemma user_keyboard keys : Forall (fun c => 0 <= c < 256 /\ c <> 15) keys -> @KeyboardDevice (keyed keys) keys.
Proof. intros H. apply keyed_keyboard. eapply Forall_impl; [exact H|]. simpl. lia. Qed.

(** Two lines. *)
Definition session_keys : list Z := cat_keys ++ cat_keys.

Lemma cat_session_witness :
  exists s' t, shell_loop (D := keyed session_keys) (execute_running (D := keyed session_keys) (fun _ _ => cat_main (D := keyed session_keys) 49 user_buf)) 3 user_buf (user_s 24) =
      shell_loop (D := keyed session_keys) (execute_running (D := keyed session_keys) (fun _ _ => cat_main (D := keyed session_keys) 49 user_buf)) 1 user_buf s' /\
    scr_eq (view s') t.
Proof.
  assert (Hk : Forall (fun c => 0 <= c < 256 /\ c <> 15) session_keys) by (repeat (constructor; [lia|]); constructor).
  assert (Hc : Forall (fun c => 0 <= c /\ c <> 15) session_keys) by (eapply Forall_impl; [exact Hk|]; simpl; lia).
  assert (Hc2 : Forall (fun c => 0 <= c /\ c <> 15) cat_keys) by (apply (proj1 (proj1 (Forall_app _ cat_keys cat_keys) Hc))).
  destruct (user_words 24) as (Eb & E1 & E2 & E3 & E4 & E5). pose proof (user_running 24) as R.
  assert (Hp : pending session_keys (user_s 24) = session_keys) by (unfold pending; vm_compute; reflexivity).
  set (e0 := mkEd (mkMods false false false false false false) []).
  assert (He : ed_of (k_kbd (user_s 24)) = e0) by (vm_compute; reflexivity).
  assert (Hq : count_kbd (k_irqs (user_s 24)) = 24%nat) by reflexivity.
  assert (Hpr : forall t, is_Some (spec_puts (str "391OS> ") t))
    by (intros t; apply spec_puts_total; repeat (constructor; [discriminate|]); constructor).
  assert (Hfi : forall t, is_Some (spec_puts (rest_of (user_s 24) (d_ind prog_dentry) 0) t))
    by (intros t; apply spec_puts_total; vm_compute; repeat (constructor; [discriminate|]); constructor).
  destruct (Hpr (view (user_s 24))) as [t1 H1].
  destruct (typed_screen_total session_keys e0 t1 Hc) as [t2 H2]; [vm_compute; eexists; reflexivity|].
  destruct (Hfi t2) as [t3 H3]. destruct (Hpr t3) as [t4 H4].
  destruct (typed_screen_total cat_keys e0 t4 Hc2) as [t5 H5]; [vm_compute; eexists; reflexivity|].
  destruct (Hfi t5) as [t6 H6].
  assert (Cl : cat_line (user_s 24) 49 shell_name shell_name prog_dentry).
  { split.
    - split; [discriminate|]. split; [vm_compute; discriminate|]. repeat (constructor; [lia|]). constructor.
    - rewrite Eb, E1. split; [vm_compute; reflexivity|]. split; vm_compute; reflexivity.
    - rewrite Eb. change (d_ind prog_dentry) with 0. rewrite E4. simpl. lia. }
  destruct (cat_session (D := keyed session_keys) session_keys (KD := user_keyboard session_keys Hk) 0 user_buf (user_window 129 ltac:(lia))
    (fun _ _ => cat_main (D := keyed session_keys) 49 user_buf) 1 49 user_buf (user_s 24) shell_name prog_dentry
    [shell_name; shell_name] t6) as (s' & E & V & _).
  - split; [exact R|apply user_ready| |].
    + split; [apply (map_program_pages 0 demo_s 0); [lia|exact demo_pages]|vm_compute; reflexivity].
    + intros l Hl. unfold shell_texts in Hl. rewrite !elem_of_cons, elem_of_nil in Hl. destruct Hl as [-> | [-> |[]]].
      * split; [apply user_literal; left|right; vm_compute; discriminate].
      * split; [apply user_literal; right; left|right; vm_compute; discriminate].
  - lia.
  - split.
    + split; [discriminate|]. split; [evaluate|]. split; [evaluate|]. split; [simpl; lia|]. repeat (constructor; [lia|]). constructor.
    + rewrite Eb. split.
      * apply R.
      * unfold image_size. rewrite E1, E2. unfold demo_boot, _8MB. lia.
      * vm_compute. reflexivity.
      * vm_compute. reflexivity.
      * rewrite E1. vm_compute. reflexivity.
      * change (d_ind prog_dentry) with 0. rewrite E4. evaluate.
      * vm_compute. reflexivity.
    + intros m _. reflexivity.
    + apply user_window. lia.
  - rewrite Hp, He, Hq.
    eapply (session_line _ _ _ _ _ _ _ _ _ 12 0 e0 t1 t2 prog_dentry t3); [exact H1|exact H2|vm_compute; reflexivity|lia|exact Cl|exact H3|].
    change (drop 12 session_keys) with cat_keys. change (24 - 12)%nat with 12%nat.
    eapply (session_line _ _ _ _ _ _ _ _ _ 12 0 e0 t4 t5 prog_dentry t6); [exact H4|exact H5|vm_compute; reflexivity|lia|exact Cl|exact H6|].
    constructor.
  - exists s', t6. split; [exact E|exact V].
Defined.

(** [xy], Enter: no file has that name. *)
Definition xy_keys : list Z := [0x2D; 0x15; 0x1C].

Lemma shell_reports_unknown_witness :
  exists s' t', shell_loop (D := keyed xy_keys) (ece391_execute (D := keyed xy_keys)) 2 user_buf (user_s 3) =
    shell_loop (D := keyed xy_keys) (ece391_execute (D := keyed xy_keys)) 1 user_buf s' /\ scr_eq (view s') t'.
Proof.
  assert (Hk : Forall (fun c => 0 <= c < 256 /\ c <> 15) xy_keys) by (repeat (constructor; [lia|]); constructor).
  destruct (user_types xy_keys 3 [120; 121] (mkEd (mkMods false false false false false false) []) Hk) as [t T];
    [vm_compute; reflexivity|].
  destruct (spec_puts_total (str "no such command" ++ [10]) t) as [t' Ht]; [repeat (constructor; [discriminate|]); constructor|].
  destruct (shell_reports_unknown (D := keyed xy_keys) xy_keys (KD := user_keyboard xy_keys Hk) 0 user_buf
    (user_window 129 ltac:(lia)) 1 (user_s 3) 3 [120; 121] t t') as (s' & E & V & _).
  - exact T.
  - split; [discriminate|]. split; [evaluate|]. split; [evaluate|]. split; [simpl; lia|]. repeat (constructor; [lia|]). constructor.
  - intros j Hj. simpl in Hj.
    assert (B : bytes_at (k_mem (user_s 3)) user_buf 33 = replicate 33 0) by (vm_compute; reflexivity).
    rewrite <- (bytes_at_get _ _ 33), B by lia. unfold zget.
    rewrite (proj2 (Z.ltb_ge _ _)), lookup_replicate_2 by lia. discriminate.
  - vm_compute. reflexivity.
  - apply user_literal. do 2 right. left.
  - right. vm_compute. discriminate.
  - exact Ht.
  - exists s', t'. split; [exact E|exact V].
Defined.

Lemma hello_greets_witness :
  exists s' t, hello_main (D := keyed xy_keys) user_buf (user_s 3) = Ret 0 s' /\ scr_eq (view s') t.
Proof.
  assert (Hk : Forall (fun c => 0 <= c < 256 /\ c <> 15) xy_keys) by (repeat (constructor; [lia|]); constructor).
  assert (Hp : pending xy_keys (user_s 3) = xy_keys) by (vm_compute; reflexivity).
  destruct (spec_puts_total (str "Hi, what's your name? ") (view (user_s 3))) as [t1 H1];
    [repeat (constructor; [discriminate|]); constructor|].
  destruct (typed_screen_total xy_keys (ed_of (k_kbd (user_s 3))) t1) as [t2 H2];
    [repeat (constructor; [lia|]); constructor|vm_compute; eexists; reflexivity|].
  destruct (spec_puts_total (str "Hello, " ++ [120; 121; 10]) t2) as [t Ht];
    [repeat (constructor; [discriminate|]); constructor|].
  destruct (hello_greets (D := keyed xy_keys) xy_keys (KD := user_keyboard xy_keys Hk) 0 (user_s 3) user_buf 3
    [120; 121; 10] (mkEd (mkMods false false false false false false) []) t1 t2 t) as (s' & E & V & _).
  - apply user_running.
  - apply user_ready.
  - apply user_window. lia.
  - apply user_literal. do 5 right. left.
  - apply user_literal. do 6 right. left.
  - right. vm_compute. discriminate.
  - vm_compute. reflexivity.
  - simpl. lia.
  - exact H1.
  - rewrite Hp. exact H2.
  - exact Ht.
  - exists s', t. split; [exact E|exact V].
Defined.

Lemma ls_lists_directory_witness :
  exists s' t, ls_main (D := demo_dev) 4 user_buf (user_s 0) = Ret 0 s' /\ scr_eq (view s') t /\
    spec_puts ([46; 10] ++ shell_name ++ [10]) (view (user_s 0)) = Some t.
Proof.
  destruct (user_words 0) as (Eb & _ & _ & E3 & _ & _).
  destruct (spec_puts_total ([46; 10] ++ shell_name ++ [10]) (view (user_s 0))) as [t Ht];
    [repeat (constructor; [discriminate|]); constructor|].
  destruct (ls_lists_directory (D := demo_dev) 0 (user_s 0) user_buf
    (bytes_at (k_mem (user_s 0)) (dir_addr demo_boot 0) 64) 2 4 t) as (s' & E & V & _).
  - apply user_running.
  - apply user_window. lia.
  - apply user_literal. do 4 right. left.
  - vm_compute. reflexivity.
  - vm_compute. reflexivity.
  - vm_compute. reflexivity.
  - rewrite Eb, E3. lia.
  - rewrite Eb, E3. vm_compute. reflexivity.
  - rewrite Eb, E3. intros i Hi. assert (i = 0 \/ i = 1) as [-> | ->] by lia; vm_compute; discriminate.
  - rewrite Eb, E3. simpl. lia.
  - rewrite Eb, E3. exact Ht.
  - exists s', t. split; [exact E|]. split; [exact V|exact Ht].
Defined.

Lemma cat_reports_witness :
  exists s' t, cat_main (D := demo_dev) 1 user_buf (user_s 0) = Ret 3 s' /\ scr_eq (view s') t.
Proof.
  destruct (spec_puts_total (str "could not read arguments" ++ [10]) (view (user_s 0))) as [t Ht];
    [repeat (constructor; [discriminate|]); constructor|].
  destruct (cat_reports (D := demo_dev) 0 (user_s 0) user_buf (user_running 0) (user_window 1024 ltac:(lia)) 1 t []
    (str "could not read arguments" ++ [10])) as (s' & E & V & _).
  - split; [constructor|]. split; [simpl; lia|]. vm_compute. reflexivity.
  - simpl. lia.
  - intros H. destruct (H eq_refl).
  - reflexivity.
  - apply user_literal. do 3 right. left.
  - right. vm_compute. discriminate.
  - exact Ht.
  - exists s', t. split; [exact E|exact V].
Defined.

(** A program with the cursor on the last row and, in its buffer, the text that stores a
    letter behind the screen. *)
Lemma store_all_changes l a (m : vmem) k n :
  0 <= k -> k + Z.of_nat (length l) <= n -> only_changes m (store_all l (a + k) m) a n.
Proof.
  revert k m. induction l as [|c l IH]; intros k m Hk Hn; simpl in *; [apply only_changes_refl|].
  eapply only_changes_trans; [apply (only_changes_stb _ _ n k c); lia|].
  replace (a + k + 1) with (a + (k + 1)) by lia. apply IH; lia.
Qed.

Definition attack_a : Z := VIDEO + 4096.
Definition attack_text : list Z := tab_attack 24 attack_a ++ [65].
Definition attacker : kst :=
  set_con (mkCon 78 24) (set_mem (store_all attack_text user_buf (k_mem (user_s 0))) (user_s 0)).

Lemma attacker_running : running 0 attacker.
Proof.
  pose proof (store_all_changes attack_text user_buf (k_mem (user_s 0)) 0 34 ltac:(lia) ltac:(evaluate)) as C.
  rewrite Z.add_0_r in C.
  destruct (ustep_mem 0 user_buf 34 (user_s 0) _ (user_running 0) (user_window 34 ltac:(lia)) C) as [U _].
  eapply running_draws; [exact (us_run _ _ _ _ _ U)|apply draws_set_con|split; simpl; lia].
Qed.

