(* ===== verification/SystemWitness.v ===== *)
(** * The running system on the small machine

    The invariant of System.v holds of the machine of Demo.v, from power-on and in a
    process; the theorems about reachable states are applied to a run of it: a program
    starts another one, a key is pressed, and the second program ends. *)

From stdpp Require Import base list numbers gmap.
From Stdlib Require Import ZArith Lia.
From S2P Require Import Prelude Mem LibStr State Pic Console Rtc Keyboard Irq Terminal Paging.
From S2P Require Import Filesystem Syscall Process Idt Boot User System Programs Shell Demo Witness.

(** ** The image *)

(** The directory of the image holds [.] and [shell]. *)
Lemma demo_files m :
  nnod m demo_boot = 1 -> nent m demo_boot = 2 -> file_len m demo_boot 0 = 48 ->
  d_ft (bytes_at m (dir_addr demo_boot 0) 64) <> 2 ->
  d_ind (bytes_at m (dir_addr demo_boot 1) 64) = 0 -> files_ok m demo_boot.
Proof.
  intros En Ee El H0 H1 f d Hd Hft. rewrite Ee in Hd.
  change (Z.to_nat 2) with 2%nat in Hd. cbn [find_dentry] in Hd.
  revert Hd. split_if; [by intros [= <-]|]. split_if; [|done]. intros [= <-].
  change (0 + 1) with 1. rewrite H1, En, El. split; [lia|]. intros _ _. by vm_compute.
Qed.

Lemma demo_mem_ok m :
  nnod m demo_boot = 1 -> nblck m demo_boot = 1 -> nent m demo_boot = 2 ->
  file_len m demo_boot 0 = 48 -> ld32 m (inode_addr demo_boot 0 + 4 + 4 * 0) = 0 ->
  d_ft (bytes_at m (dir_addr demo_boot 0) 64) <> 2 ->
  find_dentry 2 m demo_boot (at_ prog_name 0) 0 = Some (bytes_at m (dir_addr demo_boot 1) 64) ->
  d_ft (bytes_at m (dir_addr demo_boot 1) 64) = 2 -> d_ind (bytes_at m (dir_addr demo_boot 1) 64) = 0 ->
  file_slice m demo_boot 0 0 4 = check_exe ->
  plain_command (set_mem m kst0) sym_shell prog_name (padded 128 []) -> mem_ok m demo_boot.
Proof.
  intros E1 E2 E3 E4 E5 Ed Ef Et Ei Ee Hc.
  split; [by apply demo_wf_words|unfold VIDEO_END, demo_boot; lia| |by apply demo_files|].
  - unfold image_size. rewrite E1, E2. unfold demo_boot, _8MB. lia.
  - split; [unfold VIDEO_END; simpl; lia|]. split; [unfold _8MB; simpl; lia|].
    exists prog_name, (bytes_at m (dir_addr demo_boot 1) 64). split; [done|]. by apply installed_words.
Qed.

Lemma demo_tabless : @TablessKeyboard demo_dev.
Proof.
  intros l. change (u8 (zget 0 demo_keys (Z.of_nat (length (kbd_log l)))) <> 15).
  unfold zget. case_match; [done|]. by destruct (Z.to_nat _) as [|[|[|[|[|[|n]]]]]].
Qed.

Lemma pic_tabless : @TablessKeyboard pic_only.
Proof. by intros l. Qed.

(** ** A process *)

Lemma user_mem_ok n : mem_ok (k_mem (user_s n)) demo_boot.
Proof.
  destruct (user_words n) as (_ & E1 & E2 & E3 & E4 & E5).
  apply demo_mem_ok; [exact E1|exact E2|exact E3|exact E4|exact E5|vm_compute; discriminate|
    vm_compute; reflexivity..|].
  split; [exists 32; split; vm_compute; reflexivity|evaluate|evaluate].
Qed.

Lemma user_kernel_ok n : kernel_ok 0 (user_s n).
Proof.
  assert (Hm : mem_ok (k_mem (user_s n)) (k_boot (user_s n))).
  { destruct (user_words n) as (-> & _). apply user_mem_ok. }
  assert (P0 : forall q, 0 <= q < 6 -> q = 0 \/ q = 1 \/ q = 2 \/ q = 3 \/ q = 4 \/ q = 5) by lia.
  split.
  - lia.
  - vm_compute. reflexivity.
  - change (k_pg (user_s n)) with (k_pg (map_program 0 demo_s)).
    apply (map_program_pages 0 demo_s 0); [lia|exact demo_pages].
  - split; vm_compute; reflexivity.
  - exact Hm.
  - evaluate.
  - split; [evaluate|]. split; [vm_compute; reflexivity|evaluate].
  - split; [evaluate|]. exists 2. split; [by exists 1|vm_compute; reflexivity].
  - split.
    + apply (ru_pcbs _ _ (user_running n)).
    + intros q Hq. destruct (P0 q Hq) as [-> | [-> | [-> | [-> | [-> | ->]]]]]; vm_compute; split; congruence.
    + vm_compute. reflexivity.
    + lia.
    + intros q fd Hq Hf. assert (q = 0) as -> by lia. assert (fd = 0 \/ fd = 1) as [-> | ->] by lia; evaluate.
    + intros q fd Hq Hf H. exfalso. apply H.
      destruct (P0 q Hq) as [-> | [-> | [-> | [-> | [-> | ->]]]]];
        assert (F : fd = 2 \/ fd = 3 \/ fd = 4 \/ fd = 5 \/ fd = 6 \/ fd = 7) by lia;
        destruct F as [-> | [-> | [-> | [-> | [-> | ->]]]]]; vm_compute; reflexivity.
    + intros q Hq. assert (q = 0) as -> by lia. exists []. split; [|simpl; lia].
      split; [constructor|]. split; [simpl; lia|]. vm_compute. reflexivity.
Qed.

(** The command [shell ab] of process 0. *)
Lemma demo_args : args_ok (user_s 1) 2 (u32 0x423000) (u32 0) (u32 0).
Proof. exists 40. split; [lia|]. vm_compute. discriminate. Qed.

(** A run: a call starts a program, something happens, a call of the program ends it. *)
Definition run_of (r : res Z) (mid : kst -> kst) (last : kst -> res Z) : option (Z * list irq * Z * Z) :=
  match r with
  | EnterUser _ _ s1 =>
      match last (mid s1) with
      | Resume _ _ _ s3 => Some (current s1, k_irqs s1, current (mid s1), current s3)
      | _ => None
      end
  | _ => None
  end.

Lemma run_of_some r mid last x : run_of r mid last = Some x ->
  exists eip esp s1 esp' ebp' v s3, r = EnterUser eip esp s1 /\ last (mid s1) = Resume esp' ebp' v s3 /\
    x = (current s1, k_irqs s1, current (mid s1), current s3).
Proof.
  destruct r; try discriminate. simpl. destruct (last (mid s)) eqn:E; try discriminate.
  intros [= <-]. repeat eexists. exact E.
Qed.

(** It starts process 1; a key is pressed; process 1 ends. *)
Local Abbreviation demo_call := (int80 (D := demo_dev) 2 0x423000 0 0 (user_s 1)).
Definition demo_key (s : kst) : kst :=
  deliver (Interrupts := kernel_irqs (D := demo_dev)) IRQ_keyboard (set_irqs [] s).
Local Abbreviation demo_halt := (int80 (D := demo_dev) 1 0 0 0).

Lemma demo_run : run_of demo_call demo_key demo_halt = Some (1, [IRQ_keyboard], 1, 0).
Proof. vm_compute. reflexivity. Qed.

Lemma entered_kernel_ok (r : res Z) s1 eip esp :
  r = EnterUser eip esp s1 -> current s1 = 1 ->
  answered 0 r -> kernel_ok 1 s1.
Proof.
  intros -> C [[_ H]|[_ H]]; [done|]. apply current_ok in H. rewrite C in H. discriminate.
Qed.



(** ** Power-on *)

Lemma booting_boot : ld32 (k_mem booting) (mods_addr demo_mbi booting) = demo_boot.
Proof. vm_compute. reflexivity. Qed.

Lemma booting_loaded : loaded demo_mbi booting prog_name [] prog_dentry.
Proof.
  split; rewrite ?booting_boot.
  - exact booting_info.
  - split; simpl; lia.
  - split; reflexivity.
  - split; [reflexivity|]. vm_compute. repeat constructor.
  - reflexivity.
  - split; [exists 32; split; vm_compute; reflexivity|evaluate|evaluate].
  - split; [simpl; lia|constructor].
  - apply installed_words; vm_compute; reflexivity.
  - apply demo_off; vm_compute; reflexivity.
  - unfold off_screen, VIDEO, MB128. simpl. lia.
Qed.

Lemma booting_linked : linked demo_boot booting.
Proof.
  assert (P : forall q, 0 <= q < 6 -> pcb_at q booting = pcb0).
  { intros q Hq. assert (q = 0 \/ q = 1 \/ q = 2 \/ q = 3 \/ q = 4 \/ q = 5) as H by lia.
    by destruct H as [-> | [-> | [-> | [-> | [-> | ->]]]]]. }
  split.
  - intros q Hq. by rewrite P.
  - intros q fd Hq Hf. unfold fd_at. rewrite P by done.
    assert (fd = 2 \/ fd = 3 \/ fd = 4 \/ fd = 5 \/ fd = 6 \/ fd = 7) as H by lia.
    by destruct H as [-> | [-> | [-> | [-> | [-> | ->]]]]].
  - split; [simpl; lia|]. split; [reflexivity|simpl; lia].
  - split; [simpl; lia|]. exists 2. split; [by exists 1|reflexivity].
  - change (k_mem booting) with demo_mem.
    apply demo_mem_ok; try (vm_compute; reflexivity); [vm_compute; discriminate|].
    split; [exists 32; split; vm_compute; reflexivity|evaluate|evaluate].
Qed.

