(* ===== verification/ProgramWitness.v ===== *)
(** * The self test, the counter, grep, pingpong and fish on the small machine

    The theorems of SelfTest.v, Counter.v, Grep.v, Pingpong.v, Blink.v and Fish.v applied
    to the process of Demo.v and a user at its keyboard. *)

From stdpp Require Import base list numbers gmap strings.
From Stdlib Require Import ZArith Lia.
From S2P Require Import Prelude Mem LibStr State Pic Console Rtc Keyboard Irq Terminal Paging.
From S2P Require Import Filesystem Syscall Process Idt Boot User Programs Shell SelfTest Counter Grep Pingpong Blink Fish Demo Witness.

(** ** The self test *)

(** The user chooses all tests. *)
Definition zero_keys : list Z := [0x0B; 0x1C].

Lemma user_bench n : bench 0 user_buf (user_s n).
Proof.
  split.
  - apply user_running.
  - intros fd Hf. assert (fd = 2 \/ fd = 3 \/ fd = 4 \/ fd = 5 \/ fd = 6 \/ fd = 7) as F by lia.
    destruct F as [-> | [-> | [-> | [-> | [-> | ->]]]]]; vm_compute; reflexivity.
  - eexists. split; vm_compute; reflexivity.
  - intros l Hl. assert (E : forallb (fun l => bool_decide (entry_named (user_s n) l = None))
      [str "helloo"; str "shel"; []] = true) by (vm_compute; reflexivity).
    rewrite forallb_forall in E. apply list_elem_of_In in Hl. specialize (E l Hl). by apply bool_decide_eq_true_1 in E.
  - intros l Hl. assert (Ht : l ∈ demo_texts) by (apply elem_of_app; right; apply elem_of_app; by left).
    split; [by apply user_literal|]. right.
    assert (E : forallb (fun l => lit l + Z.of_nat (length l) + 1 <=? user_buf) syserr_texts = true)
      by (vm_compute; reflexivity).
    rewrite forallb_forall in E. apply list_elem_of_In in Hl. specialize (E l Hl). lia.
  - split; [vm_compute; reflexivity|]. split; [evaluate|]. vm_compute. intros [H _]. by apply H.
Qed.

Lemma syserr_passes_witness :
  exists s' t, syserr_main (D := keyed zero_keys) user_buf 0x8301000 0 0 0 (user_s 2) = Ret 0 s' /\ scr_eq (view s') t.
Proof.
  assert (Hk : Forall (fun c => 0 <= c < 256 /\ c <> 15) zero_keys) by (repeat (constructor; [lia|]); constructor).
  assert (Hp : pending zero_keys (user_s 2) = zero_keys) by (vm_compute; reflexivity).
  destruct (spec_puts_total question (view (user_s 2))) as [t1 H1];
    [repeat (constructor; [discriminate|]); constructor|].
  destruct (typed_screen_total zero_keys (ed_of (k_kbd (user_s 2))) t1) as [t2 H2];
    [repeat (constructor; [lia|]); constructor|vm_compute; eexists; reflexivity|].
  destruct (spec_puts_total all_passed t2) as [t Ht];
    [apply (Forall_impl (fun c => c <> 9)); [|done]; vm_compute; repeat (constructor; [discriminate|]); constructor|].
  destruct (syserr_passes (D := keyed zero_keys) 0 user_buf zero_keys (KD := user_keyboard zero_keys Hk) (user_s 2) 0x8301000
    0 0 0 2 [10] (mkEd (mkMods false false false false false false) []) t1 t2 t) as (s' & E & V & _).
  - apply user_bench.
  - apply user_ready.
  - apply user_window. lia.
  - rewrite Hp. vm_compute. reflexivity.
  - simpl. lia.
  - exact H1.
  - rewrite Hp. exact H2.
  - exact Ht.
  - exists s', t. split; [exact E|exact V].
Defined.

(** ** The counter *)

Lemma count_literal n q : q ∈ count_texts -> literal_at (user_s n) (lit q) q /\ beside user_buf 129 (lit q) q.
Proof.
  intros Hq. split.
  - apply user_literal. apply elem_of_app. right. apply elem_of_app. right. apply elem_of_app. by left.
  - right. assert (E : forallb (fun l => lit l + Z.of_nat (length l) + 1 <=? user_buf) count_texts = true)
      by (vm_compute; reflexivity).
    rewrite forallb_forall in E. apply list_elem_of_In in Hq. specialize (E q Hq). lia.
Qed.

(** Counting to 100. *)
Lemma counter_ends_witness :
  exists s' t, counter_main (D := keyed zero_keys) user_buf (user_s 2) = Ret 0 s' /\ scr_eq (view s') t.
Proof.
  assert (Hk : Forall (fun c => 0 <= c < 256 /\ c <> 15) zero_keys) by (repeat (constructor; [lia|]); constructor).
  assert (Hp : pending zero_keys (user_s 2) = zero_keys) by (vm_compute; reflexivity).
  destruct (spec_puts_total count_question (view (user_s 2))) as [t1 H1];
    [repeat (constructor; [discriminate|]); constructor|].
  destruct (typed_screen_total zero_keys (ed_of (k_kbd (user_s 2))) t1) as [t2 H2];
    [repeat (constructor; [lia|]); constructor|vm_compute; eexists; reflexivity|].
  destruct (spec_puts_total (count_answer [48; 10]) t2) as [t Ht];
    [vm_compute; repeat (constructor; [discriminate|]); constructor|].
  destruct (counter_ends (D := keyed zero_keys) 0 user_buf (user_window 129 ltac:(lia)) zero_keys
    (KD := user_keyboard zero_keys Hk) (user_s 2) 2 [48; 10]
    (mkEd (mkMods false false false false false false) []) t1 t2 t) as (s' & E & V & _).
  - apply user_running.
  - apply user_ready.
  - apply count_literal. left.
  - intros q [-> | ->]; apply count_literal; [right; left|right; right; left].
  - rewrite Hp. vm_compute. reflexivity.
  - simpl. lia.
  - exact H1.
  - rewrite Hp. exact H2.
  - exact Ht.
  - exists s', t. split; [exact E|exact V].
Defined.

(** A process of the demo image is running, by the words [E] of its image. *)
Ltac running_by E :=
  destruct E as (Eb & E1 & E2 & E3 & E4 & E5);
  match goal with |- running _ ?s =>
    assert (image_size (k_mem s) demo_boot = 12288) as Es by (unfold image_size; by rewrite E1, E2);
    split; rewrite ?Eb, ?Es; clear Eb Es end;
  [lia|vm_compute; reflexivity|split; [vm_compute; reflexivity|vm_compute; repeat constructor]|reflexivity|
   vm_compute; reflexivity|vm_compute; reflexivity|evaluate|evaluate|by apply demo_wf_words|
   unfold demo_boot, _8MB; lia|unfold off_screen, demo_boot, MB128, VIDEO; lia|evaluate].

(** ** grep *)

(** The file of the image is a text of five lines, and the argument is a part of a word. *)
Definition demo_text : list Z :=
  str "a line" ++ [10] ++ str "two words" ++ [10] ++ str "the next" ++ [10] ++ str "nothing here" ++ [10] ++
  str "last line".

Definition grep_s : kst :=
  upd_pcb 0 (with_args (padded 128 (str "ne"))) (set_mem (store_all demo_text (demo_boot + 8192) (k_mem (user_s 0))) (user_s 0)).

Lemma grep_words : k_boot grep_s = demo_boot /\ nnod (k_mem grep_s) demo_boot = 1 /\
  nblck (k_mem grep_s) demo_boot = 1 /\ nent (k_mem grep_s) demo_boot = 2 /\
  file_len (k_mem grep_s) demo_boot 0 = 48 /\
  ld32 (k_mem grep_s) (inode_addr demo_boot 0 + 4 + 4 * 0) = 0.
Proof. split_and!; vm_compute; reflexivity. Qed.

Lemma grep_running : running 0 grep_s.
Proof. running_by grep_words. Qed.

Definition grep_search : Z := 0x8300000.
Definition grep_buf : Z := 0x8300400.
Definition grep_data : Z := 0x8300500.

Lemma grep_frame : frame_ok 0x8300000 0x1000 grep_search grep_buf grep_data.
Proof. split; unfold in_window, grep_search, grep_buf, grep_data, MB128, MB132; lia. Qed.

Lemma grep_literal l : l ∈ grep_texts -> literal_at grep_s (lit l) l /\ beside 0x8300000 0x1000 (lit l) l.
Proof.
  intros Hl. assert (E : l = str "." \/ l = str ":" \/ l = [10]).
  { unfold grep_texts in Hl. rewrite !elem_of_cons, elem_of_nil in Hl. tauto. }
  split; [|destruct E as [-> | [-> | ->]]; right; vm_compute; discriminate].
  destruct E as [-> | [-> | ->]]; split_and!;
    [apply bytes_cstr; [repeat (constructor; [discriminate|]); constructor|vm_compute; reflexivity]|
     discriminate|simpl; lia|unfold in_window; evaluate|
     apply bytes_cstr; [repeat (constructor; [discriminate|]); constructor|vm_compute; reflexivity]|
     discriminate|simpl; lia|unfold in_window; evaluate|
     apply bytes_cstr; [repeat (constructor; [discriminate|]); constructor|vm_compute; reflexivity]|
     discriminate|simpl; lia|unfold in_window; evaluate].
Qed.

Lemma grep_entries_fit i : 0 <= i < 2 -> entry_ok grep_s 100 i.
Proof.
  intros Hi. assert (i = 0 \/ i = 1) as [-> | ->] by lia.
  - split; [vm_compute; discriminate|]. intros H. exfalso. apply H. vm_compute. reflexivity.
  - split; [vm_compute; discriminate|]. intros _. eexists. split; [vm_compute; reflexivity|].
    split; [vm_compute; reflexivity|]. split; [vm_compute; reflexivity|]. split; [split|].
    + vm_compute. repeat (constructor; [discriminate|]). constructor.
    + assert (E : forallb (fun l => (length l <=? 1023)%nat) (lines (rest_of grep_s (d_ind
        (bytes_at (k_mem grep_s) (dir_addr demo_boot 1) 64)) 0)) = true) by (vm_compute; reflexivity).
      unfold short. apply Forall_forall. intros l Hl. rewrite forallb_forall in E. apply list_elem_of_In in Hl.
      specialize (E l Hl). by apply Nat.leb_le.
    + vm_compute. lia.
Qed.

(** It shows the two lines with the string in them. *)
Lemma grep_searches_witness :
  exists s' t, grep_main (D := demo_dev) 3 100 grep_search grep_buf grep_data grep_s = Ret 0 s' /\ scr_eq (view s') t /\
    spec_puts (str "shell:a line" ++ [10] ++ str "shell:the next" ++ [10] ++ str "shell:last line" ++ [10]) (view grep_s) = Some t.
Proof.
  destruct grep_words as (Eb & _ & _ & E3 & _ & _).
  destruct (spec_puts_total (str "shell:a line" ++ [10] ++ str "shell:the next" ++ [10] ++ str "shell:last line" ++ [10])
    (view grep_s)) as [t Ht]; [vm_compute; repeat (constructor; [discriminate|]); constructor|].
  destruct (grep_searches (D := demo_dev) 0 0x8300000 0x1000 grep_search grep_buf grep_data grep_frame grep_s (str "ne") 3 100
    (bytes_at (k_mem grep_s) (dir_addr demo_boot 0) 64) t) as (s' & E & V & _).
  - exact grep_running.
  - split; [repeat (constructor; [discriminate|]); constructor|]. split; [|vm_compute; reflexivity].
    intros i Hi. simpl in Hi. assert (i = 0 \/ i = 1) as [-> | ->] by lia; vm_compute; reflexivity.
  - discriminate.
  - simpl. lia.
  - exact grep_literal.
  - vm_compute. reflexivity.
  - vm_compute. reflexivity.
  - vm_compute. reflexivity.
  - vm_compute. reflexivity.
  - vm_compute. discriminate.
  - rewrite Eb, E3. lia.
  - rewrite Eb, E3. vm_compute. reflexivity.
  - rewrite Eb, E3. exact grep_entries_fit.
  - rewrite Eb, E3. lia.
  - rewrite Eb, E3. exact Ht.
  - exists s', t. split; [exact E|]. split; [exact V|exact Ht].
Defined.

(** ** pingpong *)

(** The entry of the file is the clock's, and the clock interrupts [n] times. *)
Definition pong_s (n : nat) : kst :=
  set_irqs (replicate n IRQ_rtc)
    (set_mem (store_all (padded 32 (str "rtc") ++ [0; 0; 0; 0]) (dir_addr demo_boot 1) (k_mem (user_s 0))) (user_s 0)).

Lemma pong_words n : k_boot (pong_s n) = demo_boot /\ nnod (k_mem (pong_s n)) demo_boot = 1 /\
  nblck (k_mem (pong_s n)) demo_boot = 1 /\ nent (k_mem (pong_s n)) demo_boot = 2 /\
  file_len (k_mem (pong_s n)) demo_boot 0 = 48 /\
  ld32 (k_mem (pong_s n)) (inode_addr demo_boot 0 + 4 + 4 * 0) = 0.
Proof. split_and!; vm_compute; reflexivity. Qed.

Lemma pong_running n : running 0 (pong_s n).
Proof. running_by (pong_words n). Qed.

Lemma pong_locals : locals 0x8303D00 0x8303E00 0x8303E04 0x8303D00 0x200.
Proof. split; unfold in_window, MB128, MB132; lia. Qed.

Lemma pong_literal n : literal_at (pong_s n) (lit (str "rtc")) (str "rtc").
Proof.
  split_and!; [apply bytes_cstr; [repeat (constructor; [discriminate|]); constructor|vm_compute; reflexivity]|
    discriminate|simpl; lia|unfold in_window; evaluate].
Qed.

(** A hundred interrupts are three ticks: four frames. *)
Lemma pingpong_waits_witness :
  exists s' t, pingpong_main (D := demo_dev) 1 0x8303D00 0x8303E00 0x8303E04 (pong_s 100) = Blocked s' /\
    spec_puts (frame_text 65 2 ++ frame_text 65 3 ++ frame_text 65 4 ++ frame_text 65 5) (view (pong_s 100)) = Some t /\
    scr_eq (view s') t.
Proof.
  destruct (pingpong_waits (D := demo_dev) 0 0x8303D00 0x8303E00 0x8303E04 0x8303D00 0x200 pong_locals (pong_s 100) 1
    (bytes_at (k_mem (pong_s 100)) (dir_addr demo_boot 1) 64) 2 100) as (s' & t & E & Ht & V).
  - exact (pong_running 100).
  - exact (pong_literal 100).
  - right. vm_compute. discriminate.
  - vm_compute. reflexivity.
  - vm_compute. reflexivity.
  - vm_compute. reflexivity.
  - reflexivity.
  - simpl. lia.
  - exists s', t. split; [exact E|]. split; [exact Ht|exact V].
Defined.

(** ** fish *)

#[local] Instance fish_symbols : FishSymbols :=
  {| mp1_list_head := 0x8310000; blink_array := 0x8320000; vmem_base_addr := 0x8310010 |}.

#[local] Instance fish_locals : FishLocals :=
  {| file0 := 0x8311000; file1 := 0x8311020; ret_val := 0x8318000; garbage := 0x8318010; main_struct := 0x8318020;
     frame_struct := 0x8318040; c0 := 0x8318060; c1 := 0x8318061; main_ebp := 0x8318090; frame_ebp := 0x83180B0 |}.

(** Arithmetic on these addresses. *)
Ltac addresses :=
  cbv [scratch library on_stack disjoint inside in_window MB128 MB132 MB4 mp1_list_head blink_array vmem_base_addr
    file0 file1 ret_val garbage main_struct frame_struct c0 c1 main_ebp frame_ebp fish_symbols fish_locals] in *; lia.

(** The clock and two pictures, of two rows and of one. *)
Definition picture0 : list Z := str "o_" ++ [10] ++ str " x".
Definition picture1 : list Z := str "oO".

Definition fish_image (m : vmem) : vmem :=
  let m := st32 m demo_boot 3 in
  let m := st32 m (demo_boot + 4) 2 in
  let m := st32 m (demo_boot + 8) 2 in
  let m := store_all (padded 32 (str "rtc") ++ [0; 0; 0; 0]) (dir_addr demo_boot 0) m in
  let m := store_all (padded 32 (str "frame0.txt") ++ [2; 0; 0; 0; 0; 0; 0; 0]) (dir_addr demo_boot 1) m in
  let m := store_all (padded 32 (str "frame1.txt") ++ [2; 0; 0; 0; 1; 0; 0; 0]) (dir_addr demo_boot 2) m in
  let m := st32 m (demo_boot + 4096) 5 in
  let m := st32 m (demo_boot + 4100) 0 in
  let m := st32 m (demo_boot + 8192) 2 in
  let m := st32 m (demo_boot + 8196) 1 in
  let m := store_all picture0 (demo_boot + 12288) m in
  let m := store_all picture1 (demo_boot + 16384) m in
  let m := store_all (str "frame0.txt" ++ [0]) file0 m in
  store_all (str "frame1.txt" ++ [0]) file1 m.

Definition fish_s (n : nat) : kst :=
  set_irqs (replicate n IRQ_rtc) (set_mem (fish_image (k_mem (user_s 0))) (user_s 0)).

Lemma fish_words n : k_boot (fish_s n) = demo_boot /\ nnod (k_mem (fish_s n)) demo_boot = 2 /\
  nblck (k_mem (fish_s n)) demo_boot = 2 /\ nent (k_mem (fish_s n)) demo_boot = 3 /\
  file_len (k_mem (fish_s n)) demo_boot 0 = 5 /\ file_len (k_mem (fish_s n)) demo_boot 1 = 2 /\
  ld32 (k_mem (fish_s n)) (inode_addr demo_boot 0 + 4 + 4 * 0) = 0 /\
  ld32 (k_mem (fish_s n)) (inode_addr demo_boot 1 + 4 + 4 * 0) = 1.
Proof. split_and!; vm_compute; reflexivity. Qed.

Lemma fish_wf n : fs_wf (k_mem (fish_s n)) demo_boot.
Proof.
  destruct (fish_words n) as (_ & E1 & E2 & E3 & E4 & E5 & E6 & E7).
  unfold fs_wf, image_size. rewrite E1, E2, E3. unfold demo_boot at 1 2, MB128.
  split; [lia|]. split; [lia|]. split; [lia|]. intros nd Hn. assert (nd = 0 \/ nd = 1) as [-> | ->] by lia.
  - rewrite E4. split; [lia|]. intros p Hp. replace (p / 4096) with 0 by modlia. rewrite E6. lia.
  - rewrite E5. split; [lia|]. intros p Hp. replace (p / 4096) with 0 by modlia. rewrite E7. lia.
Qed.

Lemma fish_running n : running 0 (fish_s n).
Proof.
  destruct (fish_words n) as (Eb & E1 & E2 & _).
  assert (Es : image_size (k_mem (fish_s n)) demo_boot = 20480) by (unfold image_size; by rewrite E1, E2).
  pose proof (fish_wf n) as Hw. split; rewrite ?Eb, ?Es; clear Eb Es;
  [lia|vm_compute; reflexivity|split; [vm_compute; reflexivity|vm_compute; repeat constructor]|reflexivity|
   vm_compute; reflexivity|vm_compute; reflexivity|evaluate|evaluate|done|
   unfold demo_boot, _8MB; lia|unfold off_screen, demo_boot, MB128, VIDEO; lia|evaluate].
Qed.

Lemma fish_places : places 0x8318000 0x200.
Proof.
  assert (O : own MB128 MB4 0x8318000 0x200) by (split; [addresses|split; [intros i Hi; addresses|addresses]]).
  split; try exact O; try addresses. split; addresses.
Qed.

Lemma fish_literal n a l :
  Forall (fun c => c <> 0) l -> bytes_at (k_mem (fish_s n)) a (S (length l)) = l ++ [0] -> l <> [] ->
  Z.of_nat (length l) < 0x20 -> MB128 <= a <= 0x8311020 -> a + 0x20 <= 0x8310000 \/ 0x8310020 <= a ->
  safe_literal 0x8318000 0x200 (fish_s n) a l.
Proof.
  intros Hz B Hne Hl Ha Hb. split.
  - split; [by apply bytes_cstr|]. split; [done|]. split; [lia|]. clear B. addresses.
  - clear B. intros i Hi. addresses.
Qed.

Lemma fish_started n : started_fish 0 0x8318000 0x200 (fish_s n)
  (bytes_at (k_mem (fish_s n)) (dir_addr demo_boot 0) 64) (bytes_at (k_mem (fish_s n)) (dir_addr demo_boot 1) 64)
  (bytes_at (k_mem (fish_s n)) (dir_addr demo_boot 2) 64) picture0 picture1 n.
Proof.
  split.
  - exact (fish_running n).
  - intros j Hj. assert (j = 2 \/ j = 3 \/ j = 4 \/ j = 5 \/ j = 6 \/ j = 7) as F by lia.
    destruct F as [-> | [-> | [-> | [-> | [-> | ->]]]]]; vm_compute; reflexivity.
  - vm_compute. reflexivity.
  - split; vm_compute; reflexivity.
  - apply fish_literal; [repeat (constructor; [discriminate|]); constructor|vm_compute; reflexivity|discriminate|simpl; lia|evaluate|
      left; vm_compute; discriminate].
  - split.
    + split; [vm_compute; reflexivity|]. split; vm_compute; reflexivity.
    + split; [vm_compute; reflexivity|]. split; vm_compute; reflexivity.
    + vm_compute. reflexivity.
    + vm_compute. reflexivity.
    + apply fish_literal; [repeat (constructor; [discriminate|]); constructor|vm_compute; reflexivity|discriminate|simpl; lia|evaluate|
        right; vm_compute; discriminate].
    + apply fish_literal; [repeat (constructor; [discriminate|]); constructor|vm_compute; reflexivity|discriminate|simpl; lia|evaluate|
        right; vm_compute; discriminate].
  - vm_compute. repeat constructor.
  - reflexivity.
Qed.

(** The first thing drawn is the first picture; four hundred ticks later the rest has been. *)
Lemma fish_shows_witness :
  exists s', fish_main (D := demo_dev) 10 (fish_s (4 * 3200)) = Ret 0 s' /\
    scr_eq (view s') (scr_draw (animation picture0 picture1) (view (fish_s (4 * 3200)))) /\
    take 3 (animation picture0 picture1) = [(40, 111); (41, 95); (121, 120)].
Proof.
  destruct (fish_shows (D := demo_dev) 0 0x8318000 0x200 fish_places 10 (fish_s (4 * 3200)) _ _ _ _ _ _
    (fish_started (4 * 3200)) ltac:(simpl; lia) ltac:(simpl; lia) (le_n _)) as (s' & E & V & _).
  exists s'. split; [exact E|]. split; [exact V|]. vm_compute. reflexivity.
Defined.

(** The array cleared, the screen found and the letter of [main] filled in. *)
Definition fish_m : vmem :=
  fill_main (st32 (ece391_memset blink_array 0 32000 (k_mem (fish_s 0))) vmem_base_addr user_screen).

Lemma fish_filled : listed MB128 MB4 user_screen fish_m [] /\ fresh (blink_at fish_m main_struct) = fresh letter.
Proof.
  assert (H0 : ld32 (k_mem (fish_s 0)) mp1_list_head = 0) by (vm_compute; reflexivity).
  destruct (first_steps (D := demo_dev) 0 0x8318000 0x200 fish_places (fish_s 0) (fish_running 0) H0) as (s1 & s2 & -> & E2 & _ & B & F & _).
  destruct (fill_main_ok 0 0x8318000 0x200 fish_places s2 (us_run _ _ _ _ _ (fp_step _ _ _ _ _ F))) as (_ & L & Bm).
  specialize (Bm _ B). subst s2. exact (conj Bm L).
Qed.

(** Its request to add the letter. *)
Lemma ioctl_refines_witness :
  exists m', mp1_ioctl main_ebp main_struct RTC_ADD fish_m = Some (0, m') /\
    listed MB128 MB4 user_screen m' [fresh letter] /\ ldb m' (user_screen + 2 * 540) = 73.
Proof.
  assert (O : forall a, 0x8318000 <= a -> a + 16 <= 0x8318200 -> own MB128 MB4 a 16)
    by (intros a H1 H2; apply (stack_own _ _ fish_places); [split; lia|lia]).
  generalize fish_filled. generalize fish_m. intros m [B L].
  pose proof (ioctl_refines MB128 MB4 user_screen (pc_layout _ _ fish_places) m main_ebp main_struct
    (blink_at m main_struct) [] RTC_ADD B) as H.
  change (ioctl_spec RTC_ADD main_struct (blink_at m main_struct) []) with (add_spec (blink_at m main_struct) []) in H.
  rewrite (add_spec_fresh _ letter [] L) in H. destruct H as (m' & E & B' & M & _).
  - unfold RTC_ADD, RTC_SYNC. lia.
  - apply O; addresses.
  - intros _. split; [apply O; addresses|]. split; [left; addresses|apply blink_at_holds].
  - intros _. apply (f_equal location) in L. cbn [fresh location letter] in L. rewrite L. lia.
  - exists m'. split; [exact E|]. split; [exact B'|]. rewrite (mv_screen _ _ _ _ _ _ _ M) by lia. reflexivity.
Defined.
